(* ===== verification/_CoqProject ===== *)
-Q . S2P
Prelude.v
GoStd.v
Effect.v
GoNet.v
IpText.v
Config.v
Validate.v
Load.v
State.v
BuildState.v
StateOps.v
VppApi.v
Netlink.v
Purego.v
Host.v
Dhcp.v
LeaseDaemon.v
LeaseInv.v
LeaseRenewal.v
DhcpApplied.v
Setup.v
Plain.v
World.v
Removals.v
Orphans.v
Safety.v
Responder.v
Vpp.v
Examples.v
VppSetup.v
VppSafe.v
VppProps.v
VppConn.v
VppIfs.v
Apply.v
Addresses.v
Removed.v
NdpManager.v
NdpInv.v
Rollback.v
GetSet.v
Commands.v
CommandsProps.v
Takeover.v
TakeoverInv.v
Reconcile.v
Console.v
ConsoleProps.v
