(* ===== verification/Prelude.v ===== *)
(** * netcfg: a verification development

    netcfg configures the network of a Linux host from netplan's YAML files,
    without systemd-networkd: it reads and merges the files, compares what they
    ask for with the state of its last run, removes what is gone, and sets up
    devices, addresses, routes, tunnels, SRv6 and neighbour proxies through
    netlink, in the host's namespace and in named ones; devices can be given to
    VPP instead of the kernel.  Two daemons keep DHCP leases and answer neighbour
    solicitations.  This library translates the Go code and proves properties of
    the translation.

    ** The parts

    What the code is written in:
    - Prelude: notations, tactics, generic lemmas; GoStd: errors, strings, maps
      and loops over maps, sorting; GoNet and IpText: package net, and lemmas on
      the texts of addresses; Effect: programs that perform calls.

    Configuration and state, which are pure functions:
    - Config: the data of config/config.go; Load: Normalize, mergeConfig and
      LoadConfig; Validate: ValidateSRv6, ValidateNDProxy and ValidateVPP
      (config/srv6.go, ndp.go, vpp.go), with a specification of each.
    - State: state/state.go, with ComputeDiff; BuildState: buildStateFromConfig
      and the text of routes (cmd/apply.go); StateOps: the operations together.

    What acts on the system, which are programs over the calls [sys] of Netlink:
    - Netlink: netlink/netlink.go, srv6.go, ndproxy.go, ethtool.go, wireguard.go;
      Host: sysctls, DNS, SR-IOV, offloads, wpa_supplicant (netlink/dhcp.go,
      cmd/sriov.go, offload.go, dot1x.go, wifi.go).
    - Setup: the setup functions of cmd/apply.go and their order in
      applyNamespaceConfig; Removals: applyRemovals and the reapers of SIDs and of
      neighbour proxies; Apply: the whole of Apply.
    - VppApi, Vpp, VppSetup: the messages of VPP, the applier of vpp/, setupVPP
      (cmd/vpp.go).
    - Purego, Dhcp: the DHCP clients (netlink/purego) and the leases that they and
      external clients obtain (netlink/dhcp.go); LeaseDaemon: the DHCP daemon
      (netlink/dhcp_daemon.go).
    - Responder: ndpproxy/responder.go; NdpManager: its manager and the daemon's
      reload (cmd/ndp.go, ndptap_daemon.go, daemon.go).
    - Rollback: `netcfg try`; GetSet: `netcfg get` and `set`; Takeover: `netcfg
      takeover`; Commands: destroy, netns create and delete, rebind, status
      --wait; Console: diff, generate, status, show, netns list and exec, and wg,
      which are programs over [tty], that is [sys] and a terminal.
    - Examples: one instance of the functions of the libraries.

    Apply calls State, BuildState, Removals, VppSetup and Setup, these call
    Netlink, Host and Vpp; the daemons call Dhcp and Responder.  A component that
    acts on the system promises the others what its [wp] lemmas say; a client's
    theorems use these, and not the definitions.

    ** How the code is translated

    A struct is a Record, a pointer [option] ([ptr] for a struct), a map [gomap],
    with nil; an [int] is a [Z], with the wrap-around written out where a value
    is computed that can be large, a time or a duration its nanoseconds.  A
    function that can panic returns [option] ([pan]) if it is pure, and
    is the program [Crash] there if it is not; one that returns an error returns
    [err] or [res].  Calls of third-party libraries and of the system are
    constructors of [sys], or fields of the classes [Libs], [VppLibs], [NdpLib],
    [LeaseJson], [Yaml] and [ConsoleLibs] where they only compute; theorems hold for every
    answer, or say in a [spec] or a class of laws what they suppose of it.

    Go visits a map in any order: a loop over a map takes the order from
    [RangeOrder], which is indexed by the line of the loop, and sort.Slice, which
    is not stable, is [SliceSort].  Theorems are for every order.  A method that
    runs under a lock is one step.  A goroutine is the call [Go] with what it is
    to do; what it does is a definition of its own.  Logging is left out.

    Loops over lists and maps are recursions over them; the loops of try and of
    the daemons, which wait for answers, packets and ticks, run over a list of
    what arrives.  Fuel is used in five places: [parse_v6_groups] of GoNet, whose
    bound of eight groups is the one of Go; [list_vfs], [wait_loop] and
    [unit_loop] of Commands, whose theorems say how much of it is enough: more
    than the virtual functions that there are, more than the seconds of the
    timeout, and six; and [hex_digits] of Console, with more than the sixteen
    digits of a 64-bit integer.

    ** What is proved

    - Deciding: state_operations_typed and ComputeDiff_correct for the state,
      removed_devices_correct from two configurations to the removals,
      buildNsState_correct and the round trip of routes.
    - Acting: Apply_safe bounds a whole run of apply: from the kernel it deletes
      only what the two states call for, before it configures anything; then it
      makes only the calls of a closed list (setup_perm of Safety: in which
      namespaces, to which files, and to VPP only when the configuration uses it;
      what is withdrawn from VPP is withdrawn then); and it leaves handles,
      lock and namespace of the thread as they were, and of the descriptors only
      those that NetnsExists never closes.  It is made of
      applyRemovals_safe, applyNamespaceConfig_safe and the theorems about
      RunInNetns and CreateNetns, over the [World] of World, with Plain, Orphans,
      Safety, VppSafe and Reconcile.  addresses_refine says what the calls come
      to: over a kernel that keeps sets of addresses, removal and set-up refine
      the replacement of the old prefixes by the new ones, and
      applyRemovals_complete of Removed that what is to be removed is gone.
    - VPP: setupVPP_connections, setupVPP_interfaces (over a table of tagged
      interfaces: what is created gets a tag unless VPP refuses it, and a device
      whose interface has its tag is not created again), splitVPPDevices_parts,
      reapVPPOrphans_correct (over a table of interfaces of some kinds, and bridge
      domains: what goes and what stays), derived_names_fit.
    - Reading: LoadConfig_last_wins, Normalize_correct and Normalize_idempotent,
      LoadConfig_outcome, and ValidateVPP_correct, ValidateSRv6_correct and
      ValidateNDProxy_correct, by which a validator accepts exactly what its
      specification allows; set_then_get.
    - Daemons: daemon_invariant, renewals_live, checkRenewals_changes and
      restart_roundtrip for the leases, manager_sockets (responders on distinct
      interfaces, whose sockets are closed some time after they are cancelled) and
      handle_correct for the responder, lease_times and resolv_roundtrip; lease_reaches_interface of
      DhcpApplied goes through the client, the lease and the daemon, from the
      answer of a server to what the interface then has.
    - Commands: diff_announces, by which diff prints the namespaces, devices,
      addresses and routes that apply is going to remove, rollback_reversed, which shows that `netcfg try` goes back the
      wrong way, takeover_keeps and takeover_roundtrip, waitOnline_ends,
      rebindVFs_order.

    ** What is not modelled

    The declarations of cobra, and the messages of the commands that act (apply,
    destroy, netns create and delete, rebind, status --wait).
    netlink/purego/dhcp_relay.go, which no build includes and which is unfinished.
    The ends of the daemons' goroutines when their contexts are cancelled, but for
    the sockets of the responders; interleavings of goroutines other than of whole
    methods.  The fields that nothing reads.  YAML and JSON themselves: their
    codecs are parameters with the laws that are used.  The kernel of
    addresses_refine and of applyRemovals_complete is an ideal one: it makes no
    link-local address, takes no secondary address away with its first one and
    refuses no label; strings.Fields and TrimSpace split at the spaces of ASCII. *)

From Stdlib Require Export ZArith Lia Ascii.
From stdpp Require Export base list option gmap strings sorting.

#[export] Set Default Goal Selector "!".
#[global] Open Scope Z_scope.

(** ** Notation scope of the development *)

Declare Scope netcfg_scope.
Delimit Scope netcfg_scope with netcfg.
#[global] Open Scope netcfg_scope.

(** ** Hint databases *)

Create HintDb netcfg discriminated.
Create HintDb gomap discriminated.
Create Rewrite HintDb gomap.
Create Rewrite HintDb str.

(** ** Tactics *)

(** Case analysis on the scrutinee of a [match] in the goal. *)
Ltac split_match :=
  match goal with
  | |- context [match ?x with _ => _ end] => destruct x eqn:?
  end.

(** Case analysis on the scrutinee of a [match] in a hypothesis. *)
Ltac split_match_in H :=
  match type of H with
  | context [match ?x with _ => _ end] => destruct x eqn:?
  end.

Ltac split_matches := repeat (split_match; simplify_eq/=; try done).

(** ** Generic lemmas on lists *)

Section lists.
Context {A : Type}.
Implicit Types (l : list A).

(** [fold_left] of a function that keeps an invariant. *)
Lemma fold_left_inv {B} (f : B -> A -> B) (P : B -> Prop) l b :
  P b -> (forall b x, x ∈ l -> P b -> P (f b x)) -> P (fold_left f l b).
Proof.
  revert b. induction l as [|x l IH]; intros b Hb Hf; [done|]. simpl.
  apply IH; [apply Hf; [left|done]|]. intros b' y Hy. apply Hf. by right.
Qed.

(** Two duplicate-free lists with the same elements are permutations. *)
Lemma NoDup_same_elements l1 l2 :
  NoDup l1 -> NoDup l2 -> (forall x, x ∈ l1 <-> x ∈ l2) -> l1 ≡ₚ l2.
Proof. intros. by apply NoDup_Permutation. Qed.
End lists.

(** Keys of an association list. *)
Lemma elem_of_concat_fmap {A B} (f : A -> list B) l y : y ∈ concat (f <$> l) <-> exists x, x ∈ l /\ y ∈ f x.
Proof.
  rewrite list_elem_of_In, in_concat. setoid_rewrite <-list_elem_of_In. setoid_rewrite list_elem_of_fmap. naive_solver.
Qed.

Lemma elem_of_fst_map {K V} (l : list (K * V)) (k : K) :
  k ∈ l.*1 <-> exists v, (k, v) ∈ l.
Proof.
  rewrite list_elem_of_fmap. split.
  - intros ([k' v] & -> & Hv). by exists v.
  - intros [v Hv]. by exists (k, v).
Qed.

(** ** Strings *)

Lemma str_app_nil (s : string) : "" +:+ s = s.
Proof. done. Qed.

Lemma str_app_cons a (s t : string) : String a s +:+ t = String a (s +:+ t).
Proof. done. Qed.

Lemma str_app_nil_r (s : string) : s +:+ "" = s.
Proof. induction s as [|a s IH]; [done|]. by rewrite str_app_cons, IH. Qed.

Lemma str_app_assoc (s t u : string) : (s +:+ t) +:+ u = s +:+ (t +:+ u).
Proof. induction s as [|a s IH]; [done|]. by rewrite !str_app_cons, IH. Qed.

#[export] Hint Rewrite str_app_nil str_app_cons str_app_nil_r str_app_assoc : str.

(** ** Reflection of the equality of strings *)

Lemma str_eqb_spec (s t : string) : reflect (s = t) (s =? t)%string.
Proof. apply String.eqb_spec. Qed.

(** ** Quantification over the value of an option *)

Lemma forall_Some {A} (x : A) (P : A -> Prop) : (forall y, Some x = Some y -> P y) <-> P x.
Proof. naive_solver. Qed.

Lemma forall_None {A} (P : A -> Prop) : (forall y, None = Some y -> P y) <-> True.
Proof. done. Qed.

(** In a list whose keys are distinct an element is determined by its key. *)
Lemma NoDup_key_inj {A B} (f : A -> B) (l : list A) x y :
  NoDup (f <$> l) -> x ∈ l -> y ∈ l -> f x = f y -> x = y.
Proof.
  intros Hn [i Hi]%list_elem_of_lookup [j Hj]%list_elem_of_lookup Hf.
  assert (i = j) as ->; [|congruence]. eapply NoDup_lookup; [exact Hn|..].
  - by rewrite list_lookup_fmap, Hi.
  - by rewrite list_lookup_fmap, Hj, Hf.
Qed.

(** The list without elements. *)
Lemma list_eq_nil_elem {A} (l : list A) : l = [] <-> forall a, a ∉ l.
Proof. split; [intros -> a; apply not_elem_of_nil|apply elem_of_nil_inv]. Qed.
