(* ===== verification/GoStd.v ===== *)
(** * The parts of Go and of its standard library that netcfg uses

    Strings are Go's byte strings.  [to_lower] and [equal_fold] are
    [strings.ToLower] and [strings.EqualFold] on ASCII letters; the runes
    outside ASCII that these functions map to an ASCII letter (U+212A KELVIN
    SIGN, U+0130 and U+017F) are folded as Go folds them, every other byte is
    left alone, so a comparison with an ASCII constant gives Go's answer.
    Maps are [gomap]: [None] is a nil map, whose reads behave as an empty map
    and whose writes panic.  The order in which [range] visits a map is
    unspecified in Go: it is the parameter [RangeOrder], indexed by the source
    line of the loop, of which only the law [range_perm] is known. *)

From Stdlib Require Import DecimalString DecimalZ DecimalPos DecimalN DecimalFacts.
From S2P Require Import Prelude.

(** ** Panics, errors, pointers *)

(** A computation that may raise a run-time panic: [None] is the panic. *)
Abbreviation pan A := (option A).

(** A pointer to a value that nobody aliases: [None] is nil. *)
Abbreviation ptr A := (option A).

(** Go's [error] values.  The arguments of a [fmt.Errorf] are kept unrendered;
    [EWrap] is a format with a [%w] (or an error printed by [%v]), [ESys] is
    an error that comes from a library or from the kernel. *)
Inductive error :=
| EMsg (format : string) (args : list string)
| EWrap (format : string) (args : list string) (cause : error)
| EJoin (errs : list error)
| ESys (what : string) (code : Z).

(** The result of a Go function whose last result is an [error]: [None] is nil. *)
Abbreviation err := (option error).

(** The result of a Go function that returns a value and an error. *)
Inductive res (A : Type) :=
| Ok (a : A)
| Err (e : error).
Arguments Ok {A} a.
Arguments Err {A} e.

Definition res_err {A} (r : res A) : option error :=
  match r with Ok _ => None | Err e => Some e end.

Definition is_ok {A} (r : res A) : bool :=
  match r with Ok _ => true | Err _ => false end.

(** ** Record update

    [r <| f := v |>] is the record [r] with field [f] replaced by [v]; the
    instances of [Update] are built by case analysis on the record. *)
Class Update {R A : Type} (f : R -> A) := update : (A -> A) -> R -> R.
Arguments update {R A} f {_} _ _.

#[export] Hint Extern 1 (Update ?f) =>
  let g := fresh "g" in let r := fresh "r" in let r0 := fresh "r0" in
  intros g r; pose (r0 := r); destruct r;
  let t := eval unfold r0 in r0 in
  let x := eval cbv in (f t) in
  let h := eval pattern x in t in
  match h with ?h' _ => exact (h' (g x)) end : typeclass_instances.

Notation "r <| f := v |>" := (update f (fun _ => v) r)
  (at level 1, f at level 99, v at level 200, left associativity,
   format "r  <| f  :=  v |>") : netcfg_scope.

(** ** Strings *)

Module Str.
Definition lower_ascii (a : ascii) : ascii :=
  let n := N_of_ascii a in
  if ((65 <=? n) && (n <=? 90))%N then ascii_of_N (n + 32) else a.

Definition upper_ascii (a : ascii) : ascii :=
  let n := N_of_ascii a in
  if ((97 <=? n) && (n <=? 122))%N then ascii_of_N (n - 32) else a.

Definition byte (n : N) : ascii := ascii_of_N n.

(** [strings.ToLower]: U+212A (E2 84 AA) is k, U+0130 (C4 B0) is i. *)
Fixpoint to_lower (s : string) : string :=
  match s with
  | EmptyString => EmptyString
  | String a s1 =>
      let plain := String (lower_ascii a) (to_lower s1) in
      match s1 with
      | String b s2 =>
          if (a =? byte 196)%char && (b =? byte 176)%char then String "i" (to_lower s2)
          else match s2 with
               | String c s3 =>
                   if (a =? byte 226)%char && (b =? byte 132)%char && (c =? byte 170)%char
                   then String "k" (to_lower s3) else plain
               | EmptyString => plain
               end
      | EmptyString => plain
      end
  end.

(** [strings.ToUpper]: U+017F (C5 BF) is S, U+0131 (C4 B1) is I. *)
Fixpoint to_upper (s : string) : string :=
  match s with
  | EmptyString => EmptyString
  | String a s1 =>
      match s1 with
      | String b s2 =>
          if (a =? byte 197)%char && (b =? byte 191)%char
          then String "S" (to_upper s2)
          else if (a =? byte 196)%char && (b =? byte 177)%char
               then String "I" (to_upper s2)
               else String (upper_ascii a) (to_upper s1)
      | EmptyString => String (upper_ascii a) EmptyString
      end
  end.

(** A text in which every byte that is not part of a UTF-8 sequence is replaced by
    U+FFFD (EF BF BD), as encoding/json writes strings; the tests are those of
    unicode/utf8 on the second byte and the later ones. *)
Definition code (a : ascii) : N := N_of_ascii a.
Definition between (lo hi : N) (a : ascii) : bool := (lo <=? code a)%N && (code a <=? hi)%N.
Definition is_tail (a : ascii) : bool := between 128 191 a.

Definition utf8_2 (a b : ascii) : bool := between 194 223 a && is_tail b.
Definition utf8_3 (a b c : ascii) : bool :=
  ((code a =? 224)%N && between 160 191 b || between 225 236 a && is_tail b ||
   (code a =? 237)%N && between 128 159 b || between 238 239 a && is_tail b) && is_tail c.
Definition utf8_4 (a b c d : ascii) : bool :=
  ((code a =? 240)%N && between 144 191 b || between 241 243 a && is_tail b ||
   (code a =? 244)%N && between 128 143 b) && is_tail c && is_tail d.

Fixpoint to_utf8 (s : string) : string :=
  match s with
  | "" => ""
  | String a s1 =>
      if (code a <? 128)%N then String a (to_utf8 s1)
      else
        match s1 with
        | String b s2 =>
            if utf8_2 a b then String a (String b (to_utf8 s2))
            else
              match s2 with
              | String c s3 =>
                  if utf8_3 a b c then String a (String b (String c (to_utf8 s3)))
                  else
                    match s3 with
                    | String d s4 =>
                        if utf8_4 a b c d then String a (String b (String c (String d (to_utf8 s4))))
                        else String (byte 239) (String (byte 191) (String (byte 189) (to_utf8 s1)))
                    | "" => String (byte 239) (String (byte 191) (String (byte 189) (to_utf8 s1)))
                    end
              | "" => String (byte 239) (String (byte 191) (String (byte 189) (to_utf8 s1)))
              end
        | "" => String (byte 239) (String (byte 191) (String (byte 189) ""))
        end
  end.

(** The canonical form of simple case folding: U+212A folds with k and
    U+017F (C5 BF) with s. *)
Fixpoint fold (s : string) : string :=
  match s with
  | EmptyString => EmptyString
  | String a s1 =>
      let plain := String (lower_ascii a) (fold s1) in
      match s1 with
      | String b s2 =>
          if (a =? byte 197)%char && (b =? byte 191)%char then String "s" (fold s2)
          else match s2 with
               | String c s3 =>
                   if (a =? byte 226)%char && (b =? byte 132)%char && (c =? byte 170)%char
                   then String "k" (fold s3) else plain
               | EmptyString => plain
               end
      | EmptyString => plain
      end
  end.

(** [strings.EqualFold]. *)
Definition equal_fold (s t : string) : bool := (fold s =? fold t)%string.

(** [s == t] on strings. *)
Definition eqb (s t : string) : bool := (s =? t)%string.

(** [s == ""]. *)
Definition is_empty (s : string) : bool :=
  match s with EmptyString => true | _ => false end.

(** [strings.HasPrefix]. *)
Definition has_prefix (s p : string) : bool := String.prefix p s.

(** [strings.Contains] of a byte. *)
Fixpoint contains_byte (s : string) (c : ascii) : bool :=
  match s with
  | EmptyString => false
  | String a s' => (a =? c)%char || contains_byte s' c
  end.

(** [strings.Contains]. *)
Fixpoint contains (s p : string) : bool :=
  String.prefix p s ||
  match s with EmptyString => false | String _ s' => contains s' p end.

(** [s[:i]] for [i = strings.IndexByte(s, c)] when there is such an [i];
    [s] itself otherwise, as both callers do.  It is also
    [strings.SplitN(s, c, 2)[0]]. *)
Fixpoint before_byte (s : string) (c : ascii) : string :=
  match s with
  | EmptyString => EmptyString
  | String a s' => if (a =? c)%char then EmptyString else String a (before_byte s' c)
  end.

(** [strings.Split(s, sep)] for a one-byte separator. *)
Fixpoint split_byte (s : string) (c : ascii) : list string :=
  match s with
  | EmptyString => [EmptyString]
  | String a s' =>
      if (a =? c)%char then EmptyString :: split_byte s' c
      else match split_byte s' c with
           | [] => [String a EmptyString]
           | w :: ws => String a w :: ws
           end
  end.

(** [strings.Fields]: the maximal runs of non-space bytes, for ASCII spaces. *)
Definition fields (s : string) : list string := String.words s.

(** [strings.Join]. *)
Fixpoint join (l : list string) (sep : string) : string :=
  match l with
  | [] => ""
  | [w] => w
  | w :: ws => w +:+ sep +:+ join ws sep
  end.

(** [strconv.Itoa], and [%d] in a format. *)
Definition itoa (z : Z) : string := NilZero.string_of_int (Z.to_int z).

Definition is_digit (a : ascii) : bool :=
  ((48 <=? N_of_ascii a) && (N_of_ascii a <=? 57))%N.

(** The longest prefix of decimal digits. *)
Fixpoint digit_prefix (s : string) : string :=
  match s with
  | EmptyString => EmptyString
  | String a s' =>
      if is_digit a then String a (digit_prefix s')
      else EmptyString
  end.

Definition int64_ok (z : Z) : bool := (-(2^63) <=? z) && (z <? 2^63).

(** [fmt.Sscanf(s, "%d", &x)]: the new value of [x], which keeps its old
    value when nothing can be scanned or the number overflows. *)
Definition sscanf_d (s : string) (old : Z) : Z :=
  let '(neg, body) :=
    match s with
    | String a r =>
        if (a =? "-")%char then (true, r)
        else if (a =? "+")%char then (false, r) else (false, s)
    | EmptyString => (false, s)
    end in
  let ds := digit_prefix body in
  if is_empty ds then old
  else match NilZero.uint_of_string ds with
       | Some u =>
           let v := if neg : bool then - Z.of_uint u else Z.of_uint u in
           if int64_ok v then v else old
       | None => old
       end.

(** [strconv.Atoi]; [None] is an error. *)
Definition atoi (s : string) : option Z :=
  let '(neg, ds) :=
    match s with
    | String a r =>
        if (a =? "-")%char then (true, r)
        else if (a =? "+")%char then (false, r) else (false, s)
    | EmptyString => (false, s)
    end in
  if is_empty ds || negb (eqb (digit_prefix ds) ds) then None
  else u ← NilZero.uint_of_string ds;
       let v := if neg : bool then - Z.of_uint u else Z.of_uint u in
       if int64_ok v then Some v else None.

(** [strings.TrimSpace], for ASCII spaces. *)
Fixpoint trim_left (s : string) : string :=
  match s with
  | String a r => if Ascii.is_space a then trim_left r else s
  | EmptyString => EmptyString
  end.
Definition trim_space (s : string) : string := String.rev (trim_left (String.rev (trim_left s))).

(** [sort.Strings]. *)
Definition sort (l : list string) : list string := merge_sort String.le l.
End Str.

(** ** Maps *)

Abbreviation gomap A := (option (gmap string A)).

Section gomap.
Context {A : Type}.

(** The contents of a map; a nil map reads as empty. *)
Definition gm_map (m : option (gmap string A)) : gmap string A := default ∅ m.
(** [m[k]], with the [ok] of the two-value form. *)
Definition gm_get (m : option (gmap string A)) (k : string) : option A := gm_map m !! k.
(** The entries of a map, in one order. *)
Definition gm_list (m : option (gmap string A)) : list (string * A) := map_to_list (gm_map m).
(** [len(m)]. *)
Definition gm_len (m : option (gmap string A)) : nat := size (gm_map m).
(** [len(m) > 0]. *)
Definition gm_nonempty (m : option (gmap string A)) : bool :=
  negb (Nat.eqb (gm_len m) 0).
(** [m[k] = v]; writing to a nil map panics. *)
Definition gm_put (m : option (gmap string A)) (k : string) (v : A)
    : option (option (gmap string A)) :=
  match m with Some m => Some (Some (<[k:=v]> m)) | None => None end.
(** [delete(m, k)], which does nothing on a nil map. *)
Definition gm_del (m : option (gmap string A)) (k : string) : option (gmap string A) :=
  match m with Some m => Some (delete k m) | None => None end.
(** [make(map[string]T)]. *)
Definition gm_make : option (gmap string A) := Some ∅.
End gomap.

(** [if m == nil { m = make(...) }; m[k] = v]. *)
Definition put_make {A} (m : gomap A) (k : string) (v : A) : gomap A := Some (<[k := v]> (gm_map m)).

Lemma gm_get_put_make {A} (m : gomap A) k v k' :
  gm_get (put_make m k v) k' = if decide (k = k') then Some v else gm_get m k'.
Proof. unfold gm_get, put_make. simpl. apply lookup_insert. Qed.

Lemma gm_get_del {A} (m : gomap A) k k' :
  gm_get (gm_del m k) k' = if decide (k = k') then None else gm_get m k'.
Proof.
  unfold gm_get, gm_del. destruct m as [m|]; simpl; [apply lookup_delete|].
  rewrite lookup_empty. by case_decide.
Qed.

Lemma gm_get_singleton {A} k (v : A) k' :
  gm_get (Some {[k := v]}) k' = if decide (k = k') then Some v else None.
Proof.
  unfold gm_get. simpl. case_decide; [subst; apply lookup_singleton_eq|by apply lookup_singleton_ne].
Qed.

(** The order in which a [range] loop visits a map.  [site] is the source line
    of the loop. *)
Class RangeOrder := {
  range {A : Type} (site : Z) (m : gmap string A) : list (string * A);
  range_perm {A : Type} site (m : gmap string A) : range site m ≡ₚ map_to_list m;
}.

(** One possible order, used to run the definitions on examples. *)
#[export] Instance range_map_to_list : RangeOrder | 100.
Proof. exists (fun A _ m => map_to_list m). done. Defined.

Definition gm_range `{RangeOrder} {A} (site : Z) (m : option (gmap string A)) :=
  range site (gm_map m).

Section range.
Context `{RangeOrder} {A : Type}.
Implicit Types (m : gmap string A).

Lemma elem_of_range site m k v : (k, v) ∈ range site m <-> m !! k = Some v.
Proof. rewrite range_perm. apply elem_of_map_to_list. Qed.

Lemma NoDup_fst_range site m : NoDup (range site m).*1.
Proof. rewrite range_perm. apply NoDup_fst_map_to_list. Qed.

Lemma NoDup_range site m : NoDup (range site m).
Proof. rewrite range_perm. apply NoDup_map_to_list. Qed.

Lemma elem_of_fst_range site m k : k ∈ (range site m).*1 <-> is_Some (m !! k).
Proof.
  rewrite elem_of_fst_map. unfold is_Some. by setoid_rewrite elem_of_range.
Qed.

Lemma range_empty site : range site (∅ : gmap string A) = [].
Proof. apply Permutation_nil_r. by rewrite range_perm, map_to_list_empty. Qed.

Lemma list_to_map_range site m : list_to_map (range site m) = m.
Proof.
  rewrite (list_to_map_proper _ (map_to_list m)).
  - apply list_to_map_to_list.
  - apply NoDup_fst_range.
  - apply range_perm.
Qed.
End range.

#[export] Hint Rewrite @range_empty @lookup_empty : gomap.
#[export] Hint Resolve NoDup_range NoDup_fst_range : gomap.

(** ** Sorting *)

Lemma Str_sort_perm l : Str.sort l ≡ₚ l.
Proof. apply merge_sort_Permutation. Qed.

Lemma Str_sort_sorted l : StronglySorted String.le (Str.sort l).
Proof. apply StronglySorted_merge_sort; apply _. Qed.

(** Sorting forgets the order of its argument. *)
#[export] Instance Str_sort_proper : Proper ((≡ₚ) ==> (=)) Str.sort.
Proof.
  intros l1 l2 Hl. apply (StronglySorted_unique String.le).
  - apply Str_sort_sorted.
  - apply Str_sort_sorted.
  - by rewrite !Str_sort_perm.
Qed.

(** [sort.Slice] is not stable: the order of equal elements is unspecified.
    [site] is the source line of the call. *)
Definition not_less {A : Type} (less : A -> A -> bool) (a b : A) : Prop := less b a = false.
#[export] Instance not_less_dec {A} (less : A -> A -> bool) : RelDecision (not_less less).
Proof. intros a b. unfold not_less. apply _. Defined.

Class SliceSort := {
  sort_slice {A : Type} (site : Z) (less : A -> A -> bool) (l : list A) : list A;
  sort_slice_perm {A : Type} site (less : A -> A -> bool) l : sort_slice site less l ≡ₚ l;
  sort_slice_sorted {A : Type} site (less : A -> A -> bool) l :
    (forall a b, less a b = true -> less b a = false) ->
    (forall a b c, less b a = false -> less c b = false -> less c a = false) ->
    StronglySorted (not_less less) (sort_slice site less l);
}.

(** One such sort, used to run the definitions on examples. *)
#[export] Instance sort_slice_merge : SliceSort | 100.
Proof.
  exists (fun A _ less l => merge_sort (not_less less) l).
  - intros. apply merge_sort_Permutation.
  - intros A _ less l Hasym Htrans. apply StronglySorted_merge_sort.
    + exact Htrans.
    + intros a b. unfold not_less. destruct (less b a) eqn:E; [right; by apply Hasym|by left].
Defined.

Lemma str_ltb_false a b : (b <? a)%string = false <-> (a ≤ b)%string.
Proof.
  unfold String.le, String.leb, String.ltb. rewrite (String.compare_antisym b a).
  destruct (a ?= b)%string; simpl; by split.
Qed.

(** Sorting by a key: the order of the keys does not depend on the sort. *)
Lemma sort_slice_keys `{SliceSort} {A} site (key : A -> string) l :
  key <$> sort_slice site (fun a b => (key a <? key b)%string) l = Str.sort (key <$> l).
Proof.
  apply (StronglySorted_unique String.le).
  - assert (StronglySorted (not_less (fun a b => (key a <? key b)%string))
      (sort_slice site (fun a b => (key a <? key b)%string) l)) as Hs.
    { apply (sort_slice_sorted site (fun a b => (key a <? key b)%string)).
      - intros a b Hab. apply str_ltb_false. apply not_false_iff_true in Hab.
        rewrite str_ltb_false in Hab. by destruct (total String.le (key a) (key b)).
      - intros a b c. rewrite !str_ltb_false. apply transitivity. }
    unfold not_less in Hs. induction Hs as [|a l' _ IH Hf]; [constructor|]. rewrite fmap_cons.
    constructor; [done|]. apply Forall_fmap. eapply Forall_impl; [done|].
    intros b. unfold not_less. apply str_ltb_false.
  - apply Str_sort_sorted.
  - rewrite Str_sort_perm. apply fmap_Permutation, sort_slice_perm.
Qed.

(** With distinct keys the result does not depend on the sort, nor on the order
    of the list. *)
Lemma sort_slice_unique (S1 S2 : SliceSort) {A} site (key : A -> string) l1 l2 :
  NoDup (key <$> l1) -> l1 ≡ₚ l2 ->
  @sort_slice S1 A site (fun a b => (key a <? key b)%string) l1 =
  @sort_slice S2 A site (fun a b => (key a <? key b)%string) l2.
Proof.
  intros Hn Hp. set (s1 := @sort_slice S1 _ _ _ _). set (s2 := @sort_slice S2 _ _ _ _).
  assert (key <$> s1 = key <$> s2) as Hk.
  { unfold s1, s2. rewrite !sort_slice_keys. by rewrite Hp. }
  assert (s1 ≡ₚ l1) as H1 by apply sort_slice_perm.
  assert (s2 ≡ₚ l1) as H2 by (rewrite Hp; apply sort_slice_perm).
  rewrite <-H1 in Hn, H2. clearbody s1 s2. clear - Hk Hn H2.
  apply list_eq. intros i. pose proof (f_equal (.!! i) Hk) as Hi. simpl in Hi.
  rewrite !list_lookup_fmap in Hi.
  destruct (s1 !! i) as [x|] eqn:Hx, (s2 !! i) as [y|] eqn:Hy; simplify_eq/=; [|done].
  f_equal. assert (y ∈ s1) as [j Hj]%list_elem_of_lookup.
  { rewrite <-H2. by apply list_elem_of_lookup_2 in Hy. }
  assert (i = j) as <-; [|congruence]. eapply NoDup_lookup; [exact Hn|..].
  - rewrite list_lookup_fmap, Hx. done.
  - rewrite list_lookup_fmap, Hj. simpl. congruence.
Qed.

(** ** Decimal numbers *)

Lemma Str_digit_prefix_digits ds rest :
  Str.digit_prefix ds = ds ->
  match rest with EmptyString => True | String a _ => Str.is_digit a = false end ->
  Str.digit_prefix (ds +:+ rest) = ds.
Proof.
  intros Hds Hrest. induction ds as [|a ds IH].
  - rewrite str_app_nil. destruct rest as [|a rest]; [done|]. simpl. by rewrite Hrest.
  - rewrite str_app_cons. simpl in *. destruct (Str.is_digit a); [|done].
    injection Hds as Hds. f_equal. by apply IH.
Qed.

Lemma Str_digit_prefix_uint u :
  Str.digit_prefix (NilEmpty.string_of_uint u) = NilEmpty.string_of_uint u.
Proof. induction u; simpl; [done|..]; by rewrite IHu. Qed.

Lemma Str_uint_of_to_uint z :
  0 <= z ->
  exists u, Str.itoa z = NilZero.string_of_uint u /\ Z.of_uint u = z /\ u <> Decimal.Nil.
Proof.
  intros Hz. unfold Str.itoa. destruct z as [|p|p]; simpl; [|..|lia].
  - by exists (Decimal.D0 Decimal.Nil).
  - exists (Pos.to_uint p). split_and!; [done| |].
    + unfold Z.of_uint. pose proof (DecimalPos.Unsigned.of_to p) as E. by rewrite E.
    + apply DecimalPos.Unsigned.to_uint_nonnil.
Qed.

Lemma Str_sscanf_unsigned ds u old :
  ds <> "" -> Str.digit_prefix ds = ds -> NilZero.uint_of_string ds = Some u ->
  Str.int64_ok (Z.of_uint u) = true -> Str.sscanf_d ds old = Z.of_uint u.
Proof.
  intros Hne Hp Hu Hok. destruct ds as [|a ds]; [done|]. unfold Str.sscanf_d.
  assert (Str.is_digit a = true) as Ha by (revert Hp; simpl; by destruct (Str.is_digit a)).
  destruct (a =? "-")%char eqn:E1; [apply Ascii.eqb_eq in E1; by subst|].
  destruct (a =? "+")%char eqn:E2; [apply Ascii.eqb_eq in E2; by subst|].
  by rewrite Hp, Hu, Hok.
Qed.

Lemma Str_sscanf_itoa z old :
  0 <= z < 2^63 -> Str.sscanf_d (Str.itoa z) old = z.
Proof.
  intros Hz. destruct (Str_uint_of_to_uint z) as (u & -> & <- & Hnil); [lia|].
  assert (NilZero.string_of_uint u = NilEmpty.string_of_uint u) as Hsu by by destruct u.
  apply Str_sscanf_unsigned.
  - by destruct u.
  - rewrite Hsu. apply Str_digit_prefix_uint.
  - by apply NilZero.usu.
  - unfold Str.int64_ok. apply andb_true_intro. split; [apply Z.leb_le|apply Z.ltb_lt]; lia.
Qed.

(** ** Words *)

(** A word: what [Str.fields] keeps in one piece. *)
Fixpoint no_space (s : string) : bool :=
  match s with EmptyString => true | String a s => negb (Ascii.is_space a) && no_space s end.
Definition is_word (s : string) : bool := negb (Str.is_empty s) && no_space s.

Lemma rev_app_app (s t u : string) : String.rev_app (String.rev_app s t) u = String.rev_app t (s +:+ u).
Proof. revert t. induction s as [|a s IH]; intros t; [done|]. simpl. by rewrite IH. Qed.

(** The words of a text: a last word, or a word and a space in front of words. *)
Lemma words_go_some c w : no_space w = true -> String.words_go (Some c) w = [String.rev (String.rev_app w c)].
Proof.
  revert c. induction w as [|a w IH]; intros c; [done|]. simpl. intros [Ha Hw]%andb_true_iff.
  apply negb_true_iff in Ha. rewrite Ha. simpl. by rewrite IH.
Qed.

Lemma words_go_space c w rest :
  no_space w = true ->
  String.words_go (Some c) (w +:+ String " " rest) = String.rev (String.rev_app w c) :: String.words rest.
Proof.
  revert c. induction w as [|a w IH]; intros c; [done|]. rewrite str_app_cons. simpl.
  intros [Ha Hw]%andb_true_iff. apply negb_true_iff in Ha. rewrite Ha. simpl. by rewrite IH.
Qed.

Lemma is_word_cons w : is_word w = true -> exists a r, w = String a r /\ Ascii.is_space a = false /\ no_space r = true.
Proof.
  destruct w as [|a r]; [done|]. unfold is_word. simpl. intros [Ha Hr]%andb_true_iff.
  apply negb_true_iff in Ha. by exists a, r.
Qed.

Lemma fields_word w : is_word w = true -> Str.fields w = [w].
Proof.
  intros (a & r & -> & Ha & Hr)%is_word_cons. unfold Str.fields, String.words. simpl. rewrite Ha. simpl.
  rewrite words_go_some by done. unfold String.rev. by rewrite rev_app_app; simpl; rewrite str_app_nil_r.
Qed.

Lemma fields_cons w rest : is_word w = true -> Str.fields (w +:+ String " " rest) = w :: Str.fields rest.
Proof.
  intros (a & r & -> & Ha & Hr)%is_word_cons. rewrite str_app_cons. unfold Str.fields, String.words at 1.
  simpl. rewrite Ha. simpl. rewrite words_go_space by done. unfold String.rev.
  by rewrite rev_app_app; simpl; rewrite str_app_nil_r.
Qed.

Lemma no_space_digits u : no_space (NilEmpty.string_of_uint u) = true.
Proof. induction u; simpl; done. Qed.

Lemma is_word_itoa z : 0 <= z -> is_word (Str.itoa z) = true.
Proof.
  intros Hz. destruct (Str_uint_of_to_uint z Hz) as (u & -> & _ & Hnil).
  assert (NilZero.string_of_uint u = NilEmpty.string_of_uint u) as -> by by destruct u.
  unfold is_word. rewrite no_space_digits. by destruct u.
Qed.

(** The text of a number has no letters. *)
Lemma Str_itoa_letter z a s : 0 <= z -> Str.is_digit a = false -> Str.eqb (Str.itoa z) (String a s) = false.
Proof.
  intros Hz Ha. destruct (Str_uint_of_to_uint z Hz) as (u & -> & _ & Hnil).
  assert (exists c r, NilZero.string_of_uint u = String c r /\ Str.is_digit c = true) as (c & r & -> & Hc).
  { destruct u; [done|..]; by eexists _, _. }
  unfold Str.eqb. simpl. destruct (Ascii.eqb_spec c a) as [->|]; [|done]. by rewrite Ha in Hc.
Qed.
