(* ===== verification/Effect.v ===== *)
(** * Programs with effects

    The Go code that talks to the kernel, to VPP or to the file system is
    translated to [prog E R]: a computation that performs calls of the type
    [E], indexed by the type of their answers, and returns an [R].  A program
    says nothing of what the calls do; it can be
    - run against a handler ([run]), which is executable;
    - judged for every possible answer of every call: [all_calls] bounds the
      calls that may be performed, [wp] is a weakest precondition over a
      specification of the calls;
    - listed as sequences of calls with their answers ([traces]).

    [Crash] is a run-time panic of Go. *)

From S2P Require Import Prelude GoStd.

Inductive prog (E : Type -> Type) (R : Type) : Type :=
| Ret (r : R)
| Crash
| Vis (X : Type) (e : E X) (k : X -> prog E R).
Arguments Ret {E R} r.
Arguments Crash {E R}.
Arguments Vis {E R X} e k.

(** ** The monad *)

Fixpoint prog_bind {E A B} (f : A -> prog E B) (p : prog E A) : prog E B :=
  match p with
  | Ret a => f a
  | Crash => Crash
  | Vis e k => Vis e (fun x => prog_bind f (k x))
  end.

#[export] Instance prog_mret E : MRet (prog E) := @Ret E.
#[export] Instance prog_mbind E : MBind (prog E) := @prog_bind E.

(** A call that returns its answer. *)
Definition call {E X} (e : E X) : prog E X := Vis e Ret.

(** A pure computation that may panic. *)
Definition lift {E A} (o : option A) : prog E A :=
  match o with Some a => Ret a | None => Crash end.

(** [try! p as w ; q] is Go's [if err := p; err != nil { return w(err) }; q] in
    a function that returns an error. *)
Notation "'try!' p 'as' w ; q" :=
  (mbind (fun e : option error => match e with Some e => Ret (Some (w e)) | None => q end) p)
  (at level 20, p at level 100, w at level 100, q at level 200, right associativity,
   only parsing) : netcfg_scope.

(** [warn! p ; q]: the error of [p] is logged and the function goes on. *)
Notation "'warn!' p ; q" := (mbind (fun _ : option error => q) p)
  (at level 20, p at level 100, q at level 200, right associativity, only parsing)
  : netcfg_scope.

(** [get! x := p as w ; q] is [x, err := p; if err != nil { return w(err) }; q]. *)
Notation "'get!' x := p 'as' w ; q" :=
  (mbind (fun r => match r with Err e => Ret (Some (w e)) | Ok x => q end) p)
  (at level 20, x name, p at level 100, w at level 100, q at level 200,
   right associativity, only parsing) : netcfg_scope.

(** [return err], unwrapped. *)
Definition same_err (e : error) : error := e.

(** The same in a function that returns a value and an error. *)
Notation "'let!' x := p 'as' w ; q" :=
  (mbind (fun r => match r with Err e => Ret (Err (w e)) | Ok x => q end) p)
  (at level 20, x name, p at level 100, w at level 100, q at level 200,
   right associativity, only parsing) : netcfg_scope.

(** ** Loops *)

(** A loop whose body never leaves it. *)
Fixpoint for_each {E A} (l : list A) (body : A -> prog E unit) : prog E unit :=
  match l with
  | [] => Ret tt
  | a :: l => body a ;; for_each l body
  end.

(** A loop whose body may return an error from the enclosing function. *)
Fixpoint for_err {E A} (l : list A) (body : A -> prog E (option error)) : prog E (option error) :=
  match l with
  | [] => Ret None
  | a :: l => try! body a as same_err; for_err l body
  end.

(** A loop that carries local variables. *)
Fixpoint for_fold {E A S} (l : list A) (s : S) (body : S -> A -> prog E S) : prog E S :=
  match l with
  | [] => Ret s
  | a :: l => s' ← body s a; for_fold l s' body
  end.

(** A loop that carries local variables and may return an error. *)
Fixpoint for_fold_err {E A S} (l : list A) (s : S) (body : S -> A -> prog E (res S))
    : prog E (res S) :=
  match l with
  | [] => Ret (Ok s)
  | a :: l => r ← body s a; match r with Ok s' => for_fold_err l s' body | Err e => Ret (Err e) end
  end.

(** The pure counterpart of [for_fold], with panics. *)
Fixpoint fold_pan {A S} (l : list A) (s : S) (body : S -> A -> option S) : option S :=
  match l with
  | [] => Some s
  | a :: l => s' ← body s a; fold_pan l s' body
  end.

(** A loop of a pure function that returns an error and may panic. *)
Fixpoint check_pan {A} (l : list A) (body : A -> option (option error)) : option (option error) :=
  match l with
  | [] => Some None
  | a :: l => e ← body a; match e with Some e => Some (Some e) | None => check_pan l body end
  end.

(** ** Running a program against a handler *)

Definition handler (E : Type -> Type) (S : Type) := forall X, E X -> S -> X * S.

Fixpoint run {E R S} (h : handler E S) (p : prog E R) (s : S) : option R * S :=
  match p with
  | Ret r => (Some r, s)
  | Crash => (None, s)
  | Vis e k => let '(x, s') := h _ e s in run h (k x) s'
  end.

(** ** Which calls a program can perform, whatever the answers *)

Fixpoint all_calls {E R} (P : forall X, E X -> Prop) (p : prog E R) : Prop :=
  match p with
  | Ret _ => True
  | Crash => True
  | Vis e k => P _ e /\ forall x, all_calls P (k x)
  end.

(** The calls of the runs of a program, with their answers. *)
Inductive event (E : Type -> Type) : Type :=
| Event X (e : E X) (x : X).
Arguments Event {E X} e x.

Fixpoint traces {E R} (p : prog E R) (tr : list (event E)) (o : option R) : Prop :=
  match p with
  | Ret r => tr = [] /\ o = Some r
  | Crash => tr = [] /\ o = None
  | Vis e k => exists x tr', tr = Event e x :: tr' /\ traces (k x) tr' o
  end.

(** What a function finds in the events of a run, in order. *)
Fixpoint collect {E B} (f : event E -> option B) (tr : list (event E)) : list B :=
  match tr with
  | [] => []
  | ev :: tr => match f ev with Some b => b :: collect f tr | None => collect f tr end
  end.

Lemma collect_app {E B} (f : event E -> option B) tr1 tr2 :
  collect f (tr1 ++ tr2) = collect f tr1 ++ collect f tr2.
Proof. induction tr1 as [|ev tr1 IH]; [done|]. simpl. destruct (f ev); simpl; by rewrite IH. Qed.

(** ** Weakest preconditions

    A [spec] says, on a state [S] chosen by the proof, when a call may be
    performed ([sp_pre]), what it can answer and which state it then leaves
    ([sp_post]), and whether a panic is allowed.  [wp sp p s Q]: every run of [p]
    from [s], whatever the answers within [sp_post], performs only calls whose
    [sp_pre] holds, panics only if that is allowed, and ends in [Q]. *)

Record spec (E : Type -> Type) (S : Type) := Spec {
  sp_pre : forall X, E X -> S -> Prop;
  sp_post : forall X, E X -> S -> X -> S -> Prop;
  sp_crash : Prop;
}.
Arguments Spec {E S} sp_pre sp_post sp_crash.
Arguments sp_pre {E S} _ {X} _ _.
Arguments sp_post {E S} _ {X} _ _ _ _.
Arguments sp_crash {E S} _.

Fixpoint wp {E R S} (sp : spec E S) (p : prog E R) (s : S) (Q : R -> S -> Prop) : Prop :=
  match p with
  | Ret r => Q r s
  | Crash => sp_crash sp
  | Vis e k => sp_pre sp e s /\ forall x s', sp_post sp e s x s' -> wp sp (k x) s' Q
  end.

(** The runs of a program whose calls answer within [sp_post]. *)
Inductive exec {E R S} (sp : spec E S) : prog E R -> S -> R -> S -> Prop :=
| exec_ret r s : exec sp (Ret r) s r s
| exec_vis X (e : E X) k s x s' r s'' :
    sp_post sp e s x s' -> exec sp (k x) s' r s'' -> exec sp (Vis e k) s r s''.

Section rules.
Context {E : Type -> Type}.

(** *** [all_calls] *)

Section all_calls.
Context (P : forall X, E X -> Prop).

Lemma all_calls_bind {A B} (f : A -> prog E B) (p : prog E A) :
  all_calls P p -> (forall a, all_calls P (f a)) -> all_calls P (p ≫= f).
Proof.
  intros Hp Hf. induction p as [r| |X e k IH]; simpl; [apply Hf|done|].
  destruct Hp as [He Hk]. split; [done|]. intros x. by apply IH.
Qed.

Lemma all_calls_ret {A} (a : A) : all_calls P (Ret a).
Proof. done. Qed.

Lemma all_calls_call {X} (e : E X) : P X e -> all_calls P (call e).
Proof. by split. Qed.

Lemma all_calls_lift {A} (o : option A) : all_calls P (lift o).
Proof. by destruct o. Qed.

Lemma all_calls_for_each {A} (l : list A) body :
  (forall a, a ∈ l -> all_calls P (body a)) -> all_calls P (for_each l body).
Proof.
  induction l as [|a l IH]; intros Hb; simpl; [done|].
  apply all_calls_bind; [apply Hb; left|]. intros _. apply IH. intros b Hin.
  apply Hb. by right.
Qed.

Lemma all_calls_for_err {A} (l : list A) body :
  (forall a, a ∈ l -> all_calls P (body a)) -> all_calls P (for_err l body).
Proof.
  induction l as [|a l IH]; intros Hb; simpl; [done|].
  apply all_calls_bind; [apply Hb; left|]. intros [e|]; [done|]. apply IH. intros b Hin.
  apply Hb. by right.
Qed.

Lemma all_calls_for_fold {A S} (l : list A) (s : S) body :
  (forall s a, a ∈ l -> all_calls P (body s a)) -> all_calls P (for_fold l s body).
Proof.
  revert s. induction l as [|a l IH]; intros s Hb; simpl; [done|].
  apply all_calls_bind; [apply Hb; left|]. intros s'. apply IH. intros ? b Hin.
  apply Hb. by right.
Qed.

Lemma all_calls_for_fold_err {A S} (l : list A) (s : S) body :
  (forall s a, a ∈ l -> all_calls P (body s a)) -> all_calls P (for_fold_err l s body).
Proof.
  revert s. induction l as [|a l IH]; intros s Hb; simpl; [done|].
  apply all_calls_bind; [apply Hb; left|]. intros [s'|e]; [|done]. apply IH. intros ? b Hin.
  apply Hb. by right.
Qed.
End all_calls.

Lemma all_calls_mono (P Q : forall X, E X -> Prop) {R} (p : prog E R) :
  (forall X e, P X e -> Q X e) -> all_calls P p -> all_calls Q p.
Proof.
  intros HPQ. induction p as [| |X e k IH]; simpl; [done..|].
  intros [He Hk]. split; [by apply HPQ|]. intros x. by apply IH.
Qed.

Lemma all_calls_traces (P : forall X, E X -> Prop) {R} (p : prog E R) tr o :
  all_calls P p -> traces p tr o ->
  Forall (fun ev => match ev with Event e _ => P _ e end) tr.
Proof.
  revert tr. induction p as [r| |X e k IH]; simpl; intros tr Hp Htr.
  - destruct Htr as [-> _]. constructor.
  - destruct Htr as [-> _]. constructor.
  - destruct Htr as (x & tr' & -> & Htr), Hp as [He Hk]. constructor; [done|]. by eapply IH.
Qed.

(** *** [wp] *)

Section wp.
Context {S : Type} (sp : spec E S).

Lemma wp_bind {A B} (f : A -> prog E B) (p : prog E A) s Q :
  wp sp p s (fun a s' => wp sp (f a) s' Q) -> wp sp (p ≫= f) s Q.
Proof.
  revert s. induction p as [r| |X e k IH]; simpl; intros s H; [done|done|].
  destruct H as [He H]. split; [done|]. intros x s' Hs. by apply IH, H.
Qed.

Lemma wp_mono {A} (p : prog E A) s (Q Q' : A -> S -> Prop) :
  (forall a s', Q a s' -> Q' a s') -> wp sp p s Q -> wp sp p s Q'.
Proof.
  intros HQ. revert s. induction p as [r| |X e k IH]; simpl; intros s H; [by apply HQ|done|].
  destruct H as [He H]. split; [done|]. intros x s' Hs. by apply IH, H.
Qed.

Lemma wp_vis {X A} (e : E X) (k : X -> prog E A) s Q :
  wp sp (Vis e k) s Q <-> sp_pre sp e s /\ forall x s', sp_post sp e s x s' -> wp sp (k x) s' Q.
Proof. done. Qed.

Lemma wp_ret {A} (a : A) s (Q : A -> S -> Prop) : Q a s -> wp sp (Ret a) s Q.
Proof. done. Qed.

Lemma wp_call {X} (e : E X) s (Q : X -> S -> Prop) :
  sp_pre sp e s -> (forall x s', sp_post sp e s x s' -> Q x s') -> wp sp (call e) s Q.
Proof. by split. Qed.

Lemma wp_exec {A} (p : prog E A) s Q a s' : wp sp p s Q -> exec sp p s a s' -> Q a s'.
Proof.
  intros H Hx. induction Hx as [|X e k s x s' r s'' Hp Hx IH]; [done|].
  destruct H as [_ H]. by apply IH, H.
Qed.

Lemma wp_lift {A} (o : option A) s (Q : A -> S -> Prop) :
  (forall a, o = Some a -> Q a s) -> (o = None -> sp_crash sp) -> wp sp (lift o) s Q.
Proof. destruct o; simpl; auto. Qed.

(** Loop rules with an invariant on the state. *)
Lemma wp_for_each {A} (l : list A) body s (I : S -> Prop) :
  I s -> (forall a s, a ∈ l -> I s -> wp sp (body a) s (fun _ s' => I s')) ->
  wp sp (for_each l body) s (fun _ s' => I s').
Proof.
  revert s. induction l as [|a l IH]; intros s Hs Hb; simpl; [done|].
  apply wp_bind. eapply wp_mono; [|apply Hb; [left|done]].
  intros ? s' Hs'. apply IH; [done|]. intros b s0 Hin. apply Hb. by right.
Qed.

Lemma wp_for_err {A} (l : list A) body s (I : S -> Prop) :
  I s -> (forall a s, a ∈ l -> I s -> wp sp (body a) s (fun _ s' => I s')) ->
  wp sp (for_err l body) s (fun _ s' => I s').
Proof.
  revert s. induction l as [|a l IH]; intros s Hs Hb; simpl; [done|].
  apply wp_bind. eapply wp_mono; [|apply Hb; [left|done]].
  intros [e|] s' Hs'; [done|]. apply IH; [done|]. intros b s0 Hin. apply Hb. by right.
Qed.

(** The same, where [J] holds when the body has returned an error. *)
Lemma wp_for_err_stop {A} (l : list A) body s (I J : S -> Prop) :
  I s ->
  (forall a s, a ∈ l -> I s -> wp sp (body a) s (fun r s' => match r with None => I s' | Some _ => J s' end)) ->
  wp sp (for_err l body) s (fun r s' => match r with None => I s' | Some _ => J s' end).
Proof.
  revert s. induction l as [|a l IH]; intros s Hs Hb; simpl; [done|].
  apply wp_bind. eapply wp_mono; [|apply Hb; [left|done]].
  intros [e|] s' Hs'; [done|]. apply IH; [done|]. intros b s0 Hin. apply Hb. by right.
Qed.

Lemma wp_for_fold {A T} (l : list A) (t : T) body s (I : T -> S -> Prop) :
  I t s -> (forall t a s, a ∈ l -> I t s -> wp sp (body t a) s I) ->
  wp sp (for_fold l t body) s I.
Proof.
  revert t s. induction l as [|a l IH]; intros t s Hs Hb; simpl; [done|].
  apply wp_bind. eapply wp_mono; [|apply Hb; [left|done]].
  intros t' s' Hs'. apply IH; [done|]. intros t0 b s0 Hin. apply Hb. by right.
Qed.

(** The same, with an invariant over the elements that the loop has passed. *)
Lemma wp_for_fold_prefix {A T} (l : list A) (t : T) body s (I : list A -> T -> S -> Prop) :
  I [] t s ->
  (forall pre a post t s, l = pre ++ a :: post -> I pre t s -> wp sp (body t a) s (I (pre ++ [a]))) ->
  wp sp (for_fold l t body) s (I l).
Proof.
  intros Ht Hb. assert (forall post pre t s, l = pre ++ post -> I pre t s ->
    wp sp (for_fold post t body) s (I l)) as Hg; [|by apply (Hg l [])].
  induction post as [|a post IH]; intros pre t1 s1 Hl Hs1; simpl.
  - rewrite app_nil_r in Hl. by subst.
  - apply wp_bind. eapply wp_mono; [|by apply (Hb pre a post)].
    intros t2 s2 Hs2. apply (IH (pre ++ [a])); [|done]. by rewrite <-app_assoc.
Qed.

Lemma wp_for_each_prefix {A} (l : list A) body s (I : list A -> S -> Prop) :
  I [] s ->
  (forall pre a post s, l = pre ++ a :: post -> I pre s -> wp sp (body a) s (fun _ => I (pre ++ [a]))) ->
  wp sp (for_each l body) s (fun _ => I l).
Proof.
  intros Ht Hb. assert (forall post pre s, l = pre ++ post -> I pre s ->
    wp sp (for_each post body) s (fun _ => I l)) as Hg; [|by apply (Hg l [])].
  induction post as [|a post IH]; intros pre s1 Hl Hs1; simpl.
  - rewrite app_nil_r in Hl. by subst.
  - apply wp_bind. eapply wp_mono; [|by apply (Hb pre a post)].
    intros ? s2 Hs2. apply (IH (pre ++ [a])); [|done]. by rewrite <-app_assoc.
Qed.

(** A program all of whose calls may be performed ends, or panics. *)
Lemma wp_any {A} (p : prog E A) s :
  sp_crash sp -> (forall X (e : E X) s, sp_pre sp e s) -> wp sp p s (fun _ _ => True).
Proof.
  intros Hc Hp. revert s. induction p as [r| |X e k IH]; intros s; [done|done|].
  split; [apply Hp|]. intros x s' _. apply IH.
Qed.

Lemma wp_for_fold_err {A T} (l : list A) (t : T) body s (I : S -> Prop) :
  I s -> (forall t a s, a ∈ l -> I s -> wp sp (body t a) s (fun _ s' => I s')) ->
  wp sp (for_fold_err l t body) s (fun _ s' => I s').
Proof.
  revert t s. induction l as [|a l IH]; intros t s Hs Hb; simpl; [done|].
  apply wp_bind. eapply wp_mono; [|apply Hb; [left|done]].
  intros [t'|e] s' Hs'; [|done]. apply IH; [done|]. intros t0 b s0 Hin. apply Hb. by right.
Qed.

(** A program whose calls all satisfy [P] keeps an invariant that every such
    call keeps. *)
Lemma wp_all_calls {R} (P : forall X, E X -> Prop) (I : S -> Prop) (p : prog E R) s :
  sp_crash sp -> (forall X (e : E X) s, P X e -> I s -> sp_pre sp e s) ->
  (forall X (e : E X) s x s', P X e -> I s -> sp_post sp e s x s' -> I s') ->
  all_calls P p -> I s -> wp sp p s (fun _ s' => I s').
Proof.
  intros Hc Hpre Hpost. revert s. induction p as [r| |X e k IH]; simpl; intros s Hp Hs; [done|done|].
  destruct Hp as [He Hk]. split; [by apply Hpre|]. intros x s' Hx. apply IH; [done|].
  by eapply Hpost.
Qed.

(** [wp] is sound for every handler that answers within [sp_post]. *)
Lemma wp_run {R} (h : handler E S) (p : prog E R) s Q :
  (forall X (e : E X) s, sp_pre sp e s -> sp_post sp e s (h _ e s).1 (h _ e s).2) ->
  wp sp p s Q ->
  match run h p s with (Some r, s') => Q r s' | (None, _) => sp_crash sp end.
Proof.
  intros Hh. revert s. induction p as [r| |X e k IH]; simpl; intros s H; [done|done|].
  destruct H as [He H]. specialize (Hh _ e s He). destruct (h X e s) as [x s']. by apply IH, H.
Qed.
End wp.

(** *** [run] *)

Lemma run_bind {S A B} (h : handler E S) (f : A -> prog E B) (p : prog E A) s :
  run h (p ≫= f) s =
    let '(o, s') := run h p s in
    match o with Some a => run h (f a) s' | None => (None, s') end.
Proof.
  revert s. induction p as [r| |X e k IH]; simpl; intros s; [by destruct (run h (f r) s)|done|].
  destruct (h X e s) as [x s']. apply IH.
Qed.

(** *** [traces] *)

Lemma traces_bind_inv {A B} (f : A -> prog E B) (p : prog E A) tr o :
  traces (p ≫= f) tr o ->
  (traces p tr None /\ o = None) \/
  exists a tr1 tr2, traces p tr1 (Some a) /\ traces (f a) tr2 o /\ tr = tr1 ++ tr2.
Proof.
  revert tr. induction p as [r| |X e k IH]; simpl; intros tr H.
  - right. by exists r, [], tr.
  - left. destruct H as [-> ->]. done.
  - destruct H as (x & tr' & -> & H).
    destruct (IH x tr' H) as [[Hp ->]|(a & tr1 & tr2 & H1 & H2 & ->)].
    + left. split; [|done]. eauto.
    + right. exists a, (Event e x :: tr1), tr2. split_and!; [eauto|done|done].
Qed.

Lemma traces_bind {A B} (f : A -> prog E B) (p : prog E A) tr1 tr2 a o :
  traces p tr1 (Some a) -> traces (f a) tr2 o -> traces (p ≫= f) (tr1 ++ tr2) o.
Proof.
  revert tr1. induction p as [r| |X e k IH]; simpl; intros tr1 H1 H2.
  - by destruct H1 as [-> [= ->]].
  - by destruct H1.
  - destruct H1 as (x & tr' & -> & H1). exists x, (tr' ++ tr2). split; [done|]. by apply IH.
Qed.
End rules.

(** *** Programs with the same runs *)

Definition same_runs {E A} (p q : prog E A) : Prop := forall tr o, traces p tr o <-> traces q tr o.
Infix "≃" := same_runs (at level 70) : netcfg_scope.

#[export] Instance same_runs_equivalence {E A} : Equivalence (@same_runs E A).
Proof.
  split; [done|by intros p q H tr o; symmetry|].
  intros p q r H1 H2 tr o. etransitivity; [apply H1|apply H2].
Qed.

Lemma traces_bind_iff {E A B} (f : A -> prog E B) (p : prog E A) tr o :
  traces (p ≫= f) tr o <->
  (traces p tr None /\ o = None) \/
  exists a tr1 tr2, traces p tr1 (Some a) /\ traces (f a) tr2 o /\ tr = tr1 ++ tr2.
Proof.
  split; [apply traces_bind_inv|]. intros [[H ->]|(a & tr1 & tr2 & H1 & H2 & ->)]; [|by eapply traces_bind].
  revert tr H. induction p as [r| |X e k IH]; simpl; intros tr H.
  - by destruct H.
  - by destruct H as [-> _].
  - destruct H as (x & tr' & -> & H). exists x, tr'. split; [done|]. by apply IH.
Qed.

#[export] Instance bind_same_runs {E A B} :
  Proper (pointwise_relation A same_runs ==> same_runs ==> same_runs) (@mbind (prog E) _ A B).
Proof.
  intros f g Hf p q Hp tr o. rewrite !traces_bind_iff. unfold pointwise_relation, same_runs in *.
  setoid_rewrite Hp. by setoid_rewrite Hf.
Qed.

Lemma bind_assoc {E A B C} (p : prog E A) (f : A -> prog E B) (g : B -> prog E C) :
  (p ≫= f) ≫= g ≃ p ≫= (fun a => f a ≫= g).
Proof.
  induction p as [r| |X e k IH]; intros tr o; [done|done|].
  simpl. split; intros (x & tr' & -> & H); exists x, tr'; (split; [done|]); by apply IH.
Qed.

(** ** Proving that every call of a program satisfies a predicate

    [calls_tac] walks through a program, splitting its matches, and leaves the
    predicate on each of its calls. *)
Create HintDb calls discriminated.

Ltac calls_step :=
  match goal with
  | |- all_calls _ (mbind _ _) => apply all_calls_bind; [|intros ?]
  | |- all_calls _ (Ret _) => exact I
  | |- all_calls _ (mret _) => exact I
  | |- all_calls _ Crash => exact I
  | |- all_calls _ (call _) => apply all_calls_call
  | |- all_calls _ (lift _) => apply all_calls_lift
  | |- all_calls _ (for_each _ _) => apply all_calls_for_each; intros ? ?
  | |- all_calls _ (for_err _ _) => apply all_calls_for_err; intros ? ?
  | |- all_calls _ (for_fold _ _ _) => apply all_calls_for_fold; intros ? ? ?
  | |- all_calls _ (for_fold_err _ _ _) => apply all_calls_for_fold_err; intros ? ? ?
  | |- all_calls _ (match ?x with _ => _ end) => destruct x eqn:?
  | |- all_calls _ (let _ := _ in _) => cbv zeta
  end.

Ltac calls_tac := repeat (calls_step || (progress (auto with calls nocore))).

(** ** Loops of a pure function that stop at the first error *)

(** Such a loop ends without an error iff its body does at every element. *)
Lemma check_pan_ok {A} (l : list A) (body : A -> option (option error)) :
  check_pan l body = Some None <-> Forall (fun a => body a = Some None) l.
Proof.
  induction l as [|a l IH]; simpl; [by split|]. rewrite Forall_cons, <-IH.
  destruct (body a) as [[e|]|]; simpl; clear IH; naive_solver.
Qed.

Lemma check_pan_range_ok `{RangeOrder} {A} site (m : option (gmap string A)) body :
  check_pan (gm_range site m) body = Some None <->
  forall k v, gm_get m k = Some v -> body (k, v) = Some None.
Proof.
  rewrite check_pan_ok, Forall_forall. unfold gm_range, gm_get. split.
  - intros Hl k v Hk. apply Hl. by apply elem_of_range.
  - intros Hl [k v] Hk. apply Hl, (elem_of_range site), Hk.
Qed.

(** The error of such a loop is the error of its body at an element. *)
Lemma check_pan_error {A} (l : list A) (body : A -> option (option error)) e :
  check_pan l body = Some (Some e) -> exists a, a ∈ l /\ body a = Some (Some e).
Proof.
  induction l as [|a l IH]; simpl; [done|].
  destruct (body a) as [[e'|]|] eqn:Ha; simpl; [|intros (b & ? & ?)%IH|done].
  - intros [= <-]. exists a. split; [left|done].
  - exists b. split; [by right|done].
Qed.

(** An invariant of a loop, over the elements it has passed. *)
Lemma fold_pan_prefix {A S} (I : list A -> S -> Prop) (l : list A) (body : S -> A -> option S) s :
  I [] s ->
  (forall pre a post s, l = pre ++ a :: post -> I pre s ->
     exists s', body s a = Some s' /\ I (pre ++ [a]) s') ->
  exists s', fold_pan l s body = Some s' /\ I l s'.
Proof.
  intros H0 Hstep.
  assert (forall post pre s, l = pre ++ post -> I pre s ->
    exists s', fold_pan post s body = Some s' /\ I l s') as Hg; [|by apply (Hg l [])].
  induction post as [|a post IH]; intros pre s1 Hl Hs1; simpl.
  - rewrite app_nil_r in Hl. subst. eauto.
  - destruct (Hstep pre a post s1 Hl Hs1) as (s2 & -> & Hs2). simpl.
    apply (IH (pre ++ [a])); [|done]. by rewrite <-app_assoc.
Qed.

Lemma fold_pan_app {A S} (l1 l2 : list A) (s : S) body :
  fold_pan (l1 ++ l2) s body = (s' ← fold_pan l1 s body; fold_pan l2 s' body).
Proof.
  revert s. induction l1 as [|a l1 IH]; intros s; simpl; [done|].
  destruct (body s a); simpl; [apply IH|done].
Qed.

Lemma fold_pan_fmap {A B S} (g : B -> A) (l : list B) (s : S) body :
  fold_pan (g <$> l) s body = fold_pan l s (fun s b => body s (g b)).
Proof. revert s. induction l as [|b l IH]; intros s; simpl; [done|]. destruct (body s (g b)); simpl; auto. Qed.

(** An invariant of a loop that has ended without a panic. *)
Lemma fold_pan_inv {A S} (I : S -> Prop) (l : list A) (body : S -> A -> option S) s s' :
  fold_pan l s body = Some s' -> I s ->
  (forall a s1 s2, a ∈ l -> body s1 a = Some s2 -> I s1 -> I s2) -> I s'.
Proof.
  revert s. induction l as [|a l IH]; intros s Hf Hs Hb; simpl in Hf; [congruence|].
  destruct (body s a) as [s1|] eqn:E; [|done]. apply (IH s1); [done| |].
  - apply (Hb a s s1); [left|done|done].
  - intros b s2 s3 Hin. apply Hb. by right.
Qed.

(** What the body establishes at one element, and keeps at the others, holds at
    the end. *)
Lemma fold_pan_reach {A S} (I : S -> Prop) (l : list A) (body : S -> A -> option S) s s' a :
  fold_pan l s body = Some s' -> a ∈ l ->
  (forall s1 s2, body s1 a = Some s2 -> I s2) ->
  (forall b s1 s2, b ∈ l -> body s1 b = Some s2 -> I s1 -> I s2) -> I s'.
Proof.
  revert s. induction l as [|b l IH]; intros s Hf Hin Ha Hb; [by apply not_elem_of_nil in Hin|].
  simpl in Hf. destruct (body s b) as [s1|] eqn:E; [|done].
  assert (forall c s1 s2, c ∈ l -> body s1 c = Some s2 -> I s1 -> I s2) as Hb'
    by (intros c s2 s3 Hc; apply Hb; by right).
  apply elem_of_cons in Hin as [->|Hin].
  - apply (fold_pan_inv I l body s1); [done|by apply (Ha s)|done].
  - by apply (IH s1).
Qed.

(** From here on [simpl] leaves weakest preconditions alone. *)
#[global] Arguments wp : simpl never.
