(* ===== verification/GoNet.v ===== *)
(** * The package net of Go

    [net.ParseIP], [net.ParseCIDR], [net.ParseMAC], [IP.To4], [IP.String] and
    [IPNet.String] as Go 1.25 defines them, on addresses kept as lists of
    bytes.  Of an error only the fact that there is one is used by netcfg. *)

From S2P Require Import Prelude GoStd.

Module Net.
(** [net.IP] and [net.IPMask]: bytes, in [0, 255]; the empty list is nil. *)
Definition IP := list Z.

Record IPNet := MkIPNet { IPNet_IP : IP; IPNet_Mask : IP }.

#[export] Instance IPNet_eq_dec : EqDecision IPNet.
Proof. solve_decision. Defined.

Definition code (a : ascii) : Z := Z.of_N (N_of_ascii a).

(** The value of a hexadecimal digit. *)
Definition hex (a : ascii) : option Z :=
  let c := code a in
  if (48 <=? c) && (c <=? 57) then Some (c - 48)
  else if (97 <=? c) && (c <=? 102) then Some (c - 87)
  else if (65 <=? c) && (c <=? 70) then Some (c - 55)
  else None.

Definition digit (a : ascii) : option Z :=
  if Str.is_digit a then Some (code a - 48) else None.

(** [parseIPv4Fields]: [val] and [dig_len] describe the current octet,
    [fields] the octets read, the last one first. *)
Fixpoint parse_v4_fields (s : string) (val : Z) (dig_len : nat) (fields : list Z)
    : option (list Z) :=
  match s with
  | EmptyString =>
      if (length fields =? 3)%nat && negb (dig_len =? 0)%nat
      then Some (rev (val :: fields)) else None
  | String a s' =>
      match digit a with
      | Some d =>
          if (dig_len =? 1)%nat && (val =? 0) then None
          else let val' := val * 10 + d in
               if 255 <? val' then None else parse_v4_fields s' val' (S dig_len) fields
      | None =>
          if (a =? ".")%char && negb (dig_len =? 0)%nat && negb (length fields =? 3)%nat
          then parse_v4_fields s' 0 0 (val :: fields) else None
      end
  end.

Definition parse_v4 (s : string) : option (list Z) := parse_v4_fields s 0 0 [].

(** The leading hexadecimal digits of a group: their number, their value and
    what follows.  [None] when the group is too long. *)
Fixpoint hex_group (s : string) (off : nat) (acc : Z) : option (nat * Z * string) :=
  match s with
  | EmptyString => Some (off, acc, s)
  | String a s' =>
      match hex a with
      | Some d =>
          if (3 <? off)%nat || (65535 <? acc * 16 + d) then None
          else hex_group s' (S off) (acc * 16 + d)
      | None => Some (off, acc, s)
      end
  end.

(** The loop of [parseIPv6], from byte [i]; [out] is what is written and
    [ell] where the ellipsis is.  At most eight groups are read. *)
Fixpoint parse_v6_groups (fuel : nat) (s : string) (out : list Z) (ell : option nat)
    : option (string * list Z * option nat) :=
  match fuel with
  | O => Some (s, out, ell)
  | S fuel =>
      '(off, acc, rest) ← hex_group s 0 0;
      if (off =? 0)%nat then None
      else
        let next :=
          let out := out ++ [acc / 256; acc mod 256] in
          match rest with
          | EmptyString => Some ("", out, ell)
          | String c rest1 =>
              if negb (c =? ":")%char then None
              else match rest1 with
                   | EmptyString => None
                   | String c1 rest2 =>
                       if (c1 =? ":")%char then
                         match ell with
                         | Some _ => None
                         | None => match rest2 with
                                   | EmptyString => Some ("", out, Some (length out))
                                   | _ => parse_v6_groups fuel rest2 out (Some (length out))
                                   end
                         end
                       else parse_v6_groups fuel rest1 out ell
                   end
          end in
        match rest with
        | String c _ =>
            if (c =? ".")%char then
              if (bool_decide (ell = None) && negb (length out =? 12)%nat)
                 || (12 <? length out)%nat then None
              else v4 ← parse_v4 s; Some ("", out ++ v4, ell)
            else next
        | EmptyString => next
        end
  end.

(** [parseIPv6] without a zone: the sixteen bytes. *)
Definition parse_v6 (s : string) : option (list Z) :=
  let '(s, ell) :=
    match s with
    | String a (String b s') =>
        if (a =? ":")%char && (b =? ":")%char then (s', Some 0%nat) else (s, None)
    | _ => (s, None)
    end in
  if bool_decide (ell = Some 0%nat) && Str.is_empty s then Some (replicate 16 0)
  else
    '(rest, out, ell) ← parse_v6_groups 8 s [] ell;
    if negb (Str.is_empty rest) then None
    else if (length out <? 16)%nat then
           e ← ell; Some (take e out ++ replicate (16 - length out) 0 ++ drop e out)
         else if bool_decide (ell = None) then Some out else None.

(** [netip.ParseAddr] of an address without a zone: the bytes of [As16] and
    [BitLen].  The first of the bytes dot, colon and percent decides the family. *)
Fixpoint addr_kind (s : string) : ascii :=
  match s with
  | EmptyString => "000"%char
  | String a s' =>
      if (a =? ".")%char || (a =? ":")%char || (a =? "%")%char then a else addr_kind s'
  end.

Definition v4in6 : list Z := replicate 10 0 ++ [255; 255].

Definition parse_addr (s : string) : option (IP * Z) :=
  if (addr_kind s =? ".")%char then ip ← parse_v4 s; Some (v4in6 ++ ip, 32)
  else if (addr_kind s =? ":")%char then ip ← parse_v6 s; Some (ip, 128)
  else None.

(** [net.ParseIP]; [None] is nil. *)
Definition ParseIP (s : string) : option IP := fst <$> parse_addr s.

(** [ip.To4()]; [None] is nil. *)
Definition To4 (ip : IP) : option IP :=
  if (length ip =? 4)%nat then Some ip
  else if (length ip =? 16)%nat && bool_decide (take 12 ip = v4in6)
       then Some (drop 12 ip) else None.

(** [net.CIDRMask]. *)
Definition mask_byte (n : Z) : Z := 255 - Z.shiftr 255 (Z.max 0 (Z.min 8 n)).
Definition CIDRMask (ones bits : Z) : IP :=
  (fun i => mask_byte (ones - 8 * Z.of_nat i)) <$> seq 0 (Z.to_nat (bits / 8)).

(** [ip.Mask(m)]. *)
Definition Mask (ip m : IP) : option IP :=
  let m := if (length m =? 16)%nat && (length ip =? 4)%nat
              && bool_decide (take 12 m = replicate 12 255) then drop 12 m else m in
  let ip := if (length m =? 4)%nat && (length ip =? 16)%nat
               && bool_decide (take 12 ip = v4in6) then drop 12 ip else ip in
  if (length ip =? length m)%nat then Some (zip_with Z.land ip m) else None.

(** [dtoi]: a number that uses all of [s], below 0xFFFFFF. *)
Fixpoint dtoi_acc (s : string) (n : Z) : option Z :=
  match s with
  | EmptyString => Some n
  | String a s' => d ← digit a; if 16777215 <=? n * 10 + d then None else dtoi_acc s' (n * 10 + d)
  end.
Definition dtoi (s : string) : option Z := if Str.is_empty s then None else dtoi_acc s 0.

(** What follows the first slash. *)
Fixpoint after_slash (s : string) : option string :=
  match s with
  | EmptyString => None
  | String a s' => if (a =? "/")%char then Some s' else after_slash s'
  end.

(** [net.ParseCIDR]: the address and the network. *)
Definition ParseCIDR (s : string) : option (IP * IPNet) :=
  mask ← after_slash s;
  '(ip, bits) ← parse_addr (Str.before_byte s "/");
  n ← dtoi mask;
  if bits <? n then None
  else let m := CIDRMask n bits in
       Some (ip, MkIPNet (default [] (Mask ip m)) m).

(** [xtoi2] on the two first bytes: the value of two hexadecimal digits. *)
Definition xtoi2 (a b : ascii) : option Z := x ← hex a; y ← hex b; Some (x * 16 + y).

(** The groups of [net.ParseMAC]: pairs of digits separated by [sep]. *)
Fixpoint mac_pairs (s : string) (sep : ascii) : option (list Z) :=
  match s with
  | String a (String b EmptyString) => v ← xtoi2 a b; Some [v]
  | String a (String b (String c s')) =>
      if (c =? sep)%char then v ← xtoi2 a b; vs ← mac_pairs s' sep; Some (v :: vs) else None
  | _ => None
  end.

(** Groups of four digits separated by dots. *)
Fixpoint mac_quads (s : string) : option (list Z) :=
  match s with
  | String a (String b (String c (String d EmptyString))) =>
      v ← xtoi2 a b; w ← xtoi2 c d; Some [v; w]
  | String a (String b (String c (String d (String e s')))) =>
      if (e =? ".")%char
      then v ← xtoi2 a b; w ← xtoi2 c d; vs ← mac_quads s'; Some (v :: w :: vs) else None
  | _ => None
  end.

(** [net.ParseMAC]. *)
Definition ParseMAC (s : string) : option (list Z) :=
  if (String.length s <? 14)%nat then None
  else
    let ok (r : option (list Z)) :=
      hw ← r;
      if (length hw =? 6)%nat || (length hw =? 8)%nat || (length hw =? 20)%nat
      then Some hw else None in
    match s with
    | String _ (String _ (String c rest)) =>
        if (c =? ":")%char || (c =? "-")%char then ok (mac_pairs s c)
        else match rest with
             | String _ (String e _) => if (e =? ".")%char then ok (mac_quads s) else None
             | _ => None
             end
    | _ => None
    end.

(** *** Printing *)

Definition hex_digit (n : Z) : ascii :=
  ascii_of_N (Z.to_N (if n <? 10 then 48 + n else 87 + n)).

(** A 16-bit group in lower-case hexadecimal, without leading zeros. *)
Definition hex16 (n : Z) : string :=
  let d i := hex_digit (Z.land (Z.shiftr n (4 * i)) 15) in
  if 4096 <=? n then String (d 3) (String (d 2) (String (d 1) (String (d 0) "")))
  else if 256 <=? n then String (d 2) (String (d 1) (String (d 0) ""))
  else if 16 <=? n then String (d 1) (String (d 0) "")
  else String (d 0) "".

(** [fmt.Sprintf] of a byte with the verb [%02x]. *)
Definition hex8 (n : Z) : string :=
  String (hex_digit (Z.land (Z.shiftr n 4) 15)) (String (hex_digit (Z.land n 15)) "").

Fixpoint groups16 (ip : list Z) : list Z :=
  match ip with a :: b :: ip => a * 256 + b :: groups16 ip | _ => [] end.

Fixpoint zero_run (g : list Z) : nat :=
  match g with 0 :: g => S (zero_run g) | _ => 0%nat end.

(** The first of the longest runs of two zero groups or more. *)
Fixpoint best_run (g : list Z) (i : nat) (best : nat * nat) : nat * nat :=
  match g with
  | [] => best
  | _ :: g' =>
      let l := zero_run g in
      best_run g' (S i) (if (2 <=? l)%nat && (best.2 <? l)%nat then (i, l) else best)
  end.

Definition string6 (ip : IP) : string :=
  let g := groups16 ip in
  let '(i, l) := best_run g 0 (0%nat, 0%nat) in
  if (l =? 0)%nat then Str.join (hex16 <$> g) ":"
  else Str.join (hex16 <$> take i g) ":" +:+ "::" +:+ Str.join (hex16 <$> drop (i + l) g) ":".

(** [ip.String()], of nil, of four bytes or of sixteen bytes. *)
Definition IP_String (ip : IP) : string :=
  if (length ip =? 0)%nat then "<nil>"
  else match To4 ip with
       | Some p4 => Str.join (Str.itoa <$> p4) "."
       | None => string6 ip
       end.

(** The number of leading ones, when the other bits are zero. *)
Definition simple_mask (m : IP) : option Z :=
  let bits := 8 * Z.of_nat (length m) in
  snd <$> list_find (fun n => m = CIDRMask n bits)
            (Z.of_nat <$> seq 0 (S (Z.to_nat bits))).

(** [n.String()] for a network whose mask is a prefix. *)
Definition IPNet_String (n : IPNet) : string :=
  let ip := default (IPNet_IP n) (To4 (IPNet_IP n)) in
  let m := if (length (IPNet_Mask n) =? 16)%nat && (length ip =? 4)%nat
           then drop 12 (IPNet_Mask n) else IPNet_Mask n in
  if negb (length ip =? length m)%nat then "<nil>"
  else match simple_mask m with
       | Some l => IP_String ip +:+ "/" +:+ Str.itoa l
       | None => IP_String ip +:+ "/" +:+ String.concat "" (hex8 <$> m)
       end.
End Net.

(** The parsers and printers on addresses of both families. *)
Example parse_ip_v4 : Net.ParseIP "192.168.1.10" = Some (Net.v4in6 ++ [192; 168; 1; 10]).
Proof. reflexivity. Qed.

Example parse_ip_bad :
  Net.ParseIP <$> ["1.2.3"; "1.2.3.4.5"; "01.2.3.4"; "256.1.1.1"; "1..2.3"; ""; "::1%eth0";
                   "1::2::3"; ":::"; "12345::"; "1:2:3:4:5:6:7:8::"; "1.2.3."; "fe80:"]
  = replicate 13 None.
Proof. reflexivity. Qed.

Example parse_ip_v6 :
  Net.IP_String <$> (omap Net.ParseIP ["2001:DB8:0:0:1::1"; "::"; "fe80::1"; "::ffff:1.2.3.4";
                                       "1:0:0:2:0:0:0:3"; "1:2:3:4:5:6:7:8"; "64:ff9b::1.2.3.4"])
  = ["2001:db8::1:0:0:1"; "::"; "fe80::1"; "1.2.3.4"; "1:0:0:2::3"; "1:2:3:4:5:6:7:8";
     "64:ff9b::102:304"].
Proof. vm_compute. reflexivity. Qed.

Example parse_cidr_net :
  (fun s => Net.IPNet_String ∘ snd <$> Net.ParseCIDR s)
    <$> ["10.1.2.3/8"; "2001:db8::1/64"; "10.0.0.1"; "10.0.0.1/33"; "0.0.0.0/0"; "::/0"]
  = [Some "10.0.0.0/8"; Some "2001:db8::/64"; None; None; Some "0.0.0.0/0"; Some "::/0"].
Proof. vm_compute. reflexivity. Qed.

Example parse_mac :
  Net.ParseMAC <$> ["00:11:22:aa:BB:ff"; "0011.22aa.bbff"; "00:11:22:aa:bb"; "00-11-22-aa-bb-ff";
                    "00:11-22:aa:bb:ff"]
  = [Some [0; 17; 34; 170; 187; 255]; Some [0; 17; 34; 170; 187; 255]; None;
     Some [0; 17; 34; 170; 187; 255]; None].
Proof. reflexivity. Qed.
