(* ===== verification/IpText.v ===== *)
(** * Texts made of words and addresses

    Lemmas on the functions of [Str] and [Net] that the files which read back a
    text they have printed share. *)

From Stdlib Require Import DecimalString.
From S2P Require Import Prelude GoStd GoNet.

(** ** Texts without spaces *)

Lemma no_space_app s t : no_space (s +:+ t) = no_space s && no_space t.
Proof. induction s as [|a s IH]; [done|]. rewrite str_app_cons. simpl. by rewrite IH, andb_assoc. Qed.

Lemma rev_app_spec s t : String.rev_app s t = String.rev s +:+ t.
Proof.
  unfold String.rev. revert t. induction s as [|a s IH]; intros t; [done|]. simpl.
  by rewrite IH, (IH (String a "")), str_app_assoc.
Qed.

Lemma str_rev_cons a s : String.rev (String a s) = String.rev s +:+ String a "".
Proof. unfold String.rev at 1. simpl. apply rev_app_spec. Qed.

Lemma str_rev_app s t : String.rev (s +:+ t) = String.rev t +:+ String.rev s.
Proof.
  induction s as [|a s IH]; [by rewrite str_app_nil_r|].
  by rewrite str_app_cons, !str_rev_cons, IH, str_app_assoc.
Qed.

Lemma str_rev_rev s : String.rev (String.rev s) = s.
Proof. induction s as [|a s IH]; [done|]. by rewrite str_rev_cons, str_rev_app, IH. Qed.

Lemma no_space_rev s : no_space (String.rev s) = no_space s.
Proof.
  induction s as [|a s IH]; [done|]. rewrite str_rev_cons, no_space_app, IH. simpl.
  by rewrite andb_true_r, andb_comm.
Qed.

Lemma trim_left_word w t : is_word w = true -> Str.trim_left (w +:+ t) = w +:+ t.
Proof. intros (a & r & -> & Ha & _)%is_word_cons. rewrite str_app_cons. simpl. by rewrite Ha. Qed.

Lemma is_word_rev w : is_word w = true -> is_word (String.rev w) = true.
Proof.
  unfold is_word. intros [Hn Hs]%andb_true_iff. rewrite no_space_rev, Hs, andb_true_r.
  destruct w as [|a w]; [done|]. rewrite str_rev_cons. by destruct (String.rev w).
Qed.

(** Two words with a text between them have no space around. *)
Lemma trim_space_words w1 m w2 :
  is_word w1 = true -> is_word w2 = true -> Str.trim_space (w1 +:+ m +:+ w2) = w1 +:+ m +:+ w2.
Proof.
  intros H1 H2. unfold Str.trim_space. rewrite trim_left_word by done.
  rewrite !str_rev_app, str_app_assoc, trim_left_word by by apply is_word_rev.
  by rewrite <-str_app_assoc, <-!str_rev_app, str_rev_rev.
Qed.

(** A line of a text. *)
Lemma split_line s c t :
  Str.contains_byte s c = false -> Str.split_byte (s +:+ String c t) c = s :: Str.split_byte t c.
Proof.
  induction s as [|a s IH]; intros Hs.
  - rewrite str_app_nil. simpl. by rewrite Ascii.eqb_refl.
  - rewrite str_app_cons. simpl in *. destruct (a =? c)%char; [done|]. by rewrite IH.
Qed.

Lemma contains_byte_app s t c : Str.contains_byte (s +:+ t) c = Str.contains_byte s c || Str.contains_byte t c.
Proof. induction s as [|a s IH]; [done|]. rewrite str_app_cons. simpl. by rewrite IH, orb_assoc. Qed.

Lemma contains_byte_no_space s c : no_space s = true -> Ascii.is_space c = true -> Str.contains_byte s c = false.
Proof.
  intros Hs Hc. induction s as [|a s IH]; [done|]. simpl in *. apply andb_true_iff in Hs as [Ha Hs].
  rewrite IH by done. destruct (Ascii.eqb_spec a c) as [->|]; [|done]. by rewrite Hc in Ha.
Qed.

(** ** Addresses *)

Definition is_byte (b : Z) : bool := (0 <=? b) && (b <? 256).

Lemma no_space_itoa z : no_space (Str.itoa z) = true.
Proof.
  unfold Str.itoa. assert (forall u, no_space (NilZero.string_of_uint u) = true) as Hu.
  { intros u. destruct u; [done|..]; apply no_space_digits. }
  destruct (Z.to_int z); simpl; apply Hu.
Qed.

Lemma no_space_join l sep :
  no_space sep = true -> Forall (fun w => no_space w = true) l -> no_space (Str.join l sep) = true.
Proof.
  intros Hs. induction 1 as [|w l Hw _ IH]; [done|]. simpl. destruct l; [done|].
  by rewrite !no_space_app, Hw, Hs, IH.
Qed.

Lemma is_space_hex_digit n : 0 <= n < 16 -> Ascii.is_space (Net.hex_digit n) = false.
Proof.
  intros Hn. assert (n ∈ (Z.of_nat <$> seq 0 16)) as Hin.
  { apply list_elem_of_fmap. exists (Z.to_nat n). split; [lia|]. apply elem_of_seq. lia. }
  clear Hn; revert n Hin. apply Forall_forall. repeat constructor.
Qed.

Lemma no_space_hex16 n : no_space (Net.hex16 n) = true.
Proof.
  assert (forall k, negb (Ascii.is_space (Net.hex_digit (Z.land k 15))) = true) as Hd.
  { intros k. rewrite is_space_hex_digit; [done|]. change 15 with (Z.ones 4). rewrite Z.land_ones by done.
    apply Z.mod_pos_bound. done. }
  unfold Net.hex16. repeat case_match; simpl no_space; by rewrite ?Hd.
Qed.

Lemma no_space_string6 ip : no_space (Net.string6 ip) = true.
Proof.
  assert (forall l, no_space (Str.join (Net.hex16 <$> l) ":") = true) as Hj.
  { intros l. apply no_space_join; [done|]. apply Forall_fmap, Forall_true. intros n. apply no_space_hex16. }
  unfold Net.string6. destruct (Net.best_run _ _ _) as [i l]. destruct (l =? 0)%nat; [done|].
  by rewrite !no_space_app, !Hj.
Qed.

Lemma no_space_IP_String ip : no_space (Net.IP_String ip) = true.
Proof.
  unfold Net.IP_String. destruct (length ip =? 0)%nat; [done|].
  destruct (Net.To4 ip) as [p4|]; [|apply no_space_string6].
  apply no_space_join; [done|]. apply Forall_fmap, Forall_true. intros b. apply no_space_itoa.
Qed.

Lemma elem_of_bytes b : is_byte b = true -> b ∈ (Z.of_nat <$> seq 0 256).
Proof.
  intros [?%Z.leb_le ?%Z.ltb_lt]%andb_true_iff. apply list_elem_of_fmap.
  exists (Z.to_nat b). split; [lia|]. apply elem_of_seq. lia.
Qed.

(** The digits of an octet, then the dot or the end of the text. *)
Lemma parse_v4_digits b rest fs :
  is_byte b = true ->
  Net.parse_v4_fields (Str.itoa b +:+ rest) 0 0 fs =
    Net.parse_v4_fields rest b (if b <? 10 then 1 else if b <? 100 then 2 else 3) fs.
Proof.
  intros Hb%elem_of_bytes. revert b Hb. apply Forall_forall. repeat constructor.
Qed.

Lemma parse_v4_octet b rest fs :
  is_byte b = true -> (length fs =? 3)%nat = false ->
  Net.parse_v4_fields (Str.itoa b +:+ String "." rest) 0 0 fs = Net.parse_v4_fields rest 0 0 (b :: fs).
Proof. intros Hb Hf. rewrite parse_v4_digits by done. simpl. rewrite Hf. by repeat case_match. Qed.

Lemma parse_v4_last b fs :
  is_byte b = true -> (length fs =? 3)%nat = true ->
  Net.parse_v4_fields (Str.itoa b) 0 0 fs = Some (rev (b :: fs)).
Proof.
  intros Hb Hf. rewrite <-(str_app_nil_r (Str.itoa b)), parse_v4_digits by done. simpl. rewrite Hf.
  by repeat case_match.
Qed.

Lemma addr_kind_itoa b t : 0 <= b -> Net.addr_kind (Str.itoa b +:+ String "." t) = "."%char.
Proof.
  intros Hb. destruct (Str_uint_of_to_uint b Hb) as (u & -> & _ & Hnil).
  assert (NilZero.string_of_uint u = NilEmpty.string_of_uint u) as -> by by destruct u.
  clear Hnil. induction u; [done|..]; simpl NilEmpty.string_of_uint; rewrite str_app_cons; simpl; done.
Qed.

(** An IPv4 address that is printed and parsed comes back in its form of sixteen
    bytes. *)
Lemma ParseIP_v4 a b c d :
  forallb is_byte [a; b; c; d] = true ->
  Net.ParseIP (Net.IP_String [a; b; c; d]) = Some (Net.v4in6 ++ [a; b; c; d]).
Proof.
  simpl. intros [Ha [Hb [Hc [Hd _]%andb_true_iff]%andb_true_iff]%andb_true_iff]%andb_true_iff.
  unfold Net.ParseIP, Net.parse_addr, Net.IP_String; simpl.
  assert (0 <= a) as Ha' by (apply andb_true_iff in Ha as [?%Z.leb_le _]; done).
  rewrite ?str_app_cons, ?str_app_nil.
  rewrite addr_kind_itoa by done. simpl. unfold Net.parse_v4.
  rewrite !parse_v4_octet by done. by rewrite parse_v4_last.
Qed.
