(* ===== verification/Config.v ===== *)
(** * The configuration data of netcfg (config/config.go)

    One Record per struct of config.go, with the fields of the struct in its
    order and the zero value of the struct.  The fields of [X] are named
    [X_Field].  A [*T] is [option T] ([ptr T] when T is a struct), a
    [map[string]T] is a [gomap T] and an [int] is a [Z]; the values are what
    [yaml.Unmarshal] builds, so nobody else holds a pointer into them. *)

From S2P Require Import Prelude GoStd.

(** The dynamic values that yaml.v3 decodes into an [interface{}]. *)
Inductive iface :=
| INil
| IBool (b : bool)
| IInt (z : Z)
| IFloat (repr : string)
| IString (s : string)
| IList (l : list iface)
| IMap (m : gmap string iface).

(* go: config/config.go 467-471 Match *)
Record Match := MkMatch {
  Match_Driver : string;
  Match_MacAddress : string;
  Match_Name : string
}.

Definition Match_zero : Match := {|
  Match_Driver := "";
  Match_MacAddress := "";
  Match_Name := ""
|}.

(* go: config/config.go 430-434 Address *)
Record Address := MkAddress {
  Address_CIDR : string;
  Address_Lifetime : string;
  Address_Label : string
}.

Definition Address_zero : Address := {|
  Address_CIDR := "";
  Address_Lifetime := "";
  Address_Label := ""
|}.

(* go: config/config.go 412-422 DHCPOverrides *)
Record DHCPOverrides := MkDHCPOverrides {
  DHCPOverrides_UseDNS : option bool;
  DHCPOverrides_UseNTP : option bool;
  DHCPOverrides_SendHostname : option bool;
  DHCPOverrides_UseHostname : option bool;
  DHCPOverrides_UseMTU : option bool;
  DHCPOverrides_Hostname : string;
  DHCPOverrides_UseRoutes : option bool;
  DHCPOverrides_RouteMetric : Z;
  DHCPOverrides_UseDomains : iface
}.

Definition DHCPOverrides_zero : DHCPOverrides := {|
  DHCPOverrides_UseDNS := None;
  DHCPOverrides_UseNTP := None;
  DHCPOverrides_SendHostname := None;
  DHCPOverrides_UseHostname := None;
  DHCPOverrides_UseMTU := None;
  DHCPOverrides_Hostname := "";
  DHCPOverrides_UseRoutes := None;
  DHCPOverrides_RouteMetric := 0;
  DHCPOverrides_UseDomains := INil
|}.

(* go: config/config.go 764-768 RouteEncap *)
Record RouteEncap := MkRouteEncap {
  RouteEncap_Type : string;
  RouteEncap_Mode : string;
  RouteEncap_Segments : list string
}.

Definition RouteEncap_zero : RouteEncap := {|
  RouteEncap_Type := "";
  RouteEncap_Mode := "";
  RouteEncap_Segments := []
|}.

(* go: config/config.go 748-761 Route *)
Record Route := MkRoute {
  Route_To : string;
  Route_Via : string;
  Route_From : string;
  Route_Metric : Z;
  Route_Table : Z;
  Route_Scope : string;
  Route_Type : string;
  Route_OnLink : option bool;
  Route_MTU : Z;
  Route_Encap : ptr RouteEncap
}.

Definition Route_zero : Route := {|
  Route_To := "";
  Route_Via := "";
  Route_From := "";
  Route_Metric := 0;
  Route_Table := 0;
  Route_Scope := "";
  Route_Type := "";
  Route_OnLink := None;
  Route_MTU := 0;
  Route_Encap := None
|}.

(* go: config/config.go 771-778 RoutingPolicy *)
Record RoutingPolicy := MkRoutingPolicy {
  RoutingPolicy_From : string;
  RoutingPolicy_To : string;
  RoutingPolicy_Table : Z;
  RoutingPolicy_Priority : Z;
  RoutingPolicy_Mark : Z;
  RoutingPolicy_TypeOfService : Z
}.

Definition RoutingPolicy_zero : RoutingPolicy := {|
  RoutingPolicy_From := "";
  RoutingPolicy_To := "";
  RoutingPolicy_Table := 0;
  RoutingPolicy_Priority := 0;
  RoutingPolicy_Mark := 0;
  RoutingPolicy_TypeOfService := 0
|}.

(* go: config/config.go 781-784 Nameservers *)
Record Nameservers := MkNameservers {
  Nameservers_Addresses : list string;
  Nameservers_Search : list string
}.

Definition Nameservers_zero : Nameservers := {|
  Nameservers_Addresses := [];
  Nameservers_Search := []
|}.

(* go: config/config.go 400-404 RAOverrides *)
Record RAOverrides := MkRAOverrides {
  RAOverrides_UseDNS : option bool;
  RAOverrides_UseDomains : iface;
  RAOverrides_Table : Z
}.

Definition RAOverrides_zero : RAOverrides := {|
  RAOverrides_UseDNS := None;
  RAOverrides_UseDomains := INil;
  RAOverrides_Table := 0
|}.

(* go: config/config.go 350-361 Auth *)
Record Auth := MkAuth {
  Auth_KeyManagement : string;
  Auth_Password : string;
  Auth_Method : string;
  Auth_Identity : string;
  Auth_AnonymousIdentity : string;
  Auth_CACertificate : string;
  Auth_ClientCertificate : string;
  Auth_ClientKey : string;
  Auth_ClientKeyPassword : string;
  Auth_Phase2Auth : string
}.

Definition Auth_zero : Auth := {|
  Auth_KeyManagement := "";
  Auth_Password := "";
  Auth_Method := "";
  Auth_Identity := "";
  Auth_AnonymousIdentity := "";
  Auth_CACertificate := "";
  Auth_ClientCertificate := "";
  Auth_ClientKey := "";
  Auth_ClientKeyPassword := "";
  Auth_Phase2Auth := ""
|}.

(* go: config/config.go 147-151 NDProxyRule *)
Record NDProxyRule := MkNDProxyRule {
  NDProxyRule_Prefix : string;
  NDProxyRule_Neighbor : string;
  NDProxyRule_Mode : string
}.

Definition NDProxyRule_zero : NDProxyRule := {|
  NDProxyRule_Prefix := "";
  NDProxyRule_Neighbor := "";
  NDProxyRule_Mode := ""
|}.

(* go: config/config.go 140-144 NDProxy *)
Record NDProxy := MkNDProxy {
  NDProxy_Addresses : list string;
  NDProxy_Router : option bool;
  NDProxy_Rules : list (ptr NDProxyRule)
}.

Definition NDProxy_zero : NDProxy := {|
  NDProxy_Addresses := [];
  NDProxy_Router := None;
  NDProxy_Rules := []
|}.

(* go: config/config.go 331-345 VPPDevice *)
Record VPPDevice := MkVPPDevice {
  VPPDevice_Mode : string;
  VPPDevice_HostIf : string;
  VPPDevice_PCI : string;
  VPPDevice_RxQueues : Z;
  VPPDevice_TxQueues : Z;
  VPPDevice_NumRxDesc : Z;
  VPPDevice_NumTxDesc : Z;
  VPPDevice_HostNS : string;
  VPPDevice_Socket : string;
  VPPDevice_ID : Z;
  VPPDevice_Role : string;
  VPPDevice_RingSize : Z;
  VPPDevice_BdID : Z
}.

Definition VPPDevice_zero : VPPDevice := {|
  VPPDevice_Mode := "";
  VPPDevice_HostIf := "";
  VPPDevice_PCI := "";
  VPPDevice_RxQueues := 0;
  VPPDevice_TxQueues := 0;
  VPPDevice_NumRxDesc := 0;
  VPPDevice_NumTxDesc := 0;
  VPPDevice_HostNS := "";
  VPPDevice_Socket := "";
  VPPDevice_ID := 0;
  VPPDevice_Role := "";
  VPPDevice_RingSize := 0;
  VPPDevice_BdID := 0
|}.

(* go: config/config.go 177-239 Ethernet *)
Record Ethernet := MkEthernet {
  Ethernet_Match : ptr Match;
  Ethernet_SetName : string;
  Ethernet_Addresses : list Address;
  Ethernet_DHCP4 : bool;
  Ethernet_DHCP6 : bool;
  Ethernet_DHCP4Overrides : ptr DHCPOverrides;
  Ethernet_DHCP6Overrides : ptr DHCPOverrides;
  Ethernet_Gateway4 : string;
  Ethernet_Gateway6 : string;
  Ethernet_MTU : Z;
  Ethernet_IPv6MTU : Z;
  Ethernet_MacAddress : string;
  Ethernet_Routes : list (ptr Route);
  Ethernet_RoutingPolicy : list (ptr RoutingPolicy);
  Ethernet_Nameservers : ptr Nameservers;
  Ethernet_Optional : bool;
  Ethernet_AcceptRA : option bool;
  Ethernet_RAOverrides : ptr RAOverrides;
  Ethernet_IPv6Privacy : option bool;
  Ethernet_IPv6AddrGen : string;
  Ethernet_IPv6AddrToken : string;
  Ethernet_LinkLocal : option (list string);
  Ethernet_Wakeonlan : bool;
  Ethernet_EmitLLDP : option bool;
  Ethernet_InfinibandMode : string;
  Ethernet_Auth : ptr Auth;
  Ethernet_Link : string;
  Ethernet_VirtualFunctionCount : Z;
  Ethernet_EmbeddedSwitchMode : string;
  Ethernet_DelayVFRebind : option bool;
  Ethernet_ReceiveChecksumOffload : option bool;
  Ethernet_TransmitChecksumOffload : option bool;
  Ethernet_TCPSegmentationOffload : option bool;
  Ethernet_TCP6SegmentationOffload : option bool;
  Ethernet_GenericSegmentationOffload : option bool;
  Ethernet_GenericReceiveOffload : option bool;
  Ethernet_LargeReceiveOffload : option bool;
  Ethernet_ActivationMode : string;
  Ethernet_DHCPIdentifier : string;
  Ethernet_IgnoreCarrier : option bool;
  Ethernet_Critical : option bool;
  Ethernet_OptionalAddresses : list string;
  Ethernet_NeighSuppress : option bool;
  Ethernet_Hairpin : option bool;
  Ethernet_PortMacLearning : option bool;
  Ethernet_NDProxy : ptr NDProxy;
  Ethernet_Renderer : string;
  Ethernet_VPP : ptr VPPDevice
}.

Definition Ethernet_zero : Ethernet := {|
  Ethernet_Match := None;
  Ethernet_SetName := "";
  Ethernet_Addresses := [];
  Ethernet_DHCP4 := false;
  Ethernet_DHCP6 := false;
  Ethernet_DHCP4Overrides := None;
  Ethernet_DHCP6Overrides := None;
  Ethernet_Gateway4 := "";
  Ethernet_Gateway6 := "";
  Ethernet_MTU := 0;
  Ethernet_IPv6MTU := 0;
  Ethernet_MacAddress := "";
  Ethernet_Routes := [];
  Ethernet_RoutingPolicy := [];
  Ethernet_Nameservers := None;
  Ethernet_Optional := false;
  Ethernet_AcceptRA := None;
  Ethernet_RAOverrides := None;
  Ethernet_IPv6Privacy := None;
  Ethernet_IPv6AddrGen := "";
  Ethernet_IPv6AddrToken := "";
  Ethernet_LinkLocal := None;
  Ethernet_Wakeonlan := false;
  Ethernet_EmitLLDP := None;
  Ethernet_InfinibandMode := "";
  Ethernet_Auth := None;
  Ethernet_Link := "";
  Ethernet_VirtualFunctionCount := 0;
  Ethernet_EmbeddedSwitchMode := "";
  Ethernet_DelayVFRebind := None;
  Ethernet_ReceiveChecksumOffload := None;
  Ethernet_TransmitChecksumOffload := None;
  Ethernet_TCPSegmentationOffload := None;
  Ethernet_TCP6SegmentationOffload := None;
  Ethernet_GenericSegmentationOffload := None;
  Ethernet_GenericReceiveOffload := None;
  Ethernet_LargeReceiveOffload := None;
  Ethernet_ActivationMode := "";
  Ethernet_DHCPIdentifier := "";
  Ethernet_IgnoreCarrier := None;
  Ethernet_Critical := None;
  Ethernet_OptionalAddresses := [];
  Ethernet_NeighSuppress := None;
  Ethernet_Hairpin := None;
  Ethernet_PortMacLearning := None;
  Ethernet_NDProxy := None;
  Ethernet_Renderer := "";
  Ethernet_VPP := None
|}.

(* go: config/config.go 382-390 AccessPoint *)
Record AccessPoint := MkAccessPoint {
  AccessPoint_Password : string;
  AccessPoint_Mode : string;
  AccessPoint_Band : string;
  AccessPoint_Channel : Z;
  AccessPoint_BSSID : string;
  AccessPoint_Hidden : bool;
  AccessPoint_Auth : ptr Auth
}.

Definition AccessPoint_zero : AccessPoint := {|
  AccessPoint_Password := "";
  AccessPoint_Mode := "";
  AccessPoint_Band := "";
  AccessPoint_Channel := 0;
  AccessPoint_BSSID := "";
  AccessPoint_Hidden := false;
  AccessPoint_Auth := None
|}.

(* go: config/config.go 365-379 Wifi *)
Record Wifi := MkWifi {
  Wifi_AccessPoints : gomap (ptr AccessPoint);
  Wifi_Addresses : list Address;
  Wifi_DHCP4 : bool;
  Wifi_DHCP6 : bool;
  Wifi_Gateway4 : string;
  Wifi_Gateway6 : string;
  Wifi_MTU : Z;
  Wifi_Routes : list (ptr Route);
  Wifi_Nameservers : ptr Nameservers;
  Wifi_AcceptRA : option bool;
  Wifi_LinkLocal : option (list string);
  Wifi_RegulatoryDomain : string;
  Wifi_Wakeonwlan : list string
}.

Definition Wifi_zero : Wifi := {|
  Wifi_AccessPoints := None;
  Wifi_Addresses := [];
  Wifi_DHCP4 := false;
  Wifi_DHCP6 := false;
  Wifi_Gateway4 := "";
  Wifi_Gateway6 := "";
  Wifi_MTU := 0;
  Wifi_Routes := [];
  Wifi_Nameservers := None;
  Wifi_AcceptRA := None;
  Wifi_LinkLocal := None;
  Wifi_RegulatoryDomain := "";
  Wifi_Wakeonwlan := []
|}.

(* go: config/config.go 495-502 VirtualEthernet *)
Record VirtualEthernet := MkVirtualEthernet {
  VirtualEthernet_Peer : string;
  VirtualEthernet_Addresses : list Address;
  VirtualEthernet_Routes : list (ptr Route);
  VirtualEthernet_MTU : Z;
  VirtualEthernet_MacAddress : string;
  VirtualEthernet_Nameservers : ptr Nameservers
}.

Definition VirtualEthernet_zero : VirtualEthernet := {|
  VirtualEthernet_Peer := "";
  VirtualEthernet_Addresses := [];
  VirtualEthernet_Routes := [];
  VirtualEthernet_MTU := 0;
  VirtualEthernet_MacAddress := "";
  VirtualEthernet_Nameservers := None
|}.

(* go: config/config.go 484-491 VethPeer *)
Record VethPeer := MkVethPeer {
  VethPeer_Name : string;
  VethPeer_Netns : string;
  VethPeer_Addresses : list Address;
  VethPeer_Routes : list (ptr Route);
  VethPeer_MTU : Z;
  VethPeer_MacAddress : string
}.

Definition VethPeer_zero : VethPeer := {|
  VethPeer_Name := "";
  VethPeer_Netns := "";
  VethPeer_Addresses := [];
  VethPeer_Routes := [];
  VethPeer_MTU := 0;
  VethPeer_MacAddress := ""
|}.

(* go: config/config.go 474-481 VethDevice *)
Record VethDevice := MkVethDevice {
  VethDevice_Addresses : list Address;
  VethDevice_Routes : list (ptr Route);
  VethDevice_MTU : Z;
  VethDevice_MacAddress : string;
  VethDevice_Peer : ptr VethPeer;
  VethDevice_Nameservers : ptr Nameservers
}.

Definition VethDevice_zero : VethDevice := {|
  VethDevice_Addresses := [];
  VethDevice_Routes := [];
  VethDevice_MTU := 0;
  VethDevice_MacAddress := "";
  VethDevice_Peer := None;
  VethDevice_Nameservers := None
|}.

(* go: config/config.go 505-513 MacvlanDevice *)
Record MacvlanDevice := MkMacvlanDevice {
  MacvlanDevice_Link : string;
  MacvlanDevice_Mode : string;
  MacvlanDevice_Addresses : list Address;
  MacvlanDevice_Routes : list (ptr Route);
  MacvlanDevice_MTU : Z;
  MacvlanDevice_MacAddress : string;
  MacvlanDevice_Nameservers : ptr Nameservers
}.

Definition MacvlanDevice_zero : MacvlanDevice := {|
  MacvlanDevice_Link := "";
  MacvlanDevice_Mode := "";
  MacvlanDevice_Addresses := [];
  MacvlanDevice_Routes := [];
  MacvlanDevice_MTU := 0;
  MacvlanDevice_MacAddress := "";
  MacvlanDevice_Nameservers := None
|}.

(* go: config/config.go 727-734 IpvlanDevice *)
Record IpvlanDevice := MkIpvlanDevice {
  IpvlanDevice_Link : string;
  IpvlanDevice_Mode : string;
  IpvlanDevice_Addresses : list Address;
  IpvlanDevice_Routes : list (ptr Route);
  IpvlanDevice_MTU : Z;
  IpvlanDevice_Nameservers : ptr Nameservers
}.

Definition IpvlanDevice_zero : IpvlanDevice := {|
  IpvlanDevice_Link := "";
  IpvlanDevice_Mode := "";
  IpvlanDevice_Addresses := [];
  IpvlanDevice_Routes := [];
  IpvlanDevice_MTU := 0;
  IpvlanDevice_Nameservers := None
|}.

(* go: config/config.go 535-544 BridgeParameters *)
Record BridgeParameters := MkBridgeParameters {
  BridgeParameters_STP : option bool;
  BridgeParameters_ForwardDelay : Z;
  BridgeParameters_HelloTime : Z;
  BridgeParameters_MaxAge : Z;
  BridgeParameters_Priority : Z;
  BridgeParameters_AgeingTime : Z;
  BridgeParameters_PathCost : gomap Z;
  BridgeParameters_PortPriority : gomap Z
}.

Definition BridgeParameters_zero : BridgeParameters := {|
  BridgeParameters_STP := None;
  BridgeParameters_ForwardDelay := 0;
  BridgeParameters_HelloTime := 0;
  BridgeParameters_MaxAge := 0;
  BridgeParameters_Priority := 0;
  BridgeParameters_AgeingTime := 0;
  BridgeParameters_PathCost := None;
  BridgeParameters_PortPriority := None
|}.

(* go: config/config.go 638-643 FDBEntry *)
Record FDBEntry := MkFDBEntry {
  FDBEntry_MAC : string;
  FDBEntry_Dst : string;
  FDBEntry_VNI : Z;
  FDBEntry_State : string
}.

Definition FDBEntry_zero : FDBEntry := {|
  FDBEntry_MAC := "";
  FDBEntry_Dst := "";
  FDBEntry_VNI := 0;
  FDBEntry_State := ""
|}.

(* go: config/config.go 646-650 NeighEntry *)
Record NeighEntry := MkNeighEntry {
  NeighEntry_IP : string;
  NeighEntry_MAC : string;
  NeighEntry_State : string
}.

Definition NeighEntry_zero : NeighEntry := {|
  NeighEntry_IP := "";
  NeighEntry_MAC := "";
  NeighEntry_State := ""
|}.

(* go: config/config.go 516-532 Bridge *)
Record Bridge := MkBridge {
  Bridge_Interfaces : list string;
  Bridge_Addresses : list Address;
  Bridge_Routes : list (ptr Route);
  Bridge_MTU : Z;
  Bridge_MacAddress : string;
  Bridge_Parameters : ptr BridgeParameters;
  Bridge_Nameservers : ptr Nameservers;
  Bridge_DHCP4 : bool;
  Bridge_DHCP6 : bool;
  Bridge_VlanFiltering : option bool;
  Bridge_FDB : list (ptr FDBEntry);
  Bridge_Neighbors : list (ptr NeighEntry);
  Bridge_NDProxy : ptr NDProxy;
  Bridge_Renderer : string;
  Bridge_VPP : ptr VPPDevice
}.

Definition Bridge_zero : Bridge := {|
  Bridge_Interfaces := [];
  Bridge_Addresses := [];
  Bridge_Routes := [];
  Bridge_MTU := 0;
  Bridge_MacAddress := "";
  Bridge_Parameters := None;
  Bridge_Nameservers := None;
  Bridge_DHCP4 := false;
  Bridge_DHCP6 := false;
  Bridge_VlanFiltering := None;
  Bridge_FDB := [];
  Bridge_Neighbors := [];
  Bridge_NDProxy := None;
  Bridge_Renderer := "";
  Bridge_VPP := None
|}.

(* go: config/config.go 563-584 BondParameters *)
Record BondParameters := MkBondParameters {
  BondParameters_Mode : string;
  BondParameters_LACPRate : string;
  BondParameters_MIIMonitorInterval : Z;
  BondParameters_MinLinks : Z;
  BondParameters_TransmitHashPolicy : string;
  BondParameters_ADSelect : string;
  BondParameters_AllSlavesActive : bool;
  BondParameters_ARPInterval : Z;
  BondParameters_ARPIPTargets : list string;
  BondParameters_ARPValidate : string;
  BondParameters_ARPAllTargets : string;
  BondParameters_UpDelay : Z;
  BondParameters_DownDelay : Z;
  BondParameters_FailOverMACPolicy : string;
  BondParameters_GratuitousARP : Z;
  BondParameters_PacketsPerSlave : Z;
  BondParameters_PrimaryReselectPolicy : string;
  BondParameters_ResendIGMP : Z;
  BondParameters_LearnPacketInterval : Z;
  BondParameters_Primary : string
}.

Definition BondParameters_zero : BondParameters := {|
  BondParameters_Mode := "";
  BondParameters_LACPRate := "";
  BondParameters_MIIMonitorInterval := 0;
  BondParameters_MinLinks := 0;
  BondParameters_TransmitHashPolicy := "";
  BondParameters_ADSelect := "";
  BondParameters_AllSlavesActive := false;
  BondParameters_ARPInterval := 0;
  BondParameters_ARPIPTargets := [];
  BondParameters_ARPValidate := "";
  BondParameters_ARPAllTargets := "";
  BondParameters_UpDelay := 0;
  BondParameters_DownDelay := 0;
  BondParameters_FailOverMACPolicy := "";
  BondParameters_GratuitousARP := 0;
  BondParameters_PacketsPerSlave := 0;
  BondParameters_PrimaryReselectPolicy := "";
  BondParameters_ResendIGMP := 0;
  BondParameters_LearnPacketInterval := 0;
  BondParameters_Primary := ""
|}.

(* go: config/config.go 547-560 Bond *)
Record Bond := MkBond {
  Bond_Interfaces : list string;
  Bond_Addresses : list Address;
  Bond_Routes : list (ptr Route);
  Bond_MTU : Z;
  Bond_MacAddress : string;
  Bond_Parameters : ptr BondParameters;
  Bond_Nameservers : ptr Nameservers;
  Bond_DHCP4 : bool;
  Bond_DHCP6 : bool;
  Bond_NDProxy : ptr NDProxy;
  Bond_Renderer : string;
  Bond_VPP : ptr VPPDevice
}.

Definition Bond_zero : Bond := {|
  Bond_Interfaces := [];
  Bond_Addresses := [];
  Bond_Routes := [];
  Bond_MTU := 0;
  Bond_MacAddress := "";
  Bond_Parameters := None;
  Bond_Nameservers := None;
  Bond_DHCP4 := false;
  Bond_DHCP6 := false;
  Bond_NDProxy := None;
  Bond_Renderer := "";
  Bond_VPP := None
|}.

(* go: config/config.go 587-600 Vlan *)
Record Vlan := MkVlan {
  Vlan_ID : Z;
  Vlan_Link : string;
  Vlan_Addresses : list Address;
  Vlan_Routes : list (ptr Route);
  Vlan_MTU : Z;
  Vlan_MacAddress : string;
  Vlan_Nameservers : ptr Nameservers;
  Vlan_DHCP4 : bool;
  Vlan_DHCP6 : bool;
  Vlan_NDProxy : ptr NDProxy;
  Vlan_Renderer : string;
  Vlan_VPP : ptr VPPDevice
}.

Definition Vlan_zero : Vlan := {|
  Vlan_ID := 0;
  Vlan_Link := "";
  Vlan_Addresses := [];
  Vlan_Routes := [];
  Vlan_MTU := 0;
  Vlan_MacAddress := "";
  Vlan_Nameservers := None;
  Vlan_DHCP4 := false;
  Vlan_DHCP6 := false;
  Vlan_NDProxy := None;
  Vlan_Renderer := "";
  Vlan_VPP := None
|}.

(* go: config/config.go 603-635 Vxlan *)
Record Vxlan := MkVxlan {
  Vxlan_ID : Z;
  Vxlan_Link : string;
  Vxlan_Local : string;
  Vxlan_Remote : string;
  Vxlan_Group : string;
  Vxlan_Port : Z;
  Vxlan_DestPort : Z;
  Vxlan_PortRange : list Z;
  Vxlan_TTL : Z;
  Vxlan_TOS : Z;
  Vxlan_Ageing : Z;
  Vxlan_Limit : Z;
  Vxlan_Learning : option bool;
  Vxlan_ARPProxy : option bool;
  Vxlan_NeighSuppress : option bool;
  Vxlan_L2miss : option bool;
  Vxlan_L3miss : option bool;
  Vxlan_RSC : option bool;
  Vxlan_NoAge : bool;
  Vxlan_GBP : bool;
  Vxlan_External : bool;
  Vxlan_UDPChecksum : bool;
  Vxlan_UDP6ZeroCSumTx : bool;
  Vxlan_UDP6ZeroCSumRx : bool;
  Vxlan_Addresses : list Address;
  Vxlan_Routes : list (ptr Route);
  Vxlan_MTU : Z;
  Vxlan_MacAddress : string;
  Vxlan_FDB : list (ptr FDBEntry);
  Vxlan_Neighbors : list (ptr NeighEntry);
  Vxlan_VPP : ptr VPPDevice
}.

Definition Vxlan_zero : Vxlan := {|
  Vxlan_ID := 0;
  Vxlan_Link := "";
  Vxlan_Local := "";
  Vxlan_Remote := "";
  Vxlan_Group := "";
  Vxlan_Port := 0;
  Vxlan_DestPort := 0;
  Vxlan_PortRange := [];
  Vxlan_TTL := 0;
  Vxlan_TOS := 0;
  Vxlan_Ageing := 0;
  Vxlan_Limit := 0;
  Vxlan_Learning := None;
  Vxlan_ARPProxy := None;
  Vxlan_NeighSuppress := None;
  Vxlan_L2miss := None;
  Vxlan_L3miss := None;
  Vxlan_RSC := None;
  Vxlan_NoAge := false;
  Vxlan_GBP := false;
  Vxlan_External := false;
  Vxlan_UDPChecksum := false;
  Vxlan_UDP6ZeroCSumTx := false;
  Vxlan_UDP6ZeroCSumRx := false;
  Vxlan_Addresses := [];
  Vxlan_Routes := [];
  Vxlan_MTU := 0;
  Vxlan_MacAddress := "";
  Vxlan_FDB := [];
  Vxlan_Neighbors := [];
  Vxlan_VPP := None
|}.

(* go: config/config.go 710-713 WireguardKeys *)
Record WireguardKeys := MkWireguardKeys {
  WireguardKeys_Public : string;
  WireguardKeys_Shared : string
}.

Definition WireguardKeys_zero : WireguardKeys := {|
  WireguardKeys_Public := "";
  WireguardKeys_Shared := ""
|}.

(* go: config/config.go 702-707 TunnelWireguardPeer *)
Record TunnelWireguardPeer := MkTunnelWireguardPeer {
  TunnelWireguardPeer_Keys : ptr WireguardKeys;
  TunnelWireguardPeer_Endpoint : string;
  TunnelWireguardPeer_AllowedIPs : list string;
  TunnelWireguardPeer_Keepalive : Z
}.

Definition TunnelWireguardPeer_zero : TunnelWireguardPeer := {|
  TunnelWireguardPeer_Keys := None;
  TunnelWireguardPeer_Endpoint := "";
  TunnelWireguardPeer_AllowedIPs := [];
  TunnelWireguardPeer_Keepalive := 0
|}.

(* go: config/config.go 653-698 Tunnel *)
Record Tunnel := MkTunnel {
  Tunnel_Mode : string;
  Tunnel_Local : string;
  Tunnel_Remote : string;
  Tunnel_TTL : Z;
  Tunnel_TOS : Z;
  Tunnel_Key : string;
  Tunnel_InputKey : string;
  Tunnel_OutputKey : string;
  Tunnel_Addresses : list Address;
  Tunnel_Routes : list (ptr Route);
  Tunnel_MTU : Z;
  Tunnel_Port : Z;
  Tunnel_Mark : Z;
  Tunnel_Peers : list (ptr TunnelWireguardPeer);
  Tunnel_ID : Z;
  Tunnel_Link : string;
  Tunnel_Group : string;
  Tunnel_DestPort : Z;
  Tunnel_PortRange : list Z;
  Tunnel_MacLearning : option bool;
  Tunnel_NeighSuppress : option bool;
  Tunnel_Ageing : Z;
  Tunnel_Limit : Z;
  Tunnel_ARPProxy : option bool;
  Tunnel_L2miss : option bool;
  Tunnel_L3miss : option bool;
  Tunnel_RSC : option bool;
  Tunnel_NoAge : bool;
  Tunnel_GBP : bool;
  Tunnel_External : bool;
  Tunnel_UDPChecksum : bool;
  Tunnel_UDP6ZeroCSumTx : bool;
  Tunnel_UDP6ZeroCSumRx : bool;
  Tunnel_MacAddress : string;
  Tunnel_FDB : list (ptr FDBEntry);
  Tunnel_Neighbors : list (ptr NeighEntry);
  Tunnel_Renderer : string;
  Tunnel_VPP : ptr VPPDevice
}.

Definition Tunnel_zero : Tunnel := {|
  Tunnel_Mode := "";
  Tunnel_Local := "";
  Tunnel_Remote := "";
  Tunnel_TTL := 0;
  Tunnel_TOS := 0;
  Tunnel_Key := "";
  Tunnel_InputKey := "";
  Tunnel_OutputKey := "";
  Tunnel_Addresses := [];
  Tunnel_Routes := [];
  Tunnel_MTU := 0;
  Tunnel_Port := 0;
  Tunnel_Mark := 0;
  Tunnel_Peers := [];
  Tunnel_ID := 0;
  Tunnel_Link := "";
  Tunnel_Group := "";
  Tunnel_DestPort := 0;
  Tunnel_PortRange := [];
  Tunnel_MacLearning := None;
  Tunnel_NeighSuppress := None;
  Tunnel_Ageing := 0;
  Tunnel_Limit := 0;
  Tunnel_ARPProxy := None;
  Tunnel_L2miss := None;
  Tunnel_L3miss := None;
  Tunnel_RSC := None;
  Tunnel_NoAge := false;
  Tunnel_GBP := false;
  Tunnel_External := false;
  Tunnel_UDPChecksum := false;
  Tunnel_UDP6ZeroCSumTx := false;
  Tunnel_UDP6ZeroCSumRx := false;
  Tunnel_MacAddress := "";
  Tunnel_FDB := [];
  Tunnel_Neighbors := [];
  Tunnel_Renderer := "";
  Tunnel_VPP := None
|}.

(* go: config/config.go 716-721 Vrf *)
Record Vrf := MkVrf {
  Vrf_Table : Z;
  Vrf_Interfaces : list string;
  Vrf_Routes : list (ptr Route);
  Vrf_RoutingPolicy : list (ptr RoutingPolicy)
}.

Definition Vrf_zero : Vrf := {|
  Vrf_Table := 0;
  Vrf_Interfaces := [];
  Vrf_Routes := [];
  Vrf_RoutingPolicy := []
|}.

(* go: config/config.go 737-745 TunTapDevice *)
Record TunTapDevice := MkTunTapDevice {
  TunTapDevice_Addresses : list Address;
  TunTapDevice_Routes : list (ptr Route);
  TunTapDevice_MTU : Z;
  TunTapDevice_User : string;
  TunTapDevice_Group : string;
  TunTapDevice_MultiQueue : bool;
  TunTapDevice_Nameservers : ptr Nameservers
}.

Definition TunTapDevice_zero : TunTapDevice := {|
  TunTapDevice_Addresses := [];
  TunTapDevice_Routes := [];
  TunTapDevice_MTU := 0;
  TunTapDevice_User := "";
  TunTapDevice_Group := "";
  TunTapDevice_MultiQueue := false;
  TunTapDevice_Nameservers := None
|}.

(* go: config/config.go 324-327 VPPDpdk *)
Record VPPDpdk := MkVPPDpdk {
  VPPDpdk_UioDriver : string;
  VPPDpdk_Dev : list string
}.

Definition VPPDpdk_zero : VPPDpdk := {|
  VPPDpdk_UioDriver := "";
  VPPDpdk_Dev := []
|}.

(* go: config/config.go 315-321 VPPStartup *)
Record VPPStartup := MkVPPStartup {
  VPPStartup_MainCore : option Z;
  VPPStartup_Workers : option Z;
  VPPStartup_CorelistWorkers : string;
  VPPStartup_Hugepages : Z;
  VPPStartup_Dpdk : ptr VPPDpdk
}.

Definition VPPStartup_zero : VPPStartup := {|
  VPPStartup_MainCore := None;
  VPPStartup_Workers := None;
  VPPStartup_CorelistWorkers := "";
  VPPStartup_Hugepages := 0;
  VPPStartup_Dpdk := None
|}.

(* go: config/config.go 269-272 NatInterface *)
Record NatInterface := MkNatInterface {
  NatInterface_Name : string;
  NatInterface_Role : string
}.

Definition NatInterface_zero : NatInterface := {|
  NatInterface_Name := "";
  NatInterface_Role := ""
|}.

(* go: config/config.go 275-280 NatPool *)
Record NatPool := MkNatPool {
  NatPool_Start : string;
  NatPool_End : string;
  NatPool_TwiceNat : option bool;
  NatPool_VRF : Z
}.

Definition NatPool_zero : NatPool := {|
  NatPool_Start := "";
  NatPool_End := "";
  NatPool_TwiceNat := None;
  NatPool_VRF := 0
|}.

(* go: config/config.go 283-292 NatStatic *)
Record NatStatic := MkNatStatic {
  NatStatic_Proto : string;
  NatStatic_Local : string;
  NatStatic_LocalPort : Z;
  NatStatic_External : string;
  NatStatic_ExternalInterface : string;
  NatStatic_ExternalPort : Z;
  NatStatic_TwiceNat : option bool;
  NatStatic_VRF : Z
}.

Definition NatStatic_zero : NatStatic := {|
  NatStatic_Proto := "";
  NatStatic_Local := "";
  NatStatic_LocalPort := 0;
  NatStatic_External := "";
  NatStatic_ExternalInterface := "";
  NatStatic_ExternalPort := 0;
  NatStatic_TwiceNat := None;
  NatStatic_VRF := 0
|}.

(* go: config/config.go 257-266 Nat44 *)
Record Nat44 := MkNat44 {
  Nat44_Enable : option bool;
  Nat44_Mode : string;
  Nat44_Sessions : Z;
  Nat44_InsideVRF : Z;
  Nat44_OutsideVRF : Z;
  Nat44_Interfaces : list (ptr NatInterface);
  Nat44_Pools : list (ptr NatPool);
  Nat44_Static : list (ptr NatStatic)
}.

Definition Nat44_zero : Nat44 := {|
  Nat44_Enable := None;
  Nat44_Mode := "";
  Nat44_Sessions := 0;
  Nat44_InsideVRF := 0;
  Nat44_OutsideVRF := 0;
  Nat44_Interfaces := [];
  Nat44_Pools := [];
  Nat44_Static := []
|}.

(* go: config/config.go 295-300 Nat64 *)
Record Nat64 := MkNat64 {
  Nat64_Enable : option bool;
  Nat64_Prefix : string;
  Nat64_Interfaces : list (ptr NatInterface);
  Nat64_Pools : list (ptr NatPool)
}.

Definition Nat64_zero : Nat64 := {|
  Nat64_Enable := None;
  Nat64_Prefix := "";
  Nat64_Interfaces := [];
  Nat64_Pools := []
|}.

(* go: config/config.go 308-312 Nat66Static *)
Record Nat66Static := MkNat66Static {
  Nat66Static_Local : string;
  Nat66Static_External : string;
  Nat66Static_VRF : Z
}.

Definition Nat66Static_zero : Nat66Static := {|
  Nat66Static_Local := "";
  Nat66Static_External := "";
  Nat66Static_VRF := 0
|}.

(* go: config/config.go 303-305 Nat66 *)
Record Nat66 := MkNat66 {
  Nat66_Static : list (ptr Nat66Static)
}.

Definition Nat66_zero : Nat66 := {|
  Nat66_Static := []
|}.

(* go: config/config.go 250-254 VPPNat *)
Record VPPNat := MkVPPNat {
  VPPNat_Nat44 : ptr Nat44;
  VPPNat_Nat64 : ptr Nat64;
  VPPNat_Nat66 : ptr Nat66
}.

Definition VPPNat_zero : VPPNat := {|
  VPPNat_Nat44 := None;
  VPPNat_Nat64 := None;
  VPPNat_Nat66 := None
|}.

(* go: config/config.go 242-247 VPPGlobal *)
Record VPPGlobal := MkVPPGlobal {
  VPPGlobal_APISocket : string;
  VPPGlobal_Reconnect : option bool;
  VPPGlobal_Startup : ptr VPPStartup;
  VPPGlobal_NAT : ptr VPPNat
}.

Definition VPPGlobal_zero : VPPGlobal := {|
  VPPGlobal_APISocket := "";
  VPPGlobal_Reconnect := None;
  VPPGlobal_Startup := None;
  VPPGlobal_NAT := None
|}.

(* go: config/config.go 126-137 SRv6LocalSID *)
Record SRv6LocalSID := MkSRv6LocalSID {
  SRv6LocalSID_SID : string;
  SRv6LocalSID_Action : string;
  SRv6LocalSID_Table : Z;
  SRv6LocalSID_VRFTable : Z;
  SRv6LocalSID_NH4 : string;
  SRv6LocalSID_NH6 : string;
  SRv6LocalSID_IIF : string;
  SRv6LocalSID_OIF : string;
  SRv6LocalSID_Segments : list string;
  SRv6LocalSID_Dev : string
}.

Definition SRv6LocalSID_zero : SRv6LocalSID := {|
  SRv6LocalSID_SID := "";
  SRv6LocalSID_Action := "";
  SRv6LocalSID_Table := 0;
  SRv6LocalSID_VRFTable := 0;
  SRv6LocalSID_NH4 := "";
  SRv6LocalSID_NH6 := "";
  SRv6LocalSID_IIF := "";
  SRv6LocalSID_OIF := "";
  SRv6LocalSID_Segments := [];
  SRv6LocalSID_Dev := ""
|}.

(* go: config/config.go 117-122 SRv6Config *)
Record SRv6Config := MkSRv6Config {
  SRv6Config_Enabled : option bool;
  SRv6Config_Interfaces : list string;
  SRv6Config_Device : string;
  SRv6Config_LocalSIDs : list (ptr SRv6LocalSID)
}.

Definition SRv6Config_zero : SRv6Config := {|
  SRv6Config_Enabled := None;
  SRv6Config_Interfaces := [];
  SRv6Config_Device := "";
  SRv6Config_LocalSIDs := []
|}.

(* go: config/config.go 154-174 Namespace *)
Record Namespace := MkNamespace {
  Namespace_Loopback : ptr Ethernet;
  Namespace_Ethernets : gomap (ptr Ethernet);
  Namespace_Wifis : gomap (ptr Wifi);
  Namespace_DummyDevices : gomap (ptr Ethernet);
  Namespace_VirtualEthernets : gomap (ptr VirtualEthernet);
  Namespace_VethDevices : gomap (ptr VethDevice);
  Namespace_MacvlanDevices : gomap (ptr MacvlanDevice);
  Namespace_MacvtapDevices : gomap (ptr MacvlanDevice);
  Namespace_IpvlanDevices : gomap (ptr IpvlanDevice);
  Namespace_Bridges : gomap (ptr Bridge);
  Namespace_Bonds : gomap (ptr Bond);
  Namespace_Vlans : gomap (ptr Vlan);
  Namespace_Vxlans : gomap (ptr Vxlan);
  Namespace_Tunnels : gomap (ptr Tunnel);
  Namespace_Vrfs : gomap (ptr Vrf);
  Namespace_TunDevices : gomap (ptr TunTapDevice);
  Namespace_TapDevices : gomap (ptr TunTapDevice);
  Namespace_SRv6 : ptr SRv6Config;
  Namespace_PostScript : string
}.

Definition Namespace_zero : Namespace := {|
  Namespace_Loopback := None;
  Namespace_Ethernets := None;
  Namespace_Wifis := None;
  Namespace_DummyDevices := None;
  Namespace_VirtualEthernets := None;
  Namespace_VethDevices := None;
  Namespace_MacvlanDevices := None;
  Namespace_MacvtapDevices := None;
  Namespace_IpvlanDevices := None;
  Namespace_Bridges := None;
  Namespace_Bonds := None;
  Namespace_Vlans := None;
  Namespace_Vxlans := None;
  Namespace_Tunnels := None;
  Namespace_Vrfs := None;
  Namespace_TunDevices := None;
  Namespace_TapDevices := None;
  Namespace_SRv6 := None;
  Namespace_PostScript := ""
|}.

(* go: config/config.go 84-114 Network *)
Record Network := MkNetwork {
  Network_Version : Z;
  Network_Renderer : string;
  Network_Ethernets : gomap (ptr Ethernet);
  Network_Wifis : gomap (ptr Wifi);
  Network_DummyDevices : gomap (ptr Ethernet);
  Network_VirtualEthernets : gomap (ptr VirtualEthernet);
  Network_VethDevices : gomap (ptr VethDevice);
  Network_MacvlanDevices : gomap (ptr MacvlanDevice);
  Network_MacvtapDevices : gomap (ptr MacvlanDevice);
  Network_IpvlanDevices : gomap (ptr IpvlanDevice);
  Network_Bridges : gomap (ptr Bridge);
  Network_Bonds : gomap (ptr Bond);
  Network_Vlans : gomap (ptr Vlan);
  Network_Vxlans : gomap (ptr Vxlan);
  Network_Tunnels : gomap (ptr Tunnel);
  Network_Vrfs : gomap (ptr Vrf);
  Network_TunDevices : gomap (ptr TunTapDevice);
  Network_TapDevices : gomap (ptr TunTapDevice);
  Network_VPP : ptr VPPGlobal;
  Network_SRv6 : ptr SRv6Config;
  Network_Netns : gomap (ptr Namespace)
}.

Definition Network_zero : Network := {|
  Network_Version := 0;
  Network_Renderer := "";
  Network_Ethernets := None;
  Network_Wifis := None;
  Network_DummyDevices := None;
  Network_VirtualEthernets := None;
  Network_VethDevices := None;
  Network_MacvlanDevices := None;
  Network_MacvtapDevices := None;
  Network_IpvlanDevices := None;
  Network_Bridges := None;
  Network_Bonds := None;
  Network_Vlans := None;
  Network_Vxlans := None;
  Network_Tunnels := None;
  Network_Vrfs := None;
  Network_TunDevices := None;
  Network_TapDevices := None;
  Network_VPP := None;
  Network_SRv6 := None;
  Network_Netns := None
|}.

(* go: config/config.go 75-81 Config *)
Record Config := MkConfig {
  Config_Network : Network;
  Config_Netns : gomap (ptr Namespace)
}.

Definition Config_zero : Config := {|
  Config_Network := Network_zero;
  Config_Netns := None
|}.

