(* ===== verification/Validate.v ===== *)
(** * Validation of the configuration (config/srv6.go, config/ndp.go, config/vpp.go)

    Each validator returns the first error it meets; the first [option] of its
    result is a panic, the second Go's [error].  The loops over maps take their
    order from [RangeOrder], so the theorems hold for every order.

    The specification of each validator is a proposition on the configuration
    ([srv6_valid], [ndproxy_valid], [vpp_valid]). *)

From S2P Require Import Prelude GoStd GoNet Effect Config.

(** ** config/srv6.go *)

Module SRv6.
(* go: config/srv6.go 17-29 srv6Actions *)
Definition srv6Actions (action : string) : option (list string) :=
  if Str.eqb action "End" then Some []
  else if Str.eqb action "End.X" then Some ["nh6"]
  else if Str.eqb action "End.T" then Some ["table"]
  else if Str.eqb action "End.DX2" then Some ["oif"]
  else if Str.eqb action "End.DX4" then Some ["nh4"]
  else if Str.eqb action "End.DX6" then Some ["nh6"]
  else if Str.eqb action "End.DT4" then Some ["vrf-table"]
  else if Str.eqb action "End.DT6" then Some ["table"]
  else if Str.eqb action "End.DT46" then Some ["vrf-table"]
  else if Str.eqb action "End.B6" then Some ["segments"]
  else if Str.eqb action "End.B6.Encaps" then Some ["segments"]
  else None.

(* go: config/srv6.go 31-32 isIPv6 *)
Definition isIPv6 (s : string) : bool :=
  match Net.ParseIP s with
  | Some ip => match Net.To4 ip with Some _ => false | None => true end
  | None => false
  end.

(* go: config/srv6.go 33-33 isIPv4 *)
Definition isIPv4 (s : string) : bool :=
  match Net.ParseIP s with
  | Some ip => match Net.To4 ip with Some _ => true | None => false end
  | None => false
  end.

(** The loops over segments: the error for the first bad one. *)
Definition first_bad (l : list string) (mk : string -> error) : err :=
  match filter (fun s => isIPv6 s = false) l with
  | [] => None
  | s :: _ => Some (mk s)
  end.

(* go: config/srv6.go 35-57 ValidateRouteEncap *)
Definition ValidateRouteEncap (e : ptr RouteEncap) : err :=
  match e with
  | None => None
  | Some e =>
      if negb (Str.equal_fold (RouteEncap_Type e) "seg6") then
        Some (EMsg "route encap type %q unsupported (only 'seg6')" [RouteEncap_Type e])
      else
        let m := Str.to_lower (RouteEncap_Mode e) in
        if negb (Str.eqb m "" || Str.eqb m "encap" || Str.eqb m "inline") then
          Some (EMsg "seg6 encap mode %q invalid (encap|inline)" [RouteEncap_Mode e])
        else match RouteEncap_Segments e with
             | [] => Some (EMsg "seg6 encap requires at least one segment" [])
             | segs => first_bad segs
                         (fun s => EMsg "seg6 segment %q is not a valid IPv6 address" [s])
             end
  end.

(** The requirement that a field name of [srv6Actions] stands for. *)
(* go: config/srv6.go 77-104 validateLocalSID *)
Definition check_field (s : SRv6LocalSID) (field : string) : err :=
  let bad fmt := Some (EMsg fmt [SRv6LocalSID_SID s; SRv6LocalSID_Action s]) in
  if Str.eqb field "table" then
    if SRv6LocalSID_Table s <=? 0 then bad "srv6 %s (%s) requires table > 0" else None
  else if Str.eqb field "vrf-table" then
    if SRv6LocalSID_VRFTable s <=? 0 then bad "srv6 %s (%s) requires vrf-table > 0" else None
  else if Str.eqb field "nh4" then
    if isIPv4 (SRv6LocalSID_NH4 s) then None
    else bad "srv6 %s (%s) requires nh4 to be a valid IPv4 address"
  else if Str.eqb field "nh6" then
    if isIPv6 (SRv6LocalSID_NH6 s) then None
    else bad "srv6 %s (%s) requires nh6 to be a valid IPv6 address"
  else if Str.eqb field "oif" then
    if Str.is_empty (SRv6LocalSID_OIF s) then bad "srv6 %s (%s) requires oif" else None
  else if Str.eqb field "segments" then
    match SRv6LocalSID_Segments s with
    | [] => bad "srv6 %s (%s) requires segments"
    | _ => None
    end
  else None.

Fixpoint check_fields (s : SRv6LocalSID) (fields : list string) : err :=
  match fields with
  | [] => None
  | f :: fs => match check_field s f with Some e => Some e | None => check_fields s fs end
  end.

(* go: config/srv6.go 59-116 validateLocalSID *)
Definition validateLocalSID (s : ptr SRv6LocalSID) : pan err :=
  s ← s;
  let id := SRv6LocalSID_SID s in
  Some
    (if Str.is_empty id then Some (EMsg "srv6 local-sid missing sid" [])
     else if negb (isIPv6 (Str.before_byte id "/")) then
       Some (EMsg "srv6 local-sid sid %q is not a valid IPv6 address" [id])
     else match srv6Actions (SRv6LocalSID_Action s) with
          | None => Some (EMsg "srv6 local-sid %s: unknown action %q" [id; SRv6LocalSID_Action s])
          | Some req =>
              match check_fields s req with
              | Some e => Some e
              | None =>
                  let nh4 := SRv6LocalSID_NH4 s in
                  let nh6 := SRv6LocalSID_NH6 s in
                  if negb (Str.is_empty nh4) && negb (isIPv4 nh4) then
                    Some (EMsg "srv6 %s: nh4 %q is not a valid IPv4 address" [id; nh4])
                  else if negb (Str.is_empty nh6) && negb (isIPv6 nh6) then
                    Some (EMsg "srv6 %s: nh6 %q is not a valid IPv6 address" [id; nh6])
                  else first_bad (SRv6LocalSID_Segments s)
                         (fun seg => EMsg "srv6 %s: segment %q is not a valid IPv6 address" [id; seg])
              end
          end).

(** The loop of [validateSRv6Config]; [seen] is the local map [seen]. *)
Fixpoint check_sids (scope : string) (seen : gset string) (l : list (ptr SRv6LocalSID)) : pan err :=
  match l with
  | [] => Some None
  | p :: l =>
      e ← validateLocalSID p;
      match e with
      | Some e => Some (Some (EWrap "%s: %w" [scope] e))
      | None =>
          s ← p;
          let key := Str.before_byte (SRv6LocalSID_SID s) "/" in
          if bool_decide (key ∈ seen) then
            Some (Some (EMsg "%s: duplicate srv6 local-sid %s" [scope; SRv6LocalSID_SID s]))
          else check_sids scope ({[key]} ∪ seen) l
      end
  end.

(* go: config/srv6.go 118-135 validateSRv6Config *)
Definition validateSRv6Config (c : ptr SRv6Config) (scope : string) : pan err :=
  match c with
  | None => Some None
  | Some c => check_sids scope ∅ (SRv6Config_LocalSIDs c)
  end.

(* go: config/srv6.go 137-151 ValidateSRv6 *)
Definition ValidateSRv6 `{RangeOrder} (cfg : Config) : pan err :=
  e ← validateSRv6Config (Network_SRv6 (Config_Network cfg)) "srv6";
  match e with
  | Some e => Some (Some e)
  | None =>
      check_pan (gm_range 142 (Network_Netns (Config_Network cfg))) (fun '(name, ns) =>
        match ns with
        | None => Some None
        | Some ns => validateSRv6Config (Namespace_SRv6 ns) ("netns " +:+ name +:+ " srv6")
        end)
  end.

(** *** Specification *)

(** What an endpoint behaviour needs of its local SID. *)
Definition field_present (s : SRv6LocalSID) (field : string) : Prop :=
  (field = "table" -> 0 < SRv6LocalSID_Table s) /\
  (field = "vrf-table" -> 0 < SRv6LocalSID_VRFTable s) /\
  (field = "nh4" -> isIPv4 (SRv6LocalSID_NH4 s) = true) /\
  (field = "nh6" -> isIPv6 (SRv6LocalSID_NH6 s) = true) /\
  (field = "oif" -> SRv6LocalSID_OIF s <> "") /\
  (field = "segments" -> SRv6LocalSID_Segments s <> []).

Definition local_sid_valid (s : SRv6LocalSID) : Prop :=
  isIPv6 (Str.before_byte (SRv6LocalSID_SID s) "/") = true /\
  (exists req, srv6Actions (SRv6LocalSID_Action s) = Some req /\ Forall (field_present s) req) /\
  (SRv6LocalSID_NH4 s <> "" -> isIPv4 (SRv6LocalSID_NH4 s) = true) /\
  (SRv6LocalSID_NH6 s <> "" -> isIPv6 (SRv6LocalSID_NH6 s) = true) /\
  Forall (fun seg => isIPv6 seg = true) (SRv6LocalSID_Segments s).

(** An srv6 section: every SID is there and valid, and no address appears twice. *)
Definition srv6_section_valid (c : ptr SRv6Config) : Prop :=
  match c with
  | None => True
  | Some c =>
      exists sids, SRv6Config_LocalSIDs c = Some <$> sids /\
        Forall local_sid_valid sids /\
        NoDup ((fun s => Str.before_byte (SRv6LocalSID_SID s) "/") <$> sids)
  end.

Definition srv6_valid (cfg : Config) : Prop :=
  srv6_section_valid (Network_SRv6 (Config_Network cfg)) /\
  forall name ns, gm_get (Network_Netns (Config_Network cfg)) name = Some (Some ns) ->
    srv6_section_valid (Namespace_SRv6 ns).
End SRv6.

Section srv6_proofs.
Import SRv6.

Lemma first_bad_ok l mk : first_bad l mk = None <-> Forall (fun s => isIPv6 s = true) l.
Proof.
  unfold first_bad. induction l as [|s l IH]; [done|]. rewrite Forall_cons, filter_cons.
  destruct (isIPv6 s); case_decide; naive_solver.
Qed.

Lemma check_field_ok s f : check_field s f = None <-> field_present s f.
Proof.
  unfold check_field, field_present, Str.eqb.
  repeat match goal with
    |- context [String.eqb ?x ?y] => destruct (String.eqb_spec x y) as [->|?] end.
  - destruct (Z.leb_spec (SRv6LocalSID_Table s) 0); naive_solver lia.
  - destruct (Z.leb_spec (SRv6LocalSID_VRFTable s) 0); naive_solver lia.
  - case_match; naive_solver.
  - case_match; naive_solver.
  - destruct (SRv6LocalSID_OIF s); naive_solver.
  - destruct (SRv6LocalSID_Segments s); naive_solver.
  - naive_solver.
Qed.

Lemma check_fields_ok s req : check_fields s req = None <-> Forall (field_present s) req.
Proof.
  induction req as [|f req IH]; [done|]. rewrite Forall_cons, <-check_field_ok, <-IH. simpl.
  destruct (check_field s f); clear IH; naive_solver.
Qed.

Lemma is_empty_false s : Str.is_empty s = false <-> s <> "".
Proof. by destruct s. Qed.

(** A guard [x != "" && !ok(x)] that does not fire. *)
Lemma optional_ok s (b : bool) : negb (Str.is_empty s) && negb b = false <-> (s <> "" -> b = true).
Proof. destruct s, b; naive_solver. Qed.

Lemma validateLocalSID_valid s : validateLocalSID (Some s) = Some None <-> local_sid_valid s.
Proof.
  unfold validateLocalSID, local_sid_valid. simpl. rewrite <-!optional_ok, <-(first_bad_ok _
    (fun seg => EMsg "srv6 %s: segment %q is not a valid IPv6 address" [SRv6LocalSID_SID s; seg])).
  destruct (Str.is_empty _) eqn:He.
  { destruct (SRv6LocalSID_SID s); naive_solver. }
  destruct (isIPv6 (Str.before_byte _ _)); simpl; [|naive_solver].
  destruct (srv6Actions _) as [req|]; [|naive_solver].
  pose proof (check_fields_ok s req) as Hf. destruct (check_fields s req) as [e|].
  - split; [done|]. intros (_ & (req' & [= <-] & Hr) & _). by apply Hf in Hr.
  - pose proof (proj1 Hf eq_refl) as Hreq. clear Hf. split_matches; [naive_solver|naive_solver|].
    split; [intros [= Hs]; by eauto 10|by intros (_ & _ & _ & _ & ->)].
Qed.

Lemma check_sids_ok scope seen l :
  check_sids scope seen l = Some None <->
  exists sids, l = Some <$> sids /\ Forall local_sid_valid sids /\
    NoDup ((fun s => Str.before_byte (SRv6LocalSID_SID s) "/") <$> sids) /\
    Forall (fun s => Str.before_byte (SRv6LocalSID_SID s) "/" ∉ seen) sids.
Proof.
  revert seen. induction l as [|[s|] l IH]; intros seen.
  - simpl. split; [|done]. exists []. split_and!; constructor.
  - pose proof (validateLocalSID_valid s) as Hs. cbn [check_sids].
    destruct (validateLocalSID (Some s)) as [[e|]|] eqn:Hv; simpl.
    + split; [done|]. intros ([|s' sids] & ? & Hf & _); simplify_eq/=.
      apply Forall_cons in Hf as [Hf _]. by apply Hs in Hf.
    + case_bool_decide as Hin.
      * split; [done|]. intros ([|s' sids] & ? & _ & _ & Hf); simplify_eq/=.
        by apply Forall_cons in Hf as [Hf _].
      * rewrite IH. split.
        -- intros (sids & -> & Hf & Hn & Hs'). exists (s :: sids). split_and!; [done| | |].
           ++ constructor; [by apply Hs|done].
           ++ rewrite fmap_cons. constructor; [|done]. rewrite list_elem_of_fmap.
              intros (s' & Heq & Hs'in). rewrite Forall_forall in Hs'.
              apply Hs' in Hs'in. set_solver.
           ++ constructor; [done|]. eapply Forall_impl; [done|]. set_solver.
        -- intros ([|s' sids] & ? & Hf & Hn & Hs'); simplify_eq/=.
           apply Forall_cons in Hf as [? Hf], Hs' as [? Hs']. apply NoDup_cons in Hn as [Hni Hn].
           exists sids. split_and!; [done..|]. rewrite Forall_forall in *. intros s2 Hs2.
           apply not_elem_of_union. split; [|by apply Hs'].
           rewrite not_elem_of_singleton. intros Heq. apply Hni. rewrite <-Heq.
           apply list_elem_of_fmap. eauto.
    + unfold validateLocalSID in Hv. done.
  - simpl. split; [done|]. by intros ([|s' sids] & ? & _).
Qed.

Lemma validateSRv6Config_ok c scope :
  validateSRv6Config c scope = Some None <-> srv6_section_valid c.
Proof.
  destruct c as [c|]; [|done]. unfold validateSRv6Config, srv6_section_valid.
  rewrite check_sids_ok. split; [naive_solver|]. intros (sids & ? & ? & ?). exists sids.
  split_and!; [done..|]. apply Forall_forall. set_solver.
Qed.
End srv6_proofs.

Lemma ValidateSRv6_iff `{RangeOrder} (cfg : Config) :
  SRv6.ValidateSRv6 cfg = Some None <-> SRv6.srv6_valid cfg.
Proof.
  unfold SRv6.ValidateSRv6, SRv6.srv6_valid. rewrite <-(validateSRv6Config_ok _ "srv6").
  destruct (SRv6.validateSRv6Config _ _) as [[e|]|]; simpl; [naive_solver| |naive_solver].
  rewrite check_pan_range_ok. split.
  - intros Hns. split; [done|]. intros name ns Hl. apply Hns in Hl.
    by eapply validateSRv6Config_ok.
  - intros [_ Hns] name [ns|] Hl; [|done]. by eapply validateSRv6Config_ok, Hns.
Qed.

(** C29: [ValidateSRv6] accepts a configuration, without a panic, iff every srv6
    section of the default and of the named namespaces is well formed: each
    local SID is an IPv6 address, its behaviour is known and has the fields it
    requires, every optional address given is of the right family, and no
    address is used by two SIDs of a section.  This holds for every order in
    which the namespaces are visited. *)
Theorem ValidateSRv6_correct `{RangeOrder} (cfg : Config) :
  SRv6.ValidateSRv6 cfg = Some None <-> SRv6.srv6_valid cfg.
Proof. apply ValidateSRv6_iff. Qed.

(** ** config/ndp.go *)

Module NDP.
Import SRv6.

(** The body of the loop over the rules. *)
(* go: config/ndp.go 25-40 validateNDProxyBlock *)
Definition validateRule (scope : string) (r : ptr NDProxyRule) : pan err :=
  r ← r;
  let bad_prefix :=
    Some (EMsg "%s: ndp-proxy rule prefix %q is not a valid IPv6 CIDR" [scope; NDProxyRule_Prefix r]) in
  let check_mode :=
    let m := NDProxyRule_Mode r in
    if Str.eqb m "" || Str.eqb m "static" || Str.eqb m "auto" then None
    else Some (EMsg "%s: ndp-proxy rule mode %q invalid (static|auto)" [scope; m]) in
  Some
    match Net.ParseCIDR (NDProxyRule_Prefix r) with
    | None => bad_prefix
    | Some (ip, _) =>
        match Net.To4 ip with
        | Some _ => bad_prefix
        | None =>
            if negb (Str.is_empty (NDProxyRule_Neighbor r)) then
              match Net.ParseMAC (NDProxyRule_Neighbor r) with
              | None => Some (EWrap "%s: ndp-proxy rule neighbor %q is not a valid MAC: %w"
                                [scope; NDProxyRule_Neighbor r]
                                (EMsg "address %s: invalid MAC address" [NDProxyRule_Neighbor r]))
              | Some _ => check_mode
              end
            else check_mode
        end
    end.

(* go: config/ndp.go 15-42 validateNDProxyBlock *)
Definition validateNDProxyBlock (scope : string) (n : ptr NDProxy) : pan err :=
  match n with
  | None => Some None
  | Some n =>
      match first_bad (NDProxy_Addresses n)
              (fun a => EMsg "%s: ndp-proxy address %q is not a valid IPv6 address" [scope; a]) with
      | Some e => Some (Some e)
      | None => check_pan (NDProxy_Rules n) (validateRule scope)
      end
  end.

(** One of the four loops of [ndProxyDevices]. *)
Definition check_devices `{RangeOrder} {A} (site : Z) (m : gomap (ptr A)) (get : A -> ptr NDProxy)
    (scope : string) : pan err :=
  check_pan (gm_range site m) (fun '(n, d) => d ← d; validateNDProxyBlock (scope +:+ n) (get d)).

(* go: config/ndp.go 44-67 ndProxyDevices *)
Definition ndProxyDevices `{RangeOrder} (eth : gomap (ptr Ethernet)) (vl : gomap (ptr Vlan))
    (br : gomap (ptr Bridge)) (bo : gomap (ptr Bond)) (scope : string) : pan err :=
  check_pan
    [check_devices 46 eth Ethernet_NDProxy (scope +:+ " ethernet ");
     check_devices 51 vl Vlan_NDProxy (scope +:+ " vlan ");
     check_devices 56 br Bridge_NDProxy (scope +:+ " bridge ");
     check_devices 61 bo Bond_NDProxy (scope +:+ " bond ")] id.

(* go: config/ndp.go 69-84 ValidateNDProxy *)
Definition ValidateNDProxy `{RangeOrder} (cfg : Config) : pan err :=
  let n := Config_Network cfg in
  e ← ndProxyDevices (Network_Ethernets n) (Network_Vlans n) (Network_Bridges n) (Network_Bonds n)
        "ndp-proxy";
  match e with
  | Some e => Some (Some e)
  | None =>
      check_pan (gm_range 75 (Network_Netns n)) (fun '(name, ns) =>
        match ns with
        | None => Some None
        | Some ns => ndProxyDevices (Namespace_Ethernets ns) (Namespace_Vlans ns)
                       (Namespace_Bridges ns) (Namespace_Bonds ns) ("netns " +:+ name)
        end)
  end.

(** *** Specification *)

Definition rule_valid (r : NDProxyRule) : Prop :=
  (exists ip net, Net.ParseCIDR (NDProxyRule_Prefix r) = Some (ip, net) /\ Net.To4 ip = None) /\
  (NDProxyRule_Neighbor r <> "" -> is_Some (Net.ParseMAC (NDProxyRule_Neighbor r))) /\
  NDProxyRule_Mode r ∈ [""; "static"; "auto"].

Definition block_valid (n : ptr NDProxy) : Prop :=
  match n with
  | None => True
  | Some n =>
      Forall (fun a => isIPv6 a = true) (NDProxy_Addresses n) /\
      Forall (fun r => exists r', r = Some r' /\ rule_valid r') (NDProxy_Rules n)
  end.

(** Every entry of a map of devices is there and has a valid block. *)
Definition devices_valid {A} (m : gomap (ptr A)) (get : A -> ptr NDProxy) : Prop :=
  forall name d, gm_get m name = Some d -> exists d', d = Some d' /\ block_valid (get d').

Definition four_valid (eth : gomap (ptr Ethernet)) (vl : gomap (ptr Vlan))
    (br : gomap (ptr Bridge)) (bo : gomap (ptr Bond)) : Prop :=
  devices_valid eth Ethernet_NDProxy /\ devices_valid vl Vlan_NDProxy /\
  devices_valid br Bridge_NDProxy /\ devices_valid bo Bond_NDProxy.

Definition ndproxy_valid (cfg : Config) : Prop :=
  let n := Config_Network cfg in
  four_valid (Network_Ethernets n) (Network_Vlans n) (Network_Bridges n) (Network_Bonds n) /\
  forall name ns, gm_get (Network_Netns n) name = Some (Some ns) ->
    four_valid (Namespace_Ethernets ns) (Namespace_Vlans ns) (Namespace_Bridges ns)
      (Namespace_Bonds ns).
End NDP.

Section ndp_proofs.
Import SRv6 NDP.
Context `{RangeOrder}.

Lemma validateRule_ok scope r :
  validateRule scope (Some r) = Some None <-> rule_valid r.
Proof.
  unfold validateRule, rule_valid, Str.eqb. simpl. rewrite !elem_of_cons, elem_of_nil.
  destruct (Net.ParseCIDR _) as [[ip net]|]; [|naive_solver].
  destruct (Net.To4 ip) eqn:?; [naive_solver|].
  pose proof (is_empty_false (NDProxyRule_Neighbor r)) as Hne.
  assert (forall e, Some (if (NDProxyRule_Mode r =? "")%string || (NDProxyRule_Mode r =? "static")%string
            || (NDProxyRule_Mode r =? "auto")%string then (None : err) else Some e) = Some None <->
          (NDProxyRule_Mode r = "" \/ NDProxyRule_Mode r = "static" \/ NDProxyRule_Mode r = "auto" \/ False))
    as Hm.
  { intros e. repeat match goal with
      |- context [String.eqb ?x ?y] => destruct (String.eqb_spec x y) as [->|?] end; naive_solver. }
  destruct (Str.is_empty _); simpl; [|destruct (Net.ParseMAC _)].
  - rewrite Hm. naive_solver.
  - rewrite Hm. naive_solver.
  - split; [done|]. intros (_ & Hsome & _). apply proj1 in Hne.
    destruct (Hsome (Hne eq_refl)); done.
Qed.

Lemma validateNDProxyBlock_ok scope n :
  validateNDProxyBlock scope n = Some None <-> block_valid n.
Proof.
  destruct n as [n|]; [|done]. unfold validateNDProxyBlock, block_valid.
  rewrite <-(first_bad_ok _ (fun a =>
    EMsg "%s: ndp-proxy address %q is not a valid IPv6 address" [scope; a])).
  destruct (first_bad _ _) as [e|]; [naive_solver|]. rewrite check_pan_ok.
  assert (forall r, validateRule scope r = Some None <-> exists r', r = Some r' /\ rule_valid r')
    as Hr.
  { intros [r|]; [rewrite validateRule_ok; naive_solver|]. simpl. naive_solver. }
  setoid_rewrite Hr. naive_solver.
Qed.

Lemma check_devices_ok {A} site (m : gomap (ptr A)) get scope :
  check_devices site m get scope = Some None <-> devices_valid m get.
Proof.
  unfold check_devices, devices_valid. rewrite check_pan_range_ok.
  assert (forall name d, (d ← d; validateNDProxyBlock (scope +:+ name) (get d)) = Some None <->
    exists d', d = Some d' /\ block_valid (get d')) as Hd.
  { intros name [d|]; simpl; [rewrite validateNDProxyBlock_ok|]; naive_solver. }
  by setoid_rewrite Hd.
Qed.

Lemma ndProxyDevices_ok eth vl br bo scope :
  ndProxyDevices eth vl br bo scope = Some None <-> four_valid eth vl br bo.
Proof.
  unfold ndProxyDevices, four_valid.
  rewrite check_pan_ok, !Forall_cons, Forall_nil. unfold id.
  rewrite !check_devices_ok. naive_solver.
Qed.
End ndp_proofs.

Lemma ValidateNDProxy_iff `{RangeOrder} (cfg : Config) :
  NDP.ValidateNDProxy cfg = Some None <-> NDP.ndproxy_valid cfg.
Proof.
  unfold NDP.ValidateNDProxy, NDP.ndproxy_valid. rewrite <-(ndProxyDevices_ok _ _ _ _ "ndp-proxy").
  destruct (NDP.ndProxyDevices _ _ _ _ _) as [[e|]|]; simpl; [naive_solver| |naive_solver].
  rewrite check_pan_range_ok. split.
  - intros Hns. split; [done|]. intros name ns Hl. apply Hns in Hl.
    by eapply ndProxyDevices_ok.
  - intros [_ Hns] name [ns|] Hl; [|done]. by eapply ndProxyDevices_ok, Hns.
Qed.

(** C30: [ValidateNDProxy] accepts a configuration, without a panic, iff no
    entry of the four kinds of devices is null and every ndp-proxy block is
    well formed: its addresses are IPv6 addresses, the prefix of each rule is
    an IPv6 CIDR, its neighbour (if any) a MAC and its mode empty, static or
    auto. *)
Theorem ValidateNDProxy_correct `{RangeOrder} (cfg : Config) :
  NDP.ValidateNDProxy cfg = Some None <-> NDP.ndproxy_valid cfg.
Proof. apply ValidateNDProxy_iff. Qed.

(** ** config/vpp.go *)

Module VPP.
(* go: config/vpp.go 17-20 DpdkDev *)
Record DpdkDev := MkDpdkDev { DpdkDev_Name : string; DpdkDev_PCI : string }.

Definition nl : string := String (Str.byte 10) "".

Definition opt_int (fmt : string) (v : option Z) : string :=
  match v with Some v => fmt +:+ Str.itoa v +:+ nl | None => "" end.

(** The cpu section of startup.conf. *)
(* go: config/vpp.go 36-51 GenerateStartupConf *)
Definition cpu_section (g : ptr VPPGlobal) : string :=
  match g ≫= VPPGlobal_Startup with
  | None => ""
  | Some s =>
      let corelist := VPPStartup_CorelistWorkers s in
      if bool_decide (VPPStartup_MainCore s <> None) || bool_decide (VPPStartup_Workers s <> None)
         || negb (Str.is_empty corelist) then
        "cpu {" +:+ nl +:+ opt_int "  main-core " (VPPStartup_MainCore s) +:+
        (if negb (Str.is_empty corelist) then "  corelist-workers " +:+ corelist +:+ nl
         else opt_int "  workers " (VPPStartup_Workers s)) +:+ "}" +:+ nl
      else ""
  end.

(** The uio driver and the explicit devices of startup.dpdk. *)
Definition g_dpdk (g : ptr VPPGlobal) : ptr VPPDpdk := (g ≫= VPPGlobal_Startup) ≫= VPPStartup_Dpdk.

(* go: config/vpp.go 53-79 GenerateStartupConf *)
Definition dpdk_section `{SliceSort} (g : ptr VPPGlobal) (dpdkDevs : list DpdkDev) : string :=
  let uio := match g_dpdk g with
             | Some d => if negb (Str.is_empty (VPPDpdk_UioDriver d)) then VPPDpdk_UioDriver d
                         else "vfio-pci"
             | None => "vfio-pci" end in
  let explicit := match g_dpdk g with Some d => MkDpdkDev "" <$> VPPDpdk_Dev d | None => [] end in
  let devs := dpdkDevs ++ explicit in
  match devs with
  | [] => ""
  | _ =>
      "dpdk {" +:+ nl +:+ "  uio-driver " +:+ uio +:+ nl +:+
      String.concat ""
        ((fun d => if negb (Str.is_empty (DpdkDev_Name d))
                   then "  dev " +:+ DpdkDev_PCI d +:+ " {" +:+ nl +:+ "    name " +:+ DpdkDev_Name d
                          +:+ nl +:+ "  }" +:+ nl
                   else "  dev " +:+ DpdkDev_PCI d +:+ nl)
           <$> sort_slice 68 (fun a b => (DpdkDev_PCI a <? DpdkDev_PCI b)%string) devs)
      +:+ "}" +:+ nl
  end.

(* go: config/vpp.go 22-81 GenerateStartupConf *)
Definition GenerateStartupConf `{SliceSort} (g : ptr VPPGlobal) (dpdkDevs : list DpdkDev) : string :=
  let apiSock := match g with
                 | Some g => if negb (Str.is_empty (VPPGlobal_APISocket g))
                             then VPPGlobal_APISocket g else "/run/vpp/api.sock"
                 | None => "/run/vpp/api.sock" end in
  "# Generated by netcfg — do not edit by hand" +:+ nl +:+
  "unix {" +:+ nl +:+ "  nodaemon" +:+ nl +:+ "  log /var/log/vpp/vpp.log" +:+ nl +:+
  "  full-coredump" +:+ nl +:+ "  cli-listen /run/vpp/cli.sock" +:+ nl +:+ "  gid vpp" +:+ nl +:+
  "}" +:+ nl +:+ "api-segment {" +:+ nl +:+ "  gid vpp" +:+ nl +:+ "}" +:+ nl +:+
  "socksvr {" +:+ nl +:+ "  socket-name " +:+ apiSock +:+ nl +:+ "}" +:+ nl +:+
  cpu_section g +:+ dpdk_section g dpdkDevs.

(* go: config/vpp.go 83-93 vppModes *)
Definition vppModes (m : string) : bool :=
  existsb (Str.eqb m) [""; "af-packet"; "dpdk"; "avf"; "rdma"; "tap"; "loopback"; "memif"].

(* go: config/vpp.go 95-107 VPPManaged *)
Definition VPPManaged (deviceVPP : ptr VPPDevice) (deviceRenderer globalRenderer : string) : bool :=
  match deviceVPP with
  | Some _ => true
  | None =>
      let r := if Str.is_empty deviceRenderer then globalRenderer else deviceRenderer in
      Str.equal_fold r "vpp"
  end.

(* go: config/vpp.go 109-128 ValidateVPPDevice *)
Definition ValidateVPPDevice (name : string) (d : ptr VPPDevice) : err :=
  match d with
  | None => None
  | Some d =>
      let m := Str.to_lower (VPPDevice_Mode d) in
      if negb (vppModes m) then
        Some (EMsg "vpp device %q: unknown mode %q (want af-packet/dpdk/avf/rdma/tap/loopback/memif)"
                [name; VPPDevice_Mode d])
      else if (Str.eqb m "dpdk" || Str.eqb m "avf") && Str.is_empty (VPPDevice_PCI d) then
        Some (EMsg "vpp device %q: mode %q requires 'pci'" [name; m])
      else if Str.eqb m "memif" && Str.is_empty (VPPDevice_Socket d) then
        Some (EMsg "vpp device %q: mode memif requires 'socket'" [name])
      else if negb (Str.is_empty (VPPDevice_Role d)) && negb (Str.eqb (VPPDevice_Role d) "master")
              && negb (Str.eqb (VPPDevice_Role d) "slave") then
        Some (EMsg "vpp device %q: invalid role %q (want master/slave)" [name; VPPDevice_Role d])
      else None
  end.

(* go: config/vpp.go 206-212 validateNat *)
Definition roleOK (r : string) : bool :=
  let r := Str.to_lower r in Str.eqb r "inside" || Str.eqb r "outside" || Str.eqb r "output".

(* go: config/vpp.go 217-221 validateNat *)
Definition validateNatInterfaces (fmt : string) (l : list (ptr NatInterface)) : pan err :=
  check_pan l (fun i =>
    i ← i;
    Some (if roleOK (NatInterface_Role i) then None
          else Some (EMsg fmt [NatInterface_Name i; NatInterface_Role i]))).

(* go: config/vpp.go 222-233 validateNat *)
Definition validateNatStatic (s : ptr NatStatic) : pan err :=
  s ← s;
  let p := Str.to_lower (NatStatic_Proto s) in
  Some
    (if negb (Str.is_empty (NatStatic_Proto s)) &&
        negb (Str.eqb p "tcp" || Str.eqb p "udp" || Str.eqb p "icmp") then
       Some (EMsg "vpp.nat.nat44 static %s: invalid proto %q (want tcp/udp/icmp)"
               [NatStatic_Local s; NatStatic_Proto s])
     else if Str.is_empty (NatStatic_External s) && Str.is_empty (NatStatic_ExternalInterface s) then
       Some (EMsg "vpp.nat.nat44 static %s: need 'external' or 'external-interface'" [NatStatic_Local s])
     else None).

(* go: config/vpp.go 213-234 validateNat *)
Definition validateNat44 (n : Nat44) : pan err :=
  let m := Nat44_Mode n in
  if negb (Str.is_empty m) && negb (Str.equal_fold m "ed") && negb (Str.equal_fold m "ei") then
    Some (Some (EMsg "vpp.nat.nat44: invalid mode %q (want ed/ei)" [m]))
  else
    check_pan
      [validateNatInterfaces
         "vpp.nat.nat44 interface %q: invalid role %q (want inside/outside/output)" (Nat44_Interfaces n);
       check_pan (Nat44_Static n) validateNatStatic] id.

(* go: config/vpp.go 204-243 validateNat *)
Definition validateNat (nat : VPPNat) : pan err :=
  check_pan
    [match VPPNat_Nat44 nat with Some n => validateNat44 n | None => Some None end;
     match VPPNat_Nat64 nat with
     | Some n => validateNatInterfaces "vpp.nat.nat64 interface %q: invalid role %q" (Nat64_Interfaces n)
     | None => Some None
     end] id.

(* go: config/vpp.go 137-141 ValidateVPP *)
Record devVPP := MkdevVPP { dev_name : string; dev_renderer : string; dev_vpp : ptr VPPDevice }.

(** One of the five loops that build [devs]: nil entries are skipped. *)
Definition collect {A} (entries : list (string * ptr A)) (renderer : A -> string)
    (vpp : A -> ptr VPPDevice) : list devVPP :=
  omap (fun '(name, e) => e ← e; Some (MkdevVPP name (renderer e) (vpp e))) entries.

(* go: config/vpp.go 142-168 ValidateVPP *)
Definition vpp_devs `{RangeOrder, SliceSort} (n : Network) : list devVPP :=
  sort_slice 168 (fun a b => (dev_name a <? dev_name b)%string)
    (collect (gm_range 143 (Network_Ethernets n)) Ethernet_Renderer Ethernet_VPP ++
     collect (gm_range 148 (Network_Bridges n)) Bridge_Renderer Bridge_VPP ++
     collect (gm_range 153 (Network_Bonds n)) Bond_Renderer Bond_VPP ++
     collect (gm_range 158 (Network_Vlans n)) Vlan_Renderer Vlan_VPP ++
     collect (gm_range 163 (Network_Tunnels n)) Tunnel_Renderer Tunnel_VPP).

(** A claim of a resource that must not be empty nor taken. *)
Definition claim (fmt : string) (owners : gmap string string) (key name : string)
    : res (gmap string string) :=
  if Str.is_empty key then Ok owners
  else match owners !! key with
       | Some owner => Err (EMsg fmt [key; owner; name])
       | None => Ok (<[key := name]> owners)
       end.

(** The loop of [ValidateVPP]; the maps are its [pciOwner] and [hostIfOwner]. *)
(* go: config/vpp.go 170-196 ValidateVPP *)
Fixpoint check_devs (g : string) (pciOwner hostIfOwner : gmap string string) (devs : list devVPP) : err :=
  match devs with
  | [] => None
  | d :: devs =>
      if negb (VPPManaged (dev_vpp d) (dev_renderer d) g) then check_devs g pciOwner hostIfOwner devs
      else match ValidateVPPDevice (dev_name d) (dev_vpp d) with
           | Some e => Some e
           | None =>
               match dev_vpp d with
               | None => check_devs g pciOwner hostIfOwner devs
               | Some v =>
                   match claim "vpp: pci %s claimed by both %q and %q" pciOwner (VPPDevice_PCI v) (dev_name d) with
                   | Err e => Some e
                   | Ok pciOwner =>
                       match claim "vpp: host-if %s claimed by both %q and %q" hostIfOwner
                               (VPPDevice_HostIf v) (dev_name d) with
                       | Err e => Some e
                       | Ok hostIfOwner => check_devs g pciOwner hostIfOwner devs
                       end
                   end
               end
           end
  end.

(* go: config/vpp.go 130-202 ValidateVPP *)
Definition ValidateVPP `{RangeOrder, SliceSort} (cfg : Config) : pan err :=
  let n := Config_Network cfg in
  match check_devs (Network_Renderer n) ∅ ∅ (vpp_devs n) with
  | Some e => Some (Some e)
  | None =>
      match Network_VPP n ≫= VPPGlobal_NAT with
      | Some nat => validateNat nat
      | None => Some None
      end
  end.
(** *** Specification *)

Definition vpp_block_valid (d : VPPDevice) : Prop :=
  let m := Str.to_lower (VPPDevice_Mode d) in
  vppModes m = true /\
  (m = "dpdk" \/ m = "avf" -> VPPDevice_PCI d <> "") /\
  (m = "memif" -> VPPDevice_Socket d <> "") /\
  VPPDevice_Role d ∈ [""; "master"; "slave"].

(** The devices of the default namespace that ValidateVPP looks at. *)
Definition vpp_entries (n : Network) : list devVPP :=
  collect (gm_list (Network_Ethernets n)) Ethernet_Renderer Ethernet_VPP ++
  collect (gm_list (Network_Bridges n)) Bridge_Renderer Bridge_VPP ++
  collect (gm_list (Network_Bonds n)) Bond_Renderer Bond_VPP ++
  collect (gm_list (Network_Vlans n)) Vlan_Renderer Vlan_VPP ++
  collect (gm_list (Network_Tunnels n)) Tunnel_Renderer Tunnel_VPP.

(** The non-empty values of a field of the vpp blocks of some devices. *)
Definition claims (get : VPPDevice -> string) (l : list devVPP) : list string :=
  omap (fun d => v ← dev_vpp d; if Str.is_empty (get v) then None else Some (get v)) l.

Definition devs_valid (l : list devVPP) : Prop :=
  Forall (fun d => forall v, dev_vpp d = Some v -> vpp_block_valid v) l /\
  NoDup (claims VPPDevice_PCI l) /\ NoDup (claims VPPDevice_HostIf l).

Definition nat_interface_valid (i : ptr NatInterface) : Prop :=
  exists i', i = Some i' /\ Str.to_lower (NatInterface_Role i') ∈ ["inside"; "outside"; "output"].

Definition nat_static_valid (s : ptr NatStatic) : Prop :=
  exists s', s = Some s' /\
    (NatStatic_Proto s' = "" \/ Str.to_lower (NatStatic_Proto s') ∈ ["tcp"; "udp"; "icmp"]) /\
    (NatStatic_External s' <> "" \/ NatStatic_ExternalInterface s' <> "").

Definition nat_valid (nat : VPPNat) : Prop :=
  (forall n, VPPNat_Nat44 nat = Some n ->
     (Nat44_Mode n = "" \/ Str.equal_fold (Nat44_Mode n) "ed" = true \/
      Str.equal_fold (Nat44_Mode n) "ei" = true) /\
     Forall nat_interface_valid (Nat44_Interfaces n) /\
     Forall nat_static_valid (Nat44_Static n)) /\
  (forall n, VPPNat_Nat64 nat = Some n -> Forall nat_interface_valid (Nat64_Interfaces n)).

Definition vpp_valid (cfg : Config) : Prop :=
  devs_valid (vpp_entries (Config_Network cfg)) /\
  forall g nat, Network_VPP (Config_Network cfg) = Some g -> VPPGlobal_NAT g = Some nat ->
    nat_valid nat.
End VPP.

Section vpp_proofs.
Import SRv6 VPP.

Lemma str_eqb_true s t : Str.eqb s t = true <-> s = t.
Proof. apply String.eqb_eq. Qed.

(** Reads the boolean guards of a validator as propositions. *)
Ltac guards :=
  repeat (rewrite ?not_true_iff_false, ?negb_true_iff, ?negb_false_iff, ?andb_true_iff,
    ?andb_false_iff, ?orb_true_iff, ?orb_false_iff, ?str_eqb_true, ?is_empty_false in *).

Lemma is_empty_true s : Str.is_empty s = true <-> s = "".
Proof. by destruct s. Qed.

Lemma str_eqb_false s t : Str.eqb s t = false <-> s <> t.
Proof. apply String.eqb_neq. Qed.

Lemma ValidateVPPDevice_ok name d :
  ValidateVPPDevice name (Some d) = None <-> vpp_block_valid d.
Proof.
  unfold ValidateVPPDevice, vpp_block_valid. rewrite !elem_of_cons, elem_of_nil.
  destruct (vppModes _); simpl; [|naive_solver].
  destruct ((_ || _) && _) eqn:H1; [|destruct (Str.eqb _ "memif" && _) eqn:H2;
    [|destruct (negb _ && _ && _) eqn:H3]];
    repeat rewrite ?andb_true_iff, ?andb_false_iff, ?orb_true_iff, ?orb_false_iff, ?negb_true_iff,
      ?negb_false_iff, ?str_eqb_true, ?str_eqb_false, ?is_empty_false, ?is_empty_true in *.
  - naive_solver.
  - naive_solver.
  - naive_solver.
  - naive_solver.
Qed.

Lemma claim_ok fmt owners key name owners' :
  claim fmt owners key name = Ok owners' <->
  (key = "" /\ owners' = owners) \/
  (key <> "" /\ (key ∉ dom owners) /\ owners' = (<[key := name]> owners)).
Proof.
  unfold claim. destruct (Str.is_empty key) eqn:He.
  - apply is_empty_true in He. naive_solver.
  - apply is_empty_false in He. rewrite not_elem_of_dom. destruct (owners !! key); naive_solver.
Qed.

Lemma claims_cons get d l :
  claims get (d :: l) =
    match dev_vpp d with
    | Some v => if Str.is_empty (get v) then claims get l else get v :: claims get l
    | None => claims get l
    end.
Proof. unfold claims. simpl. destruct (dev_vpp d); simpl; [by destruct (Str.is_empty _)|done]. Qed.

(** The claims that are left are new and distinct. *)
Definition fresh_claims (owners : gmap string string) (l : list string) : Prop :=
  NoDup l /\ Forall (fun k => k ∉ dom owners) l.

Lemma fresh_claims_cons owners owners' fmt key name l :
  claim fmt owners key name = Ok owners' ->
  fresh_claims owners' l <->
  fresh_claims owners (if Str.is_empty key then l else key :: l).
Proof.
  intros [[-> ->]|(Hne & Hni & ->)]%claim_ok; [done|]. apply is_empty_false in Hne. rewrite Hne.
  unfold fresh_claims. rewrite NoDup_cons, Forall_cons, !Forall_forall.
  split; [|set_solver]. intros [Hn Hf]. split_and!; [set_solver..|]. intros k Hk. set_solver.
Qed.

Lemma claim_error fmt owners key name e l :
  claim fmt owners key name = Err e ->
  ~ fresh_claims owners (if Str.is_empty key then l else key :: l).
Proof.
  unfold claim, fresh_claims. destruct (Str.is_empty key); [done|].
  destruct (owners !! key) eqn:Hk; [|done]. intros _ [_ Hf]. apply Forall_cons in Hf as [Hf _].
  by apply Hf, elem_of_dom.
Qed.

Lemma check_devs_ok g po ho l :
  check_devs g po ho l = None <->
  Forall (fun d => forall v, dev_vpp d = Some v -> vpp_block_valid v) l /\
  fresh_claims po (claims VPPDevice_PCI l) /\ fresh_claims ho (claims VPPDevice_HostIf l).
Proof.
  revert po ho. induction l as [|d l IH]; intros po ho.
  { split; [|done]. intros _. split_and!; constructor; constructor. }
  cbn [check_devs]. rewrite !claims_cons, Forall_cons. destruct (dev_vpp d) as [v|] eqn:Hv.
  - pose proof (ValidateVPPDevice_ok (dev_name d) v) as Hok.
    cbn [VPPManaged negb]. destruct (ValidateVPPDevice _ _) as [e|].
    { naive_solver. }
    destruct (claim _ po _ _) as [po'|e] eqn:Hpo.
    + destruct (claim _ ho _ _) as [ho'|e] eqn:Hho.
      * rewrite IH, (fresh_claims_cons po po'), (fresh_claims_cons ho ho') by done. naive_solver.
      * pose proof (claim_error _ _ _ _ _ (claims VPPDevice_HostIf l) Hho). naive_solver.
    + pose proof (claim_error _ _ _ _ _ (claims VPPDevice_PCI l) Hpo). naive_solver.
  - assert (forall v, None = Some v -> vpp_block_valid v) by done.
    cbn [ValidateVPPDevice]. destruct (negb _); rewrite IH; tauto.
Qed.

#[export] Instance collect_proper A :
  Proper ((≡ₚ) ==> (=) ==> (=) ==> (≡ₚ)) (@collect A).
Proof. intros l1 l2 Hl ? ? -> ? ? ->. unfold collect. by rewrite Hl. Qed.

Lemma vpp_devs_perm `{RangeOrder, SliceSort} n : vpp_devs n ≡ₚ vpp_entries n.
Proof. unfold vpp_devs, vpp_entries, gm_range. by rewrite sort_slice_perm, !range_perm. Qed.

Lemma claims_proper get l1 l2 : l1 ≡ₚ l2 -> claims get l1 ≡ₚ claims get l2.
Proof. intros Hl. unfold claims. by rewrite Hl. Qed.

Lemma fresh_claims_empty l : fresh_claims ∅ l <-> NoDup l.
Proof.
  unfold fresh_claims. split; [by intros []|]. split; [done|]. apply Forall_forall. set_solver.
Qed.

#[export] Instance devs_valid_proper : Proper ((≡ₚ) ==> iff) devs_valid.
Proof.
  intros l1 l2 Hl. unfold devs_valid.
  by rewrite (claims_proper VPPDevice_PCI _ _ Hl), (claims_proper VPPDevice_HostIf _ _ Hl), Hl.
Qed.

Lemma check_vpp_devs_ok `{RangeOrder, SliceSort} g n :
  check_devs g ∅ ∅ (vpp_devs n) = None <-> devs_valid (vpp_entries n).
Proof.
  rewrite <-(vpp_devs_perm n). rewrite check_devs_ok, !fresh_claims_empty. done.
Qed.

Lemma validateNatInterfaces_ok fmt l :
  validateNatInterfaces fmt l = Some None <-> Forall nat_interface_valid l.
Proof.
  unfold validateNatInterfaces. rewrite check_pan_ok. apply Forall_iff. intros [i|]; simpl.
  - unfold nat_interface_valid, roleOK. setoid_rewrite elem_of_cons. setoid_rewrite elem_of_cons.
    setoid_rewrite elem_of_cons. setoid_rewrite elem_of_nil.
    destruct (_ || _) eqn:E; repeat rewrite ?orb_true_iff, ?orb_false_iff, ?str_eqb_true,
      ?str_eqb_false in *; naive_solver.
  - split; [done|]. by intros (? & ? & _).
Qed.

Lemma validateNatStatic_ok s : validateNatStatic s = Some None <-> nat_static_valid s.
Proof.
  unfold nat_static_valid. setoid_rewrite elem_of_cons. setoid_rewrite elem_of_cons.
  setoid_rewrite elem_of_cons. setoid_rewrite elem_of_nil.
  destruct s as [s|]; [|split; [done|by intros (? & ? & _)]]. simpl.
  destruct (negb _ && _) eqn:E; [|destruct (Str.is_empty _ && _) eqn:E2];
    repeat rewrite ?andb_true_iff, ?andb_false_iff, ?orb_true_iff, ?orb_false_iff, ?negb_true_iff,
      ?negb_false_iff, ?str_eqb_true, ?str_eqb_false, ?is_empty_false, ?is_empty_true in *;
    naive_solver.
Qed.

Lemma validateNat_ok nat : validateNat nat = Some None <-> nat_valid nat.
Proof.
  unfold validateNat, nat_valid. rewrite check_pan_ok, !Forall_cons, Forall_nil. unfold id.
  assert (forall n, validateNat44 n = Some None <->
     (Nat44_Mode n = "" \/ Str.equal_fold (Nat44_Mode n) "ed" = true \/
      Str.equal_fold (Nat44_Mode n) "ei" = true) /\
     Forall nat_interface_valid (Nat44_Interfaces n) /\
     Forall nat_static_valid (Nat44_Static n)) as H44.
  { intros n. unfold validateNat44. destruct (negb _ && _ && _) eqn:E.
    - repeat rewrite ?andb_true_iff, ?negb_true_iff, ?is_empty_false in E.
      split; [done|]. intros (Hm & _). destruct E as [[? ?] ?]. intuition congruence.
    - rewrite check_pan_ok, !Forall_cons, Forall_nil. unfold id.
      rewrite validateNatInterfaces_ok, check_pan_ok, (Forall_iff _ _ _ validateNatStatic_ok).
      repeat rewrite ?andb_false_iff, ?negb_false_iff, ?is_empty_true in E. naive_solver. }
  destruct (VPPNat_Nat44 nat), (VPPNat_Nat64 nat);
    rewrite ?H44, ?validateNatInterfaces_ok, ?forall_Some, ?forall_None; tauto.
Qed.
End vpp_proofs.

Lemma ValidateVPP_iff `{RangeOrder, SliceSort} (cfg : Config) :
  VPP.ValidateVPP cfg = Some None <-> VPP.vpp_valid cfg.
Proof.
  unfold VPP.ValidateVPP, VPP.vpp_valid. rewrite <-(check_vpp_devs_ok (Network_Renderer (Config_Network cfg))).
  destruct (VPP.check_devs _ _ _ _) as [e|]; [naive_solver|].
  destruct (Network_VPP _) as [g|]; simpl; [|naive_solver].
  destruct (VPPGlobal_NAT g) as [nat|] eqn:Hnat; [|naive_solver].
  rewrite validateNat_ok. naive_solver.
Qed.

(** C28: [ValidateVPP] accepts a configuration, without a panic, iff every vpp
    block of the default namespace on a device of the five kinds ethernet, bridge,
    bond, vlan and tunnel is well formed, no PCI address and no host interface is
    claimed by two of these devices, and the NAT section is well formed.  What
    vxlans and named namespaces have plays no part, whether it is well formed or
    not.  This holds for every order in which the maps are visited and every sort
    of the devices by name. *)
Theorem ValidateVPP_correct `{RangeOrder, SliceSort} (cfg : Config) :
  (VPP.ValidateVPP cfg = Some None <-> VPP.vpp_valid cfg) /\
  forall vxlans netns,
    VPP.ValidateVPP (cfg <| Config_Network := (Config_Network cfg) <| Network_Vxlans := vxlans |>
                                                                <| Network_Netns := netns |> |>) = VPP.ValidateVPP cfg.
Proof. split; [apply ValidateVPP_iff|]. intros vxlans netns. destruct cfg as [[] ?]. reflexivity. Qed.

(** startup.conf does not depend on the order of the DPDK devices: two
    lists of the same devices with distinct PCI addresses (those of the
    explicit dpdk.dev list included) give the same file, however sort.Slice
    breaks ties. *)
Theorem GenerateStartupConf_order (S1 S2 : SliceSort) (g : option VPPGlobal) devs1 devs2 :
  devs1 ≡ₚ devs2 ->
  NoDup ((VPP.DpdkDev_PCI <$> devs1) ++ match VPP.g_dpdk g with Some d => VPPDpdk_Dev d | None => [] end) ->
  @VPP.GenerateStartupConf S1 g devs1 = @VPP.GenerateStartupConf S2 g devs2.
Proof.
  intros Hp Hn. unfold VPP.GenerateStartupConf, VPP.dpdk_section.
  set (explicit := match VPP.g_dpdk g with Some d => _ | None => [] end).
  assert (explicit = VPP.MkDpdkDev "" <$> match VPP.g_dpdk g with Some d => VPPDpdk_Dev d | None => [] end)
    as He by (unfold explicit; by destruct (VPP.g_dpdk g)).
  rewrite (sort_slice_unique S1 S2 68 VPP.DpdkDev_PCI (devs1 ++ explicit) (devs2 ++ explicit)).
  - assert (devs1 ++ explicit ≡ₚ devs2 ++ explicit) as Hl by by rewrite Hp.
    destruct (devs1 ++ explicit), (devs2 ++ explicit); [done|..|done].
    + by apply Permutation_nil_cons in Hl.
    + symmetry in Hl. by apply Permutation_nil_cons in Hl.
  - rewrite fmap_app, He, <-list_fmap_compose. unfold compose. simpl. by rewrite list_fmap_id.
  - by rewrite Hp.
Qed.

Lemma GenerateStartupConf_order_witness :
  let a := VPP.MkDpdkDev "wan" "0000:03:00.0" in let b := VPP.MkDpdkDev "lan" "0000:04:00.0" in
  VPP.GenerateStartupConf None [a; b] = VPP.GenerateStartupConf None [b; a].
Proof.
  apply GenerateStartupConf_order; [apply Permutation_swap|].
  apply (bool_decide_unpack _). vm_compute. exact I.
Defined.
