(* ===== verification/Load.v ===== *)
(** * Loading the configuration (config/config.go)

    [Normalize] rewrites the legacy form of a file and moves the vxlan tunnels
    among the vxlans, [mergeConfig] merges the files of a directory, the last
    one winning device by device, [LoadConfig] reads, merges and validates.
    The file system and the YAML decoder are parameters of [LoadConfig]. *)

From S2P Require Import Prelude GoStd GoNet Effect Config Validate.

(** ** Address.UnmarshalYAML *)

(** The nodes of yaml.v3 as far as UnmarshalYAML looks at them; [node] is the
    type of the nodes below, [decode] the decoder of an addressOptions. *)
Inductive yaml_node (node : Type) :=
| ScalarNode (value : string)
| MappingNode (content : list (string * node))
| OtherNode.
Arguments ScalarNode {node} value.
Arguments MappingNode {node} content.
Arguments OtherNode {node}.

(* go: config/config.go 436-439 addressOptions *)
Record addressOptions := MkaddressOptions {
  addressOptions_Lifetime : iface;
  addressOptions_Label : string
}.

(** [fmt.Sprintf]; [other] prints the lists and the mappings. *)
Definition sprint_v (other : iface -> string) (v : iface) : string :=
  match v with
  | INil => "<nil>"
  | IBool true => "true"
  | IBool false => "false"
  | IInt z => Str.itoa z
  | IFloat r => r
  | IString s => s
  | _ => other v
  end.

(** A mapping node lists its keys and values in turn: one pair is two nodes. *)
(* go: config/config.go 441-464 UnmarshalYAML *)
Definition UnmarshalAddress {node} (other : iface -> string) (decode : node -> res addressOptions) (a : Address)
    (value : yaml_node node) : res Address :=
  match value with
  | ScalarNode v => Ok (a <| Address_CIDR := v |>)
  | MappingNode [(key, opts)] =>
      match decode opts with
      | Err e => Err (EWrap "invalid options for address %s: %w" [key] e)
      | Ok opts =>
          let a := a <| Address_CIDR := key |> in
          let a := match addressOptions_Lifetime opts with
                   | INil => a
                   | v => a <| Address_Lifetime := sprint_v other v |>
                   end in
          Ok (a <| Address_Label := addressOptions_Label opts |>)
      end
  | MappingNode _ => Err (EMsg "address entry must have exactly one CIDR key" [])
  | OtherNode => Err (EMsg "invalid address entry (expected string or mapping)" [])
  end.

(** ** Normalize *)

(* go: config/config.go 827-862 toVxlan *)
Definition toVxlan (t : Tunnel) : Vxlan := {|
  Vxlan_ID := Tunnel_ID t;
  Vxlan_Link := Tunnel_Link t;
  Vxlan_Local := Tunnel_Local t;
  Vxlan_Remote := Tunnel_Remote t;
  Vxlan_Group := Tunnel_Group t;
  Vxlan_Port := Tunnel_Port t;
  Vxlan_DestPort := Tunnel_DestPort t;
  Vxlan_PortRange := Tunnel_PortRange t;
  Vxlan_TTL := Tunnel_TTL t;
  Vxlan_TOS := Tunnel_TOS t;
  Vxlan_Ageing := Tunnel_Ageing t;
  Vxlan_Limit := Tunnel_Limit t;
  Vxlan_Learning := Tunnel_MacLearning t;
  Vxlan_ARPProxy := Tunnel_ARPProxy t;
  Vxlan_NeighSuppress := Tunnel_NeighSuppress t;
  Vxlan_L2miss := Tunnel_L2miss t;
  Vxlan_L3miss := Tunnel_L3miss t;
  Vxlan_RSC := Tunnel_RSC t;
  Vxlan_NoAge := Tunnel_NoAge t;
  Vxlan_GBP := Tunnel_GBP t;
  Vxlan_External := Tunnel_External t;
  Vxlan_UDPChecksum := Tunnel_UDPChecksum t;
  Vxlan_UDP6ZeroCSumTx := Tunnel_UDP6ZeroCSumTx t;
  Vxlan_UDP6ZeroCSumRx := Tunnel_UDP6ZeroCSumRx t;
  Vxlan_MTU := Tunnel_MTU t;
  Vxlan_MacAddress := Tunnel_MacAddress t;
  Vxlan_Addresses := Tunnel_Addresses t;
  Vxlan_Routes := Tunnel_Routes t;
  Vxlan_FDB := Tunnel_FDB t;
  Vxlan_Neighbors := Tunnel_Neighbors t;
  Vxlan_VPP := Tunnel_VPP t
|}.

Definition is_vxlan (t : Tunnel) : bool := Str.equal_fold (Tunnel_Mode t) "vxlan".

(* go: config/config.go 815-824 normalizeTunnelVxlans *)
Definition move_vxlan (maps : gomap (ptr Tunnel) * gomap (ptr Vxlan)) (entry : string * ptr Tunnel)
    : gomap (ptr Tunnel) * gomap (ptr Vxlan) :=
  let '(tunnels, vxlans) := maps in
  let '(name, t) := entry in
  match t with
  | None => (tunnels, vxlans)
  | Some t =>
      if negb (is_vxlan t) then (tunnels, vxlans)
      else (gm_del tunnels name, put_make vxlans name (Some (toVxlan t)))
  end.

(* go: config/config.go 810-825 normalizeTunnelVxlans *)
Definition normalizeTunnelVxlans `{RangeOrder} (tunnels : gomap (ptr Tunnel)) (vxlans : gomap (ptr Vxlan))
    : gomap (ptr Tunnel) * gomap (ptr Vxlan) :=
  match tunnels with
  | None => (tunnels, vxlans)
  | Some m => fold_left move_vxlan (range 815 m) (tunnels, vxlans)
  end.

(** The body of the loop of Normalize: the namespace that [ns] points to. *)
(* go: config/config.go 803-807 Normalize *)
Definition normalize_ns `{RangeOrder} (ns : ptr Namespace) : ptr Namespace :=
  match ns with
  | None => None
  | Some ns =>
      let '(ts, vs) := normalizeTunnelVxlans (Namespace_Tunnels ns) (Namespace_Vxlans ns) in
      Some (ns <| Namespace_Tunnels := ts |> <| Namespace_Vxlans := vs |>)
  end.

(* go: config/config.go 786-808 Normalize *)
Definition Normalize `{RangeOrder} (c : Config) : Config :=
  let c :=
    if (Network_Version (Config_Network c) =? 0) && gm_nonempty (Config_Netns c)
    then c <| Config_Network := (Config_Network c) <| Network_Netns := Config_Netns c |> |>
           <| Config_Netns := None |>
    else c in
  let n := Config_Network c in
  let n := if Network_Version n =? 0 then n <| Network_Version := 2 |> else n in
  let '(ts, vs) := normalizeTunnelVxlans (Network_Tunnels n) (Network_Vxlans n) in
  let n := n <| Network_Tunnels := ts |> <| Network_Vxlans := vs |> in
  let netns :=
    fold_left (fun m '(name, ns) => match ns with
                                    | None => m
                                    | Some _ => put_make m name (normalize_ns ns)
                                    end)
      (gm_range 803 (Network_Netns n)) (Network_Netns n) in
  c <| Config_Network := n <| Network_Netns := netns |> |>.

(* go: config/config.go 864-884 HasDefaultNamespaceConfig *)
Definition HasDefaultNamespaceConfig (c : Config) : bool :=
  let n := Config_Network c in
  gm_nonempty (Network_Ethernets n) ||
  gm_nonempty (Network_Wifis n) ||
  gm_nonempty (Network_DummyDevices n) ||
  gm_nonempty (Network_VirtualEthernets n) ||
  gm_nonempty (Network_VethDevices n) ||
  gm_nonempty (Network_MacvlanDevices n) ||
  gm_nonempty (Network_MacvtapDevices n) ||
  gm_nonempty (Network_IpvlanDevices n) ||
  gm_nonempty (Network_Bridges n) ||
  gm_nonempty (Network_Bonds n) ||
  gm_nonempty (Network_Vlans n) ||
  gm_nonempty (Network_Vxlans n) ||
  gm_nonempty (Network_Tunnels n) ||
  gm_nonempty (Network_Vrfs n) ||
  gm_nonempty (Network_TunDevices n) ||
  gm_nonempty (Network_TapDevices n) ||
  match Network_SRv6 n with Some _ => true | None => false end.

(* go: config/config.go 886-907 ToNamespace *)
Definition ToNamespace (n : Network) : Namespace := {|
  Namespace_Loopback := None;
  Namespace_Ethernets := Network_Ethernets n;
  Namespace_Wifis := Network_Wifis n;
  Namespace_DummyDevices := Network_DummyDevices n;
  Namespace_VirtualEthernets := Network_VirtualEthernets n;
  Namespace_VethDevices := Network_VethDevices n;
  Namespace_MacvlanDevices := Network_MacvlanDevices n;
  Namespace_MacvtapDevices := Network_MacvtapDevices n;
  Namespace_IpvlanDevices := Network_IpvlanDevices n;
  Namespace_Bridges := Network_Bridges n;
  Namespace_Bonds := Network_Bonds n;
  Namespace_Vlans := Network_Vlans n;
  Namespace_Vxlans := Network_Vxlans n;
  Namespace_Tunnels := Network_Tunnels n;
  Namespace_Vrfs := Network_Vrfs n;
  Namespace_TunDevices := Network_TunDevices n;
  Namespace_TapDevices := Network_TapDevices n;
  Namespace_SRv6 := Network_SRv6 n;
  Namespace_PostScript := ""
|}.

(* go: config/config.go 909-917 GetNetnsNames *)
Definition GetNetnsNames `{RangeOrder} (c : Config) : list string :=
  Str.sort ((gm_range 912 (Network_Netns (Config_Network c))).*1).

(** ** Merging *)

(* go: config/config.go 1059-1064 mergeMap *)
Definition mergeMap `{RangeOrder} {A} (dst src : gomap A) : pan (gomap A) :=
  fold_pan (gm_range 1061 src) dst (fun dst '(k, v) => gm_put dst k v).

(** [if dst == nil { dst = make(...) }; mergeMap(dst, src)]. *)
Definition mergeMake `{RangeOrder} {A} (dst src : gomap A) : pan (gomap A) :=
  mergeMap (match dst with None => gm_make | Some _ => dst end) src.

(* go: config/config.go 1066-1151 mergeNamespace *)
Definition mergeNamespace `{RangeOrder} (dst src : ptr Namespace) : pan Namespace :=
  dst ← dst;
  src ← src;
  m0 ← mergeMake (Namespace_Ethernets dst) (Namespace_Ethernets src);
  m1 ← mergeMake (Namespace_Wifis dst) (Namespace_Wifis src);
  m2 ← mergeMake (Namespace_DummyDevices dst) (Namespace_DummyDevices src);
  m3 ← mergeMake (Namespace_VirtualEthernets dst) (Namespace_VirtualEthernets src);
  m4 ← mergeMake (Namespace_VethDevices dst) (Namespace_VethDevices src);
  m5 ← mergeMake (Namespace_MacvlanDevices dst) (Namespace_MacvlanDevices src);
  m6 ← mergeMake (Namespace_MacvtapDevices dst) (Namespace_MacvtapDevices src);
  m7 ← mergeMake (Namespace_IpvlanDevices dst) (Namespace_IpvlanDevices src);
  m8 ← mergeMake (Namespace_Bridges dst) (Namespace_Bridges src);
  m9 ← mergeMake (Namespace_Bonds dst) (Namespace_Bonds src);
  m10 ← mergeMake (Namespace_Vlans dst) (Namespace_Vlans src);
  m11 ← mergeMake (Namespace_Vxlans dst) (Namespace_Vxlans src);
  m12 ← mergeMake (Namespace_Tunnels dst) (Namespace_Tunnels src);
  m13 ← mergeMake (Namespace_Vrfs dst) (Namespace_Vrfs src);
  m14 ← mergeMake (Namespace_TunDevices dst) (Namespace_TunDevices src);
  m15 ← mergeMake (Namespace_TapDevices dst) (Namespace_TapDevices src);
  Some {|
    Namespace_Loopback := Namespace_Loopback dst;
    Namespace_Ethernets := m0;
    Namespace_Wifis := m1;
    Namespace_DummyDevices := m2;
    Namespace_VirtualEthernets := m3;
    Namespace_VethDevices := m4;
    Namespace_MacvlanDevices := m5;
    Namespace_MacvtapDevices := m6;
    Namespace_IpvlanDevices := m7;
    Namespace_Bridges := m8;
    Namespace_Bonds := m9;
    Namespace_Vlans := m10;
    Namespace_Vxlans := m11;
    Namespace_Tunnels := m12;
    Namespace_Vrfs := m13;
    Namespace_TunDevices := m14;
    Namespace_TapDevices := m15;
    Namespace_SRv6 := Namespace_SRv6 dst;
    Namespace_PostScript :=
      if Str.is_empty (Namespace_PostScript src) then Namespace_PostScript dst
      else Namespace_PostScript src
  |}.

(** The loop over the namespaces. *)
(* go: config/config.go 1047-1056 mergeConfig *)
Definition mergeNetns `{RangeOrder} (dst src : gomap (ptr Namespace)) : pan (gomap (ptr Namespace)) :=
  fold_pan (gm_range 1048 src) dst (fun dst '(name, ns) =>
    match gm_get dst name with
    | None => gm_put dst name ns
    | Some old => ns ← mergeNamespace old ns; gm_put dst name (Some ns)
    end).

(** [if src != nil { dst = src }]. *)
Definition override {A} (dst src : option A) : option A :=
  match src with Some _ => src | None => dst end.

(* go: config/config.go 1013-1057 mergeConfig *)
Definition mergeConfig `{RangeOrder} (dst src : Config) : pan Config :=
  let d := Config_Network dst in
  let s := Config_Network src in
  m0 ← mergeMap (Network_Ethernets d) (Network_Ethernets s);
  m1 ← mergeMap (Network_Wifis d) (Network_Wifis s);
  m2 ← mergeMap (Network_DummyDevices d) (Network_DummyDevices s);
  m3 ← mergeMap (Network_VirtualEthernets d) (Network_VirtualEthernets s);
  m4 ← mergeMap (Network_VethDevices d) (Network_VethDevices s);
  m5 ← mergeMap (Network_MacvlanDevices d) (Network_MacvlanDevices s);
  m6 ← mergeMap (Network_MacvtapDevices d) (Network_MacvtapDevices s);
  m7 ← mergeMap (Network_IpvlanDevices d) (Network_IpvlanDevices s);
  m8 ← mergeMap (Network_Bridges d) (Network_Bridges s);
  m9 ← mergeMap (Network_Bonds d) (Network_Bonds s);
  m10 ← mergeMap (Network_Vlans d) (Network_Vlans s);
  m11 ← mergeMap (Network_Vxlans d) (Network_Vxlans s);
  m12 ← mergeMap (Network_Tunnels d) (Network_Tunnels s);
  m13 ← mergeMap (Network_Vrfs d) (Network_Vrfs s);
  m14 ← mergeMap (Network_TunDevices d) (Network_TunDevices s);
  m15 ← mergeMap (Network_TapDevices d) (Network_TapDevices s);
  netns ← mergeNetns (Network_Netns d) (Network_Netns s);
  Some (dst <| Config_Network := {|
    Network_Version := if Network_Version d <? Network_Version s then Network_Version s
                       else Network_Version d;
    Network_Renderer := if Str.is_empty (Network_Renderer s) then Network_Renderer d
                        else Network_Renderer s;
    Network_Ethernets := m0;
    Network_Wifis := m1;
    Network_DummyDevices := m2;
    Network_VirtualEthernets := m3;
    Network_VethDevices := m4;
    Network_MacvlanDevices := m5;
    Network_MacvtapDevices := m6;
    Network_IpvlanDevices := m7;
    Network_Bridges := m8;
    Network_Bonds := m9;
    Network_Vlans := m10;
    Network_Vxlans := m11;
    Network_Tunnels := m12;
    Network_Vrfs := m13;
    Network_TunDevices := m14;
    Network_TapDevices := m15;
    Network_VPP := override (Network_VPP d) (Network_VPP s);
    Network_SRv6 := override (Network_SRv6 d) (Network_SRv6 s);
    Network_Netns := netns
  |} |>).

(** ** Loading *)

(** [filepath.Clean] and [filepath.Join] on a slash-separated path. *)
Definition clean_step (rooted : bool) (stack : list string) (elem : string) : list string :=
  if Str.is_empty elem || Str.eqb elem "." then stack
  else if Str.eqb elem ".." then
         match stack with
         | top :: stack' => if Str.eqb top ".." then elem :: stack else stack'
         | [] => if rooted then [] else [elem]
         end
       else elem :: stack.

Definition path_clean (p : string) : string :=
  let rooted := Str.has_prefix p "/" in
  let body := Str.join (rev (fold_left (clean_step rooted) (Str.split_byte p "/") [])) "/" in
  if rooted then "/" +:+ body else if Str.is_empty body then "." else body.

Definition path_join (dir base : string) : string :=
  path_clean (if Str.is_empty dir then base else dir +:+ "/" +:+ base).

Section load.
Context `{RangeOrder, SliceSort}.
(** [filepath.Glob], [os.ReadFile] and [yaml.Unmarshal] into a Config. *)
Context (glob : string -> res (list string)) (read_file : string -> res string)
  (unmarshal : string -> res Config).

(** The maps that LoadConfig makes. *)
(* go: config/config.go 943-963 LoadConfig *)
Definition merged0 : Config :=
  Config_zero <| Config_Network := {|
    Network_Version := 0;
    Network_Renderer := "";
    Network_Ethernets := gm_make;
    Network_Wifis := gm_make;
    Network_DummyDevices := gm_make;
    Network_VirtualEthernets := gm_make;
    Network_VethDevices := gm_make;
    Network_MacvlanDevices := gm_make;
    Network_MacvtapDevices := gm_make;
    Network_IpvlanDevices := gm_make;
    Network_Bridges := gm_make;
    Network_Bonds := gm_make;
    Network_Vlans := gm_make;
    Network_Vxlans := gm_make;
    Network_Tunnels := gm_make;
    Network_Vrfs := gm_make;
    Network_TunDevices := gm_make;
    Network_TapDevices := gm_make;
    Network_VPP := None;
    Network_SRv6 := None;
    Network_Netns := gm_make
  |} |>.

(** The file names that LoadConfig reads, in its order. *)
(* go: config/config.go 920-941 LoadConfig *)
Definition config_files (dirPath : string) : res (list string) :=
  match glob (path_join dirPath "*.yaml") with
  | Err e => Err (EWrap "failed to glob yaml files: %w" [] e)
  | Ok files =>
      match glob (path_join dirPath "*.yml") with
      | Err e => Err (EWrap "failed to glob yml files: %w" [] e)
      | Ok ymlFiles =>
          match files ++ ymlFiles with
          | [] => Err (EMsg "no yaml files found in %s" [dirPath])
          | files => Ok (Str.sort files)
          end
      end
  end.

(** One file, decoded and normalised. *)
(* go: config/config.go 996-1011 LoadConfigFile *)
Definition LoadConfigFile (filePath : string) : res Config :=
  match read_file filePath with
  | Err e => Err (EWrap "failed to read %s: %w" [filePath] e)
  | Ok data =>
      match unmarshal data with
      | Err e => Err (EWrap "failed to parse %s: %w" [filePath] e)
      | Ok cfg => Ok (Normalize cfg)
      end
  end.

(** The loop over the files, which reads each one as LoadConfigFile does. *)
(* go: config/config.go 965-979 LoadConfig *)
Fixpoint merge_files (merged : Config) (files : list string) : pan (res Config) :=
  match files with
  | [] => Some (Ok merged)
  | file :: files =>
      match LoadConfigFile file with
      | Err e => Some (Err e)
      | Ok cfg => merged ← mergeConfig merged cfg; merge_files merged files
      end
  end.

(* go: config/config.go 919-994 LoadConfig *)
Definition LoadConfig (dirPath : string) : pan (res Config) :=
  match config_files dirPath with
  | Err e => Some (Err e)
  | Ok files =>
      merged ← merge_files merged0 files;
      match merged with
      | Err e => Some (Err e)
      | Ok merged =>
          e ← check_pan [VPP.ValidateVPP merged; SRv6.ValidateSRv6 merged; NDP.ValidateNDProxy merged] id;
          Some (match e with Some e => Err e | None => Ok merged end)
      end
  end.
End load.

(** ** The kinds of devices

    The sixteen maps of devices that a Network and a Namespace have, so that a
    statement about all of them is written once. *)
Inductive kind :=
| KEthernets
| KWifis
| KDummyDevices
| KVirtualEthernets
| KVethDevices
| KMacvlanDevices
| KMacvtapDevices
| KIpvlanDevices
| KBridges
| KBonds
| KVlans
| KVxlans
| KTunnels
| KVrfs
| KTunDevices
| KTapDevices.

Definition kind_type (k : kind) : Type :=
  match k with
  | KEthernets => Ethernet
  | KWifis => Wifi
  | KDummyDevices => Ethernet
  | KVirtualEthernets => VirtualEthernet
  | KVethDevices => VethDevice
  | KMacvlanDevices => MacvlanDevice
  | KMacvtapDevices => MacvlanDevice
  | KIpvlanDevices => IpvlanDevice
  | KBridges => Bridge
  | KBonds => Bond
  | KVlans => Vlan
  | KVxlans => Vxlan
  | KTunnels => Tunnel
  | KVrfs => Vrf
  | KTunDevices => TunTapDevice
  | KTapDevices => TunTapDevice
  end.

Definition net_map (k : kind) (n : Network) : gomap (ptr (kind_type k)) :=
  match k with
  | KEthernets => Network_Ethernets n
  | KWifis => Network_Wifis n
  | KDummyDevices => Network_DummyDevices n
  | KVirtualEthernets => Network_VirtualEthernets n
  | KVethDevices => Network_VethDevices n
  | KMacvlanDevices => Network_MacvlanDevices n
  | KMacvtapDevices => Network_MacvtapDevices n
  | KIpvlanDevices => Network_IpvlanDevices n
  | KBridges => Network_Bridges n
  | KBonds => Network_Bonds n
  | KVlans => Network_Vlans n
  | KVxlans => Network_Vxlans n
  | KTunnels => Network_Tunnels n
  | KVrfs => Network_Vrfs n
  | KTunDevices => Network_TunDevices n
  | KTapDevices => Network_TapDevices n
  end.

Definition ns_map (k : kind) (n : Namespace) : gomap (ptr (kind_type k)) :=
  match k with
  | KEthernets => Namespace_Ethernets n
  | KWifis => Namespace_Wifis n
  | KDummyDevices => Namespace_DummyDevices n
  | KVirtualEthernets => Namespace_VirtualEthernets n
  | KVethDevices => Namespace_VethDevices n
  | KMacvlanDevices => Namespace_MacvlanDevices n
  | KMacvtapDevices => Namespace_MacvtapDevices n
  | KIpvlanDevices => Namespace_IpvlanDevices n
  | KBridges => Namespace_Bridges n
  | KBonds => Namespace_Bonds n
  | KVlans => Namespace_Vlans n
  | KVxlans => Namespace_Vxlans n
  | KTunnels => Namespace_Tunnels n
  | KVrfs => Namespace_Vrfs n
  | KTunDevices => Namespace_TunDevices n
  | KTapDevices => Namespace_TapDevices n
  end.

Definition cfg_map (k : kind) (c : Config) : gomap (ptr (kind_type k)) := net_map k (Config_Network c).

(** ** Normalize *)

(** The vxlan tunnel that an entry of a map of tunnels is. *)
Definition vxlan_entry (t : option (ptr Tunnel)) : option Tunnel :=
  match t with Some (Some t) => if is_vxlan t then Some t else None | _ => None end.

(** What Normalize makes of one tunnel name: the entry it leaves among the
    tunnels and the one that is then among the vxlans. *)
Definition tunnel_after (t : option (ptr Tunnel)) : option (ptr Tunnel) :=
  match vxlan_entry t with Some _ => None | None => t end.
Definition vxlan_after (t : option (ptr Tunnel)) (v : option (ptr Vxlan)) : option (ptr Vxlan) :=
  match vxlan_entry t with Some t => Some (Some (toVxlan t)) | None => v end.

Section normalize.
Context `{RangeOrder}.

Definition ents (l : list (string * ptr Tunnel)) : gmap string (ptr Tunnel) := list_to_map l.

Lemma move_vxlan_fold l ts vs :
  NoDup l.*1 ->
  let '(ts', vs') := fold_left move_vxlan l (ts, vs) in
  (forall k, gm_get ts' k = match vxlan_entry (ents l !! k) with
                            | Some _ => None | None => gm_get ts k end) /\
  (forall k, gm_get vs' k = vxlan_after (ents l !! k) (gm_get vs k)) /\
  (ts' = None <-> ts = None) /\
  (vs' = None <-> vs = None /\ forall k, vxlan_entry (ents l !! k) = None).
Proof.
  revert ts vs. induction l as [|[k0 t0] l IH]; intros ts vs Hn.
  { simpl. unfold vxlan_after. split_and!; [intros k; by rewrite lookup_empty..|done|].
    setoid_rewrite lookup_empty. naive_solver. }
  apply NoDup_cons in Hn as [Hk0 Hn]. cbn [fold_left move_vxlan].
  assert (ents l !! k0 = None) as Hl0
    by by apply not_elem_of_list_to_map_1.
  assert (forall k, ents ((k0, t0) :: l) !! k =
    if decide (k0 = k) then Some t0 else ents l !! k) as Hl.
  { intros k. unfold ents. simpl. apply lookup_insert. }
  destruct (vxlan_entry (Some t0)) as [t|] eqn:Ht.
  - assert (t0 = Some t /\ is_vxlan t = true) as [-> Hv].
    { destruct t0 as [t'|]; [|done]. simpl in Ht. destruct (is_vxlan t') eqn:?; naive_solver. }
    rewrite Hv. cbn [negb].
    specialize (IH (gm_del ts k0) (put_make vs k0 (Some (toVxlan t))) Hn).
    destruct (fold_left _ _ _) as [ts' vs']. destruct IH as (H1 & H2 & H3 & H4). split_and!.
    + intros k. rewrite H1, Hl, gm_get_del. case_decide; [subst|done].
      by rewrite Hl0, Ht.
    + intros k. rewrite H2, Hl, gm_get_put_make. case_decide; [subst|done].
      unfold vxlan_after. by rewrite Hl0, Ht.
    + rewrite H3. by destruct ts.
    + rewrite H4. split; [by intros []|]. intros [_ Hf]. specialize (Hf k0).
      by rewrite Hl, decide_True, Ht in Hf.
  - assert (match t0 with None => (ts, vs) | Some t => if negb (is_vxlan t) then (ts, vs) else
      (gm_del ts k0, put_make vs k0 (Some (toVxlan t))) end = (ts, vs)) as ->.
    { destruct t0 as [t'|]; [|done]. simpl in Ht. by destruct (is_vxlan t'). }
    specialize (IH ts vs Hn). destruct (fold_left _ _ _) as [ts' vs'].
    destruct IH as (H1 & H2 & H3 & H4). split_and!.
    + intros k. rewrite H1, Hl. case_decide; [subst|done]. by rewrite Hl0, Ht.
    + intros k. rewrite H2, Hl. unfold vxlan_after. case_decide; [subst|done].
      by rewrite Hl0, Ht.
    + done.
    + rewrite H4. setoid_rewrite Hl.
      split; intros [Hvs Hf]; (split; [exact Hvs|]); intros k; specialize (Hf k).
      * case_decide; [exact Ht|exact Hf].
      * case_decide; [subst k; by rewrite Hl0|exact Hf].
Qed.

Lemma normalizeTunnelVxlans_spec ts vs ts' vs' :
  normalizeTunnelVxlans ts vs = (ts', vs') ->
  (forall k, gm_get ts' k = tunnel_after (gm_get ts k)) /\
  (forall k, gm_get vs' k = vxlan_after (gm_get ts k) (gm_get vs k)) /\
  (ts' = None <-> ts = None) /\
  (vs' = None <-> vs = None /\ forall k, vxlan_entry (gm_get ts k) = None).
Proof.
  unfold normalizeTunnelVxlans. destruct ts as [m|].
  - intros E. pose proof (move_vxlan_fold (range 815 m) (Some m) vs) as Hf.
    unfold ents in Hf. rewrite E, list_to_map_range in Hf. apply Hf, NoDup_fst_range.
  - intros [= <- <-]. unfold gm_get, tunnel_after, vxlan_after. simpl.
    split_and!; [intros k; by rewrite lookup_empty..|done|].
    setoid_rewrite lookup_empty. naive_solver.
Qed.
End normalize.

(** Two maps with the same entries that are nil together are equal. *)
Lemma gomap_eq {A} (m1 m2 : gomap A) :
  (forall k, gm_get m1 k = gm_get m2 k) -> (m1 = None <-> m2 = None) -> m1 = m2.
Proof.
  destruct m1 as [m1|], m2 as [m2|]; intros Hk Hn; [|naive_solver..].
  f_equal. apply map_eq. apply Hk.
Qed.

Lemma normalizeTunnelVxlans_order (R1 R2 : RangeOrder) ts vs :
  @normalizeTunnelVxlans R1 ts vs = @normalizeTunnelVxlans R2 ts vs.
Proof.
  destruct (@normalizeTunnelVxlans R1 ts vs) as [ts1 vs1] eqn:E1.
  destruct (@normalizeTunnelVxlans R2 ts vs) as [ts2 vs2] eqn:E2.
  apply normalizeTunnelVxlans_spec in E1 as (A1 & B1 & C1 & D1), E2 as (A2 & B2 & C2 & D2).
  f_equal; apply gomap_eq; intros; rewrite ?A1, ?A2, ?B1, ?B2, ?C1, ?C2, ?D1, ?D2; done.
Qed.

(** A loop that writes into a map what [g] makes of the entries of a list. *)
Lemma put_fold {A B} (g : A -> option B) (l : list (string * A)) (m : gomap B) :
  NoDup l.*1 ->
  let m' := fold_left (fun m '(k, v) => match g v with None => m | Some w => put_make m k w end) l m in
  (forall k, gm_get m' k =
     match (list_to_map l : gmap string A) !! k ≫= g with Some w => Some w | None => gm_get m k end) /\
  (m' = None <-> m = None /\ forall k v, (k, v) ∈ l -> g v = None).
Proof.
  revert m. induction l as [|[k0 v0] l IH]; intros m Hn; simpl.
  { split; [intros k; by rewrite lookup_empty|]. setoid_rewrite elem_of_nil. naive_solver. }
  apply NoDup_cons in Hn as [Hk0 Hn].
  assert ((list_to_map l : gmap string A) !! k0 = None) as Hl0 by by apply not_elem_of_list_to_map_1.
  setoid_rewrite lookup_insert. setoid_rewrite elem_of_cons.
  destruct (g v0) as [w|] eqn:Hg.
  - destruct (IH (put_make m k0 w) Hn) as [H1 H2]. split.
    + intros k. rewrite H1, gm_get_put_make. case_decide; [subst k|done]. by rewrite Hl0; simpl; rewrite Hg.
    + rewrite H2. split; [by intros []|]. intros [_ Hf]. specialize (Hf k0 v0). naive_solver.
  - destruct (IH m Hn) as [H1 H2]. split.
    + intros k. rewrite H1. case_decide; [subst k|done]. by rewrite Hl0; simpl; rewrite Hg.
    + rewrite H2. naive_solver.
Qed.

Section normalize_netns.
Context `{RangeOrder}.

Definition normalize_netns (netns : gomap (ptr Namespace)) : gomap (ptr Namespace) :=
  fold_left (fun m '(name, ns) => match ns with
                                  | None => m
                                  | Some _ => put_make m name (normalize_ns ns)
                                  end) (gm_range 803 netns) netns.

Lemma normalize_netns_spec netns :
  (forall k, gm_get (normalize_netns netns) k = normalize_ns <$> gm_get netns k) /\
  (normalize_netns netns = None <-> netns = None).
Proof.
  unfold normalize_netns.
  set (g := fun ns : ptr Namespace => match ns with None => None | Some _ => Some (normalize_ns ns) end).
  assert (forall l (m : gomap (ptr Namespace)), fold_left (fun m '(name, ns) => match ns with
     | None => m | Some _ => put_make m name (normalize_ns ns) end) l m =
    fold_left (fun m '(k, v) => match g v with None => m | Some w => put_make m k w end) l m) as ->.
  { intros l. induction l as [|[k [ns|]] l IH]; intros m; [done|..]; simpl; apply IH. }
  destruct (put_fold g (gm_range 803 netns) netns (NoDup_fst_range _ _)) as [H1 H2].
  unfold gm_range in *. rewrite list_to_map_range in H1. fold (gm_get netns) in H1. split.
  - intros k. rewrite H1. unfold gm_get. destruct (gm_map netns !! k) as [[ns|]|]; done.
  - rewrite H2. split; [by intros []|]. intros ->. split; [done|]. unfold gm_map. simpl.
    rewrite range_empty. setoid_rewrite elem_of_nil. done.
Qed.
End normalize_netns.

(** The namespaces that Normalize works on: the legacy section of a file
    without a version replaces the others. *)
Definition legacy (c : Config) : bool :=
  (Network_Version (Config_Network c) =? 0) && gm_nonempty (Config_Netns c).
Definition netns_of (c : Config) : gomap (ptr Namespace) :=
  if legacy c then Config_Netns c else Network_Netns (Config_Network c).

Section normalize_ok.
Context `{RangeOrder}.

(** The parts of a normalised configuration. *)
Lemma Normalize_unfold c :
  Config_Netns (Normalize c) = (if legacy c then None else Config_Netns c) /\
  Network_Version (Config_Network (Normalize c)) =
    (if Network_Version (Config_Network c) =? 0 then 2 else Network_Version (Config_Network c)) /\
  Network_Renderer (Config_Network (Normalize c)) = Network_Renderer (Config_Network c) /\
  Network_VPP (Config_Network (Normalize c)) = Network_VPP (Config_Network c) /\
  Network_SRv6 (Config_Network (Normalize c)) = Network_SRv6 (Config_Network c) /\
  Network_Netns (Config_Network (Normalize c)) = normalize_netns (netns_of c) /\
  (Network_Tunnels (Config_Network (Normalize c)), Network_Vxlans (Config_Network (Normalize c))) =
    normalizeTunnelVxlans (Network_Tunnels (Config_Network c)) (Network_Vxlans (Config_Network c)) /\
  forall k, k <> KTunnels -> k <> KVxlans -> cfg_map k (Normalize c) = cfg_map k c.
Proof.
  unfold Normalize, netns_of, legacy, normalize_netns, cfg_map.
  destruct (Network_Version (Config_Network c) =? 0) eqn:E, (gm_nonempty (Config_Netns c)) eqn:E2;
    destruct c as [n netns]; destruct n; cbn -[gm_range fold_left] in *; rewrite ?E;
    cbn -[gm_range fold_left]; rewrite ?E; destruct (normalizeTunnelVxlans _ _) as [ts vs];
    (split_and!; [done..|intros k Hk1 Hk2; by destruct k]).
Qed.

Lemma normalize_ns_spec ns :
  exists ns', normalize_ns (Some ns) = Some ns' /\
    (Namespace_Tunnels ns', Namespace_Vxlans ns') =
      normalizeTunnelVxlans (Namespace_Tunnels ns) (Namespace_Vxlans ns) /\
    Namespace_Loopback ns' = Namespace_Loopback ns /\ Namespace_SRv6 ns' = Namespace_SRv6 ns /\
    Namespace_PostScript ns' = Namespace_PostScript ns /\
    forall k, k <> KTunnels -> k <> KVxlans -> ns_map k ns' = ns_map k ns.
Proof.
  unfold normalize_ns. destruct (normalizeTunnelVxlans _ _) as [ts vs]. eexists. split; [done|].
  destruct ns. cbn. split_and!; try done. intros k ??; by destruct k.
Qed.
End normalize_ok.

Lemma Config_ext c1 c2 :
  Config_Netns c1 = Config_Netns c2 ->
  Network_Version (Config_Network c1) = Network_Version (Config_Network c2) ->
  Network_Renderer (Config_Network c1) = Network_Renderer (Config_Network c2) ->
  Network_VPP (Config_Network c1) = Network_VPP (Config_Network c2) ->
  Network_SRv6 (Config_Network c1) = Network_SRv6 (Config_Network c2) ->
  Network_Netns (Config_Network c1) = Network_Netns (Config_Network c2) ->
  (forall k, cfg_map k c1 = cfg_map k c2) -> c1 = c2.
Proof.
  unfold cfg_map. destruct c1 as [n1 s1], c2 as [n2 s2]. simpl. intros. f_equal; [|done].
  pose proof (fun k => H5 k) as Hk. destruct n1, n2. simpl in *. subst.
  f_equal; [exact (Hk KEthernets)|exact (Hk KWifis)|exact (Hk KDummyDevices)|
    exact (Hk KVirtualEthernets)|exact (Hk KVethDevices)|exact (Hk KMacvlanDevices)|
    exact (Hk KMacvtapDevices)|exact (Hk KIpvlanDevices)|exact (Hk KBridges)|exact (Hk KBonds)|
    exact (Hk KVlans)|exact (Hk KVxlans)|exact (Hk KTunnels)|exact (Hk KVrfs)|
    exact (Hk KTunDevices)|exact (Hk KTapDevices)].
Qed.

Lemma normalize_ns_order (R1 R2 : RangeOrder) ns : @normalize_ns R1 ns = @normalize_ns R2 ns.
Proof.
  unfold normalize_ns. destruct ns as [ns|]; [|done]. by rewrite (normalizeTunnelVxlans_order R1 R2).
Qed.

Lemma normalize_netns_order (R1 R2 : RangeOrder) m :
  @normalize_netns R1 m = @normalize_netns R2 m.
Proof.
  destruct (@normalize_netns_spec R1 m) as [A1 B1], (@normalize_netns_spec R2 m) as [A2 B2].
  apply gomap_eq; [|by rewrite B1, B2]. intros k. rewrite A1, A2.
  destruct (gm_get m k); simpl; [|done]. f_equal. apply normalize_ns_order.
Qed.

(** A map of tunnels without vxlan entries is left alone. *)
Lemma normalizeTunnelVxlans_done `{RangeOrder} ts vs :
  (forall k, vxlan_entry (gm_get ts k) = None) -> normalizeTunnelVxlans ts vs = (ts, vs).
Proof.
  intros Hno. destruct (normalizeTunnelVxlans ts vs) as [ts' vs'] eqn:E.
  apply normalizeTunnelVxlans_spec in E as (A & B & C & D).
  f_equal; apply gomap_eq; [| |intros k; rewrite B; unfold vxlan_after; by rewrite Hno|naive_solver].
  - intros k. rewrite A. unfold tunnel_after. by rewrite Hno.
  - naive_solver.
Qed.

Lemma vxlan_entry_after t : vxlan_entry (tunnel_after t) = None.
Proof. unfold tunnel_after. by destruct (vxlan_entry t) eqn:E. Qed.

Lemma normalizeTunnelVxlans_idem (R1 R2 : RangeOrder) ts vs ts' vs' :
  @normalizeTunnelVxlans R1 ts vs = (ts', vs') -> @normalizeTunnelVxlans R2 ts' vs' = (ts', vs').
Proof.
  intros (A & _)%normalizeTunnelVxlans_spec. apply normalizeTunnelVxlans_done. intros k.
  rewrite A. apply vxlan_entry_after.
Qed.

Lemma normalize_ns_idem (R1 R2 : RangeOrder) ns :
  @normalize_ns R2 (@normalize_ns R1 ns) = @normalize_ns R1 ns.
Proof.
  destruct ns as [ns|]; [|done]. simpl.
  destruct (@normalizeTunnelVxlans R1 _ _) as [ts vs] eqn:E. destruct ns. cbn in *.
  by rewrite (normalizeTunnelVxlans_idem R1 R2 _ _ _ _ E).
Qed.

(** A vxlan with the settings of a tunnel. *)
Definition converted (t : Tunnel) (v : Vxlan) : Prop :=
  Vxlan_ID v = Tunnel_ID t /\ Vxlan_Link v = Tunnel_Link t /\
  Vxlan_Local v = Tunnel_Local t /\ Vxlan_Remote v = Tunnel_Remote t /\
  Vxlan_Group v = Tunnel_Group t /\ Vxlan_Port v = Tunnel_Port t /\
  Vxlan_DestPort v = Tunnel_DestPort t /\ Vxlan_PortRange v = Tunnel_PortRange t /\
  Vxlan_TTL v = Tunnel_TTL t /\ Vxlan_TOS v = Tunnel_TOS t /\
  Vxlan_Ageing v = Tunnel_Ageing t /\ Vxlan_Limit v = Tunnel_Limit t /\
  Vxlan_Learning v = Tunnel_MacLearning t /\ Vxlan_ARPProxy v = Tunnel_ARPProxy t /\
  Vxlan_NeighSuppress v = Tunnel_NeighSuppress t /\ Vxlan_L2miss v = Tunnel_L2miss t /\
  Vxlan_L3miss v = Tunnel_L3miss t /\ Vxlan_RSC v = Tunnel_RSC t /\
  Vxlan_NoAge v = Tunnel_NoAge t /\ Vxlan_GBP v = Tunnel_GBP t /\
  Vxlan_External v = Tunnel_External t /\ Vxlan_UDPChecksum v = Tunnel_UDPChecksum t /\
  Vxlan_UDP6ZeroCSumTx v = Tunnel_UDP6ZeroCSumTx t /\ Vxlan_UDP6ZeroCSumRx v = Tunnel_UDP6ZeroCSumRx t /\
  Vxlan_MTU v = Tunnel_MTU t /\ Vxlan_MacAddress v = Tunnel_MacAddress t /\
  Vxlan_Addresses v = Tunnel_Addresses t /\ Vxlan_Routes v = Tunnel_Routes t /\
  Vxlan_FDB v = Tunnel_FDB t /\ Vxlan_Neighbors v = Tunnel_Neighbors t /\
  Vxlan_VPP v = Tunnel_VPP t.

Lemma converted_toVxlan t : converted t (toVxlan t).
Proof. by repeat split. Qed.

(** What a vxlan [v'] is after Normalize, where it was [v], and the tunnel of its
    name [t]. *)
Definition vxlan_now (t : option (ptr Tunnel)) (v v' : option (ptr Vxlan)) : Prop :=
  match vxlan_entry t with
  | Some t => exists x, v' = Some (Some x) /\ converted t x
  | None => v' = v
  end.

Lemma vxlan_now_after t v v' : v' = vxlan_after t v -> vxlan_now t v v'.
Proof.
  unfold vxlan_now, vxlan_after. intros ->. destruct (vxlan_entry t) as [t'|]; [|done].
  exists (toVxlan t'). split; [done|apply converted_toVxlan].
Qed.

(** C31: Normalize does what netplan's conventions ask: a file without version
    gets version 2, its legacy netns section (when there is one) replaces
    network.netns; in the default namespace and in every named one, exactly
    the tunnels of mode vxlan (in any case) leave the tunnels and appear,
    converted, among the vxlans; everything else is unchanged, and no tunnel of
    mode vxlan is left. *)
Theorem Normalize_correct `{RangeOrder} (c : Config) :
  let n := Config_Network c in let n' := Config_Network (Normalize c) in
  Network_Version n' = (if Network_Version n =? 0 then 2 else Network_Version n) /\
  (forall name, gm_get (Network_Tunnels n') name = tunnel_after (gm_get (Network_Tunnels n) name)) /\
  (forall name, vxlan_now (gm_get (Network_Tunnels n) name) (gm_get (Network_Vxlans n) name)
     (gm_get (Network_Vxlans n') name)) /\
  (forall name t, gm_get (Network_Tunnels n') name = Some (Some t) -> is_vxlan t = false) /\
  (forall k, k <> KTunnels -> k <> KVxlans -> cfg_map k (Normalize c) = cfg_map k c) /\
  (forall name, is_Some (gm_get (Network_Netns n') name) <-> is_Some (gm_get (netns_of c) name)) /\
  (forall name ns, gm_get (netns_of c) name = Some (Some ns) ->
     exists ns', gm_get (Network_Netns n') name = Some (Some ns') /\
       (forall t, gm_get (Namespace_Tunnels ns') t = tunnel_after (gm_get (Namespace_Tunnels ns) t)) /\
       (forall t, vxlan_now (gm_get (Namespace_Tunnels ns) t) (gm_get (Namespace_Vxlans ns) t)
          (gm_get (Namespace_Vxlans ns') t)) /\
       forall k, k <> KTunnels -> k <> KVxlans -> ns_map k ns' = ns_map k ns).
Proof.
  destruct (Normalize_unfold c) as (_ & Hv & _ & _ & _ & Hns & Ht & Hk). simpl.
  symmetry in Ht. apply normalizeTunnelVxlans_spec in Ht as (A & B & _).
  destruct (normalize_netns_spec (netns_of c)) as [C _]. rewrite Hns.
  split_and!; [done|done|intros name; by apply vxlan_now_after| |done| |].
  - intros name t Hname. pose proof (vxlan_entry_after (gm_get (Network_Tunnels (Config_Network c)) name)) as He.
    rewrite <-A, Hname in He. simpl in He. by destruct (is_vxlan t).
  - intros name. rewrite C. by rewrite fmap_is_Some.
  - intros name ns Hname. destruct (normalize_ns_spec ns) as (ns' & Hns' & Ht & _ & _ & _ & Hk').
    symmetry in Ht. apply normalizeTunnelVxlans_spec in Ht as (A' & B' & _).
    exists ns'. split; [by rewrite C, Hname, <-Hns'|]. split; [done|]. split; [|done].
    intros t. by apply vxlan_now_after.
Qed.

(** C34: Normalize gives the same configuration whatever the orders in which it
    ranges over its maps, and one that it leaves as it is when it is normalized
    again, in whatever order. *)
Theorem Normalize_idempotent (R1 R2 : RangeOrder) (c : Config) :
  @Normalize R1 c = @Normalize R2 c /\ @Normalize R2 (@Normalize R1 c) = @Normalize R1 c.
Proof.
  destruct (@Normalize_unfold R1 c) as (A1 & A2 & A3 & A4 & A5 & A6 & A7 & A8). split.
  - destruct (@Normalize_unfold R2 c) as (B1 & B2 & B3 & B4 & B5 & B6 & B7 & B8).
    rewrite (normalizeTunnelVxlans_order R1 R2), <-B7 in A7. injection A7 as A7 A9.
    apply Config_ext; try congruence.
    + rewrite A6, B6. apply normalize_netns_order.
    + intros k. destruct k; try (by rewrite A8, B8 by done); done.
  - destruct (@Normalize_unfold R2 (@Normalize R1 c)) as (B1 & B2 & B3 & B4 & B5 & B6 & B7 & B8).
    assert (legacy (@Normalize R1 c) = false) as Hleg.
    { unfold legacy. rewrite A2. destruct (Network_Version _ =? 0) eqn:E; [done|by rewrite E]. }
    unfold netns_of in B6. rewrite Hleg in B1, B6.
    symmetry in A7. rewrite (normalizeTunnelVxlans_idem R1 R2 _ _ _ _ A7) in B7. injection B7 as B7 B9.
    apply Config_ext; try congruence.
    + rewrite B2, A2. destruct (Network_Version (Config_Network c) =? 0) eqn:E; [done|by rewrite E].
    + rewrite B6, A6. destruct (@normalize_netns_spec R1 (netns_of c)) as [C1 D1].
      destruct (@normalize_netns_spec R2 (@normalize_netns R1 (netns_of c))) as [C2 D2].
      apply gomap_eq; [|done]. intros k. rewrite C2, C1. destruct (gm_get (netns_of c) k); [|done].
      simpl. f_equal. apply normalize_ns_idem.
    + intros k. destruct k; try (by rewrite B8 by done); done.
Qed.

(** ** Merging *)

Section merge.
Context `{RangeOrder}.

Lemma fold_put {A} (l : list (string * A)) (d : gmap string A) :
  NoDup l.*1 ->
  fold_pan l (Some d) (fun dst '(k, v) => gm_put dst k v) = Some (Some (list_to_map l ∪ d)).
Proof.
  revert d. induction l as [|[k v] l IH]; intros d Hn; simpl; [by rewrite (left_id_L ∅ (∪))|].
  apply NoDup_cons in Hn as [Hk Hn]. rewrite IH by done. do 2 f_equal.
  rewrite <-insert_union_r by by apply not_elem_of_list_to_map_1.
  by rewrite insert_union_l.
Qed.

(** Merging into a map that is not nil overrides its entries. *)
Lemma mergeMap_Some {A} (d : gmap string A) (src : gomap A) :
  mergeMap (Some d) src = Some (Some (gm_map src ∪ d)).
Proof.
  unfold mergeMap. rewrite fold_put by apply NoDup_fst_range. unfold gm_range.
  by rewrite list_to_map_range.
Qed.

Lemma mergeMake_eq {A} (dst src : gomap A) :
  mergeMake dst src = Some (Some (gm_map src ∪ gm_map dst)).
Proof. unfold mergeMake, gm_make. destruct dst; apply mergeMap_Some. Qed.

(** Merging two namespaces that are there: map by map, the second one wins;
    the loopback and the SRv6 section of the second one are dropped. *)
Lemma mergeNamespace_spec d s :
  exists r, mergeNamespace (Some d) (Some s) = Some r /\
    (forall k, ns_map k r = Some (gm_map (ns_map k s) ∪ gm_map (ns_map k d))) /\
    Namespace_Loopback r = Namespace_Loopback d /\ Namespace_SRv6 r = Namespace_SRv6 d /\
    Namespace_PostScript r = (if Str.is_empty (Namespace_PostScript s) then Namespace_PostScript d
                              else Namespace_PostScript s).
Proof.
  unfold mergeNamespace. simpl. rewrite !mergeMake_eq. simpl. eexists. split; [done|].
  split; [by intros []|done].
Qed.

Lemma mergeNamespace_nil d s : d = None \/ s = None -> mergeNamespace d s = None.
Proof. intros [-> | ->]; [done|by destruct d]. Qed.

(** What merging one entry of the namespaces gives. *)
Definition merged_ns (old new : option (ptr Namespace)) : option (option (ptr Namespace)) :=
  match new, old with
  | None, _ => Some old
  | Some ns, None => Some (Some ns)
  | Some ns, Some o => r ← mergeNamespace o ns; Some (Some (Some r))
  end.

Lemma mergeNetns_spec (d : gmap string (ptr Namespace)) src r :
  mergeNetns (Some d) src = Some r ->
  exists r', r = Some r' /\ forall name, merged_ns (d !! name) (gm_get src name) = Some (r' !! name).
Proof.
  assert (forall name, gm_get src name =
    (list_to_map (range 1048 (gm_map src)) : gmap string (ptr Namespace)) !! name) as Hs
    by (intros; by rewrite list_to_map_range).
  setoid_rewrite Hs. clear Hs. unfold mergeNetns, gm_range.
  pose proof (NoDup_fst_range 1048 (gm_map src)) as Hn. revert d Hn.
  induction (range 1048 (gm_map src)) as [|[k v] l IH]; intros d Hn; simpl.
  { intros [= <-]. exists d. split; [done|]. intros name. by rewrite lookup_empty. }
  apply NoDup_cons in Hn as [Hk Hn]. rewrite bind_Some. intros (d1 & Hd1 & Hrest).
  assert (exists d', d1 = Some d' /\ merged_ns (d !! k) (Some v) = Some (d' !! k) /\
    forall j, j <> k -> d' !! j = d !! j) as (d' & -> & Hk' & Hj).
  { unfold gm_get in Hd1. simpl in Hd1. destruct (d !! k) as [o|].
    - simpl. rewrite bind_Some in Hd1. destruct Hd1 as (n & -> & [= <-]). eexists. split; [done|].
      split; [by rewrite lookup_insert_eq|]. intros j Hj. by rewrite lookup_insert_ne.
    - injection Hd1 as <-. eexists. split; [done|].
      split; [by rewrite lookup_insert_eq|]. intros j Hj. by rewrite lookup_insert_ne. }
  apply IH in Hrest as (r' & -> & Hr'); [|done]. exists r'. split; [done|]. intros name.
  specialize (Hr' name). rewrite lookup_insert. case_decide as Hkn; [subst name|].
  - rewrite not_elem_of_list_to_map_1 in Hr' by done. simpl in Hr'. congruence.
  - by rewrite Hj in Hr' by done.
Qed.

(** The merge of the namespaces panics exactly when one is on both sides and null
    on one. *)
Definition null_clash (o v : option (ptr Namespace)) : Prop :=
  exists n n', o = Some n /\ v = Some n' /\ (n = None \/ n' = None).

Lemma merged_ns_clash o v : merged_ns o v = None <-> null_clash o v.
Proof.
  unfold null_clash. destruct v as [v|], o as [o|]; simpl; try naive_solver.
  destruct o as [o|], v as [v|]; [|naive_solver..].
  destruct (mergeNamespace_spec o v) as (r & -> & _). naive_solver.
Qed.

Lemma fold_netns_clash (l : list (string * ptr Namespace)) (d : gmap string (ptr Namespace)) :
  NoDup l.*1 ->
  fold_pan l (Some d) (fun dst '(name, ns) =>
    match gm_get dst name with
    | None => gm_put dst name ns
    | Some old => ns ← mergeNamespace old ns; gm_put dst name (Some ns)
    end) = None ->
  exists name v, (name, v) ∈ l /\ null_clash (d !! name) (Some v).
Proof.
  revert d. induction l as [|[k v] l IH]; intros d Hn; cbn [fold_pan]; [done|].
  apply NoDup_cons in Hn as [Hk Hn]. change (gm_get (Some d) k) with (d !! k).
  assert (forall w, fold_pan l (Some (<[k:=w]> d)) (fun dst '(name, ns) =>
      match gm_get dst name with
      | None => gm_put dst name ns
      | Some old => ns ← mergeNamespace old ns; gm_put dst name (Some ns)
      end) = None -> exists name v', (name, v') ∈ (k, v) :: l /\ null_clash (d !! name) (Some v')) as Hnext.
  { intros w Hw. destruct (IH _ Hn Hw) as (name & v' & Hin & Hc). exists name, v'. split; [by right|].
    rewrite lookup_insert_ne in Hc; [done|]. intros ->. apply Hk, list_elem_of_fmap. by exists (name, v'). }
  destruct (d !! k) as [o|] eqn:Ho; [|apply Hnext]. destruct (mergeNamespace o v) as [r|] eqn:Hm; [apply Hnext|].
  intros _. exists k, v. split; [by left|]. rewrite Ho. apply merged_ns_clash. simpl. by rewrite Hm.
Qed.

Lemma mergeNetns_clash (d : gmap string (ptr Namespace)) src :
  mergeNetns (Some d) src = None <-> exists name, null_clash (d !! name) (gm_get src name).
Proof.
  split.
  - intros Hm. apply fold_netns_clash in Hm as (name & v & Hin%elem_of_range & Hc); [|apply NoDup_fst_range].
    exists name. unfold gm_get. by rewrite Hin.
  - intros [name Hc]. destruct (mergeNetns (Some d) src) as [r|] eqn:Hm; [|done].
    apply mergeNetns_spec in Hm as (r' & _ & Hr). apply merged_ns_clash in Hc. by rewrite Hr in Hc.
Qed.
End merge.

(** The entry [name] of kind [k] in the namespace [ns]. *)
Definition ns_get (k : kind) (ns name : string) (c : Config) : option (ptr (kind_type k)) :=
  match gm_get (Network_Netns (Config_Network c)) ns with
  | Some (Some n) => gm_get (ns_map k n) name
  | _ => None
  end.

(** The last value that some configurations give. *)
Definition last_given {A B} (f : A -> option B) (l : list A) : option B := last (omap f l).

Lemma last_given_cons {A B} (f : A -> option B) a l :
  last_given f (a :: l) = override (f a) (last_given f l).
Proof.
  unfold last_given, override. simpl. destruct (f a) as [b|].
  - rewrite last_cons. by destruct (last _).
  - by destruct (last _).
Qed.

Lemma override_assoc {A} (a b c : option A) : override (override a b) c = override a (override b c).
Proof. by destruct c. Qed.

(** A configuration that others can be merged into. *)
Definition mergeable (c : Config) : Prop :=
  (forall k, cfg_map k c <> None) /\ Network_Netns (Config_Network c) <> None.

(** Opens the map of kind [k], which is not nil. *)
Ltac kind_map Hm k := let E := fresh in destruct (Hm k) as [? E]; simpl in E; rewrite E.

Section merge_config.
Context `{RangeOrder}.

(** The three parts of a merge: the device maps, the namespaces, the rest. *)
Lemma mergeConfig_parts dst src :
  mergeable dst ->
  exists n, (forall k, cfg_map k (dst <| Config_Network := n |>) =
               Some (gm_map (cfg_map k src) ∪ gm_map (cfg_map k dst))) /\
    Network_SRv6 n = override (Network_SRv6 (Config_Network dst)) (Network_SRv6 (Config_Network src)) /\
    Network_VPP n = override (Network_VPP (Config_Network dst)) (Network_VPP (Config_Network src)) /\
    mergeConfig dst src =
      (netns ← mergeNetns (Network_Netns (Config_Network dst)) (Network_Netns (Config_Network src));
       Some (dst <| Config_Network := n <| Network_Netns := netns |> |>)).
Proof.
  intros [Hd Hn].
  assert (forall k, exists d, cfg_map k dst = Some d) as Hm.
  { intros k. specialize (Hd k). destruct (cfg_map k dst) eqn:?; [by eexists|done]. }
  unfold mergeConfig, cfg_map in *. destruct dst as [d sn], src as [s sn']. cbn in *.
  clear Hd Hn.
  kind_map Hm KEthernets; kind_map Hm KWifis; kind_map Hm KDummyDevices; kind_map Hm KVirtualEthernets;
  kind_map Hm KVethDevices; kind_map Hm KMacvlanDevices; kind_map Hm KMacvtapDevices;
  kind_map Hm KIpvlanDevices; kind_map Hm KBridges; kind_map Hm KBonds; kind_map Hm KVlans;
  kind_map Hm KVxlans; kind_map Hm KTunnels; kind_map Hm KVrfs; kind_map Hm KTunDevices;
  kind_map Hm KTapDevices.
  rewrite !mergeMap_Some. cbn -[mergeNetns].
  eexists (MkNetwork _ _ _ _ _ _ _ _ _ _ _ _ _ _ _ _ _ _ _ _ None). split_and!.
  4: { destruct (mergeNetns _ _); cbn -[mergeNetns]; [|done]. reflexivity. }
  - intros []; simpl; match goal with E : ?x = Some _ |- context [gm_map ?x] => rewrite E end; done.
  - done.
  - done.
Qed.

Lemma cfg_map_netns k c n netns :
  cfg_map k (c <| Config_Network := n <| Network_Netns := netns |> |>) =
  cfg_map k (c <| Config_Network := n |>).
Proof. destruct c, n. by destruct k. Qed.

Lemma gm_get_union {A} (s d : gmap string A) name :
  gm_get (Some (s ∪ d)) name = override (d !! name) (s !! name).
Proof. unfold gm_get, override. simpl. rewrite lookup_union. by destruct (s !! name), (d !! name). Qed.

Lemma ns_get_merged (d r : gmap string (ptr Namespace)) src k ns name :
  merged_ns (d !! ns) (gm_get src ns) = Some (r !! ns) ->
  match r !! ns with Some (Some n) => gm_get (ns_map k n) name | _ => None end =
  override (match d !! ns with Some (Some n) => gm_get (ns_map k n) name | _ => None end)
    (match gm_get src ns with Some (Some n) => gm_get (ns_map k n) name | _ => None end).
Proof.
  destruct (gm_get src ns) as [s|] eqn:Hs, (d !! ns) as [o|] eqn:Ho; simpl.
  - rewrite bind_Some. intros (n & Hn & Hr). injection Hr as <-.
    destruct o as [o|]; [|done]. destruct s as [s|]; [|done].
    destruct (mergeNamespace_spec o s) as (r' & Hr' & Hk & _). rewrite Hr' in Hn.
    injection Hn as <-. rewrite Hk. apply gm_get_union.
  - intros [= <-]. destruct s as [s|]; [|done]. by destruct (gm_get (ns_map k s) name).
  - intros [= <-]. done.
  - intros [= <-]. done.
Qed.

Lemma mergeConfig_spec dst src r :
  mergeable dst -> mergeConfig dst src = Some r ->
  mergeable r /\
  (forall k name, gm_get (cfg_map k r) name =
     override (gm_get (cfg_map k dst) name) (gm_get (cfg_map k src) name)) /\
  (forall k ns name, ns_get k ns name r = override (ns_get k ns name dst) (ns_get k ns name src)) /\
  Network_SRv6 (Config_Network r) =
    override (Network_SRv6 (Config_Network dst)) (Network_SRv6 (Config_Network src)) /\
  Network_VPP (Config_Network r) =
    override (Network_VPP (Config_Network dst)) (Network_VPP (Config_Network src)).
Proof.
  intros Hd Hr. destruct (mergeConfig_parts dst src Hd) as (n & Hk & Hs & Hv & E).
  rewrite E, bind_Some in Hr. destruct Hr as (netns & Hns & [= <-]).
  destruct Hd as [Hd Hdn]. destruct (Network_Netns (Config_Network dst)) as [d|] eqn:Hdm; [|done].
  apply mergeNetns_spec in Hns as (r' & -> & Hr'). split_and!.
  - split; [intros k; by rewrite cfg_map_netns, Hk|]. by destruct dst, n.
  - intros k name. rewrite cfg_map_netns, Hk, gm_get_union. done.
  - intros k ns name. unfold ns_get. rewrite Hdm. unfold gm_get at 3. simpl.
    specialize (Hr' ns). apply (ns_get_merged d r' _ k ns name) in Hr'.
    destruct dst, n. exact Hr'.
  - destruct dst, n. exact Hs.
  - destruct dst, n. exact Hv.
Qed.

(** The entry of a namespace, which may be null. *)
Definition netns_entry (name : string) (c : Config) : option (ptr Namespace) :=
  gm_get (Network_Netns (Config_Network c)) name.

(** Two configurations that both have a namespace, one of them as null. *)
Definition clash (c c' : Config) : Prop :=
  exists name, null_clash (netns_entry name c) (netns_entry name c').

Lemma mergeConfig_entries dst src :
  mergeable dst ->
  match mergeConfig dst src with
  | None => clash dst src
  | Some r => ~ clash dst src /\ forall name,
      merged_ns (netns_entry name dst) (netns_entry name src) = Some (netns_entry name r)
  end.
Proof.
  intros Hd. destruct (mergeConfig_parts dst src Hd) as (n & _ & _ & _ & ->). destruct Hd as [_ Hd].
  unfold clash, netns_entry. destruct (Network_Netns (Config_Network dst)) as [d|] eqn:Hdm; [|done].
  pose proof (mergeNetns_clash d (Network_Netns (Config_Network src))) as Hc.
  destruct (mergeNetns _ _) as [r|] eqn:Hm; simpl; [|by apply Hc].
  split; [intros Hcl; by apply Hc in Hcl|]. apply mergeNetns_spec in Hm as (r' & -> & Hr). by destruct dst, n.
Qed.

Context (read_file : string -> res string) (unmarshal : string -> res Config).

Lemma merge_files_spec m files r :
  mergeable m -> merge_files read_file unmarshal m files = Some (Ok r) ->
  exists cfgs, Forall2 (fun f c => LoadConfigFile read_file unmarshal f = Ok c) files cfgs /\
  (forall k name, gm_get (cfg_map k r) name =
       override (gm_get (cfg_map k m) name) (last_given (fun c => gm_get (cfg_map k c) name) cfgs)) /\
  (forall k ns name, ns_get k ns name r =
       override (ns_get k ns name m) (last_given (ns_get k ns name) cfgs)) /\
  Network_SRv6 (Config_Network r) = override (Network_SRv6 (Config_Network m))
      (last_given (fun c => Network_SRv6 (Config_Network c)) cfgs) /\
  Network_VPP (Config_Network r) = override (Network_VPP (Config_Network m))
      (last_given (fun c => Network_VPP (Config_Network c)) cfgs).
Proof.
  revert m. induction files as [|f files IH]; intros m Hm; cbn [merge_files].
  { intros [= <-]. by exists []. }
  destruct (LoadConfigFile _ _ f) as [c|e] eqn:Hf; [|done].
  rewrite bind_Some. intros (m' & Hm' & Hr).
  destruct (mergeConfig_spec m c m' Hm Hm') as (Hmm & H1 & H2 & H3 & H4).
  destruct (IH m' Hmm Hr) as (cfgs & Hc & J1 & J2 & J3 & J4). exists (c :: cfgs).
  split; [by constructor|].
  split_and!.
  - intros k name. by rewrite last_given_cons, <-override_assoc, <-H1.
  - intros k ns name. by rewrite last_given_cons, <-override_assoc, <-H2.
  - by rewrite last_given_cons, <-override_assoc, <-H3.
  - by rewrite last_given_cons, <-override_assoc, <-H4.
Qed.

(** Two of some configurations clash. *)
Definition clashing (cfgs : list Config) : Prop :=
  exists i j c c', (i < j)%nat /\ cfgs !! i = Some c /\ cfgs !! j = Some c' /\ clash c c'.

Lemma clashing_app cfgs cfgs' : clashing cfgs -> clashing (cfgs ++ cfgs').
Proof. intros (i & j & c & c' & Hij & Hi & Hj & Hc). exists i, j, c, c'. by split_and!; try apply lookup_app_l_Some. Qed.

Lemma clashing_snoc cfgs c :
  clashing (cfgs ++ [c]) <-> clashing cfgs \/ exists c', c' ∈ cfgs /\ clash c' c.
Proof.
  split.
  - intros (i & j & c1 & c2 & Hij & Hi & Hj & Hc). apply lookup_app_Some in Hj as [Hj|[Hlen Hj]].
    + left. exists i, j, c1, c2. split_and!; [done| |done|done].
      rewrite lookup_app_l in Hi; [done|]. apply lookup_lt_Some in Hj. lia.
    + right. apply list_lookup_singleton_Some in Hj as [Hj <-]. exists c1. split; [|done].
      rewrite lookup_app_l in Hi by lia. by apply list_elem_of_lookup_2 in Hi.
  - intros [Hc|(c' & Hin & Hc)]; [by apply clashing_app|]. apply list_elem_of_lookup in Hin as [i Hi].
    exists i, (length cfgs), c', c. split_and!; [by apply lookup_lt_Some in Hi|by apply lookup_app_l_Some| |done].
    by rewrite lookup_app_r, Nat.sub_diag by done.
Qed.

(** The namespaces of [m] are those that have been seen. *)
Definition gathers (m : Config) (seen : list Config) : Prop := forall name,
  (is_Some (netns_entry name m) <-> exists c, c ∈ seen /\ is_Some (netns_entry name c)) /\
  (netns_entry name m = Some None <-> exists c, c ∈ seen /\ netns_entry name c = Some None).

Lemma gathers_clash m seen c : gathers m seen -> clash m c <-> exists c', c' ∈ seen /\ clash c' c.
Proof.
  intros Hg. unfold clash, null_clash. split.
  - intros (name & n & n' & Hn & Hn' & Hnull). destruct (Hg name) as [H1 H2].
    destruct n as [n|].
    + destruct Hnull as [|Hnull]; [done|]. destruct (proj1 H1 ltac:(by eexists)) as (c' & Hin & [n1 Hn1]).
      exists c'. split; [done|]. exists name, n1, n'. naive_solver.
    + destruct (proj1 H2 Hn) as (c' & Hin & Hc'). exists c'. split; [done|]. exists name, None, n'. naive_solver.
  - intros (c' & Hin & name & n & n' & Hn & Hn' & Hnull). destruct (Hg name) as [H1 H2]. exists name.
    destruct n' as [n'|].
    + destruct Hnull as [->|]; [|done]. exists None, (Some n'). split_and!; [|done|by left].
      apply H2. by exists c'.
    + destruct (proj2 H1) as [n1 Hn1]; [by exists c'; split; [|eexists]|]. exists n1, None. naive_solver.
Qed.

Lemma gathers_snoc m seen c r :
  gathers m seen -> (forall name, merged_ns (netns_entry name m) (netns_entry name c) = Some (netns_entry name r)) ->
  gathers r (seen ++ [c]).
Proof.
  intros Hg Hr name. specialize (Hr name). destruct (Hg name) as [H1 H2]. setoid_rewrite elem_of_app.
  setoid_rewrite list_elem_of_singleton. destruct (netns_entry name c) as [n|] eqn:Hc.
  - destruct (netns_entry name m) as [o|] eqn:Hm; simpl in Hr.
    + apply bind_Some in Hr as (n' & Hn' & [= <-]). destruct o as [o|]; [|done]. destruct n as [n|]; [|done].
      split; [naive_solver|]. split; [done|]. intros (c' & [Hin| ->] & Hc'); [|congruence].
      by discriminate (proj2 H2 (ex_intro _ c' (conj Hin Hc'))).
    + injection Hr as <-. split; [naive_solver|]. split.
      * intros [= ->]. exists c. auto.
      * intros (c' & [Hin| ->] & Hc'); [|congruence]. by discriminate (proj2 H2 (ex_intro _ c' (conj Hin Hc'))).
  - injection Hr as Hr. rewrite <-Hr. split; [rewrite H1|rewrite H2].
    + split; [intros (c' & ? & ?); exists c'; auto|]. intros (c' & [?| ->] & Hx); [by exists c'|].
      rewrite Hc in Hx. by destruct Hx.
    + split; [intros (c' & ? & ?); exists c'; auto|]. intros (c' & [?| ->] & Hx); [by exists c'|congruence].
Qed.

(** How far merging gets: a panic, an error, or the end. *)
Lemma merge_files_outcome m seen files :
  mergeable m -> gathers m seen -> ~ clashing seen ->
  exists pre post cfgs, files = pre ++ post /\
    Forall2 (fun f c => LoadConfigFile read_file unmarshal f = Ok c) pre cfgs /\
    (clashing (seen ++ cfgs) /\ merge_files read_file unmarshal m files = None \/
     ~ clashing (seen ++ cfgs) /\
     match post with
     | [] => exists r, merge_files read_file unmarshal m files = Some (Ok r)
     | f :: _ => exists e, LoadConfigFile read_file unmarshal f = Err e /\
         merge_files read_file unmarshal m files = Some (Err e)
     end).
Proof.
  revert m seen. induction files as [|f files IH]; intros m seen Hm Hg Hno; cbn [merge_files].
  { exists [], [], []. split; [done|]. split; [constructor|]. right. rewrite app_nil_r. eauto. }
  destruct (LoadConfigFile _ _ f) as [c|e] eqn:Hf.
  2: { exists [], (f :: files), []. split; [done|]. split; [constructor|]. right. rewrite app_nil_r. eauto. }
  pose proof (mergeConfig_entries m c Hm) as Hent. destruct (mergeConfig m c) as [r|] eqn:Hr; cbn [mbind option_bind].
  - destruct Hent as [Hnc Hent].
    destruct (IH r (seen ++ [c])) as (pre & post & cfgs & -> & Hpre & Hout).
    + by eapply mergeConfig_spec.
    + by eapply gathers_snoc.
    + rewrite clashing_snoc, <-(gathers_clash m) by done. tauto.
    + exists (f :: pre), post, (c :: cfgs). split; [done|]. split; [by constructor|].
      rewrite <-app_assoc in Hout. exact Hout.
  - exists [f], files, [c]. split; [done|]. split; [by repeat constructor|]. left. split; [|done].
    rewrite clashing_snoc. right. by apply (gathers_clash m).
Qed.

Lemma merged0_mergeable : mergeable merged0 /\ gathers merged0 [] /\ ~ clashing [].
Proof.
  split; [split; [by intros []|done]|]. split; [|by intros (? & ? & ? & ? & _ & ? & _)].
  intros name. unfold netns_entry, gm_get. simpl. rewrite lookup_empty.
  split; (split; [intros Hn; first [by destruct Hn|discriminate Hn]|by intros (c & ?%elem_of_nil & _)]).
Qed.
End merge_config.

(** A small directory, to run LoadConfig on: two files that both configure
    eth0 and the namespace blue. *)
Module Example1.
Definition eth (cidr : string) : ptr Ethernet :=
  Some (Ethernet_zero <| Ethernet_Addresses := [Address_zero <| Address_CIDR := cidr |>] |>).
Definition vx : ptr Tunnel := Some (Tunnel_zero <| Tunnel_Mode := "VXLAN" |> <| Tunnel_ID := 42 |>).
Definition cfg (cidr : string) (tunnels : gomap (ptr Tunnel)) : Config :=
  Config_zero <| Config_Network :=
    Network_zero <| Network_Ethernets := Some {["eth0" := eth cidr]} |>
      <| Network_Tunnels := tunnels |>
      <| Network_Netns := Some {["blue" := Some
           (Namespace_zero <| Namespace_Ethernets := Some {["eth1" := eth cidr]} |>)]} |> |>.
Definition glob (pat : string) : res (list string) :=
  if Str.eqb pat "/etc/netplan/*.yaml" then Ok ["b.yaml"; "a.yaml"] else Ok [].
Definition read_file (f : string) : res string := Ok f.
Definition unmarshal (data : string) : res Config :=
  if Str.eqb data "a.yaml" then Ok (cfg "10.0.0.1/24" (Some {["vx0" := vx]}))
  else Ok (cfg "10.0.0.2/24" None).
Definition loaded : Config :=
  match LoadConfig glob read_file unmarshal "/etc/netplan/" with
  | Some (Ok c) => c
  | _ => Config_zero
  end.
End Example1.

(** C15: LoadConfig merges the files of a directory in the order of their names,
    the last one winning: in what it returns, each device of each kind, in the
    default namespace and in the named ones, is the one of the last file that
    declares it, and so are the global vpp and srv6 sections; and what it
    returns satisfies the three specifications of validity. *)
Theorem LoadConfig_last_wins `{RangeOrder, SliceSort} glob read_file unmarshal dir files c :
  config_files glob dir = Ok files ->
  LoadConfig glob read_file unmarshal dir = Some (Ok c) ->
  (exists cfgs, Forall2 (fun f cfg => LoadConfigFile read_file unmarshal f = Ok cfg) files cfgs /\
    (forall k name, gm_get (cfg_map k c) name = last_given (fun c => gm_get (cfg_map k c) name) cfgs) /\
    (forall k ns name, ns_get k ns name c = last_given (ns_get k ns name) cfgs) /\
    Network_SRv6 (Config_Network c) = last_given (fun c => Network_SRv6 (Config_Network c)) cfgs /\
    Network_VPP (Config_Network c) = last_given (fun c => Network_VPP (Config_Network c)) cfgs) /\
  VPP.vpp_valid c /\ SRv6.srv6_valid c /\ NDP.ndproxy_valid c.
Proof.
  intros Hfiles. unfold LoadConfig. rewrite Hfiles, bind_Some. intros ([m|e] & Hm & Hr); [|done].
  rewrite bind_Some in Hr. destruct Hr as ([e|] & Hc & Hr); simplify_eq/=.
  change (check_pan [VPP.ValidateVPP c; SRv6.ValidateSRv6 c; NDP.ValidateNDProxy c] id = Some None) in Hc.
  rewrite check_pan_ok, !Forall_cons in Hc. destruct Hc as (H1 & H2 & H3 & _).
  apply ValidateVPP_iff in H1. apply ValidateSRv6_iff in H2. apply ValidateNDProxy_iff in H3.
  split; [|done]. destruct (merge_files_spec _ _ _ _ _ (proj1 merged0_mergeable) Hm)
    as (cfgs & Hcfgs & J1 & J2 & J3 & J4).
  assert (forall {A} (o : option A), override None o = o) as Ho by by intros ? [].
  exists cfgs. split_and!; [done|..]; intros.
  - rewrite J1. destruct k; apply Ho.
  - rewrite J2. apply Ho.
  - rewrite J3. apply Ho.
  - rewrite J4. apply Ho.
Qed.

Lemma LoadConfig_last_wins_witness :
  VPP.vpp_valid Example1.loaded /\
  exists cfgs, Forall2 (fun f cfg => LoadConfigFile Example1.read_file Example1.unmarshal f = Ok cfg)
    ["a.yaml"; "b.yaml"] cfgs /\
    gm_get (cfg_map KEthernets Example1.loaded) "eth0" =
      last_given (fun c => gm_get (cfg_map KEthernets c) "eth0") cfgs.
Proof.
  destruct (LoadConfig_last_wins Example1.glob Example1.read_file Example1.unmarshal
    "/etc/netplan/" ["a.yaml"; "b.yaml"] Example1.loaded) as [(cfgs & Hc & Hk & _) [Hv _]].
  - vm_compute. reflexivity.
  - vm_compute. reflexivity.
  - split; [exact Hv|]. exists cfgs. split; [exact Hc|]. exact (Hk KEthernets "eth0").
Defined.


(** A directory whose two files both have a namespace, null in the second. *)
Lemma null_namespace_panics :
  LoadConfig Example1.glob Example1.read_file (fun data =>
    Ok (Config_zero <| Config_Network := Network_zero <| Network_Netns :=
          Some {["blue" := if Str.eqb data "a.yaml" then Some Namespace_zero else None]} |> |>)) "/etc/netplan/" = None.
Proof. vm_compute. reflexivity. Qed.
