(* ===== verification/State.v ===== *)
(** * The applied state and its differences (state/state.go)

    [State] is what netcfg remembers of the configurations it applied;
    [ComputeDiff] compares the state before and after, and its result drives
    the removals (see Removals).  Every method holds the lock of the state for
    the whole of its body, so each one is a single step here and the lock has
    no counterpart.  A map of the state can be nil or hold null entries, since
    the state is read from a JSON file: the panics this causes are modelled. *)

From S2P Require Import Prelude GoStd Effect.

(* go: state/state.go 38-46 DeviceState *)
Record DeviceState := MkDeviceState {
  DeviceState_Type : string;
  DeviceState_Addresses : list string;
  DeviceState_Routes : list string;
  DeviceState_Master : string;
  DeviceState_NDProxy : list string;
  DeviceState_CreatedBy : string
}.

(* go: state/state.go 32-36 NsState *)
Record NsState := MkNsState {
  NsState_Devices : gomap (ptr DeviceState);
  NsState_SRv6SIDs : list string
}.

(** [AppliedAt] is a time in nanoseconds. *)
(* go: state/state.go 23-30 State *)
Record State := MkState {
  State_Version : Z;
  State_AppliedAt : Z;
  State_ConfigHash : string;
  State_Namespaces : gomap (ptr NsState)
}.

#[export] Instance DeviceState_eq_dec : EqDecision DeviceState.
Proof. solve_decision. Defined.
#[export] Instance NsState_eq_dec : EqDecision NsState.
Proof. solve_decision. Defined.
#[export] Instance State_eq_dec : EqDecision State.
Proof. solve_decision. Defined.

(* go: state/state.go 48-54 NewState *)
Definition NewState : State := MkState 1 0 "" gm_make.

(** ** The file *)

Section file.
(** The state of the file system; [os.ReadFile], [os.IsNotExist],
    [os.MkdirAll], [os.WriteFile] and encoding/json on a State. *)
Context {FS : Type}.
Context (read_file : string -> FS -> res string) (is_not_exist : error -> bool)
  (mkdir_all : string -> FS -> err * FS) (write_file : string -> string -> FS -> err * FS)
  (unmarshal : string -> res State) (marshal : State -> res string).

Definition stateDir : string := "/var/lib/netcfg".
Definition statePath : string := "/var/lib/netcfg/state.json".

(* go: state/state.go 56-79 Load *)
Definition Load (fs : FS) : res State :=
  match read_file statePath fs with
  | Err e => if is_not_exist e then Ok NewState else Err e
  | Ok data =>
      match unmarshal data with
      | Err _ => Ok NewState
      | Ok state =>
          Ok (match State_Namespaces state with
              | None => state <| State_Namespaces := gm_make |>
              | Some _ => state
              end)
      end
  end.

(** The new state has the time [now] in it, even when it could not be written. *)
(* go: state/state.go 81-99 Save *)
Definition Save (now : Z) (s : State) (fs : FS) : err * State * FS :=
  let '(e, fs) := mkdir_all stateDir fs in
  match e with
  | Some e => (Some e, s, fs)
  | None =>
      let s := s <| State_AppliedAt := now |> in
      match marshal s with
      | Err e => (Some e, s, fs)
      | Ok data => let '(e, fs) := write_file statePath data fs in (e, s, fs)
      end
  end.
End file.

(** ** Access *)

(* go: state/state.go 101-110 GetNamespace *)
Definition GetNamespace (s : State) (ns : string) : ptr NsState :=
  default None (gm_get (State_Namespaces s) ns).

(* go: state/state.go 112-117 SetNamespace *)
Definition SetNamespace (s : State) (ns : string) (nsState : ptr NsState) : pan State :=
  m ← gm_put (State_Namespaces s) ns nsState;
  Some (s <| State_Namespaces := m |>).

(* go: state/state.go 119-130 GetDevice *)
Definition GetDevice (s : State) (ns name : string) : pan (ptr DeviceState) :=
  match gm_get (State_Namespaces s) ns with
  | None => Some None
  | Some nsState => nsState ← nsState; Some (default None (gm_get (NsState_Devices nsState) name))
  end.

(* go: state/state.go 132-143 SetDevice *)
Definition SetDevice (s : State) (ns name : string) (dev : ptr DeviceState) : pan State :=
  m ← match gm_get (State_Namespaces s) ns with
      | None => gm_put (State_Namespaces s) ns (Some (MkNsState gm_make []))
      | Some _ => Some (State_Namespaces s)
      end;
  nsState ← default None (gm_get m ns);
  devices ← gm_put (NsState_Devices nsState) name dev;
  m ← gm_put m ns (Some (nsState <| NsState_Devices := devices |>));
  Some (s <| State_Namespaces := m |>).

(* go: state/state.go 145-153 RemoveDevice *)
Definition RemoveDevice (s : State) (ns name : string) : pan State :=
  match gm_get (State_Namespaces s) ns with
  | None => Some s
  | Some nsState =>
      nsState ← nsState;
      m ← gm_put (State_Namespaces s) ns
            (Some (nsState <| NsState_Devices := gm_del (NsState_Devices nsState) name |>));
      Some (s <| State_Namespaces := m |>)
  end.

(* go: state/state.go 155-167 ListDevices *)
Definition ListDevices `{RangeOrder} (s : State) (ns : string) : pan (list string) :=
  match gm_get (State_Namespaces s) ns with
  | None => Some []
  | Some nsState => nsState ← nsState; Some (gm_range 162 (NsState_Devices nsState)).*1
  end.

(* go: state/state.go 169-179 ListNamespaces *)
Definition ListNamespaces `{RangeOrder} (s : State) : list string :=
  (gm_range 175 (State_Namespaces s)).*1.

(** ** Differences *)

(* go: state/state.go 181-194 Diff *)
Record Diff := MkDiff {
  Diff_DevicesToRemove : gomap (list string);
  Diff_AddressesToRemove : gomap (gomap (list string));
  Diff_RoutesToRemove : gomap (gomap (list string));
  Diff_NsToRemove : list string;
  Diff_DevicesToAdd : gomap (list string);
  Diff_AddressesToAdd : gomap (gomap (list string));
  Diff_RoutesToAdd : gomap (gomap (list string));
  Diff_NsToAdd : list string
}.

(* go: state/state.go 196-206 NewDiff *)
Definition NewDiff : Diff := MkDiff gm_make gm_make gm_make [] gm_make gm_make gm_make [].

(* go: state/state.go 292-295 stringDiff *)
Record stringDiff := MkstringDiff { added : list string; removed : list string }.

(** The set that a loop [set[s] = true] builds, as a map. *)
Definition string_set (l : list string) : gmap string bool :=
  fold_left (fun m s => <[s := true]> m) l ∅.

(* go: state/state.go 297-325 diffStrings *)
Definition diffStrings `{RangeOrder} (old new : list string) : stringDiff :=
  let oldSet := string_set old in
  let newSet := string_set new in
  MkstringDiff
    (filter (fun s => default false (oldSet !! s) = false) (range 318 newSet).*1)
    (filter (fun s => default false (newSet !! s) = false) (range 311 oldSet).*1).

(** [m[k] = append(m[k], v)]. *)
Definition gm_append (m : gomap (list string)) (k v : string) : pan (gomap (list string)) :=
  gm_put m k (default [] (gm_get m k) ++ [v]).

(** [if m[ns] == nil { m[ns] = make(...) }; m[ns][dev] = l], when [l] is not empty. *)
Definition set_nonempty (m : gomap (gomap (list string))) (ns dev : string) (l : list string)
    : pan (gomap (gomap (list string))) :=
  match l with
  | [] => Some m
  | _ => gm_put m ns (put_make (default None (gm_get m ns)) dev l)
  end.

(** The comparison of a device that both states have. *)
(* go: state/state.go 246-274 ComputeDiff *)
Definition compare_device `{RangeOrder} (diff : Diff) (ns devName : string) (oldDev newDev : DeviceState)
    : pan Diff :=
  let addrDiff := diffStrings (DeviceState_Addresses oldDev) (DeviceState_Addresses newDev) in
  ar ← set_nonempty (Diff_AddressesToRemove diff) ns devName (removed addrDiff);
  aa ← set_nonempty (Diff_AddressesToAdd diff) ns devName (added addrDiff);
  let routeDiff := diffStrings (DeviceState_Routes oldDev) (DeviceState_Routes newDev) in
  rr ← set_nonempty (Diff_RoutesToRemove diff) ns devName (removed routeDiff);
  ra ← set_nonempty (Diff_RoutesToAdd diff) ns devName (added routeDiff);
  Some (diff <| Diff_AddressesToRemove := ar |> <| Diff_AddressesToAdd := aa |>
             <| Diff_RoutesToRemove := rr |> <| Diff_RoutesToAdd := ra |>).

(** The body of the loop over the devices of the old state. *)
(* go: state/state.go 230-275 ComputeDiff *)
Definition diff_old_device `{RangeOrder} (newState : State) (diff : Diff) (ns : string)
    (entry : string * ptr DeviceState) : pan Diff :=
  let '(devName, oldDev) := entry in
  let remove :=
    m ← gm_append (Diff_DevicesToRemove diff) ns devName;
    Some (diff <| Diff_DevicesToRemove := m |>) in
  match gm_get (State_Namespaces newState) ns with
  | None => remove
  | Some newNs =>
      newNs ← newNs;
      match gm_get (NsState_Devices newNs) devName with
      | None => oldDev ← oldDev;
                if Str.eqb (DeviceState_CreatedBy oldDev) "netcfg" then remove else Some diff
      | Some newDev => oldDev ← oldDev; newDev ← newDev; compare_device diff ns devName oldDev newDev
      end
  end.

(** The body of the loop over the devices of the new state. *)
(* go: state/state.go 282-286 ComputeDiff *)
Definition diff_new_device (oldState : State) (diff : Diff) (ns : string)
    (entry : string * ptr DeviceState) : pan Diff :=
  let devName := entry.1 in
  let add :=
    m ← gm_append (Diff_DevicesToAdd diff) ns devName;
    Some (diff <| Diff_DevicesToAdd := m |>) in
  match gm_get (State_Namespaces oldState) ns with
  | None => add
  | Some oldNs =>
      oldNs ← oldNs;
      match default None (gm_get (NsState_Devices oldNs) devName) with
      | None => add
      | Some _ => Some diff
      end
  end.

(** A loop over the namespaces and, inside, over their devices. *)
Definition each_device `{RangeOrder} (site1 site2 : Z) (s : State) (diff : Diff)
    (body : Diff -> string -> string * ptr DeviceState -> pan Diff) : pan Diff :=
  fold_pan (gm_range site1 (State_Namespaces s)) diff (fun diff '(ns, nsState) =>
    nsState ← nsState;
    fold_pan (gm_range site2 (NsState_Devices nsState)) diff (fun diff entry => body diff ns entry)).

(** The names of the namespaces of [s1] that [s2] lacks. *)
Definition missing_ns `{RangeOrder} (site : Z) (s1 s2 : State) : list string :=
  filter (fun ns => gm_get (State_Namespaces s2) ns = None) (gm_range site (State_Namespaces s1)).*1.

(* go: state/state.go 208-290 ComputeDiff *)
Definition ComputeDiff `{RangeOrder} (oldState newState : State) : pan Diff :=
  let diff := NewDiff <| Diff_NsToRemove := missing_ns 213 oldState newState |>
                      <| Diff_NsToAdd := missing_ns 220 newState oldState |> in
  diff ← each_device 227 230 oldState diff (diff_old_device newState);
  each_device 279 282 newState diff (diff_new_device oldState).

(* go: state/state.go 327-337 IsEmpty *)
Definition IsEmpty (d : Diff) : bool :=
  Nat.eqb (gm_len (Diff_DevicesToRemove d)) 0 &&
  Nat.eqb (gm_len (Diff_AddressesToRemove d)) 0 &&
  Nat.eqb (gm_len (Diff_RoutesToRemove d)) 0 &&
  Nat.eqb (length (Diff_NsToRemove d)) 0 &&
  Nat.eqb (gm_len (Diff_DevicesToAdd d)) 0 &&
  Nat.eqb (gm_len (Diff_AddressesToAdd d)) 0 &&
  Nat.eqb (gm_len (Diff_RoutesToAdd d)) 0 &&
  Nat.eqb (length (Diff_NsToAdd d)) 0.

(** The loop keeps whether it is at the first element. *)
(* go: state/state.go 389-398 join *)
Definition join (s : list string) : string :=
  snd (fold_left (fun '(first, result) v =>
         (false, (if first : bool then result else result +:+ ", ") +:+ v)) s (true, "")).

Definition nsLabel (ns : string) : string := if Str.is_empty ns then "default" else ns.

Definition newline : string := String (Str.byte 10) "".

(* go: state/state.go 350-364 Summary *)
Definition summary_devices `{RangeOrder} (site : Z) (title : string) (m : gomap (list string)) : string :=
  fold_left (fun result '(ns, devs) =>
      result +:+ title +:+ nsLabel ns +:+ ": " +:+ join devs +:+ newline) (gm_range site m) "".

(* go: state/state.go 366-384 Summary *)
Definition summary_nested `{RangeOrder} (site1 site2 : Z) (title : string)
    (m : gomap (gomap (list string))) : string :=
  fold_left (fun result '(ns, per_dev) =>
      fold_left (fun result '(dev, items) =>
          result +:+ title +:+ dev +:+ " in " +:+ nsLabel ns +:+ ": " +:+ join items +:+ newline)
        (gm_range site2 per_dev) result) (gm_range site1 m) "".

(* go: state/state.go 339-387 Summary *)
Definition Summary `{RangeOrder} (d : Diff) : string :=
  (match Diff_NsToRemove d with [] => "" | l => "Namespaces to remove: " +:+ join l +:+ newline end) +:+
  (match Diff_NsToAdd d with [] => "" | l => "Namespaces to add: " +:+ join l +:+ newline end) +:+
  summary_devices 350 "Devices to remove in " (Diff_DevicesToRemove d) +:+
  summary_devices 358 "Devices to add in " (Diff_DevicesToAdd d) +:+
  summary_nested 366 371 "Addresses to remove from " (Diff_AddressesToRemove d) +:+
  summary_nested 376 381 "Routes to remove from " (Diff_RoutesToRemove d).

(** ** The difference of two lists *)

Lemma string_set_lookup l s : string_set l !! s = if decide (s ∈ l) then Some true else None.
Proof.
  unfold string_set.
  assert (forall m : gmap string bool, fold_left (fun m s => <[s := true]> m) l m !! s =
    if decide (s ∈ l) then Some true else m !! s) as ->.
  - induction l as [|x l IH]; intros m; cbn [fold_left].
    { case_decide; set_solver. }
    rewrite IH, lookup_insert. destruct (decide (s ∈ l)), (decide (s ∈ x :: l)), (decide (x = s)); set_solver.
  - by rewrite lookup_empty.
Qed.

Section diffStrings.
Context `{RangeOrder}.

Lemma elem_of_removed old new a : a ∈ removed (diffStrings old new) <-> a ∈ old /\ a ∉ new.
Proof.
  simpl. rewrite list_elem_of_filter, elem_of_fst_range, !string_set_lookup. unfold is_Some.
  destruct (decide (a ∈ old)), (decide (a ∈ new)); naive_solver.
Qed.

Lemma elem_of_added old new a : a ∈ added (diffStrings old new) <-> a ∈ new /\ a ∉ old.
Proof.
  simpl. rewrite list_elem_of_filter, elem_of_fst_range, !string_set_lookup. unfold is_Some.
  destruct (decide (a ∈ old)), (decide (a ∈ new)); naive_solver.
Qed.

Lemma NoDup_diffStrings old new :
  NoDup (removed (diffStrings old new)) /\ NoDup (added (diffStrings old new)).
Proof. split; apply NoDup_filter, NoDup_fst_range. Qed.
End diffStrings.

(** ** The entries of a state *)

(** The device [dev] of the namespace [ns]. *)
Definition dev_at (s : State) (ns dev : string) : option (ptr DeviceState) :=
  match gm_get (State_Namespaces s) ns with
  | Some (Some n) => gm_get (NsState_Devices n) dev
  | _ => None
  end.

(** No entry of the state is null. *)
Definition state_ok (s : State) : Prop :=
  (forall ns, gm_get (State_Namespaces s) ns <> Some None) /\
  (forall ns dev, dev_at s ns dev <> Some None).

Definition nsdev := (string * (string * ptr DeviceState))%type.
Definition nsdev_key (e : nsdev) : string * string := (e.1, e.2.1).

Section entries.
Context `{RangeOrder}.

(** The devices of a state, in the order of two nested loops. *)
Definition entries (site1 site2 : Z) (s : State) : list nsdev :=
  gm_range site1 (State_Namespaces s) ≫= fun '(ns, n) =>
    match n with Some n => pair ns <$> gm_range site2 (NsState_Devices n) | None => [] end.

Lemma elem_of_entries site1 site2 s ns dev d :
  (ns, (dev, d)) ∈ entries site1 site2 s <-> dev_at s ns dev = Some d.
Proof.
  unfold entries, dev_at, gm_range, gm_get. rewrite list_elem_of_bind. split.
  - intros ([ns' [n|]] & Hin & Hns); [|by apply not_elem_of_nil in Hin].
    apply elem_of_range in Hns. apply list_elem_of_fmap in Hin as (e & [= <- <-] & He).
    rewrite Hns. by apply elem_of_range in He.
  - destruct (gm_map (State_Namespaces s) !! ns) as [[n|]|] eqn:E; [|done..]. intros Hd.
    exists (ns, Some n). split; [|by apply elem_of_range].
    apply list_elem_of_fmap. exists (dev, d). split; [done|]. by apply elem_of_range.
Qed.

Lemma NoDup_entries site1 site2 s : NoDup (nsdev_key <$> entries site1 site2 s).
Proof.
  unfold entries, gm_range. pose proof (NoDup_fst_range site1 (gm_map (State_Namespaces s))) as Hn.
  induction (range site1 _) as [|[ns n] l IH]; [constructor|].
  rewrite fmap_cons in Hn. apply NoDup_cons in Hn as [Hns Hn]. rewrite bind_cons, fmap_app.
  apply NoDup_app. split_and!; [| |by apply IH].
  - destruct n as [n|]; [|constructor]. rewrite <-list_fmap_compose.
    eapply (NoDup_fmap_1 snd). rewrite <-list_fmap_compose. apply (NoDup_fst_range site2).
  - intros [ns1 dev] H1 H2. apply Hns.
    assert (ns1 = ns) as ->.
    { destruct n as [n|]; [|by apply not_elem_of_nil in H1].
      rewrite <-list_fmap_compose in H1. by apply list_elem_of_fmap in H1 as (? & [= -> _] & _). }
    apply list_elem_of_fmap in H2 as ([ns2 [dev2 d2]] & [= -> ->] & H2).
    apply list_elem_of_bind in H2 as ([ns3 [n3|]] & Hin & Hns3); [|by apply not_elem_of_nil in Hin].
    apply list_elem_of_fmap in Hin as (? & [= <- _] & _).
    apply list_elem_of_fmap. by exists (ns2, Some n3).
Qed.

(** The nested loops are one loop over the entries. *)
Lemma each_device_entries site1 site2 s d body :
  (forall ns, gm_get (State_Namespaces s) ns <> Some None) ->
  each_device site1 site2 s d body =
    fold_pan (entries site1 site2 s) d (fun d e => body d e.1 e.2).
Proof.
  intros Hs. unfold each_device, entries, gm_range.
  assert (forall ns n, (ns, n) ∈ range site1 (gm_map (State_Namespaces s)) -> n <> None) as Hl.
  { intros ns n Hin%elem_of_range ->. by apply (Hs ns). }
  revert d. induction (range site1 _) as [|[ns n] l IH]; intros d; [done|].
  rewrite bind_cons, fold_pan_app. cbn [fold_pan].
  destruct n as [n|]; [|by destruct (Hl ns None); [left|]].
  rewrite fold_pan_fmap. simpl. destruct (fold_pan _ d _); simpl; [|done]. apply IH.
  intros ns' n' Hin. apply Hl with ns'. by right.
Qed.
End entries.

(** ** What the loops accumulate *)

(** A map of lists holds, for each namespace, the devices of the entries that
    satisfy [p], in their order, and no empty list. *)
Definition names_of (p : nsdev -> bool) (ns : string) (l : list nsdev) : list string :=
  (fun e => e.2.1) <$> filter (fun e => e.1 = ns /\ p e = true) l.

Definition lists_inv (p : nsdev -> bool) (l : list nsdev) (m : gomap (list string)) : Prop :=
  m <> None /\
  forall ns, gm_get m ns = match names_of p ns l with [] => None | ds => Some ds end.

Definition nested_get (m : gomap (gomap (list string))) (ns dev : string) : option (list string) :=
  match gm_get m ns with Some inner => gm_get inner dev | None => None end.

(** A nested map holds the list [f e] of each entry [e], unless it is empty, and
    no empty map. *)
Definition nested_inv (f : nsdev -> list string) (l : list nsdev) (m : gomap (gomap (list string))) : Prop :=
  m <> None /\ (forall ns inner, gm_get m ns = Some inner -> gm_map inner <> ∅) /\
  forall ns dev items, nested_get m ns dev = Some items <->
    items <> [] /\ exists d, (ns, (dev, d)) ∈ l /\ f (ns, (dev, d)) = items.

Lemma lists_inv_nil p : lists_inv p [] gm_make.
Proof. split; [done|]. intros ns. unfold gm_get. simpl. by rewrite lookup_empty. Qed.

Lemma nested_inv_nil f : nested_inv f [] gm_make.
Proof.
  unfold nested_inv, nested_get, gm_get. simpl. split_and!; [done| |];
    intros *; rewrite lookup_empty; [done|]. setoid_rewrite elem_of_nil. naive_solver.
Qed.

Lemma names_of_app_in p l e : p e = true -> names_of p e.1 (l ++ [e]) = names_of p e.1 l ++ [e.2.1].
Proof.
  intros Hp. unfold names_of. rewrite filter_app, fmap_app. f_equal. by rewrite filter_cons_True.
Qed.

Lemma names_of_app_out p l e ns :
  e.1 <> ns \/ p e = false -> names_of p ns (l ++ [e]) = names_of p ns l.
Proof.
  intros Hp. unfold names_of. rewrite filter_app, filter_cons_False; [by rewrite app_nil_r|].
  intros [??]. destruct Hp; congruence.
Qed.

Lemma lists_inv_step p l m e :
  lists_inv p l m -> p e = true ->
  exists m', gm_append m e.1 e.2.1 = Some m' /\ lists_inv p (l ++ [e]) m'.
Proof.
  intros [Hm Hg] Hp. destruct m as [m|]; [|done]. unfold gm_append. simpl. eexists. split; [done|].
  split; [done|]. intros ns. unfold gm_get at 1. simpl. rewrite lookup_insert. case_decide as Hns.
  - subst ns. rewrite names_of_app_in, Hg by done. by destruct (names_of p e.1 l).
  - rewrite names_of_app_out by by left. apply Hg.
Qed.

Lemma lists_inv_skip p l m e : lists_inv p l m -> p e = false -> lists_inv p (l ++ [e]) m.
Proof.
  intros [Hm Hg] Hp. split; [done|]. intros ns. by rewrite Hg, names_of_app_out by by right.
Qed.

Lemma nested_inv_step f l m e :
  nested_inv f l m -> NoDup (nsdev_key <$> l ++ [e]) ->
  exists m', set_nonempty m e.1 e.2.1 (f e) = Some m' /\ nested_inv f (l ++ [e]) m'.
Proof.
  destruct e as [ns [dev d]]. intros (Hm & Hne & Hg) Hn. cbn [fst snd].
  assert (forall d', (ns, (dev, d')) ∉ l) as Hfresh.
  { rewrite fmap_app, NoDup_app in Hn. destruct Hn as (_ & Hn & _). intros d' Hd'.
    apply (Hn (ns, dev)); [apply list_elem_of_fmap; by exists (ns, (dev, d'))|left]. }
  destruct (f (ns, (dev, d))) as [|i items] eqn:Hf; simpl.
  - exists m. split; [done|]. split_and!; [done..|]. intros ns' dev' items. rewrite Hg.
    setoid_rewrite elem_of_app. setoid_rewrite list_elem_of_singleton. split.
    + intros (? & d' & ? & ?). eauto.
    + intros (? & d' & [?|[= -> -> ->]] & ?); [eauto|congruence].
  - destruct m as [m|]; [|done]. eexists. split; [done|].
    set (inner := default None (gm_get (Some m) ns)).
    assert (forall dev', nested_get (Some m) ns dev' = gm_get inner dev') as Hin.
    { intros dev'. unfold nested_get, inner. destruct (gm_get (Some m) ns); [done|]. simpl.
      unfold gm_get. simpl. by rewrite lookup_empty. }
    split_and!; [done| |].
    + intros ns' inner'. unfold gm_get at 1. simpl. rewrite lookup_insert. case_decide.
      * intros [= <-]. simpl. apply insert_non_empty.
      * apply Hne.
    + intros ns' dev' items'. unfold nested_get, gm_get at 1. simpl. rewrite lookup_insert.
      setoid_rewrite elem_of_app. setoid_rewrite list_elem_of_singleton. case_decide as Hns.
      * subst ns'. rewrite gm_get_put_make. case_decide as Hdev.
        -- subst dev'. split.
           ++ intros [= <-]. split; [done|]. exists d. auto.
           ++ intros (_ & d' & [Hl|[= ->]] & <-); [by destruct (Hfresh d')|congruence].
        -- rewrite <-Hin, Hg. split; [naive_solver|].
           intros (? & d' & [?|[= -> ->]] & ?); [eauto|done].
      * fold (gm_get (Some m) ns'). rewrite (Hg ns' dev' items'). split; [naive_solver|].
        intros (? & d' & [?|[= -> -> ->]] & ?); [eauto|done].
Qed.

Lemma nested_inv_skip f l m e :
  nested_inv f l m -> f e = [] -> nested_inv f (l ++ [e]) m.
Proof.
  intros (Hm & Hne & Hg) Hf. split_and!; [done..|]. intros ns dev items. rewrite Hg.
  setoid_rewrite elem_of_app. setoid_rewrite list_elem_of_singleton.
  split; [naive_solver|]. intros (? & d & [?|He] & ?); [eauto|congruence].
Qed.

(** ** ComputeDiff *)

Section compute_diff.
Context `{RangeOrder} (oldState newState : State).

(** The two values of a device that both states have. *)
Definition both (e : nsdev) : option (DeviceState * DeviceState) :=
  match e.2.2, dev_at newState e.1 e.2.1 with
  | Some o, Some (Some n) => Some (o, n)
  | _, _ => None
  end.

(** The device is to be removed. *)
Definition gone (e : nsdev) : bool :=
  match gm_get (State_Namespaces newState) e.1 with
  | None => true
  | Some _ =>
      match dev_at newState e.1 e.2.1, e.2.2 with
      | None, Some o => Str.eqb (DeviceState_CreatedBy o) "netcfg"
      | _, _ => false
      end
  end.

(** The device is new. *)
Definition is_new (e : nsdev) : bool :=
  match dev_at oldState e.1 e.2.1 with Some (Some _) => false | _ => true end.

Definition of_both (f : DeviceState -> DeviceState -> list string) (e : nsdev) : list string :=
  match both e with Some (o, n) => f o n | None => [] end.

Definition ar := of_both (fun o n => removed (diffStrings (DeviceState_Addresses o) (DeviceState_Addresses n))).
Definition aa := of_both (fun o n => added (diffStrings (DeviceState_Addresses o) (DeviceState_Addresses n))).
Definition rr := of_both (fun o n => removed (diffStrings (DeviceState_Routes o) (DeviceState_Routes n))).
Definition ra := of_both (fun o n => added (diffStrings (DeviceState_Routes o) (DeviceState_Routes n))).

Record old_inv (d0 : Diff) (l : list nsdev) (d : Diff) : Prop := {
  inv_gone : lists_inv gone l (Diff_DevicesToRemove d);
  inv_ar : nested_inv ar l (Diff_AddressesToRemove d);
  inv_aa : nested_inv aa l (Diff_AddressesToAdd d);
  inv_rr : nested_inv rr l (Diff_RoutesToRemove d);
  inv_ra : nested_inv ra l (Diff_RoutesToAdd d);
  inv_rest : Diff_DevicesToAdd d = Diff_DevicesToAdd d0 /\ Diff_NsToRemove d = Diff_NsToRemove d0 /\
             Diff_NsToAdd d = Diff_NsToAdd d0;
}.

Lemma old_inv_skip d0 l d e :
  old_inv d0 l d -> both e = None -> gone e = false -> old_inv d0 (l ++ [e]) d.
Proof.
  intros [] Hb Hg. split; [by apply lists_inv_skip| | | | |done];
    (apply nested_inv_skip; [done|]); unfold ar, aa, rr, ra, of_both; by rewrite Hb.
Qed.

Lemma old_inv_gone d0 l d e :
  old_inv d0 l d -> both e = None -> gone e = true ->
  exists d', (m ← gm_append (Diff_DevicesToRemove d) e.1 e.2.1;
              Some (d <| Diff_DevicesToRemove := m |>)) = Some d' /\ old_inv d0 (l ++ [e]) d'.
Proof.
  intros [] Hb Hg. destruct (lists_inv_step gone l _ e inv_gone0 Hg) as (m & -> & Hm). simpl.
  eexists. split; [done|]. destruct d. split; simpl in *; [done| | | | |done];
    (apply nested_inv_skip; [done|]); unfold ar, aa, rr, ra, of_both; by rewrite Hb.
Qed.

Lemma old_inv_both d0 l d ns dev o n :
  old_inv d0 l d -> dev_at newState ns dev = Some (Some n) ->
  NoDup (nsdev_key <$> l ++ [(ns, (dev, Some o))]) ->
  exists d', compare_device d ns dev o n = Some d' /\ old_inv d0 (l ++ [(ns, (dev, Some o))]) d'.
Proof.
  intros [] Hn Hd. set (e := (ns, (dev, Some o))) in *.
  assert (both e = Some (o, n)) as Hb by (unfold both; simpl; by rewrite Hn).
  assert (gone e = false) as Hg.
  { unfold gone. simpl. rewrite Hn. unfold dev_at in Hn.
    by destruct (gm_get (State_Namespaces newState) ns). }
  destruct (nested_inv_step ar l _ e inv_ar0 Hd) as (m1 & E1 & H1).
  destruct (nested_inv_step aa l _ e inv_aa0 Hd) as (m2 & E2 & H2).
  destruct (nested_inv_step rr l _ e inv_rr0 Hd) as (m3 & E3 & H3).
  destruct (nested_inv_step ra l _ e inv_ra0 Hd) as (m4 & E4 & H4).
  unfold ar, aa, rr, ra, of_both in E1, E2, E3, E4. rewrite Hb in E1, E2, E3, E4.
  cbn [fst snd e] in E1, E2, E3, E4. unfold compare_device. cbv zeta.
  rewrite E1. cbn [mbind option_bind]. rewrite E2. cbn [mbind option_bind].
  rewrite E3. cbn [mbind option_bind]. rewrite E4. cbn [mbind option_bind]. eexists. split; [done|].
  destruct d. split; simpl in *; [by apply lists_inv_skip|done..].
Qed.

Lemma diff_old_step d0 l d e :
  state_ok newState -> e.2.2 <> None ->
  old_inv d0 l d -> NoDup (nsdev_key <$> l ++ [e]) ->
  exists d', diff_old_device newState d e.1 e.2 = Some d' /\ old_inv d0 (l ++ [e]) d'.
Proof.
  intros [Hns Hdev] He Hinv Hn. destruct e as [ns [dev [o|]]]; [|done].
  unfold diff_old_device. cbn [fst snd]. specialize (Hns ns). specialize (Hdev ns dev).
  pose proof (old_inv_gone d0 l d (ns, (dev, Some o)) Hinv) as Hgone.
  pose proof (old_inv_skip d0 l d (ns, (dev, Some o)) Hinv) as Hskip.
  pose proof (fun n => old_inv_both d0 l d ns dev o n Hinv) as Hboth.
  unfold both, gone, dev_at in *. cbn [fst snd] in *.
  destruct (gm_get (State_Namespaces newState) ns) as [[n|]|]; [|done|by apply Hgone].
  simpl. destruct (gm_get (NsState_Devices n) dev) as [[n'|]|] eqn:E; [|done|].
  - by apply Hboth.
  - simpl in *. destruct (Str.eqb _ _); [by apply Hgone|]. eexists. split; [done|]. by apply Hskip.
Qed.

Lemma diff_new_step l d e :
  state_ok oldState -> e.2.2 <> None -> lists_inv is_new l (Diff_DevicesToAdd d) ->
  exists m, diff_new_device oldState d e.1 e.2 = Some (d <| Diff_DevicesToAdd := m |>) /\
    lists_inv is_new (l ++ [e]) m.
Proof.
  intros [Hns Hdev] He Hinv. destruct e as [ns [dev [o|]]]; [|done].
  unfold diff_new_device. cbn [fst snd]. specialize (Hns ns). specialize (Hdev ns dev).
  pose proof (lists_inv_step is_new l _ (ns, (dev, Some o)) Hinv) as Hstep.
  pose proof (lists_inv_skip is_new l _ (ns, (dev, Some o)) Hinv) as Hskip.
  unfold is_new, dev_at in *. cbn [fst snd] in *.
  destruct (gm_get (State_Namespaces oldState) ns) as [[n|]|]; [|done|].
  - simpl. destruct (gm_get (NsState_Devices n) dev) as [[n'|]|]; [|done|].
    + exists (Diff_DevicesToAdd d). split; [by destruct d|by apply Hskip].
    + destruct (Hstep eq_refl) as (m & -> & Hm). by exists m.
  - destruct (Hstep eq_refl) as (m & -> & Hm). by exists m.
Qed.
End compute_diff.

(** *** What the difference says *)

(** The list at [ns], the list at [ns] and [dev]. *)
Definition listed (m : gomap (list string)) (ns : string) : list string := default [] (gm_get m ns).
Definition listed2 (m : gomap (gomap (list string))) (ns dev : string) : list string :=
  default [] (nested_get m ns dev).

Lemma lists_inv_listed p l m : lists_inv p l m -> forall ns, listed m ns = names_of p ns l.
Proof. intros [_ Hg] ns. unfold listed. rewrite Hg. by destruct (names_of p ns l). Qed.

Lemma elem_of_names_of p ns l dev :
  dev ∈ names_of p ns l <-> exists d, (ns, (dev, d)) ∈ l /\ p (ns, (dev, d)) = true.
Proof.
  unfold names_of. rewrite list_elem_of_fmap. setoid_rewrite list_elem_of_filter. split.
  - intros ([ns' [dev' d]] & -> & [<- Hp] & Hin). eauto.
  - intros (d & Hin & Hp). by exists (ns, (dev, d)).
Qed.

Lemma NoDup_names_of p ns l : NoDup (nsdev_key <$> l) -> NoDup (names_of p ns l).
Proof.
  induction l as [|e l IH]; intros Hn; [constructor|].
  rewrite fmap_cons in Hn. apply NoDup_cons in Hn as [He Hn]. unfold names_of.
  destruct (decide (e.1 = ns /\ p e = true)) as [[<- Hp]|Hp].
  - rewrite filter_cons_True by done. rewrite fmap_cons. apply NoDup_cons. split; [|by apply IH].
    intros (d & Hd & _)%elem_of_names_of. apply He, list_elem_of_fmap. by exists (e.1, (e.2.1, d)).
  - rewrite filter_cons_False by done. by apply IH.
Qed.

Lemma nested_inv_listed2 f l m :
  nested_inv f l m -> NoDup (nsdev_key <$> l) ->
  forall ns dev d, (ns, (dev, d)) ∈ l -> listed2 m ns dev = f (ns, (dev, d)).
Proof.
  intros (_ & _ & Hg) Hn ns dev d Hin. unfold listed2.
  destruct (nested_get m ns dev) as [items|] eqn:E; simpl.
  - apply Hg in E as (_ & d' & Hd' & <-). f_equal.
    by apply (NoDup_key_inj nsdev_key l (ns, (dev, d')) (ns, (dev, d)) Hn Hd' Hin).
  - destruct (f (ns, (dev, d))) as [|i items] eqn:Hf; [done|].
    assert (nested_get m ns dev = Some (i :: items)); [|congruence]. apply Hg. eauto.
Qed.

Lemma nested_inv_empty f l m :
  nested_inv f l m -> (gm_len m = 0)%nat <-> (forall e, e ∈ l -> f e = []).
Proof.
  intros (Hm & Hne & Hg). unfold gm_len. rewrite map_size_empty_iff. split.
  - intros Hem [ns [dev d]] Hin. destruct (f (ns, (dev, d))) as [|i items] eqn:Hf; [done|].
    assert (nested_get m ns dev = Some (i :: items)) as Hc by (apply Hg; eauto).
    unfold nested_get, gm_get in Hc. by rewrite Hem, lookup_empty in Hc.
  - intros Hl. apply map_empty. intros ns. fold (gm_get m ns).
    destruct (gm_get m ns) as [inner|] eqn:E; [exfalso|done].
    apply (Hne ns inner E). apply map_empty. intros dev. fold (gm_get inner dev).
    destruct (gm_get inner dev) as [items|] eqn:Ei; [exfalso|done].
    assert (nested_get m ns dev = Some items) as Hn by (unfold nested_get; by rewrite E).
    apply Hg in Hn as (Hne' & d & Hin & Hf). apply Hl in Hin. congruence.
Qed.

Lemma lists_inv_empty p l m :
  lists_inv p l m -> (gm_len m = 0)%nat <-> (forall e, e ∈ l -> p e = false).
Proof.
  intros [Hm Hg]. unfold gm_len. rewrite map_size_empty_iff. split.
  - intros Hem [ns [dev d]] Hin. apply not_true_iff_false. intros Hp.
    assert (dev ∈ names_of p ns l) as Hd by (apply elem_of_names_of; eauto).
    specialize (Hg ns). unfold gm_get in Hg. rewrite Hem, lookup_empty in Hg.
    destruct (names_of p ns l); [by apply not_elem_of_nil in Hd|done].
  - intros Hl. apply map_empty. intros ns. fold (gm_get m ns). rewrite Hg.
    destruct (names_of p ns l) as [|dev ds] eqn:E; [done|exfalso].
    assert (dev ∈ names_of p ns l) as (d & Hin & Hp)%elem_of_names_of by (rewrite E; left).
    apply Hl in Hin. congruence.
Qed.

Section compute_diff_ok.
Context `{RangeOrder}.

Definition diff0 (oldState newState : State) : Diff :=
  NewDiff <| Diff_NsToRemove := missing_ns 213 oldState newState |>
          <| Diff_NsToAdd := missing_ns 220 newState oldState |>.

(** The result of ComputeDiff, as what its loops accumulate. *)
Lemma ComputeDiff_invariant oldState newState :
  state_ok oldState -> state_ok newState ->
  exists d, ComputeDiff oldState newState = Some d /\
    lists_inv (gone newState) (entries 227 230 oldState) (Diff_DevicesToRemove d) /\
    nested_inv (ar newState) (entries 227 230 oldState) (Diff_AddressesToRemove d) /\
    nested_inv (aa newState) (entries 227 230 oldState) (Diff_AddressesToAdd d) /\
    nested_inv (rr newState) (entries 227 230 oldState) (Diff_RoutesToRemove d) /\
    nested_inv (ra newState) (entries 227 230 oldState) (Diff_RoutesToAdd d) /\
    lists_inv (is_new oldState) (entries 279 282 newState) (Diff_DevicesToAdd d) /\
    Diff_NsToRemove d = missing_ns 213 oldState newState /\
    Diff_NsToAdd d = missing_ns 220 newState oldState.
Proof.
  intros Hold Hnew. unfold ComputeDiff. fold (diff0 oldState newState).
  rewrite each_device_entries by apply Hold.
  destruct (fold_pan_prefix (old_inv newState (diff0 oldState newState)) (entries 227 230 oldState)
    (fun d e => diff_old_device newState d e.1 e.2) (diff0 oldState newState)) as (d & -> & Hd).
  { split; [apply lists_inv_nil|apply nested_inv_nil..|done]. }
  { intros pre e post s Hl Hinv. pose proof (NoDup_entries 227 230 oldState) as Hn.
    rewrite Hl, cons_middle, app_assoc, fmap_app in Hn. apply NoDup_app in Hn as (Hn & _ & _).
    eapply diff_old_step; [done| |done|done].
    assert (e ∈ entries 227 230 oldState) as Hin by (rewrite Hl; set_solver).
    destruct e as [ns [dev o]]. apply elem_of_entries in Hin. simpl. intros ->.
    by apply (proj2 Hold ns dev). }
  cbn [mbind option_bind]. rewrite each_device_entries by apply Hnew. destruct Hd.
  destruct (fold_pan_prefix (fun l d' => exists m, d' = d <| Diff_DevicesToAdd := m |> /\
    lists_inv (is_new oldState) l m) (entries 279 282 newState)
    (fun d e => diff_new_device oldState d e.1 e.2) d) as (d' & -> & m & -> & Hm).
  { exists (Diff_DevicesToAdd d). split; [by destruct d|]. destruct inv_rest0 as [-> _].
    apply lists_inv_nil. }
  { intros pre e post s Hl (m & -> & Hm).
    destruct (diff_new_step oldState pre (d <| Diff_DevicesToAdd := m |>) e Hold) as (m' & E & Hm').
    - assert (e ∈ entries 279 282 newState) as Hin by (rewrite Hl; set_solver).
      destruct e as [ns [dev o]]. apply elem_of_entries in Hin. simpl. intros ->.
      by apply (proj2 Hnew ns dev).
    - by destruct d.
    - rewrite E. eexists. split; [done|]. exists m'. split; [by destruct d|done]. }
  destruct inv_rest0 as (_ & Hr & Ha). exists (d <| Diff_DevicesToAdd := m |>). destruct d.
  simpl in *. by split_and!.
Qed.

Lemma elem_of_missing_ns site s1 s2 ns :
  ns ∈ missing_ns site s1 s2 <->
  is_Some (gm_get (State_Namespaces s1) ns) /\ gm_get (State_Namespaces s2) ns = None.
Proof.
  unfold missing_ns, gm_range. rewrite list_elem_of_filter, elem_of_fst_range. unfold gm_get. tauto.
Qed.
End compute_diff_ok.

Lemma gone_spec oldState newState ns dev :
  state_ok oldState -> state_ok newState ->
  (exists d, dev_at oldState ns dev = Some d /\ gone newState (ns, (dev, d)) = true) <->
  exists o, dev_at oldState ns dev = Some (Some o) /\ dev_at newState ns dev = None /\
    (gm_get (State_Namespaces newState) ns = None \/ DeviceState_CreatedBy o = "netcfg").
Proof.
  intros [_ Ho] [Hns _]. specialize (Ho ns dev). specialize (Hns ns).
  unfold gone. cbn [fst snd]. split.
  - intros ([o|] & Hd & Hg); [|done]. exists o. split; [done|]. unfold dev_at in *.
    destruct (gm_get (State_Namespaces newState) ns) as [[n|]|]; [|done|by auto].
    destruct (gm_get (NsState_Devices n) dev) as [[?|]|]; [done|done|].
    split; [done|right]. by apply String.eqb_eq.
  - intros (o & Hd & Hn & Hc). exists (Some o). split; [done|]. rewrite Hn.
    destruct (gm_get (State_Namespaces newState) ns); [|done].
    destruct Hc as [|Hc]; [done|]. by apply String.eqb_eq.
Qed.

Lemma is_new_spec oldState newState ns dev :
  state_ok oldState ->
  (exists d, dev_at newState ns dev = Some d /\ is_new oldState (ns, (dev, d)) = true) <->
  is_Some (dev_at newState ns dev) /\ dev_at oldState ns dev = None.
Proof.
  intros [_ Ho]. specialize (Ho ns dev). unfold is_new. cbn [fst snd]. split.
  - intros (d & Hd & Hn). split; [by eexists|]. by destruct (dev_at oldState ns dev) as [[o|]|].
  - intros [[d Hd] Hn]. exists d. by rewrite Hn.
Qed.

Lemma nested_listed2_none f l m :
  nested_inv f l m -> NoDup (nsdev_key <$> l) ->
  forall ns dev, (forall d, (ns, (dev, d)) ∈ l -> f (ns, (dev, d)) = []) -> listed2 m ns dev = [].
Proof.
  intros (_ & _ & Hg) Hn ns dev Hnil. unfold listed2. destruct (nested_get m ns dev) eqn:E; [|done].
  apply Hg in E as (Hne & d & Hin & Hf). apply Hnil in Hin. simpl. congruence.
Qed.

Lemma of_both_none `{RangeOrder} oldState newState f site1 site2 ns dev :
  dev_at oldState ns dev = None \/ dev_at newState ns dev = None ->
  forall d, (ns, (dev, d)) ∈ entries site1 site2 oldState -> of_both newState f (ns, (dev, d)) = [].
Proof.
  intros Hnone d Hin%elem_of_entries. unfold of_both, both. cbn [fst snd].
  destruct Hnone as [Hnone | ->]; [congruence|by destruct d].
Qed.

Lemma ComputeDiff_spec `{RangeOrder} (oldState newState : State) :
  state_ok oldState -> state_ok newState ->
  exists d, ComputeDiff oldState newState = Some d /\
    (forall ns, ns ∈ Diff_NsToRemove d <-> is_Some (gm_get (State_Namespaces oldState) ns) /\
                                          gm_get (State_Namespaces newState) ns = None) /\
    (forall ns, ns ∈ Diff_NsToAdd d <-> is_Some (gm_get (State_Namespaces newState) ns) /\
                                       gm_get (State_Namespaces oldState) ns = None) /\
    (forall ns dev, dev ∈ listed (Diff_DevicesToRemove d) ns <->
       exists o, dev_at oldState ns dev = Some (Some o) /\ dev_at newState ns dev = None /\
         (gm_get (State_Namespaces newState) ns = None \/ DeviceState_CreatedBy o = "netcfg")) /\
    (forall ns dev, dev ∈ listed (Diff_DevicesToAdd d) ns <->
       is_Some (dev_at newState ns dev) /\ dev_at oldState ns dev = None) /\
    (forall ns, NoDup (listed (Diff_DevicesToRemove d) ns) /\ NoDup (listed (Diff_DevicesToAdd d) ns)) /\
    (forall ns dev o n, dev_at oldState ns dev = Some (Some o) -> dev_at newState ns dev = Some (Some n) ->
       (forall a, a ∈ listed2 (Diff_AddressesToRemove d) ns dev <->
          a ∈ DeviceState_Addresses o /\ a ∉ DeviceState_Addresses n) /\
       (forall a, a ∈ listed2 (Diff_AddressesToAdd d) ns dev <->
          a ∈ DeviceState_Addresses n /\ a ∉ DeviceState_Addresses o) /\
       (forall r, r ∈ listed2 (Diff_RoutesToRemove d) ns dev <->
          r ∈ DeviceState_Routes o /\ r ∉ DeviceState_Routes n) /\
       (forall r, r ∈ listed2 (Diff_RoutesToAdd d) ns dev <->
          r ∈ DeviceState_Routes n /\ r ∉ DeviceState_Routes o)) /\
    (forall ns dev, dev_at oldState ns dev = None \/ dev_at newState ns dev = None ->
       listed2 (Diff_AddressesToRemove d) ns dev = [] /\ listed2 (Diff_RoutesToRemove d) ns dev = [] /\
       listed2 (Diff_AddressesToAdd d) ns dev = [] /\ listed2 (Diff_RoutesToAdd d) ns dev = []).
Proof.
  intros Hold Hnew.
  destruct (ComputeDiff_invariant oldState newState Hold Hnew)
    as (d & Hd & Hg & H1 & H2 & H3 & H4 & Hn & Hr & Ha).
  pose proof (NoDup_entries 227 230 oldState) as Ho. pose proof (NoDup_entries 279 282 newState) as Ho'.
  exists d. split; [done|]. rewrite Hr, Ha. split_and!.
  - apply elem_of_missing_ns.
  - apply elem_of_missing_ns.
  - intros ns dev. rewrite (lists_inv_listed _ _ _ Hg), elem_of_names_of.
    setoid_rewrite elem_of_entries. apply (gone_spec oldState newState ns dev Hold Hnew).
  - intros ns dev. rewrite (lists_inv_listed _ _ _ Hn), elem_of_names_of.
    setoid_rewrite elem_of_entries. apply (is_new_spec oldState newState ns dev Hold).
  - intros ns. rewrite (lists_inv_listed _ _ _ Hg), (lists_inv_listed _ _ _ Hn).
    split; by apply NoDup_names_of.
  - intros ns dev o n Eo En. pose proof Eo as Hin. apply (elem_of_entries 227 230) in Hin.
    rewrite (nested_inv_listed2 _ _ _ H1 Ho _ _ _ Hin), (nested_inv_listed2 _ _ _ H2 Ho _ _ _ Hin),
      (nested_inv_listed2 _ _ _ H3 Ho _ _ _ Hin), (nested_inv_listed2 _ _ _ H4 Ho _ _ _ Hin).
    unfold ar, aa, rr, ra, of_both, both. simpl. rewrite En.
    split_and!; intros; (apply elem_of_removed || apply elem_of_added).
  - intros ns dev Hnone.
    split_and!; eapply nested_listed2_none; eauto; by apply of_both_none.
Qed.

(** C4: on states without null entries ComputeDiff does not panic, and its
    result lists exactly: the namespaces that only the old state (to remove) or
    only the new one (to add) has; the devices to remove, which the new state
    lacks and netcfg created or whose whole namespace is gone; the devices that
    are new; and, for the devices of both states, the addresses and the routes
    that disappear and that appear.  The devices are listed without
    duplicates, whatever the orders in which the maps are visited. *)
Theorem ComputeDiff_correct `{RangeOrder} (oldState newState : State) :
  state_ok oldState -> state_ok newState ->
  exists d, ComputeDiff oldState newState = Some d /\
    (forall ns, ns ∈ Diff_NsToRemove d <-> is_Some (gm_get (State_Namespaces oldState) ns) /\
                                          gm_get (State_Namespaces newState) ns = None) /\
    (forall ns, ns ∈ Diff_NsToAdd d <-> is_Some (gm_get (State_Namespaces newState) ns) /\
                                       gm_get (State_Namespaces oldState) ns = None) /\
    (forall ns dev, dev ∈ listed (Diff_DevicesToRemove d) ns <->
       exists o, dev_at oldState ns dev = Some (Some o) /\ dev_at newState ns dev = None /\
         (gm_get (State_Namespaces newState) ns = None \/ DeviceState_CreatedBy o = "netcfg")) /\
    (forall ns dev, dev ∈ listed (Diff_DevicesToAdd d) ns <->
       is_Some (dev_at newState ns dev) /\ dev_at oldState ns dev = None) /\
    (forall ns, NoDup (listed (Diff_DevicesToRemove d) ns) /\ NoDup (listed (Diff_DevicesToAdd d) ns)) /\
    (forall ns dev o n, dev_at oldState ns dev = Some (Some o) -> dev_at newState ns dev = Some (Some n) ->
       (forall a, a ∈ listed2 (Diff_AddressesToRemove d) ns dev <->
          a ∈ DeviceState_Addresses o /\ a ∉ DeviceState_Addresses n) /\
       (forall a, a ∈ listed2 (Diff_AddressesToAdd d) ns dev <->
          a ∈ DeviceState_Addresses n /\ a ∉ DeviceState_Addresses o) /\
       (forall r, r ∈ listed2 (Diff_RoutesToRemove d) ns dev <->
          r ∈ DeviceState_Routes o /\ r ∉ DeviceState_Routes n) /\
       (forall r, r ∈ listed2 (Diff_RoutesToAdd d) ns dev <->
          r ∈ DeviceState_Routes n /\ r ∉ DeviceState_Routes o)) /\
    (forall ns dev, dev_at oldState ns dev = None \/ dev_at newState ns dev = None ->
       listed2 (Diff_AddressesToRemove d) ns dev = [] /\ listed2 (Diff_RoutesToRemove d) ns dev = [] /\
       listed2 (Diff_AddressesToAdd d) ns dev = [] /\ listed2 (Diff_RoutesToAdd d) ns dev = []).
Proof. apply ComputeDiff_spec. Qed.

(** Two small states, to run the definitions on. *)
Module Example2.
Definition dev (addrs routes : list string) (by_ : string) : ptr DeviceState :=
  Some (MkDeviceState "ethernet" addrs routes "" [] by_).
Definition old : State :=
  MkState 1 0 "" (Some {[ "" := Some (MkNsState (Some {[
    "eth0" := dev ["10.0.0.1/24"; "10.0.0.2/24"] [] "system";
    "br0" := dev [] [] "netcfg" ]}) []) ]}).
Definition new : State :=
  MkState 1 0 "" (Some {[ "" := Some (MkNsState (Some {[
    "eth0" := dev ["10.0.0.2/24"; "10.0.0.3/24"] [] "system" ]}) []) ]}).

(** A state with one namespace is free of null entries when its devices are. *)
Lemma one_ns_ok m sids :
  map_Forall (fun _ d => d <> None) m ->
  state_ok (MkState 1 0 "" (Some {[ "" := Some (MkNsState (Some m) sids) ]})).
Proof.
  intros Hm. split.
  - intros ns. simpl. rewrite gm_get_singleton. by case_decide.
  - intros ns d. unfold dev_at. simpl. rewrite gm_get_singleton. case_decide; [|done].
    simpl. intros Hd. by apply (Hm d None).
Qed.

Lemma old_ok : state_ok old.
Proof. apply one_ns_ok, (bool_decide_unpack _). vm_compute. exact I. Qed.
Lemma new_ok : state_ok new.
Proof. apply one_ns_ok, (bool_decide_unpack _). vm_compute. exact I. Qed.
End Example2.

Lemma ComputeDiff_correct_witness :
  exists d, ComputeDiff Example2.old Example2.new = Some d /\
    "br0" ∈ listed (Diff_DevicesToRemove d) "" /\
    "10.0.0.1/24" ∈ listed2 (Diff_AddressesToRemove d) "" "eth0".
Proof.
  destruct (ComputeDiff_correct Example2.old Example2.new Example2.old_ok Example2.new_ok)
    as (d & Hd & _ & _ & Hr & _ & _ & Hb & _).
  exists d. split; [exact Hd|]. split.
  - apply Hr. eexists. split; [vm_compute; reflexivity|]. split; [vm_compute; reflexivity|].
    right. reflexivity.
  - apply (Hb "" "eth0" (MkDeviceState "ethernet" ["10.0.0.1/24"; "10.0.0.2/24"] [] "" [] "system")
      (MkDeviceState "ethernet" ["10.0.0.2/24"; "10.0.0.3/24"] [] "" [] "system")).
    + vm_compute. reflexivity.
    + vm_compute. reflexivity.
    + split; [left|]. apply (bool_decide_unpack _). vm_compute. exact I.
Defined.

Section is_empty.
Context `{RangeOrder} (oldState newState : State).

Lemma missing_ns_nil site s1 s2 :
  length (missing_ns site s1 s2) = 0%nat <->
  forall ns, is_Some (gm_get (State_Namespaces s1) ns) -> is_Some (gm_get (State_Namespaces s2) ns).
Proof.
  rewrite length_zero_iff_nil. split.
  - intros Hm ns Hns. destruct (gm_get (State_Namespaces s2) ns) eqn:E; [done|].
    assert (ns ∈ missing_ns site s1 s2) as Hin by by apply elem_of_missing_ns.
    rewrite Hm in Hin. by apply not_elem_of_nil in Hin.
  - intros Hns. destruct (missing_ns site s1 s2) as [|ns l] eqn:E; [done|].
    assert (ns ∈ missing_ns site s1 s2) as [Hin Hn]%elem_of_missing_ns by (rewrite E; left).
    apply Hns in Hin as [? ?]. congruence.
Qed.

Lemma of_both_empty f site1 site2 :
  (forall e, e ∈ entries site1 site2 oldState -> of_both newState f e = []) <->
  forall ns dev o n, dev_at oldState ns dev = Some (Some o) -> dev_at newState ns dev = Some (Some n) ->
    f o n = [].
Proof.
  split.
  - intros He ns dev o n Eo En. apply (elem_of_entries site1 site2) in Eo. apply He in Eo.
    unfold of_both, both in Eo. simpl in Eo. by rewrite En in Eo.
  - intros Hf [ns [dev d]] Hin%elem_of_entries. unfold of_both, both. simpl.
    destruct d as [o|]; [|done]. destruct (dev_at newState ns dev) as [[n|]|] eqn:En; [|done..].
    by apply (Hf ns dev).
Qed.

Lemma gone_false site1 site2 :
  state_ok oldState -> state_ok newState ->
  (forall e, e ∈ entries site1 site2 oldState -> gone newState e = false) <->
  forall ns dev o, dev_at oldState ns dev = Some (Some o) -> dev_at newState ns dev = None ->
    ~ (gm_get (State_Namespaces newState) ns = None \/ DeviceState_CreatedBy o = "netcfg").
Proof.
  intros Hold Hnew. split.
  - intros He ns dev o Eo En Hc.
    destruct (proj2 (gone_spec oldState newState ns dev Hold Hnew)) as (d & Hd & Hg); [eauto|].
    apply (elem_of_entries site1 site2), He in Hd. congruence.
  - intros Hf [ns [dev d]] Hin%elem_of_entries. apply not_true_iff_false. intros Hg.
    destruct (proj1 (gone_spec oldState newState ns dev Hold Hnew)) as (o & Eo & En & Hc); [eauto|].
    by apply (Hf ns dev o).
Qed.

Lemma is_new_false site1 site2 :
  state_ok oldState ->
  (forall e, e ∈ entries site1 site2 newState -> is_new oldState e = false) <->
  forall ns dev, is_Some (dev_at newState ns dev) -> is_Some (dev_at oldState ns dev).
Proof.
  intros Hold. split.
  - intros He ns dev Hn. destruct (dev_at oldState ns dev) eqn:E; [done|].
    destruct (proj2 (is_new_spec oldState newState ns dev Hold)) as (d & Hd & Hi); [done|].
    apply (elem_of_entries site1 site2), He in Hd. congruence.
  - intros Hf [ns [dev d]] Hin%elem_of_entries. apply not_true_iff_false. intros Hi.
    destruct (proj1 (is_new_spec oldState newState ns dev Hold)) as [Hn Ho]; [eauto|].
    apply Hf in Hn as [? ?]. congruence.
Qed.

Lemma diffStrings_empty l1 l2 :
  removed (diffStrings l1 l2) = [] /\ added (diffStrings l1 l2) = [] <->
  forall a, a ∈ l1 <-> a ∈ l2.
Proof.
  rewrite !list_eq_nil_elem. setoid_rewrite elem_of_removed. setoid_rewrite elem_of_added.
  split.
  - intros [H1 H2] a. destruct (decide (a ∈ l1)), (decide (a ∈ l2)); set_solver.
  - set_solver.
Qed.
End is_empty.

(** IsEmpty holds of the difference of two states without null entries iff
    the states have the same namespaces, the new one no new device, every
    device that disappears was not created by netcfg, and every device of both
    has the same addresses and the same routes, as sets. *)
Theorem IsEmpty_correct `{RangeOrder} (oldState newState : State) :
  state_ok oldState -> state_ok newState ->
  exists d, ComputeDiff oldState newState = Some d /\
    (IsEmpty d = true <->
     (forall ns, is_Some (gm_get (State_Namespaces oldState) ns) <->
                 is_Some (gm_get (State_Namespaces newState) ns)) /\
     (forall ns dev, is_Some (dev_at newState ns dev) -> is_Some (dev_at oldState ns dev)) /\
     (forall ns dev o, dev_at oldState ns dev = Some (Some o) -> dev_at newState ns dev = None ->
        DeviceState_CreatedBy o <> "netcfg") /\
     (forall ns dev o n, dev_at oldState ns dev = Some (Some o) -> dev_at newState ns dev = Some (Some n) ->
        (forall a, a ∈ DeviceState_Addresses o <-> a ∈ DeviceState_Addresses n) /\
        (forall r, r ∈ DeviceState_Routes o <-> r ∈ DeviceState_Routes n))).
Proof.
  intros Hold Hnew.
  destruct (ComputeDiff_invariant oldState newState Hold Hnew)
    as (d & Hd & Hg & H1 & H2 & H3 & H4 & Hn & Hr & Ha).
  exists d. split; [done|]. unfold IsEmpty. rewrite !andb_true_iff, !Nat.eqb_eq.
  rewrite (lists_inv_empty _ _ _ Hg), (lists_inv_empty _ _ _ Hn), (nested_inv_empty _ _ _ H1),
    (nested_inv_empty _ _ _ H2), (nested_inv_empty _ _ _ H3), (nested_inv_empty _ _ _ H4), Hr, Ha,
    !missing_ns_nil, (gone_false oldState newState _ _ Hold Hnew), (is_new_false oldState newState _ _ Hold).
  unfold ar, aa, rr, ra. rewrite !of_both_empty. split.
  - intros (((((((Hgo & Har) & Hrr) & Hno) & Hnw) & Haa) & Hra) & Hon). split_and!.
    + intros ns. split; [apply Hno|apply Hon].
    + exact Hnw.
    + intros ns dev o Eo En Hc. apply (Hgo ns dev o Eo En). by right.
    + intros ns dev o n Eo En. split; apply diffStrings_empty.
      * split; [exact (Har ns dev o n Eo En)|exact (Haa ns dev o n Eo En)].
      * split; [exact (Hrr ns dev o n Eo En)|exact (Hra ns dev o n Eo En)].
  - intros (Hns & Hnw & Hgo & Hboth). split_and!.
    + intros ns dev o Eo En [Hnone|Hc]; [|by apply (Hgo ns dev o)].
      assert (is_Some (gm_get (State_Namespaces oldState) ns)) as Hs.
      { unfold dev_at in Eo. by destruct (gm_get (State_Namespaces oldState) ns). }
      apply Hns in Hs as [? ?]. congruence.
    + intros ns dev o n Eo En. by apply diffStrings_empty, (Hboth ns dev).
    + intros ns dev o n Eo En. by apply diffStrings_empty, (Hboth ns dev).
    + intros ns. apply Hns.
    + exact Hnw.
    + intros ns dev o n Eo En. by apply diffStrings_empty, (Hboth ns dev).
    + intros ns dev o n Eo En. by apply diffStrings_empty, (Hboth ns dev).
    + intros ns. apply Hns.
Qed.

Lemma IsEmpty_correct_witness :
  exists d, ComputeDiff Example2.new Example2.new = Some d /\ IsEmpty d = true.
Proof.
  destruct (IsEmpty_correct Example2.new Example2.new Example2.new_ok Example2.new_ok) as (d & Hd & He).
  exists d. split; [exact Hd|]. apply He. generalize Example2.new. intros s. split_and!.
  - reflexivity.
  - intros ns dev H. exact H.
  - intros ns dev o E1 E2. rewrite E1 in E2. discriminate E2.
  - intros ns dev o n Eo En. rewrite Eo in En. injection En as <-. split; reflexivity.
Defined.

(** ** The operations *)

(** The state can take devices in [ns]: no map it has to write to is nil. *)
Definition writable (s : State) (ns : string) : Prop :=
  State_Namespaces s <> None /\
  match gm_get (State_Namespaces s) ns with
  | None => True
  | Some None => False
  | Some (Some n) => NsState_Devices n <> None
  end.

(** The state with the namespace [ns] replaced. *)
Definition with_ns (s : State) (ns : string) (n : NsState) : State :=
  s <| State_Namespaces := put_make (State_Namespaces s) ns (Some n) |>.

Lemma gm_get_with_ns s ns n ns' :
  gm_get (State_Namespaces (with_ns s ns n)) ns' =
    if decide (ns = ns') then Some (Some n) else gm_get (State_Namespaces s) ns'.
Proof. destruct s. apply gm_get_put_make. Qed.

Lemma dev_at_with_ns s ns n ns' dev :
  dev_at (with_ns s ns n) ns' dev =
    if decide (ns = ns') then gm_get (NsState_Devices n) dev else dev_at s ns' dev.
Proof. unfold dev_at. rewrite gm_get_with_ns. by case_decide. Qed.

(** The namespace that SetDevice writes to. *)
Definition ns_or_new (s : State) (ns : string) : NsState :=
  match gm_get (State_Namespaces s) ns with Some (Some n) => n | _ => MkNsState gm_make [] end.

Lemma SetDevice_eq s ns name dev :
  writable s ns ->
  SetDevice s ns name dev =
    Some (with_ns s ns ((ns_or_new s ns) <| NsState_Devices :=
      put_make (NsState_Devices (ns_or_new s ns)) name dev |>)).
Proof.
  intros [Hm Hns]. unfold SetDevice, with_ns, ns_or_new.
  destruct s as [v t h [m|]]; [|done]. cbn [State_Namespaces] in *.
  destruct (gm_get (Some m) ns) as [[[devs sids]|]|] eqn:E; [|done|]; cbn [NsState_Devices] in *.
  - destruct devs as [devs|]; [|done]. simpl. rewrite E. done.
  - simpl. unfold gm_get. simpl. rewrite lookup_insert_eq. simpl. by rewrite insert_insert_eq.
Qed.

Lemma RemoveDevice_with_ns s ns n name :
  RemoveDevice (with_ns s ns n) ns name =
    Some (with_ns (with_ns s ns n) ns (n <| NsState_Devices := gm_del (NsState_Devices n) name |>)).
Proof.
  unfold RemoveDevice. rewrite gm_get_with_ns, decide_True by done. by destruct s.
Qed.

Lemma GetDevice_with_ns s ns n name :
  GetDevice (with_ns s ns n) ns name = Some (default None (gm_get (NsState_Devices n) name)).
Proof. unfold GetDevice. by rewrite gm_get_with_ns, decide_True by done. Qed.

(** SetDevice, in a state that can take devices in the namespace, does not
    panic; the device is then the one read back by GetDevice, no other device
    changes, and RemoveDevice takes it away again, leaving the others alone. *)
Theorem SetDevice_correct (s : State) (ns name : string) (dev : option DeviceState) :
  writable s ns ->
  exists s' s'', SetDevice s ns name dev = Some s' /\ RemoveDevice s' ns name = Some s'' /\
    GetDevice s' ns name = Some dev /\ GetDevice s'' ns name = Some None /\
    writable s' ns /\
    (forall ns' name', (ns', name') <> (ns, name) -> dev_at s' ns' name' = dev_at s ns' name' /\
                                                    dev_at s'' ns' name' = dev_at s ns' name').
Proof.
  intros Hw. rewrite SetDevice_eq by done. set (n := ns_or_new s ns).
  eexists _, _. split; [done|]. rewrite RemoveDevice_with_ns. split; [done|].
  rewrite !GetDevice_with_ns. destruct Hw as [Hm Hns].
  assert (forall name', gm_get (NsState_Devices n) name' = dev_at s ns name') as Hn.
  { intros name'. unfold n, ns_or_new, dev_at.
    destruct (gm_get (State_Namespaces s) ns) as [[?|]|]; [done|done|]. unfold gm_get. simpl. by rewrite lookup_empty. }
  destruct n as [devs sids]. cbn -[gm_get gm_del put_make] in Hn |- *.
  rewrite gm_get_put_make, decide_True by done. split_and!; [done| | |].
  - by rewrite gm_get_del, decide_True.
  - split; [by destruct s|]. by rewrite gm_get_with_ns, decide_True by done.
  - intros ns' name' Hne. rewrite !dev_at_with_ns. case_decide; [subst ns'|done].
    cbn [NsState_Devices]. rewrite gm_get_del, gm_get_put_make, Hn. by case_decide; [subst|].
Qed.

Lemma SetDevice_correct_witness :
  exists s' s'', SetDevice NewState "blue" "eth0" (Example2.dev [] [] "netcfg") = Some s' /\
    RemoveDevice s' "blue" "eth0" = Some s'' /\ GetDevice s'' "blue" "eth0" = Some None.
Proof.
  destruct (SetDevice_correct NewState "blue" "eth0" (Example2.dev [] [] "netcfg"))
    as (s' & s'' & H1 & H2 & _ & H3 & _).
  - split; [discriminate|]. vm_compute. exact I.
  - exists s', s''. split_and!; [exact H1|exact H2|exact H3].
Defined.
