(* ===== verification/BuildState.v ===== *)
(** * From a configuration to the state to be remembered (cmd/apply.go)

    [buildNsState] and its helpers, and the text form of a route, which is
    written into the state and parsed again when the route is to be removed. *)

From S2P Require Import Prelude GoStd Effect Config Load State.

(** ** The strings of the state *)

(* go: cmd/apply.go 1450-1457 addrStrings *)
Definition addrStrings (addrs : list Address) : list string := Address_CIDR <$> addrs.

(* go: cmd/apply.go 1924-1930 ndProxyAddrs *)
Definition ndProxyAddrs (n : ptr NDProxy) : list string :=
  match n with None => [] | Some n => NDProxy_Addresses n end.

(** The body of the loop of routesToStrings. *)
(* go: cmd/apply.go 409-416 routesToStrings *)
Definition route_string (r : Route) : string :=
  let s := Route_To r in
  let s := if negb (Str.is_empty (Route_Via r)) then s +:+ " via " +:+ Route_Via r else s in
  if 0 <? Route_Table r then s +:+ " table " +:+ Str.itoa (Route_Table r) else s.

(* go: cmd/apply.go 405-419 routesToStrings *)
Definition routesToStrings (routes : list (ptr Route)) : pan (list string) :=
  mapM (fun r => r ← r; Some (route_string r)) routes.

(** The body of the loop of parseRouteString, on two consecutive parts. *)
Definition parse_part (acc : string * Z) (part next : string) : string * Z :=
  let '(gw, table) := acc in
  let gw := if Str.eqb part "via" then next else gw in
  let table := if Str.eqb part "table" then Str.sscanf_d next table else table in
  (gw, table).

Fixpoint parse_parts (parts : list string) (acc : string * Z) : string * Z :=
  match parts with
  | part :: (next :: _) as rest => parse_parts rest (parse_part acc part next)
  | _ => acc
  end.

(* go: cmd/apply.go 529-544 parseRouteString *)
Definition parseRouteString (s : string) : string * string * Z :=
  let parts := Str.fields s in
  let dst := match parts with [] => "" | p :: _ => p end in
  let '(gw, table) := parse_parts parts ("", 0) in
  (dst, gw, table).

(** ** The state of a namespace *)

(** One loop of buildNsState: [mk] is the literal in its body. *)
Definition track `{RangeOrder} {A} (site : Z) (m : gomap (ptr A)) (mk : A -> pan DeviceState)
    (nsState : NsState) : pan NsState :=
  fold_pan (gm_range site m) nsState (fun nsState '(name, cfg) =>
    cfg ← cfg;
    d ← mk cfg;
    devices ← gm_put (NsState_Devices nsState) name (Some d);
    Some (nsState <| NsState_Devices := devices |>)).

Definition device_state (type : string) (addresses : list string) (routes : list (ptr Route))
    (ndproxy : list string) (createdBy : string) : pan DeviceState :=
  routes ← routesToStrings routes;
  Some {| DeviceState_Type := type;
          DeviceState_Addresses := addresses;
          DeviceState_Routes := routes;
          DeviceState_Master := "";
          DeviceState_NDProxy := ndproxy;
          DeviceState_CreatedBy := createdBy |}.

(** The literals of the loops of buildNsState, kind by kind; it has no loop
    over the macvtap devices. *)
(* go: cmd/apply.go 240-391 buildNsState *)
Definition kind_state (k : kind) : kind_type k -> option (pan DeviceState) :=
  match k with
  | KEthernets => fun cfg => Some (device_state "ethernet" (addrStrings (Ethernet_Addresses cfg))
      (Ethernet_Routes cfg) (ndProxyAddrs (Ethernet_NDProxy cfg)) "system")
  | KDummyDevices => fun cfg => Some (device_state "dummy" (addrStrings (Ethernet_Addresses cfg))
      (Ethernet_Routes cfg) [] "netcfg")
  | KBridges => fun cfg => Some (device_state "bridge" (addrStrings (Bridge_Addresses cfg))
      (Bridge_Routes cfg) (ndProxyAddrs (Bridge_NDProxy cfg)) "netcfg")
  | KBonds => fun cfg => Some (device_state "bond" (addrStrings (Bond_Addresses cfg))
      (Bond_Routes cfg) (ndProxyAddrs (Bond_NDProxy cfg)) "netcfg")
  | KVlans => fun cfg => Some (device_state "vlan" (addrStrings (Vlan_Addresses cfg))
      (Vlan_Routes cfg) (ndProxyAddrs (Vlan_NDProxy cfg)) "netcfg")
  | KVxlans => fun cfg => Some (device_state "vxlan" (addrStrings (Vxlan_Addresses cfg))
      (Vxlan_Routes cfg) [] "netcfg")
  | KVrfs => fun cfg => Some (device_state "vrf" [] (Vrf_Routes cfg) [] "netcfg")
  | KTunnels => fun cfg => Some (device_state "tunnel" (addrStrings (Tunnel_Addresses cfg))
      (Tunnel_Routes cfg) [] "netcfg")
  | KWifis => fun cfg => Some (device_state "wifi" (addrStrings (Wifi_Addresses cfg))
      (Wifi_Routes cfg) [] "system")
  | KVethDevices => fun cfg => Some (device_state "veth" (addrStrings (VethDevice_Addresses cfg))
      (VethDevice_Routes cfg) [] "netcfg")
  | KVirtualEthernets => fun cfg => Some (device_state "veth" (addrStrings (VirtualEthernet_Addresses cfg))
      (VirtualEthernet_Routes cfg) [] "netcfg")
  | KMacvlanDevices => fun cfg => Some (device_state "macvlan" (addrStrings (MacvlanDevice_Addresses cfg))
      (MacvlanDevice_Routes cfg) [] "netcfg")
  | KMacvtapDevices => fun _ => None
  | KIpvlanDevices => fun cfg => Some (device_state "ipvlan" (addrStrings (IpvlanDevice_Addresses cfg))
      (IpvlanDevice_Routes cfg) [] "netcfg")
  | KTunDevices => fun cfg => Some (device_state "tun" (addrStrings (TunTapDevice_Addresses cfg))
      (TunTapDevice_Routes cfg) [] "netcfg")
  | KTapDevices => fun cfg => Some (device_state "tap" (addrStrings (TunTapDevice_Addresses cfg))
      (TunTapDevice_Routes cfg) [] "netcfg")
  end.

(** The loops of buildNsState, in their order, with their lines. *)
(* go: cmd/apply.go 239-391 buildNsState *)
Definition tracked : list (Z * kind) :=
  [(241, KEthernets); (252, KDummyDevices); (262, KBridges); (273, KBonds); (284, KVlans);
   (295, KVxlans); (305, KVrfs); (314, KTunnels); (326, KWifis); (336, KVethDevices);
   (346, KVirtualEthernets); (356, KMacvlanDevices); (366, KIpvlanDevices); (376, KTunDevices);
   (386, KTapDevices)].

Definition track_kind `{RangeOrder} (ns : Namespace) (nsState : NsState) (loop : Z * kind) : pan NsState :=
  let '(site, k) := loop in
  track site (ns_map k ns) (fun cfg => default None (kind_state k cfg)) nsState.

(* go: cmd/apply.go 234-403 buildNsState *)
Definition buildNsState `{RangeOrder} (ns : ptr Namespace) : pan NsState :=
  ns ← ns;
  nsState ← fold_pan tracked (MkNsState gm_make []) (track_kind ns);
  match Namespace_SRv6 ns with
  | None => Some nsState
  | Some srv6 =>
      sids ← mapM (fun s => s ← s; Some (SRv6LocalSID_SID s)) (SRv6Config_LocalSIDs srv6);
      Some (nsState <| NsState_SRv6SIDs := sids |>)
  end.

(* go: cmd/apply.go 216-232 buildStateFromConfig *)
Definition buildStateFromConfig `{RangeOrder} (cfg : Config) : pan State :=
  let s := NewState in
  s ← (if HasDefaultNamespaceConfig cfg then
         n ← buildNsState (Some (ToNamespace (Config_Network cfg)));
         SetNamespace s "" (Some n)
       else Some s);
  fold_pan (gm_range 227 (Network_Netns (Config_Network cfg))) s (fun s '(nsName, nsCfg) =>
    n ← buildNsState nsCfg;
    SetNamespace s nsName (Some n)).

(** ** What the loops build *)

Section track.
Context `{RangeOrder} {A : Type}.
Implicit Types (m : gomap (ptr A)) (mk : A -> pan DeviceState).

(** What a loop makes of an entry; [None] is a panic. *)
Definition entry_state (mk : A -> pan DeviceState) (cfg : ptr A) : pan DeviceState :=
  cfg ← cfg; mk cfg.

Lemma track_list mk (l : list (string * ptr A)) st :
  NoDup l.*1 -> is_Some (NsState_Devices st) ->
  let body nsState '(name, cfg) :=
    cfg ← cfg; d ← mk cfg;
    devices ← gm_put (NsState_Devices nsState) name (Some d);
    Some (nsState <| NsState_Devices := devices |>) in
  match fold_pan l st body with
  | None => exists name cfg, (name, cfg) ∈ l /\ entry_state mk cfg = None
  | Some st' =>
      is_Some (NsState_Devices st') /\ NsState_SRv6SIDs st' = NsState_SRv6SIDs st /\
      (forall name cfg, (name, cfg) ∈ l -> is_Some (entry_state mk cfg)) /\
      forall name, gm_get (NsState_Devices st') name =
        match (list_to_map l : gmap string (ptr A)) !! name ≫= entry_state mk with
        | Some d => Some (Some d)
        | None => gm_get (NsState_Devices st) name
        end
  end.
Proof.
  simpl. revert st. induction l as [|[name cfg] l IH]; intros [dv sids] Hn [devices Hd]; simpl in Hd; subst dv; simpl.
  { split_and!; [by eexists|done|by intros ? ? ?%elem_of_nil|]. intros name. by rewrite lookup_empty. }
  rewrite fmap_cons in Hn. apply NoDup_cons in Hn as [Hname Hn].
  destruct (entry_state mk cfg) as [d|] eqn:Hc.
  - destruct cfg as [cfg|]; [|done]. simpl in Hc |- *. rewrite Hc. simpl.
    specialize (IH (MkNsState (Some (<[name:=Some d]> devices)) sids) Hn ltac:(by eexists)).
    unfold update; simpl. destruct (fold_pan _ _ _) as [st'|].
    + destruct IH as (H1 & H2 & H3 & H4). split_and!; [done|done| |].
      * intros n c [[= -> ->]|Hin]%elem_of_cons; [by simpl; rewrite Hc|by eapply H3].
      * intros n. rewrite H4. unfold gm_get at 1. simpl. rewrite !lookup_insert. case_decide; [subst n|done].
        assert ((list_to_map l : gmap string (ptr A)) !! name = None) as -> by by apply not_elem_of_list_to_map_1.
        simpl. by rewrite Hc.
    + destruct IH as (n & c & Hin & Hc'). exists n, c. split; [by right|done].
  - assert (match cfg with Some cfg0 => mk cfg0 | None => None end = None) as Hc'.
    { by destruct cfg. }
    destruct cfg as [cfg|]; simpl; [rewrite Hc'|]; simpl; eexists _, _; (split; [by left|done]).
Qed.

Lemma track_spec site m mk st :
  is_Some (NsState_Devices st) ->
  match track site m mk st with
  | None => exists name cfg, gm_get m name = Some cfg /\ entry_state mk cfg = None
  | Some st' =>
      is_Some (NsState_Devices st') /\ NsState_SRv6SIDs st' = NsState_SRv6SIDs st /\
      (forall name cfg, gm_get m name = Some cfg -> is_Some (entry_state mk cfg)) /\
      forall name, gm_get (NsState_Devices st') name =
        match gm_get m name ≫= entry_state mk with
        | Some d => Some (Some d)
        | None => gm_get (NsState_Devices st) name
        end
  end.
Proof.
  intros Hd. unfold track, gm_range.
  pose proof (track_list mk (range site (gm_map m)) st (NoDup_fst_range site _) Hd) as Hl.
  cbv zeta in Hl. destruct (fold_pan _ _ _) as [st'|].
  - destruct Hl as (H1 & H2 & H3 & H4). split_and!; [done|done| |].
    + intros name cfg Hc. apply (H3 name). by apply elem_of_range.
    + intros name. rewrite H4. unfold gm_get. by rewrite list_to_map_range.
  - destruct Hl as (name & cfg & Hin%elem_of_range & Hc). by exists name, cfg.
Qed.
End track.

(** The state that the loop over the devices of kind [k] writes for [name]. *)
Definition kind_entry (ns : Namespace) (name : string) (k : kind) : option DeviceState :=
  gm_get (ns_map k ns) name ≫= entry_state (fun cfg => default None (kind_state k cfg)).

(** The state of the device [name]: that of the last loop that writes one. *)
Definition tracked_state (ns : Namespace) (name : string) : option DeviceState :=
  last_given (kind_entry ns name) tracked.*2.

(** What the loops need: no null device, route or SID where they look. *)
Definition loops_ok (ns : Namespace) : Prop :=
  (forall k name cfg, k ∈ tracked.*2 -> gm_get (ns_map k ns) name = Some cfg ->
     is_Some (entry_state (fun cfg => default None (kind_state k cfg)) cfg)) /\
  forall srv6, Namespace_SRv6 ns = Some srv6 -> None ∉ SRv6Config_LocalSIDs srv6.

Definition sid_list (ns : Namespace) : list string :=
  match Namespace_SRv6 ns with
  | None => []
  | Some srv6 => omap (fmap SRv6LocalSID_SID) (SRv6Config_LocalSIDs srv6)
  end.

Section build.
Context `{RangeOrder}.

Lemma track_kinds ns loops st :
  is_Some (NsState_Devices st) ->
  match fold_pan loops st (track_kind ns) with
  | None => exists k name cfg, k ∈ loops.*2 /\ gm_get (ns_map k ns) name = Some cfg /\
              entry_state (fun cfg => default None (kind_state k cfg)) cfg = None
  | Some st' =>
      is_Some (NsState_Devices st') /\ NsState_SRv6SIDs st' = NsState_SRv6SIDs st /\
      (forall k name cfg, k ∈ loops.*2 -> gm_get (ns_map k ns) name = Some cfg ->
         is_Some (entry_state (fun cfg => default None (kind_state k cfg)) cfg)) /\
      forall name, gm_get (NsState_Devices st') name =
        match last_given (kind_entry ns name) loops.*2 with
        | Some d => Some (Some d)
        | None => gm_get (NsState_Devices st) name
        end
  end.
Proof.
  revert st. induction loops as [|[site k] loops IH]; intros st Hd; simpl.
  { split_and!; [done|done|by intros ? ? ? ?%elem_of_nil|done]. }
  pose proof (track_spec site (ns_map k ns) (fun cfg => default None (kind_state k cfg)) st Hd) as Hk.
  destruct (track _ _ _ _) as [st1|]; simpl.
  - destruct Hk as (H1 & H2 & H3 & H4). specialize (IH st1 H1).
    destruct (fold_pan _ _ _) as [st2|].
    + destruct IH as (I1 & I2 & I3 & I4). split_and!; [done|congruence| |].
      * intros k' name cfg [->|Hin]%elem_of_cons; [apply H3|by apply I3].
      * intros name. rewrite I4, last_given_cons. unfold kind_entry at 3. rewrite H4.
        by destruct (last_given _ _).
    + destruct IH as (k' & name & cfg & Hin & Hc). exists k', name, cfg. split; [by right|done].
  - destruct Hk as (name & cfg & Hc). exists k, name, cfg. split; [by left|done].
Qed.

Lemma sids_spec (l : list (ptr SRv6LocalSID)) :
  match mapM (fun s => (s ← s; Some (SRv6LocalSID_SID s))) l with
  | None => None ∈ l
  | Some sids => (None ∉ l) /\ sids = (omap (fmap SRv6LocalSID_SID) l)
  end.
Proof.
  induction l as [|[s|] l IH]; simpl; [split; [apply not_elem_of_nil|done]| |by left].
  destruct (mapM _ l) as [sids|]; simpl.
  - destruct IH as [Hno ->]. split; [|done]. by intros [|]%elem_of_cons.
  - by right.
Qed.

(** buildNsState panics exactly on a null entry; otherwise each device has the
    state of the last loop that has its name. *)
Lemma buildNsState_loops ns :
  match buildNsState (Some ns) with
  | None => ~ loops_ok ns
  | Some st =>
      loops_ok ns /\ is_Some (NsState_Devices st) /\ NsState_SRv6SIDs st = sid_list ns /\
      forall name, gm_get (NsState_Devices st) name = Some <$> tracked_state ns name
  end.
Proof.
  unfold buildNsState, loops_ok, sid_list. cbn [mbind option_bind].
  pose proof (track_kinds ns tracked (MkNsState gm_make []) ltac:(by eexists)) as Hk.
  destruct (fold_pan _ _ _) as [st|]; cbn [mbind option_bind].
  - destruct Hk as (H1 & H2 & H3 & H4).
    assert (forall name, gm_get (NsState_Devices st) name = Some <$> tracked_state ns name) as Hd.
    { intros name. rewrite H4. unfold tracked_state. destruct (last_given _ _); [done|].
      unfold gm_get; simpl. by rewrite lookup_empty. }
    destruct (Namespace_SRv6 ns) as [srv6|] eqn:Hs; [|by rewrite H2].
    pose proof (sids_spec (SRv6Config_LocalSIDs srv6)) as Hl.
    destruct (mapM _ _) as [sids|]; simpl in *.
    + destruct Hl as [Hno ->], st. simpl in *. split_and!; [done| |done|done|done]. by intros ? [= <-].
    + intros [_ Hno]. by apply (Hno srv6).
  - destruct Hk as (k & name & cfg & Hin & Hc & He). intros [Hno _].
    destruct (Hno k name cfg Hin Hc) as [? Hs]. by rewrite He in Hs.
Qed.
End build.

(** ** What is to be recorded

    A specification, field by field, which does not look at the loops. *)

(** The type of a device in the state. *)
Definition kind_name (k : kind) : string :=
  match k with
  | KEthernets => "ethernet" | KDummyDevices => "dummy" | KBridges => "bridge" | KBonds => "bond"
  | KVlans => "vlan" | KVxlans => "vxlan" | KVrfs => "vrf" | KTunnels => "tunnel" | KWifis => "wifi"
  | KVethDevices | KVirtualEthernets => "veth" | KMacvlanDevices => "macvlan" | KMacvtapDevices => "macvtap"
  | KIpvlanDevices => "ipvlan" | KTunDevices => "tun" | KTapDevices => "tap"
  end.

(** The devices that netcfg finds and does not create. *)
Definition physical (k : kind) : bool :=
  match k with KEthernets | KWifis => true | _ => false end.

Definition kind_addresses (k : kind) : kind_type k -> list Address :=
  match k with
  | KEthernets | KDummyDevices => Ethernet_Addresses
  | KBridges => Bridge_Addresses | KBonds => Bond_Addresses | KVlans => Vlan_Addresses
  | KVxlans => Vxlan_Addresses | KVrfs => fun _ => [] | KTunnels => Tunnel_Addresses
  | KWifis => Wifi_Addresses | KVethDevices => VethDevice_Addresses
  | KVirtualEthernets => VirtualEthernet_Addresses
  | KMacvlanDevices | KMacvtapDevices => MacvlanDevice_Addresses
  | KIpvlanDevices => IpvlanDevice_Addresses | KTunDevices | KTapDevices => TunTapDevice_Addresses
  end.

Definition kind_routes (k : kind) : kind_type k -> list (ptr Route) :=
  match k with
  | KEthernets | KDummyDevices => Ethernet_Routes
  | KBridges => Bridge_Routes | KBonds => Bond_Routes | KVlans => Vlan_Routes
  | KVxlans => Vxlan_Routes | KVrfs => Vrf_Routes | KTunnels => Tunnel_Routes
  | KWifis => Wifi_Routes | KVethDevices => VethDevice_Routes
  | KVirtualEthernets => VirtualEthernet_Routes
  | KMacvlanDevices | KMacvtapDevices => MacvlanDevice_Routes
  | KIpvlanDevices => IpvlanDevice_Routes | KTunDevices | KTapDevices => TunTapDevice_Routes
  end.

(** Only these kinds proxy neighbours. *)
Definition kind_ndproxy (k : kind) : kind_type k -> ptr NDProxy :=
  match k with
  | KEthernets => Ethernet_NDProxy | KBridges => Bridge_NDProxy | KBonds => Bond_NDProxy
  | KVlans => Vlan_NDProxy | _ => fun _ => None
  end.

(** The state of a device. *)
Definition recorded (k : kind) (cfg : kind_type k) (d : DeviceState) : Prop :=
  DeviceState_Type d = kind_name k /\
  DeviceState_Addresses d = Address_CIDR <$> kind_addresses k cfg /\
  Some <$> DeviceState_Routes d = fmap route_string <$> kind_routes k cfg /\
  DeviceState_Master d = "" /\
  DeviceState_NDProxy d = match kind_ndproxy k cfg with Some n => NDProxy_Addresses n | None => [] end /\
  DeviceState_CreatedBy d = (if physical k then "system" else "netcfg").

(** Every kind is recorded but macvtaps. *)
Definition recordable (k : kind) : Prop := k <> KMacvtapDevices.

(** When several kinds have a device of one name, the one of the highest rank is
    recorded. *)
Definition rank (k : kind) : nat :=
  match k with
  | KEthernets => 1 | KDummyDevices => 2 | KBridges => 3 | KBonds => 4 | KVlans => 5 | KVxlans => 6
  | KVrfs => 7 | KTunnels => 8 | KWifis => 9 | KVethDevices => 10 | KVirtualEthernets => 11
  | KMacvlanDevices => 12 | KIpvlanDevices => 13 | KTunDevices => 14 | KTapDevices => 15
  | KMacvtapDevices => 16
  end.

Definition has_device (c : Namespace) (k : kind) (name : string) : Prop :=
  recordable k /\ is_Some (gm_get (ns_map k c) name).

Definition owner (c : Namespace) (name : string) (k : kind) : Prop :=
  has_device c k name /\ forall k', has_device c k' name -> (rank k' <= rank k)%nat.

(** No device that is recorded, no route of one and no SID is null. *)
Definition ns_ok (c : Namespace) : Prop :=
  (forall k name cfg, recordable k -> gm_get (ns_map k c) name = Some cfg ->
     exists d, cfg = Some d /\ None ∉ kind_routes k d) /\
  forall srv6, Namespace_SRv6 c = Some srv6 -> None ∉ SRv6Config_LocalSIDs srv6.

(** *** The loops record it *)

Lemma rank_inj k k' : rank k = rank k' -> k = k'.
Proof. by destruct k, k'. Qed.

Lemma tracked_recordable k : k ∈ tracked.*2 <-> recordable k.
Proof. unfold recordable. split; [by intros Hk ->; apply (bool_decide_unpack _ I) in Hk || (revert Hk; simpl; set_solver)|]. intros Hk. destruct k; simpl; (done || set_solver). Qed.

Lemma tracked_sorted : StronglySorted (fun k k' => (rank k < rank k')%nat) tracked.*2.
Proof. repeat constructor. Qed.

Lemma last_given_in {A B} (f : A -> option B) l b : last_given f l = Some b -> exists a, a ∈ l /\ f a = Some b.
Proof.
  induction l as [|a l IH]; [done|]. rewrite last_given_cons. unfold override.
  destruct (last_given f l); [|by exists a; split; [left|]].
  intros [= ->]. destruct (IH eq_refl) as (a' & Ha & Hf). exists a'. by split; [right|].
Qed.

Lemma last_given_none {A B} (f : A -> option B) l a : last_given f l = None -> a ∈ l -> f a = None.
Proof.
  induction l as [|a' l IH]; [by intros _ ?%elem_of_nil|]. rewrite last_given_cons. unfold override.
  destruct (last_given f l); [done|]. intros Hn [->|Hin]%elem_of_cons; [done|by apply IH].
Qed.

(** The last result in a list that is sorted is the one of the highest rank. *)
Lemma last_given_rank {B} (f : kind -> option B) l b :
  StronglySorted (fun k k' => (rank k < rank k')%nat) l ->
  last_given f l = Some b <->
  exists k, k ∈ l /\ f k = Some b /\ forall k', k' ∈ l -> is_Some (f k') -> (rank k' <= rank k)%nat.
Proof.
  intros Hs. induction Hs as [|k0 l Hs IH Hf]; [split; [done|by intros (k & []%elem_of_nil & _)]|].
  rewrite Forall_forall in Hf. rewrite last_given_cons. unfold override. split.
  - destruct (last_given f l) as [b'|] eqn:E.
    + intros [= ->]. destruct (proj1 IH eq_refl) as (k & Hk & Hb & Hm). exists k.
      split; [by right|]. split; [done|]. intros k' [->|Hk']%elem_of_cons Hsome; [|by apply Hm].
      specialize (Hf k Hk). lia.
    + intros Hb. exists k0. split; [by left|]. split; [done|]. intros k' [->|Hk']%elem_of_cons [b' Hb']; [lia|].
      exfalso. apply (last_given_none f l) with (a := k') in E; [congruence|done].
  - intros (k & [->|Hk]%elem_of_cons & Hb & Hm).
    + destruct (last_given f l) as [b'|] eqn:E; [|done]. exfalso.
      destruct (last_given_in f l b' E) as (k' & Hk' & Hb'). specialize (Hf k' Hk').
      specialize (Hm k' ltac:(by right) ltac:(by eexists)). lia.
    + rewrite (proj2 IH); [done|]. exists k. split; [done|]. split; [done|]. intros k' Hk'. apply Hm. by right.
Qed.

Lemma routesToStrings_spec l :
  match routesToStrings l with
  | None => None ∈ l
  | Some ss => (None ∉ l) /\ Some <$> ss = fmap route_string <$> l
  end.
Proof.
  unfold routesToStrings. induction l as [|[r|] l IH]; simpl; [split; [apply not_elem_of_nil|done]| |by left].
  destruct (mapM _ l) as [ss|]; simpl; [|by right]. destruct IH as [Hno Heq].
  split; [by intros [|]%elem_of_cons|]. simpl. by f_equal.
Qed.

Lemma device_state_spec ty addrs routes nd by_ :
  match device_state ty addrs routes nd by_ with
  | None => None ∈ routes
  | Some d => (None ∉ routes) /\ DeviceState_Type d = ty /\ DeviceState_Addresses d = addrs /\
      Some <$> DeviceState_Routes d = fmap route_string <$> routes /\ DeviceState_Master d = "" /\
      DeviceState_NDProxy d = nd /\ DeviceState_CreatedBy d = by_
  end.
Proof.
  unfold device_state. pose proof (routesToStrings_spec routes) as Hr.
  destruct (routesToStrings routes) as [ss|]; simpl; [|done]. by destruct Hr.
Qed.

(** The literal of each loop is what is to be recorded. *)
Lemma kind_state_recorded k cfg :
  recordable k ->
  match default None (kind_state k cfg) with
  | None => None ∈ kind_routes k cfg
  | Some d => (None ∉ kind_routes k cfg) /\ recorded k cfg d
  end.
Proof.
  intros Hk. destruct k; try done; simpl in cfg |- *;
    match goal with |- match device_state ?a ?b ?c ?d ?e with _ => _ end =>
      pose proof (device_state_spec a b c d e) as Hd; destruct (device_state a b c d e)
    end; try done; unfold recorded; simpl; naive_solver.
Qed.

Lemma entry_state_ok k cfg :
  recordable k ->
  is_Some (entry_state (fun cfg => default None (kind_state k cfg)) cfg) <->
  exists d, cfg = Some d /\ None ∉ kind_routes k d.
Proof.
  intros Hk. destruct cfg as [cfg|]; simpl; [|split; [by intros []|by intros (? & ? & _)]].
  pose proof (kind_state_recorded k cfg Hk) as Hr. destruct (default None _); split.
  - intros _. exists cfg. by split; [|apply Hr].
  - intros _. by eexists.
  - by intros [].
  - by intros (? & [= <-] & Hno).
Qed.

Lemma loops_ok_ns c : loops_ok c <-> ns_ok c.
Proof.
  unfold loops_ok, ns_ok. apply and_iff_compat_r. split; intros Hc k name cfg Hk Hg.
  - apply entry_state_ok, (Hc k name); [done| |done]. by apply tracked_recordable.
  - apply tracked_recordable in Hk. by apply entry_state_ok, (Hc k name).
Qed.

Lemma kind_entry_some c name k :
  ns_ok c -> recordable k -> is_Some (kind_entry c name k) <-> has_device c k name.
Proof.
  intros [Hok _] Hk. unfold kind_entry, has_device. destruct (gm_get (ns_map k c) name) as [cfg|] eqn:E; simpl.
  - rewrite entry_state_ok by done. split; [by split|]. intros _. by apply (Hok k name).
  - split; [by intros []|by intros [_ []]].
Qed.

Lemma recorded_unique k cfg d d' : recorded k cfg d -> recorded k cfg d' -> d = d'.
Proof.
  destruct d, d'. unfold recorded. simpl. intros (-> & -> & Hr & -> & -> & ->) (-> & -> & Hr' & -> & -> & ->).
  rewrite <-Hr' in Hr. apply (inj (fmap Some)) in Hr. by subst.
Qed.

(** The recorded state of a device is the one of its owner. *)
Lemma tracked_state_owner c name d :
  ns_ok c ->
  tracked_state c name = Some d <->
  exists k cfg, owner c name k /\ gm_get (ns_map k c) name = Some (Some cfg) /\ recorded k cfg d.
Proof.
  intros Hok. unfold tracked_state. rewrite last_given_rank by apply tracked_sorted. split.
  - intros (k & Hk%tracked_recordable & He & Hm).
    assert (has_device c k name) as Hd by (apply kind_entry_some; [done|done|by eexists]).
    unfold kind_entry in He. destruct (gm_get (ns_map k c) name) as [[cfg|]|] eqn:E; simpl in He; [|done..].
    exists k, cfg. pose proof (kind_state_recorded k cfg Hk) as Hr. rewrite He in Hr.
    split; [|by split; [|apply Hr]]. split; [done|]. intros k' Hk'. pose proof Hk' as [Hr' _].
    apply Hm; [by apply tracked_recordable|]. by apply kind_entry_some.
  - intros (k & cfg & [Hd Hm] & Hg & Hr). pose proof Hd as [Hk _]. exists k.
    split; [by apply tracked_recordable|]. split.
    + unfold kind_entry. rewrite Hg. simpl. pose proof (kind_state_recorded k cfg Hk) as Hs.
      destruct (Hok) as [Hc _]. destruct (Hc k name _ Hk Hg) as (? & [= <-] & Hno).
      destruct (default None _) as [d'|]; [|done]. destruct Hs as [_ Hs]. f_equal.
      by apply (recorded_unique k cfg).
    + intros k' Hk'%tracked_recordable Hs. apply Hm. by apply kind_entry_some.
Qed.

Lemma tracked_state_none c name :
  ns_ok c -> tracked_state c name = None <-> forall k, ~ has_device c k name.
Proof.
  intros Hok. split.
  - intros Hn k Hk. pose proof Hk as [Hr _]. apply (kind_entry_some c name k Hok Hr) in Hk as [b Hb].
    unfold tracked_state in Hn. apply (last_given_none _ _ k) in Hn; [congruence|]. by apply tracked_recordable.
  - intros Hn. destruct (tracked_state c name) as [d|] eqn:E; [|done].
    apply tracked_state_owner in E as (k & _ & [Hd _] & _); [|done]. by destruct (Hn k).
Qed.

Section build_spec.
Context `{RangeOrder}.

Lemma buildNsState_spec c :
  match buildNsState (Some c) with
  | None => ~ ns_ok c
  | Some st =>
      ns_ok c /\ is_Some (NsState_Devices st) /\ NsState_SRv6SIDs st = sid_list c /\
      forall name, gm_get (NsState_Devices st) name = Some <$> tracked_state c name
  end.
Proof.
  pose proof (buildNsState_loops c) as Hb. destruct (buildNsState _); by rewrite <-loops_ok_ns.
Qed.
End build_spec.

(** ** The state of a configuration *)

(** The namespaces that a configuration describes: [""] is the default one. *)
Definition config_ns (cfg : Config) (ns : string) : option (ptr Namespace) :=
  match gm_get (Network_Netns (Config_Network cfg)) ns with
  | Some n => Some n
  | None => if Str.is_empty ns && HasDefaultNamespaceConfig cfg
            then Some (Some (ToNamespace (Config_Network cfg))) else None
  end.

(** No entry that netcfg records is null. *)
Definition config_ok (cfg : Config) : Prop :=
  (HasDefaultNamespaceConfig cfg = true -> ns_ok (ToNamespace (Config_Network cfg))) /\
  forall name n, gm_get (Network_Netns (Config_Network cfg)) name = Some n ->
    exists n', n = Some n' /\ ns_ok n'.

Lemma config_ns_ok cfg ns n :
  config_ok cfg -> config_ns cfg ns = Some n -> exists c, n = Some c /\ ns_ok c.
Proof.
  intros [Hdef Hnetns] Hc. unfold config_ns in Hc. destruct (gm_get _ ns) as [n'|] eqn:E.
  - injection Hc as <-. by apply (Hnetns ns).
  - destruct (Str.is_empty ns); [|done]. destruct (HasDefaultNamespaceConfig cfg); [|done].
    injection Hc as <-. eauto.
Qed.

Section build_config.
Context `{RangeOrder}.

Lemma build_list (l : list (string * ptr Namespace)) s :
  NoDup l.*1 -> is_Some (State_Namespaces s) ->
  (forall name n, (name, n) ∈ l -> exists n', n = Some n' /\ ns_ok n') ->
  exists s', fold_pan l s (fun s '(nsName, nsCfg) =>
    n ← buildNsState nsCfg; SetNamespace s nsName (Some n)) = Some s' /\
  forall name, gm_get (State_Namespaces s') name =
    match (list_to_map l : gmap string (ptr Namespace)) !! name with
    | Some n => Some (buildNsState n)
    | None => gm_get (State_Namespaces s) name
    end.
Proof.
  revert s. induction l as [|[name n] l IH]; intros s Hn [m Hm] Hl.
  { exists s. split; [done|]. intros name. simpl. by rewrite lookup_empty. }
  rewrite fmap_cons in Hn. apply NoDup_cons in Hn as [Hname Hn].
  destruct (Hl name n ltac:(by left)) as (n' & -> & Hok).
  pose proof (buildNsState_spec n') as Hb. cbn [fold_pan].
  destruct (buildNsState (Some n')) as [st|] eqn:Hst; [|done]. cbn [mbind option_bind].
  destruct s as [v a h m0]; simpl in Hm; subst m0. unfold SetNamespace at 1. simpl.
  destruct (IH (MkState v a h (Some (<[name:=Some st]> m))) Hn ltac:(by eexists)) as (s' & Hs' & Hg).
  { intros name' n1 Hin. apply (Hl name'). by right. }
  exists s'. split; [done|]. intros name'. rewrite Hg. cbn [list_to_map foldr uncurry].
  unfold gm_get. simpl. rewrite !lookup_insert. case_decide; [subst name'|done].
  rewrite not_elem_of_list_to_map_1 by done. by rewrite Hst.
Qed.

(** The state that netcfg records for a configuration. *)
Lemma buildStateFromConfig_spec cfg :
  config_ok cfg ->
  exists s, buildStateFromConfig cfg = Some s /\ 
    (forall ns, gm_get (State_Namespaces s) ns = buildNsState <$> config_ns cfg ns) /\
    forall ns n, gm_get (State_Namespaces s) ns = Some n -> exists st c,
      n = Some st /\ config_ns cfg ns = Some (Some c) /\ ns_ok c /\ buildNsState (Some c) = Some st.
Proof.
  intros [Hdef Hnetns]. unfold buildStateFromConfig.
  set (net := Network_Netns (Config_Network cfg)) in *.
  assert (exists s0, (if HasDefaultNamespaceConfig cfg then
      n ← buildNsState (Some (ToNamespace (Config_Network cfg))); SetNamespace NewState "" (Some n)
    else Some NewState) = Some s0 /\ is_Some (State_Namespaces s0) /\
    forall ns, gm_get (State_Namespaces s0) ns =
      if Str.is_empty ns && HasDefaultNamespaceConfig cfg
      then Some (buildNsState (Some (ToNamespace (Config_Network cfg)))) else None) as (s0 & -> & Hs0 & Hg0).
  { destruct (HasDefaultNamespaceConfig cfg).
    - specialize (Hdef eq_refl). pose proof (buildNsState_spec (ToNamespace (Config_Network cfg))) as Hb.
      destruct (buildNsState _) as [st|]; [|done]. eexists. split_and!; [done|by eexists|].
      intros ns. unfold gm_get; simpl. rewrite lookup_insert, lookup_empty.
      by destruct ns.
    - eexists. split_and!; [done|by eexists|]. intros ns. rewrite andb_false_r.
      unfold gm_get; simpl. by rewrite lookup_empty. }
  cbn [mbind option_bind].
  destruct (build_list (gm_range 227 net) s0 (NoDup_fst_range 227 _) Hs0) as (s & Hs & Hg).
  { intros name n Hin%elem_of_range. by apply (Hnetns name). }
  exists s. split; [done|].
  assert (forall ns, gm_get (State_Namespaces s) ns = buildNsState <$> config_ns cfg ns) as Hall.
  { intros ns. rewrite Hg, Hg0. unfold config_ns, gm_range. rewrite list_to_map_range.
    unfold gm_get. fold net. destruct (gm_map net !! ns); [done|]. by destruct (_ && _). }
  split; [done|]. intros ns n Hn. rewrite Hall in Hn. apply fmap_Some in Hn as (c & Hc & ->).
  destruct (config_ns_ok cfg ns c (conj Hdef Hnetns) Hc) as (c' & -> & Hok).
  pose proof (buildNsState_spec c') as Hb. destruct (buildNsState (Some c')) as [st|] eqn:E; [|done].
  by exists st, c'.
Qed.
End build_config.

(** ** The text of a route *)

(** A word that parseRouteString does not take for one of its own. *)
Definition plain_word (s : string) : bool :=
  is_word s && negb (Str.eqb s "via") && negb (Str.eqb s "table").

Lemma plain_word_inv s : plain_word s = true -> is_word s = true /\ Str.eqb s "via" = false /\ Str.eqb s "table" = false.
Proof. unfold plain_word. rewrite !andb_true_iff, !negb_true_iff. tauto. Qed.

(** The part of the loop of parseRouteString on the fields of a table. *)
Lemma parse_parts_last p acc : parse_parts [p] acc = acc.
Proof. done. Qed.

Lemma parse_parts_cons p q rest acc : parse_parts (p :: q :: rest) acc = parse_parts (q :: rest) (parse_part acc p q).
Proof. done. Qed.

Lemma parse_table gw p z :
  plain_word p = true -> 0 < z < 2^63 ->
  parse_parts (p :: Str.fields ("table " +:+ Str.itoa z)) (gw, 0) = (gw, z).
Proof.
  intros (Hw & Hv & Ht)%plain_word_inv Hz.
  change ("table " +:+ Str.itoa z) with ("table" +:+ String " " (Str.itoa z)).
  rewrite fields_cons by done. rewrite fields_word by (apply is_word_itoa; lia).
  rewrite !parse_parts_cons, parse_parts_last.
  unfold parse_part. rewrite Hv, Ht. simpl. by rewrite Str_sscanf_itoa by lia.
Qed.

(** What follows the gateway in the text of a route. *)
Definition table_text (z : Z) : string := if 0 <? z then " table " +:+ Str.itoa z else "".

Lemma parse_tail gw p z :
  plain_word p = true -> z < 2^63 ->
  exists ps, Str.fields (p +:+ table_text z) = p :: ps /\ parse_parts (p :: ps) (gw, 0) = (gw, Z.max 0 z).
Proof.
  intros Hp Hz. destruct (plain_word_inv _ Hp) as (Hpw & Hv & Ht). unfold table_text.
  destruct (Z.ltb_spec 0 z).
  - exists (Str.fields ("table " +:+ Str.itoa z)).
    change (" table " +:+ Str.itoa z) with (String " " ("table " +:+ Str.itoa z)).
    rewrite fields_cons by done. split; [done|]. rewrite parse_table by (done || lia). f_equal. lia.
  - exists []. rewrite str_app_nil_r, fields_word by done. split; [done|]. simpl. f_equal. lia.
Qed.

Lemma route_string_eq r :
  route_string r = (if Str.is_empty (Route_Via r) then Route_To r
                    else Route_To r +:+ String " " ("via" +:+ String " " (Route_Via r))) +:+ table_text (Route_Table r).
Proof.
  unfold route_string, table_text. destruct (Str.is_empty _), (0 <? _); simpl; rewrite ?str_app_nil_r; done.
Qed.

(** parseRouteString gives back the destination, the gateway and the table. *)
Lemma parseRouteString_route r :
  plain_word (Route_To r) = true ->
  Route_Via r = "" \/ plain_word (Route_Via r) = true ->
  Route_Table r < 2^63 ->
  parseRouteString (route_string r) = (Route_To r, Route_Via r, Z.max 0 (Route_Table r)).
Proof.
  intros Hto Hvia Htab. pose proof (plain_word_inv _ Hto) as (Hw & Hv & Ht).
  rewrite route_string_eq. unfold parseRouteString. destruct Hvia as [Hvia|Hvia].
  - rewrite Hvia. simpl. destruct (parse_tail "" (Route_To r) (Route_Table r)) as (ps & -> & Hps); [done..|].
    by rewrite Hps.
  - destruct (plain_word_inv _ Hvia) as (Hvw & _ & _).
    assert (Str.is_empty (Route_Via r) = false) as -> by by destruct (Route_Via r).
    rewrite str_app_assoc.
    change (String " " ("via" +:+ String " " (Route_Via r)) +:+ table_text (Route_Table r))
      with (String " " ("via" +:+ String " " (Route_Via r +:+ table_text (Route_Table r)))).
    rewrite !fields_cons by done.
    destruct (parse_tail (Route_Via r) (Route_Via r) (Route_Table r)) as (ps & -> & Hps); [done..|].
    rewrite !parse_parts_cons.
    assert (parse_part (parse_part ("", 0) (Route_To r) "via") "via" (Route_Via r) = (Route_Via r, 0)) as ->.
    { unfold parse_part. by rewrite Hv, Ht. }
    by rewrite Hps.
Qed.

(** ** Which devices are removed *)

Section removed.
Context `{RangeOrder}.

Lemma dev_at_built cfg s ns dev :
  config_ok cfg -> buildStateFromConfig cfg = Some s ->
  dev_at s ns dev = match config_ns cfg ns with
                    | Some (Some c) => Some <$> tracked_state c dev
                    | _ => None
                    end.
Proof.
  intros Hok Hs. destruct (buildStateFromConfig_spec cfg Hok) as (s' & Hs' & Hg & Hn).
  rewrite Hs in Hs'. injection Hs' as <-. unfold dev_at. destruct (gm_get (State_Namespaces s) ns) as [n|] eqn:E.
  - destruct (Hn _ _ E) as (st & c & -> & Hc & _ & Hb). rewrite Hc.
    pose proof (buildNsState_spec c) as Hspec. rewrite Hb in Hspec. apply Hspec.
  - rewrite Hg in E. by destruct (config_ns cfg ns).
Qed.

Lemma state_ok_built cfg s : config_ok cfg -> buildStateFromConfig cfg = Some s -> state_ok s.
Proof.
  intros Hok Hs. split.
  - intros ns Hn. destruct (buildStateFromConfig_spec cfg Hok) as (s' & Hs' & _ & Hg).
    rewrite Hs in Hs'. injection Hs' as <-.
    by destruct (Hg _ _ Hn) as (? & ? & ? & _).
  - intros ns dev. rewrite (dev_at_built cfg) by done. destruct (config_ns cfg ns) as [[c|]|]; [|done..].
    by destruct (tracked_state c dev).
Qed.
End removed.

(** C32: buildNsState panics exactly when a device that is recorded, one of its
    routes or a SID is null.  Otherwise it records exactly the devices of the
    namespace of every kind but macvtap, each with the type, the addresses, the
    texts of the routes, the proxied neighbours and the creator that its kind calls
    for, whatever the order in which the maps are visited; when several kinds have
    a device of one name, the one of the highest [rank] is recorded.  The SIDs are
    those of the configuration. *)
Theorem buildNsState_correct `{RangeOrder} (ns : Namespace) :
  match buildNsState (Some ns) with
  | None => ~ ns_ok ns
  | Some st =>
      ns_ok ns /\
      (forall name d, gm_get (NsState_Devices st) name = Some d <->
         exists k cfg ds, owner ns name k /\ gm_get (ns_map k ns) name = Some (Some cfg) /\
           d = Some ds /\ recorded k cfg ds) /\
      Some <$> NsState_SRv6SIDs st =
        match Namespace_SRv6 ns with
        | Some srv6 => fmap SRv6LocalSID_SID <$> SRv6Config_LocalSIDs srv6
        | None => []
        end
  end.
Proof.
  pose proof (buildNsState_spec ns) as Hb. destruct (buildNsState (Some ns)) as [st|]; [|done].
  destruct Hb as (Hok & _ & Hs & Hd). split; [done|]. split.
  - intros name d. rewrite Hd, fmap_Some. setoid_rewrite (tracked_state_owner ns name _ Hok). naive_solver.
  - rewrite Hs. destruct Hok as [_ Hno]. unfold sid_list. destruct (Namespace_SRv6 ns) as [srv6|]; [|done].
    specialize (Hno srv6 eq_refl). induction (SRv6Config_LocalSIDs srv6) as [|[x|] l IH]; [done| |].
    + simpl. f_equal. apply IH. intros Hin. apply Hno. by right.
    + destruct Hno. by left.
Qed.

(** C33: the text that routesToStrings writes for a route is parsed back by
    parseRouteString to the destination, the gateway and the table, a table
    that is not positive being 0, when the destination and the gateway are words
    other than "via" and "table". *)
Theorem parseRouteString_roundtrip (r : Route) :
  plain_word (Route_To r) = true ->
  Route_Via r = "" \/ plain_word (Route_Via r) = true ->
  Route_Table r < 2^63 ->
  parseRouteString (route_string r) = (Route_To r, Route_Via r, Z.max 0 (Route_Table r)).
Proof. apply parseRouteString_route. Qed.

Lemma parseRouteString_roundtrip_witness :
  parseRouteString (route_string (Route_zero <| Route_To := "10.0.0.0/8" |> <| Route_Via := "192.168.1.1" |>
    <| Route_Table := 254 |>)) = ("10.0.0.0/8", "192.168.1.1", 254).
Proof. apply parseRouteString_roundtrip; [reflexivity|right; reflexivity|reflexivity]. Defined.

(** C5: between two configurations without null entries, the devices to remove in a
    namespace are exactly the names that the old configuration has there, of any
    kind but macvtap, and the new one has not, and that either are of a kind which
    netcfg creates, or whose namespace is gone: an Ethernet or a Wi-Fi interface
    that leaves the configuration is not listed while its namespace stays.  A
    macvtap that leaves the configuration is never listed. *)
Theorem removed_devices_correct `{RangeOrder} (oldCfg newCfg : Config) :
  config_ok oldCfg -> config_ok newCfg ->
  exists oldState newState d, buildStateFromConfig oldCfg = Some oldState /\
    buildStateFromConfig newCfg = Some newState /\ ComputeDiff oldState newState = Some d /\
    forall ns name, name ∈ listed (Diff_DevicesToRemove d) ns <->
      exists c k, config_ns oldCfg ns = Some (Some c) /\ owner c name k /\
        (forall c' k', config_ns newCfg ns = Some (Some c') -> ~ has_device c' k' name) /\
        (config_ns newCfg ns = None \/ physical k = false).
Proof.
  intros Hold Hnew.
  destruct (buildStateFromConfig_spec oldCfg Hold) as (so & Hso & _ & Hgo).
  destruct (buildStateFromConfig_spec newCfg Hnew) as (sn & Hsn & Hnn & Hgn).
  destruct (ComputeDiff_spec so sn) as (d & Hd & _ & _ & Hr & _); [by apply (state_ok_built oldCfg)|by apply (state_ok_built newCfg)|].
  exists so, sn, d. split_and!; [done..|]. intros ns name. rewrite Hr.
  rewrite (dev_at_built oldCfg so), (dev_at_built newCfg sn), Hnn by done. setoid_rewrite fmap_None.
  assert (match config_ns newCfg ns with Some (Some c) => Some <$> tracked_state c name | _ => None end = None <->
    forall c' k', config_ns newCfg ns = Some (Some c') -> ~ has_device c' k' name) as Hnone.
  { destruct (config_ns newCfg ns) as [n|] eqn:Ec; [|naive_solver].
    destruct (config_ns_ok newCfg ns _ Hnew Ec) as (c' & -> & Hok). rewrite fmap_None, tracked_state_none by done.
    naive_solver. }
  split.
  - intros (o & Eo & En & Hc). destruct (config_ns oldCfg ns) as [[c|]|] eqn:Ec; [|done..].
    destruct (config_ns_ok oldCfg ns _ Hold Ec) as (? & [= <-] & Hok).
    destruct (tracked_state c name) as [o'|] eqn:Et; [|done]. injection Eo as ->.
    apply tracked_state_owner in Et as (k & cfg & Hk & _ & Hrec); [|done]. exists c, k.
    split_and!; [done|done|by apply Hnone|].
    destruct Hc as [Hc|Hc]; [by left|right]. destruct Hrec as (_ & _ & _ & _ & _ & Hby).
    rewrite Hby in Hc. by destruct (physical k).
  - intros (c & k & Ec & Ek & Hno & Hc). rewrite Ec.
    destruct (config_ns_ok oldCfg ns _ Hold Ec) as (? & [= <-] & Hok).
    destruct (tracked_state c name) as [o|] eqn:Et.
    2: { rewrite (tracked_state_none c name Hok) in Et. destruct (Et k). apply Ek. }
    exists o. split_and!; [done|by apply Hnone|]. destruct Hc as [Hc|Hc]; [by left|right].
    apply tracked_state_owner in Et as (k' & cfg & Hk' & _ & Hrec); [|done].
    assert (k = k') as <-. { apply rank_inj, Nat.le_antisymm; [apply Hk', Ek|apply Ek, Hk']. }
    destruct Hrec as (_ & _ & _ & _ & _ & ->). by rewrite Hc.
Qed.

(** An example: a bridge and an Ethernet interface that leave the configuration. *)
Module Example4.
Definition before : Config := Config_zero <| Config_Network := Network_zero
  <| Network_Ethernets := Some {["eth0" := Some Ethernet_zero]} |>
  <| Network_Bridges := Some {["br0" := Some Bridge_zero]} |> |>.
Definition after : Config := Config_zero <| Config_Network := Network_zero
  <| Network_Ethernets := Some {["eth1" := Some Ethernet_zero]} |> |>.

Lemma get_none {A} (P : Prop) name (v : A) : gm_get None name = Some v -> P.
Proof. unfold gm_get. simpl. by rewrite lookup_empty. Qed.

Lemma get_one {A} n name (v w : A) : gm_get (Some {[n := w]}) name = Some v -> v = w.
Proof. rewrite gm_get_singleton. by case_decide; intros [= <-]. Qed.

Lemma before_ok : config_ok before.
Proof.
  split; [intros _; split; [|done]|intros ? ? Hg; by apply (get_none _ _ _ Hg)].
  intros k name cfg Hk Hg. destruct k; simpl in Hg;
    (by apply (get_none _ _ _ Hg)) || (apply get_one in Hg as ->; eexists; split; [done|by apply not_elem_of_nil]).
Qed.

Lemma after_ok : config_ok after.
Proof.
  split; [intros _; split; [|done]|intros ? ? Hg; by apply (get_none _ _ _ Hg)].
  intros k name cfg Hk Hg. destruct k; simpl in Hg;
    (by apply (get_none _ _ _ Hg)) || (apply get_one in Hg as ->; eexists; split; [done|by apply not_elem_of_nil]).
Qed.

Lemma before_ns : config_ns before "" = Some (Some (ToNamespace (Config_Network before))).
Proof. reflexivity. Qed.
Lemma after_ns : config_ns after "" = Some (Some (ToNamespace (Config_Network after))).
Proof. reflexivity. Qed.
Lemma before_eth0 k : owner (ToNamespace (Config_Network before)) "eth0" k -> k = KEthernets.
Proof.
  intros [[_ [cfg Hk]] _]. destruct k; simpl in Hk; try done; exfalso; revert Hk;
    try apply get_none; rewrite gm_get_singleton; by case_decide.
Qed.
Lemma before_br0 : owner (ToNamespace (Config_Network before)) "br0" KBridges.
Proof.
  split; [split; [done|by eexists]|]. intros k' [_ [cfg Hk]]. destruct k'; simpl in Hk |- *; try lia; exfalso; revert Hk;
    try apply get_none; rewrite gm_get_singleton; by case_decide.
Qed.
Lemma after_br0 k : ~ has_device (ToNamespace (Config_Network after)) k "br0".
Proof.
  intros [_ [cfg Hk]]. destruct k; simpl in Hk; revert Hk;
    try apply get_none; rewrite gm_get_singleton; by case_decide.
Qed.
End Example4.

Lemma removed_devices_correct_witness :
  exists oldState newState d, buildStateFromConfig Example4.before = Some oldState /\
    buildStateFromConfig Example4.after = Some newState /\ ComputeDiff oldState newState = Some d /\
    "br0" ∈ listed (Diff_DevicesToRemove d) "" /\ "eth0" ∉ listed (Diff_DevicesToRemove d) "".
Proof.
  destruct (removed_devices_correct Example4.before Example4.after Example4.before_ok Example4.after_ok)
    as (so & sn & d & Hso & Hsn & Hd & Hr).
  exists so, sn, d. split; [exact Hso|]. split; [exact Hsn|]. split; [exact Hd|]. split.
  - apply Hr. exists (ToNamespace (Config_Network Example4.before)), KBridges.
    split; [reflexivity|]. split; [apply Example4.before_br0|]. split; [|right; reflexivity].
    intros c' k' Hc'. rewrite Example4.after_ns in Hc'. injection Hc' as <-. apply Example4.after_br0.
  - intros Hin. apply Hr in Hin as (c & k & Hc & Hk & _ & [Hn|Hp]).
    + rewrite Example4.after_ns in Hn. discriminate Hn.
    + rewrite Example4.before_ns in Hc. do 2 apply (inj Some) in Hc. subst c. apply Example4.before_eth0 in Hk.
      subst k. discriminate Hp.
Defined.
