(* ===== verification/StateOps.v ===== *)
(** * The operations of the state, together

    A state that the package makes is typed, whatever the operations that led to
    it, and no operation panics on a typed state. *)

From S2P Require Import Prelude GoStd Effect Config Load State BuildState.

(** A namespace that has a map of devices, none of which is null; and a state
    that has a map of such namespaces. *)
Definition ns_typed (n : NsState) : Prop :=
  NsState_Devices n <> None /\ forall name, gm_get (NsState_Devices n) name <> Some None.

Definition typed (s : State) : Prop :=
  State_Namespaces s <> None /\
  forall ns n, gm_get (State_Namespaces s) ns = Some n -> exists n', n = Some n' /\ ns_typed n'.

Lemma typed_writable s ns : typed s -> writable s ns.
Proof.
  intros [Hm Hn]. split; [done|]. destruct (gm_get _ ns) as [n|] eqn:E; [|done].
  by destruct (Hn ns n E) as (n' & -> & Hd & _).
Qed.

Lemma typed_ok s : typed s -> state_ok s.
Proof.
  intros [_ Hn]. split.
  - intros ns E. by destruct (Hn ns None E) as (? & ? & _).
  - intros ns dev E. unfold dev_at in E. destruct (gm_get _ ns) as [n|] eqn:En; [|done].
    destruct (Hn ns n En) as (n' & -> & _ & Hd). by apply (Hd dev).
Qed.

Lemma typed_with_ns s ns n : typed s -> ns_typed n -> typed (with_ns s ns n).
Proof.
  intros [Hm Hs] Hn. split; [by destruct s|]. intros ns' n'. rewrite gm_get_with_ns.
  case_decide; [intros [= <-]; by exists n|apply Hs].
Qed.

Lemma ns_or_new_typed s ns : typed s -> ns_typed (ns_or_new s ns).
Proof.
  intros [_ Hs]. unfold ns_or_new. destruct (gm_get _ ns) as [[n|]|] eqn:E.
  - by destruct (Hs ns _ E) as (n' & [= <-] & Hn).
  - by destruct (Hs ns _ E) as (n' & ? & _).
  - split; [done|]. intros name. unfold gm_get. simpl. by rewrite lookup_empty.
Qed.

Lemma ns_typed_put n name d :
  ns_typed n -> ns_typed (n <| NsState_Devices := put_make (NsState_Devices n) name (Some d) |>).
Proof.
  intros [_ Hn]. destruct n as [devs sids]. split; [done|]. intros name'. simpl in *.
  rewrite gm_get_put_make. by case_decide.
Qed.

Lemma ns_typed_del n name : ns_typed n -> ns_typed (n <| NsState_Devices := gm_del (NsState_Devices n) name |>).
Proof.
  intros [Hm Hn]. destruct n as [devs sids]. simpl in *. split; [by destruct devs|]. intros name'. simpl.
  rewrite gm_get_del. by case_decide.
Qed.

(** *** What the operations return *)

Lemma SetNamespace_typed s ns n : typed s -> SetNamespace s ns (Some n) = Some (with_ns s ns n).
Proof. intros [Hm _]. unfold SetNamespace, with_ns. destruct s as [v t h [m|]]; [done|]. by destruct Hm. Qed.

Lemma RemoveDevice_typed s ns name :
  typed s -> RemoveDevice s ns name =
    Some (match gm_get (State_Namespaces s) ns with
          | Some (Some n) => with_ns s ns (n <| NsState_Devices := gm_del (NsState_Devices n) name |>)
          | _ => s
          end).
Proof.
  intros [Hm Hs]. unfold RemoveDevice. destruct (gm_get _ ns) as [n|] eqn:E; [|done].
  destruct (Hs ns n E) as (n' & -> & _). simpl. unfold with_ns. destruct s as [v t h [m|]]; [done|]. by destruct Hm.
Qed.

Lemma built_typed `{RangeOrder} cfg s : config_ok cfg -> buildStateFromConfig cfg = Some s -> typed s.
Proof.
  intros Hok Hs. split.
  - revert Hs. unfold buildStateFromConfig. rewrite bind_Some. intros (s0 & Hs0 & Hs).
    apply (fold_pan_inv (fun s => State_Namespaces s <> None) _ _ _ _ Hs).
    + destruct (HasDefaultNamespaceConfig cfg); [|by injection Hs0 as <-].
      rewrite bind_Some in Hs0. destruct Hs0 as (n & _ & Hn). unfold SetNamespace in Hn. simpl in Hn. by injection Hn as <-.
    + intros [ns c] s1 s2 _. rewrite bind_Some. intros (n & _ & Hn) Hs1. unfold SetNamespace in Hn.
      rewrite bind_Some in Hn. destruct Hn as (m & Hm & [= <-]). destruct s1 as [v t h [m1|]]; [|done].
      by injection Hm as <-.
  - intros ns n Hn. destruct (buildStateFromConfig_spec cfg Hok) as (s' & Hs' & _ & Hg).
    rewrite Hs in Hs'. injection Hs' as <-. destruct (Hg ns n Hn) as (st & c & -> & _ & _ & Hb).
    exists st. split; [done|]. pose proof (buildNsState_spec c) as Hspec. rewrite Hb in Hspec.
    destruct Hspec as (_ & [m Hm] & _ & Hd). split; [by rewrite Hm|]. intros name. rewrite Hd. by destruct (tracked_state c name).
Qed.

(** *** The states that the package makes *)

Inductive made `{RangeOrder} : State -> Prop :=
| made_NewState : made NewState
| made_build cfg s : config_ok cfg -> buildStateFromConfig cfg = Some s -> made s
| made_SetNamespace s ns n s' : made s -> ns_typed n -> SetNamespace s ns (Some n) = Some s' -> made s'
| made_SetDevice s ns name d s' : made s -> SetDevice s ns name (Some d) = Some s' -> made s'
| made_RemoveDevice s ns name s' : made s -> RemoveDevice s ns name = Some s' -> made s'
| made_Save s now : made s -> made (s <| State_AppliedAt := now |>).

Lemma made_is_typed `{RangeOrder} s : made s -> typed s.
Proof.
  induction 1 as [|cfg s Hc Hs|s ns n s' _ IH Hn Hs|s ns name d s' _ IH Hs|s ns name s' _ IH Hs|s now _ IH].
  - split; [done|]. intros ns n. unfold gm_get. simpl. by rewrite lookup_empty.
  - by eapply built_typed.
  - rewrite SetNamespace_typed in Hs by done. injection Hs as <-. by apply typed_with_ns.
  - rewrite SetDevice_eq in Hs by by apply typed_writable. injection Hs as <-.
    apply typed_with_ns; [done|]. by apply ns_typed_put, ns_or_new_typed.
  - rewrite RemoveDevice_typed in Hs by done. injection Hs as <-.
    destruct (gm_get _ ns) as [[n|]|] eqn:E; [|done..]. apply typed_with_ns; [done|]. apply ns_typed_del.
    by destruct (proj2 IH ns _ E) as (n' & [= <-] & Hn).
  - by destruct s.
Qed.

(** C40: the operations of the state are typed.  In every state that NewState,
    the building from a configuration, SetNamespace, SetDevice, RemoveDevice and
    the time of a Save lead to, in whatever order, every namespace has a map of
    devices and none of its entries is null; on such a state no operation panics,
    what is set is read back, what is removed is gone, ListDevices and
    ListNamespaces list each name once, and the difference of two such states
    exists. *)
Theorem state_operations_typed `{RangeOrder} (s : State) :
  made s ->
  typed s /\
  (forall ns n, ns_typed n -> exists s', SetNamespace s ns (Some n) = Some s' /\ made s' /\ GetNamespace s' ns = Some n) /\
  (forall ns name d, exists s', SetDevice s ns name (Some d) = Some s' /\ made s' /\ GetDevice s' ns name = Some (Some d)) /\
  (forall ns name, exists s', RemoveDevice s ns name = Some s' /\ made s' /\ GetDevice s' ns name = Some None) /\
  (forall ns, exists l, ListDevices s ns = Some l /\ NoDup l /\ forall name, name ∈ l <-> is_Some (dev_at s ns name)) /\
  (NoDup (ListNamespaces s) /\ forall ns, ns ∈ ListNamespaces s <-> is_Some (gm_get (State_Namespaces s) ns)) /\
  (forall s', made s' -> ComputeDiff s s' <> None).
Proof.
  intros Hs. pose proof (made_is_typed s Hs) as Ht. split_and!.
  - done.
  - intros ns n Hn. pose proof (SetNamespace_typed s ns n Ht) as He. exists (with_ns s ns n).
    split; [done|]. split; [by eapply made_SetNamespace|]. unfold GetNamespace. by rewrite gm_get_with_ns, decide_True.
  - intros ns name d. pose proof (SetDevice_eq s ns name (Some d) (typed_writable s ns Ht)) as He. eexists.
    split; [done|]. split; [by eapply made_SetDevice|]. rewrite GetDevice_with_ns.
    destruct (ns_or_new s ns) as [devs sids]. simpl. by rewrite gm_get_put_make, decide_True.
  - intros ns name. pose proof (RemoveDevice_typed s ns name Ht) as He. eexists.
    split; [done|]. split; [by eapply made_RemoveDevice|]. destruct (gm_get _ ns) as [[n|]|] eqn:E.
    + rewrite GetDevice_with_ns. destruct n as [devs sids]. simpl. by rewrite gm_get_del, decide_True.
    + by destruct (proj2 Ht ns _ E) as (? & ? & _).
    + unfold GetDevice. by rewrite E.
  - intros ns. unfold ListDevices, dev_at. destruct (gm_get _ ns) as [n|] eqn:E.
    + destruct (proj2 Ht ns _ E) as (n' & -> & _). eexists. split; [done|]. split; [apply NoDup_fst_range|].
      intros name. rewrite elem_of_fst_map. setoid_rewrite elem_of_range. done.
    + exists []. split; [done|]. split; [constructor|]. intros name. split; [by intros ?%not_elem_of_nil|by intros []].
  - apply NoDup_fst_range.
  - intros ns. unfold ListNamespaces. rewrite elem_of_fst_map. setoid_rewrite elem_of_range. done.
  - intros s' Hs'%made_is_typed.
    destruct (ComputeDiff_spec s s' (typed_ok s Ht) (typed_ok s' Hs')) as (d & -> & _). done.
Qed.

#[local] Existing Instance range_map_to_list.

Lemma state_operations_typed_witness :
  exists s', SetDevice NewState "blue" "eth0" (Example2.dev [] [] "netcfg") = Some s' /\ typed NewState /\
    GetDevice s' "blue" "eth0" = Some (Example2.dev [] [] "netcfg").
Proof.
  destruct (state_operations_typed NewState made_NewState) as (Ht & _ & Hd & _).
  destruct (Hd "blue" "eth0" (MkDeviceState "ethernet" [] [] "" [] "netcfg")) as (s' & Hs & _ & Hg).
  exists s'. split; [exact Hs|]. split; [exact Ht|exact Hg].
Defined.
