(* ===== verification/VppApi.v ===== *)
(** * The binary API of VPP

    The messages of the GoVPP bindings that netcfg sends, with the types of their
    answers.  What VPP does with a message is not said here. *)

From S2P Require Import Prelude GoStd.

(** ** The bindings' data *)

(** A connection, a channel of it, and interface_types.InterfaceIndex. *)
Abbreviation vconn := Z.
Abbreviation vchan := Z.
Abbreviation ifindex := Z.

(** The zero value of an unsigned integer of 32 bits, complemented. *)
Definition all_ones32 : Z := 2^32 - 1.

(** Go's conversions of an int to uint32 and to uint16. *)
Definition uint32 (z : Z) : Z := z mod 2^32.
Definition uint16 (z : Z) : Z := z mod 2^16.

(** ip_types.Address: its family and its bytes. *)
Record VAddress := MkVAddress { VAddress_IP6 : bool; VAddress_Un : list Z }.

(** ip_types.Prefix and ip_types.AddressWithPrefix. *)
Record VPrefix := MkVPrefix { VPrefix_Address : VAddress; VPrefix_Len : Z }.

Inductive VBondMode :=
| BOND_API_MODE_ROUND_ROBIN | BOND_API_MODE_ACTIVE_BACKUP | BOND_API_MODE_XOR
| BOND_API_MODE_BROADCAST | BOND_API_MODE_LACP.
Inductive L2PortType := L2_API_PORT_TYPE_NORMAL | L2_API_PORT_TYPE_BVI.
Inductive PathProto := FIB_API_PATH_NH_PROTO_IP4 | FIB_API_PATH_NH_PROTO_IP6.

(** A flag of nat_types.NatConfigFlags; a value of that type is a list of them. *)
Inductive NatFlag := NAT_IS_TWICE_NAT | NAT_IS_ADDR_ONLY | NAT_IS_OUTSIDE | NAT_IS_INSIDE.

(** What is read of an entry of the interface dump. *)
Record IfDetails := MkIfDetails {
  IfDetails_SwIfIndex : ifindex;
  IfDetails_InterfaceName : string;
  IfDetails_Tag : string
}.

(** The replies of dev_attach and dev_create_port_if. *)
Record DevReply := MkDevReply {
  DevReply_Index : Z;
  DevReply_Retval : Z;
  DevReply_ErrorString : string
}.

Record StaticMapping := MkStaticMapping {
  StaticMapping_IsAdd : bool;
  StaticMapping_Flags : list NatFlag;
  StaticMapping_LocalIPAddress : list Z;
  StaticMapping_ExternalIPAddress : list Z;
  StaticMapping_Protocol : Z;
  StaticMapping_LocalPort : Z;
  StaticMapping_ExternalPort : Z;
  StaticMapping_ExternalSwIfIndex : ifindex;
  StaticMapping_VrfID : Z
}.

(** ** Messages

    A dump is the list of the entries that its stream delivers, and the error
    that ends it, nil for io.EOF. *)
Inductive vpp : Type -> Type :=
| SwInterfaceDump : vpp (res (list IfDetails * err))
| SwInterfaceTagAddDel (isAdd : bool) (i : ifindex) (tag : string) : vpp err
| SwInterfaceSetFlags (i : ifindex) (up : bool) : vpp err
| SwInterfaceSetMtu (i : ifindex) (mtu : list Z) : vpp err
| SwInterfaceSetMacAddress (i : ifindex) (mac : list Z) : vpp err
| SwInterfaceAddDelAddress (i : ifindex) (isAdd : bool) (p : VPrefix) : vpp err
| CreateLoopback : vpp (res ifindex)
| DeleteLoopback (i : ifindex) : vpp err
| CreateVlanSubif (i : ifindex) (vlan : Z) : vpp (res ifindex)
| DeleteSubif (i : ifindex) : vpp err
| AfPacketCreateV3 (hostIf : string) : vpp (res ifindex)
| AfPacketDelete (hostIf : string) : vpp err
| DevAttach (deviceID driver : string) : vpp (res DevReply)
| DevCreatePortIf (devIndex : Z) (name : string) : vpp (res DevReply)
| IPRouteAddDel (isAdd : bool) (table : Z) (dst : VPrefix) (i : ifindex) (proto : PathProto) (nh : list Z) : vpp err
| BondCreate2 (mode : VBondMode) (id : Z) : vpp (res ifindex)
| BondAddMember (i bond : ifindex) : vpp err
| BondDelete (i : ifindex) : vpp err
| VxlanAddDelTunnelV3 (isAdd : bool) (instance : Z) (src dst : VAddress) (port vni : Z) : vpp (res ifindex)
| BridgeDomainAddDel (isAdd : bool) (bd : Z) (flood uuFlood forward learn : bool) : vpp err
| SwInterfaceSetL2Bridge (i : ifindex) (bd : Z) (type : L2PortType) (enable : bool) : vpp err
| TapCreateV3 (hostIf tag : string) : vpp (res ifindex)
| TapDeleteV2 (i : ifindex) : vpp err
| IP6ndProxyAddDel (isAdd : bool) (i : ifindex) (ip : list Z) : vpp err
| Nat44EdPluginEnableDisable (sessions insideVrf outsideVrf : Z) : vpp err
| Nat44InterfaceAddDelFeature (isAdd : bool) (flags : list NatFlag) (i : ifindex) : vpp err
| Nat44EdAddDelOutputInterface (isAdd : bool) (i : ifindex) : vpp err
| Nat44AddDelAddressRange (isAdd : bool) (first last : list Z) (vrf : Z) (flags : list NatFlag) : vpp err
| Nat44AddDelStaticMapping (m : StaticMapping) : vpp err
| Nat64PluginEnableDisable : vpp err
| Nat64AddDelPrefix (isAdd : bool) (p : VPrefix) (vrf : Z) : vpp err
| Nat64AddDelInterface (isAdd : bool) (flags : list NatFlag) (i : ifindex) : vpp err
| Nat64AddDelPoolAddrRange (isAdd : bool) (first last : list Z) (vrf : Z) : vpp err
| Nat66PluginEnableDisable : vpp err
| Nat66AddDelStaticMapping (isAdd : bool) (loc ext : list Z) (vrf : Z) : vpp err.
