(* ===== verification/Netlink.v ===== *)
(** * The netlink layer (netlink/netlink.go, srv6.go, ndproxy.go, ethtool.go)

    The wrappers that netcfg puts around the netlink library, as programs over
    the calls of that library and of the operating system.  The structs and the
    constants of the libraries keep the names they have in the Go code; a
    constant is a constructor, since nothing depends on its number.  What a call
    does is not said here: theorems quantify over its answers, or state what they
    suppose of it. *)

From S2P Require Import Prelude GoStd GoNet Effect VppApi.

(** ** The libraries' data *)

Abbreviation handle := Z.
Abbreviation nsfd := Z.

Inductive MacvlanMode :=
| MACVLAN_MODE_PRIVATE | MACVLAN_MODE_VEPA | MACVLAN_MODE_BRIDGE | MACVLAN_MODE_PASSTHRU
| MACVLAN_MODE_SOURCE.
Inductive BondMode :=
| BOND_MODE_BALANCE_RR | BOND_MODE_ACTIVE_BACKUP | BOND_MODE_BALANCE_XOR | BOND_MODE_BROADCAST
| BOND_MODE_802_3AD | BOND_MODE_BALANCE_TLB | BOND_MODE_BALANCE_ALB.
Inductive BondAdSelect := BOND_AD_SELECT_STABLE | BOND_AD_SELECT_BANDWIDTH | BOND_AD_SELECT_COUNT.
Inductive BondArpValidate :=
| BOND_ARP_VALIDATE_NONE | BOND_ARP_VALIDATE_ACTIVE | BOND_ARP_VALIDATE_BACKUP
| BOND_ARP_VALIDATE_ALL.
Inductive BondArpAllTargets := BOND_ARP_ALL_TARGETS_ANY | BOND_ARP_ALL_TARGETS_ALL.
Inductive BondFailOverMac :=
| BOND_FAIL_OVER_MAC_NONE | BOND_FAIL_OVER_MAC_ACTIVE | BOND_FAIL_OVER_MAC_FOLLOW.
Inductive BondPrimaryReselect :=
| BOND_PRIMARY_RESELECT_ALWAYS | BOND_PRIMARY_RESELECT_BETTER | BOND_PRIMARY_RESELECT_FAILURE.
Inductive IPVlanMode := IPVLAN_MODE_L2 | IPVLAN_MODE_L3 | IPVLAN_MODE_L3S.
Inductive TuntapMode := TUNTAP_MODE_TUN | TUNTAP_MODE_TAP.
Inductive NeighState := NUD_REACHABLE | NUD_PERMANENT | NUD_NOARP.
Inductive Family := FAMILY_ALL | AF_BRIDGE | FAMILY_V4 | FAMILY_V6.
Inductive NeighFlag := NTF_SELF | NTF_PROXY.
Inductive RouteScope :=
| SCOPE_UNIVERSE | SCOPE_SITE | SCOPE_LINK | SCOPE_HOST | SCOPE_NOWHERE.
Inductive RouteType :=
| RTN_UNICAST | RTN_LOCAL | RTN_BROADCAST | RTN_ANYCAST | RTN_MULTICAST | RTN_BLACKHOLE
| RTN_UNREACHABLE | RTN_PROHIBIT | RTN_THROW | RTN_NAT.
Inductive Seg6Mode := SEG6_IPTUN_MODE_INLINE | SEG6_IPTUN_MODE_ENCAP.
Inductive Seg6Action :=
| SEG6_LOCAL_ACTION_END | SEG6_LOCAL_ACTION_END_X | SEG6_LOCAL_ACTION_END_T
| SEG6_LOCAL_ACTION_END_DX2 | SEG6_LOCAL_ACTION_END_DX4 | SEG6_LOCAL_ACTION_END_DX6
| SEG6_LOCAL_ACTION_END_DT4 | SEG6_LOCAL_ACTION_END_DT6 | SEG6_LOCAL_ACTION_END_DT46
| SEG6_LOCAL_ACTION_END_B6 | SEG6_LOCAL_ACTION_END_B6_ENCAPS.
(** The indices of the Flags of a SEG6LocalEncap. *)
Inductive Seg6Flag :=
| SEG6_LOCAL_ACTION | SEG6_LOCAL_TABLE | SEG6_LOCAL_VRFTABLE | SEG6_LOCAL_NH4 | SEG6_LOCAL_NH6
| SEG6_LOCAL_OIF | SEG6_LOCAL_IIF | SEG6_LOCAL_SRH.

#[export] Instance Seg6Flag_eq_dec : EqDecision Seg6Flag.
Proof. solve_decision. Defined.

Inductive OperState :=
| OperUnknown | OperNotPresent | OperDown | OperLowerLayerDown | OperTesting | OperDormant | OperUp.

(** A netlink.Link, as far as netcfg reads it. *)
Record Link := MkLink {
  Link_Index : Z;
  Link_Name : string;
  Link_HardwareAddr : list Z;
  Link_FlagUp : bool;
  Link_OperState : OperState;
  Link_Type : string;
  Link_MTU : Z;
  Link_MasterIndex : Z
}.

(** A netlink.Bond made by NewLinkBond: [None] is a parameter left at the
    sentinel of the library, which does not send it. *)
Record Bond := MkBond {
  Bond_Name : string;
  Bond_Mode : BondMode;
  Bond_LacpRate : option Z;
  Bond_XmitHashPolicy : option Z;
  Bond_AdSelect : option BondAdSelect;
  Bond_ArpValidate : option BondArpValidate;
  Bond_ArpAllTargets : option BondArpAllTargets;
  Bond_FailOverMac : option BondFailOverMac;
  Bond_PrimaryReselect : option BondPrimaryReselect;
  Bond_Miimon : option Z;
  Bond_MinLinks : option Z;
  Bond_ArpInterval : option Z;
  Bond_UpDelay : option Z;
  Bond_DownDelay : option Z;
  Bond_NumPeerNotif : option Z;
  Bond_PacketsPerSlave : option Z;
  Bond_ResendIgmp : option Z;
  Bond_LpInterval : option Z;
  Bond_AllSlavesActive : option Z;
  Bond_ArpIpTargets : option (list Net.IP);
  Bond_Primary : option Z
}.

Definition NewLinkBond (name : string) : Bond :=
  MkBond name BOND_MODE_BALANCE_RR None None None None None None None None None None None None
    None None None None None None None.

(** A netlink.Vxlan; an address that is nil is [None]. *)
Record VxlanLink := MkVxlanLink {
  VxlanLink_Name : string;
  VxlanLink_VxlanId : Z;
  VxlanLink_VtepDevIndex : Z;
  VxlanLink_SrcAddr : option Net.IP;
  VxlanLink_Group : option Net.IP;
  VxlanLink_TTL : Z;
  VxlanLink_TOS : Z;
  VxlanLink_Learning : bool;
  VxlanLink_Proxy : bool;
  VxlanLink_RSC : bool;
  VxlanLink_L2miss : bool;
  VxlanLink_L3miss : bool;
  VxlanLink_UDPCSum : bool;
  VxlanLink_UDP6ZeroCSumTx : bool;
  VxlanLink_UDP6ZeroCSumRx : bool;
  VxlanLink_NoAge : bool;
  VxlanLink_GBP : bool;
  VxlanLink_FlowBased : bool;
  VxlanLink_Age : Z;
  VxlanLink_Limit : Z;
  VxlanLink_Port : Z;
  VxlanLink_PortLow : Z;
  VxlanLink_PortHigh : Z
}.

(** The fields that the tunnels of the library share. *)
Record TunnelLink := MkTunnelLink {
  TunnelLink_Name : string;
  TunnelLink_ParentIndex : Z;
  TunnelLink_Local : option Net.IP;
  TunnelLink_Remote : option Net.IP;
  TunnelLink_Ttl : Z;
  TunnelLink_Tos : Z
}.

(** The links that netcfg creates. *)
Inductive NewLink :=
| Dummy (name : string)
| Veth (name peer : string)
| Macvlan (name : string) (parent : Z) (mode : MacvlanMode)
| Macvtap (name : string) (parent : Z) (mode : MacvlanMode)
| BridgeLink (name : string)
| BondLink (b : Bond)
| VlanLink (name : string) (parent id : Z)
| NewVxlan (v : VxlanLink)
| VrfLink (name : string) (table : Z)
| Gretap (t : TunnelLink)
| Iptun (t : TunnelLink)
| Ip6tnl (t : TunnelLink)
| Sittun (t : TunnelLink)
| Vti (t : TunnelLink)
| GenericLink (name : string) (parent : Z) (type : string)
| Tuntap (name : string) (mode : TuntapMode)
| IPVlan (name : string) (parent : Z) (mode : IPVlanMode).

Record Addr := MkAddr {
  Addr_IPNet : Net.IPNet;
  Addr_Label : string;
  Addr_ValidLft : Z;
  Addr_PreferedLft : Z
}.

Record SEG6LocalEncap := MkSEG6LocalEncap {
  SEG6LocalEncap_Action : Seg6Action;
  SEG6LocalEncap_Flags : list Seg6Flag;
  SEG6LocalEncap_Table : Z;
  SEG6LocalEncap_VrfTable : Z;
  SEG6LocalEncap_InAddr : option Net.IP;
  SEG6LocalEncap_In6Addr : option Net.IP;
  SEG6LocalEncap_Oif : Z;
  SEG6LocalEncap_Iif : Z;
  SEG6LocalEncap_Segments : list Net.IP
}.

Inductive Encap :=
| NoEncap
| SEG6Encap (mode : Seg6Mode) (segments : list Net.IP)
| SEG6Local (e : SEG6LocalEncap).

(** A netlink.Route; [None] is nil or, for the type, the zero value. *)
Record NlRoute := MkNlRoute {
  NlRoute_LinkIndex : Z;
  NlRoute_Dst : option Net.IPNet;
  NlRoute_Gw : option Net.IP;
  NlRoute_Src : option Net.IP;
  NlRoute_Priority : Z;
  NlRoute_Table : Z;
  NlRoute_Scope : RouteScope;
  NlRoute_Type : option RouteType;
  NlRoute_OnLink : bool;
  NlRoute_MTU : Z;
  NlRoute_Encap : Encap
}.

Definition NlRoute_zero : NlRoute :=
  MkNlRoute 0 None None None 0 0 SCOPE_UNIVERSE None false 0 NoEncap.

Record Neigh := MkNeigh {
  Neigh_LinkIndex : Z;
  Neigh_Family : Family;
  Neigh_State : option NeighState;
  Neigh_Flags : option NeighFlag;
  Neigh_IP : option Net.IP;
  Neigh_HardwareAddr : list Z
}.

(** A netlink.Rule made by NewRule: [None] is a field it leaves unset. *)
Record Rule := MkRule {
  Rule_Src : option Net.IPNet;
  Rule_Dst : option Net.IPNet;
  Rule_Table : option Z;
  Rule_Priority : option Z;
  Rule_Mark : option Z
}.

Definition NewRule : Rule := MkRule None None None None None.

(** wgtypes.PeerConfig and wgtypes.Config; a key is its text. *)
Record WgPeer := MkWgPeer {
  WgPeer_PublicKey : string;
  WgPeer_Remove : bool;
  WgPeer_PresharedKey : option string;
  WgPeer_Endpoint : option string;
  WgPeer_PersistentKeepaliveInterval : option Z;
  WgPeer_ReplaceAllowedIPs : bool;
  WgPeer_AllowedIPs : list Net.IPNet
}.

Record WgConfig := MkWgConfig {
  WgConfig_PrivateKey : option string;
  WgConfig_ListenPort : option Z;
  WgConfig_FirewallMark : option Z;
  WgConfig_ReplacePeers : bool;
  WgConfig_Peers : list WgPeer
}.

(* go: netlink/dhcp.go 411-420 DHCPOverrides *)
Record NlDHCPOverrides := MkNlDHCPOverrides {
  NlDHCPOverrides_UseDNS : bool;
  NlDHCPOverrides_UseMTU : bool;
  NlDHCPOverrides_UseRoutes : bool;
  NlDHCPOverrides_RouteMetric : Z;
  NlDHCPOverrides_UseDomains : bool
}.

(** The timeout is in nanoseconds. *)
(* go: netlink/dhcp.go 57-65 DHCPManager *)
Record DHCPManager := MkDHCPManager {
  DHCPManager_timeout : Z;
  DHCPManager_retries : Z;
  DHCPManager_hostname : string;
  DHCPManager_dhcpIdent : string;
  DHCPManager_externalV4 : string;
  DHCPManager_externalV6 : string
}.

(** What a goroutine is to do: acquire a lease on an interface with a manager and
    apply it; answer neighbour solicitations on a socket until a context is
    cancelled; watch the taps of VPP. *)
Inductive Task :=
| TaskDHCPv4 (iface : string) (m : DHCPManager) (ov : NlDHCPOverrides)
| TaskDHCPv6 (iface : string) (m : DHCPManager) (ov : NlDHCPOverrides)
| TaskResponder (iface : string) (sock ctx : Z)
| TaskWatchTaps.

(** A net.Interface, with the prefixes of its Addrs: its index, its hardware
    address, its MTU. *)
Record NetInterface := MkNetInterface {
  NetInterface_Index : Z;
  NetInterface_HardwareAddr : list Z;
  NetInterface_MTU : Z
}.

(** What is read of a dhcpv4.DHCPv4: a field that a method reports as absent is
    [None], and a duration is in nanoseconds, 0 by default. *)
Record Ack4 := MkAck4 {
  Ack4_MessageType : Z;
  Ack4_YourIPAddr : Net.IP;
  Ack4_ServerIPAddr : Net.IP;
  Ack4_SubnetMask : option Net.IP;
  Ack4_Router : list Net.IP;
  Ack4_DNS : list Net.IP;
  Ack4_DomainName : string;
  Ack4_LeaseTime : Z;
  Ack4_MTU : option Z;
  Ack4_Routes : option (list (Net.IPNet * Net.IP));
  Ack4_NTPServers : option (list Net.IP);
  Ack4_ServerIdentifier : option Net.IP;
  Ack4_RenewalTime : Z;
  Ack4_RebindingTime : Z
}.

(** The messages of DHCPv4 that netcfg builds.  [Renew4] is the request that the
    library makes from an offer with these fields. *)
Inductive Msg4 :=
| Renew4 (hw : list Z) (yourIP serverIP mask router : Net.IP) (dns : list Net.IP)
| Release4 (hw : list Z) (clientIP serverID : Net.IP)
| Decline4 (hw : list Z) (requested serverID : Net.IP)
| Inform4 (hw : list Z) (clientIP : Net.IP).

(** An option of a request: the host name, the client identifier, or a further
    one, by its code and its bytes. *)
Inductive Opt4 :=
| OptHostName (name : string)
| OptClientIdentifier (id : list Z)
| OptGeneric4 (code : Z) (value : list Z).

(** What is read of a reply of DHCPv6: for each IA_NA its identifier and its
    addresses with their valid lifetimes, the prefixes of the IA_PDs. *)
Record Reply6 := MkReply6 {
  Reply6_IANA : list (list Z * list (Net.IP * Z));
  Reply6_IAPD : list (list Net.IPNet);
  Reply6_DNS : list Net.IP;
  Reply6_Domains : option (list string);
  Reply6_ServerID : option (list Z)
}.

(** The messages of DHCPv6 that netcfg builds: their type, the hardware address
    in the client's identifier, the server's identifier, the addresses of the
    IA_NAs, and the requested options. *)
Inductive Type6 := Renew6 | Rebind6 | Release6 | Decline6 | InformationRequest6.
Record Msg6 := MkMsg6 {
  Msg6_Type : Type6;
  Msg6_ClientHw : list Z;
  Msg6_ServerID : option (list Z);
  Msg6_IANA : list (list Z * Net.IP);
  Msg6_Requested : list Z
}.

(** The modifiers of a Solicit. *)
Inductive Mod6 :=
| RequestedOptions6 (codes : list Z)
| IAPD6 (iaid : list Z)
| OptGeneric6 (code : Z) (value : list Z)
| RapidCommit6.

(** ** Calls *)

(** The calls of the libraries, of the operating system and of Go's runtime
    that netcfg performs, with the type of their answers.  [None] in place of a
    handle is the handle of the package. *)
Inductive sys : Type -> Type :=
| NewHandle : sys (res handle)
| NewHandleAt (ns : nsfd) : sys (res handle)
| HandleClose (h : handle) : sys unit
| LockOSThread : sys unit
| UnlockOSThread : sys unit
| NsGet : sys (res nsfd)
| NsGetFromName (name : string) : sys (res nsfd)
| NsNewNamed (name : string) : sys (res nsfd)
| NsSet (ns : nsfd) : sys (option error)
| NsClose (ns : nsfd) : sys unit
| NsDeleteNamed (name : string) : sys (option error)
| LinkByName (h : option handle) (name : string) : sys (res Link)
| LinkList (h : handle) : sys (res (list Link))
| LinkAdd (h : handle) (l : NewLink) : sys (option error)
| LinkDel (h : handle) (l : Link) : sys (option error)
| LinkSetUp (h : handle) (l : Link) : sys (option error)
| LinkSetDown (h : handle) (l : Link) : sys (option error)
| LinkSetMTU (h : handle) (l : Link) (mtu : Z) : sys (option error)
| LinkSetHardwareAddr (h : handle) (l : Link) (mac : list Z) : sys (option error)
| LinkSetNsFd (h : handle) (l : Link) (ns : nsfd) : sys (option error)
| LinkSetName (h : handle) (l : Link) (name : string) : sys (option error)
| LinkSetMaster (h : handle) (l master : Link) : sys (option error)
| LinkSetAllmulticast (h : handle) (l : Link) (on : bool) : sys (option error)
| LinkSetAlias (h : handle) (l : Link) (alias : string) : sys (option error)
| LinkSetIPv6Token (index : Z) (token : Net.IP) : sys (option error)
| AddrAdd (h : handle) (l : Link) (a : Addr) : sys (option error)
| AddrDel (h : handle) (l : Link) (a : Addr) : sys (option error)
| AddrList (h : handle) (l : Link) (family : Family) : sys (res (list Addr))
| RouteAdd (h : handle) (r : NlRoute) : sys (option error)
| RouteReplace (h : handle) (r : NlRoute) : sys (option error)
| RouteDel (h : handle) (r : NlRoute) : sys (option error)
(** RouteListFiltered of all families, by the outgoing link. *)
| RouteList (h : handle) (link : Z) : sys (res (list NlRoute))
| NeighAdd (h : handle) (n : Neigh) : sys (option error)
| NeighSet (h : handle) (n : Neigh) : sys (option error)
| NeighDel (h : handle) (n : Neigh) : sys (option error)
| NeighList (h : handle) (link : Z) (family : Family) : sys (res (list Neigh))
| RuleAdd (h : handle) (r : Rule) : sys (option error)
| RuleDel (h : handle) (r : Rule) : sys (option error)
| DevLinkGetDeviceByName (h : handle) (bus pci : string) : sys (res Z)
| DevLinkSetEswitchMode (h : handle) (dev : Z) (mode : string) : sys (option error)
| EthtoolNew : sys (res handle)
| EthtoolClose (e : handle) : sys unit
| EthtoolGetFeatures (e : handle) (name : string) : sys (res (gmap string bool))
| EthtoolSetFeatures (e : handle) (name : string) (want : gmap string bool) : sys (option error)
| EthtoolWakeOnLan (e : handle) (name : string) : sys (option error)
| WgNew : sys (res handle)
| WgClose (client : handle) : sys unit
| WgConfigureDevice (client : handle) (name : string) (cfg : WgConfig) : sys (option error)
| ReadFile (path : string) : sys (res string)
| WriteFile (path data : string) : sys (option error)
| MkdirAll (path : string) : sys (option error)
| RemoveFile (path : string) : sys unit
| StatFile (path : string) : sys (option error)
| Readlink (path : string) : sys (res string)
(** os.ReadDir: the names of the entries, and whether they are directories. *)
| ReadDir (path : string) : sys (res (list (string * bool)))
| Getenv (name : string) : sys string
| TimeNow : sys Z
| Sleep (d : Z) : sys unit
| Hostname : sys (res string)
| LookPath (name : string) : sys (res string)
| Exec (argv : list string) : sys (option error)
| Kill (pid : Z) : sys unit
| Go (t : Task) : sys unit
| InterfaceByName (name : string) : sys (res NetInterface)
| InterfaceAddrs (i : NetInterface) : sys (list Net.IPNet)
| RouteGet (ip : Net.IP) : sys (res (list Z))
| PacketListen (i : NetInterface) : sys (res Z)
| PacketWriteTo (sock : Z) (data mac : list Z) : sys (option error)
| PacketClose (sock : Z) : sys unit
(** context.WithCancel of the background context, and its cancel function. *)
| CtxNew : sys Z
| CtxCancel (ctx : Z) : sys unit
| Glob (pattern : string) : sys (res (list string))
| NClient4New (iface : string) (timeout retries : option Z) : sys (res Z)
| NClient4Close (c : Z) : sys unit
| NClient4Request (c : Z) (opts : list Opt4) (requested : list Z) : sys (res Ack4)
| NClient4Build (m : Msg4) : sys (option error)
| NClient4SendAndRead (c : Z) (server : option Net.IP) (m : Msg4) : sys (res Ack4)
| NClient6New (iface : string) (timeout retries : option Z) : sys (res Z)
| NClient6Close (c : Z) : sys unit
| NClient6Solicit (c : Z) (rapid : bool) (mods : list Mod6) : sys (res Reply6)
| NClient6Request (c : Z) (adv : Reply6) (mods : list Mod6) : sys (res Reply6)
| NClient6Build (m : Msg6) : sys (option error)
| NClient6SendAndRead (c : Z) (m : Msg6) : sys (res Reply6)
| VppConnect (sock : string) : sys (res vconn)
| VppNewAPIChannel (c : vconn) : sys (res vchan)
| VppCheckCompatibility (ch : vchan) : sys (option error)
| VppCloseChannel (ch : vchan) : sys unit
| VppDisconnect (c : vconn) : sys unit
| Vpp {X : Type} (c : vconn) (m : vpp X) : sys X.

(** The functions of the libraries that are computed without a call. *)
Class Libs := {
  (** netlink.ParseAddr *)
  ParseAddr : string -> res Addr;
  (** netlink.StringToBondLacpRateMap, netlink.StringToBondXmitHashPolicyMap *)
  StringToBondLacpRate : string -> option Z;
  StringToBondXmitHashPolicy : string -> option Z;
  (** filepath.Match, whose error counts as no match *)
  GlobMatch : string -> string -> bool;
  (** wgtypes.ParseKey and net.ResolveUDPAddr *)
  ParseKey : string -> res string;
  ResolveUDPAddr : string -> res string;
  (** crypto/sha256 *)
  Sha256 : string -> list Z;
}.

(** ** Managers *)

(** The handle is nil in no value that netcfg builds; 0 is no namespace. *)
(* go: netlink/netlink.go 33-38 NetlinkManager *)
Record NetlinkManager := MkNetlinkManager {
  mgr_handle : handle;
  mgr_nsName : string;
  mgr_nsHandle : nsfd
}.

(* go: netlink/netlink.go 40-47 New *)
Definition New : prog sys (res NetlinkManager) :=
  let! h := call NewHandle as EWrap "failed to create netlink handle: %w" [];
  Ret (Ok (MkNetlinkManager h "" 0)).

(* go: netlink/netlink.go 79-82 NsName *)
Definition NsName (m : NetlinkManager) : string := mgr_nsName m.

(* go: netlink/netlink.go 84-87 InNetns *)
Definition InNetns (m : NetlinkManager) : bool := negb (Str.is_empty (mgr_nsName m)).

(* go: netlink/netlink.go 49-67 NewWithNetns *)
Definition NewWithNetns (nsName : string) : prog sys (res NetlinkManager) :=
  let! fd := call (NsGetFromName nsName) as EWrap "failed to get netns %s: %w" [nsName];
  h ← call (NewHandleAt fd);
  match h with
  | Err e => call (NsClose fd) ;;
             Ret (Err (EWrap "failed to create netlink handle at netns %s: %w" [nsName] e))
  | Ok h => Ret (Ok (MkNetlinkManager h nsName fd))
  end.

(* go: netlink/netlink.go 69-77 Close *)
Definition Close (m : NetlinkManager) : prog sys unit :=
  call (HandleClose (mgr_handle m)) ;;
  if negb (mgr_nsHandle m =? 0) then call (NsClose (mgr_nsHandle m)) else Ret tt.

(** A deferred call: it runs when [p] returns. *)
Definition deferred {E A} (p : prog E A) (d : prog E unit) : prog E A :=
  a ← p; d ;; Ret a.

(* go: netlink/netlink.go 91-124 CreateNetns *)
Definition CreateNetns (name : string) : prog sys err :=
  try! call (MkdirAll "/var/run/netns") as EWrap "failed to create netns dir: %w" [];
  call LockOSThread ;;
  deferred (
    get! origNs := call NsGet as EWrap "failed to get current netns: %w" [];
    deferred (
      get! newNs := call (NsNewNamed name) as EWrap "failed to create netns %s: %w" [name];
      call (NsClose newNs) ;;
      try! call (NsSet origNs) as EWrap "failed to restore netns after creating %s: %w" [name];
      Ret None)
    (call (NsClose origNs)))
  (call UnlockOSThread).

(* go: netlink/netlink.go 126-129 DeleteNetns *)
Definition DeleteNetns (name : string) : prog sys err := call (NsDeleteNamed name).

(* go: netlink/netlink.go 131-135 NetnsExists *)
Definition NetnsExists (name : string) : prog sys bool :=
  r ← call (NsGetFromName name); Ret (is_ok r).

(* go: netlink/netlink.go 29-31 NetnsRunDir *)
Definition NetnsRunDir : string := "/var/run/netns".

(* go: netlink/netlink.go 137-154 ListNetns *)
Definition ListNetns (is_not_exist : error -> bool) : prog sys (res (list string)) :=
  r ← call (ReadDir NetnsRunDir);
  Ret (match r with
       | Err e => if is_not_exist e then Ok [] else Err (EWrap "failed to read netns dir: %w" [] e)
       | Ok files => Ok (filter (fun '(_, isDir) => (isDir : bool) = false) files).*1
       end).

(* go: netlink/netlink.go 156-188 RunInNetns *)
Definition RunInNetns (nsName : string) (fn : prog sys err) : prog sys err :=
  call LockOSThread ;;
  deferred (
    get! origNs := call NsGet as EWrap "failed to get current netns: %w" [];
    deferred (
      get! targetNs := call (NsGetFromName nsName) as EWrap "failed to get netns %s: %w" [nsName];
      deferred (
        try! call (NsSet targetNs) as EWrap "failed to set netns %s: %w" [nsName];
        fnErr ← fn;
        try! call (NsSet origNs) as EWrap "failed to restore netns: %w" [];
        Ret fnErr)
      (call (NsClose targetNs)))
    (call (NsClose origNs)))
  (call UnlockOSThread).

(** ** Links *)

(** [m.handle.LinkByName(name)]. *)
(* go: netlink/netlink.go 192-195 GetLink *)
Definition link_by_name (m : NetlinkManager) (name : string) : prog sys (res Link) :=
  call (LinkByName (Some (mgr_handle m)) name).

(* go: netlink/netlink.go 270-273 ListLinks *)
Definition ListLinks (m : NetlinkManager) : prog sys (res (list Link)) := call (LinkList (mgr_handle m)).

Definition no_link (name : string) : error -> error := EWrap "failed to get link %s: %w" [name].

(** The shape of most methods: a call on the link that a name stands for. *)
Definition on_link (m : NetlinkManager) (name : string) (f : Link -> prog sys err) : prog sys err :=
  get! link := link_by_name m name as no_link name; f link.

(* go: netlink/netlink.go 197-201 LinkExists *)
Definition LinkExists (m : NetlinkManager) (name : string) : prog sys bool :=
  r ← link_by_name m name; Ret (is_ok r).

(* go: netlink/netlink.go 203-210 SetLinkUp *)
Definition SetLinkUp (m : NetlinkManager) (name : string) : prog sys err :=
  on_link m name (fun link => call (LinkSetUp (mgr_handle m) link)).

(* go: netlink/netlink.go 212-219 SetLinkDown *)
Definition SetLinkDown (m : NetlinkManager) (name : string) : prog sys err :=
  on_link m name (fun link => call (LinkSetDown (mgr_handle m) link)).

(* go: netlink/netlink.go 221-228 SetLinkMTU *)
Definition SetLinkMTU (m : NetlinkManager) (name : string) (mtu : Z) : prog sys err :=
  on_link m name (fun link => call (LinkSetMTU (mgr_handle m) link mtu)).

Definition bad_mac (s : string) : error := EMsg "address %s: invalid MAC address" [s].

(* go: netlink/netlink.go 230-243 SetLinkMacAddress *)
Definition SetLinkMacAddress (m : NetlinkManager) (name mac : string) : prog sys err :=
  on_link m name (fun link =>
    match Net.ParseMAC mac with
    | None => Ret (Some (EWrap "invalid mac address %s: %w" [mac] (bad_mac mac)))
    | Some hwAddr => call (LinkSetHardwareAddr (mgr_handle m) link hwAddr)
    end).

(* go: netlink/netlink.go 245-259 SetLinkNetns *)
Definition SetLinkNetns (m : NetlinkManager) (name nsName : string) : prog sys err :=
  on_link m name (fun link =>
    get! nsHandle := call (NsGetFromName nsName) as EWrap "failed to get netns %s: %w" [nsName];
    deferred (call (LinkSetNsFd (mgr_handle m) link nsHandle)) (call (NsClose nsHandle))).

(* go: netlink/netlink.go 261-268 DeleteLink *)
Definition DeleteLink (m : NetlinkManager) (name : string) : prog sys err :=
  on_link m name (fun link => call (LinkDel (mgr_handle m) link)).

(* go: netlink/netlink.go 275-281 MatchCriteria *)
Record MatchCriteria := MkMatchCriteria {
  MatchCriteria_Name : string;
  MatchCriteria_MacAddress : string;
  MatchCriteria_Driver : string
}.

(* go: netlink/netlink.go 283-286 IsEmpty *)
Definition MatchCriteria_IsEmpty (c : MatchCriteria) : bool :=
  Str.is_empty (MatchCriteria_Name c) && Str.is_empty (MatchCriteria_MacAddress c) &&
  Str.is_empty (MatchCriteria_Driver c).

(** [HardwareAddr.String()]. *)
Definition mac_string (mac : list Z) : string := Str.join (Net.hex8 <$> mac) ":".

(** [filepath.Base]: the last element of a path, without trailing slashes. *)
Definition path_base (p : string) : string :=
  if Str.is_empty p then "."
  else match last (filter (fun e => e <> "") (Str.split_byte p "/")) with
       | Some e => e
       | None => "/"
       end.

(* go: netlink/netlink.go 356-364 linkDriver *)
Definition linkDriver (name : string) : prog sys string :=
  r ← call (Readlink ("/sys/class/net/" +:+ name +:+ "/device/driver"));
  Ret (match r with Err _ => "" | Ok target => path_base target end).

(** The body of the loop of FindMatchingLink: whether a link matches. *)
(* go: netlink/netlink.go 300-318 FindMatchingLink *)
Definition link_matches `{Libs} (c : MatchCriteria) (link : Link) : prog sys bool :=
  if negb (Str.is_empty (MatchCriteria_Name c)) &&
     negb (GlobMatch (MatchCriteria_Name c) (Link_Name link)) then Ret false
  else if negb (Str.is_empty (MatchCriteria_MacAddress c)) &&
          negb (Str.equal_fold (mac_string (Link_HardwareAddr link)) (MatchCriteria_MacAddress c))
       then Ret false
  else if negb (Str.is_empty (MatchCriteria_Driver c)) then
         driver ← linkDriver (Link_Name link);
         Ret (GlobMatch (MatchCriteria_Driver c) driver)
       else Ret true.

(* go: netlink/netlink.go 288-327 FindMatchingLink *)
Definition FindMatchingLink `{Libs} (m : NetlinkManager) (c : MatchCriteria) : prog sys (res string) :=
  if MatchCriteria_IsEmpty c then Ret (Ok "")
  else
    let! links := call (LinkList (mgr_handle m)) as EWrap "failed to list links: %w" [];
    matched ← for_fold links [] (fun matched link =>
      ok ← link_matches c link;
      Ret (if ok : bool then matched ++ [Link_Name link] else matched));
    Ret (Ok (default "" (head (Str.sort matched)))).

(* go: netlink/netlink.go 329-354 RenameLink *)
Definition RenameLink (m : NetlinkManager) (oldName newName : string) : prog sys err :=
  if Str.eqb oldName newName then Ret None
  else
    get! link := link_by_name m oldName as no_link oldName;
    let wasUp := Link_FlagUp link in
    try! call (LinkSetDown (mgr_handle m) link) as EWrap "failed to set %s down for rename: %w" [oldName];
    try! call (LinkSetName (mgr_handle m) link newName)
      as EWrap "failed to rename %s to %s: %w" [oldName; newName];
    if wasUp then
      r ← link_by_name m newName;
      match r with
      | Ok renamed => warn! call (LinkSetUp (mgr_handle m) renamed); Ret None
      | Err _ => Ret None
      end
    else Ret None.

(** ** Creation of devices *)

Definition link_add (m : NetlinkManager) (l : NewLink) : prog sys err :=
  call (LinkAdd (mgr_handle m) l).

(* go: netlink/netlink.go 368-374 AddDummyDevice *)
Definition AddDummyDevice (m : NetlinkManager) (name : string) : prog sys err :=
  link_add m (Dummy name).

(* go: netlink/netlink.go 376-383 AddVethPair *)
Definition AddVethPair (m : NetlinkManager) (name peerName : string) : prog sys err :=
  link_add m (Veth name peerName).

Definition no_parent (name : string) : error -> error :=
  EWrap "failed to get parent link %s: %w" [name].

(* go: netlink/netlink.go 425-438 parseMacvlanMode *)
Definition parseMacvlanMode (mode : string) : MacvlanMode :=
  let s := Str.to_lower mode in
  if Str.eqb s "private" then MACVLAN_MODE_PRIVATE
  else if Str.eqb s "vepa" then MACVLAN_MODE_VEPA
  else if Str.eqb s "passthru" || Str.eqb s "passthrough" then MACVLAN_MODE_PASSTHRU
  else if Str.eqb s "source" then MACVLAN_MODE_SOURCE
  else MACVLAN_MODE_BRIDGE.

(* go: netlink/netlink.go 385-402 AddMacvlanDevice *)
Definition AddMacvlanDevice (m : NetlinkManager) (name parentName mode : string) : prog sys err :=
  get! parent := link_by_name m parentName as no_parent parentName;
  link_add m (Macvlan name (Link_Index parent) (parseMacvlanMode mode)).

(* go: netlink/netlink.go 404-423 AddMacvtapDevice *)
Definition AddMacvtapDevice (m : NetlinkManager) (name parentName mode : string) : prog sys err :=
  get! parent := link_by_name m parentName as no_parent parentName;
  link_add m (Macvtap name (Link_Index parent) (parseMacvlanMode mode)).

(* go: netlink/netlink.go 440-451 BridgeOptions *)
Record BridgeOptions := MkBridgeOptions {
  BridgeOptions_STP : option bool;
  BridgeOptions_ForwardDelay : Z;
  BridgeOptions_HelloTime : Z;
  BridgeOptions_MaxAge : Z;
  BridgeOptions_AgeingTime : Z;
  BridgeOptions_Priority : Z
}.

(* go: netlink/netlink.go 453-459 AddBridge *)
Definition AddBridge (m : NetlinkManager) (name : string) : prog sys err :=
  link_add m (BridgeLink name).

(* go: netlink/netlink.go 461-474 SetBridgeMaster *)
Definition SetBridgeMaster (m : NetlinkManager) (linkName bridgeName : string) : prog sys err :=
  get! link := link_by_name m linkName as no_link linkName;
  get! bridge := link_by_name m bridgeName as EWrap "failed to get bridge %s: %w" [bridgeName];
  call (LinkSetMaster (mgr_handle m) link bridge).

(* go: netlink/netlink.go 688-713 SetBondSlave *)
Definition SetBondSlave (m : NetlinkManager) (linkName bondName : string) : prog sys err :=
  get! link := link_by_name m linkName as no_link linkName;
  get! bond := link_by_name m bondName as EWrap "failed to get bond %s: %w" [bondName];
  try! call (LinkSetDown (mgr_handle m) link)
    as EWrap "failed to set %s down before enslaving: %w" [linkName];
  try! call (LinkSetMaster (mgr_handle m) link bond)
    as EWrap "failed to enslave %s to %s: %w" [linkName; bondName];
  warn! call (LinkSetUp (mgr_handle m) link);
  Ret None.

(* go: netlink/netlink.go 853-866 SetVrfMaster *)
Definition SetVrfMaster (m : NetlinkManager) (linkName vrfName : string) : prog sys err :=
  get! link := link_by_name m linkName as no_link linkName;
  get! vrf := link_by_name m vrfName as EWrap "failed to get vrf %s: %w" [vrfName];
  call (LinkSetMaster (mgr_handle m) link vrf).

(* go: netlink/netlink.go 715-730 AddVlan *)
Definition AddVlan (m : NetlinkManager) (name parentName : string) (vlanID : Z) : prog sys err :=
  get! parent := link_by_name m parentName as no_parent parentName;
  link_add m (VlanLink name (Link_Index parent) vlanID).

(** [uint32(tableID)]. *)
(* go: netlink/netlink.go 844-851 AddVrf *)
Definition AddVrf (m : NetlinkManager) (name : string) (tableID : Z) : prog sys err :=
  link_add m (VrfLink name (tableID mod 2^32)).

(* go: netlink/netlink.go 1016-1023 AddWireguard *)
Definition AddWireguard (m : NetlinkManager) (name : string) : prog sys err :=
  link_add m (GenericLink name 0 "wireguard").

(* go: netlink/netlink.go 1025-1032 AddTap *)
Definition AddTap (m : NetlinkManager) (name : string) : prog sys err :=
  link_add m (Tuntap name TUNTAP_MODE_TAP).

(* go: netlink/netlink.go 1034-1041 AddTun *)
Definition AddTun (m : NetlinkManager) (name : string) : prog sys err :=
  link_add m (Tuntap name TUNTAP_MODE_TUN).

(* go: netlink/netlink.go 1043-1066 AddIpvlan *)
Definition AddIpvlan (m : NetlinkManager) (name parentName mode : string) : prog sys err :=
  get! parent := link_by_name m parentName as no_parent parentName;
  let s := Str.to_lower mode in
  let ipvlanMode := if Str.eqb s "l3" then IPVLAN_MODE_L3
                    else if Str.eqb s "l3s" then IPVLAN_MODE_L3S else IPVLAN_MODE_L2 in
  link_add m (IPVlan name (Link_Index parent) ipvlanMode).

(** *** Bonds *)

(* go: netlink/netlink.go 476-499 BondOptions *)
Record BondOptions := MkBondOptions {
  BondOptions_Mode : string;
  BondOptions_LacpRate : string;
  BondOptions_MIIMonitorInterval : Z;
  BondOptions_MinLinks : Z;
  BondOptions_TransmitHashPolicy : string;
  BondOptions_ADSelect : string;
  BondOptions_AllSlavesActive : bool;
  BondOptions_ARPInterval : Z;
  BondOptions_ARPIPTargets : list string;
  BondOptions_ARPValidate : string;
  BondOptions_ARPAllTargets : string;
  BondOptions_UpDelay : Z;
  BondOptions_DownDelay : Z;
  BondOptions_FailOverMACPolicy : string;
  BondOptions_GratuitousARP : Z;
  BondOptions_PacketsPerSlave : Z;
  BondOptions_PrimaryReselectPolicy : string;
  BondOptions_ResendIGMP : Z;
  BondOptions_LearnPacketInterval : Z;
  BondOptions_Primary : string
}.

Definition BondOptions_zero : BondOptions :=
  MkBondOptions "" "" 0 0 "" "" false 0 [] "" "" 0 0 "" 0 0 "" 0 0 "".

(* go: netlink/netlink.go 1797-1817 ParseBondMode *)
Definition ParseBondMode (mode : string) : BondMode :=
  let s := Str.to_lower mode in
  if Str.eqb s "balance-rr" || Str.eqb s "0" then BOND_MODE_BALANCE_RR
  else if Str.eqb s "active-backup" || Str.eqb s "1" then BOND_MODE_ACTIVE_BACKUP
  else if Str.eqb s "balance-xor" || Str.eqb s "2" then BOND_MODE_BALANCE_XOR
  else if Str.eqb s "broadcast" || Str.eqb s "3" then BOND_MODE_BROADCAST
  else if Str.eqb s "802.3ad" || Str.eqb s "4" then BOND_MODE_802_3AD
  else if Str.eqb s "balance-tlb" || Str.eqb s "5" then BOND_MODE_BALANCE_TLB
  else if Str.eqb s "balance-alb" || Str.eqb s "6" then BOND_MODE_BALANCE_ALB
  else BOND_MODE_BALANCE_RR.

(* go: netlink/netlink.go 628-638 parseBondAdSelect *)
Definition parseBondAdSelect (s : string) : option BondAdSelect :=
  let s := Str.to_lower s in
  if Str.eqb s "stable" then Some BOND_AD_SELECT_STABLE
  else if Str.eqb s "bandwidth" then Some BOND_AD_SELECT_BANDWIDTH
  else if Str.eqb s "count" then Some BOND_AD_SELECT_COUNT
  else None.

(* go: netlink/netlink.go 640-652 parseBondArpValidate *)
Definition parseBondArpValidate (s : string) : option BondArpValidate :=
  let s := Str.to_lower s in
  if Str.eqb s "none" then Some BOND_ARP_VALIDATE_NONE
  else if Str.eqb s "active" then Some BOND_ARP_VALIDATE_ACTIVE
  else if Str.eqb s "backup" then Some BOND_ARP_VALIDATE_BACKUP
  else if Str.eqb s "all" then Some BOND_ARP_VALIDATE_ALL
  else None.

(* go: netlink/netlink.go 654-662 parseBondArpAllTargets *)
Definition parseBondArpAllTargets (s : string) : option BondArpAllTargets :=
  let s := Str.to_lower s in
  if Str.eqb s "any" then Some BOND_ARP_ALL_TARGETS_ANY
  else if Str.eqb s "all" then Some BOND_ARP_ALL_TARGETS_ALL
  else None.

(* go: netlink/netlink.go 664-674 parseBondFailOverMac *)
Definition parseBondFailOverMac (s : string) : option BondFailOverMac :=
  let s := Str.to_lower s in
  if Str.eqb s "none" then Some BOND_FAIL_OVER_MAC_NONE
  else if Str.eqb s "active" then Some BOND_FAIL_OVER_MAC_ACTIVE
  else if Str.eqb s "follow" then Some BOND_FAIL_OVER_MAC_FOLLOW
  else None.

(* go: netlink/netlink.go 676-686 parseBondPrimaryReselect *)
Definition parseBondPrimaryReselect (s : string) : option BondPrimaryReselect :=
  let s := Str.to_lower s in
  if Str.eqb s "always" then Some BOND_PRIMARY_RESELECT_ALWAYS
  else if Str.eqb s "better" then Some BOND_PRIMARY_RESELECT_BETTER
  else if Str.eqb s "failure" then Some BOND_PRIMARY_RESELECT_FAILURE
  else None.

(** [if s != "" { v, ok := parse(s); if !ok { return bad }; field = v }]. *)
Definition enum_field {A} (s : string) (parse : string -> option A) (bad : error) : res (option A) :=
  if Str.is_empty s then Ok None
  else match parse s with Some v => Ok (Some v) | None => Err bad end.

(** [if v != 0 { field = v }]. *)
Definition int_field (v : Z) : option Z := if v =? 0 then None else Some v.

(** A loop that parses addresses: the error [bad] for the first wrong one. *)
Fixpoint parse_ips (l : list string) (bad : string -> error) : res (list Net.IP) :=
  match l with
  | [] => Ok []
  | s :: l =>
      match Net.ParseIP s with
      | None => Err (bad s)
      | Some ip => match parse_ips l bad with Ok ips => Ok (ip :: ips) | Err e => Err e end
      end
  end.

(* go: netlink/netlink.go 501-626 AddBond *)
Definition AddBond `{Libs} (m : NetlinkManager) (name : string) (opts : BondOptions) : prog sys err :=
  get! lacpRate := Ret (enum_field (BondOptions_LacpRate opts)
      (fun s => StringToBondLacpRate (Str.to_lower s))
      (EMsg "bond %s: invalid lacp-rate %q (expected slow|fast)" [name; BondOptions_LacpRate opts]))
    as same_err;
  get! xmit := Ret (enum_field (BondOptions_TransmitHashPolicy opts)
      (fun s => StringToBondXmitHashPolicy (Str.to_lower s))
      (EMsg "bond %s: invalid transmit-hash-policy %q" [name; BondOptions_TransmitHashPolicy opts]))
    as same_err;
  get! adSelect := Ret (enum_field (BondOptions_ADSelect opts) parseBondAdSelect
      (EMsg "bond %s: invalid ad-select %q (expected stable|bandwidth|count)" [name; BondOptions_ADSelect opts]))
    as same_err;
  get! arpValidate := Ret (enum_field (BondOptions_ARPValidate opts) parseBondArpValidate
      (EMsg "bond %s: invalid arp-validate %q (expected none|active|backup|all)"
         [name; BondOptions_ARPValidate opts]))
    as same_err;
  get! arpAllTargets := Ret (enum_field (BondOptions_ARPAllTargets opts) parseBondArpAllTargets
      (EMsg "bond %s: invalid arp-all-targets %q (expected any|all)" [name; BondOptions_ARPAllTargets opts]))
    as same_err;
  get! failOverMac := Ret (enum_field (BondOptions_FailOverMACPolicy opts) parseBondFailOverMac
      (EMsg "bond %s: invalid fail-over-mac-policy %q (expected none|active|follow)"
         [name; BondOptions_FailOverMACPolicy opts]))
    as same_err;
  get! primaryReselect := Ret (enum_field (BondOptions_PrimaryReselectPolicy opts) parseBondPrimaryReselect
      (EMsg "bond %s: invalid primary-reselect-policy %q (expected always|better|failure)"
         [name; BondOptions_PrimaryReselectPolicy opts]))
    as same_err;
  get! targets := Ret (parse_ips (BondOptions_ARPIPTargets opts)
      (fun t => EMsg "bond %s: invalid arp-ip-target %q" [name; t]))
    as same_err;
  primary ← (if negb (Str.is_empty (BondOptions_Primary opts)) then
               r ← link_by_name m (BondOptions_Primary opts);
               Ret (match r with Ok link => Some (Link_Index link) | Err _ => None end)
             else Ret None);
  link_add m (BondLink ((NewLinkBond name)
    <| Bond_Mode := ParseBondMode (BondOptions_Mode opts) |>
    <| Bond_LacpRate := lacpRate |>
    <| Bond_XmitHashPolicy := xmit |>
    <| Bond_AdSelect := adSelect |>
    <| Bond_ArpValidate := arpValidate |>
    <| Bond_ArpAllTargets := arpAllTargets |>
    <| Bond_FailOverMac := failOverMac |>
    <| Bond_PrimaryReselect := primaryReselect |>
    <| Bond_Miimon := int_field (BondOptions_MIIMonitorInterval opts) |>
    <| Bond_MinLinks := int_field (BondOptions_MinLinks opts) |>
    <| Bond_ArpInterval := int_field (BondOptions_ARPInterval opts) |>
    <| Bond_UpDelay := int_field (BondOptions_UpDelay opts) |>
    <| Bond_DownDelay := int_field (BondOptions_DownDelay opts) |>
    <| Bond_NumPeerNotif := int_field (BondOptions_GratuitousARP opts) |>
    <| Bond_PacketsPerSlave := int_field (BondOptions_PacketsPerSlave opts) |>
    <| Bond_ResendIgmp := int_field (BondOptions_ResendIGMP opts) |>
    <| Bond_LpInterval := int_field (BondOptions_LearnPacketInterval opts) |>
    <| Bond_AllSlavesActive := if BondOptions_AllSlavesActive opts then Some 1 else None |>
    <| Bond_ArpIpTargets := match BondOptions_ARPIPTargets opts with [] => None | _ => Some targets end |>
    <| Bond_Primary := primary |>)).

(** *** VXLAN *)

(* go: netlink/netlink.go 817-842 VxlanOptions *)
Record VxlanOptions := MkVxlanOptions {
  VxlanOptions_Link : string;
  VxlanOptions_Local : string;
  VxlanOptions_Remote : string;
  VxlanOptions_Group : string;
  VxlanOptions_Port : Z;
  VxlanOptions_DestPort : Z;
  VxlanOptions_PortLow : Z;
  VxlanOptions_PortHigh : Z;
  VxlanOptions_TTL : Z;
  VxlanOptions_TOS : Z;
  VxlanOptions_Age : Z;
  VxlanOptions_Limit : Z;
  VxlanOptions_Learning : option bool;
  VxlanOptions_Proxy : option bool;
  VxlanOptions_RSC : option bool;
  VxlanOptions_L2miss : option bool;
  VxlanOptions_L3miss : option bool;
  VxlanOptions_NoAge : bool;
  VxlanOptions_GBP : bool;
  VxlanOptions_FlowBased : bool;
  VxlanOptions_UDPCSum : bool;
  VxlanOptions_UDP6ZeroCSumTx : bool;
  VxlanOptions_UDP6ZeroCSumRx : bool
}.

(** [if s != "" { field = net.ParseIP(s) }]: a wrong address makes it nil. *)
Definition ip_field (s : string) (old : option Net.IP) : option Net.IP :=
  if Str.is_empty s then old else Net.ParseIP s.

(** [if v > 0 { field = v }]. *)
Definition pos_field (v old : Z) : Z := if 0 <? v then v else old.

(* go: netlink/netlink.go 732-815 AddVxlan *)
Definition AddVxlan (m : NetlinkManager) (name : string) (vni : Z) (opts : VxlanOptions) : prog sys err :=
  vtep ← (if negb (Str.is_empty (VxlanOptions_Link opts)) then
            r ← link_by_name m (VxlanOptions_Link opts);
            Ret (match r with Ok parent => Link_Index parent | Err _ => 0 end)
          else Ret 0);
  link_add m (NewVxlan {|
    VxlanLink_Name := name;
    VxlanLink_VxlanId := vni;
    VxlanLink_VtepDevIndex := vtep;
    VxlanLink_SrcAddr := ip_field (VxlanOptions_Local opts) None;
    VxlanLink_Group := ip_field (VxlanOptions_Group opts) (ip_field (VxlanOptions_Remote opts) None);
    VxlanLink_TTL := pos_field (VxlanOptions_TTL opts) 0;
    VxlanLink_TOS := pos_field (VxlanOptions_TOS opts) 0;
    VxlanLink_Learning := default false (VxlanOptions_Learning opts);
    VxlanLink_Proxy := default false (VxlanOptions_Proxy opts);
    VxlanLink_RSC := default false (VxlanOptions_RSC opts);
    VxlanLink_L2miss := default false (VxlanOptions_L2miss opts);
    VxlanLink_L3miss := default false (VxlanOptions_L3miss opts);
    VxlanLink_UDPCSum := VxlanOptions_UDPCSum opts;
    VxlanLink_UDP6ZeroCSumTx := VxlanOptions_UDP6ZeroCSumTx opts;
    VxlanLink_UDP6ZeroCSumRx := VxlanOptions_UDP6ZeroCSumRx opts;
    VxlanLink_NoAge := VxlanOptions_NoAge opts;
    VxlanLink_GBP := VxlanOptions_GBP opts;
    VxlanLink_FlowBased := VxlanOptions_FlowBased opts;
    VxlanLink_Age := pos_field (VxlanOptions_Age opts) 0;
    VxlanLink_Limit := pos_field (VxlanOptions_Limit opts) 0;
    VxlanLink_Port := pos_field (VxlanOptions_DestPort opts) (pos_field (VxlanOptions_Port opts) 0);
    VxlanLink_PortLow := pos_field (VxlanOptions_PortLow opts) 0;
    VxlanLink_PortHigh := pos_field (VxlanOptions_PortHigh opts) 0
  |}).

(** *** Tunnels *)

(* go: netlink/netlink.go 870-883 TunnelOptions *)
Record TunnelOptions := MkTunnelOptions {
  TunnelOptions_Mode : string;
  TunnelOptions_Local : string;
  TunnelOptions_Remote : string;
  TunnelOptions_TTL : Z;
  TunnelOptions_TOS : Z;
  TunnelOptions_Key : string;
  TunnelOptions_InputKey : string;
  TunnelOptions_OutputKey : string;
  TunnelOptions_Link : string;
  TunnelOptions_EncapType : string;
  TunnelOptions_EncapPort : Z
}.

(** [if v > 0 { field = uint8(v) }]. *)
Definition byte_field (v : Z) : Z := if 0 <? v then v mod 256 else 0.

(** The switch of AddTunnel: the link to create, unless the mode is unknown. *)
(* go: netlink/netlink.go 888-1008 AddTunnel *)
Definition tunnel_link (name : string) (parent : Z) (opts : TunnelOptions) : option NewLink :=
  let s := Str.to_lower (TunnelOptions_Mode opts) in
  let t := MkTunnelLink name parent (ip_field (TunnelOptions_Local opts) None)
             (ip_field (TunnelOptions_Remote opts) None) 0 0 in
  let ttl := byte_field (TunnelOptions_TTL opts) in
  let tos := byte_field (TunnelOptions_TOS opts) in
  if Str.eqb s "gre" || Str.eqb s "gretap" then
    Some (Gretap (t <| TunnelLink_Ttl := ttl |> <| TunnelLink_Tos := tos |>))
  else if Str.eqb s "ip6gre" || Str.eqb s "ip6gretap" then Some (GenericLink name parent "ip6gre")
  else if Str.eqb s "ipip" || Str.eqb s "ipip4" then
    Some (Iptun (t <| TunnelLink_Ttl := ttl |> <| TunnelLink_Tos := tos |>))
  else if Str.eqb s "ip6ip6" || Str.eqb s "ipip6" || Str.eqb s "ip6tnl" then
    Some (Ip6tnl (t <| TunnelLink_Ttl := ttl |>))
  else if Str.eqb s "sit" then Some (Sittun (t <| TunnelLink_Ttl := ttl |>))
  else if Str.eqb s "vti" then Some (Vti t)
  else if Str.eqb s "vti6" then Some (Vti t)
  else if Str.eqb s "wireguard" || Str.eqb s "wg" then Some (GenericLink name parent "wireguard")
  else None.

(* go: netlink/netlink.go 885-1014 AddTunnel *)
Definition AddTunnel (m : NetlinkManager) (name : string) (opts : TunnelOptions) : prog sys err :=
  parent ← (if negb (Str.is_empty (TunnelOptions_Link opts)) then
              r ← link_by_name m (TunnelOptions_Link opts);
              Ret (match r with Ok parent => Link_Index parent | Err _ => 0 end)
            else Ret 0);
  match tunnel_link name parent opts with
  | Some link => link_add m link
  | None => Ret (Some (EMsg "unsupported tunnel mode: %s" [TunnelOptions_Mode opts]))
  end.

(** ** Forwarding database, neighbours *)

(* go: netlink/netlink.go 1070-1077 FDBEntry *)
Record NlFDBEntry := MkNlFDBEntry {
  NlFDBEntry_MAC : string;
  NlFDBEntry_Ifname : string;
  NlFDBEntry_Dst : string;
  NlFDBEntry_VNI : Z;
  NlFDBEntry_State : string
}.

(* go: netlink/netlink.go 1154-1160 NeighEntry *)
Record NlNeighEntry := MkNlNeighEntry {
  NlNeighEntry_IP : string;
  NlNeighEntry_MAC : string;
  NlNeighEntry_Ifname : string;
  NlNeighEntry_State : string
}.

(** The switch on the state of an entry, in AddFDBEntry and AddNeighEntry. *)
(* go: netlink/netlink.go 1105-1112 AddFDBEntry *)
Definition neigh_state (s : string) : NeighState :=
  let s := Str.to_lower s in
  if Str.eqb s "permanent" then NUD_PERMANENT
  else if Str.eqb s "static" then NUD_NOARP
  else NUD_REACHABLE.

(* go: netlink/netlink.go 1079-1115 AddFDBEntry *)
Definition AddFDBEntry (m : NetlinkManager) (entry : NlFDBEntry) : prog sys err :=
  on_link m (NlFDBEntry_Ifname entry) (fun link =>
    match Net.ParseMAC (NlFDBEntry_MAC entry) with
    | None => Ret (Some (EWrap "invalid MAC %s: %w" [NlFDBEntry_MAC entry] (bad_mac (NlFDBEntry_MAC entry))))
    | Some hwAddr =>
        call (NeighAdd (mgr_handle m) {|
          Neigh_LinkIndex := Link_Index link;
          Neigh_Family := AF_BRIDGE;
          Neigh_State := Some (neigh_state (NlFDBEntry_State entry));
          Neigh_Flags := Some NTF_SELF;
          Neigh_IP := ip_field (NlFDBEntry_Dst entry) None;
          Neigh_HardwareAddr := hwAddr |})
    end).

(* go: netlink/netlink.go 1117-1140 DeleteFDBEntry *)
Definition DeleteFDBEntry (m : NetlinkManager) (entry : NlFDBEntry) : prog sys err :=
  on_link m (NlFDBEntry_Ifname entry) (fun link =>
    match Net.ParseMAC (NlFDBEntry_MAC entry) with
    | None => Ret (Some (EWrap "invalid MAC %s: %w" [NlFDBEntry_MAC entry] (bad_mac (NlFDBEntry_MAC entry))))
    | Some hwAddr =>
        call (NeighDel (mgr_handle m) {|
          Neigh_LinkIndex := Link_Index link;
          Neigh_Family := AF_BRIDGE;
          Neigh_State := None;
          Neigh_Flags := None;
          Neigh_IP := ip_field (NlFDBEntry_Dst entry) None;
          Neigh_HardwareAddr := hwAddr |})
    end).

(* go: netlink/netlink.go 1142-1150 ListFDBEntries *)
Definition ListFDBEntries (m : NetlinkManager) (ifname : string) : prog sys (res (list Neigh)) :=
  let! link := link_by_name m ifname as no_link ifname;
  call (NeighList (mgr_handle m) (Link_Index link) AF_BRIDGE).

(* go: netlink/netlink.go 1230-1238 ListNeighEntries *)
Definition ListNeighEntries (m : NetlinkManager) (ifname : string) : prog sys (res (list Neigh)) :=
  let! link := link_by_name m ifname as no_link ifname;
  call (NeighList (mgr_handle m) (Link_Index link) FAMILY_ALL).

Definition ip_family (ip : Net.IP) : Family :=
  match Net.To4 ip with Some _ => FAMILY_V4 | None => FAMILY_V6 end.

(* go: netlink/netlink.go 1204-1228 DeleteNeighEntry *)
Definition DeleteNeighEntry (m : NetlinkManager) (entry : NlNeighEntry) : prog sys err :=
  on_link m (NlNeighEntry_Ifname entry) (fun link =>
    match Net.ParseIP (NlNeighEntry_IP entry) with
    | None => Ret (Some (EMsg "invalid IP %s" [NlNeighEntry_IP entry]))
    | Some ip =>
        call (NeighDel (mgr_handle m) {|
          Neigh_LinkIndex := Link_Index link;
          Neigh_Family := ip_family ip;
          Neigh_State := None;
          Neigh_Flags := None;
          Neigh_IP := Some ip;
          Neigh_HardwareAddr := [] |})
    end).

(* go: netlink/netlink.go 1162-1202 AddNeighEntry *)
Definition AddNeighEntry (m : NetlinkManager) (entry : NlNeighEntry) : prog sys err :=
  on_link m (NlNeighEntry_Ifname entry) (fun link =>
    match Net.ParseIP (NlNeighEntry_IP entry) with
    | None => Ret (Some (EMsg "invalid IP %s" [NlNeighEntry_IP entry]))
    | Some ip =>
        match Net.ParseMAC (NlNeighEntry_MAC entry) with
        | None => Ret (Some (EWrap "invalid MAC %s: %w" [NlNeighEntry_MAC entry]
                               (bad_mac (NlNeighEntry_MAC entry))))
        | Some hwAddr =>
            call (NeighAdd (mgr_handle m) {|
              Neigh_LinkIndex := Link_Index link;
              Neigh_Family := ip_family ip;
              Neigh_State := Some (neigh_state (NlNeighEntry_State entry));
              Neigh_Flags := None;
              Neigh_IP := Some ip;
              Neigh_HardwareAddr := hwAddr |})
        end
    end).

(** ** sysfs and sysctl *)

(* go: netlink/netlink.go 1348-1354 writeSysfs *)
Definition writeSysfs (path value : string) : prog sys err :=
  try! call (WriteFile path value) as EWrap "write sysfs %s: %w" [path];
  Ret None.

(* go: netlink/netlink.go 1356-1358 writeSysfsInt *)
Definition writeSysfsInt (path : string) (v : Z) : prog sys err := writeSysfs path (Str.itoa v).

(* go: netlink/netlink.go 1360-1365 writeSysfsBool *)
Definition writeSysfsBool (path : string) (b : bool) : prog sys err :=
  writeSysfs path (if b then "1" else "0").

Definition sys_net (name file : string) : string := "/sys/class/net/" +:+ name +:+ "/" +:+ file.

(* go: netlink/netlink.go 1242-1246 SetBridgeVlanFiltering *)
Definition SetBridgeVlanFiltering (name : string) (enable : bool) : prog sys err :=
  writeSysfsBool (sys_net name "bridge/vlan_filtering") enable.

(* go: netlink/netlink.go 1248-1253 SetLinkNeighSuppress *)
Definition SetLinkNeighSuppress (name : string) (enable : bool) : prog sys err :=
  writeSysfsBool (sys_net name "brport/neigh_suppress") enable.

(* go: netlink/netlink.go 1255-1259 SetLinkLearning *)
Definition SetLinkLearning (name : string) (enable : bool) : prog sys err :=
  writeSysfsBool (sys_net name "brport/learning") enable.

(* go: netlink/netlink.go 1291-1295 SetBridgePortHairpin *)
Definition SetBridgePortHairpin (name : string) (enable : bool) : prog sys err :=
  writeSysfsBool (sys_net name "brport/hairpin_mode") enable.

(* go: netlink/netlink.go 1336-1340 SetBridgePortPathCost *)
Definition SetBridgePortPathCost (port : string) (cost : Z) : prog sys err :=
  writeSysfsInt (sys_net port "brport/path_cost") cost.

(* go: netlink/netlink.go 1342-1346 SetBridgePortPriority *)
Definition SetBridgePortPriority (port : string) (priority : Z) : prog sys err :=
  writeSysfsInt (sys_net port "brport/priority") priority.

(** [errors.Join]: nil when every error is nil. *)
Definition errors_join (errs : list err) : err :=
  match omap id errs with [] => None | es => Some (EJoin es) end.

(** Writes a parameter that is not zero, in hundredths of a second for a time. *)
Definition write_param (errs : list err) (path : string) (v scale : Z) : prog sys (list err) :=
  if v =? 0 then Ret errs else e ← writeSysfsInt path (v * scale); Ret (errs ++ [e]).

(* go: netlink/netlink.go 1297-1334 SetBridgeParameters *)
Definition SetBridgeParameters (name : string) (opts : BridgeOptions) : prog sys err :=
  let base := "/sys/class/net/" +:+ name +:+ "/bridge" in
  errs ← match BridgeOptions_STP opts with
         | Some stp => e ← writeSysfsBool (base +:+ "/stp_state") stp; Ret [e]
         | None => Ret []
         end;
  errs ← write_param errs (base +:+ "/forward_delay") (BridgeOptions_ForwardDelay opts) 100;
  errs ← write_param errs (base +:+ "/hello_time") (BridgeOptions_HelloTime opts) 100;
  errs ← write_param errs (base +:+ "/max_age") (BridgeOptions_MaxAge opts) 100;
  errs ← write_param errs (base +:+ "/ageing_time") (BridgeOptions_AgeingTime opts) 100;
  errs ← write_param errs (base +:+ "/priority") (BridgeOptions_Priority opts) 1;
  Ret (errors_join errs).

(** The request is built by hand, on the handle of the package. *)
(* go: netlink/netlink.go 1261-1289 SetIPv6Token *)
Definition SetIPv6Token (ifaceName token : string) : prog sys err :=
  match Net.ParseIP token with
  | None => Ret (Some (EMsg "invalid ipv6 token %q" [token]))
  | Some ip =>
      get! link := call (LinkByName None ifaceName) as no_link ifaceName;
      try! call (LinkSetIPv6Token (Link_Index link mod 2^32) ip)
        as EWrap "failed to set ipv6 token on %s: %w" [ifaceName];
      Ret None
  end.

(* go: netlink/dhcp.go 549-551 writeSysctl *)
Definition writeSysctl (ifaceName key value : string) : prog sys err :=
  call (WriteFile ("/proc/sys/net/ipv6/conf/" +:+ ifaceName +:+ "/" +:+ key) value).

(** ** Addresses *)

(** [^uint32(0)] in an int of 64 bits. *)
Definition infLft : Z := 2^32 - 1.

(* go: netlink/netlink.go 1374-1411 AddAddressOpts *)
Definition AddAddressOpts `{Libs} (m : NetlinkManager) (linkName cidr label lifetime : string) : prog sys err :=
  on_link m linkName (fun link =>
    match ParseAddr cidr with
    | Err e => Ret (Some (EWrap "invalid address %s: %w" [cidr] e))
    | Ok addr =>
        let addr := if negb (Str.is_empty label) then addr <| Addr_Label := label |> else addr in
        let l := Str.to_lower lifetime in
        if Str.eqb l "" || Str.eqb l "forever" then call (AddrAdd (mgr_handle m) link addr)
        else if Str.eqb l "0" then
          call (AddrAdd (mgr_handle m) link
            (addr <| Addr_ValidLft := infLft |> <| Addr_PreferedLft := 0 |>))
        else Ret (Some (EMsg "invalid address lifetime %q (expected 0 or forever)" [lifetime]))
    end).

(* go: netlink/netlink.go 1369-1372 AddAddress *)
Definition AddAddress `{Libs} (m : NetlinkManager) (linkName cidr : string) : prog sys err :=
  AddAddressOpts m linkName cidr "" "".

(* go: netlink/netlink.go 1413-1426 DeleteAddress *)
Definition DeleteAddress `{Libs} (m : NetlinkManager) (linkName cidr : string) : prog sys err :=
  on_link m linkName (fun link =>
    match ParseAddr cidr with
    | Err e => Ret (Some (EWrap "invalid address %s: %w" [cidr] e))
    | Ok addr => call (AddrDel (mgr_handle m) link addr)
    end).

(* go: netlink/netlink.go 1428-1436 ListAddresses *)
Definition ListAddresses (m : NetlinkManager) (linkName : string) : prog sys (res (list Addr)) :=
  let! link := link_by_name m linkName as no_link linkName;
  call (AddrList (mgr_handle m) link FAMILY_ALL).

(* go: netlink/netlink.go 1438-1451 HasAddress *)
Definition HasAddress (m : NetlinkManager) (linkName cidr : string) : prog sys (res bool) :=
  let! addrs := ListAddresses m linkName as same_err;
  Ret (Ok (existsb (fun addr => Str.eqb (Net.IPNet_String (Addr_IPNet addr)) cidr) addrs)).

(* go: netlink/netlink.go 1685-1703 ListRoutes *)
Definition ListRoutes (m : NetlinkManager) (linkName : string) : prog sys (res (list NlRoute)) :=
  let! index := (if Str.is_empty linkName then Ret (Ok 0)
                 else let! link := link_by_name m linkName as no_link linkName; Ret (Ok (Link_Index link)))
    as same_err;
  call (RouteList (mgr_handle m) index).

(** ** Devlink *)

(* go: netlink/netlink.go 1466-1474 SetEswitchMode *)
Definition SetEswitchMode (m : NetlinkManager) (pci mode : string) : prog sys err :=
  get! dev := call (DevLinkGetDeviceByName (mgr_handle m) "pci" pci) as EWrap "devlink get pci/%s: %w" [pci];
  call (DevLinkSetEswitchMode (mgr_handle m) dev mode).

(** ** Routes *)

(* go: netlink/netlink.go 1492-1496 SEG6EncapOpts *)
Record SEG6EncapOpts := MkSEG6EncapOpts {
  SEG6EncapOpts_Mode : string;
  SEG6EncapOpts_Segments : list string
}.

(* go: netlink/netlink.go 1476-1490 RouteOptions *)
Record RouteOptions := MkRouteOptions {
  RouteOptions_Dst : string;
  RouteOptions_Gw : string;
  RouteOptions_Dev : string;
  RouteOptions_Src : string;
  RouteOptions_Metric : Z;
  RouteOptions_Table : Z;
  RouteOptions_Scope : string;
  RouteOptions_Type : string;
  RouteOptions_OnLink : bool;
  RouteOptions_MTU : Z;
  RouteOptions_Encap : option SEG6EncapOpts
}.

Definition RouteOptions_zero : RouteOptions :=
  MkRouteOptions "" "" "" "" 0 0 "" "" false 0 None.

Definition bad_cidr (s : string) : error := EMsg "invalid CIDR address: %s" [s].

(** [net.ParseCIDR(s)], as far as the network. *)
Definition parse_cidr_net (s : string) : res Net.IPNet :=
  match Net.ParseCIDR s with Some (_, n) => Ok n | None => Err (bad_cidr s) end.

(** The destination of a route: nil for a default route. *)
(* go: netlink/netlink.go 1502-1511 AddRouteOpts *)
Definition route_dst (dst : string) : res (option Net.IPNet) :=
  if Str.eqb dst "default" || Str.eqb dst "0.0.0.0/0" then Ok None
  else match parse_cidr_net dst with
       | Ok n => Ok (Some n)
       | Err e => Err (EWrap "invalid destination %s: %w" [dst] e)
       end.

(** [if s != "" { field = net.ParseIP(s); if field == nil { return bad } }]. *)
Definition checked_ip (s : string) (bad : error) : res (option Net.IP) :=
  if Str.is_empty s then Ok None
  else match Net.ParseIP s with Some ip => Ok (Some ip) | None => Err bad end.

(* go: netlink/netlink.go 1590-1608 buildSEG6Encap *)
Definition buildSEG6Encap (o : SEG6EncapOpts) : res Encap :=
  let mode := if Str.equal_fold (SEG6EncapOpts_Mode o) "inline" then SEG6_IPTUN_MODE_INLINE
              else SEG6_IPTUN_MODE_ENCAP in
  match SEG6EncapOpts_Segments o with
  | [] => Err (EMsg "seg6 encap requires at least one segment" [])
  | segs => match parse_ips segs (fun s => EMsg "invalid seg6 segment %q" [s]) with
            | Ok ips => Ok (SEG6Encap mode ips)
            | Err e => Err e
            end
  end.

(* go: netlink/netlink.go 1610-1624 parseRouteScope *)
Definition parseRouteScope (s : string) : option RouteScope :=
  let s := Str.to_lower s in
  if Str.eqb s "global" || Str.eqb s "universe" then Some SCOPE_UNIVERSE
  else if Str.eqb s "site" then Some SCOPE_SITE
  else if Str.eqb s "link" then Some SCOPE_LINK
  else if Str.eqb s "host" then Some SCOPE_HOST
  else if Str.eqb s "nowhere" then Some SCOPE_NOWHERE
  else None.

(* go: netlink/netlink.go 1626-1650 parseRouteType *)
Definition parseRouteType (s : string) : option RouteType :=
  let s := Str.to_lower s in
  if Str.eqb s "unicast" then Some RTN_UNICAST
  else if Str.eqb s "local" then Some RTN_LOCAL
  else if Str.eqb s "broadcast" then Some RTN_BROADCAST
  else if Str.eqb s "anycast" then Some RTN_ANYCAST
  else if Str.eqb s "multicast" then Some RTN_MULTICAST
  else if Str.eqb s "blackhole" then Some RTN_BLACKHOLE
  else if Str.eqb s "unreachable" then Some RTN_UNREACHABLE
  else if Str.eqb s "prohibit" then Some RTN_PROHIBIT
  else if Str.eqb s "throw" then Some RTN_THROW
  else if Str.eqb s "nat" then Some RTN_NAT
  else None.

(* go: netlink/netlink.go 1498-1588 AddRouteOpts *)
Definition AddRouteOpts (m : NetlinkManager) (opts : RouteOptions) : prog sys err :=
  get! dst := Ret (route_dst (RouteOptions_Dst opts)) as same_err;
  get! gw := Ret (checked_ip (RouteOptions_Gw opts) (EMsg "invalid gateway %s" [RouteOptions_Gw opts]))
    as same_err;
  get! index := (if Str.is_empty (RouteOptions_Dev opts) then Ret (Ok 0)
                 else let! link := link_by_name m (RouteOptions_Dev opts) as no_link (RouteOptions_Dev opts);
                      Ret (Ok (Link_Index link)))
    as same_err;
  get! src := Ret (checked_ip (RouteOptions_Src opts)
                     (EMsg "invalid source address %s" [RouteOptions_Src opts]))
    as same_err;
  get! scope := Ret (enum_field (RouteOptions_Scope opts) parseRouteScope
      (EMsg "invalid route scope %q (expected global|link|host|site|nowhere)" [RouteOptions_Scope opts]))
    as same_err;
  get! type := Ret (enum_field (RouteOptions_Type opts) parseRouteType
                      (EMsg "invalid route type %q" [RouteOptions_Type opts]))
    as same_err;
  let route := {|
    NlRoute_LinkIndex := index;
    NlRoute_Dst := dst;
    NlRoute_Gw := gw;
    NlRoute_Src := src;
    NlRoute_Priority := pos_field (RouteOptions_Metric opts) 0;
    NlRoute_Table := pos_field (RouteOptions_Table opts) 0;
    NlRoute_Scope := default SCOPE_UNIVERSE scope;
    NlRoute_Type := type;
    NlRoute_OnLink := RouteOptions_OnLink opts;
    NlRoute_MTU := pos_field (RouteOptions_MTU opts) 0;
    NlRoute_Encap := NoEncap |} in
  match RouteOptions_Encap opts with
  | Some encap =>
      get! enc := Ret (buildSEG6Encap encap) as same_err;
      call (RouteReplace (mgr_handle m) (route <| NlRoute_Encap := enc |>))
  | None => call (RouteAdd (mgr_handle m) route)
  end.

(* go: netlink/netlink.go 1455-1464 AddRoute *)
Definition AddRoute (m : NetlinkManager) (dst gw dev : string) (metric table : Z) : prog sys err :=
  AddRouteOpts m (RouteOptions_zero
    <| RouteOptions_Dst := dst |> <| RouteOptions_Gw := gw |> <| RouteOptions_Dev := dev |>
    <| RouteOptions_Metric := metric |> <| RouteOptions_Table := table |>).

(** A gateway that does not parse is nil here, and the request has none. *)
(* go: netlink/netlink.go 1652-1683 DeleteRoute *)
Definition DeleteRoute (m : NetlinkManager) (dst gw dev : string) (table : Z) : prog sys err :=
  get! net := Ret (route_dst dst) as same_err;
  get! index := (if Str.is_empty dev then Ret (Ok 0)
                 else let! link := link_by_name m dev as no_link dev; Ret (Ok (Link_Index link)))
    as same_err;
  call (RouteDel (mgr_handle m) (NlRoute_zero
    <| NlRoute_Dst := net |> <| NlRoute_Gw := ip_field gw None |>
    <| NlRoute_LinkIndex := index |> <| NlRoute_Table := pos_field table 0 |>)).

(** ** Policy rules *)

(* go: netlink/netlink.go 1707-1723 parseCIDROrIP *)
Definition parseCIDROrIP (s : string) : res Net.IPNet :=
  match Net.ParseCIDR s with
  | Some (_, n) => Ok n
  | None =>
      match Net.ParseIP s with
      | None => Err (EMsg "invalid address %q" [s])
      | Some ip =>
          let bits := match Net.To4 ip with None => 128 | Some _ => 32 end in
          Ok (Net.MkIPNet ip (Net.CIDRMask bits bits))
      end
  end.

(** [if s != "" { n, err := parse(s); if err != nil { return wrapped }; field = n }]. *)
Definition net_field (s : string) (parse : string -> res Net.IPNet) (fmt : string)
    : res (option Net.IPNet) :=
  if Str.is_empty s then Ok None
  else match parse s with Ok n => Ok (Some n) | Err e => Err (EWrap fmt [s] e) end.

Definition pos_opt (v : Z) : option Z := if 0 <? v then Some v else None.

(* go: netlink/netlink.go 1725-1757 AddRule *)
Definition AddRule (m : NetlinkManager) (from to : string) (table priority mark : Z) : prog sys err :=
  get! src := Ret (net_field from parseCIDROrIP "invalid from %s: %w") as same_err;
  get! dst := Ret (net_field to parseCIDROrIP "invalid to %s: %w") as same_err;
  call (RuleAdd (mgr_handle m) (NewRule
    <| Rule_Src := src |> <| Rule_Dst := dst |>
    <| Rule_Table := pos_opt table |> <| Rule_Priority := pos_opt priority |>
    <| Rule_Mark := if 0 <? mark then Some (mark mod 2^32) else None |>)).

(* go: netlink/netlink.go 1759-1788 DeleteRule *)
Definition DeleteRule (m : NetlinkManager) (from to : string) (table priority : Z) : prog sys err :=
  get! src := Ret (net_field from parse_cidr_net "invalid from %s: %w") as same_err;
  get! dst := Ret (net_field to parse_cidr_net "invalid to %s: %w") as same_err;
  call (RuleDel (mgr_handle m) (NewRule
    <| Rule_Src := src |> <| Rule_Dst := dst |>
    <| Rule_Table := pos_opt table |> <| Rule_Priority := pos_opt priority |>)).

(** ** SRv6 *)

(* go: netlink/srv6.go 20-23 EnableSeg6 *)
Definition EnableSeg6 (iface : string) : prog sys err := writeSysctl iface "seg6_enabled" "1".

(* go: netlink/srv6.go 25-29 EnableVRFStrictMode *)
Definition EnableVRFStrictMode : prog sys err := call (WriteFile "/proc/sys/net/vrf/strict_mode" "1").

(* go: netlink/srv6.go 31-42 SRv6LocalSIDOpts *)
Record SRv6LocalSIDOpts := MkSRv6LocalSIDOpts {
  SRv6LocalSIDOpts_SID : string;
  SRv6LocalSIDOpts_Action : string;
  SRv6LocalSIDOpts_Table : Z;
  SRv6LocalSIDOpts_VRFTable : Z;
  SRv6LocalSIDOpts_NH4 : string;
  SRv6LocalSIDOpts_NH6 : string;
  SRv6LocalSIDOpts_IIF : string;
  SRv6LocalSIDOpts_OIF : string;
  SRv6LocalSIDOpts_Segments : list string
}.

(* go: netlink/srv6.go 44-57 srv6ActionCode *)
Definition srv6ActionCode : list (string * Seg6Action) := [
  ("End", SEG6_LOCAL_ACTION_END);
  ("End.X", SEG6_LOCAL_ACTION_END_X);
  ("End.T", SEG6_LOCAL_ACTION_END_T);
  ("End.DX2", SEG6_LOCAL_ACTION_END_DX2);
  ("End.DX4", SEG6_LOCAL_ACTION_END_DX4);
  ("End.DX6", SEG6_LOCAL_ACTION_END_DX6);
  ("End.DT4", SEG6_LOCAL_ACTION_END_DT4);
  ("End.DT6", SEG6_LOCAL_ACTION_END_DT6);
  ("End.DT46", SEG6_LOCAL_ACTION_END_DT46);
  ("End.B6", SEG6_LOCAL_ACTION_END_B6);
  ("End.B6.Encaps", SEG6_LOCAL_ACTION_END_B6_ENCAPS)].

(** The entry of a key in a map literal. *)
Fixpoint assoc {A} (l : list (string * A)) (k : string) : option A :=
  match l with [] => None | (k', v) :: l => if Str.eqb k k' then Some v else assoc l k end.

(* go: netlink/srv6.go 59-70 sidToIPNet *)
Definition sidToIPNet (sid : string) : res Net.IPNet :=
  let bad := EMsg "invalid IPv6 SID %q" [sid] in
  match Net.ParseIP (Str.before_byte sid "/") with
  | None => Err bad
  | Some ip => match Net.To4 ip with
               | Some _ => Err bad
               | None => Ok (Net.MkIPNet ip (Net.CIDRMask 128 128))
               end
  end.

(** A step of the building of an encapsulation: a field and its flag. *)
Definition set_flag (f : Seg6Flag) (enc : SEG6LocalEncap) : SEG6LocalEncap :=
  enc <| SEG6LocalEncap_Flags := SEG6LocalEncap_Flags enc ++ [f] |>.

Definition seg6_tables (o : SRv6LocalSIDOpts) (enc : SEG6LocalEncap) : SEG6LocalEncap :=
  let enc := if 0 <? SRv6LocalSIDOpts_Table o
             then set_flag SEG6_LOCAL_TABLE (enc <| SEG6LocalEncap_Table := SRv6LocalSIDOpts_Table o |>)
             else enc in
  if 0 <? SRv6LocalSIDOpts_VRFTable o
  then set_flag SEG6_LOCAL_VRFTABLE (enc <| SEG6LocalEncap_VrfTable := SRv6LocalSIDOpts_VRFTable o |>)
  else enc.

Definition seg6_nh4 (o : SRv6LocalSIDOpts) (enc : SEG6LocalEncap) : res SEG6LocalEncap :=
  if Str.is_empty (SRv6LocalSIDOpts_NH4 o) then Ok enc
  else match Net.ParseIP (SRv6LocalSIDOpts_NH4 o) ≫= Net.To4 with
       | Some ip4 => Ok (set_flag SEG6_LOCAL_NH4 (enc <| SEG6LocalEncap_InAddr := Some ip4 |>))
       | None => Err (EMsg "invalid nh4 %q" [SRv6LocalSIDOpts_NH4 o])
       end.

Definition seg6_nh6 (o : SRv6LocalSIDOpts) (enc : SEG6LocalEncap) : res SEG6LocalEncap :=
  if Str.is_empty (SRv6LocalSIDOpts_NH6 o) then Ok enc
  else match Net.ParseIP (SRv6LocalSIDOpts_NH6 o) with
       | Some ip => Ok (set_flag SEG6_LOCAL_NH6 (enc <| SEG6LocalEncap_In6Addr := Some ip |>))
       | None => Err (EMsg "invalid nh6 %q" [SRv6LocalSIDOpts_NH6 o])
       end.

Definition seg6_oif (m : NetlinkManager) (o : SRv6LocalSIDOpts) (enc : SEG6LocalEncap)
    : prog sys (res SEG6LocalEncap) :=
  if Str.is_empty (SRv6LocalSIDOpts_OIF o) then Ret (Ok enc)
  else let! link := link_by_name m (SRv6LocalSIDOpts_OIF o)
         as EWrap "seg6local oif %s: %w" [SRv6LocalSIDOpts_OIF o];
       Ret (Ok (set_flag SEG6_LOCAL_OIF (enc <| SEG6LocalEncap_Oif := Link_Index link |>))).

Definition seg6_iif (m : NetlinkManager) (o : SRv6LocalSIDOpts) (enc : SEG6LocalEncap)
    : prog sys (res SEG6LocalEncap) :=
  if Str.is_empty (SRv6LocalSIDOpts_IIF o) then Ret (Ok enc)
  else let! link := link_by_name m (SRv6LocalSIDOpts_IIF o)
         as EWrap "seg6local iif %s: %w" [SRv6LocalSIDOpts_IIF o];
       Ret (Ok (set_flag SEG6_LOCAL_IIF (enc <| SEG6LocalEncap_Iif := Link_Index link |>))).

Definition seg6_segments (o : SRv6LocalSIDOpts) (enc : SEG6LocalEncap) : res SEG6LocalEncap :=
  match SRv6LocalSIDOpts_Segments o with
  | [] => Ok enc
  | segs => match parse_ips segs (fun s => EMsg "invalid segment %q" [s]) with
            | Ok ips => Ok (set_flag SEG6_LOCAL_SRH (enc <| SEG6LocalEncap_Segments := ips |>))
            | Err e => Err e
            end
  end.

Definition SEG6LocalEncap_new (action : Seg6Action) : SEG6LocalEncap :=
  MkSEG6LocalEncap action [SEG6_LOCAL_ACTION] 0 0 None None 0 0 [].

(* go: netlink/srv6.go 72-154 AddLocalSID *)
Definition AddLocalSID (m : NetlinkManager) (dev : string) (o : SRv6LocalSIDOpts) : prog sys err :=
  match assoc srv6ActionCode (SRv6LocalSIDOpts_Action o) with
  | None => Ret (Some (EMsg "unknown seg6local action %q" [SRv6LocalSIDOpts_Action o]))
  | Some code =>
      get! dst := Ret (sidToIPNet (SRv6LocalSIDOpts_SID o)) as same_err;
      let enc := seg6_tables o (SEG6LocalEncap_new code) in
      get! enc := Ret (seg6_nh4 o enc) as same_err;
      get! enc := Ret (seg6_nh6 o enc) as same_err;
      get! enc := seg6_oif m o enc as same_err;
      get! enc := seg6_iif m o enc as same_err;
      get! enc := Ret (seg6_segments o enc) as same_err;
      get! link := link_by_name m dev
        as EWrap "seg6local %s: resolve dev %s: %w" [SRv6LocalSIDOpts_SID o; dev];
      call (RouteReplace (mgr_handle m) (NlRoute_zero
        <| NlRoute_LinkIndex := Link_Index link |> <| NlRoute_Dst := Some dst |>
        <| NlRoute_Encap := SEG6Local enc |>))
  end.

(* go: netlink/srv6.go 156-163 DeleteLocalSID *)
Definition DeleteLocalSID (m : NetlinkManager) (sid : string) : prog sys err :=
  get! dst := Ret (sidToIPNet sid) as same_err;
  call (RouteDel (mgr_handle m) (NlRoute_zero <| NlRoute_Dst := Some dst |>)).

(** ** Neighbour proxies *)

(* go: netlink/ndproxy.go 18-21 EnableProxyNDP *)
Definition EnableProxyNDP (iface : string) : prog sys err := writeSysctl iface "proxy_ndp" "1".

(* go: netlink/ndproxy.go 23-34 SetAllmulti *)
Definition SetAllmulti (m : NetlinkManager) (iface : string) (on : bool) : prog sys err :=
  get! link := link_by_name m iface as EWrap "allmulti %s: %w" [iface];
  call (LinkSetAllmulticast (mgr_handle m) link on).

(* go: netlink/ndproxy.go 36-44 SetAlias *)
Definition SetAlias (m : NetlinkManager) (iface alias : string) : prog sys err :=
  get! link := link_by_name m iface as EWrap "alias %s: %w" [iface];
  call (LinkSetAlias (mgr_handle m) link alias).

(* go: netlink/ndproxy.go 46-62 proxyNDPNeigh *)
Definition proxyNDPNeigh (m : NetlinkManager) (iface ipStr : string) : prog sys (res Neigh) :=
  let! link := link_by_name m iface as same_err;
  let bad := EMsg "nd-proxy: %q is not a valid IPv6 address" [ipStr] in
  Ret (match Net.ParseIP ipStr with
       | None => Err bad
       | Some ip => match Net.To4 ip with
                    | Some _ => Err bad
                    | None => Ok {|
                        Neigh_LinkIndex := Link_Index link;
                        Neigh_Family := FAMILY_V6;
                        Neigh_State := None;
                        Neigh_Flags := Some NTF_PROXY;
                        Neigh_IP := Some ip;
                        Neigh_HardwareAddr := [] |}
                    end
       end).

(* go: netlink/ndproxy.go 64-71 AddProxyNDP *)
Definition AddProxyNDP (m : NetlinkManager) (iface ipStr : string) : prog sys err :=
  get! neigh := proxyNDPNeigh m iface ipStr as EWrap "nd-proxy add %s on %s: %w" [ipStr; iface];
  call (NeighSet (mgr_handle m) neigh).

(* go: netlink/ndproxy.go 73-84 DeleteProxyNDP *)
Definition DeleteProxyNDP (m : NetlinkManager) (iface ipStr : string) : prog sys err :=
  r ← proxyNDPNeigh m iface ipStr;
  match r with
  | Ok neigh => call (NeighDel (mgr_handle m) neigh)
  | Err e => l ← link_by_name m iface;
             Ret (match l with Err _ => None | Ok _ => Some e end)
  end.

(** ** Ethtool *)

(* go: netlink/ethtool.go 15-23 EthtoolFeatures *)
Definition EthtoolFeatures (name : string) : prog sys (res (gmap string bool)) :=
  let! e := call EthtoolNew as same_err;
  deferred (call (EthtoolGetFeatures e name)) (call (EthtoolClose e)).

(* go: netlink/ethtool.go 25-33 EthtoolChange *)
Definition EthtoolChange (name : string) (want : gmap string bool) : prog sys err :=
  get! e := call EthtoolNew as same_err;
  deferred (call (EthtoolSetFeatures e name want)) (call (EthtoolClose e)).

(* go: netlink/ethtool.go 35-44 SetWakeOnLanMagic *)
Definition SetWakeOnLanMagic (name : string) : prog sys err :=
  get! e := call EthtoolNew as same_err;
  deferred (call (EthtoolWakeOnLan e name)) (call (EthtoolClose e)).

(** ** WireGuard *)

(* go: netlink/wireguard.go 28-36 WireGuardPeer *)
Record NlWireGuardPeer := MkNlWireGuardPeer {
  NlWireGuardPeer_PublicKey : string;
  NlWireGuardPeer_PresharedKey : string;
  NlWireGuardPeer_Endpoint : string;
  NlWireGuardPeer_AllowedIPs : list string;
  NlWireGuardPeer_PersistentKeepaliveInterval : Z;
  NlWireGuardPeer_Remove : bool
}.

(* go: netlink/wireguard.go 19-26 WireGuardConfig *)
Record NlWireGuardConfig := MkNlWireGuardConfig {
  NlWireGuardConfig_PrivateKey : string;
  NlWireGuardConfig_ListenPort : Z;
  NlWireGuardConfig_FwMark : Z;
  NlWireGuardConfig_ReplacePeers : bool;
  NlWireGuardConfig_Peers : list NlWireGuardPeer
}.

(** The product of int64s, which wraps around. *)
Definition mul_int64 (a b : Z) : Z := (a * b + 2^63) mod 2^64 - 2^63.

(** [if s != "" { v, err := parse(s); if err != nil { return wrapped }; field = &v }]. *)
Definition opt_field {A} (s : string) (parse : string -> res A) (w : error -> error) : res (option A) :=
  if Str.is_empty s then Ok None
  else match parse s with Ok v => Ok (Some v) | Err e => Err (w e) end.

Fixpoint parse_allowed (l : list string) : res (list Net.IPNet) :=
  match l with
  | [] => Ok []
  | s :: l =>
      match parse_cidr_net s with
      | Err e => Err (EWrap "invalid allowed IP %s: %w" [s] e)
      | Ok n => match parse_allowed l with Ok ns => Ok (n :: ns) | Err e => Err e end
      end
  end.

(** The interval is a time.Duration, in nanoseconds. *)
(* go: netlink/wireguard.go 169-230 buildPeerConfig *)
Definition buildPeerConfig `{Libs} (peer : NlWireGuardPeer) : res WgPeer :=
  if Str.is_empty (NlWireGuardPeer_PublicKey peer) then Err (EMsg "public key is required" [])
  else
    match ParseKey (NlWireGuardPeer_PublicKey peer) with
    | Err e => Err (EWrap "invalid public key: %w" [] e)
    | Ok pubKey =>
        if NlWireGuardPeer_Remove peer then Ok (MkWgPeer pubKey true None None None false [])
        else
          match opt_field (NlWireGuardPeer_PresharedKey peer) ParseKey (EWrap "invalid preshared key: %w" []) with
          | Err e => Err e
          | Ok psk =>
              match opt_field (NlWireGuardPeer_Endpoint peer) ResolveUDPAddr
                      (EWrap "invalid endpoint %s: %w" [NlWireGuardPeer_Endpoint peer]) with
              | Err e => Err e
              | Ok endpoint =>
                  match parse_allowed (NlWireGuardPeer_AllowedIPs peer) with
                  | Err e => Err e
                  | Ok allowed =>
                      Ok {| WgPeer_PublicKey := pubKey;
                            WgPeer_Remove := false;
                            WgPeer_PresharedKey := psk;
                            WgPeer_Endpoint := endpoint;
                            WgPeer_PersistentKeepaliveInterval :=
                              if 0 <? NlWireGuardPeer_PersistentKeepaliveInterval peer
                              then Some (mul_int64 (NlWireGuardPeer_PersistentKeepaliveInterval peer) 1000000000)
                              else None;
                            WgPeer_ReplaceAllowedIPs := match NlWireGuardPeer_AllowedIPs peer with [] => false | _ => true end;
                            WgPeer_AllowedIPs := allowed |}
                  end
              end
          end
    end.

Fixpoint build_peers `{Libs} (l : list NlWireGuardPeer) : res (list WgPeer) :=
  match l with
  | [] => Ok []
  | p :: l =>
      match buildPeerConfig p with
      | Err e => Err (EWrap "invalid peer config: %w" [] e)
      | Ok c => match build_peers l with Ok cs => Ok (c :: cs) | Err e => Err e end
      end
  end.

(* go: netlink/wireguard.go 60-100 ConfigureDevice *)
Definition ConfigureDevice `{Libs} (client : handle) (name : string) (cfg : NlWireGuardConfig) : prog sys err :=
  get! key := Ret (opt_field (NlWireGuardConfig_PrivateKey cfg) ParseKey (EWrap "invalid private key: %w" []))
    as same_err;
  get! peers := Ret (build_peers (NlWireGuardConfig_Peers cfg)) as same_err;
  call (WgConfigureDevice client name {|
    WgConfig_PrivateKey := key;
    WgConfig_ListenPort := pos_opt (NlWireGuardConfig_ListenPort cfg);
    WgConfig_FirewallMark := pos_opt (NlWireGuardConfig_FwMark cfg);
    WgConfig_ReplacePeers := NlWireGuardConfig_ReplacePeers cfg;
    WgConfig_Peers := peers |}).

(* go: netlink/wireguard.go 43-50 NewWireGuardManager *)
Definition NewWireGuardManager : prog sys (res handle) :=
  let! client := call WgNew as EWrap "failed to create wgctrl client: %w" [];
  Ret (Ok client).

(* go: netlink/wireguard.go 112-122 AddPeer *)
Definition AddPeer `{Libs} (client : handle) (deviceName : string) (peer : NlWireGuardPeer) : prog sys err :=
  get! peerCfg := Ret (buildPeerConfig peer) as same_err;
  call (WgConfigureDevice client deviceName (MkWgConfig None None None false [peerCfg])).

(* go: netlink/wireguard.go 124-139 RemovePeer *)
Definition RemovePeer `{Libs} (client : handle) (deviceName publicKey : string) : prog sys err :=
  get! key := Ret (ParseKey publicKey) as EWrap "invalid public key: %w" [];
  call (WgConfigureDevice client deviceName
    (MkWgConfig None None None false [MkWgPeer key true None None None false []])).
