(* ===== verification/Purego.v ===== *)
(** * The DHCP clients in Go (netlink/purego)

    The exchanges of dhcp4_client.go and dhcp6_client.go over the client library,
    and how a lease is read from an answer.  A duration is a 64-bit number of
    nanoseconds. *)

From S2P Require Import Prelude GoStd GoNet Effect VppApi Netlink.

(** The 64-bit integer that a computation wraps around to. *)
Definition int64 (z : Z) : Z := (z + 2^63) mod 2^64 - 2^63.

Definition second : Z := 1000000000.
Definition hour : Z := 3600 * second.

(** [int64] divided by a positive number, truncated. *)
Definition div64 (a b : Z) : Z := Z.quot a b.

(** ** DHCPv4 *)

Module V4.
(* go: netlink/purego/dhcp4_client.go 24-38 DHCPv4Lease *)
Record DHCPv4Lease := MkDHCPv4Lease {
  IP : Net.IP;
  Netmask : Net.IP;
  Gateway : Net.IP;
  DNS : list Net.IP;
  Domain : string;
  LeaseTime : Z;
  ServerIP : Net.IP;
  MTU : Z;
  Routes : list (Net.IPNet * Net.IP);
  NTPServers : list Net.IP;
  RenewTime : Z;
  RebindTime : Z
}.

(* go: netlink/purego/dhcp4_client.go 40-50 DHCPv4Client *)
Record DHCPv4Client := MkDHCPv4Client {
  ifaceName : string;
  iface : NetInterface;
  timeout : Z;
  retries : Z;
  hostname : string;
  clientID : option (list Z);
  requestIPs : list Net.IP;
  options : list (Z * list Z)
}.

(* go: netlink/purego/dhcp4_client.go 52-64 NewDHCPv4Client *)
Definition NewDHCPv4Client (name : string) : prog sys (res DHCPv4Client) :=
  let! i := call (InterfaceByName name) as EWrap "interface %s not found: %w" [name];
  Ret (Ok (MkDHCPv4Client name i (10 * second) 3 "" None [] [])).

(* go: netlink/purego/dhcp4_client.go 66-67 SetTimeout *)
Definition SetTimeout (d : Z) (c : DHCPv4Client) : DHCPv4Client := c <| timeout := d |>.
(* go: netlink/purego/dhcp4_client.go 69-70 SetRetries *)
Definition SetRetries (n : Z) (c : DHCPv4Client) : DHCPv4Client := c <| retries := n |>.
(* go: netlink/purego/dhcp4_client.go 72-73 SetHostname *)
Definition SetHostname (name : string) (c : DHCPv4Client) : DHCPv4Client := c <| hostname := name |>.
(* go: netlink/purego/dhcp4_client.go 75-76 SetClientID *)
Definition SetClientID (id : list Z) (c : DHCPv4Client) : DHCPv4Client := c <| clientID := Some id |>.
(* go: netlink/purego/dhcp4_client.go 78-79 SetRequestIP *)
Definition SetRequestIP (ip : Net.IP) (c : DHCPv4Client) : DHCPv4Client := c <| requestIPs := [ip] |>.
(* go: netlink/purego/dhcp4_client.go 81-82 AddOption *)
Definition AddOption (opt : Z * list Z) (c : DHCPv4Client) : DHCPv4Client := c <| options := options c ++ [opt] |>.

(** The mask that a lease has when the server gives none. *)
Definition default_mask : Net.IP := Net.CIDRMask 24 32.

(** The address of a lease in an answer, with the times that it implies. *)
(* go: netlink/purego/dhcp4_client.go 248-314 parseLeaseFromACK *)
Definition parseLeaseFromACK (ack : Ack4) : DHCPv4Lease :=
  let leaseTime := if 0 <? Ack4_LeaseTime ack then Ack4_LeaseTime ack else 24 * hour in
  {| IP := Ack4_YourIPAddr ack;
     Netmask := default default_mask (Ack4_SubnetMask ack);
     Gateway := match Ack4_Router ack with r :: _ => r | [] => [] end;
     DNS := Ack4_DNS ack;
     Domain := Ack4_DomainName ack;
     LeaseTime := leaseTime;
     ServerIP := match Ack4_ServerIdentifier ack with Some id => id | None => Ack4_ServerIPAddr ack end;
     MTU := default 0 (Ack4_MTU ack);
     Routes := default [] (Ack4_Routes ack);
     NTPServers := default [] (Ack4_NTPServers ack);
     RenewTime := if 0 <? Ack4_RenewalTime ack then Ack4_RenewalTime ack else div64 leaseTime 2;
     RebindTime := if 0 <? Ack4_RebindingTime ack then Ack4_RebindingTime ack
                   else div64 (int64 (leaseTime * 7)) 8 |}.

(** The options of a request, and the codes of those that it asks for. *)
(* go: netlink/purego/dhcp4_client.go 98-118 Request *)
Definition request_options (c : DHCPv4Client) : list Opt4 :=
  (if negb (Str.is_empty (hostname c)) then [OptHostName (hostname c)] else []) ++
  (match clientID c with Some id => [OptClientIdentifier id] | None => [] end) ++
  ((fun '(code, v) => OptGeneric4 code v) <$> options c).
Definition requested : list Z := [1; 3; 6; 15; 26; 121; 42].

(** A client that is closed on every return. *)
Definition with_client {A} (c : DHCPv4Client) (t r : option Z) (wrap : error -> error)
    (f : Z -> prog sys (res A)) : prog sys (res A) :=
  let! client := call (NClient4New (ifaceName c) t r) as wrap;
  deferred (f client) (call (NClient4Close client)).

(* go: netlink/purego/dhcp4_client.go 84-127 Request *)
Definition Request (c : DHCPv4Client) : prog sys (res DHCPv4Lease) :=
  with_client c (Some (timeout c)) (Some (retries c)) (EWrap "create DHCP client: %w" []) (fun client =>
    let! ack := call (NClient4Request client (request_options c) requested) as EWrap "DHCP request failed: %w" [];
    Ret (Ok (parseLeaseFromACK ack))).

(** [dhcpv4.MessageTypeAck]. *)
Definition MessageTypeAck : Z := 5.

(** The offer from which a renewal is made. *)
(* go: netlink/purego/dhcp4_client.go 316-327 createOfferFromLease *)
Definition createOfferFromLease (c : DHCPv4Client) (lease : DHCPv4Lease) : Msg4 :=
  Renew4 (NetInterface_HardwareAddr (iface c)) (IP lease) (ServerIP lease) (Netmask lease)
    (Gateway lease) (DNS lease).

(** A message that may not be built. *)
Definition building {A} (m : Msg4) (q : prog sys (res A)) : prog sys (res A) :=
  e ← call (NClient4Build m);
  match e with Some e => Ret (Err e) | None => q end.

(* go: netlink/purego/dhcp4_client.go 129-160 Renew *)
Definition Renew (c : DHCPv4Client) (lease : DHCPv4Lease) : prog sys (res DHCPv4Lease) :=
  with_client c (Some (timeout c)) None same_err (fun client =>
    let m := createOfferFromLease c lease in
    building m (
      let! resp := call (NClient4SendAndRead client (Some (ServerIP lease)) m) as EWrap "renew failed: %w" [];
      if negb (Ack4_MessageType resp =? MessageTypeAck) then
        Ret (Err (EMsg "renew got %s instead of ACK" [Str.itoa (Ack4_MessageType resp)]))
      else Ret (Ok (parseLeaseFromACK resp)))).

(** A message that is sent without regard to the answer. *)
Definition send_only (c : DHCPv4Client) (server : option Net.IP) (m : Msg4) : prog sys err :=
  r ← with_client c None None same_err (fun client =>
        building m (call (NClient4SendAndRead client server m) ;; Ret (Ok tt)));
  Ret (res_err r).

(* go: netlink/purego/dhcp4_client.go 162-187 Release *)
Definition Release (c : DHCPv4Client) (lease : DHCPv4Lease) : prog sys err :=
  send_only c (Some (ServerIP lease)) (Release4 (NetInterface_HardwareAddr (iface c)) (IP lease) (ServerIP lease)).

(* go: netlink/purego/dhcp4_client.go 189-212 Decline *)
Definition Decline (c : DHCPv4Client) (ip serverIP : Net.IP) : prog sys err :=
  send_only c None (Decline4 (NetInterface_HardwareAddr (iface c)) ip serverIP).

(* go: netlink/purego/dhcp4_client.go 214-246 Inform *)
Definition Inform (c : DHCPv4Client) (clientIP : Net.IP) : prog sys (res DHCPv4Lease) :=
  with_client c None None same_err (fun client =>
    let m := Inform4 (NetInterface_HardwareAddr (iface c)) clientIP in
    building m (
      let! resp := call (NClient4SendAndRead client None m) as same_err;
      Ret (Ok ((parseLeaseFromACK resp) <| IP := clientIP |>)))).
End V4.

(** ** DHCPv6 *)

Module V6.
(* go: netlink/purego/dhcp6_client.go 24-33 DHCPv6Lease *)
Record DHCPv6Lease := MkDHCPv6Lease {
  Addresses : list Net.IP;
  Prefixes : list Net.IPNet;
  DNS : list Net.IP;
  Domains : list string;
  LeaseTime : Z;
  ServerDUID : option (list Z);
  IAID : list Z
}.

(* go: netlink/purego/dhcp6_client.go 35-46 DHCPv6Client *)
Record DHCPv6Client := MkDHCPv6Client {
  ifaceName : string;
  iface : NetInterface;
  timeout : Z;
  retries : Z;
  rapidCommit : bool;
  requestPD : bool;
  requestNA : bool;
  pdHint : Z;
  options : list (Z * list Z)
}.

(* go: netlink/purego/dhcp6_client.go 48-62 NewDHCPv6Client *)
Definition NewDHCPv6Client (name : string) : prog sys (res DHCPv6Client) :=
  let! i := call (InterfaceByName name) as EWrap "interface %s not found: %w" [name];
  Ret (Ok (MkDHCPv6Client name i (10 * second) 3 false false true 0 [])).

(* go: netlink/purego/dhcp6_client.go 64-65 SetTimeout *)
Definition SetTimeout (d : Z) (c : DHCPv6Client) : DHCPv6Client := c <| timeout := d |>.
(* go: netlink/purego/dhcp6_client.go 67-68 SetRetries *)
Definition SetRetries (n : Z) (c : DHCPv6Client) : DHCPv6Client := c <| retries := n |>.
(* go: netlink/purego/dhcp6_client.go 70-71 SetRapidCommit *)
Definition SetRapidCommit (enable : bool) (c : DHCPv6Client) : DHCPv6Client :=
  c <| rapidCommit := enable |>.
(* go: netlink/purego/dhcp6_client.go 73-77 SetRequestPD *)
Definition SetRequestPD (enable : bool) (prefixLen : Z) (c : DHCPv6Client) : DHCPv6Client :=
  c <| requestPD := enable |> <| pdHint := prefixLen |>.
(* go: netlink/purego/dhcp6_client.go 79-80 SetRequestNA *)
Definition SetRequestNA (enable : bool) (c : DHCPv6Client) : DHCPv6Client :=
  c <| requestNA := enable |>.
(* go: netlink/purego/dhcp6_client.go 82-83 AddOption *)
Definition AddOption (opt : Z * list Z) (c : DHCPv6Client) : DHCPv6Client :=
  c <| options := options c ++ [opt] |>.

(** The codes of the options that netcfg asks for: the name servers, the search
    list, the boot file and the time servers. *)
Definition OptionDNSRecursiveNameServer : Z := 23.
Definition OptionDomainSearchList : Z := 24.
Definition OptionSNTPServerList : Z := 31.
Definition OptionBootfileURL : Z := 59.

(** The lease, after the addresses of an IA_NA. *)
Definition add_iana (lease : DHCPv6Lease) (iana : list Z * list (Net.IP * Z)) : DHCPv6Lease :=
  foldl (fun l '(ip, lifetime) =>
           let l := l <| Addresses := Addresses l ++ [ip] |> in
           if 0 <? lifetime then l <| LeaseTime := lifetime |> else l)
        (lease <| IAID := iana.1 |>) iana.2.

(* go: netlink/purego/dhcp6_client.go 384-429 parseLeaseFromReply *)
Definition parseLeaseFromReply (reply : Reply6) : DHCPv6Lease :=
  let lease := MkDHCPv6Lease [] [] [] [] 0 None [0; 0; 0; 0] in
  let lease := foldl add_iana lease (Reply6_IANA reply) in
  let lease := lease <| Prefixes := concat (Reply6_IAPD reply) |> <| DNS := Reply6_DNS reply |>
                     <| Domains := default [] (Reply6_Domains reply) |>
                     <| ServerDUID := Reply6_ServerID reply |> in
  if LeaseTime lease =? 0 then lease <| LeaseTime := 24 * hour |> else lease.

(** The modifiers of a Solicit.  The hint of a prefix's length is not sent. *)
(* go: netlink/purego/dhcp6_client.go 98-116 Request *)
Definition request_mods (c : DHCPv6Client) : list Mod6 :=
  [RequestedOptions6 [OptionDNSRecursiveNameServer; OptionDomainSearchList]] ++
  (if requestPD c then [IAPD6 [0; 0; 0; 2]] else []) ++
  ((fun '(code, v) => OptGeneric6 code v) <$> options c).

(** A client that is closed on every return. *)
Definition with_client {A} (c : DHCPv6Client) (t r : option Z) (wrap : error -> error)
    (f : Z -> prog sys (res A)) : prog sys (res A) :=
  let! client := call (NClient6New (ifaceName c) t r) as wrap;
  deferred (f client) (call (NClient6Close client)).

Definition request_failed : error -> error := EWrap "DHCPv6 request failed: %w" [].

(* go: netlink/purego/dhcp6_client.go 85-141 Request *)
Definition Request (c : DHCPv6Client) : prog sys (res DHCPv6Lease) :=
  with_client c (Some (timeout c)) (Some (retries c)) (EWrap "create DHCPv6 client: %w" []) (fun client =>
    let mods := request_mods c in
    if rapidCommit c then
      let! reply := call (NClient6Solicit client true (mods ++ [RapidCommit6])) as request_failed;
      Ret (Ok (parseLeaseFromReply reply))
    else
      let! adv := call (NClient6Solicit client false mods) as EWrap "solicit failed: %w" [];
      let! reply := call (NClient6Request client adv mods) as request_failed;
      Ret (Ok (parseLeaseFromReply reply))).

(** A message of a type for some addresses of a lease; its server is named
    unless it is for every server. *)
Definition message (c : DHCPv6Client) (ty : Type6) (server : option (list Z)) (iaid : list Z)
    (addrs : list Net.IP) : Msg6 :=
  MkMsg6 ty (NetInterface_HardwareAddr (iface c)) server ((fun a => (iaid, a)) <$> addrs) [].

(** A message that may not be built. *)
Definition building {A} (m : Msg6) (q : prog sys (res A)) : prog sys (res A) :=
  e ← call (NClient6Build m);
  match e with Some e => Ret (Err e) | None => q end.

(** A message whose answer is a lease. *)
Definition exchange (c : DHCPv6Client) (m : Msg6) (wrap : error -> error) : prog sys (res DHCPv6Lease) :=
  with_client c (Some (timeout c)) None same_err (fun client =>
    building m (
      let! resp := call (NClient6SendAndRead client m) as wrap;
      Ret (Ok (parseLeaseFromReply resp)))).

(* go: netlink/purego/dhcp6_client.go 143-196 Renew *)
Definition Renew (c : DHCPv6Client) (lease : DHCPv6Lease) : prog sys (res DHCPv6Lease) :=
  exchange c (message c Renew6 (ServerDUID lease) (IAID lease) (Addresses lease))
    (EWrap "renew failed: %w" []).

(* go: netlink/purego/dhcp6_client.go 198-245 Rebind *)
Definition Rebind (c : DHCPv6Client) (lease : DHCPv6Lease) : prog sys (res DHCPv6Lease) :=
  exchange c (message c Rebind6 None (IAID lease) (Addresses lease)) (EWrap "rebind failed: %w" []).

(** A message that is sent without regard to the answer. *)
Definition send_only (c : DHCPv6Client) (m : Msg6) : prog sys err :=
  r ← with_client c None None same_err (fun client =>
        building m (call (NClient6SendAndRead client m) ;; Ret (Ok tt)));
  Ret (res_err r).

(* go: netlink/purego/dhcp6_client.go 247-293 Release *)
Definition Release (c : DHCPv6Client) (lease : DHCPv6Lease) : prog sys err :=
  send_only c (message c Release6 (ServerDUID lease) (IAID lease) (Addresses lease)).

(* go: netlink/purego/dhcp6_client.go 295-341 Decline *)
Definition Decline (c : DHCPv6Client) (lease : DHCPv6Lease) (conflictAddrs : list Net.IP) : prog sys err :=
  send_only c (message c Decline6 (ServerDUID lease) (IAID lease) conflictAddrs).

(* go: netlink/purego/dhcp6_client.go 343-382 InformationRequest *)
Definition InformationRequest (c : DHCPv6Client) : prog sys (res DHCPv6Lease) :=
  exchange c
    (MkMsg6 InformationRequest6 (NetInterface_HardwareAddr (iface c)) None []
       [OptionDNSRecursiveNameServer; OptionDomainSearchList; OptionBootfileURL; OptionSNTPServerList])
    same_err.
End V6.

(** ** The times of a lease

    A server sends times in seconds, on 32 bits. *)

Lemma int64_small z : - 2^63 <= z < 2^63 -> int64 z = z.
Proof. intros H. unfold int64. rewrite Z.mod_small; lia. Qed.

Lemma int64_range z : - 2^63 <= int64 z < 2^63.
Proof. unfold int64. pose proof (Z.mod_pos_bound (z + 2^63) (2^64)). lia. Qed.

(** A lease whose 7/8 can be computed. *)
Definition short_lease (l : Z) : Prop := l * 7 < 2^63.

(** C35: the times that a DHCPv4 lease gets from an answer of the server that sets
    a lease time of [s] seconds and no times of renewal: half and seven eighths
    of the lease, in this order and within the lease, exactly as long as seven
    times the lease fits 64 bits; for a longer lease the product wraps around
    and the rebinding time is not seven eighths of it. *)
Theorem lease_times (ack : Ack4) (s : Z) :
  Ack4_LeaseTime ack = s * second -> 0 < s < 2^32 ->
  Ack4_RenewalTime ack <= 0 -> Ack4_RebindingTime ack <= 0 ->
  let l := V4.parseLeaseFromACK ack in
  V4.LeaseTime l = s * second /\ V4.RenewTime l = (s * second) / 2 /\
  (V4.RebindTime l = (s * second * 7) / 8 <-> short_lease (V4.LeaseTime l)) /\
  (short_lease (V4.LeaseTime l) ->
   0 < V4.RenewTime l <= V4.RebindTime l /\ V4.RebindTime l <= V4.LeaseTime l).
Proof.
  intros Hs Hb H1 H2. unfold V4.parseLeaseFromACK, short_lease, second, div64 in *; simpl.
  rewrite Hs. destruct (Z.ltb_spec 0 (s * 1000000000)); [|lia].
  destruct (Z.ltb_spec 0 (Ack4_RenewalTime ack)); [lia|].
  destruct (Z.ltb_spec 0 (Ack4_RebindingTime ack)); [lia|].
  rewrite !Z.quot_div_nonneg by lia.
  pose proof (int64_range (s * 1000000000 * 7)) as Hr.
  assert (s * 1000000000 * 7 < 2^63 -> int64 (s * 1000000000 * 7) = s * 1000000000 * 7) as Hi
    by (intros; apply int64_small; lia).
  split_and!; [done|done| |]; [split; intros Hx|intros Hx].
  - assert (Z.quot (int64 (s * 1000000000 * 7)) 8 <= 2^60 - 1) as Hq
      by (transitivity (Z.quot (2^63 - 1) 8); [apply Z.quot_le_mono; lia|done]).
    rewrite Hx in Hq. clear -Hq. pose proof (Z.div_mod (s * 1000000000 * 7) 8). pose proof (Z.mod_pos_bound (s * 1000000000 * 7) 8). lia.
  - rewrite (Hi Hx). apply Z.quot_div_nonneg; clear -Hb; lia.
  - rewrite (Hi Hx), Z.quot_div_nonneg by (clear -Hb; lia). clear -Hb. Z.to_euclidean_division_equations; lia.
Qed.

(** A lease of one day. *)
Definition day_ack : Ack4 :=
  MkAck4 5 [192; 0; 2; 10] [192; 0; 2; 1] None [] [] "" (86400 * second) None None None None 0 0.

Lemma lease_times_witness :
  let l := V4.parseLeaseFromACK day_ack in
  V4.LeaseTime l = 86400 * second /\ V4.RenewTime l = (86400 * second) / 2 /\
  (V4.RebindTime l = (86400 * second * 7) / 8 <-> short_lease (V4.LeaseTime l)) /\
  (short_lease (V4.LeaseTime l) ->
   0 < V4.RenewTime l <= V4.RebindTime l /\ V4.RebindTime l <= V4.LeaseTime l).
Proof. apply (lease_times day_ack 86400); [reflexivity|lia|reflexivity || (simpl; lia)..]. Defined.

(** For a lease that never ends (2^32-1 seconds) the rebinding time precedes the
    renewal time. *)
Lemma infinite_lease_rebinds_early :
  let l := V4.parseLeaseFromACK (day_ack <| Ack4_LeaseTime := (2^32 - 1) * second |>) in
  V4.RebindTime l < V4.RenewTime l.
Proof. vm_compute. reflexivity. Qed.
