(* ===== verification/Host.v ===== *)
(** * What netcfg sets on the host (netlink/dhcp.go, cmd/sriov.go, offload.go, dot1x.go, wifi.go)

    The settings that do not go through a netlink handle: sysctls and sysfs, DNS,
    SR-IOV, offloads, and the configuration of wpa_supplicant.  The text of an
    error that only says what a command printed has no counterpart. *)

From S2P Require Import Prelude GoStd GoNet Effect Config Netlink.

(** ** IPv6 sysctls (netlink/dhcp.go) *)

(* go: netlink/dhcp.go 334-341 EnableSLAAC *)
Definition EnableSLAAC (ifaceName : string) : prog sys err :=
  warn! writeSysctl ifaceName "accept_ra" "2";
  warn! writeSysctl ifaceName "autoconf" "1";
  warn! writeSysctl ifaceName "use_tempaddr" "2";
  Ret None.

(* go: netlink/dhcp.go 343-348 DisableSLAAC *)
Definition DisableSLAAC (ifaceName : string) : prog sys err :=
  warn! writeSysctl ifaceName "accept_ra" "0";
  warn! writeSysctl ifaceName "autoconf" "0";
  Ret None.

(* go: netlink/dhcp.go 350-352 SetAcceptRA *)
Definition SetAcceptRA (ifaceName : string) (value : Z) : prog sys err :=
  writeSysctl ifaceName "accept_ra" (Str.itoa value).

(* go: netlink/dhcp.go 354-356 SetIPv6Privacy *)
Definition SetIPv6Privacy (ifaceName : string) (value : Z) : prog sys err :=
  writeSysctl ifaceName "use_tempaddr" (Str.itoa value).

(* go: netlink/dhcp.go 358-361 SetIPv6MTU *)
Definition SetIPv6MTU (ifaceName : string) (mtu : Z) : prog sys err :=
  writeSysctl ifaceName "mtu" (Str.itoa mtu).

(* go: netlink/dhcp.go 363-373 SetLinkLocalIPv6 *)
Definition SetLinkLocalIPv6 (ifaceName : string) (enable : bool) : prog sys err :=
  writeSysctl ifaceName "addr_gen_mode" (if enable then "0" else "1").

(* go: netlink/dhcp.go 400-409 deriveStableSecret *)
Definition deriveStableSecret `{Libs} (ifaceName : string) : prog sys (res string) :=
  let! mid := call (ReadFile "/etc/machine-id") as same_err;
  Ret (Ok (Net.IP_String (take 16 (Sha256 (Str.trim_space mid +:+ ifaceName))))).

(* go: netlink/dhcp.go 375-398 SetIPv6AddrGenMode *)
Definition SetIPv6AddrGenMode `{Libs} (ifaceName mode : string) : prog sys err :=
  let s := Str.to_lower mode in
  if Str.eqb s "eui64" then writeSysctl ifaceName "addr_gen_mode" "0"
  else if Str.eqb s "stable-privacy" || Str.eqb s "stable_privacy" then
    r ← deriveStableSecret ifaceName;
    match r with
    | Ok secret => warn! writeSysctl ifaceName "stable_secret" secret;
                   writeSysctl ifaceName "addr_gen_mode" "2"
    | Err _ => writeSysctl ifaceName "addr_gen_mode" "2"
    end
  else Ret (Some (EMsg "unknown ipv6-address-generation %q (want eui64 or stable-privacy)" [mode])).

(** ** DHCP managers (netlink/dhcp.go) *)

(** The path of the first of some programs that is installed. *)
(* go: netlink/dhcp.go 81-93 detectExternalClients *)
Fixpoint first_path (names : list string) : prog sys string :=
  match names with
  | [] => Ret ""
  | name :: names =>
      r ← call (LookPath name);
      match r with Ok path => Ret path | Err _ => first_path names end
  end.

(* go: netlink/dhcp.go 67-78 NewDHCPManager *)
Definition NewDHCPManager : prog sys DHCPManager :=
  v4 ← first_path ["dhclient"; "dhcpcd"; "udhcpc"];
  v6 ← first_path ["dhclient"; "dhcpcd"; "dhcp6c"];
  h ← call Hostname;
  Ret {| DHCPManager_timeout := 30 * 1000000000;
         DHCPManager_retries := 3;
         DHCPManager_hostname := match h with Ok h => h | Err _ => "" end;
         DHCPManager_dhcpIdent := "";
         DHCPManager_externalV4 := v4;
         DHCPManager_externalV6 := v6 |}.

(* go: netlink/dhcp.go 95-95 SetTimeout *)
Definition SetTimeout (d : Z) (m : DHCPManager) : DHCPManager := m <| DHCPManager_timeout := d |>.

(* go: netlink/dhcp.go 96-96 SetRetries *)
Definition SetRetries (n : Z) (m : DHCPManager) : DHCPManager := m <| DHCPManager_retries := n |>.

(* go: netlink/dhcp.go 98-99 SetHostname *)
Definition SetHostname (h : string) (m : DHCPManager) : DHCPManager :=
  m <| DHCPManager_hostname := h |>.

(* go: netlink/dhcp.go 101-106 SetSendHostname *)
Definition SetSendHostname (send : bool) (m : DHCPManager) : DHCPManager :=
  if negb send then m <| DHCPManager_hostname := "" |> else m.

(* go: netlink/dhcp.go 108-110 SetDHCPIdentifier *)
Definition SetDHCPIdentifier (id : string) (m : DHCPManager) : DHCPManager :=
  m <| DHCPManager_dhcpIdent := Str.to_lower id |>.

(** The client in Go is always there. *)
(* go: netlink/dhcp.go 111-114 HasClient *)
Definition HasClient (m : DHCPManager) : bool * bool := (true, true).

(* go: netlink/dhcp.go 663-663 HasDHCPClient *)
Definition HasDHCPClient : prog sys (bool * bool) := m ← NewDHCPManager; Ret (HasClient m).

(** ** DNS (netlink/dhcp.go) *)

Definition newline : string := String (Str.byte 10) "".
Definition tab : string := String (Str.byte 9) "".
Definition quote : string := String (Str.byte 34) "".

Definition concat_str (l : list string) : string := Str.join l "".

(* go: netlink/dhcp.go 604-608 usingSystemdResolved *)
Definition usingSystemdResolved : prog sys bool :=
  e ← call (StatFile "/run/systemd/resolve/stub-resolv.conf");
  Ret (match e with None => true | Some _ => false end).

(* go: netlink/dhcp.go 651-661 writeResolvConf *)
Definition resolv_conf (addresses search : list string) : string :=
  "# Generated by netcfg" +:+ newline +:+
  (match search with [] => "" | _ => "search " +:+ Str.join search " " +:+ newline end) +:+
  concat_str ((fun a => "nameserver " +:+ a +:+ newline) <$> addresses).

Definition writeResolvConf (addresses search : list string) : prog sys err :=
  call (WriteFile "/etc/resolv.conf" (resolv_conf addresses search)).

(* go: netlink/dhcp.go 626-649 applyDNSResolvectl *)
Definition applyDNSResolvectl (ifaceName : string) (addresses search : list string) : prog sys err :=
  r ← call (LookPath "resolvectl");
  match r with
  | Err _ => writeResolvConf addresses search
  | Ok bin =>
      try! (match addresses with
            | [] => Ret None
            | _ => call (Exec ([bin; "dns"; ifaceName] ++ addresses))
            end) as EWrap "resolvectl dns %s: %w (%s)" [ifaceName];
      try! (match search with
            | [] => Ret None
            | _ => call (Exec ([bin; "domain"; ifaceName] ++ search))
            end) as EWrap "resolvectl domain %s: %w (%s)" [ifaceName];
      Ret None
  end.

(* go: netlink/dhcp.go 610-624 ApplyDNS *)
Definition ApplyDNS (ifaceName : string) (addresses search : list string) : prog sys err :=
  match addresses, search with
  | [], [] => Ret None
  | _, _ =>
      resolved ← usingSystemdResolved;
      if (resolved : bool) then applyDNSResolvectl ifaceName addresses search
      else writeResolvConf addresses search
  end.

(** ** SR-IOV (cmd/sriov.go) *)

(* go: cmd/sriov.go 43-57 setNumVFs *)
Definition setNumVFs (pf : string) (n : Z) : prog sys unit :=
  let path := "/sys/class/net/" +:+ pf +:+ "/device/sriov_numvfs" in
  cur ← call (ReadFile path);
  (match cur with
   | Ok cur => let v := Str.trim_space cur in
               if negb (Str.eqb v "0") && negb (Str.eqb v (Str.itoa n))
               then warn! call (WriteFile path "0"); Ret tt else Ret tt
   | Err _ => Ret tt
   end) ;;
  warn! call (WriteFile path (Str.itoa n)); Ret tt.

(* go: cmd/sriov.go 110-131 setEswitchMode *)
Definition setEswitchMode (pf mode : string) : prog sys unit :=
  target ← call (Readlink ("/sys/class/net/" +:+ pf +:+ "/device"));
  match target with
  | Err _ => Ret tt
  | Ok target =>
      mgr ← New;
      match mgr with
      | Err _ => Ret tt
      | Ok mgr => deferred (warn! SetEswitchMode mgr (path_base target) mode; Ret tt) (Close mgr)
      end
  end.

(* go: cmd/sriov.go 28-41 applySRIOV *)
Definition applySRIOV (pf : string) (cfg : Ethernet) : prog sys unit :=
  (if 0 <? Ethernet_VirtualFunctionCount cfg
   then setNumVFs pf (Ethernet_VirtualFunctionCount cfg) else Ret tt) ;;
  (if negb (Str.is_empty (Ethernet_EmbeddedSwitchMode cfg))
   then setEswitchMode pf (Ethernet_EmbeddedSwitchMode cfg) else Ret tt).

(** ** Offloads (cmd/offload.go) *)

(* go: cmd/offload.go 40-49 applyInfinibandMode *)
Definition applyInfinibandMode (name mode : string) : prog sys unit :=
  warn! call (WriteFile ("/sys/class/net/" +:+ name +:+ "/mode") mode); Ret tt.

(* go: cmd/offload.go 20-38 applyEthernetExtras *)
Definition applyEthernetExtras (name : string) (cfg : Ethernet) : prog sys unit :=
  (if Ethernet_Wakeonlan cfg then warn! SetWakeOnLanMagic name; Ret tt else Ret tt) ;;
  (if negb (Str.is_empty (Ethernet_InfinibandMode cfg))
   then applyInfinibandMode name (Ethernet_InfinibandMode cfg) else Ret tt).

(* go: cmd/offload.go 106-106 eqFeat *)
Definition eqFeat (s f : string) : bool := Str.eqb f s.
(* go: cmd/offload.go 107-109 prefixFeat *)
Definition prefixFeat (p f : string) : bool := Str.has_prefix f p.
(* go: cmd/offload.go 110-116 inFeat *)
Definition inFeat (names : list string) (f : string) : bool := existsb (Str.eqb f) names.

(* go: cmd/offload.go 55-67 applyOffload *)
Definition offload_rules (cfg : Ethernet) : list (option bool * (string -> bool)) := [
  (Ethernet_ReceiveChecksumOffload cfg, eqFeat "rx-checksum");
  (Ethernet_TransmitChecksumOffload cfg, prefixFeat "tx-checksum-");
  (Ethernet_TCPSegmentationOffload cfg,
     inFeat ["tx-tcp-segmentation"; "tx-tcp-ecn-segmentation"; "tx-tcp-mangleid-segmentation"]);
  (Ethernet_TCP6SegmentationOffload cfg, eqFeat "tx-tcp6-segmentation");
  (Ethernet_GenericSegmentationOffload cfg, eqFeat "tx-generic-segmentation");
  (Ethernet_GenericReceiveOffload cfg, eqFeat "rx-gro");
  (Ethernet_LargeReceiveOffload cfg, eqFeat "rx-lro")].

(** The features to set, of those that the device has. *)
(* go: cmd/offload.go 85-95 applyOffload *)
Definition offload_want `{RangeOrder} (cfg : Ethernet) (cur : gmap string bool) : gmap string bool :=
  fold_left (fun want '(val, matches) =>
      match val with
      | None => want
      | Some v => fold_left (fun want '(feat, _) => if matches feat : bool then <[feat := v]> want else want)
                    (range 90 cur) want
      end) (offload_rules cfg) ∅.

(* go: cmd/offload.go 51-104 applyOffload *)
Definition applyOffload `{RangeOrder} (name : string) (cfg : Ethernet) : prog sys unit :=
  if negb (existsb (fun r => match r.1 with Some _ => true | None => false end) (offload_rules cfg))
  then Ret tt
  else
    cur ← EthtoolFeatures name;
    match cur with
    | Err _ => Ret tt
    | Ok cur =>
        let want := offload_want cfg cur in
        if Nat.eqb (size want) 0 then Ret tt else warn! EthtoolChange name want; Ret tt
    end.

(** ** 802.1X (cmd/dot1x.go) *)

Definition wpaConfDir : string := "/etc/netcfg".

(* go: cmd/dot1x.go 101-103 supplicantPidFile *)
Definition supplicantPidFile (iface : string) : string := "/run/netcfg-wpa-" +:+ iface +:+ ".pid".

(** Signalling a process that does not exist, or a number that is none, does
    nothing. *)
(* go: cmd/dot1x.go 86-99 stopSupplicant *)
Definition stopSupplicant (iface : string) : prog sys unit :=
  data ← call (ReadFile (supplicantPidFile iface));
  match data with
  | Err _ => Ret tt
  | Ok data =>
      (match Str.atoi (Str.trim_space data) with Some pid => call (Kill pid) | None => Ret tt end) ;;
      call (RemoveFile (supplicantPidFile iface))
  end.

(* go: cmd/dot1x.go 54-84 runSupplicant *)
Definition runSupplicant (iface driver confPath : string) : prog sys unit :=
  ext ← call (Getenv "NETCFG_SUPPLICANT_EXTERNAL");
  if negb (Str.is_empty ext) then Ret tt
  else
    stopSupplicant iface ;;
    bin ← call (LookPath "wpa_supplicant");
    match bin with
    | Err _ => Ret tt
    | Ok bin => warn! call (Exec [bin; "-B"; "-D"; driver; "-i"; iface; "-c"; confPath; "-P";
                                  supplicantPidFile iface]); Ret tt
    end.

(** A line of the configuration, indented. *)
Definition conf_line (s : string) : string := tab +:+ s +:+ newline.

(* go: cmd/dot1x.go 145-149 writeQuoted *)
Definition writeQuoted (key val : string) : string :=
  if Str.is_empty val then "" else conf_line (key +:+ "=" +:+ quote +:+ val +:+ quote).

(* go: cmd/dot1x.go 127-143 writeEAPFields *)
Definition writeEAPFields (auth : Auth) : string :=
  (if Str.is_empty (Auth_Method auth) then "" else conf_line ("eap=" +:+ Str.to_upper (Auth_Method auth))) +:+
  writeQuoted "identity" (Auth_Identity auth) +:+
  writeQuoted "anonymous_identity" (Auth_AnonymousIdentity auth) +:+
  writeQuoted "password" (Auth_Password auth) +:+
  writeQuoted "ca_cert" (Auth_CACertificate auth) +:+
  writeQuoted "client_cert" (Auth_ClientCertificate auth) +:+
  writeQuoted "private_key" (Auth_ClientKey auth) +:+
  writeQuoted "private_key_passwd" (Auth_ClientKeyPassword auth) +:+
  (if Str.is_empty (Auth_Phase2Auth auth) then ""
   else conf_line ("phase2=" +:+ quote +:+ "auth=" +:+ Auth_Phase2Auth auth +:+ quote)).

(* go: cmd/dot1x.go 105-125 buildWPASupplicantConf *)
Definition buildWPASupplicantConf (km : string) (auth : Auth) : string :=
  "# Generated by netcfg" +:+ newline +:+ "ctrl_interface=/run/wpa_supplicant" +:+ newline +:+
  "eapol_version=1" +:+ newline +:+ "ap_scan=0" +:+ newline +:+ "network={" +:+ newline +:+
  conf_line (if Str.eqb km "802.1x" then "key_mgmt=IEEE8021X" else "key_mgmt=WPA-EAP") +:+
  writeEAPFields auth +:+ "}" +:+ newline.

(** The configuration of an interface, written before its supplicant is run. *)
Definition write_supplicant (name driver conf : string) : prog sys unit :=
  let confPath := wpaConfDir +:+ "/wpa-" +:+ name +:+ ".conf" in
  e ← call (MkdirAll wpaConfDir);
  match e with
  | Some _ => Ret tt
  | None =>
      e ← call (WriteFile confPath conf);
      match e with
      | Some _ => Ret tt
      | None => runSupplicant name driver confPath
      end
  end.

(* go: cmd/dot1x.go 28-52 setup8021x *)
Definition setup8021x (name : string) (auth : Auth) : prog sys unit :=
  let km := Str.to_lower (Auth_KeyManagement auth) in
  if negb (Str.eqb km "802.1x") && negb (Str.has_prefix km "eap") then Ret tt
  else write_supplicant name "wired" (buildWPASupplicantConf km auth).

(** ** Wi-Fi (cmd/wifi.go) *)

(* go: cmd/wifi.go 53-67 wifiToEthernet *)
Definition wifiToEthernet (w : Wifi) : Ethernet :=
  Ethernet_zero
    <| Ethernet_Addresses := Wifi_Addresses w |>
    <| Ethernet_DHCP4 := Wifi_DHCP4 w |>
    <| Ethernet_DHCP6 := Wifi_DHCP6 w |>
    <| Ethernet_Gateway4 := Wifi_Gateway4 w |>
    <| Ethernet_Gateway6 := Wifi_Gateway6 w |>
    <| Ethernet_MTU := Wifi_MTU w |>
    <| Ethernet_Routes := Wifi_Routes w |>
    <| Ethernet_Nameservers := Wifi_Nameservers w |>
    <| Ethernet_AcceptRA := Wifi_AcceptRA w |>
    <| Ethernet_LinkLocal := Wifi_LinkLocal w |>.

(* go: cmd/wifi.go 157-166 apPassword *)
Definition apPassword (ap : AccessPoint) : string :=
  if negb (Str.is_empty (AccessPoint_Password ap)) then AccessPoint_Password ap
  else match AccessPoint_Auth ap with Some auth => Auth_Password auth | None => "" end.

(** The key management of an access point. *)
(* go: cmd/wifi.go 126-132 writeAPNetwork *)
Definition ap_key_mgmt (ap : AccessPoint) : string :=
  let explicit := match AccessPoint_Auth ap with Some auth => Auth_KeyManagement auth | None => "" end in
  if negb (Str.is_empty explicit) then Str.to_lower explicit
  else if Str.is_empty (AccessPoint_Password ap) then "none" else "psk".

(* go: cmd/wifi.go 106-155 writeAPNetwork *)
Definition writeAPNetwork (ssid : string) (ap : AccessPoint) : string :=
  let km := ap_key_mgmt ap in
  let pw := apPassword ap in
  let mode := Str.to_lower (AccessPoint_Mode ap) in
  "network={" +:+ newline +:+
  conf_line ("ssid=" +:+ quote +:+ ssid +:+ quote) +:+
  (if Str.eqb mode "adhoc" then conf_line "mode=1"
   else if Str.eqb mode "ap" then conf_line "mode=2" else "") +:+
  (if Str.is_empty (AccessPoint_BSSID ap) then "" else conf_line ("bssid=" +:+ AccessPoint_BSSID ap)) +:+
  (if AccessPoint_Hidden ap then conf_line "scan_ssid=1" else "") +:+
  (if Str.eqb km "none" then conf_line "key_mgmt=NONE"
   else if Str.eqb km "sae" then
     conf_line "key_mgmt=SAE" +:+
     (if Str.is_empty pw then "" else conf_line ("sae_password=" +:+ quote +:+ pw +:+ quote))
   else if Str.has_prefix km "eap" then
     conf_line "key_mgmt=WPA-EAP" +:+
     (match AccessPoint_Auth ap with Some auth => writeEAPFields auth | None => "" end)
   else if Str.is_empty pw then conf_line "key_mgmt=NONE"
        else conf_line ("psk=" +:+ quote +:+ pw +:+ quote)) +:+
  "}" +:+ newline.

(* go: cmd/apply.go 2105-2113 sortedKeys *)
Definition sortedKeys `{RangeOrder} {A} (m : gomap A) : list string :=
  Str.sort (gm_range 2108 m).*1.

(** A null access point makes it panic. *)
(* go: cmd/wifi.go 92-104 buildWifiSupplicantConf *)
Definition buildWifiSupplicantConf `{RangeOrder} (cfg : Wifi) : pan string :=
  blocks ← mapM (fun ssid =>
      ap ← default None (gm_get (Wifi_AccessPoints cfg) ssid);
      Some (writeAPNetwork ssid ap)) (sortedKeys (Wifi_AccessPoints cfg));
  Some ("# Generated by netcfg" +:+ newline +:+ "ctrl_interface=/run/wpa_supplicant" +:+ newline +:+
        (if Str.is_empty (Wifi_RegulatoryDomain cfg) then ""
         else "country=" +:+ Wifi_RegulatoryDomain cfg +:+ newline) +:+
        concat_str blocks).

(* go: cmd/wifi.go 69-90 setupWifiSupplicant *)
Definition setupWifiSupplicant `{RangeOrder} (name : string) (cfg : Wifi) : prog sys unit :=
  if negb (gm_nonempty (Wifi_AccessPoints cfg)) then Ret tt
  else
    conf ← lift (buildWifiSupplicantConf cfg);
    write_supplicant name "nl80211" conf.
