(* ===== verification/Dhcp.v ===== *)
(** * DHCP leases (netlink/dhcp.go)

    How a manager acquires, renews, releases and applies leases: with the clients
    of [Purego] first, with an external client when they fail.  A context is never
    cancelled here, and the functions of the netlink package go through its own
    handle. *)

From S2P Require Import Prelude GoStd GoNet IpText Effect Netlink Purego Host.

(** ** Leases *)

(* go: netlink/dhcp.go 34-45 DHCPv4Lease *)
Record DHCPv4Lease := MkDHCPv4Lease {
  DHCPv4Lease_IP : Net.IP;
  DHCPv4Lease_Netmask : Net.IP;
  DHCPv4Lease_Gateway : Net.IP;
  DHCPv4Lease_DNS : list Net.IP;
  DHCPv4Lease_Domain : string;
  DHCPv4Lease_LeaseTime : Z;
  DHCPv4Lease_ServerIP : Net.IP;
  DHCPv4Lease_MTU : Z;
  DHCPv4Lease_NTPServers : list Net.IP
}.

(* go: netlink/dhcp.go 47-55 DHCPv6Lease *)
Record DHCPv6Lease := MkDHCPv6Lease {
  DHCPv6Lease_Addresses : list Net.IP;
  DHCPv6Lease_Prefixes : list Net.IPNet;
  DHCPv6Lease_DNS : list Net.IP;
  DHCPv6Lease_Domains : list string;
  DHCPv6Lease_LeaseTime : Z;
  DHCPv6Lease_ServerDUID : option (list Z)
}.

(* go: netlink/dhcp.go 160-173 purego4ToLease *)
Definition purego4ToLease (p : V4.DHCPv4Lease) : DHCPv4Lease := {|
  DHCPv4Lease_IP := V4.IP p;
  DHCPv4Lease_Netmask := V4.Netmask p;
  DHCPv4Lease_Gateway := V4.Gateway p;
  DHCPv4Lease_DNS := V4.DNS p;
  DHCPv4Lease_Domain := V4.Domain p;
  DHCPv4Lease_LeaseTime := V4.LeaseTime p;
  DHCPv4Lease_ServerIP := V4.ServerIP p;
  DHCPv4Lease_MTU := V4.MTU p;
  DHCPv4Lease_NTPServers := V4.NTPServers p
|}.

(* go: netlink/dhcp.go 286-296 purego6ToLease *)
Definition purego6ToLease (p : V6.DHCPv6Lease) : DHCPv6Lease := {|
  DHCPv6Lease_Addresses := V6.Addresses p;
  DHCPv6Lease_Prefixes := V6.Prefixes p;
  DHCPv6Lease_DNS := V6.DNS p;
  DHCPv6Lease_Domains := V6.Domains p;
  DHCPv6Lease_LeaseTime := V6.LeaseTime p;
  DHCPv6Lease_ServerDUID := V6.ServerDUID p
|}.

(** ** What the system says of an interface *)

(** [fmt.Sscanf] of hexadecimal bytes of two digits each, into bytes that are 0
    where the text has no digit. *)
Fixpoint scan_hex_bytes (n : nat) (s : string) : list Z :=
  match n with
  | O => []
  | S n =>
      match s with
      | String a s' =>
          match Net.hex a with
          | None => replicate (S n) 0
          | Some x =>
              match s' with
              | String b s'' =>
                  match Net.hex b with
                  | Some y => (16 * x + y) :: scan_hex_bytes n s''
                  | None => x :: scan_hex_bytes n s'
                  end
              | "" => x :: scan_hex_bytes n s'
              end
          end
      | "" => replicate (S n) 0
      end
  end.

Definition lines (s : string) : list string := Str.split_byte s (Str.byte 10).

(** The content of a file, which is empty when it cannot be read. *)
Definition read_or_empty (path : string) : prog sys string :=
  r ← call (ReadFile path); Ret (match r with Ok data => data | Err _ => "" end).

(** The gateway of a line of the routing table, if it is a default route. *)
(* go: netlink/dhcp.go 555-561 getDefaultGateway4 *)
Definition gateway_of_line (line : string) : option Net.IP :=
  match Str.fields line with
  | _ :: dst :: gw :: _ =>
      if Str.eqb dst "00000000" then Some (Net.v4in6 ++ rev (scan_hex_bytes 4 gw)) else None
  | _ => None
  end.

(* go: netlink/dhcp.go 553-564 getDefaultGateway4 *)
Definition getDefaultGateway4 : prog sys Net.IP :=
  data ← read_or_empty "/proc/net/route";
  Ret (default [] (head (omap gateway_of_line (tail (lines data))))).

(** The name servers and the domain, after a line. *)
(* go: netlink/dhcp.go 572-584 parseDNSFromResolv *)
Definition resolv_line (acc : list Net.IP * string) (line : string) : list Net.IP * string :=
  match Str.fields (Str.trim_space line) with
  | key :: val :: _ =>
      if Str.has_prefix key "#" then acc
      else if Str.eqb key "nameserver" then
        match Net.ParseIP val with Some ip => (acc.1 ++ [ip], acc.2) | None => acc end
      else if Str.eqb key "search" || Str.eqb key "domain" then (acc.1, val)
      else acc
  | _ => acc
  end.

(* go: netlink/dhcp.go 568-587 parseDNSFromResolv *)
Definition parse_resolv (data : string) : list Net.IP * string :=
  foldl resolv_line ([], "") (lines data).
Definition parseDNSFromResolv (path : string) : prog sys (list Net.IP * string) :=
  data ← read_or_empty path; Ret (parse_resolv data).

(* go: netlink/dhcp.go 566-566 getDNSConfig *)
Definition getDNSConfig : prog sys (list Net.IP * string) := parseDNSFromResolv "/etc/resolv.conf".

(** The text of resolv.conf for a lease. *)
(* go: netlink/dhcp.go 593-600 UpdateResolvConf *)
Definition lease_resolv (dns : list Net.IP) (domain : string) : string :=
  "# Generated by netcfg" +:+ newline +:+
  (if Str.is_empty domain then "" else "search " +:+ domain +:+ newline) +:+
  concat_str ((fun d => "nameserver " +:+ Net.IP_String d +:+ newline) <$> dns).

(* go: netlink/dhcp.go 589-602 UpdateResolvConf *)
Definition UpdateResolvConf (dns : list Net.IP) (domain : string) : prog sys err :=
  e ← call (StatFile "/run/systemd/resolve/stub-resolv.conf");
  match e with
  | None => Ret None
  | Some _ => call (WriteFile "/etc/resolv.conf" (lease_resolv dns domain))
  end.

(* go: netlink/dhcp.go 506-527 getLease4FromInterface *)
Definition getLease4FromInterface (ifaceName : string) : prog sys (res DHCPv4Lease) :=
  let! iface := call (InterfaceByName ifaceName) as same_err;
  addrs ← call (InterfaceAddrs iface);
  let found := omap (fun n => ip4 ← Net.To4 (Net.IPNet_IP n); Some (ip4, Net.IPNet_Mask n)) addrs in
  match found with
  | [] => Ret (Err (EMsg "no IPv4 on %s" [ifaceName]))
  | (ip, mask) :: _ =>
      gw ← getDefaultGateway4;
      '(dns, domain) ← getDNSConfig;
      Ret (Ok (MkDHCPv4Lease ip mask gw dns domain 0 [] (NetInterface_MTU iface) []))
  end.

(** [IsLinkLocalUnicast] of an address that is not IPv4. *)
Definition link_local6 (ip : Net.IP) : bool :=
  match ip with a :: b :: _ => (a =? 254) && (Z.land b 192 =? 128) | _ => false end.

(** The address of a prefix, if it is one that a lease of DHCPv6 may have. *)
(* go: netlink/dhcp.go 538-542 getLease6FromInterface *)
Definition lease6_addr (n : Net.IPNet) : option Net.IP :=
  let ip := Net.IPNet_IP n in
  match Net.To4 ip with
  | Some _ => None
  | None => if Nat.eqb (length ip) 16 && negb (link_local6 ip) then Some ip else None
  end.

(* go: netlink/dhcp.go 529-547 getLease6FromInterface *)
Definition getLease6FromInterface (ifaceName : string) : prog sys (res DHCPv6Lease) :=
  let! iface := call (InterfaceByName ifaceName) as same_err;
  addrs ← call (InterfaceAddrs iface);
  match omap lease6_addr addrs with
  | [] => Ret (Err (EMsg "no IPv6 on %s" [ifaceName]))
  | ips => Ret (Ok (MkDHCPv6Lease ips [] [] [] 0 None))
  end.

(** ** Acquiring leases *)

(** [client-id] from the hardware address: the type of Ethernet and the address. *)
(* go: netlink/dhcp.go 147-152 requestDHCPv4PureGo *)
Definition mac_client_id (m : DHCPManager) (ifaceName : string) (client : V4.DHCPv4Client)
    : prog sys V4.DHCPv4Client :=
  if Str.eqb (DHCPManager_dhcpIdent m) "mac" then
    iface ← call (InterfaceByName ifaceName);
    Ret (match iface with
         | Ok i => match NetInterface_HardwareAddr i with
                   | [] => client
                   | hw => V4.SetClientID (1 :: hw) client
                   end
         | Err _ => client
         end)
  else Ret client.

Definition with_hostname (m : DHCPManager) (client : V4.DHCPv4Client) : V4.DHCPv4Client :=
  if negb (Str.is_empty (DHCPManager_hostname m)) then V4.SetHostname (DHCPManager_hostname m) client
  else client.

(* go: netlink/dhcp.go 136-158 requestDHCPv4PureGo *)
Definition requestDHCPv4PureGo (m : DHCPManager) (ifaceName : string) : prog sys (res DHCPv4Lease) :=
  let! client := V4.NewDHCPv4Client ifaceName as same_err;
  let client := V4.SetRetries (DHCPManager_retries m) (V4.SetTimeout (DHCPManager_timeout m) client) in
  client ← mac_client_id m ifaceName (with_hostname m client);
  let! p := V4.Request client as same_err;
  Ret (Ok (purego4ToLease p)).

Definition pid_file (v ifaceName : string) : string := "/run/netcfg-dhcp" +:+ v +:+ "-" +:+ ifaceName +:+ ".pid".
Definition lease_file (v ifaceName : string) : string :=
  "/var/lib/netcfg/dhcp" +:+ v +:+ "-" +:+ ifaceName +:+ ".lease".

(** The command of the external client; it is nil for a program that has no case. *)
(* go: netlink/dhcp.go 176-198 requestDHCPv4External *)
Definition external4_cmd (m : DHCPManager) (ifaceName : string) : option (list string) :=
  let client := DHCPManager_externalV4 m in
  let host := if Str.is_empty (DHCPManager_hostname m) then [] else ["-H"; DHCPManager_hostname m] in
  let base := path_base client in
  if Str.eqb base "dhclient" then
    Some ([client; "-v"; "-1"; "-pf"; pid_file "4" ifaceName; "-lf"; lease_file "4" ifaceName] ++ host ++ [ifaceName])
  else if Str.eqb base "dhcpcd" then Some [client; "-w"; "-1"; "-4"; ifaceName]
  else if Str.eqb base "udhcpc" then Some ([client; "-i"; ifaceName; "-f"; "-q"; "-n"] ++ host)
  else None.

(** The method of a nil command panics. *)
(* go: netlink/dhcp.go 175-205 requestDHCPv4External *)
Definition requestDHCPv4External (m : DHCPManager) (ifaceName : string) : prog sys (res DHCPv4Lease) :=
  warn! call (MkdirAll "/var/lib/netcfg");
  cmd ← lift (external4_cmd m ifaceName);
  e ← call (Exec cmd);
  match e with
  | Some e => Ret (Err (EWrap "DHCPv4 failed: %w" [] e))
  | None => getLease4FromInterface ifaceName
  end.

(* go: netlink/dhcp.go 121-134 RequestDHCPv4WithContext *)
Definition RequestDHCPv4 (m : DHCPManager) (ifaceName : string) : prog sys (res DHCPv4Lease) :=
  lease ← requestDHCPv4PureGo m ifaceName;
  match lease with
  | Ok lease => Ret (Ok lease)
  | Err e =>
      if Str.is_empty (DHCPManager_externalV4 m) then
        Ret (Err (EWrap "DHCPv4 failed (pure-Go: %v; no external client available)" [] e))
      else requestDHCPv4External m ifaceName
  end.

(** The renewal with the server of a lease, if it has one and it answers. *)
(* go: netlink/dhcp.go 209-229 RenewDHCPv4 *)
Definition renew_unicast (m : DHCPManager) (ifaceName : string) (lease : DHCPv4Lease)
    : prog sys (option DHCPv4Lease) :=
  match DHCPv4Lease_ServerIP lease with
  | [] => Ret None
  | _ =>
      client ← V4.NewDHCPv4Client ifaceName;
      match client with
      | Err _ => Ret None
      | Ok client =>
          let client := with_hostname m (V4.SetTimeout (DHCPManager_timeout m) client) in
          let cur := V4.MkDHCPv4Lease (DHCPv4Lease_IP lease) (DHCPv4Lease_Netmask lease)
                       (DHCPv4Lease_Gateway lease) [] "" (DHCPv4Lease_LeaseTime lease)
                       (DHCPv4Lease_ServerIP lease) 0 [] [] 0 0 in
          renewed ← V4.Renew client cur;
          Ret (match renewed with Ok p => Some (purego4ToLease p) | Err _ => None end)
      end
  end.

(* go: netlink/dhcp.go 207-232 RenewDHCPv4 *)
Definition RenewDHCPv4 (m : DHCPManager) (ifaceName : string) (lease : option DHCPv4Lease)
    : prog sys (res DHCPv4Lease) :=
  renewed ← match lease with Some l => renew_unicast m ifaceName l | None => Ret None end;
  match renewed with
  | Some l => Ret (Ok l)
  | None => RequestDHCPv4 m ifaceName
  end.

(* go: netlink/dhcp.go 234-247 ReleaseDHCPv4 *)
Definition ReleaseDHCPv4 (m : DHCPManager) (ifaceName : string) : prog sys err :=
  let client := DHCPManager_externalV4 m in
  if Str.is_empty client then Ret None
  else if Str.eqb (path_base client) "dhclient" then
    warn! call (Exec [client; "-r"; "-pf"; pid_file "4" ifaceName; ifaceName]); Ret None
  else if Str.eqb (path_base client) "dhcpcd" then
    warn! call (Exec [client; "-k"; "-4"; ifaceName]); Ret None
  else Ret None.

(* go: netlink/dhcp.go 269-284 requestDHCPv6PureGo *)
Definition requestDHCPv6PureGo (m : DHCPManager) (ifaceName : string) (rapidCommit : bool)
    : prog sys (res DHCPv6Lease) :=
  let! client := V6.NewDHCPv6Client ifaceName as same_err;
  let client := V6.SetRequestNA true (V6.SetRapidCommit rapidCommit
                  (V6.SetRetries (DHCPManager_retries m) (V6.SetTimeout (DHCPManager_timeout m) client))) in
  let! p := V6.Request client as same_err;
  Ret (Ok (purego6ToLease p)).

(* go: netlink/dhcp.go 299-310 requestDHCPv6External *)
Definition external6_cmd (m : DHCPManager) (ifaceName : string) : option (list string) :=
  let client := DHCPManager_externalV6 m in
  let base := path_base client in
  if Str.eqb base "dhclient" then
    Some [client; "-6"; "-v"; "-1"; "-pf"; pid_file "6" ifaceName; "-lf"; lease_file "6" ifaceName; ifaceName]
  else if Str.eqb base "dhcpcd" then Some [client; "-w"; "-1"; "-6"; ifaceName]
  else None.

(* go: netlink/dhcp.go 298-317 requestDHCPv6External *)
Definition requestDHCPv6External (m : DHCPManager) (ifaceName : string) : prog sys (res DHCPv6Lease) :=
  warn! call (MkdirAll "/var/lib/netcfg");
  cmd ← lift (external6_cmd m ifaceName);
  e ← call (Exec cmd);
  match e with
  | Some e => Ret (Err (EWrap "DHCPv6 failed: %w" [] e))
  | None => getLease6FromInterface ifaceName
  end.

(* go: netlink/dhcp.go 254-267 RequestDHCPv6WithContext *)
Definition RequestDHCPv6 (m : DHCPManager) (ifaceName : string) (rapidCommit : bool)
    : prog sys (res DHCPv6Lease) :=
  lease ← requestDHCPv6PureGo m ifaceName rapidCommit;
  match lease with
  | Ok lease => Ret (Ok lease)
  | Err e =>
      if Str.is_empty (DHCPManager_externalV6 m) then
        Ret (Err (EWrap "DHCPv6 failed (pure-Go: %v; no external client available)" [] e))
      else requestDHCPv6External m ifaceName
  end.

(* go: netlink/dhcp.go 319-332 ReleaseDHCPv6 *)
Definition ReleaseDHCPv6 (m : DHCPManager) (ifaceName : string) : prog sys err :=
  let client := DHCPManager_externalV6 m in
  if Str.is_empty client then Ret None
  else if Str.eqb (path_base client) "dhclient" then
    warn! call (Exec [client; "-6"; "-r"; "-pf"; pid_file "6" ifaceName; ifaceName]); Ret None
  else if Str.eqb (path_base client) "dhcpcd" then
    warn! call (Exec [client; "-k"; "-6"; ifaceName]); Ret None
  else Ret None.

(** ** Applying leases *)

(** The handle that the functions of the netlink package use. *)
Definition pkg_handle : handle := 0.

(* go: netlink/dhcp.go 422-425 defaultDHCPOverrides *)
Definition defaultDHCPOverrides : NlDHCPOverrides := MkNlDHCPOverrides true true true 0 false.

(** The route of the gateway of a lease. *)
(* go: netlink/dhcp.go 445-449 ApplyDHCPv4Lease *)
Definition gateway_route (link : Link) (gw : Net.IP) (ov : NlDHCPOverrides) : NlRoute :=
  NlRoute_zero <| NlRoute_LinkIndex := Link_Index link |> <| NlRoute_Gw := Some gw |>
    <| NlRoute_Priority := Z.max 0 (NlDHCPOverrides_RouteMetric ov) |>.

(** The address of a lease replaces every IPv4 address of the interface. *)
(* go: netlink/dhcp.go 427-464 ApplyDHCPv4Lease *)
Definition ApplyDHCPv4Lease (ifaceName : string) (lease : DHCPv4Lease) (ov : option NlDHCPOverrides)
    : prog sys err :=
  let ov := default defaultDHCPOverrides ov in
  get! link := call (LinkByName None ifaceName) as same_err;
  addrs ← call (AddrList pkg_handle link FAMILY_V4);
  for_each (match addrs with Ok l => l | Err _ => [] end) (fun a =>
    warn! call (AddrDel pkg_handle link a); Ret tt) ;;
  let addr := MkAddr (Net.MkIPNet (DHCPv4Lease_IP lease) (DHCPv4Lease_Netmask lease)) "" 0 0 in
  try! call (AddrAdd pkg_handle link addr)
    as EWrap "add addr %s/%d: %w" [Net.IP_String (DHCPv4Lease_IP lease);
                                   Str.itoa (default 0 (Net.simple_mask (DHCPv4Lease_Netmask lease)))];
  (match DHCPv4Lease_Gateway lease with
   | [] => Ret tt
   | gw => if NlDHCPOverrides_UseRoutes ov
           then warn! call (RouteAdd pkg_handle (gateway_route link gw ov)); Ret tt else Ret tt
   end) ;;
  (if (0 <? DHCPv4Lease_MTU lease) && NlDHCPOverrides_UseMTU ov
   then warn! call (LinkSetMTU pkg_handle link (DHCPv4Lease_MTU lease)); Ret tt else Ret tt) ;;
  (match DHCPv4Lease_DNS lease with
   | [] => Ret tt
   | dns => if NlDHCPOverrides_UseDNS ov then
              warn! UpdateResolvConf dns (if NlDHCPOverrides_UseDomains ov then DHCPv4Lease_Domain lease else "");
              Ret tt
            else Ret tt
   end) ;;
  Ret None.

(* go: netlink/dhcp.go 466-504 ApplyDHCPv6Lease *)
Definition ApplyDHCPv6Lease (ifaceName : string) (lease : DHCPv6Lease) (ov : option NlDHCPOverrides)
    : prog sys err :=
  let ov := default defaultDHCPOverrides ov in
  get! link := call (LinkByName None ifaceName) as same_err;
  for_each (DHCPv6Lease_Addresses lease) (fun ip =>
    warn! call (AddrAdd pkg_handle link (MkAddr (Net.MkIPNet ip (Net.CIDRMask 128 128)) "" 0 0)); Ret tt) ;;
  (match DHCPv6Lease_DNS lease with
   | [] => Ret tt
   | dns => if NlDHCPOverrides_UseDNS ov then
              warn! UpdateResolvConf dns (if NlDHCPOverrides_UseDomains ov
                                          then default "" (head (DHCPv6Lease_Domains lease)) else "");
              Ret tt
            else Ret tt
   end) ;;
  Ret None.

(** ** resolv.conf is read back *)

Lemma lines_cons s t : Str.contains_byte s (Str.byte 10) = false -> lines (s +:+ newline +:+ t) = s :: lines t.
Proof. intros Hs. unfold lines, newline. rewrite str_app_cons, str_app_nil. by apply split_line. Qed.

(** A line made of a key and a word. *)
Lemma key_line_fields key w :
  is_word key = true -> is_word w = true ->
  Str.fields (Str.trim_space (key +:+ " " +:+ w)) = [key; w].
Proof.
  intros Hk Hw. rewrite trim_space_words by done.
  by rewrite str_app_cons, str_app_nil, fields_cons, fields_word.
Qed.

Lemma resolv_line_search acc w : is_word w = true -> resolv_line acc ("search " +:+ w) = (acc.1, w).
Proof. intros Hw. unfold resolv_line. change ("search " +:+ w) with ("search" +:+ " " +:+ w). by rewrite key_line_fields. Qed.

Lemma resolv_line_server acc ip d :
  Net.ParseIP (Net.IP_String d) = Some ip ->
  resolv_line acc ("nameserver " +:+ Net.IP_String d) = (acc.1 ++ [ip], acc.2).
Proof.
  intros Hip. assert (is_word (Net.IP_String d) = true) as Hw.
  { unfold is_word. rewrite no_space_IP_String, andb_true_r. by destruct (Net.IP_String d). }
  unfold resolv_line. change ("nameserver " +:+ ?x) with ("nameserver" +:+ " " +:+ x).
  rewrite key_line_fields by done. simpl. by rewrite Hip.
Qed.

Lemma no_newline_word key w :
  Str.contains_byte key (Str.byte 10) = false -> no_space w = true ->
  Str.contains_byte (key +:+ w) (Str.byte 10) = false.
Proof. intros Hk Hw. by rewrite contains_byte_app, Hk, contains_byte_no_space. Qed.

Lemma parse_servers dns acc :
  Forall (fun d => Net.ParseIP (Net.IP_String d) = Some d) dns ->
  foldl resolv_line acc (lines (concat_str ((fun d => "nameserver " +:+ Net.IP_String d +:+ newline) <$> dns)))
    = (acc.1 ++ dns, acc.2).
Proof.
  intros Hd. revert acc. induction Hd as [|d dns Hd _ IH]; intros acc.
  - rewrite app_nil_r. by destruct acc.
  - assert (forall t ts, concat_str (t :: ts) = t +:+ concat_str ts) as Hc.
    { intros t [|t' ts]; unfold concat_str; simpl; by rewrite ?str_app_nil_r, ?str_app_nil. }
    rewrite fmap_cons, Hc, !str_app_assoc.
    rewrite <-(str_app_assoc "nameserver "), lines_cons by (apply no_newline_word; [done|apply no_space_IP_String]).
    simpl foldl. rewrite (resolv_line_server _ d), IH by done. simpl. by rewrite <-app_assoc.
Qed.

(** C36: the resolv.conf that netcfg writes for a lease is read back by netcfg as
    the same name servers, in order, and the same domain: for every list of
    addresses whose text is parsed to themselves and for a domain that is empty
    or a word. *)
Theorem resolv_roundtrip (dns : list Net.IP) (domain : string) :
  Forall (fun d => Net.ParseIP (Net.IP_String d) = Some d) dns ->
  Str.is_empty domain || is_word domain = true ->
  parse_resolv (lease_resolv dns domain) = (dns, domain).
Proof.
  intros Hd Hw. unfold parse_resolv, lease_resolv. rewrite lines_cons by done. simpl foldl.
  change (resolv_line _ "# Generated by netcfg") with (@nil Net.IP, "").
  destruct (Str.is_empty domain) eqn:He.
  - destruct domain; [|done]. rewrite str_app_nil. by rewrite parse_servers.
  - simpl in Hw. assert (no_space domain = true) by by apply andb_true_iff in Hw as [_ ?].
    rewrite !str_app_assoc, <-(str_app_assoc "search "), lines_cons by by apply no_newline_word.
    simpl foldl. by rewrite resolv_line_search, parse_servers.
Qed.

Lemma resolv_roundtrip_witness :
  parse_resolv (lease_resolv [Net.v4in6 ++ [192; 0; 2; 53]; [32; 1; 13; 184] ++ replicate 11 0 ++ [53]] "example.org")
    = ([Net.v4in6 ++ [192; 0; 2; 53]; [32; 1; 13; 184] ++ replicate 11 0 ++ [53]], "example.org").
Proof. apply resolv_roundtrip; [|reflexivity]. repeat constructor. Defined.

(** ** External clients *)

(** The DHCPv6 client dhcp6c is detected but has no command: netcfg panics when
    it comes to it. *)
Lemma dhcp6c_panics m ifaceName :
  path_base (DHCPManager_externalV6 m) = "dhcp6c" ->
  requestDHCPv6External m ifaceName = Vis (MkdirAll "/var/lib/netcfg") (fun _ => Crash).
Proof. intros Hb. unfold requestDHCPv6External, external6_cmd. by rewrite Hb. Qed.

(** Every other client that is detected has one. *)
Lemma external4_cmd_some m ifaceName :
  path_base (DHCPManager_externalV4 m) ∈ ["dhclient"; "dhcpcd"; "udhcpc"] ->
  is_Some (external4_cmd m ifaceName).
Proof. unfold external4_cmd. intros Hin. repeat (apply elem_of_cons in Hin as [->|Hin]; [done|]). by apply not_elem_of_nil in Hin. Qed.
