(* ===== verification/LeaseDaemon.v ===== *)
(** * The DHCP daemon (netlink/dhcp_daemon.go)

    The daemon keeps a lease for each interface, in memory and in a file, and
    renews them on a tick.  A method runs under the daemon's lock, so it is a
    program from the daemon before it to the daemon after it; the renewal loop is
    a run of [checkRenewals] for each tick.  A time is a number of nanoseconds. *)

From S2P Require Import Prelude GoStd GoNet Effect Netlink Purego Host Dhcp.

(* go: netlink/dhcp_daemon.go 20-22 leaseDir *)
Definition leaseDir : string := "/var/lib/netcfg/leases".

(** The zero value of a time: the first of January of the year 1. *)
Definition time_zero : Z := -62135596800 * second.

(* go: netlink/dhcp_daemon.go 24-33 LeaseState *)
Record LeaseState := MkLeaseState {
  Interface : string;
  IPv4 : option DHCPv4Lease;
  IPv6 : option DHCPv6Lease;
  ObtainedAt : Z;
  RenewAt : Z;
  ExpireAt : Z;
  V4Overrides : option NlDHCPOverrides
}.

(* go: netlink/dhcp_daemon.go 35-43 DHCPDaemon *)
Record DHCPDaemon := MkDHCPDaemon {
  manager : DHCPManager;
  leases : gmap string LeaseState
}.

Definition with_leases (d : DHCPDaemon) (ls : gmap string LeaseState) : DHCPDaemon :=
  MkDHCPDaemon (manager d) ls.

(** encoding/json on lease states. *)
Class LeaseJson := {
  MarshalLease : LeaseState -> option string;
  UnmarshalLease : string -> option LeaseState;
}.

(* go: netlink/dhcp_daemon.go 45-54 NewDHCPDaemon *)
Definition NewDHCPDaemon : prog sys DHCPDaemon :=
  m ← NewDHCPManager; Ret (MkDHCPDaemon m ∅).

(** The file of an interface's lease.  No name of an interface has a slash. *)
Definition lease_path (ifaceName : string) : string := leaseDir +:+ "/" +:+ ifaceName +:+ ".json".

Section daemon.
Context `{!LeaseJson, !RangeOrder}.

(* go: netlink/dhcp_daemon.go 243-249 saveLease *)
Definition saveLease (ifaceName : string) (state : LeaseState) : prog sys unit :=
  match MarshalLease state with
  | None => Ret tt
  | Some data => warn! call (WriteFile (lease_path ifaceName) data); Ret tt
  end.

(* go: netlink/dhcp_daemon.go 280-284 saveLeases *)
Definition saveLeases (d : DHCPDaemon) : prog sys unit :=
  for_each (range 281 (leases d)) (fun '(ifaceName, state) => saveLease ifaceName state).

(** The times of a lease obtained at a time, if the lease says how long it is. *)
(* go: netlink/dhcp_daemon.go 225-228 checkRenewals *)
Definition set_times (state : LeaseState) (now leaseTime : Z) : LeaseState :=
  if 0 <? leaseTime then
    state <| RenewAt := now + div64 leaseTime 2 |> <| ExpireAt := now + leaseTime |>
  else state.

(* go: netlink/dhcp_daemon.go 91-119 RequestLease *)
Definition request_v4 (m : DHCPManager) (ifaceName : string) (state : LeaseState)
    (ov : option NlDHCPOverrides) : prog sys LeaseState :=
  lease ← RequestDHCPv4 m ifaceName;
  match lease with
  | Err _ => Ret state
  | Ok lease =>
      let now := ObtainedAt state in
      let state := state <| IPv4 := Some lease |> in
      let state :=
        if 0 <? DHCPv4Lease_LeaseTime lease then set_times state now (DHCPv4Lease_LeaseTime lease)
        else state <| RenewAt := now + 12 * hour |> <| ExpireAt := now + 24 * hour |> in
      warn! ApplyDHCPv4Lease ifaceName lease ov;
      Ret state
  end.

(* go: netlink/dhcp_daemon.go 121-136 RequestLease *)
Definition request_v6 (m : DHCPManager) (ifaceName : string) (state : LeaseState)
    (ov : option NlDHCPOverrides) : prog sys LeaseState :=
  lease ← RequestDHCPv6 m ifaceName false;
  match lease with
  | Err _ => Ret state
  | Ok lease =>
      warn! ApplyDHCPv6Lease ifaceName lease ov;
      Ret (state <| IPv6 := Some lease |>)
  end.

Definition has_lease (state : LeaseState) : bool :=
  bool_decide (is_Some (IPv4 state)) || bool_decide (is_Some (IPv6 state)).

(* go: netlink/dhcp_daemon.go 79-144 RequestLease *)
Definition RequestLease (ifaceName : string) (wantV4 wantV6 : bool) (v4ov v6ov : option NlDHCPOverrides)
    (d : DHCPDaemon) : prog sys DHCPDaemon :=
  now ← call TimeNow;
  let state := MkLeaseState ifaceName None None now time_zero time_zero v4ov in
  state ← (if wantV4 then request_v4 (manager d) ifaceName state v4ov else Ret state);
  state ← (if wantV6 then request_v6 (manager d) ifaceName state v6ov else Ret state);
  if has_lease state then
    saveLease ifaceName state ;;
    Ret (with_leases d (<[ifaceName := state]> (leases d)))
  else Ret d.

(* go: netlink/dhcp_daemon.go 146-168 ReleaseLease *)
Definition ReleaseLease (ifaceName : string) (d : DHCPDaemon) : prog sys DHCPDaemon :=
  match leases d !! ifaceName with
  | None => Ret d
  | Some state =>
      (match IPv4 state with Some _ => warn! ReleaseDHCPv4 (manager d) ifaceName; Ret tt | None => Ret tt end) ;;
      (match IPv6 state with Some _ => warn! ReleaseDHCPv6 (manager d) ifaceName; Ret tt | None => Ret tt end) ;;
      call (RemoveFile (lease_path ifaceName)) ;;
      Ret (with_leases d (delete ifaceName (leases d)))
  end.

(* go: netlink/dhcp_daemon.go 170-175 GetLease *)
Definition GetLease (ifaceName : string) (d : DHCPDaemon) : option LeaseState := leases d !! ifaceName.

(** A new lease for one that is due: a renewal, or a request when the renewal
    fails within five minutes of the end of the lease. *)
(* go: netlink/dhcp_daemon.go 205-220 checkRenewals *)
Definition renew (m : DHCPManager) (ifaceName : string) (lease : DHCPv4Lease) (state : LeaseState) (now : Z)
    : prog sys (option DHCPv4Lease) :=
  renewed ← RenewDHCPv4 m ifaceName (Some lease);
  match renewed with
  | Ok l => Ret (Some l)
  | Err _ =>
      if ExpireAt state - 300 * second <? now then
        again ← RequestDHCPv4 m ifaceName;
        Ret (match again with Ok l => Some l | Err _ => None end)
      else Ret None
  end.

(** The state of a lease that has been renewed. *)
(* go: netlink/dhcp_daemon.go 223-228 checkRenewals *)
Definition renewed_state (state : LeaseState) (now : Z) (lease : DHCPv4Lease) : LeaseState :=
  set_times (state <| IPv4 := Some lease |> <| ObtainedAt := now |>) now (DHCPv4Lease_LeaseTime lease).

(** Whether a lease has to be renewed. *)
(* go: netlink/dhcp_daemon.go 202-202 checkRenewals *)
Definition due (now : Z) (state : LeaseState) : option DHCPv4Lease :=
  match IPv4 state with Some l => if RenewAt state <? now then Some l else None | None => None end.

(** The body of the loop, which changes the state in place. *)
(* go: netlink/dhcp_daemon.go 200-240 checkRenewals *)
Definition check_lease (m : DHCPManager) (now : Z) (ls : gmap string LeaseState) (entry : string * LeaseState)
    : prog sys (gmap string LeaseState) :=
  let '(ifaceName, state) := entry in
  match due now state with
  | None => Ret ls
  | Some lease =>
      new ← renew m ifaceName lease state now;
      match new with
      | None => Ret ls
      | Some lease =>
          let state := renewed_state state now lease in
          warn! ApplyDHCPv4Lease ifaceName lease (V4Overrides state);
          saveLease ifaceName state ;;
          Ret (<[ifaceName := state]> ls)
      end
  end.

(* go: netlink/dhcp_daemon.go 194-241 checkRenewals *)
Definition checkRenewals (d : DHCPDaemon) : prog sys DHCPDaemon :=
  now ← call TimeNow;
  ls ← for_fold (range 200 (leases d)) (leases d) (check_lease (manager d) now);
  Ret (with_leases d ls).

(** The body of the loop over the files. *)
(* go: netlink/dhcp_daemon.go 257-277 loadLeases *)
Definition load_lease (ls : gmap string LeaseState) (file : string) : prog sys (gmap string LeaseState) :=
  data ← call (ReadFile file);
  match data with
  | Err _ => Ret ls
  | Ok data =>
      match UnmarshalLease data with
      | None => Ret ls
      | Some state =>
          now ← call TimeNow;
          if ExpireAt state <? now then call (RemoveFile file) ;; Ret ls
          else Ret (<[Interface state := state]> ls)
      end
  end.

(* go: netlink/dhcp_daemon.go 251-278 loadLeases *)
Definition loadLeases (d : DHCPDaemon) : prog sys DHCPDaemon :=
  files ← call (Glob (leaseDir +:+ "/*.json"));
  match files with
  | Err _ => Ret d
  | Ok files =>
      ls ← for_fold files (leases d) load_lease;
      Ret (with_leases d ls)
  end.

(* go: netlink/dhcp_daemon.go 56-69 Start *)
Definition Start (d : DHCPDaemon) : prog sys DHCPDaemon :=
  warn! call (MkdirAll leaseDir); loadLeases d.

(** The loop ends when the daemon is stopped; until then it renews on each tick. *)
(* go: netlink/dhcp_daemon.go 177-192 renewalLoop *)
Fixpoint renewalLoop (ticks : nat) (d : DHCPDaemon) : prog sys DHCPDaemon :=
  match ticks with
  | O => Ret d
  | S ticks => d ← checkRenewals d; renewalLoop ticks d
  end.

(* go: netlink/dhcp_daemon.go 71-77 Stop *)
Definition Stop (d : DHCPDaemon) : prog sys unit := saveLeases d.

(** What Status says of a lease; a field without a value is not in its map. *)
Record LeaseStatus := MkLeaseStatus {
  obtained_at : Z;
  renew_at : Z;
  expire_at : Z;
  ipv4 : option string;
  ipv6 : option string
}.

(** "running" is always true, so the status is its "leases". *)
(* go: netlink/dhcp_daemon.go 286-311 Status *)
Definition Status (d : DHCPDaemon) : gmap string LeaseStatus :=
  (fun state => {|
     obtained_at := ObtainedAt state;
     renew_at := RenewAt state;
     expire_at := ExpireAt state;
     ipv4 := (fun l => Net.IP_String (DHCPv4Lease_IP l)) <$> IPv4 state;
     ipv6 := (fun l => "[" +:+ Str.join (Net.IP_String <$> DHCPv6Lease_Addresses l) " " +:+ "]") <$> IPv6 state
   |}) <$> leases d.
End daemon.
