(* ===== verification/LeaseInv.v ===== *)
(** * The leases of the DHCP daemon

    What the operations of [LeaseDaemon] keep true of the leases in memory and in
    the files. *)

From stdpp Require Import relations.
From S2P Require Import Prelude GoStd GoNet IpText Effect Netlink Purego Host Dhcp LeaseDaemon.

(** ** The paths of the files *)

Lemma app_str_inj (p s t : string) : p +:+ s = p +:+ t -> s = t.
Proof. induction p as [|a p IH]; [done|]. rewrite !str_app_cons. intros [= H]. by apply IH. Qed.

Lemma app_str_inj_r (s t p : string) : s +:+ p = t +:+ p -> s = t.
Proof.
  intros H. apply (f_equal String.rev) in H. rewrite !str_rev_app in H. apply app_str_inj in H.
  by rewrite <-(str_rev_rev s), <-(str_rev_rev t), H.
Qed.

Lemma lease_path_inj i j : lease_path i = lease_path j -> i = j.
Proof. unfold lease_path. intros H. by apply app_str_inj, app_str_inj, app_str_inj_r in H. Qed.

(** ** What leaves the leases' files alone *)

Definition not_lease_path (p : string) : Prop := forall i, p <> lease_path i.

Definition harmless {X} (e : sys X) : Prop :=
  match e with
  | WriteFile p _ => not_lease_path p
  | RemoveFile p => not_lease_path p
  | _ => True
  end.

#[local] Abbreviation quiet p := (all_calls (@harmless) p) (only parsing).

Lemma resolv_not_lease : not_lease_path "/etc/resolv.conf".
Proof. by intros i [=]. Qed.

Ltac quiet_tac := calls_tac; first [exact I|exact resolv_not_lease|idtac].

Lemma quiet_read path : quiet (read_or_empty path).
Proof. unfold read_or_empty. quiet_tac. Qed.
Lemma quiet_getLease4 i : quiet (getLease4FromInterface i).
Proof.
  unfold getLease4FromInterface, getDefaultGateway4, getDNSConfig, parseDNSFromResolv, read_or_empty. quiet_tac.
Qed.
Lemma quiet_getLease6 i : quiet (getLease6FromInterface i).
Proof. unfold getLease6FromInterface. quiet_tac. Qed.
#[local] Hint Resolve quiet_getLease4 quiet_getLease6 : calls.

Lemma quiet_V4_Request c : quiet (V4.Request c).
Proof. unfold V4.Request, V4.with_client, deferred. quiet_tac. Qed.
Lemma quiet_V4_Renew c l : quiet (V4.Renew c l).
Proof. unfold V4.Renew, V4.with_client, V4.building, deferred. quiet_tac. Qed.
Lemma quiet_V6_Request c : quiet (V6.Request c).
Proof. unfold V6.Request, V6.with_client, deferred. quiet_tac. Qed.
#[local] Hint Resolve quiet_V4_Request quiet_V4_Renew quiet_V6_Request : calls.

Lemma quiet_RequestDHCPv4 m i : quiet (RequestDHCPv4 m i).
Proof.
  unfold RequestDHCPv4, requestDHCPv4PureGo, requestDHCPv4External, V4.NewDHCPv4Client, mac_client_id.
  quiet_tac.
Qed.
Lemma quiet_RequestDHCPv6 m i r : quiet (RequestDHCPv6 m i r).
Proof. unfold RequestDHCPv6, requestDHCPv6PureGo, requestDHCPv6External, V6.NewDHCPv6Client. quiet_tac. Qed.
#[local] Hint Resolve quiet_RequestDHCPv4 quiet_RequestDHCPv6 : calls.

Lemma quiet_RenewDHCPv4 m i l : quiet (RenewDHCPv4 m i l).
Proof. unfold RenewDHCPv4, renew_unicast, V4.NewDHCPv4Client. quiet_tac. Qed.
Lemma quiet_renew m i l st now : quiet (renew m i l st now).
Proof. unfold renew, RenewDHCPv4, renew_unicast, V4.NewDHCPv4Client. quiet_tac. Qed.
Lemma quiet_Apply4 i l ov : quiet (ApplyDHCPv4Lease i l ov).
Proof. unfold ApplyDHCPv4Lease, UpdateResolvConf. quiet_tac. Qed.
Lemma quiet_Apply6 i l ov : quiet (ApplyDHCPv6Lease i l ov).
Proof. unfold ApplyDHCPv6Lease, UpdateResolvConf. quiet_tac. Qed.
Lemma quiet_Release4 m i : quiet (ReleaseDHCPv4 m i).
Proof. unfold ReleaseDHCPv4. quiet_tac. Qed.
Lemma quiet_Release6 m i : quiet (ReleaseDHCPv6 m i).
Proof. unfold ReleaseDHCPv6. quiet_tac. Qed.
Lemma quiet_NewDHCPManager : quiet NewDHCPManager.
Proof.
  assert (forall l, quiet (first_path l)) as H.
  { intros l. induction l as [|a l IH]; simpl; [exact I|]. split; [exact I|]. by intros []. }
  unfold NewDHCPManager. quiet_tac; apply H.
Qed.
#[local] Hint Resolve quiet_renew quiet_Apply4 quiet_Apply6 quiet_Release4 quiet_Release6 quiet_NewDHCPManager : calls.

(** ** The files *)

Abbreviation files := (gmap string string).

(** What comes back of a state that encoding/json has encoded and decoded: a
    net.IP is written as text and read into sixteen bytes, and the strings become
    UTF-8; everything else is as it was. *)
Definition json_ip (ip : Net.IP) : Net.IP := if (length ip =? 4)%nat then Net.v4in6 ++ ip else ip.

Definition json_lease4 (l : DHCPv4Lease) : DHCPv4Lease := {|
  DHCPv4Lease_IP := json_ip (DHCPv4Lease_IP l);
  DHCPv4Lease_Netmask := DHCPv4Lease_Netmask l;
  DHCPv4Lease_Gateway := json_ip (DHCPv4Lease_Gateway l);
  DHCPv4Lease_DNS := json_ip <$> DHCPv4Lease_DNS l;
  DHCPv4Lease_Domain := Str.to_utf8 (DHCPv4Lease_Domain l);
  DHCPv4Lease_LeaseTime := DHCPv4Lease_LeaseTime l;
  DHCPv4Lease_ServerIP := json_ip (DHCPv4Lease_ServerIP l);
  DHCPv4Lease_MTU := DHCPv4Lease_MTU l;
  DHCPv4Lease_NTPServers := json_ip <$> DHCPv4Lease_NTPServers l
|}.

Definition json_lease6 (l : DHCPv6Lease) : DHCPv6Lease := {|
  DHCPv6Lease_Addresses := json_ip <$> DHCPv6Lease_Addresses l;
  DHCPv6Lease_Prefixes := (fun n => Net.MkIPNet (json_ip (Net.IPNet_IP n)) (Net.IPNet_Mask n)) <$> DHCPv6Lease_Prefixes l;
  DHCPv6Lease_DNS := json_ip <$> DHCPv6Lease_DNS l;
  DHCPv6Lease_Domains := Str.to_utf8 <$> DHCPv6Lease_Domains l;
  DHCPv6Lease_LeaseTime := DHCPv6Lease_LeaseTime l;
  DHCPv6Lease_ServerDUID := DHCPv6Lease_ServerDUID l
|}.

Definition json_state (st : LeaseState) : LeaseState := {|
  Interface := Str.to_utf8 (Interface st);
  IPv4 := json_lease4 <$> IPv4 st;
  IPv6 := json_lease6 <$> IPv6 st;
  ObtainedAt := ObtainedAt st;
  RenewAt := RenewAt st;
  ExpireAt := ExpireAt st;
  V4Overrides := V4Overrides st
|}.

Class LeaseJsonLaws `{LeaseJson} :=
  unmarshal_marshal st data : MarshalLease st = Some data -> UnmarshalLease data = Some (json_state st).

(** A name that encoding/json keeps. *)
Definition utf8 (s : string) : Prop := Str.to_utf8 s = s.

(** What calls answer and do to the files.  A write that fails leaves what was
    there or a text that is not the encoding of a state; [Glob] answers names of
    the directory of leases. *)
Definition fs_post `{LeaseJson} {X} (e : sys X) (fs : files) : X -> files -> Prop :=
  match e in sys X return X -> files -> Prop with
  | WriteFile p data => fun r fs' =>
      match r with
      | None => fs' = <[p := data]> fs
      | Some _ => fs' = fs \/ exists part, UnmarshalLease part = None /\ fs' = <[p := part]> fs
      end
  | RemoveFile p => fun _ fs' => fs' = fs \/ fs' = delete p fs
  | ReadFile p => fun r fs' => fs' = fs /\ match r with Ok data => fs !! p = Some data | Err _ => True end
  | Glob _ => fun r fs' =>
      fs' = fs /\ match r with Ok l => Forall (fun p => exists i, p = lease_path i) l | Err _ => True end
  | _ => fun _ fs' => fs' = fs
  end.

Definition fs_spec `{LeaseJson} : spec sys files :=
  Spec (fun _ _ _ => True) (fun X e fs x fs' => fs_post e fs x fs') True.

Section invariant.
Context `{!LeaseJson, !LeaseJsonLaws, !RangeOrder}.

(** The times of a state.  An IPv4 lease that says how long it is is to be renewed
    at half of that and ends after it; a state without an IPv4 lease has the zero
    times. *)
Definition timed (st : LeaseState) : Prop :=
  match IPv4 st with
  | Some l => 0 < DHCPv4Lease_LeaseTime l ->
      RenewAt st = ObtainedAt st + DHCPv4Lease_LeaseTime l / 2 /\
      ExpireAt st = ObtainedAt st + DHCPv4Lease_LeaseTime l
  | None => RenewAt st = time_zero /\ ExpireAt st = time_zero
  end.

(** A state that is kept for an interface. *)
Definition state_ok (i : string) (st : LeaseState) : Prop :=
  Interface st = i /\ utf8 i /\ (is_Some (IPv4 st) \/ is_Some (IPv6 st)) /\
  RenewAt st <= ExpireAt st /\ timed st.

Definition leases_ok (ls : gmap string LeaseState) : Prop := map_Forall state_ok ls.

Definition files_ok (fs : files) : Prop :=
  forall i data st, fs !! lease_path i = Some data -> UnmarshalLease data = Some st -> state_ok i st.

Lemma files_ok_quiet {R} (p : prog sys R) fs :
  quiet p -> files_ok fs -> wp fs_spec p fs (fun _ fs' => files_ok fs').
Proof.
  apply wp_all_calls; [done..|]. intros X e s x s' Hq Hs Hp i data st Hi. apply (Hs i).
  destruct e; simpl in *; try (by subst); try (destruct Hp as [? _]; by subst).
  - assert (forall d, (<[path:=d]> s : files) !! lease_path i = s !! lease_path i) as Hl
      by (intros d; apply lookup_insert_ne, Hq).
    destruct x; [destruct Hp as [Hp|(part & _ & Hp)]|]; subst; by rewrite ?Hl in Hi.
  - destruct Hp as [Hp|Hp]; subst; [done|]. rewrite lookup_delete_ne in Hi; [done|apply Hq].
Qed.

Lemma wp_quiet {A B} (p : prog sys A) (f : A -> prog sys B) fs Q :
  quiet p -> files_ok fs -> (forall a fs', files_ok fs' -> wp fs_spec (f a) fs' Q) ->
  wp fs_spec (p ≫= f) fs Q.
Proof. intros Hp Hfs Hf. apply wp_bind. eapply wp_mono; [|by apply files_ok_quiet]. intros a s'. apply Hf. Qed.

Lemma state_ok_json i st : state_ok i st -> state_ok i (json_state st).
Proof.
  destruct st as [n v4 v6 o r e ov]. unfold state_ok, timed, utf8. simpl. intros (-> & Hu & Hl & Ht & Hv).
  split_and!; [done|done| |done|by destruct v4]. by rewrite !fmap_is_Some.
Qed.

Lemma wp_saveLease i st fs :
  state_ok i st -> files_ok fs -> wp fs_spec (saveLease i st) fs (fun _ fs' => files_ok fs').
Proof.
  intros Hst Hfs. unfold saveLease. destruct (MarshalLease st) as [data|] eqn:Hm; [|done].
  apply wp_bind, wp_call; [done|]. intros r fs' Hp. apply wp_ret. intros j d st' Hj Hd.
  simpl in Hp. destruct (decide (i = j)) as [<-|Hij].
  - destruct r as [e|]; [destruct Hp as [->|(part & Hpart & ->)]; [by eapply Hfs|]|subst fs'];
      rewrite lookup_insert_eq in Hj; apply (inj Some) in Hj as <-; [by rewrite Hpart in Hd|].
    rewrite (unmarshal_marshal _ _ Hm) in Hd. injection Hd as <-. by apply state_ok_json.
  - assert (lease_path i <> lease_path j) as Hne by by intros ?%lease_path_inj.
    destruct r as [e|]; [destruct Hp as [->|(part & Hpart & ->)]|subst fs'];
      rewrite ?lookup_insert_ne in Hj by done; by eapply Hfs.
Qed.

Lemma leases_ok_insert i st ls : state_ok i st -> leases_ok ls -> leases_ok (<[i := st]> ls).
Proof. apply map_Forall_insert_2. Qed.

(** *** Each operation *)

Lemma half_eq t : 0 < t -> div64 t 2 = t / 2.
Proof. intros Ht. unfold div64. by rewrite Z.quot_div_nonneg by lia. Qed.

Lemma half_le now t : 0 < t -> now <= now + div64 t 2 <= now + t.
Proof. intros Ht. rewrite half_eq by done. Z.to_euclidean_division_equations; lia. Qed.

(** What a request makes of a state: its interface stays, and its times are in
    order and those of its lease. *)
Definition requested_ok (i : string) (st : LeaseState) : Prop :=
  Interface st = i /\ RenewAt st <= ExpireAt st /\ timed st.

Lemma wp_request_v4 m i st ov fs :
  requested_ok i st -> files_ok fs ->
  wp fs_spec (request_v4 m i st ov) fs (fun st' fs' => requested_ok i st' /\ files_ok fs').
Proof.
  intros Hst Hfs. destruct st. unfold request_v4. apply wp_quiet; [auto with calls|done|].
  intros [lease|e] fs1 Hfs1; [|by apply wp_ret]. cbv zeta. apply wp_quiet; [auto with calls|done|].
  intros ? fs2 Hfs2. apply wp_ret. split; [|done]. destruct Hst as [Hi _].
  unfold requested_ok, timed, set_times, hour, second.
  destruct (Z.ltb_spec 0 (DHCPv4Lease_LeaseTime lease)); simpl; (split; [done|]); [|lia].
  split; [by apply half_le|]. intros _. by rewrite half_eq.
Qed.

Lemma wp_request_v6 m i st ov fs :
  requested_ok i st -> files_ok fs ->
  wp fs_spec (request_v6 m i st ov) fs (fun st' fs' => requested_ok i st' /\ files_ok fs').
Proof.
  intros Hst Hfs. destruct st. unfold request_v6. apply wp_quiet; [auto with calls|done|].
  intros [lease|e] fs1 Hfs1; [|by apply wp_ret]. apply wp_quiet; [auto with calls|done|].
  intros ? fs2 Hfs2. by apply wp_ret.
Qed.

(** The daemon and its files. *)
Definition daemon_ok (d : DHCPDaemon) (fs : files) : Prop := leases_ok (leases d) /\ files_ok fs.

#[local] Abbreviation keeps f :=
  (forall d fs, daemon_ok d fs -> wp fs_spec (f d) fs daemon_ok) (only parsing).

Lemma RequestLease_ok i v4 v6 ov4 ov6 : utf8 i -> keeps (RequestLease i v4 v6 ov4 ov6).
Proof.
  intros Hu d fs [Hd Hfs]. unfold RequestLease. apply wp_bind, wp_call; [done|]. intros now ? ->.
  assert (requested_ok i (MkLeaseState i None None now time_zero time_zero ov4)) as Hr0 by done.
  revert Hr0. generalize (MkLeaseState i None None now time_zero time_zero ov4) as st. intros st Hr0.
  apply wp_bind, (wp_mono _ _ _ (fun st' fs' => requested_ok i st' /\ files_ok fs')).
  2: { destruct v4; [by apply wp_request_v4|by apply wp_ret]. }
  intros st1 fs1 [Hr1 Hfs1]. apply wp_bind, (wp_mono _ _ _ (fun st' fs' => requested_ok i st' /\ files_ok fs')).
  2: { destruct v6; [by apply wp_request_v6|by apply wp_ret]. }
  intros st2 fs2 [(Hi & Ht & Htt) Hfs2]. destruct (has_lease st2) eqn:Hl; [|by apply wp_ret].
  assert (state_ok i st2) as Hst.
  { split_and!; try done. unfold has_lease in Hl. rewrite orb_true_iff, !bool_decide_eq_true in Hl. exact Hl. }
  apply wp_bind. eapply wp_mono; [|by apply wp_saveLease]. intros ? fs3 Hfs3. apply wp_ret.
  split; [by apply leases_ok_insert|done].
Qed.

Lemma ReleaseLease_ok i : keeps (ReleaseLease i).
Proof.
  intros d fs [Hd Hfs]. unfold ReleaseLease. destruct (leases d !! i) as [st|]; [|by apply wp_ret].
  apply wp_quiet; [destruct (IPv4 st); quiet_tac|done|]. intros ? fs1 Hfs1.
  apply wp_quiet; [destruct (IPv6 st); quiet_tac|done|]. intros ? fs2 Hfs2.
  apply wp_bind, wp_call; [done|]. intros [] fs3 Hp. apply wp_ret. split; [by apply map_Forall_delete|].
  destruct Hp as [->| ->]; [done|]. intros j data s Hj. apply (Hfs2 j).
  by apply lookup_delete_Some in Hj as [_ ?].
Qed.

Lemma renewed_state_ok i st now l : state_ok i st -> state_ok i (renewed_state st now l).
Proof.
  intros (Hi & Hu & _ & Ht & _). destruct st. unfold renewed_state, set_times, state_ok, timed. simpl in *.
  destruct (Z.ltb_spec 0 (DHCPv4Lease_LeaseTime l)); simpl.
  - split_and!; [done|done|left; by eexists|by apply half_le|]. intros _. by rewrite half_eq.
  - split_and!; [done|done|left; by eexists|done|lia].
Qed.

Lemma checkRenewals_ok : keeps checkRenewals.
Proof.
  intros d fs [Hd Hfs]. unfold checkRenewals. apply wp_bind, wp_call; [done|]. intros now ? ->.
  apply wp_bind. eapply wp_mono; [|apply (wp_for_fold _ _ _ _ _ (fun ls fs' => leases_ok ls /\ files_ok fs'))].
  - intros ls fs' [Hls Hfs']. by apply wp_ret.
  - done.
  - intros ls [i st] fs1 Hin [Hls Hfs1]. apply elem_of_range in Hin. pose proof (Hd _ _ Hin) as Hst.
    unfold check_lease. destruct (due now st) as [l|]; [|by apply wp_ret].
    apply wp_quiet; [auto with calls|done|]. intros [l'|] fs2 Hfs2; [|by apply wp_ret].
    apply wp_quiet; [auto with calls|done|]. intros ? fs3 Hfs3.
    pose proof (renewed_state_ok i st now l' Hst) as Hst'.
    apply wp_bind. eapply wp_mono; [|by apply wp_saveLease]. intros ? fs4 Hfs4. apply wp_ret.
    split; [by apply leases_ok_insert|done].
Qed.

Lemma Start_ok : keeps Start.
Proof.
  intros d fs [Hd Hfs]. unfold Start. apply wp_quiet; [quiet_tac|done|]. intros ? fs1 Hfs1.
  unfold loadLeases. apply wp_bind, wp_call; [done|]. intros [l|e] fs2 [-> Hl]; [|by apply wp_ret].
  apply wp_bind. eapply wp_mono; [|apply (wp_for_fold _ _ _ _ _ (fun ls fs' => leases_ok ls /\ files_ok fs'))].
  - intros ls fs' [Hls Hfs']. by apply wp_ret.
  - done.
  - intros ls p fs3 Hin [Hls Hfs3]. rewrite Forall_forall in Hl. destruct (Hl p Hin) as [i ->].
    unfold load_lease. apply wp_bind, wp_call; [done|]. intros [data|e] fs4 [-> Hdata]; [|by apply wp_ret].
    destruct (UnmarshalLease data) as [st|] eqn:Hu; [|by apply wp_ret].
    pose proof (Hfs3 _ _ _ Hdata Hu) as Hst.
    apply wp_bind, wp_call; [done|]. intros now ? ->. destruct (ExpireAt st <? now).
    + apply wp_bind, wp_call; [done|]. intros [] fs5 Hp. apply wp_ret. split; [done|].
      destruct Hp as [->| ->]; [done|]. intros j d' s Hj. apply (Hfs3 j).
      by apply lookup_delete_Some in Hj as [_ ?].
    + apply wp_ret. split; [|done]. pose proof Hst as (Hi & _). rewrite Hi. by apply leases_ok_insert.
Qed.

Lemma Stop_ok d fs : daemon_ok d fs -> wp fs_spec (Stop d) fs (fun _ fs' => files_ok fs').
Proof.
  intros [Hd Hfs]. apply wp_for_each; [done|]. intros [i st] fs1 Hin Hfs1.
  apply elem_of_range in Hin. apply wp_saveLease; [by apply Hd|done].
Qed.

(** *** Reachable states *)

(** The steps of the daemon: its methods, in any order, a restart after [Stop],
    and a process that dies and leaves its files to a new daemon. *)
Inductive step : DHCPDaemon * files -> DHCPDaemon * files -> Prop :=
| step_request i v4 v6 ov4 ov6 d fs d' fs' :
    utf8 i -> exec fs_spec (RequestLease i v4 v6 ov4 ov6 d) fs d' fs' -> step (d, fs) (d', fs')
| step_release i d fs d' fs' :
    exec fs_spec (ReleaseLease i d) fs d' fs' -> step (d, fs) (d', fs')
| step_tick d fs d' fs' :
    exec fs_spec (checkRenewals d) fs d' fs' -> step (d, fs) (d', fs')
| step_stop d fs fs' d' fs'' :
    exec fs_spec (Stop d) fs tt fs' -> exec fs_spec (NewDHCPDaemon ≫= Start) fs' d' fs'' ->
    step (d, fs) (d', fs'')
| step_die d fs d' fs' :
    exec fs_spec (NewDHCPDaemon ≫= Start) fs d' fs' -> step (d, fs) (d', fs').

Lemma restart_ok fs : files_ok fs -> wp fs_spec (NewDHCPDaemon ≫= Start) fs daemon_ok.
Proof.
  intros Hfs. apply wp_bind. unfold NewDHCPDaemon. apply wp_quiet; [auto with calls|done|].
  intros m fs1 Hfs1. apply wp_ret. by apply Start_ok.
Qed.
End invariant.

(** ** An encoding of states

    Used to run the daemon on examples. *)
Module Json.
Fixpoint string_of_pos (p : positive) : string :=
  match p with xH => "" | xO p => String "0" (string_of_pos p) | xI p => String "1" (string_of_pos p) end.
Fixpoint pos_of_string (s : string) : option positive :=
  match s with
  | "" => Some xH
  | String a s => p ← pos_of_string s;
                  if (a =? "0")%char then Some (xO p) else if (a =? "1")%char then Some (xI p) else None
  end.

Lemma pos_of_string_of_pos p : pos_of_string (string_of_pos p) = Some p.
Proof. induction p as [p IH|p IH|]; simpl; by rewrite ?IH. Qed.

(** A state as a value of countable types. *)
Abbreviation key4 := (Net.IP * Net.IP * Net.IP * list Net.IP * string * Z * Net.IP * Z * list Net.IP)%type.
Abbreviation key6 := (list Net.IP * list (Net.IP * Net.IP) * list Net.IP * list string * Z * option (list Z))%type.
Abbreviation key := (string * option key4 * option key6 * (Z * Z * Z) * option (bool * bool * bool * Z * bool))%type.

Definition key4_of (l : DHCPv4Lease) : key4 :=
  let 'MkDHCPv4Lease ip mask gw dns dom t srv mtu ntp := l in (ip, mask, gw, dns, dom, t, srv, mtu, ntp).
Definition of_key4 (k : key4) : DHCPv4Lease :=
  let '(ip, mask, gw, dns, dom, t, srv, mtu, ntp) := k in MkDHCPv4Lease ip mask gw dns dom t srv mtu ntp.
Definition key6_of (l : DHCPv6Lease) : key6 :=
  let 'MkDHCPv6Lease addrs nets dns doms t duid := l in
  (addrs, (fun '(Net.MkIPNet ip m) => (ip, m)) <$> nets, dns, doms, t, duid).
Definition of_key6 (k : key6) : DHCPv6Lease :=
  let '(addrs, nets, dns, doms, t, duid) := k in
  MkDHCPv6Lease addrs ((fun '(ip, m) => Net.MkIPNet ip m) <$> nets) dns doms t duid.

Definition key_of (st : LeaseState) : key :=
  let 'MkLeaseState i v4 v6 o r e ov := st in
  (i, key4_of <$> v4, key6_of <$> v6, (o, r, e), (fun '(MkNlDHCPOverrides a b c d e) => (a, b, c, d, e)) <$> ov).
Definition of_key (k : key) : LeaseState :=
  let '(i, v4, v6, (o, r, e), ov) := k in
  MkLeaseState i (of_key4 <$> v4) (of_key6 <$> v6) o r e
    ((fun '(a, b, c, d, e) => MkNlDHCPOverrides a b c d e) <$> ov).

Lemma of_key_of st : of_key (key_of st) = st.
Proof.
  assert (forall l, of_key6 (key6_of l) = l) as H6.
  { intros [addrs nets dns doms t duid]. simpl. f_equal. by induction nets as [|[] nets IH]; simpl; f_equal. }
  destruct st as [i v4 v6 o r e ov]. simpl.
  by destruct v4 as [[]|], v6 as [v6|], ov as [[]|]; simpl; rewrite ?H6.
Qed.

#[export] Instance json : LeaseJson := {|
  MarshalLease st := Some (string_of_pos (encode (key_of (json_state st))));
  UnmarshalLease s := p ← pos_of_string s; of_key <$> decode p |}.

#[export] Instance json_laws : LeaseJsonLaws.
Proof.
  intros st data. change (MarshalLease st) with (Some (string_of_pos (encode (key_of (json_state st))))). intros [= <-].
  change (UnmarshalLease ?s) with (p ← pos_of_string s; of_key <$> decode p).
  rewrite pos_of_string_of_pos. simpl. by rewrite decode_encode, <-(of_key_of (json_state st)) at 1.
Qed.

Definition lease4 : DHCPv4Lease := MkDHCPv4Lease [192; 0; 2; 10] [255; 255; 255; 0] [] [] "" 0 [] 0 [].
End Json.

(** C7: in every state that the daemon can reach from an empty one, by requests for
    interfaces whose names are UTF-8, releases, ticks of the renewal loop, restarts
    and deaths of the process in any order, with any answers of the servers, the
    clients and the kernel and with writes that may fail: a state is kept under its
    interface's name, both in memory and in the files; it has a lease of IPv4 or of
    IPv6; its time of renewal is not after its end; an IPv4 lease that says how
    long it is has its renewal at half and its end at the whole of this time after
    it was obtained; and a state with a lease of IPv6 alone has the zero times,
    for which it is never renewed. *)
Theorem daemon_invariant `{!LeaseJson, !LeaseJsonLaws, !RangeOrder} m d fs :
  rtc step (MkDHCPDaemon m ∅, ∅) (d, fs) -> leases_ok (leases d) /\ files_ok fs.
Proof.
  assert (forall s s', rtc step s s' -> daemon_ok s.1 s.2 -> daemon_ok s'.1 s'.2) as Hr.
  { intros s s' Hst. induction Hst as [s|s1 s2 s3 Hs _ IH]; [done|]. intros Hd. apply IH. clear IH.
    destruct Hs as [i v4 v6 ov4 ov6 d1 fs1 d2 fs2 Hi Hx|i d1 fs1 d2 fs2 Hx|d1 fs1 d2 fs2 Hx
                   |d1 fs1 fs2 d2 fs3 Hx Hy|d1 fs1 d2 fs2 Hx]; simpl in *.
    - eapply wp_exec; [|exact Hx]. by apply RequestLease_ok.
    - eapply wp_exec; [|exact Hx]. by apply ReleaseLease_ok.
    - eapply wp_exec; [|exact Hx]. by apply checkRenewals_ok.
    - eapply wp_exec; [|exact Hy]. apply restart_ok.
      apply (wp_exec fs_spec _ _ _ _ _ (Stop_ok d1 fs1 Hd) Hx).
    - eapply wp_exec; [|exact Hx]. apply restart_ok, Hd. }
  intros Hst. apply (Hr _ _ Hst). split; [apply map_Forall_empty|].
  intros i data st. simpl. by rewrite lookup_empty.
Qed.

#[local] Existing Instances Json.json Json.json_laws range_map_to_list.

(** A lease of a day is obtained on eth0. *)
Lemma daemon_invariant_witness :
  exists d fs, rtc step (MkDHCPDaemon (MkDHCPManager 0 0 "" "" "" "") ∅, ∅) (d, fs) /\
  (is_Some (leases d !! "eth0") /\ leases_ok (leases d) /\ files_ok fs).
Proof.
  pose (ack := MkAck4 5 [192; 0; 2; 10] [192; 0; 2; 1] None [] [] "" (86400 * second) None None None None 0 0).
  assert (exists d fs, rtc step (MkDHCPDaemon (MkDHCPManager 0 0 "" "" "" "") ∅, ∅) (d, fs) /\
            is_Some (leases d !! "eth0")) as (d & fs & H & Hl).
  { eexists _, _. split.
    - apply rtc_once, (step_request "eth0" true false None None); [reflexivity|].
      apply (exec_vis _ _ _ _ _ 0 ∅); [reflexivity|].
      apply (exec_vis _ _ _ _ _ (Ok (MkNetInterface 2 [] 1500)) ∅); [reflexivity|].
      apply (exec_vis _ _ _ _ _ (Ok 3) ∅); [reflexivity|].
      apply (exec_vis _ _ _ _ _ (Ok ack) ∅); [reflexivity|].
      apply (exec_vis _ _ _ _ _ tt ∅); [reflexivity|].
      apply (exec_vis _ _ _ _ _ (Err (EMsg "" [])) ∅); [reflexivity|].
      eapply (exec_vis _ _ _ _ _ None); [reflexivity|].
      apply exec_ret.
    - eexists. apply lookup_insert_eq. }
  exists d, fs. split; [exact H|]. split; [exact Hl|].
  apply (daemon_invariant (MkDHCPManager 0 0 "" "" "" "")), H.
Defined.
