(* ===== verification/LeaseRenewal.v ===== *)
(** * Renewals and restarts of the DHCP daemon

    What a tick of the renewal loop changes, that it renews every lease that is
    due when the server answers, and what a restart brings back. *)

From S2P Require Import Prelude GoStd GoNet IpText Effect Netlink Purego Host Dhcp LeaseDaemon LeaseInv.

(** ** A tick of the renewal loop *)

Section renewals.
Context `{!LeaseJson, !RangeOrder}.

(** A relation between the states of an interface before and after a tick. *)
Definition lease_rel (R : LeaseState -> LeaseState -> Prop) (o o' : option LeaseState) : Prop :=
  match o, o' with Some st, Some st' => R st st' | None, None => True | _, _ => False end.

(** The tick relates the states as the renewal of each does; a state that is not
    due stays. *)
Lemma wp_checkRenewals (sp : spec sys unit) (R : Z -> string -> LeaseState -> LeaseState -> Prop) d :
  (forall X (e : sys X) s, sp_pre sp e s) ->
  (forall i l ov, wp sp (ApplyDHCPv4Lease i l ov) tt (fun _ _ => True)) ->
  (forall now i st, due now st = None -> R now i st st) ->
  (forall now i l st, due now st = Some l ->
     wp sp (renew (manager d) i l st now) tt (fun new _ =>
       match new with Some l' => R now i st (renewed_state st now l') | None => R now i st st end)) ->
  wp sp (checkRenewals d) tt (fun d' _ =>
    manager d' = manager d /\
    exists now, forall i, lease_rel (R now i) (leases d !! i) (leases d' !! i)).
Proof.
  intros Hpre Happly Hnot Hrenew. unfold checkRenewals. apply wp_bind, wp_call; [apply Hpre|].
  intros now [] _. apply wp_bind.
  eapply wp_mono; [|apply (wp_for_fold_prefix _ _ _ _ _ (fun pre ls _ => forall i,
    if decide (i ∈ pre.*1) then lease_rel (R now i) (leases d !! i) (ls !! i) else ls !! i = leases d !! i))].
  - intros ls s Hls. apply wp_ret. split; [done|]. exists now. intros i. specialize (Hls i). simpl.
    case_decide as Hin; [done|]. rewrite Hls. destruct (leases d !! i) as [st|] eqn:E; [|done].
    exfalso. apply Hin, list_elem_of_fmap. exists (i, st). split; [done|]. by apply elem_of_range.
  - intros i. case_decide as Hin; [by apply not_elem_of_nil in Hin|done].
  - intros pre [i st] post ls [] Hl Hls.
    assert (leases d !! i = Some st) as Hi.
    { apply (elem_of_range 200). rewrite Hl. apply elem_of_app. right. left. }
    assert (i ∉ pre.*1) as Hnew.
    { pose proof (NoDup_fst_range 200 (leases d)) as Hnd. rewrite Hl, fmap_app in Hnd.
      apply NoDup_app in Hnd as (_ & Hd & _). intros Hin. apply (Hd i Hin). left. }
    assert (forall st', R now i st st' -> forall ls' : gmap string LeaseState, ls' !! i = Some st' ->
              (forall j, j <> i -> ls' !! j = ls !! j) -> forall j,
              if decide (j ∈ (pre ++ [(i, st)]).*1) then lease_rel (R now j) (leases d !! j) (ls' !! j)
              else ls' !! j = leases d !! j) as Hstep.
    { intros st' HR ls' Hi' Hj j. rewrite fmap_app. simpl. specialize (Hls j).
      destruct (decide (j = i)) as [->|Hne].
      - rewrite decide_True by (apply elem_of_app; right; left). rewrite Hi, Hi'. done.
      - rewrite Hj by done. repeat case_decide; try done; exfalso; set_solver. }
    assert (ls !! i = Some st) as Hsame by (specialize (Hls i); rewrite decide_False in Hls by done; congruence).
    unfold check_lease. destruct (due now st) as [l|] eqn:Hdue; [|apply wp_ret; by apply (Hstep st); [apply Hnot|..]].
    apply wp_bind. eapply wp_mono; [|by apply (Hrenew now i l st)]. intros [l'|] [] HR.
    2: { apply wp_ret. by apply (Hstep st). }
    apply wp_bind. eapply wp_mono; [|apply Happly]. intros ? [] _.
    apply wp_bind. apply (wp_mono _ _ _ (fun _ _ => True)).
    2: { unfold saveLease. destruct (MarshalLease _); [|done]. apply wp_bind, wp_call; [apply Hpre|]. done. }
    intros ? [] _. apply wp_ret. apply (Hstep (renewed_state st now l') HR).
    + apply lookup_insert_eq.
    + intros j Hj. by apply lookup_insert_ne.
Qed.

(** Every answer is possible. *)
Definition any_spec : spec sys unit := Spec (fun _ _ _ => True) (fun _ _ _ _ _ => True) True.

(** The state after a renewal at [now]: a new IPv4 lease, whose length sets the times
    of the next renewal and of the end if it is positive and leaves the old times
    if it is not; its interface, its IPv6 lease and its overrides stay. *)
Definition renewed (now : Z) (st st' : LeaseState) : Prop :=
  exists l, IPv4 st' = Some l /\ ObtainedAt st' = now /\
    Interface st' = Interface st /\ IPv6 st' = IPv6 st /\ V4Overrides st' = V4Overrides st /\
    RenewAt st' = (if 0 <? DHCPv4Lease_LeaseTime l then now + DHCPv4Lease_LeaseTime l / 2 else RenewAt st) /\
    ExpireAt st' = (if 0 <? DHCPv4Lease_LeaseTime l then now + DHCPv4Lease_LeaseTime l else ExpireAt st).

Lemma renewed_renewed now st l : renewed now st (renewed_state st now l).
Proof.
  exists l. destruct st. unfold renewed_state, set_times. simpl.
  destruct (Z.ltb_spec 0 (DHCPv4Lease_LeaseTime l)); simpl; split_and!; try done. by rewrite half_eq.
Qed.

(** A state that is to be renewed: it has an IPv4 lease, and its renewal time is
    past. *)
Definition is_due (now : Z) (st : LeaseState) : Prop := is_Some (IPv4 st) /\ RenewAt st < now.

Lemma due_is_due now st : is_Some (due now st) <-> is_due now st.
Proof.
  unfold due, is_due. destruct (IPv4 st); [|split; [by intros []|by intros [[] _]]].
  destruct (Z.ltb_spec (RenewAt st) now); split; intros Hx; first [by eexists|by split; [eexists|]|by destruct Hx; lia|by destruct Hx].
Qed.

Lemma any_changes d :
  wp any_spec (checkRenewals d) tt (fun d' _ =>
    manager d' = manager d /\
    exists now, forall i, lease_rel (fun st st' => st' = st \/ is_due now st /\ renewed now st st')
      (leases d !! i) (leases d' !! i)).
Proof.
  apply (wp_checkRenewals any_spec (fun now _ st st' => st' = st \/ is_due now st /\ renewed now st st')); [done| |by left|].
  - intros i l ov. by apply wp_any.
  - intros now i l st Hdue. eapply wp_mono; [|by apply (wp_any any_spec)]. intros [l'|] [] _; [|by left].
    right. split; [apply due_is_due; by rewrite Hdue|apply renewed_renewed].
Qed.

(** Some servers answer: for their interfaces a client can be made and a request is
    answered; for the others none can be made.  External clients fail. *)
Definition some_post (answers : string -> bool) {X} (e : sys X) : X -> Prop :=
  match e in sys X return X -> Prop with
  | InterfaceByName i => fun r => answers i = true -> exists n, r = Ok n
  | NClient4New i _ _ => fun r => if answers i then exists c, r = Ok c else exists e, r = Err e
  | NClient4Request _ _ _ => fun r => exists ack, r = Ok ack
  | Exec _ => fun r => r <> None
  | _ => fun _ => True
  end.
Definition some_spec (answers : string -> bool) : spec sys unit :=
  Spec (fun _ _ _ => True) (fun X e _ x _ => some_post answers e x) False.

(** The external client of a manager, if it has one, is one that netcfg can run. *)
Definition client_known (m : DHCPManager) : Prop :=
  DHCPManager_externalV4 m = "" \/ forall i, is_Some (external4_cmd m i).

Section some_servers.
Context (answers : string -> bool).
#[local] Abbreviation sp := (some_spec answers).

Lemma wp_some {X A} (e : sys X) (k : X -> prog sys A) Q :
  (forall x, some_post answers e x -> wp sp (k x) tt Q) -> wp sp (call e ≫= k) tt Q.
Proof. intros Hk. apply wp_bind, wp_call; [done|]. intros x [] Hx. by apply Hk. Qed.

Lemma some_client {A} c t r w (f : Z -> prog sys (res A)) (Q : res A -> unit -> Prop) :
  (if answers (V4.ifaceName c) then forall x, wp sp (f x) tt Q else forall e, Q (Err (w e)) tt) ->
  wp sp (V4.with_client c t r w f) tt Q.
Proof.
  intros Hf. unfold V4.with_client. apply wp_some. intros x Hx. simpl in Hx.
  destruct (answers (V4.ifaceName c)); destruct Hx as [y ->]; [|by apply wp_ret].
  apply wp_bind. eapply wp_mono; [|apply Hf]. intros a [] Ha. by apply wp_some.
Qed.

Lemma some_request m i :
  client_known m ->
  wp sp (RequestDHCPv4 m i) tt (fun r _ => is_ok r = answers i).
Proof.
  intros Hm. unfold RequestDHCPv4. apply wp_bind, (wp_mono _ _ _ (fun r _ => is_ok r = answers i)).
  - intros [l|e] [] Hr; [by apply wp_ret|]. destruct (Str.is_empty _) eqn:He; [by apply wp_ret|].
    unfold requestDHCPv4External. apply wp_some. intros _ _. apply wp_bind.
    destruct Hm as [Hm|Hm]; [by rewrite Hm in He|]. destruct (Hm i) as [cmd ->]. apply wp_ret.
    apply wp_some. intros [x|] Hx; [by apply wp_ret|by destruct Hx].
  - unfold requestDHCPv4PureGo, V4.NewDHCPv4Client. apply wp_bind, wp_some. intros r Hr. simpl in Hr.
    destruct r as [n|e]; [|apply wp_ret; destruct (answers i); [by destruct (Hr eq_refl)|done]].
    apply wp_ret, wp_bind. apply (wp_mono _ _ _ (fun c _ => V4.ifaceName c = i)).
    2: { unfold mac_client_id, with_hostname. destruct (Str.eqb _ _); [|apply wp_ret; by destruct (negb _)].
         apply wp_some. intros [j|e] _; apply wp_ret; [|by destruct (negb _)].
         by destruct (negb _), (NetInterface_HardwareAddr j). }
    intros c [] <-. apply wp_bind, some_client. destruct (answers (V4.ifaceName c)) eqn:E; [|by intros e; apply wp_ret].
    intros x. apply wp_some. intros ? [ack ->]. by do 2 apply wp_ret.
Qed.

Lemma some_unicast m i l :
  wp sp (renew_unicast m i l) tt (fun o _ => is_Some o -> answers i = true).
Proof.
  unfold renew_unicast. destruct (DHCPv4Lease_ServerIP l); [by intros []|]. unfold V4.NewDHCPv4Client.
  apply wp_bind, wp_some. intros [n|e] _; apply wp_ret; [|by intros []].
  apply wp_bind, some_client. set (c := V4.SetTimeout _ _).
  assert (V4.ifaceName (with_hostname m c) = i) as -> by (unfold with_hostname; by destruct (negb _)).
  destruct (answers i) eqn:E; [|by intros e; apply wp_ret; intros []]. intros x.
  apply wp_some. intros [e|] _; [by apply wp_ret|]. apply wp_some. intros [ack|e] _; [destruct (negb _)|]; by repeat apply wp_ret.
Qed.

(** A lease is renewed exactly when its server answers. *)
Lemma some_renew m i l st now :
  client_known m -> wp sp (renew m i l st now) tt (fun o _ => is_Some o <-> answers i = true).
Proof.
  intros Hm. unfold renew. apply wp_bind, (wp_mono _ _ _ (fun r _ => is_ok r = answers i)).
  - intros [l'|e] [] Hr; simpl in Hr; [by apply wp_ret; rewrite <-Hr|]. destruct (_ <? now); [|apply wp_ret; rewrite <-Hr; by split; [intros []|]].
    apply wp_bind. eapply wp_mono; [|by apply some_request]. intros [l'|e'] [] Hr'; apply wp_ret; rewrite <-Hr'; by split; [intros []|].
  - unfold RenewDHCPv4. apply wp_bind. eapply wp_mono; [|apply some_unicast].
    intros [l'|] [] Ha; [apply wp_ret; by rewrite Ha|by apply some_request].
Qed.

Lemma some_apply i l ov : wp sp (ApplyDHCPv4Lease i l ov) tt (fun _ _ => True).
Proof.
  unfold ApplyDHCPv4Lease, UpdateResolvConf. cbv zeta. apply wp_some. intros [link|e] _; [|done].
  apply wp_some. intros addrs _. apply wp_bind, (wp_mono _ _ _ (fun _ _ => True)).
  2: { apply (wp_for_each _ _ _ _ (fun _ => True)); [done|]. intros a [] _ _. by apply wp_some. }
  intros ? [] _. apply wp_some. intros [e|] _; [done|].
  repeat (apply wp_bind, (wp_mono _ _ _ (fun _ _ => True)); [intros ? [] _|]); try done;
    repeat first [done|apply wp_ret|apply wp_some; intros ? _|apply wp_bind|case_match].
Qed.
End some_servers.


(** ** A server that answers *)

(** The interface is there, a client can be made, a message can be built and a
    request is answered; what else is asked may have any answer. *)
Definition server_post {X} (e : sys X) : X -> Prop :=
  match e in sys X return X -> Prop with
  | InterfaceByName _ => fun r => exists i, r = Ok i
  | NClient4New _ _ _ => fun r => exists c, r = Ok c
  | NClient4Request _ _ _ => fun r => exists ack, r = Ok ack
  | _ => fun _ => True
  end.
Definition server_spec : spec sys unit :=
  Spec (fun _ _ _ => True) (fun X e _ x _ => server_post e x) False.

(** A lease is longer than nothing. *)
Lemma LeaseTime_pos ack : 0 < V4.LeaseTime (V4.parseLeaseFromACK ack).
Proof. simpl. destruct (Z.ltb_spec 0 (Ack4_LeaseTime ack)); [done|]. unfold hour, second. lia. Qed.

Definition got_lease (r : res DHCPv4Lease) (_ : unit) : Prop :=
  exists l, r = Ok l /\ 0 < DHCPv4Lease_LeaseTime l.

Lemma wp_ack ack s : got_lease (Ok (purego4ToLease (V4.parseLeaseFromACK ack))) s.
Proof. eexists. split; [done|]. apply LeaseTime_pos. Qed.

Lemma wp_server {X A} (e : sys X) (k : X -> prog sys A) Q :
  (forall x, server_post e x -> wp server_spec (k x) tt Q) -> wp server_spec (call e ≫= k) tt Q.
Proof. intros Hk. apply wp_bind, wp_call; [done|]. intros x [] Hx. by apply Hk. Qed.

Lemma request_live m i : wp server_spec (RequestDHCPv4 m i) tt got_lease.
Proof.
  unfold RequestDHCPv4. apply wp_bind, (wp_mono _ _ _ got_lease).
  { intros r s (l & -> & Hl). apply wp_ret. by exists l. }
  unfold requestDHCPv4PureGo. apply wp_bind. unfold V4.NewDHCPv4Client. apply wp_server. intros ? [iface ->].
  apply wp_ret. cbv zeta. generalize (with_hostname m (V4.SetRetries (DHCPManager_retries m)
    (V4.SetTimeout (DHCPManager_timeout m) (V4.MkDHCPv4Client i iface (10 * second) 3 "" None [] [])))).
  intros c. apply wp_bind, (wp_mono _ _ _ (fun _ _ => True)).
  2: { unfold mac_client_id. destruct (Str.eqb _ _); [|done]. apply wp_server. intros; by apply wp_ret. }
  intros c' [] _. apply wp_bind. unfold V4.Request, V4.with_client, deferred.
  apply wp_server. intros ? [cl ->]. apply wp_bind, wp_server. intros ? [ack ->]. apply wp_ret.
  apply wp_server. intros [] _. apply wp_ret, wp_ack.
Qed.

Lemma renew_unicast_live m i l :
  wp server_spec (renew_unicast m i l) tt (fun o s => match o with Some l => got_lease (Ok l) s | None => True end).
Proof.
  unfold renew_unicast. destruct (DHCPv4Lease_ServerIP l); [done|]. apply wp_bind.
  unfold V4.NewDHCPv4Client. apply wp_server. intros ? [iface ->]. apply wp_ret. cbv zeta.
  apply wp_bind. unfold V4.Renew, V4.with_client, V4.building, deferred. apply wp_server. intros ? [cl ->].
  apply wp_bind, wp_server. intros [e|] _.
  { apply wp_ret, wp_server. intros [] _. do 2 apply wp_ret. done. }
  apply wp_server. intros [ack|e] _; [destruct (negb _)|]; apply wp_ret, wp_server; intros [] _;
    do 2 apply wp_ret; first [apply wp_ack|done].
Qed.

Lemma renew_live m i l st now :
  wp server_spec (renew m i l st now) tt (fun o s => exists l, o = Some l /\ got_lease (Ok l) s).
Proof.
  unfold renew. apply wp_bind, (wp_mono _ _ _ got_lease).
  { intros r [] (l' & -> & Hl). apply wp_ret. exists l'. by split; [|exists l']. }
  unfold RenewDHCPv4. apply wp_bind. eapply wp_mono; [|apply renew_unicast_live].
  intros [l'|] [] Hl; [by apply wp_ret|apply request_live].
Qed.

(** Applying a lease does not panic. *)
Ltac walk := repeat first
  [ done
  | apply wp_ret
  | apply wp_server; intros ? ?
  | apply wp_call; [done|intros ? [] ?]
  | apply wp_bind, (wp_mono _ _ _ (fun _ _ => True)); [intros ? [] _|]
  | apply (wp_for_each _ _ _ _ (fun _ => True)); [done|intros ? [] ? _]
  | case_match ].

Lemma apply_live i l ov : wp server_spec (ApplyDHCPv4Lease i l ov) tt (fun _ _ => True).
Proof. unfold ApplyDHCPv4Lease, UpdateResolvConf. cbv zeta. walk. Qed.

(** C11: a tick of the renewal loop renews when the server answers: with a client
    that can be made and a request that is answered, whatever the renewal itself
    and every other call give, the tick does not panic and leaves no lease to be
    renewed; a lease that was due has been obtained at the time of the tick. *)
Theorem renewals_live d :
  wp server_spec (checkRenewals d) tt (fun d' _ =>
    exists now, forall i, lease_rel (fun st st' =>
      due now st' = None /\ (is_Some (due now st) -> ObtainedAt st' = now)) (leases d !! i) (leases d' !! i)).
Proof.
  eapply wp_mono; [|apply (wp_checkRenewals server_spec
    (fun now _ st st' => due now st' = None /\ (is_Some (due now st) -> ObtainedAt st' = now)))].
  - by intros d' s [_ Hx].
  - done.
  - apply apply_live.
  - intros now i st Hd. rewrite Hd. split; [done|]. by intros [].
  - intros now i l st Hdue. eapply wp_mono; [|apply renew_live].
    intros ? [] (l' & -> & ? & [= <-] & Hl). destruct st. unfold renewed_state, set_times, due. simpl in *.
    rewrite (proj2 (Z.ltb_lt _ _) Hl). simpl. split; [|done].
    destruct (Z.ltb_spec (now + div64 (DHCPv4Lease_LeaseTime l') 2) now); [|done].
    pose proof (half_le now _ Hl). lia.
Qed.

(** A renewal by an external client, which does not say how long the lease is,
    leaves a lease that is due at once again. *)
Lemma external_renewal_stays_due now st l l' :
  due now st = Some l -> DHCPv4Lease_LeaseTime l' = 0 -> due now (renewed_state st now l') = Some l'.
Proof.
  unfold due, renewed_state, set_times. intros Hd ->. destruct st as [i [l0|] v6 o r e ov]; simpl in *; [|done].
  by destruct (r <? now).
Qed.
End renewals.

(** ** A restart *)

Section restart.
Context `{!LeaseJson, !LeaseJsonLaws, !RangeOrder}.

(** A file system that works, with a clock that does not go back. *)
Definition disk_post {X} (e : sys X) (s : files * Z) : X -> files * Z -> Prop :=
  match e in sys X return X -> files * Z -> Prop with
  | WriteFile p data => fun r s' => r = None /\ s' = (<[p := data]> s.1, s.2)
  | RemoveFile p => fun _ s' => s' = (delete p s.1, s.2)
  | ReadFile p => fun r s' => s' = s /\ match r with Ok data => s.1 !! p = Some data | Err _ => s.1 !! p = None end
  | Glob _ => fun r s' => s' = s /\
      exists l, r = Ok l /\ NoDup l /\
        forall p, p ∈ l <-> (exists i, p = lease_path i) /\ is_Some (s.1 !! p)
  | TimeNow => fun t s' => s.2 <= t /\ s' = (s.1, t)
  | _ => fun _ s' => s' = s
  end.
Definition disk_spec : spec sys (files * Z) :=
  Spec (fun _ _ _ => True) (fun X e s x s' => disk_post e s x s') True.

(** The lease of an interface, after the files have been loaded between two
    times: the saved one as JSON gives it back, unless it has expired. *)
Definition restored (t0 t1 : Z) (o o' : option LeaseState) : Prop :=
  match o with
  | None => o' = None
  | Some st => (o' = Some (json_state st) /\ t0 <= ExpireAt st) \/
               (o' = None /\ ExpireAt st < t1)
  end.

Lemma wp_Stop_disk d fs t :
  (forall i st, leases d !! i = Some st -> is_Some (MarshalLease st)) ->
  wp disk_spec (Stop d) (fs, t) (fun _ s => s.2 = t /\
    forall i, s.1 !! lease_path i =
      match leases d !! i with Some st => MarshalLease st | None => fs !! lease_path i end).
Proof.
  intros Hm. unfold Stop, saveLeases.
  eapply wp_mono; [|apply (wp_for_each_prefix _ _ _ _ (fun pre s => s.2 = t /\ forall i,
    s.1 !! lease_path i = if decide (i ∈ pre.*1) then leases d !! i ≫= MarshalLease else fs !! lease_path i))].
  - intros ? s [Ht Hs]. split; [done|]. intros i. rewrite Hs. case_decide as Hin.
    + apply list_elem_of_fmap in Hin as ([? st] & -> & Hin). apply elem_of_range in Hin. simpl. by rewrite Hin.
    + destruct (leases d !! i) as [st|] eqn:E; [|done]. exfalso. apply Hin, list_elem_of_fmap.
      exists (i, st). split; [done|]. by apply elem_of_range.
  - split; [done|]. intros i. case_decide as Hin; [by apply not_elem_of_nil in Hin|done].
  - intros pre [i st] post s Hl [Ht Hs].
    assert (leases d !! i = Some st) as Hi.
    { apply (elem_of_range 281). rewrite Hl. apply elem_of_app. right. left. }
    unfold saveLease. destruct (Hm i st Hi) as [data Hdata]. rewrite Hdata.
    apply wp_bind, wp_call; [done|]. intros r s' [-> ->]. apply wp_ret. split; [done|]. intros j. simpl.
    rewrite fmap_app. simpl. destruct (decide (j = i)) as [->|Hne].
    + rewrite decide_True by (apply elem_of_app; right; left). by rewrite lookup_insert_eq, Hi.
    + rewrite lookup_insert_ne by by intros ?%lease_path_inj. rewrite Hs.
      repeat case_decide; try done; exfalso; set_solver.
Qed.

Lemma restored_later t0 t1 t1' o o' : t1 <= t1' -> restored t0 t1 o o' -> restored t0 t1' o o'.
Proof. intros Ht. unfold restored. destruct o as [st|]; [|done]. intros [Ho|[Ho Ho']]; [by left|right]. split; [done|lia]. Qed.

Lemma wp_Start_disk (saved : gmap string LeaseState) m fs t :
  (forall i st, saved !! i = Some st -> Interface st = i /\ utf8 i) ->
  (forall i, fs !! lease_path i = (saved !! i) ≫= MarshalLease) ->
  (forall i st, saved !! i = Some st -> is_Some (MarshalLease st)) ->
  wp disk_spec (Start (MkDHCPDaemon m ∅)) (fs, t) (fun d s =>
    forall i, restored t s.2 (saved !! i) (leases d !! i)).
Proof.
  intros Hkey Hfs Hm. unfold Start. apply wp_bind, wp_call; [done|]. intros r s ->.
  unfold loadLeases. apply wp_bind, wp_call; [done|]. intros r1 s1 [-> (l & -> & Hnd & Hl)]. simpl in Hl.
  apply wp_bind. eapply wp_mono; [|apply (wp_for_fold_prefix _ _ _ _ _ (fun pre ls s => t <= s.2 /\
    (forall i, lease_path i ∉ pre -> ls !! i = None /\ s.1 !! lease_path i = fs !! lease_path i) /\
    forall i, lease_path i ∈ pre -> restored t s.2 (saved !! i) (ls !! i)))].
  - intros ls s (Ht & Hout & Hin). apply wp_ret. intros i. simpl.
    destruct (decide (lease_path i ∈ l)) as [Hi|Hi]; [by apply Hin|].
    destruct (Hout i Hi) as [-> _]. destruct (saved !! i) as [st|] eqn:E; [|done].
    exfalso. apply Hi, Hl. split; [by exists i|]. rewrite Hfs, E. by apply (Hm i).
  - split; [done|]. split; [done|]. intros i Hi. by apply not_elem_of_nil in Hi.
  - intros pre p post ls [fs1 t1] Hpre (Ht & Hout & Hin). simpl in Ht, Hout, Hin.
    assert (p ∈ l) as Hp by (rewrite Hpre; apply elem_of_app; right; left).
    apply Hl in Hp as [[i ->] Hsome].
    assert (lease_path i ∉ pre) as Hnew.
    { rewrite Hpre in Hnd. apply NoDup_app in Hnd as (_ & Hd & _). intros Hi. apply (Hd _ Hi). left. }
    destruct (Hout i Hnew) as [Hnone Hfile].
    rewrite Hfs in Hfile, Hsome. destruct (saved !! i) as [st|] eqn:Hst; [|by destruct Hsome].
    simpl in Hfile. destruct Hsome as [data Hdata]. simpl in Hdata. rewrite Hdata in Hfile.
    assert (forall (ls' : gmap string LeaseState) (fs' : files) t', t1 <= t' -> (forall j, j <> i -> ls' !! j = ls !! j) ->
      (forall j, j <> i -> fs' !! lease_path j = fs1 !! lease_path j) ->
      restored t t' (Some st) (ls' !! i) ->
      t <= t' /\
      (forall j, lease_path j ∉ pre ++ [lease_path i] -> ls' !! j = None /\
         fs' !! lease_path j = fs !! lease_path j) /\
      (forall j, lease_path j ∈ pre ++ [lease_path i] -> restored t t' (saved !! j) (ls' !! j))) as Hstep.
    { intros ls' fs' t' Ht' Hls' Hfs' Hi. split; [lia|]. split.
      - intros j Hj. assert (j <> i) as Hne by (intros ->; set_solver).
        rewrite Hls', Hfs' by done. apply Hout. set_solver.
      - intros j Hj. destruct (decide (j = i)) as [->|Hne]; [by rewrite Hst|].
        rewrite Hls' by done. apply (restored_later t t1); [done|]. apply Hin.
        apply elem_of_app in Hj as [?|[?%lease_path_inj|?%not_elem_of_nil]%elem_of_cons]; done. }
    pose proof (unmarshal_marshal _ _ Hdata) as Hu. destruct (Hkey i st Hst) as [Hname Hutf].
    unfold load_lease. apply wp_bind, wp_call; [done|]. intros r2 s [-> Hr]. simpl in Hr.
    destruct r2 as [data'|e]; [|by rewrite Hfile in Hr]. assert (data' = data) as -> by congruence. rewrite Hu.
    apply wp_bind, wp_call; [done|]. intros now s [Hnow ->]. simpl in Hnow.
    change (ExpireAt (json_state st)) with (ExpireAt st).
    destruct (Z.ltb_spec (ExpireAt st) now) as [He|He].
    + apply wp_bind, wp_call; [done|]. intros [] s ->. apply wp_ret. apply Hstep; [done|done| |].
      * intros j Hj. simpl. rewrite lookup_delete_ne; [done|]. by intros ?%lease_path_inj.
      * by right.
    + apply wp_ret. change (Interface (json_state st)) with (Str.to_utf8 (Interface st)).
      rewrite Hname, Hutf. apply Hstep; [done| |done|].
      * intros j Hj. by rewrite lookup_insert_ne.
      * left. rewrite lookup_insert_eq. split; [done|]. lia.
Qed.
End restart.

(** C13: a daemon that is stopped and started again has the leases it had.  With a
    file system that works, leases that can be encoded, kept under the names of
    their interfaces, which are UTF-8, and no file of a lease that the daemon does
    not have, the new daemon has for each interface the same lease: every address,
    server, time and override of it, the addresses being in the sixteen-byte form
    and the strings UTF-8 after their passage through JSON ([json_state]); unless
    its end is past, as the zero time of a lease of IPv6 alone always is.  It has
    no other lease. *)
Theorem restart_roundtrip `{!LeaseJson, !LeaseJsonLaws, !RangeOrder} d m fs t :
  (forall i st, leases d !! i = Some st -> (Interface st = i /\ utf8 i) /\ is_Some (MarshalLease st)) ->
  (forall i, leases d !! i = None -> fs !! lease_path i = None) ->
  wp disk_spec (Stop d ;; Start (MkDHCPDaemon m ∅)) (fs, t) (fun d' s =>
    forall i, restored t s.2 (leases d !! i) (leases d' !! i)).
Proof.
  intros Hd Hfs. apply wp_bind. eapply wp_mono; [|apply wp_Stop_disk; intros i st Hi; by apply (Hd i st)].
  intros ? [fs' t'] [Ht Hs]. simpl in Ht, Hs. subst t'. apply wp_Start_disk.
  - intros i st Hi. by apply Hd.
  - intros i. rewrite Hs. destruct (leases d !! i) eqn:E; [done|]. by apply Hfs.
  - intros i st Hi. by apply (Hd i st).
Qed.

#[local] Existing Instances Json.json Json.json_laws range_map_to_list.

Lemma restart_roundtrip_witness :
  let st := MkLeaseState "eth0" (Some Json.lease4) None 0 50 100 None in
  let d := MkDHCPDaemon (MkDHCPManager 0 0 "" "" "" "") {["eth0" := st]} in
  wp disk_spec (Stop d ;; Start (MkDHCPDaemon (MkDHCPManager 0 0 "" "" "" "") ∅)) (∅, 60) (fun d' s =>
    forall i, restored 60 s.2 (leases d !! i) (leases d' !! i)).
Proof.
  apply (restart_roundtrip
    (MkDHCPDaemon (MkDHCPManager 0 0 "" "" "" "") {["eth0" := MkLeaseState "eth0" (Some Json.lease4) None 0 50 100 None]})).
  - intros i st Hi. simpl in Hi. apply lookup_singleton_Some in Hi as [<- <-]. split; [split; reflexivity|]. by eexists.
  - intros i _. apply lookup_empty.
Defined.

