(* ===== verification/DhcpApplied.v ===== *)
(** * A DHCPv4 lease, from the server's answer to the interface

    The DHCP client, the lease that it reads, its application and the daemon that
    keeps it, together, on a host whose server answers: an abstract account of
    what an answer makes of an interface, and that the code implements it, for a
    first request and for a renewal. *)

From S2P Require Import Prelude GoStd GoNet IpText Effect Netlink Purego Host Dhcp LeaseDaemon LeaseInv.

(** The IPv4 addresses of the interface, the routes that programs have added to
    the host, the MTU of the interface, and the files. *)
#[local] Arguments mbind : simpl never.

Record host := MkHost {
  h_addrs : list Net.IPNet;
  h_routes : list NlRoute;
  h_mtu : Z;
  h_files : gmap string string
}.

Definition resolv_path : string := "/etc/resolv.conf".

Section host.
(** The interface and its link, the answer of the server, which addresses the kernel
    takes, which routes for given addresses and routes, the MTUs that the link
    takes, and whether systemd-resolved has its stub. *)
Context (iface : string) (index : Z) (ack : Ack4) (addr_ok : Net.IPNet -> bool).
Context (route_ok : list Net.IPNet -> list NlRoute -> NlRoute -> bool) (mtu_ok : Z -> bool) (stub : bool).

(** The routes through other links. *)
Definition others (l : list NlRoute) : list NlRoute :=
  filter (fun r => NlRoute_LinkIndex r <> index) l.

(** The calls are those on the interface, with the handle of the package. *)
Definition host_pre {X} (e : sys X) : Prop :=
  match e with
  | InterfaceByName name | NClient4New name _ _ | LinkByName None name => name = iface
  | AddrList h l family => h = pkg_handle /\ Link_Index l = index /\ family = FAMILY_V4
  | AddrAdd h l _ | AddrDel h l _ | LinkSetMTU h l _ => h = pkg_handle /\ Link_Index l = index
  | RouteAdd h r => h = pkg_handle /\ NlRoute_LinkIndex r = index
  | WriteFile p _ => p = resolv_path \/ p = lease_path iface
  | NClient4Request _ _ _ | NClient4Build _ | NClient4SendAndRead _ _ _ | NClient4Close _
  | StatFile _ | TimeNow => True
  | _ => False
  end.

(** Deleting an address may take its secondary addresses with it; with the last
    address of a link, the kernel drops the link's routes. *)
Definition host_post {X} (e : sys X) (h : host) : X -> host -> Prop :=
  match e in sys X return X -> host -> Prop with
  | InterfaceByName _ => fun r h' => h' = h /\ exists i, r = Ok i
  | NClient4New _ _ _ => fun r h' => h' = h /\ exists c, r = Ok c
  | NClient4Request _ _ _ | NClient4SendAndRead _ _ _ => fun r h' => h' = h /\ r = Ok ack
  | NClient4Build _ => fun r h' => h' = h /\ r = None
  | LinkByName _ _ => fun r h' => h' = h /\ exists l, r = Ok l /\ Link_Index l = index
  | AddrList _ _ _ => fun r h' => h' = h /\ exists l, r = Ok l /\ Addr_IPNet <$> l = h_addrs h
  | AddrDel _ _ a => fun r h' =>
      (Addr_IPNet a ∉ h_addrs h) /\ h' = h \/
      exists addrs routes, h' = MkHost addrs routes (h_mtu h) (h_files h) /\
        (forall n, n ∈ addrs -> n ∈ h_addrs h /\ n <> Addr_IPNet a) /\
        others routes = others (h_routes h) /\ (addrs = [] -> routes = others (h_routes h))
  | AddrAdd _ _ a => fun r h' =>
      if addr_ok (Addr_IPNet a)
      then r = None /\ h' = MkHost (h_addrs h ++ [Addr_IPNet a]) (h_routes h) (h_mtu h) (h_files h)
      else is_Some r /\ h' = h
  | RouteAdd _ r => fun _ h' =>
      h' = if route_ok (h_addrs h) (h_routes h) r
           then MkHost (h_addrs h) (h_routes h ++ [r]) (h_mtu h) (h_files h) else h
  | LinkSetMTU _ _ n => fun _ h' =>
      h' = if mtu_ok n then MkHost (h_addrs h) (h_routes h) n (h_files h) else h
  | StatFile _ => fun r h' => h' = h /\ (r = None <-> stub = true)
  | WriteFile p data => fun _ h' => h' = MkHost (h_addrs h) (h_routes h) (h_mtu h) (<[p := data]> (h_files h))
  | _ => fun _ h' => h' = h
  end.

Definition host_spec : spec sys host :=
  Spec (fun X e _ => host_pre e) (fun X e h x h' => host_post e h x h') False.

(** ** What terms make of the host *)

(** What an interface gets: its address, a default route, an MTU and the text of
    resolv.conf. *)
Record Terms := MkTerms {
  t_net : Net.IPNet;
  t_route : option NlRoute;
  t_mtu : option Z;
  t_resolv : option string
}.

(** The routes that are left when the addresses are gone. *)
Definition kept (h : host) : list NlRoute :=
  match h_addrs h with [] => h_routes h | _ => others (h_routes h) end.

(** The interface has no address, and nothing of the terms has been used. *)
Definition bare (h : host) : host := MkHost [] (kept h) (h_mtu h) (h_files h).

Definition with_route (r : option NlRoute) (addrs : list Net.IPNet) (routes : list NlRoute) : list NlRoute :=
  match r with Some r => if route_ok addrs routes r then routes ++ [r] else routes | None => routes end.
Definition with_mtu (n : option Z) (old : Z) : Z :=
  match n with Some n => if mtu_ok n then n else old | None => old end.
Definition with_resolv (text : option string) (files : gmap string string) : gmap string string :=
  match text with Some s => if stub then files else <[resolv_path := s]> files | None => files end.

(** The interface has the address of the terms and no other. *)
Definition leased (t : Terms) (h : host) : host :=
  MkHost [t_net t] (with_route (t_route t) [t_net t] (kept h)) (with_mtu (t_mtu t) (h_mtu h))
    (with_resolv (t_resolv t) (h_files h)).

(** What the terms make of the host: as much as the kernel lets them. *)
Definition applied (t : Terms) (h : host) : host := if addr_ok (t_net t) then leased t h else bare h.

(** A default route by a gateway. *)
Definition default_route (gw : Net.IP) (metric : Z) : NlRoute :=
  NlRoute_zero <| NlRoute_LinkIndex := index |> <| NlRoute_Gw := Some gw |>
    <| NlRoute_Priority := Z.max 0 metric |>.

(** The terms of an answer: the address with the mask or, if there is none, a /24;
    the first router, the MTU and the name servers, each as far as the overrides
    say that it is to be used. *)
Definition answer_terms (ov : NlDHCPOverrides) : Terms := {|
  t_net := Net.MkIPNet (Ack4_YourIPAddr ack) (default (Net.CIDRMask 24 32) (Ack4_SubnetMask ack));
  t_route :=
    match Ack4_Router ack with
    | [] | [] :: _ => None
    | gw :: _ => if NlDHCPOverrides_UseRoutes ov then Some (default_route gw (NlDHCPOverrides_RouteMetric ov)) else None
    end;
  t_mtu :=
    match Ack4_MTU ack with
    | Some n => if (0 <? n) && NlDHCPOverrides_UseMTU ov then Some n else None
    | None => None
    end;
  t_resolv :=
    match Ack4_DNS ack with
    | [] => None
    | dns => if NlDHCPOverrides_UseDNS ov
             then Some (lease_resolv dns (if NlDHCPOverrides_UseDomains ov then Ack4_DomainName ack else ""))
             else None
    end
|}.

(** The terms of a lease. *)
Definition lease_terms (lease : DHCPv4Lease) (ov : NlDHCPOverrides) : Terms := {|
  t_net := Net.MkIPNet (DHCPv4Lease_IP lease) (DHCPv4Lease_Netmask lease);
  t_route :=
    match DHCPv4Lease_Gateway lease with
    | [] => None
    | gw => if NlDHCPOverrides_UseRoutes ov then Some (default_route gw (NlDHCPOverrides_RouteMetric ov)) else None
    end;
  t_mtu := if (0 <? DHCPv4Lease_MTU lease) && NlDHCPOverrides_UseMTU ov then Some (DHCPv4Lease_MTU lease) else None;
  t_resolv :=
    match DHCPv4Lease_DNS lease with
    | [] => None
    | dns => if NlDHCPOverrides_UseDNS ov
             then Some (lease_resolv dns (if NlDHCPOverrides_UseDomains ov then DHCPv4Lease_Domain lease else ""))
             else None
    end
|}.

Definition ack_lease : DHCPv4Lease := purego4ToLease (V4.parseLeaseFromACK ack).

(** Reading the answer into a lease loses no term. *)
Lemma ack_lease_terms ov : lease_terms ack_lease ov = answer_terms ov.
Proof.
  unfold lease_terms, answer_terms. cbn -[Z.ltb]. f_equal.
  - by destruct (Ack4_Router ack) as [|[|b gw] gws].
  - by destruct (Ack4_MTU ack).
Qed.

(** ** The code implements it *)

Lemma others_others l : others (others l) = others l.
Proof. unfold others. rewrite list_filter_filter. apply list_filter_iff. tauto. Qed.

(** While the addresses [done] of [h0] are gone. *)
Definition clearing (h0 : host) (gone : list Net.IPNet) (h : host) : Prop :=
  (forall n, n ∈ h_addrs h -> n ∈ h_addrs h0 /\ n ∉ gone) /\ others (h_routes h) = others (h_routes h0) /\
  (h_addrs h = [] -> h_routes h = kept h0) /\ h_mtu h = h_mtu h0 /\ h_files h = h_files h0.

Lemma clearing_all h0 h : clearing h0 (h_addrs h0) h -> h = bare h0.
Proof.
  intros (Ha & _ & Hr & Hm & Hf). destruct h as [addrs routes mtu files]. simpl in *.
  assert (addrs = []) as ->; [|by rewrite Hr, Hm, Hf]. destruct addrs as [|n addrs]; [done|].
  by destruct (Ha n ltac:(left)).
Qed.

Lemma wp_clear link l h :
  Link_Index link = index -> Addr_IPNet <$> l = h_addrs h ->
  wp host_spec (for_each l (fun a => warn! call (AddrDel pkg_handle link a); Ret tt)) h (fun _ h' => h' = bare h).
Proof.
  intros Hl Ha. eapply wp_mono; [|apply (wp_for_each_prefix _ _ _ h (fun pre => clearing h (Addr_IPNet <$> pre)))].
  - intros ? h' Hc. rewrite Ha in Hc. by apply clearing_all.
  - split_and!; try done; [|by unfold kept; intros ->]. intros n Hn. split; [done|]. by apply not_elem_of_nil.
  - intros pre a post h1 -> (A & R & E & M & F). apply wp_bind, wp_call; [done|].
    intros r h2 [(Hout & ->)|(addrs & routes & -> & Hin & Ho & He)]; apply wp_ret; split_and!; simpl; try done.
    + intros n Hn. destruct (A n Hn) as [Hn0 Hnp]. split; [done|]. rewrite fmap_app, elem_of_app.
      intros [Hx|Hx%list_elem_of_singleton]; [by apply Hnp|subst n; by apply Hout].
    + intros n Hn. destruct (Hin n Hn) as [Hn1 Hne]. destruct (A n Hn1) as [Hn0 Hnp]. split; [done|].
      rewrite fmap_app, elem_of_app. by intros [Hx|Hx%list_elem_of_singleton].
    + by rewrite Ho.
    + intros Hnil. rewrite He, R by done. unfold kept. destruct (h_addrs h) eqn:Hh; [|done].
      by destruct pre.
Qed.

Lemma wp_UpdateResolvConf dns domain h (Q : err -> host -> Prop) :
  (forall e, Q e (if stub then h else
     MkHost (h_addrs h) (h_routes h) (h_mtu h) (<[resolv_path := lease_resolv dns domain]> (h_files h)))) ->
  wp host_spec (UpdateResolvConf dns domain) h Q.
Proof.
  intros HQ. apply wp_bind, wp_call; [done|]. intros r h' [-> Hr]. destruct r as [e|].
  - apply wp_call; [by left|]. intros r h' ->. destruct stub; [by discriminate (proj2 Hr eq_refl)|apply HQ].
  - rewrite (proj1 Hr eq_refl) in HQ. apply wp_ret, HQ.
Qed.

(** ApplyDHCPv4Lease gives the host the terms of the lease, and an error when the
    kernel does not take the address. *)
Lemma wp_ApplyDHCPv4Lease lease ov h :
  wp host_spec (ApplyDHCPv4Lease iface lease ov) h (fun e h' =>
    h' = applied (lease_terms lease (default defaultDHCPOverrides ov)) h /\
    (e = None <-> addr_ok (t_net (lease_terms lease (default defaultDHCPOverrides ov))) = true)).
Proof.
  unfold ApplyDHCPv4Lease. set (o := default defaultDHCPOverrides ov). cbv zeta.
  set (t := lease_terms lease o).
  apply wp_bind, wp_call; [done|]. intros ? ? (-> & link & -> & Hl).
  apply wp_bind, wp_call; [done|]. intros ? ? (-> & l & -> & Ha).
  apply wp_bind. eapply wp_mono; [|by apply wp_clear]. intros _ ? ->.
  unfold applied. apply wp_bind, wp_call; [done|]. intros r h1 Hr. simpl in Hr.
  change (Net.MkIPNet (DHCPv4Lease_IP lease) (DHCPv4Lease_Netmask lease)) with (t_net t) in Hr.
  destruct (addr_ok (t_net t)); [destruct Hr as [-> ->]|destruct Hr as [[e ->] ->]; by apply wp_ret].
  eapply (wp_mono _ _ _ (fun e h' => e = None /\ h' = leased t h)); [by intros ? ? [-> ->]|].
  apply wp_bind. apply (wp_mono _ _ _ (fun _ h' => h' =
    MkHost [t_net t] (with_route (t_route t) [t_net t] (kept h)) (h_mtu h) (h_files h))).
  2: { unfold t, lease_terms, gateway_route. simpl. destruct (DHCPv4Lease_Gateway lease); [by apply wp_ret|].
       destruct (NlDHCPOverrides_UseRoutes o); [|by apply wp_ret].
       apply wp_bind, wp_call; [done|]. intros ? ? ->. apply wp_ret. simpl. rewrite Hl. by destruct (route_ok _ _ _). }
  intros _ ? ->.
  apply wp_bind. apply (wp_mono _ _ _ (fun _ h' => h' =
    MkHost [t_net t] (with_route (t_route t) [t_net t] (kept h)) (with_mtu (t_mtu t) (h_mtu h)) (h_files h))).
  2: { unfold t, lease_terms. simpl. destruct (_ && NlDHCPOverrides_UseMTU o); [|by apply wp_ret].
       apply wp_bind, wp_call; [done|]. intros ? ? ->. apply wp_ret. simpl. by destruct (mtu_ok _). }
  intros _ ? ->.
  apply wp_bind. apply (wp_mono _ _ _ (fun _ h' => h' = leased t h)); [by intros ? ? ->|].
  unfold leased, t, lease_terms. simpl. destruct (DHCPv4Lease_DNS lease); [by apply wp_ret|].
  destruct (NlDHCPOverrides_UseDNS o); [|by apply wp_ret].
  apply wp_bind, wp_UpdateResolvConf. intros ?. apply wp_ret. simpl. by destruct stub.
Qed.

(** ** The client *)

Lemma wp_V4_client {A} c t r w (f : Z -> prog sys (res A)) h (Q : res A -> host -> Prop) :
  V4.ifaceName c = iface -> (forall x, wp host_spec (f x) h Q) -> wp host_spec (V4.with_client c t r w f) h Q.
Proof.
  intros Hc Hf. apply wp_bind, wp_call; [done|]. intros ? ? (-> & x & ->).
  apply wp_bind. eapply wp_mono; [|apply Hf]. intros a h' HQ. apply wp_bind, wp_call; [done|]. by intros ? ? ->.
Qed.

(** A request is answered. *)
Lemma wp_RequestDHCPv4 m h :
  wp host_spec (RequestDHCPv4 m iface) h (fun r h' => r = Ok ack_lease /\ h' = h).
Proof.
  unfold RequestDHCPv4, requestDHCPv4PureGo, V4.NewDHCPv4Client. apply wp_bind, wp_bind, wp_bind, wp_call; [done|].
  intros ? ? (-> & i & ->). apply wp_ret, wp_bind.
  apply (wp_mono _ _ _ (fun c h' => V4.ifaceName c = iface /\ h' = h)).
  2: { unfold mac_client_id, with_hostname. destruct (Str.eqb _ _); [|apply wp_ret; by destruct (negb _)].
       apply wp_bind, wp_call; [done|]. intros ? ? (-> & j & ->). apply wp_ret.
       by destruct (negb _), (NetInterface_HardwareAddr j). }
  intros c ? [Hc ->]. apply wp_bind, wp_V4_client; [done|]. intros x.
  apply wp_bind, wp_call; [done|]. by intros ? ? [-> ->].
Qed.

Lemma wp_renew_unicast m lease h :
  wp host_spec (renew_unicast m iface lease) h (fun r h' => (r = None \/ r = Some ack_lease) /\ h' = h).
Proof.
  unfold renew_unicast. destruct (DHCPv4Lease_ServerIP lease); [by split; [left|]|].
  apply wp_bind, wp_bind, wp_call; [done|]. intros ? ? (-> & itf & ->). apply wp_ret, wp_bind, wp_V4_client.
  { unfold with_hostname. by destruct (negb _). }
  intros x. apply wp_bind, wp_call; [done|]. intros ? ? [-> ->].
  apply wp_bind, wp_call; [done|]. intros ? ? [-> ->]. destruct (negb _); apply wp_ret; split; auto.
Qed.

(** A lease that is due is renewed: by its server, or by a new request. *)
Lemma wp_renewed m lease st now h :
  wp host_spec (renew m iface lease st now) h (fun r h' => r = Some ack_lease /\ h' = h).
Proof.
  unfold renew, RenewDHCPv4. apply wp_bind, wp_bind. eapply wp_mono; [|apply wp_renew_unicast].
  intros ? ? [[->| ->] ->]; [|by apply wp_ret]. eapply wp_mono; [|apply wp_RequestDHCPv4]. by intros ? ? [-> ->].
Qed.

(** A renewal with the same answer leaves the host as it is, when the interface had
    an address before the first. *)
Lemma leased_again t h :
  h_addrs h <> [] -> (forall r, t_route t = Some r -> NlRoute_LinkIndex r = index) ->
  leased t (leased t h) = leased t h.
Proof.
  intros Ha Hr. assert (kept (leased t h) = kept h) as Hk.
  { unfold leased, kept. simpl. destruct (h_addrs h); [done|]. unfold with_route.
    destruct (t_route t) as [r|]; [|apply others_others]. destruct (route_ok _ _ r); [|apply others_others].
    rewrite <-(others_others (h_routes h)) at 2. unfold others at 1. rewrite filter_app, filter_cons_False.
    - by rewrite filter_nil, app_nil_r.
    - intros Hne. by apply Hne, Hr. }
  unfold leased at 1. rewrite Hk. unfold leased. simpl. f_equal.
  - unfold with_mtu. destruct (t_mtu t) as [n|]; [|done]. by destruct (mtu_ok n).
  - unfold with_resolv. destruct (t_resolv t); [|done]. destruct stub; [done|]. apply insert_insert_eq.
Qed.

(** ** The daemon *)

Section daemon.
Context `{!LeaseJson, !RangeOrder}.

(** The file of the interface's lease is written. *)
Definition saved (st : LeaseState) (h : host) : host :=
  match MarshalLease st with
  | Some data => MkHost (h_addrs h) (h_routes h) (h_mtu h) (<[lease_path iface := data]> (h_files h))
  | None => h
  end.

(** The daemon keeps the lease of the answer with the overrides [ov], and its terms
    are applied to the host. *)
Definition given (ov : option NlDHCPOverrides) (st : LeaseState) (h h' : host) : Prop :=
  IPv4 st = Some ack_lease /\ V4Overrides st = ov /\
  h' = saved st (applied (answer_terms (default defaultDHCPOverrides ov)) h).

Lemma wp_saved st h : wp host_spec (saveLease iface st) h (fun _ h' => h' = saved st h).
Proof.
  unfold saveLease, saved. destruct (MarshalLease st); [|done]. apply wp_bind, wp_call; [by right|]. by intros ? ? ->.
Qed.

(** The lease is applied and saved. *)
Lemma wp_apply_save st ov h :
  IPv4 st = Some ack_lease -> V4Overrides st = ov ->
  wp host_spec (ApplyDHCPv4Lease iface ack_lease ov) h (fun _ h1 =>
    wp host_spec (saveLease iface st) h1 (fun _ h2 => given ov st h h2)).
Proof.
  intros H4 Hov. eapply wp_mono; [|apply wp_ApplyDHCPv4Lease]. intros e h1 [-> _].
  eapply wp_mono; [|apply wp_saved]. intros ? h2 ->. split_and!; [done..|]. by rewrite ack_lease_terms.
Qed.

(** C14: what the server of DHCPv4 answers is what the interface gets.  On a host
    whose server answers with [ack], and whose kernel does what it is asked where
    it can, RequestLease leaves the interface with the address and the mask of the
    answer (a /24 without a mask) and no other IPv4 address, with a default route
    by its first router, with its MTU and with its name servers and domain in
    resolv.conf, each exactly when the answer has it and the overrides want it;
    when the kernel does not take the address, the interface is left with none and
    nothing else of the answer is used.  Either way the daemon keeps the lease, in
    memory and in its file.  A renewal of a lease that is due does the same,
    whether its server answers or a new request is made; so it also takes away
    what else the interface had.  No other interface and no other file is
    touched. *)
Theorem lease_reaches_interface :
  (forall d ov v6ov h,
     wp host_spec (RequestLease iface true false ov v6ov d) h (fun d' h' =>
       exists st, d' = with_leases d (<[iface := st]> (leases d)) /\ given ov st h h')) /\
  (forall m now ls st l h, due now st = Some l ->
     wp host_spec (check_lease m now ls (iface, st)) h (fun ls' h' =>
       exists st', ls' = <[iface := st']> ls /\ given (V4Overrides st) st' h h')).
Proof.
  split.
  - intros d ov v6ov h. unfold RequestLease, request_v4. apply wp_bind, wp_call; [done|]. intros now ? ->.
    apply wp_bind, wp_bind. eapply wp_mono; [|apply wp_RequestDHCPv4]. intros ? ? [-> ->].
    cbv zeta. set (st := if _ <? _ then _ else _).
    assert (IPv4 st = Some ack_lease /\ V4Overrides st = ov) as [H4 Hov].
    { unfold st, set_times. by repeat destruct (0 <? _). }
    apply wp_bind. eapply wp_mono; [|by apply (wp_apply_save st ov h)].
    intros ? h1 Hs. apply wp_ret, wp_bind, wp_ret.
    assert (has_lease st = true) as -> by (unfold has_lease; rewrite H4; done).
    apply wp_bind. eapply wp_mono; [|exact Hs]. intros ? h2 Hg. apply wp_ret. by exists st.
  - intros m now ls st l h Hdue. unfold check_lease. rewrite Hdue. apply wp_bind.
    eapply wp_mono; [|apply wp_renewed]. intros ? ? [-> ->]. cbv zeta. set (st' := renewed_state _ _ _).
    assert (IPv4 st' = Some ack_lease /\ V4Overrides st' = V4Overrides st) as [H4 Hov].
    { unfold st', renewed_state, set_times. destruct st. by destruct (0 <? _). }
    rewrite Hov. apply wp_bind. eapply wp_mono; [|by apply (wp_apply_save st' (V4Overrides st) h)].
    intros ? h1 Hs. apply wp_bind. eapply wp_mono; [|exact Hs]. intros ? h2 Hg. apply wp_ret. by exists st'.
Qed.
End daemon.
End host.

(** ** An interface *)

Module Eth0.
#[local] Existing Instances Json.json range_map_to_list.

Definition v4 (a b c d : Z) : Net.IP := Net.v4in6 ++ [a; b; c; d].

(** An answer, a kernel that takes a route once and MTUs from 68 on, and a host with
    another address on the interface and a route on it and on another. *)
Definition answer : Ack4 :=
  MkAck4 5 (v4 192 0 2 7) [] (Some [255; 255; 255; 128]) [v4 192 0 2 1] [v4 192 0 2 53] "example.org" 0 (Some 1400)
    None None (Some (v4 192 0 2 2)) 0 0.
Definition takes (addrs : list Net.IPNet) (routes : list NlRoute) (r : NlRoute) : bool :=
  forallb (fun r' => negb (NlRoute_Priority r' =? NlRoute_Priority r)) routes.
Definition route (index metric : Z) : NlRoute :=
  NlRoute_zero <| NlRoute_LinkIndex := index |> <| NlRoute_Gw := Some (v4 198 51 100 1) |>
    <| NlRoute_Priority := metric |>.
Definition before : host :=
  MkHost [Net.MkIPNet (v4 198 51 100 9) (Net.CIDRMask 24 32)] [route 2 100; route 3 50] 1500 ∅.
Definition state : LeaseState := MkLeaseState "eth0" (Some Json.lease4) None 0 50 100
  (Some (MkNlDHCPOverrides true true true 100 true)).

(** What the answer makes of it. *)
Definition after : host :=
  MkHost [Net.MkIPNet (v4 192 0 2 7) [255; 255; 255; 128]] [route 3 50; default_route 2 (v4 192 0 2 1) 100] 1400
    {[resolv_path := lease_resolv [v4 192 0 2 53] "example.org"]}.

Abbreviation spec := (host_spec "eth0" 2 answer (fun _ => true) takes (fun n => 68 <=? n) false).
Definition m : DHCPManager := MkDHCPManager 0 0 "" "" "" "".
Definition renewal : prog sys (gmap string LeaseState) := check_lease m 60 {["eth0" := state]} ("eth0", state).

(** A run, in which everything succeeds. *)
Lemma renewal_runs : exists ls st, exec spec renewal before ls (saved "eth0" st after).
Proof.
  eexists _, _. unfold renewal.
  eapply (exec_vis _ _ _ _ _ (Ok (MkNetInterface 2 [] 1500)));
    [split; [reflexivity|by eexists]|].
  eapply (exec_vis _ _ _ _ _ (Ok 5)); [split; [reflexivity|by eexists]|].
  eapply (exec_vis _ _ _ _ _ (Ok answer)); [split; [reflexivity|done]|].
  eapply (exec_vis _ _ _ _ _ tt); [reflexivity|].
  eapply (exec_vis _ _ _ _ _ (Ok (MkLink 2 "eth0" [] true OperUp "device" 1500 0))); [split; [reflexivity|by eexists]|].
  eapply (exec_vis _ _ _ _ _ (Ok [MkAddr (Net.MkIPNet (v4 198 51 100 9) (Net.CIDRMask 24 32)) "" 0 0]));
    [split; [reflexivity|by eexists]|].
  eapply (exec_vis _ _ _ _ _ None).
  { right. exists [], [route 3 50]. split; [reflexivity|]. split; [set_solver|]. by split. }
  eapply (exec_vis _ _ _ _ _ None); [by split|].
  eapply (exec_vis _ _ _ _ _ None); [reflexivity|].
  eapply (exec_vis _ _ _ _ _ None); [reflexivity|].
  eapply (exec_vis _ _ _ _ _ (Some (EMsg "no such file" []))); [by split|].
  eapply (exec_vis _ _ _ _ _ None); [reflexivity|].
  eapply (exec_vis _ _ _ _ _ None); [reflexivity|].
  apply exec_ret.
Qed.
End Eth0.

#[local] Existing Instances Json.json range_map_to_list.

Lemma lease_reaches_interface_witness :
  due 60 Eth0.state = Some Json.lease4 /\
  wp Eth0.spec Eth0.renewal Eth0.before (fun ls h' => exists st, ls = {["eth0" := st]} /\
    h' = saved "eth0" st Eth0.after).
Proof.
  split; [reflexivity|]. eapply wp_mono; [|apply (proj2 (lease_reaches_interface "eth0" 2 Eth0.answer (fun _ => true) Eth0.takes
    (fun n => 68 <=? n) false) Eth0.m 60 {["eth0" := Eth0.state]} Eth0.state Json.lease4 Eth0.before); reflexivity].
  intros ls h' (st & -> & _ & _ & Hh). exists st. rewrite insert_singleton_eq. split; [done|].
  replace (applied _ _ _ _ _ _ _) with Eth0.after in Hh by reflexivity. exact Hh.
Defined.
