(* ===== verification/Setup.v ===== *)
(** * Setting up the devices of a namespace (cmd/apply.go)

    The functions that bring the devices of a namespace into being, one per kind
    of device, and those that configure a device.  A device or a route that is
    null makes them panic where the code first looks into it. *)

From S2P Require Import Prelude GoStd GoNet Effect Config Validate Netlink Host.

(** [if b { p }]. *)
Definition when (b : bool) (p : prog sys unit) : prog sys unit := if b then p else Ret tt.

(** A call whose error is only logged. *)
Definition ignore (p : prog sys err) : prog sys unit := warn! p; Ret tt.

(** ** Routes and rules *)

(* go: cmd/apply.go 1780-1784 addRoutingPolicy *)
Definition addRoutingPolicy (m : NetlinkManager) (policy : RoutingPolicy) : prog sys err :=
  AddRule m (RoutingPolicy_From policy) (RoutingPolicy_To policy) (RoutingPolicy_Table policy)
    (RoutingPolicy_Priority policy) (RoutingPolicy_Mark policy).

(** The destination that addRoute asks for. *)
(* go: cmd/apply.go 1787-1795 addRoute *)
Definition route_to (to : string) : string :=
  let to := if Str.eqb to "default" then "0.0.0.0/0" else to in
  if negb (Str.contains_byte to "/") && negb (Str.eqb to "0.0.0.0/0") then to +:+ "/32" else to.

Definition route_options (dev : string) (route : Route) : RouteOptions := {|
  RouteOptions_Dst := route_to (Route_To route);
  RouteOptions_Gw := Route_Via route;
  RouteOptions_Dev := dev;
  RouteOptions_Src := Route_From route;
  RouteOptions_Metric := Route_Metric route;
  RouteOptions_Table := Route_Table route;
  RouteOptions_Scope := Route_Scope route;
  RouteOptions_Type := Route_Type route;
  RouteOptions_OnLink := default false (Route_OnLink route);
  RouteOptions_MTU := Route_MTU route;
  RouteOptions_Encap := (fun e => MkSEG6EncapOpts (RouteEncap_Mode e) (RouteEncap_Segments e)) <$> Route_Encap route
|}.

(* go: cmd/apply.go 1786-1826 addRoute *)
Definition addRoute (m : NetlinkManager) (dev : string) (route : Route) : prog sys err :=
  match (match Route_Encap route with
         | Some e => SRv6.ValidateRouteEncap (Some e)
         | None => None
         end) with
  | Some e => Ret (Some e)
  | None => AddRouteOpts m (route_options dev route)
  end.

Definition add_routes (m : NetlinkManager) (name : string) (routes : list (ptr Route)) : prog sys unit :=
  for_each routes (fun route => route ← lift route; ignore (addRoute m name route)).

Definition add_policies (m : NetlinkManager) (policies : list (ptr RoutingPolicy)) : prog sys unit :=
  for_each policies (fun policy => policy ← lift policy; ignore (addRoutingPolicy m policy)).

(** ** Devices *)

(* go: cmd/apply.go 1437-1448 applyNameservers *)
Definition applyNameservers (name : string) (ns : ptr Nameservers) : prog sys unit :=
  match ns with
  | None => Ret tt
  | Some ns =>
      match Nameservers_Addresses ns, Nameservers_Search ns with
      | [], [] => Ret tt
      | _, _ => ignore (ApplyDNS name (Nameservers_Addresses ns) (Nameservers_Search ns))
      end
  end.

(* go: cmd/apply.go 1906-1922 applyNDProxy *)
Definition applyNDProxy (m : NetlinkManager) (name : string) (ndp : ptr NDProxy) : prog sys unit :=
  match ndp with
  | None => Ret tt
  | Some ndp =>
      match NDProxy_Addresses ndp with
      | [] => Ret tt
      | addrs =>
          ignore (EnableProxyNDP name) ;;
          for_each addrs (fun ip => ignore (AddProxyNDP m name ip))
      end
  end.

Section setup.
Context `{Libs} `{RangeOrder}.

(** An address is added unless the link has it already. *)
(* go: cmd/apply.go 1521-1535 setupDevice *)
Definition add_address (m : NetlinkManager) (name : string) (addr : Address) : prog sys unit :=
  hasAddr ← HasAddress m name (Address_CIDR addr);
  match hasAddr with
  | Err _ => Ret tt
  | Ok true => Ret tt
  | Ok false =>
      ignore (AddAddressOpts m name (Address_CIDR addr) (Address_Label addr) (Address_Lifetime addr))
  end.

(* go: cmd/apply.go 1500-1545 setupDevice *)
Definition setupDevice (m : NetlinkManager) (name : string) (addresses : list Address)
    (routes : list (ptr Route)) (mtu : Z) (mac : string) : prog sys err :=
  when (0 <? mtu) (ignore (SetLinkMTU m name mtu)) ;;
  when (negb (Str.is_empty mac)) (ignore (SetLinkMacAddress m name mac)) ;;
  try! SetLinkUp m name as EWrap "failed to set %s up: %w" [name];
  for_each addresses (add_address m name) ;;
  add_routes m name routes ;;
  Ret None.

(** setupDevice, with the error of the caller. *)
Definition setup_or (m : NetlinkManager) (name : string) (addresses : list Address)
    (routes : list (ptr Route)) (mtu : Z) (mac what : string) (q : prog sys err) : prog sys err :=
  try! setupDevice m name addresses routes mtu mac as EWrap ("failed to setup " +:+ what +:+ " %s: %w") [name];
  q.

(* go: cmd/apply.go 1487-1498 parseUseDomains *)
Definition parseUseDomains (v : iface) : bool :=
  match v with
  | IBool x => x
  | IString x => Str.equal_fold x "true"
  | _ => false
  end.

(* go: cmd/apply.go 1459-1485 dhcpOverridesToNl *)
Definition dhcpOverridesToNl (o : ptr DHCPOverrides) : NlDHCPOverrides :=
  match o with
  | None => MkNlDHCPOverrides true true true 0 false
  | Some o => {|
      NlDHCPOverrides_UseDNS := default true (DHCPOverrides_UseDNS o);
      NlDHCPOverrides_UseMTU := default true (DHCPOverrides_UseMTU o);
      NlDHCPOverrides_UseRoutes := default true (DHCPOverrides_UseRoutes o);
      NlDHCPOverrides_RouteMetric := DHCPOverrides_RouteMetric o;
      NlDHCPOverrides_UseDomains := parseUseDomains (DHCPOverrides_UseDomains o) |}
  end.

(** *** The parts of setupDeviceWithDHCP *)

(* go: cmd/apply.go 1569-1583 setupDeviceWithDHCP *)
Definition activate (m : NetlinkManager) (name : string) (cfg : Ethernet) : prog sys err :=
  let mode := Str.to_lower (Ethernet_ActivationMode cfg) in
  if Str.eqb mode "off" then warn! SetLinkDown m name; Ret None
  else if Str.eqb mode "manual" then Ret None
  else try! SetLinkUp m name as EWrap "failed to set %s up: %w" [name]; Ret None.

(** accept-ra, then ipv6-privacy, which overrides what EnableSLAAC wrote, then
    link-local addressing, then the generation of addresses. *)
(* go: cmd/apply.go 1601-1674 setupDeviceWithDHCP *)
Definition setup_ipv6 (name : string) (cfg : Ethernet) : prog sys unit :=
  (match Ethernet_AcceptRA cfg with
   | Some true => ignore (EnableSLAAC name)
   | Some false => ignore (DisableSLAAC name)
   | None => Ret tt
   end) ;;
  (match Ethernet_IPv6Privacy cfg with
   | Some p => ignore (SetIPv6Privacy name (if p : bool then 2 else 0))
   | None => Ret tt
   end) ;;
  (match Ethernet_LinkLocal cfg with
   | Some families =>
       ignore (SetLinkLocalIPv6 name (existsb (fun f => Str.eqb (Str.to_lower f) "ipv6") families))
   | None => Ret tt
   end) ;;
  if negb (Str.is_empty (Ethernet_IPv6AddrToken cfg)) then
    ignore (SetIPv6Token name (Ethernet_IPv6AddrToken cfg))
  else when (negb (Str.is_empty (Ethernet_IPv6AddrGen cfg)))
         (ignore (SetIPv6AddrGenMode name (Ethernet_IPv6AddrGen cfg))).

(* go: cmd/apply.go 1676-1708 setupDeviceWithDHCP *)
Definition start_dhcp4 (name : string) (cfg : Ethernet) : prog sys unit :=
  when (Ethernet_DHCP4 cfg) (
    m ← NewDHCPManager;
    let ov := dhcpOverridesToNl (Ethernet_DHCP4Overrides cfg) in
    let m := if negb (Str.is_empty (Ethernet_DHCPIdentifier cfg))
             then SetDHCPIdentifier (Ethernet_DHCPIdentifier cfg) m else m in
    let m := match Ethernet_DHCP4Overrides cfg with
             | None => m
             | Some o =>
                 let m := if negb (Str.is_empty (DHCPOverrides_Hostname o))
                          then SetHostname (DHCPOverrides_Hostname o) m else m in
                 match DHCPOverrides_SendHostname o with
                 | Some false => SetSendHostname false m
                 | _ => m
                 end
             end in
    call (Go (TaskDHCPv4 name m ov))).

(* go: cmd/apply.go 1710-1727 setupDeviceWithDHCP *)
Definition start_dhcp6 (name : string) (cfg : Ethernet) : prog sys unit :=
  when (Ethernet_DHCP6 cfg) (
    m ← NewDHCPManager;
    call (Go (TaskDHCPv6 name m (dhcpOverridesToNl (Ethernet_DHCP6Overrides cfg))))).

(* go: cmd/apply.go 1729-1778 setupDeviceWithDHCP *)
Definition setup_static (m : NetlinkManager) (name : string) (cfg : Ethernet) : prog sys unit :=
  for_each (Ethernet_Addresses cfg) (add_address m name) ;;
  when (negb (Str.is_empty (Ethernet_Gateway4 cfg)))
    (ignore (AddRoute m "0.0.0.0/0" (Ethernet_Gateway4 cfg) name 0 0)) ;;
  when (negb (Str.is_empty (Ethernet_Gateway6 cfg)))
    (ignore (AddRoute m "::/0" (Ethernet_Gateway6 cfg) name 0 0)) ;;
  add_routes m name (Ethernet_Routes cfg) ;;
  add_policies m (Ethernet_RoutingPolicy cfg) ;;
  applyNameservers name (Ethernet_Nameservers cfg).

(* go: cmd/apply.go 1547-1778 setupDeviceWithDHCP *)
Definition setupDeviceWithDHCP (m : NetlinkManager) (name : string) (cfg : Ethernet) : prog sys err :=
  when (0 <? Ethernet_MTU cfg) (ignore (SetLinkMTU m name (Ethernet_MTU cfg))) ;;
  when (0 <? Ethernet_IPv6MTU cfg) (ignore (SetIPv6MTU name (Ethernet_IPv6MTU cfg))) ;;
  when (negb (Str.is_empty (Ethernet_MacAddress cfg)))
    (ignore (SetLinkMacAddress m name (Ethernet_MacAddress cfg))) ;;
  try! activate m name cfg as same_err;
  setup_ipv6 name cfg ;;
  start_dhcp4 name cfg ;;
  start_dhcp6 name cfg ;;
  setup_static m name cfg ;;
  Ret None.

(* go: cmd/apply.go 674-686 setupLoopback *)
Definition setupLoopback (m : NetlinkManager) (cfg : ptr Ethernet) : prog sys err :=
  warn! SetLinkUp m "lo";
  match cfg with
  | None => Ret None
  | Some cfg => setupDevice m "lo" (Ethernet_Addresses cfg) (Ethernet_Routes cfg) 0 ""
  end.

(** ** Ethernets *)

Definition match_criteria (c : Match) : MatchCriteria :=
  MkMatchCriteria (Match_Name c) (Match_MacAddress c) (Match_Driver c).

(* go: cmd/apply.go 688-732 resolveEthernetName *)
Definition resolveEthernetName (m : NetlinkManager) (key : string) (cfg : Ethernet) : prog sys (res string) :=
  let setName := Ethernet_SetName cfg in
  let by_key :=
    if negb (Str.is_empty setName) && negb (Str.eqb setName key) then
      ex ← LinkExists m key;
      if (ex : bool) then
        e ← RenameLink m key setName;
        Ret (match e with Some e => Err e | None => Ok setName end)
      else Ret (Ok key)
    else Ret (Ok key) in
  match Ethernet_Match cfg with
  | None => by_key
  | Some c =>
      if MatchCriteria_IsEmpty (match_criteria c) then by_key
      else
        let! matched := FindMatchingLink m (match_criteria c) as same_err;
        if Str.is_empty matched then Ret (Ok "")
        else
          let target := if negb (Str.is_empty setName) then setName else key in
          if negb (Str.eqb matched target) then
            e ← RenameLink m matched target;
            Ret (match e with Some e => Err e | None => Ok target end)
          else Ret (Ok target)
  end.

(** A manager of the default namespace, closed on every return. *)
Definition with_default (f : NetlinkManager -> prog sys err) : prog sys err :=
  get! defaultMgr := New as same_err;
  deferred (f defaultMgr) (Close defaultMgr).

Definition move_to (m : NetlinkManager) (name nsName : string) : prog sys err :=
  try! SetLinkNetns m name nsName as EWrap "failed to move %s to netns %s: %w" [name; nsName];
  Ret None.

(* go: cmd/apply.go 767-782 setupEthernets *)
Definition fetch_device (m : NetlinkManager) (nsName name : string) : prog sys err :=
  if Str.is_empty nsName then Ret None
  else
    ex ← LinkExists m name;
    if (ex : bool) then Ret None
    else with_default (fun defaultMgr =>
           ex ← LinkExists defaultMgr name;
           if (ex : bool) then move_to defaultMgr name nsName else Ret None).

(** The body of the second loop of setupEthernets. *)
(* go: cmd/apply.go 751-809 setupEthernets *)
Definition setup_ethernet (m : NetlinkManager) (nsName key : string) (cfg : Ethernet) : prog sys err :=
  name ← resolveEthernetName m key cfg;
  match name with
  | Err _ => Ret None
  | Ok name =>
      if Str.is_empty name then Ret None
      else
        try! fetch_device m nsName name as same_err;
        ex ← LinkExists m name;
        if negb ex then Ret None
        else
          ignore (setupDeviceWithDHCP m name cfg) ;;
          applyOffload name cfg ;;
          applyEthernetExtras name cfg ;;
          applyNDProxy m name (Ethernet_NDProxy cfg) ;;
          (match Ethernet_Auth cfg with Some auth => setup8021x name auth | None => Ret tt end) ;;
          Ret None
  end.

(* go: cmd/apply.go 740-749 setupEthernets *)
Definition setup_sriov (m : NetlinkManager) (key : string) (cfg : Ethernet) : prog sys unit :=
  when ((0 <? Ethernet_VirtualFunctionCount cfg) || negb (Str.is_empty (Ethernet_EmbeddedSwitchMode cfg)) ||
        match Ethernet_DelayVFRebind cfg with Some _ => true | None => false end)
    (ex ← LinkExists m key; when ex (applySRIOV key cfg)).

(** The entry of a key that comes from the map. *)
Definition entry {A} (devices : gomap (ptr A)) (name : string) : prog sys A :=
  lift (default None (gm_get devices name)).

(* go: cmd/apply.go 734-812 setupEthernets *)
Definition setupEthernets (m : NetlinkManager) (nsName : string) (devices : gomap (ptr Ethernet))
    : prog sys err :=
  let names := sortedKeys devices in
  for_each names (fun key => cfg ← entry devices key; setup_sriov m key cfg) ;;
  for_err names (fun key => cfg ← entry devices key; setup_ethernet m nsName key cfg).

(** ** Wi-Fi (cmd/wifi.go) *)

(* go: cmd/wifi.go 22-51 setupWifis *)
Definition setupWifis (m : NetlinkManager) (nsName : string) (devices : gomap (ptr Wifi)) : prog sys err :=
  for_err (sortedKeys devices) (fun name =>
    ex ← LinkExists m name;
    if negb ex then Ret None
    else
      cfg ← entry devices name;
      (if negb (Str.is_empty (Wifi_RegulatoryDomain cfg)) then
         iw ← call (LookPath "iw");
         match iw with
         | Ok _ => ignore (call (Exec ["iw"; "reg"; "set"; Wifi_RegulatoryDomain cfg]))
         | Err _ => Ret tt
         end
       else Ret tt) ;;
      setupWifiSupplicant name cfg ;;
      ignore (setupDeviceWithDHCP m name (wifiToEthernet cfg)) ;;
      Ret None).

(** ** Devices that are created *)

(** [if !LinkExists(name) { if err := create; err != nil { return ... } }]. *)
Definition create_missing (m : NetlinkManager) (name what : string) (create : prog sys err)
    (q : prog sys err) : prog sys err :=
  ex ← LinkExists m name;
  try! (if negb ex then create else Ret None) as EWrap ("failed to create " +:+ what +:+ " %s: %w") [name];
  q.

(* go: cmd/apply.go 814-836 setupDummyDevices *)
Definition setupDummyDevices (m : NetlinkManager) (nsName : string) (devices : gomap (ptr Ethernet))
    : prog sys err :=
  for_err (sortedKeys devices) (fun name =>
    create_missing m name "dummy" (AddDummyDevice m name) (
    cfg ← entry devices name;
    setup_or m name (Ethernet_Addresses cfg) (Ethernet_Routes cfg) (Ethernet_MTU cfg)
      (Ethernet_MacAddress cfg) "dummy" (
    applyNameservers name (Ethernet_Nameservers cfg) ;;
    Ret None))).

(** A macvlan, macvtap or ipvlan is created in the default namespace, where its
    parent is, and then moved. *)
(* go: cmd/apply.go 850-891 setupMacvlanDevices *)
Definition create_linked (m : NetlinkManager) (nsName name what : string)
    (add : NetlinkManager -> prog sys err) : prog sys err :=
  ex ← LinkExists m name;
  if (ex : bool) then Ret None
  else if negb (Str.is_empty nsName) then
    with_default (fun defaultMgr =>
      try! add defaultMgr as EWrap ("failed to create " +:+ what +:+ " %s: %w") [name];
      move_to defaultMgr name nsName)
  else
    try! add m as EWrap ("failed to create " +:+ what +:+ " %s: %w") [name];
    Ret None.

(* go: cmd/apply.go 838-899 setupMacvlanDevices *)
Definition setupMacvlanDevices (m : NetlinkManager) (nsName : string) (devices : gomap (ptr MacvlanDevice))
    (isMacvtap : bool) : prog sys err :=
  let deviceType := if isMacvtap then "macvtap" else "macvlan" in
  for_err (sortedKeys devices) (fun name =>
    cfg ← entry devices name;
    try! create_linked m nsName name deviceType (fun m =>
           (if isMacvtap then AddMacvtapDevice else AddMacvlanDevice) m name
             (MacvlanDevice_Link cfg) (MacvlanDevice_Mode cfg)) as same_err;
    setup_or m name (MacvlanDevice_Addresses cfg) (MacvlanDevice_Routes cfg) (MacvlanDevice_MTU cfg)
      (MacvlanDevice_MacAddress cfg) deviceType (
    applyNameservers name (MacvlanDevice_Nameservers cfg) ;;
    Ret None)).

(* go: cmd/apply.go 1944-1987 setupIpvlanDevices *)
Definition setupIpvlanDevices (m : NetlinkManager) (nsName : string) (devices : gomap (ptr IpvlanDevice))
    : prog sys err :=
  for_err (sortedKeys devices) (fun name =>
    cfg ← entry devices name;
    try! create_linked m nsName name "ipvlan" (fun m =>
           AddIpvlan m name (IpvlanDevice_Link cfg) (IpvlanDevice_Mode cfg)) as same_err;
    setup_or m name (IpvlanDevice_Addresses cfg) (IpvlanDevice_Routes cfg) (IpvlanDevice_MTU cfg)
      "" "ipvlan" (
    applyNameservers name (IpvlanDevice_Nameservers cfg) ;;
    Ret None)).

(** The failure of a VLAN is logged, and the next one is tried. *)
(* go: cmd/apply.go 901-927 setupVlans *)
Definition setupVlans (m : NetlinkManager) (nsName : string) (devices : gomap (ptr Vlan)) : prog sys err :=
  for_err (sortedKeys devices) (fun name =>
    cfg ← entry devices name;
    ex ← LinkExists m name;
    created ← (if negb ex then AddVlan m name (Vlan_Link cfg) (Vlan_ID cfg) else Ret None);
    match created with
    | Some _ => Ret None
    | None =>
        e ← setupDevice m name (Vlan_Addresses cfg) (Vlan_Routes cfg) (Vlan_MTU cfg) (Vlan_MacAddress cfg);
        match e with
        | Some _ => Ret None
        | None =>
            applyNameservers name (Vlan_Nameservers cfg) ;;
            applyNDProxy m name (Vlan_NDProxy cfg) ;;
            Ret None
        end
    end).

(** *** VXLAN *)

(* go: cmd/apply.go 989-1016 setupOneVxlan *)
Definition vxlan_options (cfg : Vxlan) : VxlanOptions := {|
  VxlanOptions_Link := Vxlan_Link cfg;
  VxlanOptions_Local := Vxlan_Local cfg;
  VxlanOptions_Remote := Vxlan_Remote cfg;
  VxlanOptions_Group := Vxlan_Group cfg;
  VxlanOptions_Port := Vxlan_Port cfg;
  VxlanOptions_DestPort := Vxlan_DestPort cfg;
  VxlanOptions_PortLow := match Vxlan_PortRange cfg with [low; _] => low | _ => 0 end;
  VxlanOptions_PortHigh := match Vxlan_PortRange cfg with [_; high] => high | _ => 0 end;
  VxlanOptions_TTL := Vxlan_TTL cfg;
  VxlanOptions_TOS := Vxlan_TOS cfg;
  VxlanOptions_Age := Vxlan_Ageing cfg;
  VxlanOptions_Limit := Vxlan_Limit cfg;
  VxlanOptions_Learning := Vxlan_Learning cfg;
  VxlanOptions_Proxy := Vxlan_ARPProxy cfg;
  VxlanOptions_RSC := Vxlan_RSC cfg;
  VxlanOptions_L2miss := Vxlan_L2miss cfg;
  VxlanOptions_L3miss := Vxlan_L3miss cfg;
  VxlanOptions_NoAge := Vxlan_NoAge cfg;
  VxlanOptions_GBP := Vxlan_GBP cfg;
  VxlanOptions_FlowBased := Vxlan_External cfg;
  VxlanOptions_UDPCSum := Vxlan_UDPChecksum cfg;
  VxlanOptions_UDP6ZeroCSumTx := Vxlan_UDP6ZeroCSumTx cfg;
  VxlanOptions_UDP6ZeroCSumRx := Vxlan_UDP6ZeroCSumRx cfg
|}.

(** The static entries of a VXLAN and, with [vni] absent, of a bridge. *)
(* go: cmd/apply.go 1030-1042 setupOneVxlan *)
Definition add_fdb (m : NetlinkManager) (name : string) (with_vni : bool) (entries : list (ptr FDBEntry))
    : prog sys unit :=
  for_each entries (fun fdb =>
    fdb ← lift fdb;
    ignore (AddFDBEntry m {|
      NlFDBEntry_MAC := FDBEntry_MAC fdb;
      NlFDBEntry_Ifname := name;
      NlFDBEntry_Dst := FDBEntry_Dst fdb;
      NlFDBEntry_VNI := if with_vni then FDBEntry_VNI fdb else 0;
      NlFDBEntry_State := FDBEntry_State fdb |})).

(* go: cmd/apply.go 1045-1056 setupOneVxlan *)
Definition add_neighbors (m : NetlinkManager) (name : string) (entries : list (ptr NeighEntry))
    : prog sys unit :=
  for_each entries (fun neigh =>
    neigh ← lift neigh;
    ignore (AddNeighEntry m {|
      NlNeighEntry_IP := NeighEntry_IP neigh;
      NlNeighEntry_MAC := NeighEntry_MAC neigh;
      NlNeighEntry_Ifname := name;
      NlNeighEntry_State := NeighEntry_State neigh |})).

(* go: cmd/apply.go 981-1060 setupOneVxlan *)
Definition setupOneVxlan (m : NetlinkManager) (nsName name : string) (cfg : Vxlan) : prog sys err :=
  create_missing m name "vxlan" (AddVxlan m name (Vxlan_ID cfg) (vxlan_options cfg)) (
  setup_or m name (Vxlan_Addresses cfg) (Vxlan_Routes cfg) (Vxlan_MTU cfg) (Vxlan_MacAddress cfg) "vxlan" (
  add_fdb m name true (Vxlan_FDB cfg) ;;
  add_neighbors m name (Vxlan_Neighbors cfg) ;;
  Ret None)).

(* go: cmd/apply.go 929-937 setupVxlans *)
Definition setupVxlans (m : NetlinkManager) (nsName : string) (devices : gomap (ptr Vxlan)) : prog sys err :=
  for_err (sortedKeys devices) (fun name => cfg ← entry devices name; setupOneVxlan m nsName name cfg).

(* go: cmd/apply.go 939-951 applyVxlanNeighSuppress *)
Definition applyVxlanNeighSuppress (vxlans : gomap (ptr Vxlan)) : prog sys unit :=
  for_each (sortedKeys vxlans) (fun name =>
    cfg ← entry vxlans name;
    match Vxlan_NeighSuppress cfg with
    | Some true => ignore (SetLinkNeighSuppress name true)
    | _ => Ret tt
    end).

(** [if b != nil { f on what b points to }]. *)
Definition opt_bool (b : option bool) (f : bool -> prog sys err) : prog sys unit :=
  match b with Some b => ignore (f b) | None => Ret tt end.

(* go: cmd/apply.go 953-979 applyBridgePortAttrs *)
Definition applyBridgePortAttrs (devices : gomap (ptr Ethernet)) : prog sys unit :=
  for_each (sortedKeys devices) (fun name =>
    match default None (gm_get devices name) with
    | None => Ret tt
    | Some cfg =>
        opt_bool (Ethernet_NeighSuppress cfg) (SetLinkNeighSuppress name) ;;
        opt_bool (Ethernet_Hairpin cfg) (SetBridgePortHairpin name) ;;
        opt_bool (Ethernet_PortMacLearning cfg) (SetLinkLearning name)
    end).

(** *** Bonds and bridges *)

(* go: cmd/apply.go 1062-1091 bondOptionsFromConfig *)
Definition bondOptionsFromConfig (p : ptr BondParameters) : BondOptions :=
  match p with
  | None => BondOptions_zero
  | Some p => {|
      BondOptions_Mode := BondParameters_Mode p;
      BondOptions_LacpRate := BondParameters_LACPRate p;
      BondOptions_MIIMonitorInterval := BondParameters_MIIMonitorInterval p;
      BondOptions_MinLinks := BondParameters_MinLinks p;
      BondOptions_TransmitHashPolicy := BondParameters_TransmitHashPolicy p;
      BondOptions_ADSelect := BondParameters_ADSelect p;
      BondOptions_AllSlavesActive := BondParameters_AllSlavesActive p;
      BondOptions_ARPInterval := BondParameters_ARPInterval p;
      BondOptions_ARPIPTargets := BondParameters_ARPIPTargets p;
      BondOptions_ARPValidate := BondParameters_ARPValidate p;
      BondOptions_ARPAllTargets := BondParameters_ARPAllTargets p;
      BondOptions_UpDelay := BondParameters_UpDelay p;
      BondOptions_DownDelay := BondParameters_DownDelay p;
      BondOptions_FailOverMACPolicy := BondParameters_FailOverMACPolicy p;
      BondOptions_GratuitousARP := BondParameters_GratuitousARP p;
      BondOptions_PacketsPerSlave := BondParameters_PacketsPerSlave p;
      BondOptions_PrimaryReselectPolicy := BondParameters_PrimaryReselectPolicy p;
      BondOptions_ResendIGMP := BondParameters_ResendIGMP p;
      BondOptions_LearnPacketInterval := BondParameters_LearnPacketInterval p;
      BondOptions_Primary := BondParameters_Primary p |}
  end.

(* go: cmd/apply.go 1093-1107 bridgeOptionsFromConfig *)
Definition bridgeOptionsFromConfig (p : ptr BridgeParameters) : BridgeOptions :=
  match p with
  | None => MkBridgeOptions None 0 0 0 0 0
  | Some p => {|
      BridgeOptions_STP := BridgeParameters_STP p;
      BridgeOptions_ForwardDelay := BridgeParameters_ForwardDelay p;
      BridgeOptions_HelloTime := BridgeParameters_HelloTime p;
      BridgeOptions_MaxAge := BridgeParameters_MaxAge p;
      BridgeOptions_AgeingTime := BridgeParameters_AgeingTime p;
      BridgeOptions_Priority := BridgeParameters_Priority p |}
  end.

(* go: cmd/apply.go 1109-1145 setupBonds *)
Definition setupBonds (m : NetlinkManager) (nsName : string) (devices : gomap (ptr Config.Bond)) : prog sys err :=
  for_err (sortedKeys devices) (fun name =>
    ex ← LinkExists m name;
    cfg ← entry devices name;
    try! (if negb ex then AddBond m name (bondOptionsFromConfig (Bond_Parameters cfg)) else Ret None)
      as EWrap "failed to create bond %s: %w" [name];
    for_each (Bond_Interfaces cfg) (fun iface => ignore (SetBondSlave m iface name)) ;;
    setup_or m name (Bond_Addresses cfg) (Bond_Routes cfg) (Bond_MTU cfg) (Bond_MacAddress cfg) "bond" (
    applyNameservers name (Bond_Nameservers cfg) ;;
    applyNDProxy m name (Bond_NDProxy cfg) ;;
    Ret None)).

(* go: cmd/apply.go 1187-1200 setupBridges *)
Definition port_parameters (p : ptr BridgeParameters) : prog sys unit :=
  match p with
  | None => Ret tt
  | Some p =>
      for_each (gm_range 1188 (BridgeParameters_PathCost p)) (fun '(port, cost) =>
        ignore (SetBridgePortPathCost port cost)) ;;
      for_each (gm_range 1194 (BridgeParameters_PortPriority p)) (fun '(port, prio) =>
        ignore (SetBridgePortPriority port prio))
  end.

(* go: cmd/apply.go 1147-1238 setupBridges *)
Definition setupBridges (m : NetlinkManager) (nsName : string) (devices : gomap (ptr Bridge)) : prog sys err :=
  for_err (sortedKeys devices) (fun name =>
    create_missing m name "bridge" (AddBridge m name) (
    cfg ← entry devices name;
    opt_bool (Bridge_VlanFiltering cfg) (SetBridgeVlanFiltering name) ;;
    (match Bridge_Parameters cfg with
     | Some p => ignore (SetBridgeParameters name (bridgeOptionsFromConfig (Some p)))
     | None => Ret tt
     end) ;;
    for_each (Bridge_Interfaces cfg) (fun iface => ignore (SetBridgeMaster m iface name)) ;;
    port_parameters (Bridge_Parameters cfg) ;;
    setup_or m name (Bridge_Addresses cfg) (Bridge_Routes cfg) (Bridge_MTU cfg) (Bridge_MacAddress cfg) "bridge" (
    applyNameservers name (Bridge_Nameservers cfg) ;;
    applyNDProxy m name (Bridge_NDProxy cfg) ;;
    add_fdb m name false (Bridge_FDB cfg) ;;
    add_neighbors m name (Bridge_Neighbors cfg) ;;
    Ret None))).

(* go: cmd/apply.go 1240-1284 setupVrfs *)
Definition setupVrfs (m : NetlinkManager) (nsName : string) (devices : gomap (ptr Vrf)) : prog sys err :=
  for_err (sortedKeys devices) (fun name =>
    cfg ← entry devices name;
    create_missing m name "vrf" (AddVrf m name (Vrf_Table cfg)) (
    try! SetLinkUp m name as EWrap "failed to set vrf %s up: %w" [name];
    for_each (Vrf_Interfaces cfg) (fun iface => ignore (SetVrfMaster m iface name)) ;;
    add_routes m name (Vrf_Routes cfg) ;;
    add_policies m (Vrf_RoutingPolicy cfg) ;;
    Ret None)).

(** *** Veth pairs *)

(** One end of a pair, with the entry of its peer if it has one.  The set of
    the names that are done is carried from one end to the next. *)
(* go: cmd/apply.go 1293-1327 setupVirtualEthernets *)
Definition setup_virtual (m : NetlinkManager) (devices : gomap (ptr VirtualEthernet))
    (dones : gmap string bool) (name : string) : prog sys (res (gmap string bool)) :=
  if default false (dones !! name) then Ret (Ok dones)
  else
    cfg ← entry devices name;
    let peer := VirtualEthernet_Peer cfg in
    if Str.is_empty peer then Ret (Err (EMsg "virtual-ethernet %s: peer is required" [name]))
    else
      ex ← LinkExists m name;
      created ← (if negb ex then AddVethPair m name peer else Ret None);
      match created with
      | Some e => Ret (Err (EWrap "failed to create virtual-ethernet %s<->%s: %w" [name; peer] e))
      | None =>
          e ← setupDevice m name (VirtualEthernet_Addresses cfg) (VirtualEthernet_Routes cfg)
                (VirtualEthernet_MTU cfg) (VirtualEthernet_MacAddress cfg);
          match e with
          | Some e => Ret (Err (EWrap "failed to setup virtual-ethernet %s: %w" [name] e))
          | None =>
              applyNameservers name (VirtualEthernet_Nameservers cfg) ;;
              (match gm_get devices peer with
               | Some peerCfg =>
                   peerCfg ← lift peerCfg;
                   ignore (setupDevice m peer (VirtualEthernet_Addresses peerCfg)
                     (VirtualEthernet_Routes peerCfg) (VirtualEthernet_MTU peerCfg)
                     (VirtualEthernet_MacAddress peerCfg)) ;;
                   applyNameservers peer (VirtualEthernet_Nameservers peerCfg)
               | None => ignore (SetLinkUp m peer)
               end) ;;
              Ret (Ok (<[peer := true]> (<[name := true]> dones)))
          end
      end.

(* go: cmd/apply.go 1286-1329 setupVirtualEthernets *)
Definition setupVirtualEthernets (m : NetlinkManager) (nsName : string)
    (devices : gomap (ptr VirtualEthernet)) : prog sys err :=
  r ← for_fold_err (sortedKeys devices) ∅ (setup_virtual m devices);
  Ret (res_err r).

(** The creation of a pair in the default namespace, from where its ends are
    moved to theirs. *)
(* go: cmd/apply.go 1349-1392 setupVethDevices *)
Definition create_veth (nsName name peerName peerNs : string) : prog sys err :=
  with_default (fun defaultMgr =>
    ex ← LinkExists defaultMgr name;
    missing ← (if (ex : bool) then Ret false
               else pex ← LinkExists defaultMgr peerName; Ret (negb pex));
    try! (if (missing : bool) then AddVethPair defaultMgr name peerName else Ret None)
      as EWrap "failed to create veth pair %s/%s: %w" [name; peerName];
    try! (if negb (Str.is_empty nsName) then move_to defaultMgr name nsName else Ret None) as same_err;
    if negb (Str.is_empty peerNs) then
      ex ← NetnsExists peerNs;
      try! (if negb ex then CreateNetns peerNs else Ret None)
        as EWrap "failed to create netns %s: %w" [peerNs];
      move_to defaultMgr peerName peerNs
    else Ret None).

(** The configuration of a peer, in the namespace where it is. *)
(* go: cmd/apply.go 1400-1432 setupVethDevices *)
Definition setup_peer (m : NetlinkManager) (nsName : string) (peer : VethPeer) : prog sys err :=
  let peerName := VethPeer_Name peer in
  let peerNs := VethPeer_Netns peer in
  let setup m := setup_or m peerName (VethPeer_Addresses peer) (VethPeer_Routes peer) (VethPeer_MTU peer)
                   (VethPeer_MacAddress peer) "veth peer" (Ret None) in
  if negb (Str.is_empty peerNs) then
    get! peerMgr := NewWithNetns peerNs as EWrap "failed to get netns %s for peer: %w" [peerNs];
    deferred (setup peerMgr) (Close peerMgr)
  else if Str.is_empty nsName then setup m
  else
    get! defaultMgr := New as EWrap "failed to get default namespace for peer %s: %w" [peerName];
    deferred (setup defaultMgr) (Close defaultMgr).

(* go: cmd/apply.go 1331-1435 setupVethDevices *)
Definition setupVethDevices (m : NetlinkManager) (nsName : string) (devices : gomap (ptr VethDevice))
    : prog sys err :=
  for_err (sortedKeys devices) (fun name =>
    cfg ← entry devices name;
    match VethDevice_Peer cfg with
    | None => Ret (Some (EMsg "veth %s: peer is required" [name]))
    | Some peer =>
        ex ← LinkExists m name;
        try! (if negb ex then create_veth nsName name (VethPeer_Name peer) (VethPeer_Netns peer) else Ret None)
          as same_err;
        setup_or m name (VethDevice_Addresses cfg) (VethDevice_Routes cfg) (VethDevice_MTU cfg)
          (VethDevice_MacAddress cfg) "veth" (
        applyNameservers name (VethDevice_Nameservers cfg) ;;
        setup_peer m nsName peer)
    end).

(** *** Tunnels *)

(* go: cmd/apply.go 2048-2059 configureTunnelWireguard *)
Definition wg_peer (p : TunnelWireguardPeer) : NlWireGuardPeer := {|
  NlWireGuardPeer_PublicKey :=
    match TunnelWireguardPeer_Keys p with Some k => WireguardKeys_Public k | None => "" end;
  NlWireGuardPeer_PresharedKey :=
    match TunnelWireguardPeer_Keys p with Some k => WireguardKeys_Shared k | None => "" end;
  NlWireGuardPeer_Endpoint := TunnelWireguardPeer_Endpoint p;
  NlWireGuardPeer_AllowedIPs := TunnelWireguardPeer_AllowedIPs p;
  NlWireGuardPeer_PersistentKeepaliveInterval := TunnelWireguardPeer_Keepalive p;
  NlWireGuardPeer_Remove := false
|}.

(* go: cmd/apply.go 2032-2069 configureTunnelWireguard *)
Definition configureTunnelWireguard (name nsName : string) (cfg : Tunnel) : prog sys err :=
  let do :=
    get! client := call WgNew
      as (fun e => EWrap "failed to create wireguard manager: %w" []
                     (EWrap "failed to create wgctrl client: %w" [] e));
    deferred (
      peers ← lift (mapM (fun p => (p ← p; Some (wg_peer p))) (Tunnel_Peers cfg));
      ConfigureDevice client name {|
        NlWireGuardConfig_PrivateKey := Tunnel_Key cfg;
        NlWireGuardConfig_ListenPort := Tunnel_Port cfg;
        NlWireGuardConfig_FwMark := Tunnel_Mark cfg;
        NlWireGuardConfig_ReplacePeers := true;
        NlWireGuardConfig_Peers := peers |})
    (call (WgClose client)) in
  if negb (Str.is_empty nsName) then RunInNetns nsName do else do.

(* go: cmd/apply.go 2002-2011 setupTunnels *)
Definition tunnel_options (cfg : Tunnel) : TunnelOptions := {|
  TunnelOptions_Mode := Tunnel_Mode cfg;
  TunnelOptions_Local := Tunnel_Local cfg;
  TunnelOptions_Remote := Tunnel_Remote cfg;
  TunnelOptions_TTL := Tunnel_TTL cfg;
  TunnelOptions_TOS := Tunnel_TOS cfg;
  TunnelOptions_Key := Tunnel_Key cfg;
  TunnelOptions_InputKey := Tunnel_InputKey cfg;
  TunnelOptions_OutputKey := Tunnel_OutputKey cfg;
  TunnelOptions_Link := "";
  TunnelOptions_EncapType := "";
  TunnelOptions_EncapPort := 0
|}.

(* go: cmd/apply.go 1989-2030 setupTunnels *)
Definition setupTunnels (m : NetlinkManager) (nsName : string) (devices : gomap (ptr Tunnel)) : prog sys err :=
  for_err (sortedKeys devices) (fun name =>
    cfg ← entry devices name;
    create_missing m name "tunnel" (AddTunnel m name (tunnel_options cfg)) (
    try! (if Str.equal_fold (Tunnel_Mode cfg) "wireguard" &&
             (negb (Str.is_empty (Tunnel_Key cfg)) || match Tunnel_Peers cfg with [] => false | _ => true end)
          then configureTunnelWireguard name nsName cfg else Ret None)
      as EWrap "failed to configure wireguard tunnel %s: %w" [name];
    setup_or m name (Tunnel_Addresses cfg) (Tunnel_Routes cfg) (Tunnel_MTU cfg) "" "tunnel" (Ret None))).

(* go: cmd/apply.go 2071-2103 setupTunTapDevices *)
Definition setupTunTapDevices (m : NetlinkManager) (nsName : string) (devices : gomap (ptr TunTapDevice))
    (isTap : bool) : prog sys err :=
  let deviceType := if isTap then "tap" else "tun" in
  for_err (sortedKeys devices) (fun name =>
    create_missing m name deviceType (if isTap then AddTap m name else AddTun m name) (
    cfg ← entry devices name;
    setup_or m name (TunTapDevice_Addresses cfg) (TunTapDevice_Routes cfg) (TunTapDevice_MTU cfg) "" deviceType (
    applyNameservers name (TunTapDevice_Nameservers cfg) ;;
    Ret None))).

(** ** SRv6 *)

(* go: cmd/apply.go 1895-1904 ensureSRv6Dummy *)
Definition ensureSRv6Dummy (m : NetlinkManager) (name : string) : prog sys err :=
  ex ← LinkExists m name;
  try! (if negb ex then AddDummyDevice m name else Ret None) as same_err;
  SetLinkUp m name.

Definition sid_options (s : SRv6LocalSID) : SRv6LocalSIDOpts := {|
  SRv6LocalSIDOpts_SID := SRv6LocalSID_SID s;
  SRv6LocalSIDOpts_Action := SRv6LocalSID_Action s;
  SRv6LocalSIDOpts_Table := SRv6LocalSID_Table s;
  SRv6LocalSIDOpts_VRFTable := SRv6LocalSID_VRFTable s;
  SRv6LocalSIDOpts_NH4 := SRv6LocalSID_NH4 s;
  SRv6LocalSIDOpts_NH6 := SRv6LocalSID_NH6 s;
  SRv6LocalSIDOpts_IIF := SRv6LocalSID_IIF s;
  SRv6LocalSIDOpts_OIF := SRv6LocalSID_OIF s;
  SRv6LocalSIDOpts_Segments := SRv6LocalSID_Segments s
|}.

(** One SID; the boolean says whether the dummy "srv6" is ready. *)
(* go: cmd/apply.go 1865-1891 setupSRv6 *)
Definition setup_sid (m : NetlinkManager) (cfg : SRv6Config) (ready : bool) (s : ptr SRv6LocalSID)
    : prog sys (res bool) :=
  s ← lift s;
  let dev := if Str.is_empty (SRv6LocalSID_Dev s) then SRv6Config_Device cfg else SRv6LocalSID_Dev s in
  if Str.is_empty dev then
    e ← (if negb ready then ensureSRv6Dummy m "srv6" else Ret None);
    match e with
    | Some e => Ret (Err (EWrap "ensure srv6 anchor device: %w" [] e))
    | None => ignore (AddLocalSID m "srv6" (sid_options s)) ;; Ret (Ok true)
    end
  else ignore (AddLocalSID m dev (sid_options s)) ;; Ret (Ok ready).

(** Whether a SID needs the strict mode of VRFs; the loop leaves at the first. *)
(* go: cmd/apply.go 1848-1855 setupSRv6 *)
Fixpoint need_strict (l : list (ptr SRv6LocalSID)) : pan bool :=
  match l with
  | [] => Some false
  | s :: l => s ← s; if 0 <? SRv6LocalSID_VRFTable s then Some true else need_strict l
  end.

(* go: cmd/apply.go 1828-1893 setupSRv6 *)
Definition setupSRv6 (m : NetlinkManager) (nsName : string) (cfg : ptr SRv6Config) : prog sys err :=
  match cfg with
  | None => Ret None
  | Some cfg =>
      when (default false (SRv6Config_Enabled cfg)) (ignore (EnableSeg6 "all")) ;;
      for_each (SRv6Config_Interfaces cfg) (fun iface => ignore (EnableSeg6 iface)) ;;
      needStrict ← lift (need_strict (SRv6Config_LocalSIDs cfg));
      when needStrict (ignore EnableVRFStrictMode) ;;
      r ← for_fold_err (SRv6Config_LocalSIDs cfg) false (setup_sid m cfg);
      Ret (res_err r)
  end.

(* go: cmd/apply.go 1932-1942 runPostScript *)
Definition runPostScript (nsName script : string) : prog sys err :=
  call (Exec ["ip"; "netns"; "exec"; nsName; "/bin/bash"; "-c"; script]).

(** ** A whole namespace *)

(** [if err := p; err != nil { return fmt.Errorf(fmt, err) }]. *)
Definition stage (fmt : string) (p q : prog sys err) : prog sys err :=
  try! p as EWrap fmt []; q.

(** The order of the kinds of devices. *)
(* go: cmd/apply.go 566-669 applyNamespaceConfig *)
Definition setup_all (m : NetlinkManager) (nsName : string) (cfg : Namespace) : prog sys err :=
  stage "failed to setup loopback: %w"
    (if negb (Str.is_empty nsName) then setupLoopback m (Namespace_Loopback cfg) else Ret None) (
  stage "failed to setup ethernets: %w" (setupEthernets m nsName (Namespace_Ethernets cfg)) (
  stage "failed to setup wifis: %w" (setupWifis m nsName (Namespace_Wifis cfg)) (
  stage "failed to setup dummy devices: %w" (setupDummyDevices m nsName (Namespace_DummyDevices cfg)) (
  stage "failed to setup virtual-ethernets: %w"
    (setupVirtualEthernets m nsName (Namespace_VirtualEthernets cfg)) (
  stage "failed to setup macvlan devices: %w"
    (setupMacvlanDevices m nsName (Namespace_MacvlanDevices cfg) false) (
  stage "failed to setup macvtap devices: %w"
    (setupMacvlanDevices m nsName (Namespace_MacvtapDevices cfg) true) (
  stage "failed to setup ipvlan devices: %w" (setupIpvlanDevices m nsName (Namespace_IpvlanDevices cfg)) (
  stage "failed to setup vlans: %w" (setupVlans m nsName (Namespace_Vlans cfg)) (
  stage "failed to setup vxlans: %w" (setupVxlans m nsName (Namespace_Vxlans cfg)) (
  stage "failed to setup bonds: %w" (setupBonds m nsName (Namespace_Bonds cfg)) (
  stage "failed to setup bridges: %w" (setupBridges m nsName (Namespace_Bridges cfg)) (
  applyVxlanNeighSuppress (Namespace_Vxlans cfg) ;;
  applyBridgePortAttrs (Namespace_Ethernets cfg) ;;
  stage "failed to setup vrfs: %w" (setupVrfs m nsName (Namespace_Vrfs cfg)) (
  stage "failed to setup tunnels: %w" (setupTunnels m nsName (Namespace_Tunnels cfg)) (
  stage "failed to setup tun devices: %w"
    (setupTunTapDevices m nsName (Namespace_TunDevices cfg) false) (
  stage "failed to setup tap devices: %w"
    (setupTunTapDevices m nsName (Namespace_TapDevices cfg) true) (
  stage "failed to setup veth devices: %w" (setupVethDevices m nsName (Namespace_VethDevices cfg)) (
  stage "failed to setup srv6: %w" (setupSRv6 m nsName (Namespace_SRv6 cfg)) (
  stage "failed to run post-script: %w"
    (if negb (Str.is_empty nsName) && negb (Str.is_empty (Namespace_PostScript cfg))
     then runPostScript nsName (Namespace_PostScript cfg) else Ret None)
  (Ret None))))))))))))))))))).

(* go: cmd/apply.go 546-672 applyNamespaceConfig *)
Definition applyNamespaceConfig (nsName : string) (cfg : ptr Namespace) : prog sys err :=
  match cfg with
  | None => Ret None
  | Some cfg =>
      get! m := (if Str.is_empty nsName then New else NewWithNetns nsName)
        as EWrap "failed to create netlink manager: %w" [];
      deferred (setup_all m nsName cfg) (Close m)
  end.
End setup.
