(* ===== verification/Plain.v ===== *)
(** * The calls that configuring a device performs

    [plain h] holds of the calls that configure: those on the handle [h], none of
    which deletes anything or moves a link to another namespace, and those that
    use no handle and leave the namespaces alone.  Each function that configures
    through a manager performs only such calls. *)

From S2P Require Import Prelude GoStd GoNet Effect Config Netlink Host Setup.

(** The files that apply writes, makes or removes, by how their paths begin:
    settings of the kernel, what it keeps for itself, and what it keeps for the
    resolver, for wpa_supplicant and for VPP. *)
Fixpoint begins (path dir : string) {struct dir} : bool :=
  match dir, path with
  | EmptyString, _ => true
  | String a dir, String b path => (a =? b)%char && begins path dir
  | String _ _, EmptyString => false
  end.

Definition written (path : string) : bool :=
  existsb (begins path)
    ["/proc/sys/net/"; "/sys/class/net/"; "/etc/resolv.conf"; "/etc/netcfg"; "/run/netcfg-wpa-";
     "/etc/vpp/startup.conf"; "/var/lib/netcfg"; "/var/run/netns"].

(** The goroutines that apply starts are those of DHCP. *)
Definition dhcp_task (t : Task) : bool :=
  match t with TaskDHCPv4 _ _ _ | TaskDHCPv6 _ _ _ => true | _ => false end.

Definition plain (h : handle) X (e : sys X) : Prop :=
  match e with
  | LinkByName (Some h') _ | LinkList h' | LinkAdd h' _ | LinkSetUp h' _ | LinkSetDown h' _
  | LinkSetMTU h' _ _ | LinkSetHardwareAddr h' _ _ | LinkSetName h' _ _ | LinkSetMaster h' _ _
  | LinkSetAllmulticast h' _ _ | LinkSetAlias h' _ _ | AddrAdd h' _ _ | AddrList h' _ _ | RouteAdd h' _
  | RouteReplace h' _ | NeighAdd h' _ | NeighSet h' _ | RuleAdd h' _ => h' = h
  | LinkByName None _ | LinkSetIPv6Token _ _ | EthtoolNew | EthtoolClose _ | EthtoolGetFeatures _ _
  | EthtoolSetFeatures _ _ _ | EthtoolWakeOnLan _ _ | ReadFile _ | StatFile _ | Readlink _ | Getenv _
  | TimeNow | Hostname | LookPath _ | Exec _ | Kill _ => True
  | WriteFile path _ | MkdirAll path | RemoveFile path => written path = true
  | Go t => dhcp_task t = true
  | _ => False
  end.

#[local] Abbreviation plain_in m p := (all_calls (plain (mgr_handle m)) p) (only parsing).

Section combinators.
Context (P : forall X, sys X -> Prop).

Lemma all_calls_deferred {A} (p : prog sys A) d : all_calls P p -> all_calls P d -> all_calls P (deferred p d).
Proof. intros Hp Hd. apply all_calls_bind; [done|]. intros a. by apply all_calls_bind. Qed.

Lemma all_calls_ignore p : all_calls P p -> all_calls P (ignore p).
Proof. intros Hp. by apply all_calls_bind. Qed.

Lemma all_calls_when b p : all_calls P p -> all_calls P (when b p).
Proof. by destruct b. Qed.
End combinators.

(** [calls_tac], where a combinator is met first. *)
Ltac plain_tac :=
  repeat (calls_step || apply all_calls_deferred || apply all_calls_ignore || apply all_calls_when ||
          (progress (auto with calls nocore)) || exact I || reflexivity).

(** ** The netlink layer *)

Section netlink.
Context `{Libs} (m : NetlinkManager).

Lemma plain_link_by_name name : plain_in m (link_by_name m name).
Proof. by apply all_calls_call. Qed.
#[local] Hint Resolve plain_link_by_name : calls.

Lemma plain_on_link name f : (forall l, plain_in m (f l)) -> plain_in m (on_link m name f).
Proof. intros Hf. apply all_calls_bind; [plain_tac|]. intros [l|e]; [apply Hf|done]. Qed.

Lemma plain_LinkExists name : plain_in m (LinkExists m name).
Proof. unfold LinkExists. plain_tac. Qed.

Lemma plain_SetLinkUp name : plain_in m (SetLinkUp m name).
Proof. apply plain_on_link. intros l. plain_tac. Qed.
Lemma plain_SetLinkDown name : plain_in m (SetLinkDown m name).
Proof. apply plain_on_link. intros l. plain_tac. Qed.
Lemma plain_SetLinkMTU name mtu : plain_in m (SetLinkMTU m name mtu).
Proof. apply plain_on_link. intros l. plain_tac. Qed.
Lemma plain_SetLinkMacAddress name mac : plain_in m (SetLinkMacAddress m name mac).
Proof. apply plain_on_link. intros l. plain_tac. Qed.

Lemma plain_FindMatchingLink c : plain_in m (FindMatchingLink m c).
Proof. unfold FindMatchingLink, link_matches, linkDriver. plain_tac. Qed.
Lemma plain_RenameLink old new : plain_in m (RenameLink m old new).
Proof. unfold RenameLink. plain_tac. Qed.

Lemma plain_link_add l : plain_in m (link_add m l).
Proof. by apply all_calls_call. Qed.
#[local] Hint Resolve plain_link_add : calls.

Lemma plain_AddDummyDevice name : plain_in m (AddDummyDevice m name).
Proof. unfold AddDummyDevice. plain_tac. Qed.
Lemma plain_AddVethPair name peer : plain_in m (AddVethPair m name peer).
Proof. unfold AddVethPair. plain_tac. Qed.
Lemma plain_AddMacvlanDevice name p mode : plain_in m (AddMacvlanDevice m name p mode).
Proof. unfold AddMacvlanDevice. plain_tac. Qed.
Lemma plain_AddMacvtapDevice name p mode : plain_in m (AddMacvtapDevice m name p mode).
Proof. unfold AddMacvtapDevice. plain_tac. Qed.
Lemma plain_AddIpvlan name p mode : plain_in m (AddIpvlan m name p mode).
Proof. unfold AddIpvlan. plain_tac. Qed.
Lemma plain_AddBridge name : plain_in m (AddBridge m name).
Proof. unfold AddBridge. plain_tac. Qed.
Lemma plain_AddVlan name p id : plain_in m (AddVlan m name p id).
Proof. unfold AddVlan. plain_tac. Qed.
Lemma plain_AddVrf name t : plain_in m (AddVrf m name t).
Proof. unfold AddVrf. plain_tac. Qed.
Lemma plain_AddTap name : plain_in m (AddTap m name).
Proof. unfold AddTap. plain_tac. Qed.
Lemma plain_AddTun name : plain_in m (AddTun m name).
Proof. unfold AddTun. plain_tac. Qed.
Lemma plain_AddBond name opts : plain_in m (AddBond m name opts).
Proof. unfold AddBond. plain_tac. Qed.
Lemma plain_AddVxlan name vni opts : plain_in m (AddVxlan m name vni opts).
Proof. unfold AddVxlan. plain_tac. Qed.
Lemma plain_AddTunnel name opts : plain_in m (AddTunnel m name opts).
Proof. unfold AddTunnel. plain_tac. Qed.

Lemma plain_SetBridgeMaster l b : plain_in m (SetBridgeMaster m l b).
Proof. unfold SetBridgeMaster. plain_tac. Qed.
Lemma plain_SetBondSlave l b : plain_in m (SetBondSlave m l b).
Proof. unfold SetBondSlave. plain_tac. Qed.
Lemma plain_SetVrfMaster l b : plain_in m (SetVrfMaster m l b).
Proof. unfold SetVrfMaster. plain_tac. Qed.

Lemma plain_AddFDBEntry e : plain_in m (AddFDBEntry m e).
Proof. apply plain_on_link. intros l. plain_tac. Qed.
Lemma plain_AddNeighEntry e : plain_in m (AddNeighEntry m e).
Proof. apply plain_on_link. intros l. plain_tac. Qed.
Lemma plain_AddAddressOpts l c lb lt : plain_in m (AddAddressOpts m l c lb lt).
Proof. apply plain_on_link. intros link. plain_tac. Qed.
Lemma plain_HasAddress l c : plain_in m (HasAddress m l c).
Proof. unfold HasAddress, ListAddresses. plain_tac. Qed.
Lemma plain_AddRouteOpts o : plain_in m (AddRouteOpts m o).
Proof. unfold AddRouteOpts. plain_tac. Qed.
Lemma plain_AddRoute d g v mt t : plain_in m (AddRoute m d g v mt t).
Proof. apply plain_AddRouteOpts. Qed.
Lemma plain_AddRule f t tb p mk : plain_in m (AddRule m f t tb p mk).
Proof. unfold AddRule. plain_tac. Qed.
Lemma plain_AddLocalSID d o : plain_in m (AddLocalSID m d o).
Proof. unfold AddLocalSID, seg6_oif, seg6_iif. plain_tac. Qed.
Lemma plain_AddProxyNDP i ip : plain_in m (AddProxyNDP m i ip).
Proof. unfold AddProxyNDP, proxyNDPNeigh. plain_tac. Qed.

End netlink.

#[export] Hint Resolve plain_link_by_name plain_LinkExists plain_SetLinkUp plain_SetLinkDown
  plain_SetLinkMTU plain_SetLinkMacAddress plain_FindMatchingLink plain_RenameLink plain_link_add
  plain_AddDummyDevice plain_AddVethPair plain_AddMacvlanDevice plain_AddMacvtapDevice plain_AddIpvlan
  plain_AddBridge plain_AddVlan plain_AddVrf plain_AddTap plain_AddTun plain_AddBond plain_AddVxlan
  plain_AddTunnel plain_SetBridgeMaster plain_SetBondSlave plain_SetVrfMaster plain_AddFDBEntry
  plain_AddNeighEntry plain_AddAddressOpts plain_HasAddress plain_AddRouteOpts plain_AddRoute
  plain_AddRule plain_AddLocalSID plain_AddProxyNDP : calls.

(** ** The host *)

Section host.
Context `{Libs} `{RangeOrder} (h : handle).
#[local] Abbreviation plain_h p := (all_calls (plain h) p) (only parsing).

Lemma plain_writeSysctl i k v : plain_h (writeSysctl i k v).
Proof. by apply all_calls_call. Qed.
Lemma plain_writeSysfs p v : written p = true -> plain_h (writeSysfs p v).
Proof. intros Hp. unfold writeSysfs. plain_tac. Qed.
#[local] Hint Extern 1 (written _ = true) => reflexivity : calls.
#[local] Hint Resolve plain_writeSysctl plain_writeSysfs : calls.

Lemma plain_writeSysfsBool p b : written p = true -> plain_h (writeSysfsBool p b).
Proof. intros Hp. by apply plain_writeSysfs. Qed.
Lemma plain_write_param errs p v s : written p = true -> plain_h (write_param errs p v s).
Proof. intros Hp. unfold write_param, writeSysfsInt. plain_tac. Qed.
#[local] Hint Resolve plain_writeSysfsBool plain_write_param : calls.

Lemma plain_SetBridgeVlanFiltering n b : plain_h (SetBridgeVlanFiltering n b).
Proof. by apply plain_writeSysfsBool. Qed.
Lemma plain_SetLinkNeighSuppress n b : plain_h (SetLinkNeighSuppress n b).
Proof. by apply plain_writeSysfsBool. Qed.
Lemma plain_SetLinkLearning n b : plain_h (SetLinkLearning n b).
Proof. by apply plain_writeSysfsBool. Qed.
Lemma plain_SetBridgePortHairpin n b : plain_h (SetBridgePortHairpin n b).
Proof. by apply plain_writeSysfsBool. Qed.
Lemma plain_SetBridgePortPathCost n v : plain_h (SetBridgePortPathCost n v).
Proof. by apply plain_writeSysfs. Qed.
Lemma plain_SetBridgePortPriority n v : plain_h (SetBridgePortPriority n v).
Proof. by apply plain_writeSysfs. Qed.
Lemma plain_SetBridgeParameters n o : plain_h (SetBridgeParameters n o).
Proof. unfold SetBridgeParameters. plain_tac. Qed.
Lemma plain_SetIPv6Token i t : plain_h (SetIPv6Token i t).
Proof. unfold SetIPv6Token. plain_tac. Qed.
Lemma plain_EnableSeg6 i : plain_h (EnableSeg6 i).
Proof. apply plain_writeSysctl. Qed.
Lemma plain_EnableVRFStrictMode : plain_h EnableVRFStrictMode.
Proof. by apply all_calls_call. Qed.
Lemma plain_EnableProxyNDP i : plain_h (EnableProxyNDP i).
Proof. apply plain_writeSysctl. Qed.

Lemma plain_EnableSLAAC i : plain_h (EnableSLAAC i).
Proof. unfold EnableSLAAC. plain_tac. Qed.
Lemma plain_DisableSLAAC i : plain_h (DisableSLAAC i).
Proof. unfold DisableSLAAC. plain_tac. Qed.
Lemma plain_SetIPv6Privacy i v : plain_h (SetIPv6Privacy i v).
Proof. apply plain_writeSysctl. Qed.
Lemma plain_SetIPv6MTU i v : plain_h (SetIPv6MTU i v).
Proof. apply plain_writeSysctl. Qed.
Lemma plain_SetLinkLocalIPv6 i b : plain_h (SetLinkLocalIPv6 i b).
Proof. apply plain_writeSysctl. Qed.
Lemma plain_SetIPv6AddrGenMode i mode : plain_h (SetIPv6AddrGenMode i mode).
Proof. unfold SetIPv6AddrGenMode, deriveStableSecret. plain_tac. Qed.
Lemma plain_first_path l : plain_h (first_path l).
Proof. induction l as [|x l IH]; [done|]. cbn [first_path]. plain_tac. Qed.
#[local] Hint Resolve plain_first_path : calls.
Lemma plain_NewDHCPManager : plain_h NewDHCPManager.
Proof. unfold NewDHCPManager. plain_tac. Qed.
Lemma plain_ApplyDNS i a s : plain_h (ApplyDNS i a s).
Proof. unfold ApplyDNS, usingSystemdResolved, applyDNSResolvectl, writeResolvConf. plain_tac. Qed.
Lemma plain_applyEthernetExtras n c : plain_h (applyEthernetExtras n c).
Proof. unfold applyEthernetExtras, applyInfinibandMode, SetWakeOnLanMagic. plain_tac. Qed.
Lemma plain_applyOffload n c : plain_h (applyOffload n c).
Proof. unfold applyOffload, EthtoolFeatures, EthtoolChange. plain_tac. Qed.
Lemma plain_write_supplicant n d c : plain_h (write_supplicant n d c).
Proof. unfold write_supplicant, runSupplicant, stopSupplicant. plain_tac. Qed.
#[local] Hint Resolve plain_write_supplicant : calls.
Lemma plain_setup8021x n a : plain_h (setup8021x n a).
Proof. unfold setup8021x. plain_tac. Qed.
Lemma plain_setupWifiSupplicant n c : plain_h (setupWifiSupplicant n c).
Proof. unfold setupWifiSupplicant. plain_tac. Qed.
Lemma plain_setNumVFs n v : plain_h (setNumVFs n v).
Proof. unfold setNumVFs. plain_tac. Qed.
End host.

#[export] Hint Resolve plain_SetBridgeVlanFiltering plain_SetLinkNeighSuppress plain_SetLinkLearning
  plain_SetBridgePortHairpin plain_SetBridgePortPathCost plain_SetBridgePortPriority
  plain_SetBridgeParameters plain_SetIPv6Token plain_EnableSeg6 plain_EnableVRFStrictMode
  plain_EnableProxyNDP plain_EnableSLAAC plain_DisableSLAAC plain_SetIPv6Privacy plain_SetIPv6MTU
  plain_SetLinkLocalIPv6 plain_SetIPv6AddrGenMode plain_NewDHCPManager plain_ApplyDNS
  plain_applyEthernetExtras plain_applyOffload plain_setup8021x plain_setupWifiSupplicant
  plain_setNumVFs : calls.

(** ** The functions of apply that need no other manager *)

Section setup.
Context `{Libs} `{RangeOrder} (m : NetlinkManager).

Lemma plain_addRoute d r : plain_in m (addRoute m d r).
Proof. unfold addRoute. plain_tac. Qed.
#[local] Hint Resolve plain_addRoute : calls.
Lemma plain_add_routes n l : plain_in m (add_routes m n l).
Proof. unfold add_routes. plain_tac. Qed.
Lemma plain_add_policies l : plain_in m (add_policies m l).
Proof. unfold add_policies, addRoutingPolicy. plain_tac. Qed.
Lemma plain_applyNameservers n ns : plain_in m (applyNameservers n ns).
Proof. unfold applyNameservers. plain_tac. Qed.
Lemma plain_applyNDProxy n p : plain_in m (applyNDProxy m n p).
Proof. unfold applyNDProxy. plain_tac. Qed.
Lemma plain_add_address n a : plain_in m (add_address m n a).
Proof. unfold add_address. plain_tac. Qed.
#[local] Hint Resolve plain_add_routes plain_add_policies plain_applyNameservers plain_applyNDProxy
  plain_add_address : calls.
Lemma plain_setupDevice n a r mtu mac : plain_in m (setupDevice m n a r mtu mac).
Proof. unfold setupDevice. plain_tac. Qed.
#[local] Hint Resolve plain_setupDevice : calls.
Lemma plain_setup_or n a r mtu mac what q : plain_in m q -> plain_in m (setup_or m n a r mtu mac what q).
Proof. intros Hq. unfold setup_or. plain_tac. Qed.
Lemma plain_activate n c : plain_in m (activate m n c).
Proof. unfold activate. plain_tac. Qed.
Lemma plain_setup_ipv6 n c : plain_in m (setup_ipv6 n c).
Proof. unfold setup_ipv6. plain_tac. Qed.
Lemma plain_start_dhcp4 n c : plain_in m (start_dhcp4 n c).
Proof. unfold start_dhcp4. plain_tac. Qed.
Lemma plain_start_dhcp6 n c : plain_in m (start_dhcp6 n c).
Proof. unfold start_dhcp6. plain_tac. Qed.
Lemma plain_setup_static n c : plain_in m (setup_static m n c).
Proof. unfold setup_static. plain_tac. Qed.
#[local] Hint Resolve plain_activate plain_setup_ipv6 plain_start_dhcp4 plain_start_dhcp6
  plain_setup_static : calls.
Lemma plain_setupDeviceWithDHCP n c : plain_in m (setupDeviceWithDHCP m n c).
Proof. unfold setupDeviceWithDHCP. plain_tac. Qed.
#[local] Hint Resolve plain_setupDeviceWithDHCP : calls.
Lemma plain_setupLoopback c : plain_in m (setupLoopback m c).
Proof. unfold setupLoopback. plain_tac. Qed.
Lemma plain_resolveEthernetName k c : plain_in m (resolveEthernetName m k c).
Proof. unfold resolveEthernetName. plain_tac. Qed.
Lemma plain_entry {A} (d : gomap (ptr A)) n : plain_in m (entry d n).
Proof. apply all_calls_lift. Qed.
#[local] Hint Resolve plain_entry : calls.
Lemma plain_setupWifis ns d : plain_in m (setupWifis m ns d).
Proof. unfold setupWifis. plain_tac. Qed.
Lemma plain_create_missing n what c q :
  plain_in m c -> plain_in m q -> plain_in m (create_missing m n what c q).
Proof. intros Hc Hq. unfold create_missing. plain_tac. Qed.
#[local] Hint Resolve plain_setup_or plain_create_missing : calls.
Lemma plain_add_fdb n v l : plain_in m (add_fdb m n v l).
Proof. unfold add_fdb. plain_tac. Qed.
Lemma plain_add_neighbors n l : plain_in m (add_neighbors m n l).
Proof. unfold add_neighbors. plain_tac. Qed.
#[local] Hint Resolve plain_add_fdb plain_add_neighbors : calls.

(** The combinators that take the rest of the function. *)
#[local] Ltac setup_tac :=
  repeat (plain_tac; (apply plain_setup_or || apply plain_create_missing)); plain_tac.

Lemma plain_setupDummyDevices ns d : plain_in m (setupDummyDevices m ns d).
Proof. unfold setupDummyDevices. setup_tac. Qed.
Lemma plain_setupVlans ns d : plain_in m (setupVlans m ns d).
Proof. unfold setupVlans. setup_tac. Qed.
Lemma plain_setupOneVxlan ns n c : plain_in m (setupOneVxlan m ns n c).
Proof. unfold setupOneVxlan. setup_tac. Qed.
#[local] Hint Resolve plain_setupOneVxlan : calls.
Lemma plain_setupVxlans ns d : plain_in m (setupVxlans m ns d).
Proof. unfold setupVxlans. setup_tac. Qed.
Lemma plain_applyVxlanNeighSuppress d : plain_in m (applyVxlanNeighSuppress d).
Proof. unfold applyVxlanNeighSuppress. plain_tac. Qed.
Lemma plain_applyBridgePortAttrs d : plain_in m (applyBridgePortAttrs d).
Proof. unfold applyBridgePortAttrs, opt_bool. plain_tac. Qed.
Lemma plain_setupBonds ns d : plain_in m (setupBonds m ns d).
Proof. unfold setupBonds. setup_tac. Qed.
Lemma plain_setupBridges ns d : plain_in m (setupBridges m ns d).
Proof. unfold setupBridges, opt_bool, port_parameters. setup_tac. Qed.
Lemma plain_setupVrfs ns d : plain_in m (setupVrfs m ns d).
Proof. unfold setupVrfs. setup_tac. Qed.
Lemma plain_setupVirtualEthernets ns d : plain_in m (setupVirtualEthernets m ns d).
Proof. unfold setupVirtualEthernets, setup_virtual. setup_tac. Qed.
Lemma plain_setupTunTapDevices ns d t : plain_in m (setupTunTapDevices m ns d t).
Proof. unfold setupTunTapDevices. setup_tac. Qed.
Lemma plain_setupSRv6 ns c : plain_in m (setupSRv6 m ns c).
Proof. unfold setupSRv6, setup_sid, ensureSRv6Dummy. setup_tac. Qed.
Lemma plain_runPostScript ns s : plain_in m (runPostScript ns s).
Proof. by apply all_calls_call. Qed.
End setup.

#[export] Hint Resolve plain_applyNDProxy plain_applyNameservers plain_setupDevice plain_setupDeviceWithDHCP
  plain_setupLoopback plain_resolveEthernetName plain_setupWifis plain_setupDummyDevices plain_setupVlans
  plain_setupVxlans plain_applyVxlanNeighSuppress plain_applyBridgePortAttrs plain_setupBonds
  plain_setupBridges plain_setupVrfs plain_setupVirtualEthernets plain_setupTunTapDevices plain_setupSRv6
  plain_runPostScript : calls.
