(* ===== verification/World.v ===== *)
(** * Handles, namespaces and threads

    A specification of the calls that concern network namespaces, over a [World]
    that says which handles of the netlink library and which namespace
    descriptors are open and where they lead, in which namespace the calling
    thread is, how often it is locked, and whether a change of its namespace has
    failed ([w_lost]), after which nobody knows where it is.  The specification has the documented
    behaviour of these calls: a new handle or descriptor is none of the open
    ones, a call needs a handle that is open, [LinkByName] answers with a link of
    that name, [NewNamed] enters the namespace that it creates.  It says nothing
    of what the kernel answers otherwise.  Theorems about resources, and about
    where something happens, are [wp] over it. *)

From S2P Require Import Prelude GoStd GoNet Effect Netlink.

#[global] Arguments mbind : simpl never.

Record World := MkWorld {
  w_handles : gmap handle string;
  w_fds : gmap nsfd string;
  w_cur : string;
  w_lock : nat;
  w_lost : bool
}.

(** The netlink handle that a call uses. *)
Definition handle_of {X} (e : sys X) : option handle :=
  match e with
  | HandleClose h | LinkList h | LinkAdd h _ | LinkDel h _ | LinkSetUp h _ | LinkSetDown h _
  | LinkSetMTU h _ _ | LinkSetHardwareAddr h _ _ | LinkSetNsFd h _ _ | LinkSetName h _ _
  | LinkSetMaster h _ _ | LinkSetAllmulticast h _ _ | LinkSetAlias h _ _ | AddrAdd h _ _
  | AddrDel h _ _ | AddrList h _ _ | RouteAdd h _ | RouteReplace h _ | RouteDel h _ | NeighAdd h _
  | NeighSet h _ | NeighDel h _ | RuleAdd h _ | RuleDel h _ | DevLinkGetDeviceByName h _ _
  | DevLinkSetEswitchMode h _ _ => Some h
  | LinkByName h _ => h
  | _ => None
  end.

(** The descriptor of a namespace that a call uses. *)
Definition fd_of {X} (e : sys X) : option nsfd :=
  match e with
  | NewHandleAt fd | NsSet fd | NsClose fd | LinkSetNsFd _ _ fd => Some fd
  | _ => None
  end.

(** What a call needs: open handles and descriptors, and a lock to release; and
    the permission [perm], which depends on the claim. *)
Definition world_pre (perm : forall X, sys X -> World -> Prop) X (e : sys X) (w : World) : Prop :=
  (forall h, handle_of e = Some h -> is_Some (w_handles w !! h)) /\
  (forall fd, fd_of e = Some fd -> is_Some (w_fds w !! fd)) /\
  (match e with UnlockOSThread => (0 < w_lock w)%nat | _ => True end) /\
  perm X e w.

(** A descriptor that is opened. *)
Definition fd_opened (w : World) (r : res nsfd) (ns cur : string) (w' : World) : Prop :=
  match r with
  | Ok fd => fd <> 0 /\ w_fds w !! fd = None /\
             w' = MkWorld (w_handles w) (<[fd := ns]> (w_fds w)) cur (w_lock w) (w_lost w)
  | Err _ => w' = w
  end.

(** A handle that is opened. *)
Definition handle_opened (w : World) (r : res handle) (ns : string) (w' : World) : Prop :=
  match r with
  | Ok h => w_handles w !! h = None /\
            w' = MkWorld (<[h := ns]> (w_handles w)) (w_fds w) (w_cur w) (w_lock w) (w_lost w)
  | Err _ => w' = w
  end.

(** The answers of a call, and what it changes. *)
Definition world_post X (e : sys X) (w : World) : X -> World -> Prop :=
  match e in sys X return X -> World -> Prop with
  | NewHandle => fun r w' => handle_opened w r (w_cur w) w'
  | NewHandleAt fd => fun r w' => handle_opened w r (default "" (w_fds w !! fd)) w'
  | HandleClose h => fun _ w' => w' = MkWorld (delete h (w_handles w)) (w_fds w) (w_cur w) (w_lock w) (w_lost w)
  | LockOSThread => fun _ w' => w' = MkWorld (w_handles w) (w_fds w) (w_cur w) (S (w_lock w)) (w_lost w)
  | UnlockOSThread => fun _ w' => w' = MkWorld (w_handles w) (w_fds w) (w_cur w) (pred (w_lock w)) (w_lost w)
  | NsGet => fun r w' => fd_opened w r (w_cur w) (w_cur w) w'
  | NsGetFromName name => fun r w' => fd_opened w r name (w_cur w) w'
  | NsNewNamed name => fun r w' =>
      match r with
      | Ok _ => fd_opened w r name name w'
      | Err _ => exists cur, w' = MkWorld (w_handles w) (w_fds w) cur (w_lock w) true
      end
  | NsSet fd => fun r w' =>
      match r with
      | None => w' = MkWorld (w_handles w) (w_fds w) (default "" (w_fds w !! fd)) (w_lock w) (w_lost w)
      | Some _ => w' = MkWorld (w_handles w) (w_fds w) (w_cur w) (w_lock w) true
      end
  | NsClose fd => fun _ w' => w' = MkWorld (w_handles w) (delete fd (w_fds w)) (w_cur w) (w_lock w) (w_lost w)
  | LinkByName _ name => fun r w' => w' = w /\ forall l, r = Ok l -> Link_Name l = name
  | _ => fun _ w' => w' = w
  end.

(** Panics are allowed: what ends the process needs no closing. *)
Definition world_spec (perm : forall X, sys X -> World -> Prop) : spec sys World :=
  Spec (world_pre perm) world_post True.

(** The descriptors [fds'] are [fds] and others, all of namespaces of [leak]. *)
Definition leaves (leak : string -> Prop) (fds fds' : gmap nsfd string) : Prop :=
  fds ⊆ fds' /\ forall fd n, fds' !! fd = Some n -> fds !! fd = Some n \/ leak n.

#[export] Instance leaves_preorder leak : PreOrder (leaves leak).
Proof.
  split; [by split; auto|]. intros f1 f2 f3 [A1 A2] [B1 B2]. split; [by etrans|].
  intros fd n [Hn|Hn]%B2; [by apply A2|by right].
Qed.

Lemma leaves_mono (leak leak' : string -> Prop) fds fds' :
  (forall n, leak n -> leak' n) -> leaves leak fds fds' -> leaves leak' fds fds'.
Proof. intros Hl [H1 H2]. split; [done|]. intros fd n [Hn|Hn]%H2; auto. Qed.

Lemma leaves_insert (leak : string -> Prop) fds fd n : fds !! fd = None -> leak n -> leaves leak fds (<[fd:=n]> fds).
Proof.
  intros Hfd Hn. split; [by apply insert_subseteq|].
  intros fd' n' [[<- <-]|[_ H]]%lookup_insert_Some; auto.
Qed.

(** Closing the descriptor that was opened first. *)
Lemma leaves_delete leak fds fds' fd n :
  fds !! fd = None -> leaves leak (<[fd:=n]> fds) fds' -> leaves leak fds (delete fd fds').
Proof.
  intros Hfd [H1 H2]. split.
  - apply map_subseteq_spec. intros i x Hi. rewrite lookup_delete_ne by (intros ->; congruence).
    eapply lookup_weaken; [|exact H1]. rewrite lookup_insert_ne; [done|]. intros ->; congruence.
  - intros i x [Hne [Hi|Hi]%H2]%lookup_delete_Some; [|by right].
    rewrite lookup_insert_ne in Hi by done. by left.
Qed.

(** The worlds that differ in nothing but further open descriptors, of named
    namespaces. *)
Definition same_but_fds (w w' : World) : Prop :=
  w_handles w' = w_handles w /\ leaves (fun n => n <> "") (w_fds w) (w_fds w') /\ w_cur w' = w_cur w /\
  w_lock w' = w_lock w /\ w_lost w' = w_lost w.

#[export] Instance same_but_fds_preorder : PreOrder same_but_fds.
Proof.
  split; [by intros w; split_and!|]. intros w1 w2 w3 (A1 & A2 & A3 & A4 & A5) (B1 & B2 & B3 & B4 & B5).
  split_and!; [congruence|by etrans|congruence..].
Qed.

(** Where a handle leads. *)
Definition handle_at (w : World) (h : handle) (ns : string) : Prop := w_handles w !! h = Some ns.

(** A manager whose handle, and descriptor if it has one, are open. *)
Definition mgr_open (w : World) (m : NetlinkManager) (ns : string) : Prop :=
  handle_at w (mgr_handle m) ns /\
  (mgr_nsHandle m <> 0 -> is_Some (w_fds w !! mgr_nsHandle m)).

Section rules.
Context (perm : forall X, sys X -> World -> Prop).
Implicit Types (w : World) (m : NetlinkManager).

(** The calls that a claim does not restrict. *)
Definition allows : Prop := forall X (e : sys X) w,
  match e with
  | NewHandle | NewHandleAt _ | HandleClose _ | NsGetFromName _ | NsClose _ | LinkByName (Some _) _ => perm X e w
  | _ => True
  end.

Context (Hallow : allows).

Lemma wp_link_by_name m name ns w (Q : res Link -> World -> Prop) :
  handle_at w (mgr_handle m) ns ->
  (forall l, Link_Name l = name -> Q (Ok l) w) -> (forall e, Q (Err e) w) ->
  wp (world_spec perm) (link_by_name m name) w Q.
Proof.
  intros Hm Hok Herr. apply wp_call.
  - split_and!; [intros h [= <-]; by eexists|done|done|apply (Hallow _ (LinkByName (Some _) _))].
  - intros r w' [-> Hl]. destruct r as [l|e]; [by apply Hok, Hl|apply Herr].
Qed.

Lemma wp_on_link m name f ns w (Q : err -> World -> Prop) :
  handle_at w (mgr_handle m) ns ->
  (forall l, Link_Name l = name -> wp (world_spec perm) (f l) w Q) -> (forall e, Q (Some e) w) ->
  wp (world_spec perm) (on_link m name f) w Q.
Proof.
  intros Hm Hf He. apply wp_bind, (wp_link_by_name m name ns); [done|done|]. intros e. apply He.
Qed.

Lemma wp_LinkExists m name ns w (Q : bool -> World -> Prop) :
  handle_at w (mgr_handle m) ns -> (forall b, Q b w) ->
  wp (world_spec perm) (LinkExists m name) w Q.
Proof. intros Hm HQ. apply wp_bind, (wp_link_by_name m name ns); [done|intros; apply HQ..]. Qed.

(** A call that changes nothing and whose answer does not matter. *)
Lemma wp_plain {X} (e : sys X) w (Q : X -> World -> Prop) :
  world_pre perm X e w -> (forall x w', world_post X e w x w' -> w' = w) -> (forall x, Q x w) ->
  wp (world_spec perm) (call e) w Q.
Proof. intros He Hw HQ. apply wp_call; [done|]. intros x w' Hp. rewrite (Hw x w' Hp). apply HQ. Qed.

Lemma wp_New w (Q : res NetlinkManager -> World -> Prop) :
  (forall h, w_handles w !! h = None ->
     Q (Ok (MkNetlinkManager h "" 0))
       (MkWorld (<[h := w_cur w]> (w_handles w)) (w_fds w) (w_cur w) (w_lock w) (w_lost w))) ->
  (forall e, Q (Err e) w) ->
  wp (world_spec perm) New w Q.
Proof.
  intros Hok Herr. apply wp_bind, wp_call.
  - split_and!; [done..|apply (Hallow _ NewHandle)].
  - intros [h|e] w'; simpl; [intros [Hh ->]; by apply Hok|intros ->; apply Herr].
Qed.

Lemma wp_NewWithNetns ns w (Q : res NetlinkManager -> World -> Prop) :
  (forall h fd, w_handles w !! h = None -> fd <> 0 -> w_fds w !! fd = None ->
     Q (Ok (MkNetlinkManager h ns fd))
       (MkWorld (<[h := ns]> (w_handles w)) (<[fd := ns]> (w_fds w)) (w_cur w) (w_lock w) (w_lost w))) ->
  (forall e, Q (Err e) w) ->
  wp (world_spec perm) (NewWithNetns ns) w Q.
Proof.
  intros Hok Herr. apply wp_bind, wp_call.
  { split_and!; [done..|apply (Hallow _ (NsGetFromName ns))]. }
  intros [fd|e] w' Hw'; simpl in *; [|rewrite Hw'; apply Herr]. destruct Hw' as (Hfd & Hno & ->).
  apply wp_bind, wp_call.
  { split_and!; [done| |done|apply (Hallow _ (NewHandleAt fd))]. intros ? [= <-]. simpl.
    rewrite lookup_insert_eq. by eexists. }
  intros [h|e] w' Hw'; simpl in *.
  - rewrite lookup_insert_eq in Hw'. destruct Hw' as [Hh ->]. by apply Hok.
  - subst w'. apply wp_bind, wp_call.
    { split_and!; [done| |done|apply (Hallow _ (NsClose fd))]. intros ? [= <-]. simpl.
      rewrite lookup_insert_eq. by eexists. }
    intros _ w' ->. simpl. rewrite delete_insert_id by done. destruct w; apply Herr.
Qed.

Lemma wp_Close m ns w (Q : unit -> World -> Prop) :
  mgr_open w m ns ->
  Q tt (MkWorld (delete (mgr_handle m) (w_handles w))
          (if mgr_nsHandle m =? 0 then w_fds w else delete (mgr_nsHandle m) (w_fds w)) (w_cur w) (w_lock w) (w_lost w)) ->
  wp (world_spec perm) (Close m) w Q.
Proof.
  intros [Hh Hfd] HQ. apply wp_bind, wp_call.
  { split_and!; [|done..|apply (Hallow _ (HandleClose _))]. intros ? [= <-]. by eexists. }
  intros _ w' ->. simpl. destruct (Z.eqb_spec (mgr_nsHandle m) 0) as [_|Hne]; simpl; [done|]. apply wp_call.
  { split_and!; [done| |done|apply (Hallow _ (NsClose _))]. intros ? [= <-]. simpl. by apply Hfd. }
  by intros [] w' ->.
Qed.

(** NetnsExists leaves the descriptor that it opens. *)
Lemma wp_NetnsExists_leak ns w (Q : bool -> World -> Prop) :
  (forall b fds, leaves (fun n => n = ns) (w_fds w) fds ->
     Q b (MkWorld (w_handles w) fds (w_cur w) (w_lock w) (w_lost w))) ->
  wp (world_spec perm) (NetnsExists ns) w Q.
Proof.
  intros HQ. apply wp_bind, wp_call.
  { split_and!; [done..|apply (Hallow _ (NsGetFromName ns))]. }
  intros [fd|e] w' Hw'; simpl in *.
  - destruct Hw' as (_ & Hno & ->). by apply HQ, leaves_insert.
  - subst w'. destruct w as [hs fds cur k b]. by apply (HQ _ fds).
Qed.

Lemma wp_NetnsExists ns w (Q : bool -> World -> Prop) :
  ns <> "" -> (forall b w', same_but_fds w w' -> Q b w') ->
  wp (world_spec perm) (NetnsExists ns) w Q.
Proof.
  intros Hns HQ. apply wp_NetnsExists_leak. intros b fds Hf. apply HQ. split_and!; simpl; [done| |done..].
  eapply leaves_mono; [|exact Hf]. by intros n ->.
Qed.
End rules.

(** ** Changing the namespace of the thread *)

Section namespaces.
Context (perm : forall X, sys X -> World -> Prop).

(** The claim does not restrict what changes the namespace of the thread. *)
Definition allows_ns : Prop := forall X (e : sys X) w,
  match e with
  | LockOSThread | UnlockOSThread | NsGet | NsGetFromName _ | NsSet _ | NsClose _ => perm X e w
  | _ => True
  end.

Context (Hallow : allows_ns).

#[local] Abbreviation sp := (world_spec perm).

(** The same handles, descriptors and locks; and the thread back where it was,
    unless an error is returned and it is lost. *)
Definition back_from (w : World) (r : err) (w' : World) : Prop :=
  w_handles w' = w_handles w /\ w_fds w' = w_fds w /\ w_lock w' = w_lock w /\
  (w_cur w' = w_cur w /\ w_lost w' = w_lost w \/ r <> None /\ w_lost w' = true).

(** A deferred call. *)
Lemma wp_deferred {A} (p : prog sys A) d w (Q : A -> World -> Prop) :
  wp sp p w (fun a w' => wp sp d w' (fun _ w'' => Q a w'')) -> wp sp (deferred p d) w Q.
Proof.
  intros Hp. apply wp_bind. eapply wp_mono; [|exact Hp]. intros a w' Hd. by apply wp_bind.
Qed.

Lemma wp_NsClose fd w (Q : unit -> World -> Prop) :
  is_Some (w_fds w !! fd) ->
  Q tt (MkWorld (w_handles w) (delete fd (w_fds w)) (w_cur w) (w_lock w) (w_lost w)) ->
  wp sp (call (NsClose fd)) w Q.
Proof.
  intros Hfd HQ. apply wp_call.
  - split_and!; [done|by intros ? [= <-]|done|apply (Hallow _ (NsClose fd))].
  - by intros [] w' ->.
Qed.

Lemma wp_NsSet fd ns w (Q : err -> World -> Prop) :
  w_fds w !! fd = Some ns ->
  Q None (MkWorld (w_handles w) (w_fds w) ns (w_lock w) (w_lost w)) ->
  (forall e, Q (Some e) (MkWorld (w_handles w) (w_fds w) (w_cur w) (w_lock w) true)) ->
  wp sp (call (NsSet fd)) w Q.
Proof.
  intros Hfd Hok Herr. apply wp_call.
  - split_and!; [done| |done|apply (Hallow _ (NsSet fd))]. intros ? [= <-]. by eexists.
  - intros [e|] w' ->; [apply Herr|]. by rewrite Hfd.
Qed.

(** The common frame: lock, remember where the thread is, and undo both. *)
Lemma wp_pinned (body : nsfd -> prog sys err) (wrap : error -> error) w :
  (forall fd, fd <> 0 -> w_fds w !! fd = None ->
     let w1 := MkWorld (w_handles w) (<[fd := w_cur w]> (w_fds w)) (w_cur w) (S (w_lock w)) (w_lost w) in
     wp sp (body fd) w1 (back_from w1)) ->
  wp sp (call LockOSThread ;;
         deferred (get! fd := call NsGet as wrap; deferred (body fd) (call (NsClose fd)))
                  (call UnlockOSThread)) w (back_from w).
Proof.
  intros Hbody. apply wp_bind, wp_call. { split_and!; [done..|apply (Hallow _ LockOSThread)]. }
  intros [] w0 ->. apply wp_deferred, wp_bind, wp_call. { split_and!; [done..|apply (Hallow _ NsGet)]. }
  assert (forall r w', back_from (MkWorld (w_handles w) (w_fds w) (w_cur w) (S (w_lock w)) (w_lost w)) r w' ->
    wp sp (call UnlockOSThread) w' (fun _ w'' => back_from w r w'')) as Hunlock.
  { intros r w' (H1 & H2 & H3 & H4). simpl in H3. apply wp_call.
    { split_and!; [done..| |apply (Hallow _ UnlockOSThread)]. rewrite H3. lia. }
    intros [] w'' ->. split_and!; [done|done| |done]. simpl. by rewrite H3. }
  intros [fd|e] w1 Hw1; simpl in *.
  - destruct Hw1 as (Hne & Hno & ->). apply wp_deferred.
    eapply wp_mono; [|apply (Hbody fd Hne Hno)]. intros r w2 (H1 & H2 & H3 & H4). simpl in H2.
    apply wp_NsClose; [rewrite H2, lookup_insert_eq; by eexists|].
    apply Hunlock. split_and!; simpl; [done| |done|done]. by rewrite H2, delete_insert_id.
  - subst w1. apply wp_ret, Hunlock. split_and!; try done. by left.
Qed.

Lemma wp_RunInNetns ns fn w :
  (forall fds, let w1 := MkWorld (w_handles w) fds ns (S (w_lock w)) (w_lost w) in
     w_fds w ⊆ fds -> wp sp fn w1 (fun _ w2 => w2 = w1)) ->
  wp sp (RunInNetns ns fn) w (back_from w).
Proof.
  intros Hfn. apply wp_pinned. intros fd Hne Hno. simpl.
  apply wp_bind, wp_call. { split_and!; [done..|apply (Hallow _ (NsGetFromName ns))]. }
  intros [tfd|e] w1 Hw1; simpl in *; [|subst w1; apply wp_ret; split_and!; [done..|by left]].
  destruct Hw1 as (Htne & Htno & ->). simpl in Htno.
  assert (fd <> tfd) as Hft by (intros ->; by rewrite lookup_insert_eq in Htno).
  apply wp_deferred, wp_bind, (wp_NsSet tfd ns); simpl; [by rewrite lookup_insert_eq|..].
  - apply wp_bind. eapply wp_mono; [|apply Hfn].
    + intros r w2 ->. apply wp_bind, (wp_NsSet fd (w_cur w)); simpl.
      * by rewrite lookup_insert_ne, lookup_insert_eq by done.
      * apply wp_ret, wp_NsClose; simpl; [rewrite lookup_insert_eq; by eexists|].
        split_and!; simpl; [done|by rewrite delete_insert_id|done|by left].
      * intros e. apply wp_ret, wp_NsClose; simpl; [rewrite lookup_insert_eq; by eexists|].
        split_and!; simpl; [done|by rewrite delete_insert_id|done|by right].
    + etrans; [by apply insert_subseteq|by apply insert_subseteq].
  - intros e. apply wp_ret, wp_NsClose; simpl; [rewrite lookup_insert_eq; by eexists|].
    split_and!; simpl; [done|by rewrite delete_insert_id|done|by right].
Qed.

Lemma wp_CreateNetns name w :
  (forall w', perm _ (MkdirAll "/var/run/netns") w') -> (forall w', perm _ (NsNewNamed name) w') ->
  wp sp (CreateNetns name) w (back_from w).
Proof.
  intros Hdir Hnew. apply wp_bind, wp_call. { split_and!; [done..|apply Hdir]. }
  intros [e|] w0 ->; [apply wp_ret; split_and!; [done..|by left]|].
  apply wp_pinned. intros fd Hne Hno. simpl.
  apply wp_bind, wp_call. { split_and!; [done..|apply Hnew]. }
  intros [nfd|e] w1 Hw1; simpl in *.
  - destruct Hw1 as (Htne & Htno & ->). simpl in Htno.
    assert (fd <> nfd) as Hft by (intros ->; by rewrite lookup_insert_eq in Htno).
    apply wp_bind, wp_NsClose; simpl; [rewrite lookup_insert_eq; by eexists|].
    rewrite delete_insert_id by done.
    apply wp_bind, (wp_NsSet fd (w_cur w)); simpl; [by rewrite lookup_insert_eq|..].
    + apply wp_ret. split_and!; [done..|by left].
    + intros e. apply wp_ret. split_and!; [done..|by right].
  - destruct Hw1 as [cur ->]. apply wp_ret. split_and!; [done..|by right].
Qed.
End namespaces.

(** C26: RunInNetns runs [fn] with the thread locked and in the namespace [ns], if
    it runs it at all, and gives back the descriptors and the lock that it
    takes, on every path.  The thread is back in its namespace, unless a change of
    namespace failed, and then an error is returned. *)
Theorem RunInNetns_restores (perm : forall X, sys X -> World -> Prop) ns fn w :
  allows_ns perm ->
  (forall fds, let w1 := MkWorld (w_handles w) fds ns (S (w_lock w)) (w_lost w) in
     w_fds w ⊆ fds -> wp (world_spec perm) fn w1 (fun _ w2 => w2 = w1)) ->
  wp (world_spec perm) (RunInNetns ns fn) w (back_from w).
Proof. intros Ha Hf. by apply wp_RunInNetns. Qed.

(** The permission that allows everything. *)
Definition any_perm X (e : sys X) (w : World) : Prop := True.

Lemma RunInNetns_restores_witness :
  let w := MkWorld {[3 := "blue"]} ∅ "" 0 false in
  wp (world_spec any_perm) (RunInNetns "blue" (link_add (MkNetlinkManager 3 "" 0) (Dummy "d0"))) w (back_from w).
Proof.
  intros w. apply (RunInNetns_restores any_perm).
  - intros X e w'. destruct e; exact I.
  - intros fds w1 _. apply wp_call.
    + split; [|split; [|split]]; [|intros fd E; discriminate E|exact I|exact I].
      intros h [= <-]. exists "blue". reflexivity.
    + intros x w2 E. exact E.
Defined.

(** C27: CreateNetns gives back the descriptors and the lock that it takes on every
    path, and when it reports success the thread is back where it was, although
    the creation of a namespace enters it. *)
Theorem CreateNetns_restores name w :
  wp (world_spec (fun _ _ _ => True)) (CreateNetns name) w (fun r w' =>
    w_handles w' = w_handles w /\ w_fds w' = w_fds w /\ w_lock w' = w_lock w /\
    (r = None -> w_cur w' = w_cur w /\ w_lost w' = w_lost w)).
Proof.
  eapply wp_mono; [|by apply wp_CreateNetns; [intros X []|..]].
  intros r w' (H1 & H2 & H3 & [H4|H4]); split_and!; naive_solver.
Qed.
