(* ===== verification/Removals.v ===== *)
(** * The removals (cmd/apply.go)

    What apply undoes before it creates anything: the orphaned SRv6 SIDs and
    neighbour proxies, found by comparing the two states, and the addresses,
    routes, devices and namespaces of a difference.  Every failure is logged and
    skipped. *)

From S2P Require Import Prelude GoStd GoNet Effect State BuildState Netlink World.

(** The manager for the removals of a namespace, which five loops open in the
    same way; [None] is their [continue]. *)
(* go: cmd/apply.go 425-438 applyRemovals *)
Definition removal_manager (ns : string) : prog sys (option NetlinkManager) :=
  if Str.is_empty ns then
    r ← New; Ret (match r with Ok mgr => Some mgr | Err _ => None end)
  else
    ex ← NetnsExists ns;
    if negb ex then Ret None
    else r ← NewWithNetns ns; Ret (match r with Ok mgr => Some mgr | Err _ => None end).

(** The body of such a loop: [body] on the manager, which is then closed. *)
Definition with_manager (ns : string) (body : NetlinkManager -> prog sys unit) : prog sys unit :=
  m ← removal_manager ns;
  match m with
  | None => Ret tt
  | Some mgr => body mgr ;; Close mgr
  end.

(** ** Orphans *)

(** [set[s]] of a map that a loop has built. *)
Definition in_set (set : gmap string bool) (s : string) : bool := default false (set !! s).

(** [newState.Namespaces[ns]], nil when it has no entry. *)
Definition ns_of (s : State) (ns : string) : ptr NsState := default None (gm_get (State_Namespaces s) ns).

(* go: cmd/apply.go 119-135 reapSRv6Orphans *)
Definition srv6_orphans (oldNs newNs : ptr NsState) : list string :=
  match oldNs with
  | None => []
  | Some oldNs =>
      let keep := match newNs with Some newNs => string_set (NsState_SRv6SIDs newNs) | None => ∅ end in
      filter (fun sid => in_set keep sid = false) (NsState_SRv6SIDs oldNs)
  end.

(* go: cmd/apply.go 116-160 reapSRv6Orphans *)
Definition reapSRv6Orphans `{RangeOrder} (oldState newState : State) : prog sys unit :=
  for_each (gm_range 118 (State_Namespaces oldState)) (fun '(ns, oldNs) =>
    match srv6_orphans oldNs (ns_of newState ns) with
    | [] => Ret tt
    | removed =>
        with_manager ns (fun mgr =>
          for_each removed (fun sid => warn! DeleteLocalSID mgr sid; Ret tt))
    end).

Definition nd_key (dev ip : string) : string := dev +:+ "|" +:+ ip.

(** The set [keep] of the proxies of a new namespace. *)
(* go: cmd/apply.go 168-176 reapNDProxyOrphans *)
Definition nd_keep `{RangeOrder} (newNs : ptr NsState) : pan (gmap string bool) :=
  match newNs with
  | None => Some ∅
  | Some newNs =>
      fold_pan (gm_range 171 (NsState_Devices newNs)) ∅ (fun keep '(dev, ds) =>
        ds ← ds;
        Some (fold_left (fun keep ip => <[nd_key dev ip := true]> keep) (DeviceState_NDProxy ds) keep))
  end.

(** The map from devices to the proxies to remove. *)
(* go: cmd/apply.go 177-185 reapNDProxyOrphans *)
Definition nd_removals `{RangeOrder} (keep : gmap string bool) (oldNs : NsState)
    : pan (gmap string (list string)) :=
  fold_pan (gm_range 179 (NsState_Devices oldNs)) ∅ (fun removals '(dev, ds) =>
    ds ← ds;
    Some (fold_left (fun removals ip =>
            if in_set keep (nd_key dev ip) then removals
            else <[dev := default [] (removals !! dev) ++ [ip]]> removals)
          (DeviceState_NDProxy ds) removals)).

(* go: cmd/apply.go 162-214 reapNDProxyOrphans *)
Definition reapNDProxyOrphans `{RangeOrder} (oldState newState : State) : prog sys unit :=
  for_each (gm_range 164 (State_Namespaces oldState)) (fun '(ns, oldNs) =>
    match oldNs with
    | None => Ret tt
    | Some oldNs =>
        keep ← lift (nd_keep (ns_of newState ns));
        removals ← lift (nd_removals keep oldNs);
        if Nat.eqb (size removals) 0 then Ret tt
        else with_manager ns (fun mgr =>
               for_each (range 204 removals) (fun '(dev, ips) =>
                 for_each ips (fun ip => warn! DeleteProxyNDP mgr dev ip; Ret tt)))
    end).

(** ** The removals of a difference *)

(* go: cmd/apply.go 440-451 applyRemovals *)
Definition remove_addresses `{Libs} `{RangeOrder} (mgr : NetlinkManager) (devAddrs : gomap (list string))
    : prog sys unit :=
  for_each (gm_range 440 devAddrs) (fun '(dev, addrs) =>
    ex ← LinkExists mgr dev;
    if negb ex then Ret tt
    else for_each addrs (fun addr => warn! DeleteAddress mgr dev addr; Ret tt)).

(* go: cmd/apply.go 471-480 applyRemovals *)
Definition remove_routes `{RangeOrder} (mgr : NetlinkManager) (devRoutes : gomap (list string))
    : prog sys unit :=
  for_each (gm_range 471 devRoutes) (fun '(dev, routes) =>
    for_each routes (fun route =>
      let '(dst, gw, table) := parseRouteString route in
      warn! DeleteRoute mgr dst gw dev table; Ret tt)).

(* go: cmd/apply.go 501-509 applyRemovals *)
Definition remove_devices (mgr : NetlinkManager) (devs : list string) : prog sys unit :=
  for_each devs (fun dev =>
    ex ← LinkExists mgr dev;
    if negb ex then Ret tt else warn! DeleteLink mgr dev; Ret tt).

(* go: cmd/apply.go 513-524 applyRemovals *)
Definition remove_ns (ns : string) : prog sys unit :=
  if Str.is_empty ns then Ret tt
  else
    ex ← NetnsExists ns;
    if (ex : bool) then warn! DeleteNetns ns; Ret tt else Ret tt.

(** applyRemovals always returns nil. *)
(* go: cmd/apply.go 421-527 applyRemovals *)
Definition applyRemovals `{Libs} `{RangeOrder} (diff : Diff) : prog sys unit :=
  for_each (gm_range 424 (Diff_AddressesToRemove diff)) (fun '(ns, devAddrs) =>
    with_manager ns (fun mgr => remove_addresses mgr devAddrs)) ;;
  for_each (gm_range 455 (Diff_RoutesToRemove diff)) (fun '(ns, devRoutes) =>
    with_manager ns (fun mgr => remove_routes mgr devRoutes)) ;;
  for_each (gm_range 485 (Diff_DevicesToRemove diff)) (fun '(ns, devs) =>
    with_manager ns (fun mgr => remove_devices mgr devs)) ;;
  for_each (Diff_NsToRemove diff) remove_ns.

(** ** Handles and namespaces of the removals *)

Section wp.
Context (perm : forall X, sys X -> World -> Prop) (Hallow : allows perm).

(** A loop opens a manager on its namespace and closes it. *)
Lemma wp_with_manager ns body w (Q : unit -> World -> Prop) :
  w_cur w = "" ->
  (forall m w', handle_at w' (mgr_handle m) ns -> wp (world_spec perm) (body m) w' (fun _ w'' => w'' = w')) ->
  (forall w', same_but_fds w w' -> Q tt w') ->
  wp (world_spec perm) (with_manager ns body) w Q.
Proof.
  intros Hcur Hbody HQ. unfold with_manager, removal_manager.
  destruct (str_eqb_spec ns "") as [->|Hns]; simpl.
  - apply wp_bind, wp_bind, (wp_New perm Hallow); [|intros e; by apply HQ].
    intros h Hh. simpl. rewrite Hcur. apply wp_bind. eapply wp_mono; [|apply Hbody; apply lookup_insert_eq].
    intros [] w' ->. apply (wp_Close perm Hallow _ "").
    + split; [apply lookup_insert_eq|done].
    + simpl. rewrite delete_insert_id by done. rewrite <-Hcur. by destruct w; apply HQ.
  - assert (Str.is_empty ns = false) as -> by by destruct ns.
    apply wp_bind, wp_bind, (wp_NetnsExists perm Hallow); [done|].
    intros b w1 Hw1. destruct b; simpl; [|by apply HQ]. apply wp_bind, (wp_NewWithNetns perm Hallow); [|intros e; by apply HQ].
    intros h fd Hh Hne Hfd. simpl. apply wp_bind. eapply wp_mono; [|apply Hbody; apply lookup_insert_eq].
    intros [] w' ->. apply (wp_Close perm Hallow _ ns).
    + split; [apply lookup_insert_eq|]. intros _. simpl. rewrite lookup_insert_eq. by eexists.
    + simpl. rewrite (proj2 (Z.eqb_neq fd 0)) by done. rewrite !delete_insert_id by done.
      by destruct w1; apply HQ.
Qed.

(** A loop over namespaces that all leave the world as it is, up to descriptors. *)
Lemma wp_for_same {A} (l : list A) body w (Q : unit -> World -> Prop) :
  (forall a w', a ∈ l -> same_but_fds w w' ->
     wp (world_spec perm) (body a) w' (fun _ w'' => same_but_fds w w'')) ->
  (forall w', same_but_fds w w' -> Q tt w') ->
  wp (world_spec perm) (for_each l body) w Q.
Proof.
  intros Hb HQ. eapply wp_mono; [|apply (wp_for_each _ l body w (same_but_fds w))].
  - intros [] w'. apply HQ.
  - done.
  - intros a w' Ha Hw'. by apply Hb.
Qed.

(** A loop whose body leaves the world exactly as it is. *)
Lemma wp_for_eq {A} (l : list A) body w :
  (forall a, a ∈ l -> wp (world_spec perm) (body a) w (fun _ w' => w' = w)) ->
  wp (world_spec perm) (for_each l body) w (fun _ w' => w' = w).
Proof. intros Hb. apply wp_for_each; [done|]. by intros a w' Ha ->; apply Hb. Qed.

Lemma wp_warn {A} (p : prog sys err) (q : prog sys A) w Q :
  wp (world_spec perm) p w (fun _ w' => w' = w) -> wp (world_spec perm) q w Q ->
  wp (world_spec perm) (p ≫= fun _ => q) w Q.
Proof. intros Hp Hq. apply wp_bind. eapply wp_mono; [|exact Hp]. by intros _ w' ->. Qed.
End wp.

(** *** What applyRemovals may do *)

(** The route that is to be deleted for the text of a route of the state. *)
Definition route_request (route : string) (r : NlRoute) : Prop :=
  let '(dst, gw, table) := parseRouteString route in
  route_dst dst = Ok (NlRoute_Dst r) /\ NlRoute_Gw r = ip_field gw None /\
  NlRoute_Table r = pos_field table 0.

(** The permission of applyRemovals: to look at links, to open and close
    handles, and to delete what the difference lists, in its namespace. *)
Definition removal_perm `{Libs} (diff : Diff) X (e : sys X) (w : World) : Prop :=
  match e with
  | NewHandle | NewHandleAt _ | HandleClose _ | NsGetFromName _ | NsClose _ | LinkByName (Some _) _ => True
  | AddrDel h l a => exists ns cidr, handle_at w h ns /\
      cidr ∈ listed2 (Diff_AddressesToRemove diff) ns (Link_Name l) /\ ParseAddr cidr = Ok a
  | RouteDel h r => exists ns dev route, handle_at w h ns /\
      route ∈ listed2 (Diff_RoutesToRemove diff) ns dev /\ route_request route r
  | LinkDel h l => exists ns, handle_at w h ns /\ Link_Name l ∈ listed (Diff_DevicesToRemove diff) ns
  | NsDeleteNamed ns => ns ∈ Diff_NsToRemove diff /\ ns <> ""
  | _ => False
  end.

Section applyRemovals.
Context `{Libs} `{RangeOrder} (diff : Diff).

Lemma removal_allows : allows (removal_perm diff).
Proof. intros X e w. destruct e; try done. by destruct h. Qed.

#[local] Abbreviation sp := (world_spec (removal_perm diff)).
#[local] Abbreviation keeps p w := (wp sp p w (fun _ w' => w' = w)).

Lemma wp_DeleteAddress m ns dev cidr w :
  handle_at w (mgr_handle m) ns -> cidr ∈ listed2 (Diff_AddressesToRemove diff) ns dev ->
  keeps (DeleteAddress m dev cidr) w.
Proof.
  intros Hm Hin. apply (wp_on_link _ removal_allows m dev _ ns); [done| |done].
  intros l Hl. destruct (ParseAddr cidr) as [a|e] eqn:Ha; [|done]. apply wp_plain; [|by intros x w'|done].
  split_and!; [intros ? [= <-]; by eexists|done|done|]. exists ns, cidr. by rewrite Hl.
Qed.

Lemma wp_DeleteRoute m ns dev route dst gw table w :
  handle_at w (mgr_handle m) ns -> route ∈ listed2 (Diff_RoutesToRemove diff) ns dev ->
  parseRouteString route = (dst, gw, table) ->
  keeps (DeleteRoute m dst gw dev table) w.
Proof.
  intros Hm Hin Hr. unfold DeleteRoute. apply wp_bind, wp_ret.
  destruct (route_dst dst) as [net|e] eqn:Hd; [|done]. apply wp_bind.
  eapply (wp_mono _ _ _ (fun _ w' => w' = w)).
  - intros [index|e] w' ->; [|done]. apply wp_plain; [|by intros x w'|done].
    split_and!; [intros ? [= <-]; by eexists|done|done|]. exists ns, dev, route. split_and!; [done..|].
    unfold route_request. by rewrite Hr.
  - destruct (Str.is_empty dev); [done|].
    by apply wp_bind, (wp_link_by_name _ removal_allows m dev ns).
Qed.

Lemma wp_DeleteLink m ns dev w :
  handle_at w (mgr_handle m) ns -> dev ∈ listed (Diff_DevicesToRemove diff) ns ->
  keeps (DeleteLink m dev) w.
Proof.
  intros Hm Hin. apply (wp_on_link _ removal_allows m dev _ ns); [done| |done].
  intros l Hl. apply wp_plain; [|by intros x w'|done].
  split_and!; [intros ? [= <-]; by eexists|done|done|]. exists ns. by rewrite Hl.
Qed.

(** Every run of applyRemovals from the default namespace deletes only what the
    difference lists, and closes the handles that it opens. *)
Lemma wp_applyRemovals w :
  w_cur w = "" -> wp sp (applyRemovals diff) w (fun _ w' => same_but_fds w w').
Proof.
  intros Hcur. unfold applyRemovals.
  assert (forall w', same_but_fds w w' -> w_cur w' = "") as Hc by (intros w' (_ & _ & -> & _); done).
  apply wp_bind, wp_for_same.
  { intros [ns devAddrs] w1 Hns%elem_of_range Hw1.
    apply (wp_with_manager _ removal_allows); [by apply Hc| |by intros w2 Hw2; etrans].
    intros m w2 Hm. apply wp_for_eq. intros [dev addrs] Hdev%elem_of_range.
    apply wp_bind, (wp_LinkExists _ removal_allows _ _ ns); [done|]. intros [|]; simpl; [|done].
    apply wp_for_eq. intros cidr Hcidr. apply wp_warn; [|done]. apply (wp_DeleteAddress m ns); [done|].
    unfold listed2, nested_get, gm_get. by rewrite Hns, Hdev. }
  intros w1 Hw1. apply wp_bind, wp_for_same.
  { intros [ns devRoutes] w2 Hns%elem_of_range Hw2.
    apply (wp_with_manager _ removal_allows); [apply Hc; by etrans| |by intros w3 Hw3; etrans].
    intros m w3 Hm. apply wp_for_eq. intros [dev routes] Hdev%elem_of_range.
    apply wp_for_eq. intros route Hroute. destruct (parseRouteString route) as [[dst gw] table] eqn:Hr.
    apply wp_warn; [|done]. apply (wp_DeleteRoute m ns dev route); [done| |done].
    unfold listed2, nested_get, gm_get. by rewrite Hns, Hdev. }
  intros w2 Hw2. apply wp_bind, wp_for_same.
  { intros [ns devs] w3 Hns%elem_of_range Hw3.
    apply (wp_with_manager _ removal_allows); [apply Hc; by do 2 etrans| |by intros w4 Hw4; etrans].
    intros m w4 Hm. apply wp_for_eq. intros dev Hdev.
    apply wp_bind, (wp_LinkExists _ removal_allows _ _ ns); [done|]. intros [|]; simpl; [|done].
    apply wp_warn; [|done]. apply (wp_DeleteLink m ns); [done|].
    unfold listed, gm_get. by rewrite Hns. }
  intros w3 Hw3. apply wp_for_same; [|by intros w4 Hw4; do 3 (etrans; [eassumption|])].
  intros ns w4 Hns Hw4. unfold remove_ns. destruct (Str.is_empty ns) eqn:He; [done|].
  apply wp_bind, (wp_NetnsExists _ removal_allows); [by intros ->|]. intros [|] w5 Hw5; [|apply wp_ret; by etrans].
  apply wp_bind, wp_plain; [|by intros x w'|intros; apply wp_ret; by etrans].
  split_and!; [done..|]. split; [done|]. intros ->. done.
Qed.
End applyRemovals.

(** C25: from a thread in the default namespace, and whatever the kernel answers,
    applyRemovals deletes only what the difference lists: addresses of a device,
    routes of a device as their text says, devices, each through a handle that
    leads to the namespace they are listed for, and named namespaces, the default
    one excepted.  It makes no other change, uses only handles that are open,
    and leaves open no handle that it opened; only the descriptors of NetnsExists
    stay. *)
Theorem applyRemovals_safe `{Libs} `{RangeOrder} (diff : Diff) handles fds lock lost :
  let w := MkWorld handles fds "" lock lost in
  wp (world_spec (removal_perm diff)) (applyRemovals diff) w (fun _ w' => same_but_fds w w').
Proof. by apply wp_applyRemovals. Qed.
