(* ===== verification/Orphans.v ===== *)
(** * Orphaned SIDs and neighbour proxies (cmd/apply.go)

    reapSRv6Orphans and reapNDProxyOrphans delete only what the old state has and
    the new one has not. *)

From S2P Require Import Prelude GoStd GoNet Effect State BuildState Netlink World Removals.

(** ** The sets *)

Lemma in_set_string_set l s : in_set (string_set l) s = bool_decide (s ∈ l).
Proof. unfold in_set. rewrite string_set_lookup. case_decide; [by rewrite bool_decide_true|by rewrite bool_decide_false]. Qed.

Lemma in_set_insert set k s : in_set set s = true -> in_set (<[k := true]> set) s = true.
Proof. unfold in_set. rewrite lookup_insert. by case_decide. Qed.

Lemma srv6_orphans_spec oldNs newNs sid :
  sid ∈ srv6_orphans oldNs newNs <->
  exists o, oldNs = Some o /\ sid ∈ NsState_SRv6SIDs o /\
    forall n, newNs = Some n -> sid ∉ NsState_SRv6SIDs n.
Proof.
  unfold srv6_orphans. destruct oldNs as [o|]; [|split; [by intros ?%not_elem_of_nil|naive_solver]].
  rewrite list_elem_of_filter. destruct newNs as [n|].
  - rewrite in_set_string_set, bool_decide_eq_false. naive_solver.
  - unfold in_set. rewrite lookup_empty. naive_solver.
Qed.

Section nd.
Context `{RangeOrder}.

(** Every proxy of the new state is kept. *)
Lemma nd_keep_spec n keep dev ds ip :
  nd_keep (Some n) = Some keep -> gm_get (NsState_Devices n) dev = Some (Some ds) ->
  ip ∈ DeviceState_NDProxy ds -> in_set keep (nd_key dev ip) = true.
Proof.
  intros Hk Hdev%(elem_of_range 171) Hip.
  assert (forall d l keep k, in_set keep k = true ->
    in_set (fold_left (fun keep ip => <[nd_key d ip := true]> keep) l keep) k = true) as Hkeeps.
  { intros d l keep0 k Hk0. apply (fold_left_inv _ (fun m => in_set m k = true)); [done|].
    intros m x _. by apply in_set_insert. }
  apply (fold_pan_reach (fun keep => in_set keep (nd_key dev ip) = true) _ _ _ _ _ Hk Hdev).
  - intros s1 s2 [= <-]. clear -Hip Hkeeps. revert s1.
    induction (DeviceState_NDProxy ds) as [|x l IH]; [by apply not_elem_of_nil in Hip|]. intros s1. simpl.
    apply elem_of_cons in Hip as [->|Hip]; [|by apply IH]. apply Hkeeps. unfold in_set.
    by rewrite lookup_insert_eq.
  - intros [d x] s1 s2 _. destruct x as [x|]; [|done]. intros [= <-]. apply Hkeeps.
Qed.

(** What is removed was proxied, and is not kept. *)
Lemma nd_removals_spec keep o removals dev ips ip :
  nd_removals keep o = Some removals -> removals !! dev = Some ips -> ip ∈ ips ->
  in_set keep (nd_key dev ip) = false /\
  exists ds, gm_get (NsState_Devices o) dev = Some (Some ds) /\ ip ∈ DeviceState_NDProxy ds.
Proof.
  intros Hr. revert dev ips ip. pattern removals. eapply fold_pan_inv; [exact Hr|by intros ???; rewrite lookup_empty|].
  intros [d x] s1 s2 Hd%elem_of_range Hbody Hs1. destruct x as [x|]; [|done].
  apply (inj Some) in Hbody as <-.
  apply (fold_left_inv _ (fun m => forall dev ips ip, m !! dev = Some ips -> ip ∈ ips ->
    in_set keep (nd_key dev ip) = false /\
    exists ds, gm_get (NsState_Devices o) dev = Some (Some ds) /\ ip ∈ DeviceState_NDProxy ds)); [done|].
  intros m y Hy IH dev ips ip. destruct (in_set keep (nd_key d y)) eqn:E; [apply IH|].
  destruct (decide (d = dev)) as [->|Hne]; [|rewrite lookup_insert_ne by done; apply IH].
  rewrite lookup_insert_eq. intros [= <-]. rewrite elem_of_app, list_elem_of_singleton. intros [Hin| ->].
  - destruct (m !! dev) as [l|] eqn:El; simpl in Hin; [by apply (IH dev l)|by apply not_elem_of_nil in Hin].
  - split; [done|]. by exists x.
Qed.
End nd.

(** ** What the two functions may do *)

(** The permission: to look at links, to open and close handles, and to delete
    SIDs and proxies that the old state has in that namespace and the new one has
    not. *)
Definition orphan_perm (oldState newState : State) X (e : sys X) (w : World) : Prop :=
  match e with
  | NewHandle | NewHandleAt _ | HandleClose _ | NsGetFromName _ | NsClose _ | LinkByName (Some _) _ => True
  | RouteDel h r => exists ns o sid dst, handle_at w h ns /\
      gm_get (State_Namespaces oldState) ns = Some (Some o) /\ sid ∈ NsState_SRv6SIDs o /\
      (forall n, ns_of newState ns = Some n -> sid ∉ NsState_SRv6SIDs n) /\
      sidToIPNet sid = Ok dst /\ r = NlRoute_zero <| NlRoute_Dst := Some dst |>
  | NeighDel h n => exists ns o dev ds ip, handle_at w h ns /\
      gm_get (State_Namespaces oldState) ns = Some (Some o) /\
      gm_get (NsState_Devices o) dev = Some (Some ds) /\ ip ∈ DeviceState_NDProxy ds /\
      (forall n ds', ns_of newState ns = Some n -> gm_get (NsState_Devices n) dev = Some (Some ds') ->
         ip ∉ DeviceState_NDProxy ds') /\
      Neigh_Flags n = Some NTF_PROXY /\ Neigh_IP n = Net.ParseIP ip
  | _ => False
  end.

Section reap.
Context `{RangeOrder} (oldState newState : State).
#[local] Abbreviation sp := (world_spec (orphan_perm oldState newState)).
#[local] Abbreviation keeps p w := (wp sp p w (fun _ w' => w' = w)).

Lemma orphan_allows : allows (orphan_perm oldState newState).
Proof. intros X e w. destruct e; try done. by destruct h. Qed.

Lemma wp_DeleteLocalSID m ns o sid w :
  handle_at w (mgr_handle m) ns -> gm_get (State_Namespaces oldState) ns = Some (Some o) ->
  sid ∈ srv6_orphans (Some o) (ns_of newState ns) -> keeps (DeleteLocalSID m sid) w.
Proof.
  intros Hm Ho (o' & [= <-] & Hin & Hno)%srv6_orphans_spec. apply wp_bind, wp_ret.
  destruct (sidToIPNet sid) as [dst|e] eqn:Hd; [|done]. apply wp_plain; [|by intros x w'|done].
  split_and!; [intros ? [= <-]; by eexists|done|done|]. by exists ns, o, sid, dst.
Qed.

Lemma wp_DeleteProxyNDP m ns o keep removals dev ips ip w :
  handle_at w (mgr_handle m) ns -> gm_get (State_Namespaces oldState) ns = Some (Some o) ->
  nd_keep (ns_of newState ns) = Some keep -> nd_removals keep o = Some removals ->
  removals !! dev = Some ips -> ip ∈ ips -> keeps (DeleteProxyNDP m dev ip) w.
Proof.
  intros Hm Ho Hk Hr Hips Hip. destruct (nd_removals_spec _ _ _ _ _ _ Hr Hips Hip) as (Hno & ds & Hds & Hin).
  apply wp_bind, wp_bind, (wp_link_by_name _ orphan_allows m dev ns); [done| |].
  - intros l Hl. apply wp_ret. destruct (Net.ParseIP ip) as [a|] eqn:Ha.
    + destruct (Net.To4 a) eqn:H4.
      * apply wp_bind, (wp_link_by_name _ orphan_allows m dev ns); [done|by intros; apply wp_ret..].
      * apply wp_plain; [|by intros x w'|done]. split_and!; [intros ? [= <-]; by eexists|done|done|].
        exists ns, o, dev, ds, ip. split_and!; [done..| |done|by rewrite Ha]. intros n ds' Hn Hd' Hin'.
        rewrite Hn in Hk. by rewrite (nd_keep_spec n keep dev ds' ip) in Hno.
    + apply wp_bind, (wp_link_by_name _ orphan_allows m dev ns); [done|by intros; apply wp_ret..].
  - intros e. apply wp_ret, wp_bind, (wp_link_by_name _ orphan_allows m dev ns); [done|by intros; apply wp_ret..].
Qed.

Lemma wp_reapSRv6Orphans w :
  w_cur w = "" -> wp sp (reapSRv6Orphans oldState newState) w (fun _ w' => same_but_fds w w').
Proof.
  intros Hcur. apply wp_for_same; [|done]. intros [ns o] w1 Hns%elem_of_range Hw1.
  assert (w_cur w1 = "") as Hc by by destruct Hw1 as (_ & _ & -> & _).
  destruct (srv6_orphans o (ns_of newState ns)) as [|sid0 removed] eqn:E; [done|].
  apply (wp_with_manager _ orphan_allows); [done| |by intros w2 Hw2; etrans]. intros m w2 Hm.
  apply wp_for_eq. intros sid Hsid. apply wp_warn; [|done]. rewrite <-E in Hsid.
  pose proof Hsid as (o' & -> & _)%srv6_orphans_spec. by apply (wp_DeleteLocalSID m ns o').
Qed.

Lemma wp_reapNDProxyOrphans w :
  w_cur w = "" -> wp sp (reapNDProxyOrphans oldState newState) w (fun _ w' => same_but_fds w w').
Proof.
  intros Hcur. apply wp_for_same; [|done]. intros [ns o] w1 Hns%elem_of_range Hw1.
  assert (w_cur w1 = "") as Hc by by destruct Hw1 as (_ & _ & -> & _).
  destruct o as [o|]; [|done].
  apply wp_bind, wp_lift; [|done]. intros keep Hk. apply wp_bind, wp_lift; [|done]. intros removals Hr.
  destruct (Nat.eqb _ 0); [done|].
  apply (wp_with_manager _ orphan_allows); [done| |by intros w2 Hw2; etrans]. intros m w2 Hm.
  apply wp_for_eq. intros [dev ips] Hips%elem_of_range. apply wp_for_eq. intros ip Hip.
  apply wp_warn; [|done]. by apply (wp_DeleteProxyNDP m ns o keep removals dev ips).
Qed.
End reap.
