(* ===== verification/Safety.v ===== *)
(** * Where apply acts

    Which calls the configuration of a namespace performs, through which handles
    and with the thread in which namespace, over the worlds of World. *)

From S2P Require Import Prelude GoStd GoNet Effect Config Load Netlink Host Setup Plain World.

(** The links that are created in the default namespace and then moved. *)
Definition moved (l : NewLink) : Prop :=
  match l with Macvlan _ _ _ | Macvtap _ _ _ | IPVlan _ _ _ | Veth _ _ => True | _ => False end.

(** The permission of the configuration of [nsName], where [conf] are the
    namespaces that are configured on the way, itself and those of the peers of
    its veth pairs, and [vpp] says whether VPP is configured: nothing of the kernel
    is deleted; devices, addresses, routes, neighbours and rules are set in [conf]
    only, except that links which need a parent, or have a peer, are created in
    the default namespace; links are moved out of the default namespace only, and
    into [conf]; only namespaces of [conf] are created; WireGuard is configured with
    the thread in [nsName]; and everything that concerns the host is done with the
    thread in the default namespace: files that are [written], programs, signals
    to the supplicants, the goroutines of DHCP and, with [vpp], the messages to
    VPP.  Of the rest, it may open, close, lock, change the namespace of the thread,
    and read; no other call is allowed.  Where a call leads is not claimed once the
    thread is lost. *)
Definition setup_perm (nsName : string) (conf : string -> Prop) (vpp : Prop) X (e : sys X) (w : World) : Prop :=
  match e with
  | LinkDel _ _ | AddrDel _ _ _ | RouteDel _ _ | NeighDel _ _ | RuleDel _ _ | NsDeleteNamed _ => False
  | LinkSetUp h _ | LinkSetDown h _ | LinkSetMTU h _ _ | LinkSetHardwareAddr h _ _ | LinkSetName h _ _
  | LinkSetMaster h _ _ | LinkSetAllmulticast h _ _ | LinkSetAlias h _ _ | AddrAdd h _ _ | RouteAdd h _
  | RouteReplace h _ | NeighAdd h _ | NeighSet h _ | RuleAdd h _ =>
      exists n, handle_at w h n /\ (conf n \/ w_lost w = true)
  | LinkAdd h l => exists n, handle_at w h n /\ (conf n \/ n = "" /\ moved l \/ w_lost w = true)
  | LinkSetNsFd h _ fd =>
      (exists n, handle_at w h n /\ (n = "" \/ w_lost w = true)) /\
      exists n, w_fds w !! fd = Some n /\ conf n
  | DevLinkSetEswitchMode h _ _ => exists n, handle_at w h n /\ (n = "" \/ w_lost w = true)
  | NsNewNamed n => conf n
  | WgConfigureDevice _ _ _ => w_cur w = nsName \/ w_lost w = true
  | LinkByName None _ | LinkSetIPv6Token _ _ | EthtoolSetFeatures _ _ _ | EthtoolWakeOnLan _ _
  | Exec _ | Kill _ => w_cur w = "" \/ w_lost w = true
  | WriteFile path _ | RemoveFile path => written path = true /\ (w_cur w = "" \/ w_lost w = true)
  | MkdirAll path => written path = true
  | Go t => dhcp_task t = true /\ (w_cur w = "" \/ w_lost w = true)
  | VppConnect _ | VppNewAPIChannel _ | VppCheckCompatibility _ | VppCloseChannel _ | VppDisconnect _
  | Vpp _ _ => vpp /\ (w_cur w = "" \/ w_lost w = true)
  | NewHandle | NewHandleAt _ | HandleClose _ | LockOSThread | UnlockOSThread | NsGet | NsGetFromName _
  | NsSet _ | NsClose _ | LinkByName (Some _) _ | LinkList _ | AddrList _ _ _ | DevLinkGetDeviceByName _ _ _
  | EthtoolNew | EthtoolClose _ | EthtoolGetFeatures _ _ | WgNew | WgClose _ | ReadFile _ | StatFile _
  | Readlink _ | Getenv _ | TimeNow | Hostname | LookPath _ => True
  | _ => False
  end.

(** *** Plain calls *)

Lemma plain_handle h h' X (e : sys X) : plain h X e -> handle_of e = Some h' -> h' = h.
Proof. destruct e; simpl; try done; [|naive_solver..]. destruct h0; naive_solver. Qed.

Lemma plain_fd h X (e : sys X) : plain h X e -> fd_of e = None.
Proof. by destruct e. Qed.

Lemma plain_world h X (e : sys X) w x w' : plain h X e -> world_post X e w x w' -> w' = w.
Proof. destruct e; simpl; try done. by intros _ []. Qed.

Lemma plain_perm nsName conf vpp h n X (e : sys X) w :
  plain h X e -> handle_at w h n -> conf n \/ w_lost w = true -> w_cur w = "" \/ w_lost w = true ->
  setup_perm nsName conf vpp X e w.
Proof.
  intros He Hh Hn Hc. destruct e; simpl in He |- *; try done; try (destruct h0; done);
    subst; exists n; tauto.
Qed.

Section safe.
Context (nsName : string) (conf : string -> Prop) (vpp : Prop) (leak : string -> Prop).
#[local] Abbreviation sp := (world_spec (setup_perm nsName conf vpp)).

Lemma setup_allows : allows (setup_perm nsName conf vpp).
Proof. intros X e w. destruct e; try done. by destruct h. Qed.

Lemma setup_allows_ns : allows_ns (setup_perm nsName conf vpp).
Proof. intros X e w. by destruct e. Qed.

(** The open handles are exactly [H], the open descriptors are [F] and what
    NetnsExists has left of namespaces of [leak], the lock is taken [l] times, and the thread is in the default namespace or lost; with
    [b], it is lost. *)
Definition world_inv (H : gmap handle string) (F : gmap nsfd string) (l : nat) (b : bool) (w : World) : Prop :=
  w_handles w = H /\ leaves leak F (w_fds w) /\ w_lock w = l /\ (b = true -> w_lost w = true) /\
  (w_lost w = false -> w_cur w = "").

(** The program keeps such a world. *)
Definition safe H F l b {A} (p : prog sys A) : Prop :=
  forall w, world_inv H F l b w -> wp sp p w (fun _ w' => world_inv H F l b w').

Section rules.
Context (H : gmap handle string) (F : gmap nsfd string) (l : nat) (b : bool).
#[local] Abbreviation safe' := (safe H F l b).

Lemma safe_ret {A} (a : A) : safe' (Ret a).
Proof. by intros w Hw. Qed.

Lemma safe_crash {A} : safe' (@Crash sys A).
Proof. by intros w Hw. Qed.

Lemma safe_lift {A} (o : option A) : safe' (lift o).
Proof. destruct o; [apply safe_ret|apply safe_crash]. Qed.

Lemma safe_bind {A B} (p : prog sys A) (f : A -> prog sys B) :
  safe' p -> (forall a, safe' (f a)) -> safe' (p ≫= f).
Proof.
  intros Hp Hf w Hw. apply wp_bind. eapply wp_mono; [|by apply Hp]. intros a w' Hw'. by apply Hf.
Qed.

Lemma safe_deferred {A} (p : prog sys A) d : safe' p -> safe' d -> safe' (deferred p d).
Proof. intros Hp Hd. apply safe_bind; [done|]. intros a. by apply safe_bind; [|intros; apply safe_ret]. Qed.

Lemma safe_for_each {A} (xs : list A) body : (forall a, a ∈ xs -> safe' (body a)) -> safe' (for_each xs body).
Proof. intros Hb w Hw. apply wp_for_each; [done|]. intros a w' Ha Hw'. by apply Hb. Qed.

Lemma safe_for_err {A} (xs : list A) body : (forall a, a ∈ xs -> safe' (body a)) -> safe' (for_err xs body).
Proof. intros Hb w Hw. apply wp_for_err; [done|]. intros a w' Ha Hw'. by apply Hb. Qed.

(** A program of plain calls through a handle of a namespace of [conf]. *)
Lemma safe_plain {A} h n (p : prog sys A) :
  H !! h = Some n -> conf n \/ b = true -> all_calls (plain h) p -> safe' p.
Proof.
  intros Hh Hn Hp w Hw. apply (wp_all_calls _ (plain h) (world_inv H F l b)); [done| | |done|done].
  - intros X e w1 He (H1 & H2 & H3 & H4 & H5).
    assert (handle_at w1 h n) as Hat by (unfold handle_at; by rewrite H1).
    split_and!.
    + intros h' Hh'. rewrite (plain_handle h h' X e He Hh'). by eexists.
    + intros fd Hfd. by rewrite (plain_fd h X e He) in Hfd.
    + by destruct e.
    + apply (plain_perm nsName conf vpp h n); [done|done|naive_solver|]. destruct (w_lost w1); auto.
  - intros X e w1 x w2 He Hw1 Hx. by rewrite (plain_world h X e w1 x w2 He Hx).
Qed.

Lemma safe_LinkExists m n name : H !! mgr_handle m = Some n -> safe' (LinkExists m name).
Proof.
  intros Hm w Hw. apply (wp_LinkExists _ setup_allows _ _ n); [|done].
  destruct Hw as [Hh _]. unfold handle_at. by rewrite Hh.
Qed.

(** A link leaves the default namespace for one of [conf]. *)
Lemma safe_move_to m n name ns :
  H !! mgr_handle m = Some n -> n = "" \/ b = true -> conf ns -> safe' (move_to m name ns).
Proof.
  intros Hm Hn Hns. apply safe_bind; [|by intros [e|]; apply safe_ret]. intros w Hw.
  assert (handle_at w (mgr_handle m) n) as Hat by (destruct Hw as [Hh _]; unfold handle_at; by rewrite Hh).
  apply (wp_on_link _ setup_allows m name _ n); [done| |done]. intros link _.
  apply wp_bind, wp_call. { split_and!; [done..|exact I]. }
  intros [fd|e] w1 Hw1; simpl in *; [|by subst w1]. destruct Hw1 as (Hne & Hno & ->).
  apply wp_deferred, wp_call; simpl.
  - split_and!; [intros ? [= <-]; by eexists| |done|].
    + intros ? [= <-]. simpl. rewrite lookup_insert_eq. by eexists.
    + split; [|exists ns; simpl; by rewrite lookup_insert_eq]. exists n. split; [done|].
      destruct Hw as (_ & _ & _ & Hb & _). naive_solver.
  - intros r w2 ->. apply (wp_NsClose _ setup_allows_ns); simpl; [rewrite lookup_insert_eq; by eexists|].
    rewrite delete_insert_id by done. by destruct w.
Qed.

Lemma safe_NetnsExists ns : leak ns -> safe' (NetnsExists ns).
Proof.
  intros Hns w (H1 & H2 & H3 & H4 & H5). apply (wp_NetnsExists_leak _ setup_allows).
  intros r fds Hf. split_and!; simpl; [done| |done..]. etrans; [done|].
  eapply leaves_mono; [|exact Hf]. by intros n ->.
Qed.

Lemma safe_CreateNetns ns : conf ns -> safe' (CreateNetns ns).
Proof.
  intros Hns w (H1 & H2 & H3 & H4 & H5). eapply wp_mono; [|by apply (wp_CreateNetns _ setup_allows_ns)].
  intros r w' (A1 & A2 & A3 & A4). split_and!; [congruence|by rewrite A2|congruence|naive_solver|].
  intros Hl. destruct A4 as [[-> Hw']|[_ Hw']]; [|congruence]. apply H5. congruence.
Qed.
End rules.

(** A manager of the namespace where the thread is: the default one, unless it is
    lost. *)
Lemma safe_New (H : gmap handle string) F l b (w : World) (Q : res NetlinkManager -> World -> Prop) :
  world_inv H F l b w ->
  (forall h n w', H !! h = None -> (n = "" \/ w_lost w = true) ->
     world_inv (<[h := n]> H) F l (w_lost w) w' -> Q (Ok (MkNetlinkManager h "" 0)) w') ->
  (forall e, Q (Err e) w) ->
  wp sp New w Q.
Proof.
  intros (H1 & H2 & H3 & H4 & H5) Hok Herr. apply (wp_New _ setup_allows); [|done].
  intros h Hh. apply (Hok h (w_cur w)); [by rewrite <-H1| |].
  - destruct (w_lost w); auto.
  - split_and!; simpl; [by rewrite H1|done..].
Qed.

Lemma inv_weaken H F l b b' w : (b = true -> b' = true) -> world_inv H F l b' w -> world_inv H F l b w.
Proof. intros Hb (H1 & H2 & H3 & H4 & H5). split_and!; naive_solver. Qed.

Lemma safe_closing {A} H F l b h n (p : prog sys A) w :
  H !! h = None ->
  safe (<[h := n]> H) F l b p -> world_inv (<[h := n]> H) F l b w ->
  wp sp (deferred p (Close (MkNetlinkManager h "" 0))) w (fun _ w' => world_inv H F l b w').
Proof.
  intros Hh Hp Hw. apply wp_deferred. eapply wp_mono; [|by apply Hp].
  intros a w' (H1 & H2 & H3 & H4 & H5). apply (wp_Close _ setup_allows _ n).
  - split; [|done]. unfold handle_at. simpl. by rewrite H1, lookup_insert_eq.
  - split_and!; simpl; [by rewrite H1, delete_insert_id|done..].
Qed.

(** What is done with a manager of the default namespace. *)
Lemma safe_with_default H F l b f :
  (forall h n b', H !! h = None -> (n = "" \/ b' = true) -> (b = true -> b' = true) ->
     safe (<[h := n]> H) F l b' (f (MkNetlinkManager h "" 0))) ->
  safe H F l b (with_default f).
Proof.
  intros Hf w Hw. apply wp_bind, (safe_New H F l b); [done| |by intros e; apply wp_ret].
  intros h n w' Hh Hn Hw'. assert (b = true -> w_lost w = true) as Hb by by destruct Hw as (_ & _ & _ & Hb & _).
  eapply wp_mono; [|apply (safe_closing H F l (w_lost w) h n); [done|by apply Hf|done]].
  intros a w2. by apply inv_weaken.
Qed.

(** ** The functions of apply that use other managers *)

Section setup.
Context `{Libs} `{RangeOrder}.
Context (Hconf : conf nsName).

#[local] Abbreviation safe_in m p :=
  (forall Hs F l b, Hs !! mgr_handle m = Some nsName -> safe Hs F l b p) (only parsing).

Lemma safe_in_plain {A} m (p : prog sys A) : all_calls (plain (mgr_handle m)) p -> safe_in m p.
Proof. intros Hp Hs F l b Hm. apply (safe_plain Hs F l b (mgr_handle m) nsName); [done|by left|done]. Qed.

(** The namespace of the thread, by default, is not restricted for devlink. *)
Lemma safe_setEswitchMode Hs F l b pf mode : safe Hs F l b (setEswitchMode pf mode).
Proof.
  apply safe_bind.
  { intros w Hw. apply wp_call; [by split_and!|]. by intros r w' ->. }
  intros [target|e]; [|apply safe_ret]. intros w Hw. apply wp_bind, (safe_New Hs F l b); [done| |done].
  intros h n w' Hh Hn Hw'.
  eapply wp_mono; [|apply (safe_closing Hs F l (w_lost w) h n); [done| |done]].
  { intros a w2. apply inv_weaken. by destruct Hw as (_ & _ & _ & Hb & _). }
  apply safe_bind; [|intros r; apply safe_ret]. intros w1 (H1 & Hw1).
  apply wp_bind, wp_call.
  { split_and!; [intros ? [= <-]|done..]. rewrite H1. simpl. rewrite lookup_insert_eq. by eexists. }
  intros [dev|e] w2 ->; [|by apply wp_ret]. apply wp_call; [|by intros r w2 ->].
  assert (handle_at w1 h n) as Hat by (unfold handle_at; by rewrite H1, lookup_insert_eq).
  split_and!; [intros ? [= <-]; by eexists|done..|]. exists n. split; [done|].
  destruct Hw1 as (_ & _ & Hl & _). naive_solver.
Qed.

Lemma safe_setup_sriov m key cfg : safe_in m (setup_sriov m key cfg).
Proof.
  intros Hs F l b Hm. unfold setup_sriov, when. destruct (_ || _); [|apply safe_ret].
  apply safe_bind; [by apply (safe_LinkExists _ _ _ _ _ nsName)|]. intros [|]; [|apply safe_ret].
  apply safe_bind; [|intros _; destruct (negb _); [apply safe_setEswitchMode|apply safe_ret]].
  destruct (0 <? _); [|apply safe_ret]. apply (safe_in_plain m); [|done]. auto with calls.
Qed.

Lemma safe_fetch_device m name : safe_in m (fetch_device m nsName name).
Proof.
  intros Hs F l b Hm. unfold fetch_device. destruct (Str.is_empty nsName); [apply safe_ret|].
  apply safe_bind; [by apply (safe_LinkExists _ _ _ _ _ nsName)|]. intros [|]; [apply safe_ret|].
  apply safe_with_default. intros h n b' Hh Hn Hb.
  apply safe_bind; [apply (safe_LinkExists _ _ _ _ _ n), lookup_insert_eq|]. intros [|]; [|apply safe_ret].
  by apply (safe_move_to _ _ _ _ _ n); [apply lookup_insert_eq|..].
Qed.

Lemma safe_setupEthernets m d : safe_in m (setupEthernets m nsName d).
Proof.
  intros Hs F l b Hm. apply safe_bind.
  - apply safe_for_each. intros key _. apply safe_bind; [apply safe_lift|]. intros cfg. by apply safe_setup_sriov.
  - intros _. apply safe_for_err. intros key _. apply safe_bind; [apply safe_lift|]. intros cfg.
    apply safe_bind; [apply (safe_in_plain m); [auto with calls|done]|]. intros [name|e]; [|apply safe_ret].
    destruct (Str.is_empty name); [apply safe_ret|].
    apply safe_bind; [by apply safe_fetch_device|]. intros [e|]; [apply safe_ret|].
    apply (safe_in_plain m); [|done]. plain_tac.
Qed.

(** A link that is created in the default namespace. *)
Lemma safe_create_linked m name what add :
  (forall m, all_calls (plain (mgr_handle m)) (add m)) ->
  (forall m Hs F l b n, Hs !! mgr_handle m = Some n -> (n = "" \/ b = true) -> safe Hs F l b (add m)) ->
  safe_in m (create_linked m nsName name what add).
Proof.
  intros Hp Hd Hs F l b Hm. unfold create_linked.
  apply safe_bind; [by apply (safe_LinkExists _ _ _ _ _ nsName)|]. intros [|]; [apply safe_ret|].
  destruct (negb _).
  - apply safe_with_default. intros h n b' Hh Hn Hb.
    apply safe_bind; [apply (Hd _ _ _ _ _ n); [apply lookup_insert_eq|done]|].
    intros [e|]; [apply safe_ret|]. by apply (safe_move_to _ _ _ _ _ n); [apply lookup_insert_eq|..].
  - apply safe_bind; [by apply (safe_in_plain m)|]. intros [e|]; apply safe_ret.
Qed.

Lemma safe_link_add_moved m link Hs F l b n :
  Hs !! mgr_handle m = Some n -> (n = "" \/ b = true) -> moved link -> safe Hs F l b (link_add m link).
Proof.
  intros Hm Hn Hl w (H1 & H2 & H3 & H4 & H5). apply wp_call; [|by intros r w' ->].
  split_and!; [intros ? [= <-]; rewrite H1; by eexists|done|done|].
  exists n. split; [unfold handle_at; by rewrite H1|]. naive_solver.
Qed.

Lemma safe_parent_add m parent Hs F l b n (f : Link -> NewLink) wrap :
  Hs !! mgr_handle m = Some n -> (n = "" \/ b = true) -> (forall p, moved (f p)) ->
  safe Hs F l b (get! p := link_by_name m parent as wrap; link_add m (f p)).
Proof.
  intros Hm Hn Hl. apply safe_bind.
  - intros w Hw. apply (wp_link_by_name _ setup_allows m parent n); [|done..].
    destruct Hw as [Hh _]. unfold handle_at. by rewrite Hh.
  - intros [p|e]; [|apply safe_ret]. by apply (safe_link_add_moved _ _ _ _ _ _ n).
Qed.

Lemma safe_setupMacvlanDevices m d tap : safe_in m (setupMacvlanDevices m nsName d tap).
Proof.
  intros Hs F l b Hm. apply safe_for_err. intros name _. apply safe_bind; [apply safe_lift|]. intros cfg.
  apply safe_bind.
  - apply (safe_create_linked m); [|intros m' Hs' F' l' b' n Hn Hb; by destruct tap; apply (safe_parent_add _ _ _ _ _ _ n)|done].
    intros m'. destruct tap; auto with calls.
  - intros [e|]; [apply safe_ret|]. apply (safe_in_plain m); [|done]. apply plain_setup_or. plain_tac.
Qed.

Lemma safe_setupIpvlanDevices m d : safe_in m (setupIpvlanDevices m nsName d).
Proof.
  intros Hs F l b Hm. apply safe_for_err. intros name _. apply safe_bind; [apply safe_lift|]. intros cfg.
  apply safe_bind.
  - apply (safe_create_linked m); [|intros m' Hs' F' l' b' n Hn Hb; by apply (safe_parent_add _ _ _ _ _ _ n)|done].
    intros m'. auto with calls.
  - intros [e|]; [apply safe_ret|]. apply (safe_in_plain m); [|done]. apply plain_setup_or. plain_tac.
Qed.

(** WireGuard is configured by the thread, in the namespace of the device. *)
Lemma wp_wireguard_do name cfg w (wrap : error -> error) :
  w_cur w = nsName \/ w_lost w = true ->
  wp sp (get! client := call WgNew as wrap;
         deferred (peers ← lift (mapM (fun p => (p ← p; Some (wg_peer p))) (Tunnel_Peers cfg));
                   ConfigureDevice client name {|
                     NlWireGuardConfig_PrivateKey := Tunnel_Key cfg;
                     NlWireGuardConfig_ListenPort := Tunnel_Port cfg;
                     NlWireGuardConfig_FwMark := Tunnel_Mark cfg;
                     NlWireGuardConfig_ReplacePeers := true;
                     NlWireGuardConfig_Peers := peers |})
         (call (WgClose client))) w (fun _ w' => w' = w).
Proof.
  intros Hw. apply wp_bind, wp_call; [by split_and!|]. intros [client|e] w1 ->; [|by apply wp_ret].
  apply wp_deferred, wp_bind, wp_lift; [|done]. intros peers _. unfold ConfigureDevice.
  assert (forall e : err, wp sp (call (WgClose client)) w (fun _ w' => w' = w)) as Hclose.
  { intros e. apply wp_call; [by split_and!|]. by intros r w' ->. }
  apply wp_bind, wp_ret. destruct (opt_field _ _ _) as [key|e]; [|by apply (Hclose (Some e))].
  apply wp_bind, wp_ret. destruct (build_peers _) as [ps|e]; [|by apply (Hclose (Some e))].
  apply wp_call; [by split_and!|]. intros r w' ->. apply (Hclose r).
Qed.

Lemma safe_configureTunnelWireguard Hs F l b name cfg :
  safe Hs F l b (configureTunnelWireguard name nsName cfg).
Proof.
  intros w Hw. pose proof Hw as (H1 & H2 & H3 & H4 & H5). unfold configureTunnelWireguard.
  destruct (Str.is_empty nsName) eqn:E; cbn [negb].
  - eapply wp_mono; [|apply wp_wireguard_do; assert (nsName = "") as -> by by destruct nsName].
    + by intros r w' ->.
    + destruct (w_lost w); auto.
  - eapply wp_mono; [|apply (wp_RunInNetns _ setup_allows_ns)].
    + intros r w' (A1 & A2 & A3 & A4). split_and!; [congruence|by rewrite A2|congruence|naive_solver|].
      intros Hl. destruct A4 as [[-> Hw']|[_ Hw']]; [|congruence]. apply H5. congruence.
    + intros fds w1 _. apply wp_wireguard_do. by left.
Qed.

Lemma safe_create_missing m name what create q :
  safe_in m create -> safe_in m q -> safe_in m (create_missing m name what create q).
Proof.
  intros Hc Hq Hs F l b Hm. apply safe_bind; [by apply (safe_LinkExists _ _ _ _ _ nsName)|]. intros ex.
  apply safe_bind; [destruct (negb ex); [by apply Hc|apply safe_ret]|].
  intros [e|]; [apply safe_ret|by apply Hq].
Qed.

Lemma safe_setup_or m name a r mtu mac what q :
  safe_in m q -> safe_in m (setup_or m name a r mtu mac what q).
Proof.
  intros Hq Hs F l b Hm. apply safe_bind; [apply (safe_in_plain m); [auto with calls|done]|].
  intros [e|]; [apply safe_ret|by apply Hq].
Qed.

Lemma safe_setupTunnels m d : safe_in m (setupTunnels m nsName d).
Proof.
  intros Hs F l b Hm. apply safe_for_err. intros name _. apply safe_bind; [apply safe_lift|]. intros cfg.
  apply (safe_create_missing m); [|clear Hs F l b Hm; intros Hs F l b Hm|done].
  { apply safe_in_plain. auto with calls. }
  apply safe_bind; [destruct (_ && _); [apply safe_configureTunnelWireguard|apply safe_ret]|].
  intros [e|]; [apply safe_ret|]. apply (safe_setup_or m); [|done]. intros ? ? ? ? _. apply safe_ret.
Qed.

(** *** Veth pairs and their peers *)

Lemma safe_create_veth m name peerName peerNs :
  conf peerNs -> (peerNs <> "" -> leak peerNs) -> safe_in m (create_veth nsName name peerName peerNs).
Proof.
  intros Hpeer Hleak Hs F l b Hm. apply safe_with_default. intros h n b' Hh Hn Hb.
  assert (forall m' name', mgr_handle m' = h -> safe (<[h:=n]> Hs) F l b' (LinkExists m' name')) as Hex.
  { intros m' name' E. apply (safe_LinkExists _ _ _ _ _ n). by rewrite E, lookup_insert_eq. }
  apply safe_bind; [by apply Hex|]. intros ex.
  apply safe_bind. { destruct ex; [apply safe_ret|]. apply safe_bind; [by apply Hex|]. intros; apply safe_ret. }
  intros missing. apply safe_bind.
  { destruct missing; [|apply safe_ret]. by apply (safe_link_add_moved _ _ _ _ _ _ n); [apply lookup_insert_eq|..]. }
  intros [e|]; [apply safe_ret|]. apply safe_bind.
  { destruct (negb _); [|apply safe_ret]. by apply (safe_move_to _ _ _ _ _ n); [apply lookup_insert_eq|..]. }
  intros [e|]; [apply safe_ret|]. destruct (Str.is_empty peerNs) eqn:E; cbn [negb]; [apply safe_ret|].
  apply safe_bind; [apply safe_NetnsExists, Hleak; by intros ->|]. intros exns. apply safe_bind.
  { destruct (negb _); [by apply safe_CreateNetns|apply safe_ret]. }
  intros [e|]; [apply safe_ret|]. by apply (safe_move_to _ _ _ _ _ n); [apply lookup_insert_eq|..].
Qed.

Lemma safe_setup_peer m peer :
  conf (VethPeer_Netns peer) -> safe_in m (setup_peer m nsName peer).
Proof.
  intros Hpeer Hs F l b Hm. unfold setup_peer.
  assert (forall m' Hs' F' b' n, Hs' !! mgr_handle m' = Some n -> conf n \/ b' = true ->
    safe Hs' F' l b' (setup_or m' (VethPeer_Name peer) (VethPeer_Addresses peer) (VethPeer_Routes peer)
      (VethPeer_MTU peer) (VethPeer_MacAddress peer) "veth peer" (Ret None))) as Hsetup.
  { intros m' Hs' F' b' n Hm' Hn. apply (safe_plain _ _ _ _ (mgr_handle m') n); [done|done|].
    by apply plain_setup_or. }
  destruct (Str.is_empty (VethPeer_Netns peer)) eqn:Hp; simpl.
  - assert (VethPeer_Netns peer = "") as Hp' by by destruct (VethPeer_Netns peer).
    rewrite Hp' in Hpeer. destruct (Str.is_empty nsName).
    { apply (Hsetup m _ _ _ nsName); [done|by left]. }
    intros w Hw. apply wp_bind, (safe_New Hs F l b); [done| |by intros e; apply wp_ret].
    intros h n w' Hh Hn Hw'.
    eapply wp_mono; [|apply (safe_closing Hs F l (w_lost w) h n); [done| |done]].
    { intros r w2. apply inv_weaken. by destruct Hw as (_ & _ & _ & Hb & _). }
    apply (Hsetup _ _ _ _ n); [apply lookup_insert_eq|]. destruct Hn as [->|Hn]; [by left|by right].
  - intros w (H1 & H2 & H3 & H4 & H5). apply wp_bind, (wp_NewWithNetns _ setup_allows).
    2: { intros e. by apply wp_ret. }
    intros h fd Hh Hne Hfd. apply wp_deferred. set (ns := VethPeer_Netns peer) in *.
    eapply wp_mono; [|apply (Hsetup _ (<[h:=ns]> Hs) (<[fd:=ns]> (w_fds w)) b ns)].
    + intros r w' (A1 & A2 & A3 & A4 & A5). apply (wp_Close _ setup_allows _ ns).
      * split; simpl; [unfold handle_at; by rewrite A1, lookup_insert_eq|]. intros _.
        exists ns. eapply lookup_weaken; [apply lookup_insert_eq|apply A2].
      * simpl. rewrite (proj2 (Z.eqb_neq fd 0)) by done.
        split_and!; simpl; [rewrite A1, delete_insert_id; [done|by rewrite <-H1]| |congruence|done|done].
        etrans; [exact H2|]. by apply (leaves_delete _ _ _ _ ns).
    + apply lookup_insert_eq.
    + by left.
    + split_and!; simpl; [by rewrite H1|done..].
Qed.

Lemma safe_setupVethDevices m d :
  (forall name cfg peer, gm_get d name = Some (Some cfg) -> VethDevice_Peer cfg = Some peer ->
     conf (VethPeer_Netns peer) /\ (VethPeer_Netns peer <> "" -> leak (VethPeer_Netns peer))) ->
  safe_in m (setupVethDevices m nsName d).
Proof.
  intros Hd Hs F l b Hm. apply safe_for_err. intros name _. unfold entry.
  destruct (gm_get d name) as [[cfg|]|] eqn:E; simpl; [|apply safe_crash..].
  unfold mbind, prog_mbind, prog_bind. destruct (VethDevice_Peer cfg) as [peer|] eqn:Ep; [|apply safe_ret].
  destruct (Hd _ _ _ E Ep) as [Hc Hl]. apply safe_bind; [by apply (safe_LinkExists _ _ _ _ _ nsName)|]. intros ex.
  apply safe_bind; [destruct (negb ex); [by apply (safe_create_veth m)|apply safe_ret]|].
  intros [e|]; [apply safe_ret|]. apply (safe_setup_or m); [|done]. intros Hs' F' l' b' Hm'.
  apply safe_bind; [apply (safe_in_plain m); [auto with calls|done]|]. intros _. by apply safe_setup_peer.
Qed.

(** *** The whole namespace *)

Lemma safe_stage m fmt p q : safe_in m p -> safe_in m q -> safe_in m (stage fmt p q).
Proof.
  intros Hp Hq Hs F l b Hm. apply safe_bind; [by apply Hp|]. intros [e|]; [apply safe_ret|by apply Hq].
Qed.

Lemma safe_setup_all m cfg :
  (forall name d peer, gm_get (Namespace_VethDevices cfg) name = Some (Some d) ->
     VethDevice_Peer d = Some peer ->
     conf (VethPeer_Netns peer) /\ (VethPeer_Netns peer <> "" -> leak (VethPeer_Netns peer))) ->
  safe_in m (setup_all m nsName cfg).
Proof.
  intros Hd. unfold setup_all.
  repeat (apply safe_stage;
    [first [ apply safe_setupEthernets | apply safe_setupMacvlanDevices | apply safe_setupIpvlanDevices
           | apply safe_setupTunnels | by apply safe_setupVethDevices
           | apply safe_in_plain; try (destruct (negb _)); try (destruct (_ && _)); plain_tac ] | ]).
  all: try (intros ? ? ? ? ?; apply safe_ret).
  intros Hs F l b Hm. apply safe_bind; [apply (safe_in_plain m); [auto with calls|done]|]. intros _.
  apply safe_bind; [apply (safe_in_plain m); [auto with calls|done]|]. intros _. revert Hs F l b Hm.
  repeat (apply safe_stage;
    [first [ apply safe_setupEthernets | apply safe_setupMacvlanDevices | apply safe_setupIpvlanDevices
           | apply safe_setupTunnels | by apply safe_setupVethDevices
           | apply safe_in_plain; try (destruct (negb _)); try (destruct (_ && _)); plain_tac ] | ]).
  intros ? ? ? ? ?; apply safe_ret.
Qed.
End setup.
End safe.

(** The namespaces of the peers of the veth devices of a namespace. *)
Definition peer_netns (cfg : Namespace) (n : string) : Prop :=
  exists name d peer, gm_get (Namespace_VethDevices cfg) name = Some (Some d) /\
    VethDevice_Peer d = Some peer /\ n = VethPeer_Netns peer.

(** The namespaces that the configuration of a namespace sets up: itself and
    those of the peers of its veth devices. *)
Definition conf_of (nsName : string) (cfg : Namespace) (n : string) : Prop := n = nsName \/ peer_netns cfg n.

(** Those whose existence it asks for: the named ones of the peers. *)
Definition asked (cfg : Namespace) (n : string) : Prop := n <> "" /\ peer_netns cfg n.

Section applyNamespaceConfig.
Context `{Libs} `{RangeOrder} (nsName : string) (cfg : Namespace).
#[local] Abbreviation sp := (world_spec (setup_perm nsName (conf_of nsName cfg) False)).

(** It is kept: the handles, the lock, and the descriptors, but for some of
    namespaces of [leak] that are left open; and the thread is in the default
    namespace, or is lost. *)
Definition kept (leak : string -> Prop) (w w' : World) : Prop :=
  w_handles w' = w_handles w /\ leaves leak (w_fds w) (w_fds w') /\ w_lock w' = w_lock w /\
  (w_lost w' = false -> w_cur w' = "").

Lemma safe_setup_all_conf Hs F l b m :
  Hs !! mgr_handle m = Some nsName ->
  safe nsName (conf_of nsName cfg) False (asked cfg) Hs F l b (setup_all m nsName cfg).
Proof.
  apply safe_setup_all; [by left|]. intros name d peer Hd Hp.
  assert (peer_netns cfg (VethPeer_Netns peer)) as Hpeer by by exists name, d, peer.
  split; [by right|by intros Hne].
Qed.

Lemma wp_applyNamespaceConfig w :
  (w_lost w = false -> w_cur w = "") -> (nsName = "" -> w_cur w = "") ->
  wp sp (applyNamespaceConfig nsName (Some cfg)) w (fun _ w' => kept (asked cfg) w w').
Proof.
  intros Hcur Hdef. unfold applyNamespaceConfig. apply wp_bind. destruct (Str.is_empty nsName) eqn:E.
  - assert (nsName = "") as Hns by by destruct nsName.
    apply (wp_New _ (setup_allows _ _ _)); [|intros e; by apply wp_ret].
    intros h Hh. rewrite (Hdef Hns). eapply wp_mono.
    2: { apply (safe_closing _ _ _ (asked cfg) (w_handles w) (w_fds w) (w_lock w) (w_lost w) h ""); [done| |].
         - apply safe_setup_all_conf. simpl. rewrite lookup_insert_eq. by rewrite Hns.
         - split_and!; simpl; [done..|]. auto. }
    intros r w' (H1 & H2 & H3 & H4 & H5). by split_and!.
  - apply (wp_NewWithNetns _ (setup_allows _ _ _)); [|intros e; by apply wp_ret].
    intros h fd Hh Hne Hfd. apply wp_deferred.
    eapply wp_mono; [|apply (safe_setup_all_conf (<[h:=nsName]> (w_handles w)) (<[fd:=nsName]> (w_fds w))
                               (w_lock w) (w_lost w))].
    + intros r w' (A1 & A2 & A3 & A4 & A5). apply (wp_Close _ (setup_allows _ _ _) _ nsName).
      * split; simpl; [unfold handle_at; by rewrite A1, lookup_insert_eq|]. intros _.
        exists nsName. eapply lookup_weaken; [apply lookup_insert_eq|apply A2].
      * simpl. rewrite (proj2 (Z.eqb_neq fd 0)) by done.
        split_and!; simpl; [by rewrite A1, delete_insert_id| |done|done].
        by apply (leaves_delete _ _ _ _ nsName).
    + apply lookup_insert_eq.
    + split_and!; simpl; done.
Qed.
End applyNamespaceConfig.

