(* ===== verification/Responder.v ===== *)
(** * The NDP responder (ndpproxy/responder.go)

    It answers the neighbour solicitations that arrive on an interface for the
    addresses of its rules.  An address is its bytes, four or sixteen; the source
    of a packet and the target of a solicitation have sixteen.  The codec of the
    ndp library is a parameter. *)

From S2P Require Import Prelude GoStd GoNet Effect VppApi Netlink.

(** ** net/netip *)

Module Netip.
(** A netip.Prefix, of an address with the bits that count. *)
Record Prefix := MkPrefix { Prefix_Addr : list Z; Prefix_Bits : Z }.

(** The number that a list of bytes is, the first the most significant. *)
Fixpoint number (l : list Z) : Z :=
  match l with [] => 0 | b :: l => b * 2 ^ (8 * Z.of_nat (length l)) + number l end.

(** [p.Contains(ip)]: the families agree, and so do the bits of the mask. *)
Definition Contains (p : Prefix) (ip : list Z) : bool :=
  let len := 8 * Z.of_nat (length ip) in
  (length (Prefix_Addr p) =? length ip)%nat && negb (length ip =? 0)%nat &&
  (Z.land (Z.lxor (number ip) (number (Prefix_Addr p)))
          (Z.shiftl (Z.ones (Prefix_Bits p)) (len - Prefix_Bits p)) =? 0).

(** The text before and after the last slash. *)
Fixpoint last_slash (s : string) : option (string * string) :=
  match s with
  | "" => None
  | String a s' =>
      match last_slash s' with
      | Some (x, y) => Some (String a x, y)
      | None => if (a =? "/")%char then Some ("", s') else None
      end
  end.

(** [netip.ParsePrefix]; [None] is an error. *)
Definition ParsePrefix (s : string) : option Prefix :=
  '(addr, bits) ← last_slash s;
  '(ip, len) ← Net.parse_addr addr;
  if match bits with
     | String a (String _ _) => negb (Str.is_digit a) || (a =? "0")%char
     | _ => false
     end then None
  else
    n ← Str.atoi bits;
    if (n <? 0) || (len <? n) then None
    else Some (MkPrefix (if len =? 32 then drop 12 ip else ip) n).

(** [IsUnspecified] of sixteen bytes. *)
Definition unspecified (ip : list Z) : bool := bool_decide (ip = replicate 16 0).
End Netip.

(** ** The ndp library *)

(** A message that has been received: the target of a solicitation, or another. *)
Inductive NdpMsg := NeighborSolicitation (target : list Z) | OtherNdp.

(* The advertisement that the responder sends. *)
Record NeighborAdvertisement := MkNeighborAdvertisement {
  na_Router : bool;
  na_Solicited : bool;
  na_Override : bool;
  na_Target : list Z;
  na_TLLA : list Z
}.

Class NdpLib := {
  ParseMessage : list Z -> option NdpMsg;
  MarshalMessageChecksum : NeighborAdvertisement -> list Z -> list Z -> option (list Z);
}.

(** ** The responder *)

(* go: ndpproxy/responder.go 26-31 Rule *)
Record NdpRule := MkNdpRule {
  Rule_Prefix : Netip.Prefix;
  Rule_Neighbor : option (list Z);
  Rule_Auto : bool
}.

(* go: ndpproxy/responder.go 33-38 Config *)
Record NdpConfig := MkNdpConfig {
  Iface : string;
  Router : bool;
  Rules : list NdpRule
}.

(* go: ndpproxy/responder.go 40-46 Responder *)
Record Responder := MkResponder {
  cfg : NdpConfig;
  ifi : NetInterface;
  hwaddr : list Z;
  conn : Z
}.

(* go: ndpproxy/responder.go 48-48 allNodesMAC *)
Definition allNodesMAC : list Z := [51; 51; 0; 0; 0; 1].

(** ff02::1 *)
Definition allNodes : list Z := [255; 2] ++ replicate 13 0 ++ [1].

(* go: ndpproxy/responder.go 50-61 New *)
Definition NewResponder (c : NdpConfig) : prog sys (res Responder) :=
  let! i := call (InterfaceByName (Iface c)) as EWrap "ndp-proxy: interface %s: %w" [Iface c];
  let! s := call (PacketListen i) as EWrap "ndp-proxy: listen on %s: %w" [Iface c];
  Ret (Ok (MkResponder c i (NetInterface_HardwareAddr i) s)).

(* go: ndpproxy/responder.go 158-166 match *)
Definition match_rule (r : Responder) (t : list Z) : option NdpRule :=
  head (filter (fun rl => Netip.Contains (Rule_Prefix rl) t = true) (Rules (cfg r))).

(* go: ndpproxy/responder.go 168-180 routeElsewhere *)
Definition routeElsewhere (t : list Z) (ourIndex : Z) : prog sys bool :=
  routes ← call (RouteGet t);
  Ret (match routes with
       | Err _ => false
       | Ok idx => existsb (fun i => negb (i =? 0) && negb (i =? ourIndex)) idx
       end).

(** [copy] into a part of a zeroed buffer. *)
Definition copy_into (n : nat) (src : list Z) : list Z := take n src ++ replicate (n - length src) 0.

(* go: ndpproxy/responder.go 182-193 buildIPv6 *)
Definition buildIPv6 (src dst payload : list Z) : list Z :=
  let len := Z.of_nat (length payload) mod 2^16 in
  [96; 0; 0; 0; len / 256; len mod 256; 58; 255] ++ copy_into 16 src ++ copy_into 16 dst ++ payload.

Section responder.
Context `{NdpLib}.

(** The advertisement, the address and the hardware address that it goes to. *)
(* go: ndpproxy/responder.go 125-148 buildReply *)
Definition reply_of (r : Responder) (rule : NdpRule) (target srcIP srcMAC : list Z)
    : NeighborAdvertisement * list Z * list Z :=
  let solicited := negb (Netip.unspecified srcIP) in
  let na := MkNeighborAdvertisement (Router (cfg r)) solicited true target
              (default (hwaddr r) (Rule_Neighbor rule)) in
  if solicited then (na, srcIP, if (length srcMAC =? 6)%nat then srcMAC else allNodesMAC)
  else (na, allNodes, allNodesMAC).

(* go: ndpproxy/responder.go 114-156 buildReply *)
Definition buildReply (r : Responder) (target srcIP srcMAC : list Z) : prog sys (option (list Z * list Z)) :=
  match match_rule r target with
  | None => Ret None
  | Some rule =>
      elsewhere ← (if Rule_Auto rule then routeElsewhere target (NetInterface_Index (ifi r)) else Ret true);
      if negb elsewhere then Ret None
      else
        let '(na, dstIP, dstMAC) := reply_of r rule target srcIP srcMAC in
        Ret (match MarshalMessageChecksum na target dstIP with
             | None => None
             | Some icmp => Some (buildIPv6 target dstIP icmp, dstMAC)
             end)
  end.

(** The solicitation that a packet is: its source and its target. *)
(* go: ndpproxy/responder.go 86-98 handle *)
Definition solicitation (pkt : list Z) : option (list Z * list Z) :=
  if (length pkt <? 40)%nat || negb (Z.shiftr (nth 0 pkt 0) 4 =? 6) ||
     negb (nth 6 pkt 0 =? 58) || negb (nth 7 pkt 0 =? 255) then None
  else match ParseMessage (drop 40 pkt) with
       | Some (NeighborSolicitation target) => Some (take 16 (drop 8 pkt), target)
       | _ => None
       end.

(* go: ndpproxy/responder.go 84-112 handle *)
Definition handle (r : Responder) (pkt from : list Z) : prog sys unit :=
  match solicitation pkt with
  | None => Ret tt
  | Some (srcIP, target) =>
      out ← buildReply r target srcIP from;
      match out with
      | None => Ret tt
      | Some (out, dstMAC) => warn! call (PacketWriteTo (conn r) out dstMAC); Ret tt
      end
  end.

(** What a read of the socket gives: a packet with the hardware address it comes
    from, or an error, after the responder has been cancelled or not. *)
Inductive read := Packet (pkt from : list Z) | ReadError (cancelled : bool) (e : error).

(** The goroutine that waits for the cancelling of the context and then closes the
    socket.  It waits on when the loop has ended with an error. *)
(* go: ndpproxy/responder.go 65-68 Run *)
Definition close_on_cancel (conn : Z) : prog sys unit := call (PacketClose conn).

(** The loop over the reads; it goes on when there are no more of them yet. *)
(* go: ndpproxy/responder.go 63-82 Run *)
Fixpoint Run (r : Responder) (reads : list read) : prog sys (option err) :=
  match reads with
  | [] => Ret None
  | Packet pkt from :: reads => handle r pkt from ;; Run r reads
  | ReadError cancelled e :: _ => Ret (Some (if cancelled then None else Some e))
  end.
End responder.

(** ** IPv6 packets *)

(** A byte string read as an IPv6 packet that carries ICMPv6 with a hop limit of
    255: its source, its destination and its payload. *)
Definition parse_ipv6 (b : list Z) : option (list Z * list Z * list Z) :=
  if (40 <=? length b)%nat && (Z.shiftr (nth 0 b 0) 4 =? 6) && (nth 6 b 0 =? 58) && (nth 7 b 0 =? 255) &&
     (nth 4 b 0 * 256 + nth 5 b 0 =? Z.of_nat (length b) - 40)
  then Some (take 16 (drop 8 b), take 16 (drop 24 b), drop 40 b) else None.

Lemma copy_into_length n src : length (copy_into n src) = n.
Proof. unfold copy_into. rewrite length_app, length_take, length_replicate. lia. Qed.

Lemma copy_into_full n src : length src = n -> copy_into n src = src.
Proof. intros <-. unfold copy_into. by rewrite firstn_all, Nat.sub_diag, app_nil_r. Qed.

(** A packet that is built is one that netcfg itself, or another host, reads as
    it was meant, exactly if its payload fits the field for its length. *)
Lemma parse_buildIPv6 src dst payload :
  length src = 16%nat -> length dst = 16%nat ->
  parse_ipv6 (buildIPv6 src dst payload) =
    if Z.of_nat (length payload) <? 2^16 then Some (src, dst, payload) else None.
Proof.
  intros Hs Hd. unfold buildIPv6. cbv zeta. rewrite !copy_into_full by done.
  set (len := Z.of_nat (length payload) mod 2^16).
  set (hd := [96; 0; 0; 0; len / 256; len mod 256; 58; 255]).
  assert (length (hd ++ src ++ dst ++ payload) = 40 + length payload)%nat as Hlen
    by (rewrite !length_app, Hs, Hd; done).
  unfold parse_ipv6. rewrite Hlen. rewrite (proj2 (Nat.leb_le _ _)) by lia.
  assert (drop 8 (hd ++ src ++ dst ++ payload) = src ++ dst ++ payload) as H8 by done.
  assert (drop 24 (hd ++ src ++ dst ++ payload) = dst ++ payload) as H24
    by (rewrite <-(drop_drop _ 16 8), H8; by apply drop_app_length').
  assert (drop 40 (hd ++ src ++ dst ++ payload) = payload) as H40
    by (rewrite <-(drop_drop _ 16 24), H24; by apply drop_app_length').
  rewrite H8, H24, H40, !take_app_length' by done.
  simpl. assert (len / 256 * 256 + len mod 256 = len) as -> by (pose proof (Z.div_mod len 256); lia).
  unfold len. destruct (Z.ltb_spec (Z.of_nat (length payload)) (2^16)).
  - rewrite Z.mod_small by lia. rewrite (proj2 (Z.eqb_eq _ _)) by lia. done.
  - rewrite (proj2 (Z.eqb_neq _ _)); [done|].
    pose proof (Z.mod_pos_bound (Z.of_nat (length payload)) (2^16)). lia.
Qed.

(** ** Prefixes *)

(** The bits that count agree. *)
Lemma Contains_spec p ip :
  0 <= Netip.Prefix_Bits p -> Netip.Prefix_Bits p <= 8 * Z.of_nat (length ip) ->
  Netip.Contains p ip = true <->
  length (Netip.Prefix_Addr p) = length ip /\ ip <> [] /\
  forall i, 8 * Z.of_nat (length ip) - Netip.Prefix_Bits p <= i < 8 * Z.of_nat (length ip) ->
    Z.testbit (Netip.number ip) i = Z.testbit (Netip.number (Netip.Prefix_Addr p)) i.
Proof.
  intros H0 Hlen. unfold Netip.Contains. set (len := 8 * Z.of_nat (length ip)) in *.
  rewrite !andb_true_iff, Nat.eqb_eq, negb_true_iff, Nat.eqb_neq, Z.eqb_eq.
  assert (length ip <> 0%nat <-> ip <> []) as -> by by destruct ip.
  assert (Z.land (Z.lxor (Netip.number ip) (Netip.number (Netip.Prefix_Addr p)))
            (Z.shiftl (Z.ones (Netip.Prefix_Bits p)) (len - Netip.Prefix_Bits p)) = 0 <->
          forall i, len - Netip.Prefix_Bits p <= i < len ->
            Z.testbit (Netip.number ip) i = Z.testbit (Netip.number (Netip.Prefix_Addr p)) i) as ->; [|tauto].
  rewrite <-Z.bits_inj_iff'. split; intros Hb i Hi.
  - specialize (Hb i ltac:(lia)). rewrite Z.land_spec, Z.lxor_spec, Z.shiftl_spec, Z.testbit_0_l, Z.testbit_ones in Hb by lia.
    rewrite (proj2 (Z.leb_le _ _)), (proj2 (Z.ltb_lt _ _)), andb_true_r in Hb by lia. by apply xorb_eq.
  - rewrite Z.land_spec, Z.lxor_spec, Z.shiftl_spec, Z.testbit_0_l, Z.testbit_ones by lia.
    destruct (Z.leb_spec 0 (i - (len - Netip.Prefix_Bits p))); [|by rewrite andb_false_r].
    destruct (Z.ltb_spec (i - (len - Netip.Prefix_Bits p)) (Netip.Prefix_Bits p)); [|by rewrite andb_false_r].
    rewrite (Hb i), xorb_nilpotent by lia. done.
Qed.

(** ** What the responder sends *)

(** The first rule with the target. *)
Definition first_rule (rules : list NdpRule) (target : list Z) (rule : NdpRule) : Prop :=
  exists pre post, rules = pre ++ rule :: post /\
    Netip.Contains (Rule_Prefix rule) target = true /\
    Forall (fun rl => Netip.Contains (Rule_Prefix rl) target = false) pre.

Lemma match_rule_spec r target rule : match_rule r target = Some rule <-> first_rule (Rules (cfg r)) target rule.
Proof.
  unfold match_rule. induction (Rules (cfg r)) as [|rl rules IH].
  - split; [done|]. intros ([|? ?] & ? & [=] & _).
  - rewrite filter_cons. destruct (decide _) as [Hc|Hc].
    + split.
      * intros [= <-]. exists [], rules. done.
      * intros ([|rl' pre] & post & [= -> ->] & Hr & Hpre); [done|]. inversion_clear Hpre. by rewrite Hc in *.
    + rewrite IH. apply not_true_iff_false in Hc. split; intros (pre & post & Hl & Hr & Hpre).
      * exists (rl :: pre), post. split; [by rewrite Hl|]. split; [done|]. by constructor.
      * destruct pre as [|rl' pre]; [by injection Hl as -> _; rewrite Hr in Hc|].
        injection Hl as -> ->. exists pre, post. split_and!; [done..|]. by inversion_clear Hpre.
Qed.

Lemma match_rule_none r target :
  match_rule r target = None <-> Forall (fun rl => Netip.Contains (Rule_Prefix rl) target = false) (Rules (cfg r)).
Proof.
  unfold match_rule. induction (Rules (cfg r)) as [|rl rules IH]; [by split|].
  rewrite filter_cons, Forall_cons. destruct (decide _) as [Hc|Hc]; [naive_solver congruence|].
  rewrite IH. apply not_true_iff_false in Hc. tauto.
Qed.

(** The packets that a run writes, and what it learns of the route to an address:
    whether the kernel sends it out of another interface. *)
Definition writes (tr : list (event sys)) : list (Z * list Z * list Z) :=
  collect (fun ev => match ev with Event (PacketWriteTo s d m) _ => Some (s, d, m) | _ => None end) tr.

Definition route_answer (target : list Z) (ev : event sys) : option (list Z) :=
  match ev with
  | Event e x =>
      match e in sys X return X -> option (list Z) with
      | RouteGet t => fun x => match x with Ok idx => if decide (t = target) then Some idx else None | Err _ => None end
      | _ => fun _ => None
      end x
  end.
Definition routed_elsewhere (r : Responder) (target : list Z) (tr : list (event sys)) : Prop :=
  exists idx i, idx ∈ collect (route_answer target) tr /\ i ∈ idx /\ i <> 0 /\ i <> NetInterface_Index (ifi r).

(** The ndp library: the target of a solicitation is an address of IPv6, and an
    advertisement is a short message. *)
Class NdpLaws `{NdpLib} := {
  target_length b target : ParseMessage b = Some (NeighborSolicitation target) -> length target = 16%nat;
  message_length na src dst b : MarshalMessageChecksum na src dst = Some b -> Z.of_nat (length b) < 2^16;
}.

(** A written packet answers a solicitation for a target: it is an IPv6 packet
    from the target that carries the advertisement of the target with the rule's
    hardware address, or the responder's own; it goes back to the source that
    asked, marked as solicited, or, when the source is not yet sure of its address,
    to all nodes, unmarked. *)
Definition answers `{NdpLib} (r : Responder) (rule : NdpRule) (target src from : list Z)
    (w : Z * list Z * list Z) : Prop :=
  exists na dst icmp mac data, w = (conn r, data, mac) /\
    parse_ipv6 data = Some (target, dst, icmp) /\ MarshalMessageChecksum na target dst = Some icmp /\
    na_Target na = target /\ na_Override na = true /\ na_Router na = Router (cfg r) /\
    na_TLLA na = default (hwaddr r) (Rule_Neighbor rule) /\
    if decide (src = replicate 16 0)
    then na_Solicited na = false /\ dst = allNodes /\ mac = allNodesMAC
    else na_Solicited na = true /\ dst = src /\ mac = (if (length from =? 6)%nat then from else allNodesMAC).

Section proofs.
Context `{!NdpLib, !NdpLaws}.

Lemma routed_elsewhere_single r target routes :
  routed_elsewhere r target [Event (RouteGet target) routes] <->
  match routes with
  | Ok idx => existsb (fun i => negb (i =? 0) && negb (i =? NetInterface_Index (ifi r))) idx
  | Err _ => false
  end = true.
Proof.
  unfold routed_elsewhere. cbn [collect route_answer]. destruct routes as [idx|e].
  - rewrite decide_True by done. rewrite existsb_exists. split.
    + intros (idx' & i & Hin & Hi & Hn & Hn'). apply list_elem_of_singleton in Hin as ->.
      exists i. split; [by apply list_elem_of_In|]. apply andb_true_iff. by rewrite !negb_true_iff, !Z.eqb_neq.
    + intros (i & Hi & [Hn Hn']%andb_true_iff). rewrite negb_true_iff, Z.eqb_neq in Hn, Hn'.
      exists idx, i. split; [by apply list_elem_of_singleton|]. by apply list_elem_of_In in Hi.
  - split; [|done]. by intros (? & ? & ?%not_elem_of_nil & _).
Qed.

(** What buildReply does and returns. *)
Lemma buildReply_traces r target src from tr o :
  traces (buildReply r target src from) tr o ->
  exists out, o = Some out /\ writes tr = [] /\
  match match_rule r target with
  | None => out = None /\ tr = []
  | Some rule =>
      let '(na, dst, mac) := reply_of r rule target src from in
      match out with
      | None => Rule_Auto rule = true /\ ~ routed_elsewhere r target tr \/
                MarshalMessageChecksum na target dst = None
      | Some (data, mac') =>
          (Rule_Auto rule = true -> routed_elsewhere r target tr) /\
          exists icmp, MarshalMessageChecksum na target dst = Some icmp /\
            data = buildIPv6 target dst icmp /\ mac' = mac
      end
  end.
Proof.
  unfold buildReply. destruct (match_rule r target) as [rule|]; [|intros [-> ->]; by exists None].
  destruct (reply_of r rule target src from) as [[na dst] mac]. destruct (Rule_Auto rule).
  - intros (routes & tr' & -> & Htr). pose proof (routed_elsewhere_single r target routes) as Hr.
    assert (forall b : bool, b = match routes with
        | Ok idx => existsb (fun i => negb (i =? 0) && negb (i =? NetInterface_Index (ifi r))) idx
        | Err _ => false end ->
      traces (if negb b then Ret None else Ret (match MarshalMessageChecksum na target dst with
        | None => None | Some icmp => Some (buildIPv6 target dst icmp, mac) end)) tr' o) as Hb
      by by intros b ->.
    destruct (match routes with Ok _ => _ | Err _ => _ end); specialize (Hb _ eq_refl); clear Htr; rename Hb into Htr.
    + destruct Htr as [-> ->]. eexists. split; [done|]. split; [done|].
      destruct (MarshalMessageChecksum na target dst) as [icmp|] eqn:Hm; [|by right].
      split; [by intros _; apply Hr|]. by exists icmp.
    + destruct Htr as [-> ->]. exists None. split; [done|]. split; [done|]. left. split; [done|].
      by intros Hx%Hr.
  - intros [-> ->]. eexists. split; [done|]. split; [done|].
    destruct (MarshalMessageChecksum na target dst) as [icmp|] eqn:Hm; [|by right].
    split; [done|]. by exists icmp.
Qed.

Lemma reply_of_answers r rule target src from icmp na dst mac :
  reply_of r rule target src from = (na, dst, mac) ->
  length target = 16%nat -> length src = 16%nat -> MarshalMessageChecksum na target dst = Some icmp ->
  answers r rule target src from (conn r, buildIPv6 target dst icmp, mac).
Proof.
  intros Hr Ht Hs Hm. exists na, dst, icmp, mac, (buildIPv6 target dst icmp). split; [done|].
  assert (length dst = 16%nat) as Hd.
  { unfold reply_of in Hr. by destruct (negb _); injection Hr as <- <- <-. }
  rewrite parse_buildIPv6 by done. rewrite (proj2 (Z.ltb_lt _ _)) by by eapply message_length.
  split; [done|]. split; [done|]. unfold reply_of, Netip.unspecified in Hr.
  destruct (decide (src = replicate 16 0)) as [E|E].
  - rewrite bool_decide_eq_true_2 in Hr by done. by injection Hr as <- <- <-.
  - rewrite bool_decide_eq_false_2 in Hr by done. by injection Hr as <- <- <-.
Qed.

(** A packet that is a neighbour solicitation: an IPv6 packet that goes on with
    ICMPv6, with the hop limit that shows that it is from the link. *)
Definition is_solicitation (pkt src target : list Z) : Prop :=
  (40 <= length pkt)%nat /\ Z.shiftr (nth 0 pkt 0) 4 = 6 /\ nth 6 pkt 0 = 58 /\ nth 7 pkt 0 = 255 /\
  ParseMessage (drop 40 pkt) = Some (NeighborSolicitation target) /\ src = take 16 (drop 8 pkt).

Lemma solicitation_spec pkt src target :
  solicitation pkt = Some (src, target) <-> is_solicitation pkt src target.
Proof.
  unfold solicitation, is_solicitation. destruct (Nat.ltb_spec (length pkt) 40); [split; [done|lia]|].
  destruct (Z.eqb_spec (Z.shiftr (nth 0 pkt 0) 4) 6), (Z.eqb_spec (nth 6 pkt 0) 58), (Z.eqb_spec (nth 7 pkt 0) 255);
    simpl; try (split; [done|naive_solver]).
  destruct (ParseMessage _) as [[t|]|]; naive_solver lia.
Qed.

Lemma solicitation_length pkt src target :
  solicitation pkt = Some (src, target) -> length src = 16%nat /\ length target = 16%nat.
Proof.
  unfold solicitation. destruct (Nat.ltb_spec (length pkt) 40); [done|]. cbn [orb].
  destruct (_ || _); [done|]. destruct (ParseMessage _) as [[t|]|] eqn:Hp; [|done..]. intros [= <- <-].
  split; [rewrite length_take, length_drop; lia|by eapply target_length].
Qed.
End proofs.

(** C6: whatever packet arrives, the responder writes at most one, and never
    panics.  It writes one only for a neighbour solicitation from the link with a
    target that a rule covers, the first such rule decides, and when that rule is
    automatic the kernel has said that the target is reached through another
    interface; what it writes is the answer to the solicitation.  It writes
    nothing only if one of these is missing or the advertisement cannot be encoded. *)
Theorem handle_correct `{!NdpLib, !NdpLaws} r pkt from tr o :
  traces (handle r pkt from) tr o ->
  o = Some tt /\
  ((~ exists src target, is_solicitation pkt src target) /\ tr = [] \/
   exists src target, is_solicitation pkt src target /\
     (tr = [] /\ Forall (fun rl => Netip.Contains (Rule_Prefix rl) target = false) (Rules (cfg r)) \/
      exists rule, first_rule (Rules (cfg r)) target rule /\
        (writes tr = [] /\
           (Rule_Auto rule = true /\ ~ routed_elsewhere r target tr \/
            exists na dst, MarshalMessageChecksum na target dst = None) \/
         (Rule_Auto rule = true -> routed_elsewhere r target tr) /\
           exists w, writes tr = [w] /\ answers r rule target src from w))).
Proof.
  unfold handle. destruct (solicitation pkt) as [[src target]|] eqn:Hsol.
  2: { intros [-> ->]. split; [done|]. left. split; [|done]. intros (src & target & Hs%solicitation_spec). congruence. }
  destruct (solicitation_length _ _ _ Hsol) as [Hs Ht]. apply solicitation_spec in Hsol. intros Htr.
  apply traces_bind_inv in Htr as [[Hp _]|(out & tr1 & tr2 & H1 & H2 & ->)].
  { by apply buildReply_traces in Hp as (? & ? & _). }
  apply buildReply_traces in H1 as (? & [= <-] & Hw1 & H1).
  destruct (match_rule r target) as [rule|] eqn:Hm.
  2: { destruct H1 as [-> ->], H2 as [-> ->]. split; [done|]. right. exists src, target. split; [done|].
       left. split; [done|]. by apply match_rule_none. }
  apply match_rule_spec in Hm. assert (o = Some tt) as ->.
  { destruct out as [[data mac]|]; [by destruct H2 as (e & tr' & _ & _ & ->)|by destruct H2 as [_ ->]]. }
  split; [done|]. right. exists src, target. split; [done|]. right. exists rule. split; [done|].
  destruct (reply_of r rule target src from) as [[na dst] mac] eqn:Hrep.
  destruct out as [[data mac']|].
  - destruct H1 as (Hauto & icmp & Hmar & -> & ->), H2 as (e & tr' & -> & -> & _).
    right. split.
    { intros (idx & i & Hin & Hi)%Hauto. exists idx, i. rewrite collect_app. split; [|done].
      apply elem_of_app. by left. }
    eexists. unfold writes in *. rewrite collect_app, Hw1. split; [done|]. by apply (reply_of_answers r rule target src from icmp na).
  - destruct H2 as [-> _]. rewrite app_nil_r. left. split; [done|]. destruct H1 as [?|?]; [by left|right]. by exists na, dst.
Qed.

(** A codec of solicitations and advertisements, without checksums. *)
Module Codec.
#[export] Instance codec : NdpLib := {|
  ParseMessage b :=
    if (24 <=? length b)%nat && (nth 0 b 0 =? 135) then Some (NeighborSolicitation (take 16 (drop 8 b)))
    else Some OtherNdp;
  MarshalMessageChecksum na src dst :=
    if (length (na_TLLA na) =? 6)%nat && (length (na_Target na) =? 16)%nat then
      Some ([136; 0; 0; 0; (if na_Router na then 128 else 0) + (if na_Solicited na then 64 else 0) +
             (if na_Override na then 32 else 0); 0; 0; 0] ++ na_Target na ++ [2; 1] ++ na_TLLA na)
    else None |}.

#[export] Instance codec_laws : NdpLaws.
Proof.
  split.
  - intros b target. cbn [ParseMessage codec]. destruct (Nat.leb_spec 24 (length b)); [|done].
    destruct (nth 0 b 0 =? 135); [|done]. intros [= <-]. rewrite length_take, length_drop. lia.
  - intros na src dst b. cbn [MarshalMessageChecksum codec].
    destruct (Nat.eqb_spec (length (na_TLLA na)) 6) as [H6|]; [|done].
    destruct (Nat.eqb_spec (length (na_Target na)) 16) as [H16|]; [|done]. intros [= <-].
    simpl. rewrite length_app, H16. simpl. rewrite H6. lia.
Qed.
End Codec.

#[local] Existing Instances Codec.codec Codec.codec_laws.

(** A solicitation for 2001:db8::7 from fe80::2, which the rule 2001:db8::/64
    covers, is answered. *)
Definition example_responder : Responder :=
  MkResponder (MkNdpConfig "eth0" true [MkNdpRule (Netip.MkPrefix ([32; 1; 13; 184] ++ replicate 12 0) 64) None false])
    (MkNetInterface 2 [2; 0; 0; 0; 0; 1] 1500) [2; 0; 0; 0; 0; 1] 9.
Definition example_source : list Z := [254; 128] ++ replicate 13 0 ++ [2].
Definition example_target : list Z := [32; 1; 13; 184] ++ replicate 11 0 ++ [7].
Definition example_ns : list Z :=
  buildIPv6 example_source allNodes ([135; 0; 0; 0; 0; 0; 0; 0] ++ example_target).

Lemma handle_correct_witness :
  exists tr, traces (handle example_responder example_ns [2; 0; 0; 0; 0; 2]) tr (Some tt) /\
  length (writes tr) = 1%nat /\
  ((~ exists src target, is_solicitation example_ns src target) /\ tr = [] \/
   exists src target, is_solicitation example_ns src target /\
     (tr = [] /\ Forall (fun rl => Netip.Contains (Rule_Prefix rl) target = false) (Rules (cfg example_responder)) \/
      exists rule, first_rule (Rules (cfg example_responder)) target rule /\
        (writes tr = [] /\
           (Rule_Auto rule = true /\ ~ routed_elsewhere example_responder target tr \/
            exists na dst, MarshalMessageChecksum na target dst = None) \/
         (Rule_Auto rule = true -> routed_elsewhere example_responder target tr) /\
           exists w, writes tr = [w] /\ answers example_responder rule target src [2; 0; 0; 0; 0; 2] w))).
Proof.
  assert (exists tr, traces (handle example_responder example_ns [2; 0; 0; 0; 0; 2]) tr (Some tt) /\
            length (writes tr) = 1%nat) as (tr & Htr & Hw).
  { eexists. split; [exists None, []; split; [reflexivity|split; reflexivity]|reflexivity]. }
  exists tr. split; [exact Htr|]. split; [exact Hw|].
  apply (handle_correct example_responder example_ns [2; 0; 0; 0; 0; 2] tr (Some tt)), Htr.
Defined.
