(* ===== verification/Vpp.v ===== *)
(** * The VPP applier (vpp/client.go, apply.go, nat.go, ndproxy.go, ndptap.go, state.go)

    What netcfg sends to VPP for a device, for the NAT section and for the NDP
    proxies, and how it withdraws what an earlier run has created.  The applier
    carries a cache from names to interface indices, so its methods are functions
    of a small state monad, [ap]. *)

From S2P Require Import Prelude GoStd GoNet Effect Config VppApi Netlink.

(** ** State (vpp/state.go) *)

(* go: vpp/state.go 20-29 DevInfo *)
Record DevInfo := MkDevInfo {
  DevInfo_Type : string;
  DevInfo_HostIf : string;
  DevInfo_BdID : Z;
  DevInfo_Vni : Z;
  DevInfo_Local : string;
  DevInfo_Remote : string;
  DevInfo_Port : Z
}.

Definition DevInfo_zero : DevInfo := MkDevInfo "" "" 0 0 "" "" 0.

(* go: vpp/state.go 31-50 NatItem *)
Record NatItem := MkNatItem {
  NatItem_Kind : string;
  NatItem_Iface : string;
  NatItem_Role : string;
  NatItem_Proto : string;
  NatItem_Local : string;
  NatItem_LocalPort : Z;
  NatItem_External : string;
  NatItem_ExternalIf : string;
  NatItem_ExternalPort : Z;
  NatItem_Start : string;
  NatItem_End : string;
  NatItem_Prefix : string;
  NatItem_VRF : Z;
  NatItem_TwiceNat : bool
}.

Definition NatItem_zero : NatItem := MkNatItem "" "" "" "" "" 0 "" "" 0 "" "" "" 0 false.

(* go: vpp/state.go 52-57 Key *)
Definition NatItem_Key (i : NatItem) : string :=
  Str.join [NatItem_Kind i; NatItem_Iface i; NatItem_Role i; NatItem_Proto i; NatItem_Local i;
            Str.itoa (NatItem_LocalPort i); NatItem_External i; NatItem_ExternalIf i;
            Str.itoa (NatItem_ExternalPort i); NatItem_Start i; NatItem_End i;
            Str.itoa (NatItem_VRF i); if NatItem_TwiceNat i then "true" else "false"] "|".

(* go: vpp/state.go 66-70 NDProxyItem *)
Record NDProxyItem := MkNDProxyItem { NDProxyItem_Iface : string; NDProxyItem_IP : string }.

(* go: vpp/state.go 72-73 Key *)
Definition NDProxyItem_Key (i : NDProxyItem) : string := NDProxyItem_Iface i +:+ "|" +:+ NDProxyItem_IP i.

(* go: vpp/state.go 59-64 State *)
Record VppState := MkVppState {
  VppState_Devices : gomap DevInfo;
  VppState_Nat : list NatItem;
  VppState_NDProxy : list NDProxyItem
}.

(* go: vpp/state.go 76-76 NewState *)
Definition NewVppState : VppState := MkVppState gm_make [] [].

(** The functions of the libraries that are computed without a call: the text of
    an error, the parsers of the bindings, and encoding/json on a State (decoding
    into an empty one, with what is left of it after an error). *)
Class VppLibs := {
  ErrorText : error -> string;
  ParseMacAddress : string -> res (list Z);
  ParseAddress : string -> res VAddress;
  ParseAddressWithPrefix : string -> res VPrefix;
  ParsePrefix : string -> res VPrefix;
  ParseIP4Address : string -> res (list Z);
  ParseIP6Address : string -> res (list Z);
  ParseIP6Prefix : string -> res VPrefix;
  VppUnmarshal : string -> VppState;
  VppMarshal : VppState -> res string;
}.

Definition vppStateFile : string := "/var/lib/netcfg/vpp-state.json".

(* go: vpp/state.go 79-90 LoadState *)
Definition LoadVppState `{VppLibs} : prog sys VppState :=
  data ← call (ReadFile vppStateFile);
  Ret (match data with
       | Err _ => NewVppState
       | Ok data =>
           let s := VppUnmarshal data in
           match VppState_Devices s with
           | None => MkVppState gm_make (VppState_Nat s) (VppState_NDProxy s)
           | Some _ => s
           end
       end).

(* go: vpp/state.go 93-102 Save *)
Definition SaveVppState `{VppLibs} (s : VppState) : prog sys err :=
  try! call (MkdirAll "/var/lib/netcfg") as same_err;
  match VppMarshal s with
  | Err e => Ret (Some e)
  | Ok data => call (WriteFile vppStateFile data)
  end.

(** *** Names that are derived with FNV-1a *)

(** [hash/fnv.New32a] over the bytes of a string. *)
Fixpoint fnv32a_from (h : Z) (s : string) : Z :=
  match s with
  | EmptyString => h
  | String a s => fnv32a_from (uint32 (Z.lxor h (Net.code a) * 16777619)) s
  end.
Definition fnv32a (s : string) : Z := fnv32a_from 2166136261 s.

(* go: vpp/state.go 104-109 AutoBdID *)
Definition AutoBdID (name : string) : Z := uint32 (fnv32a name mod 16000000 + 1).

(** The verb [%08x] of an unsigned integer of 32 bits. *)
Definition hex32 (z : Z) : string :=
  Net.hex8 (Z.shiftr z 24) +:+ Net.hex8 (Z.shiftr z 16) +:+ Net.hex8 (Z.shiftr z 8) +:+ Net.hex8 z.

(* go: vpp/ndptap.go 24-30 NDPTapName *)
Definition NDPTapName (bridge : string) : string := "ncndp" +:+ hex32 (fnv32a bridge).

(** ** Client (vpp/client.go) *)

(* go: vpp/client.go 32-36 Client *)
Record Client := MkClient { Client_conn : vconn; Client_ch : vchan }.

(* go: vpp/client.go 86-94 Close *)
Definition CloseClient (c : Client) : prog sys unit :=
  call (VppCloseChannel (Client_ch c)) ;;
  call (VppDisconnect (Client_conn c)).

(* go: vpp/client.go 61-78 checkCompatibility *)
Definition checkCompatibility (c : Client) : prog sys err :=
  try! call (VppCheckCompatibility (Client_ch c)) as
    EWrap "VPP API bindings incompatible with running VPP (regenerate binapi for the target VPP version): %w" [];
  Ret None.

(* go: vpp/client.go 38-59 Connect *)
Definition Connect (sock : string) : prog sys (res Client) :=
  let sock := if Str.is_empty sock then "/run/vpp/api.sock" else sock in
  let! conn := call (VppConnect sock) as EWrap "connect VPP at %s: %w" [sock];
  ch ← call (VppNewAPIChannel conn);
  match ch with
  | Err e => call (VppDisconnect conn) ;; Ret (Err (EWrap "open VPP API channel: %w" [] e))
  | Ok ch =>
      let c := MkClient conn ch in
      e ← checkCompatibility c;
      match e with
      | Some e => CloseClient c ;; Ret (Err e)
      | None => Ret (Ok c)
      end
  end.

(** ** The applier's monad *)

(** The cache is the only state of the applier; its service clients all use
    the one connection. *)
(* go: vpp/apply.go 36-51 Applier *)
Record Applier := MkApplier { Applier_conn : vconn; Applier_idx : gmap string ifindex }.

(* go: vpp/apply.go 53-69 NewApplier *)
Definition NewApplier (c : Client) : Applier := MkApplier (Client_conn c) ∅.

Definition ap (A : Type) : Type := Applier -> prog sys (A * Applier).

#[export] Instance ap_mret : MRet ap := fun A x a => Ret (x, a).
#[export] Instance ap_mbind : MBind ap := fun A B f p a => '(x, a) ← p a; f x a.

Definition rpc {X} (m : vpp X) : ap X := fun a => x ← call (Vpp (Applier_conn a) m); Ret (x, a).
Definition ap_lift {A} (o : option A) : ap A :=
  fun a => match o with Some x => Ret (x, a) | None => Crash end.
(** A program that is no message to VPP. *)
Definition ap_prog {A} (p : prog sys A) : ap A := fun a => x ← p; Ret (x, a).

(** [a.idx[name]] and [a.idx[name] = i]. *)
Definition cached (name : string) : ap (option ifindex) := fun a => Ret (Applier_idx a !! name, a).
Definition cache (name : string) (i : ifindex) : ap unit :=
  fun a => Ret (tt, MkApplier (Applier_conn a) (<[name := i]> (Applier_idx a))).

Fixpoint ap_each {A} (l : list A) (body : A -> ap unit) : ap unit :=
  match l with
  | [] => mret tt
  | x :: l => body x ;; ap_each l body
  end.

(** A loop whose body may return an error from the enclosing function. *)
Fixpoint ap_each_err {A} (l : list A) (body : A -> ap err) : ap err :=
  match l with
  | [] => mret None
  | x :: l => e ← body x; match e with Some e => mret (Some e) | None => ap_each_err l body end
  end.

Definition ap_when (b : bool) (p : ap unit) : ap unit := if b then p else mret tt.
(** A message whose error is only logged. *)
Definition ap_ignore (p : ap err) : ap unit := _ ← p; mret tt.
(** The first answer of a message that answers with a value and an error. *)
Definition rpc_err {X} (m : vpp (res X)) : ap err := r ← rpc m; mret (res_err r).

(** [get~ x := p as w ; q] and [try~ p as w ; q]: [return w(err)] when there is
    one, in a method that returns an error. *)
Notation "'get~' x := p 'as' w ; q" :=
  (mbind (M := ap) (fun r => match r with Err e => mret (Some (w e)) | Ok x => q end) p)
  (at level 20, x name, p at level 100, w at level 100, q at level 200,
   right associativity, only parsing) : netcfg_scope.
Notation "'try~' p 'as' w ; q" :=
  (mbind (M := ap) (fun e : option error => match e with Some e => mret (Some (w e)) | None => q end) p)
  (at level 20, p at level 100, w at level 100, q at level 200, right associativity,
   only parsing) : netcfg_scope.
(** The same in a method that returns a value and an error. *)
Notation "'let~' x := p 'as' w ; q" :=
  (mbind (M := ap) (fun r => match r with Err e => mret (Err (w e)) | Ok x => q end) p)
  (at level 20, x name, p at level 100, w at level 100, q at level 200,
   right associativity, only parsing) : netcfg_scope.

(** ** Interfaces (vpp/apply.go) *)

(** The loop over a dump: the first entry that [sel] selects, or the error that
    ends the stream. *)
Fixpoint first_index (sel : IfDetails -> bool) (l : list IfDetails) (e : err) : res (option ifindex) :=
  match l with
  | [] => match e with Some e => Err e | None => Ok None end
  | d :: l => if sel d then Ok (Some (IfDetails_SwIfIndex d)) else first_index sel l e
  end.

Definition find_interface (sel : IfDetails -> bool) : ap (res (option ifindex)) :=
  let~ stream := rpc SwInterfaceDump as same_err;
  mret (first_index sel stream.1 stream.2).

(* go: vpp/apply.go 71-90 findByName *)
Definition findByName (name : string) : ap (res (option ifindex)) :=
  find_interface (fun d => Str.eqb (IfDetails_InterfaceName d) name).

(* go: vpp/apply.go 161-180 findByTag *)
Definition findByTag (tag : string) : ap (res (option ifindex)) :=
  find_interface (fun d => Str.eqb (IfDetails_Tag d) tag).

(* go: vpp/apply.go 149-159 resolve *)
Definition resolve (name : string) : ap (res (option ifindex)) :=
  i ← cached name;
  match i with
  | Some i => mret (Ok (Some i))
  | None =>
      r ← findByTag name;
      match r with
      | Ok (Some i) => cache name i ;; mret r
      | _ => mret r
      end
  end.

(* go: vpp/apply.go 182-187 tagInterface *)
Definition tagInterface (i : ifindex) (tag : string) : ap err := rpc (SwInterfaceTagAddDel true i tag).

(** The end of the functions that create: the tag, whose error is logged, and
    the cache. *)
(* go: vpp/apply.go 206-209 ensureAfPacket *)
Definition adopt (i : ifindex) (name : string) : ap unit :=
  ap_ignore (tagInterface i name) ;; cache name i.

(** [if idx, ok, err := a.resolve(ctx, name); err != nil { ... } else if ok { return idx }],
    then the creation. *)
Definition ensure (name : string) (create : ap (res ifindex)) : ap (res ifindex) :=
  let~ found := resolve name as same_err;
  match found with
  | Some i => mret (Ok i)
  | None =>
      let~ i := create as same_err;
      adopt i name ;; mret (Ok i)
  end.

(** A message that creates an interface. *)
Definition rpc_create (m : vpp (res ifindex)) (wrap : error -> error) : ap (res ifindex) :=
  r ← rpc m; mret (match r with Ok i => Ok i | Err e => Err (wrap e) end).

(* go: vpp/apply.go 189-211 ensureAfPacket *)
Definition ensureAfPacket (name hostIf : string) : ap (res ifindex) :=
  ensure name (rpc_create (AfPacketCreateV3 hostIf) (EWrap "af_packet create %s (host-if %s): %w" [name; hostIf])).

(* go: vpp/apply.go 213-229 ensureLoopback *)
Definition ensureLoopback (name : string) : ap (res ifindex) :=
  ensure name (rpc_create CreateLoopback (EWrap "create loopback %s: %w" [name])).

Section applier.
Context `{VppLibs}.

(* go: vpp/apply.go 92-125 ensureAvf *)
Definition ensureAvf (name pci : string) : ap (res ifindex) :=
  ensure name (
    att ← rpc (DevAttach ("pci/" +:+ pci) "iavf");
    match att with
    | Err e =>
        mret (Err (if Str.contains (ErrorText e) "unknown message"
                   then EWrap "avf %s: VPP dev-framework binding mismatch — regenerate dev binapi for the target VPP: %w" [name] e
                   else EWrap "dev attach %s (pci %s, iavf): %w" [name; pci] e))
    | Ok att =>
        if negb (DevReply_Retval att =? 0) then
          mret (Err (EMsg "dev attach %s failed: %s" [name; DevReply_ErrorString att]))
        else
          let~ rep := rpc (DevCreatePortIf (DevReply_Index att) name) as EWrap "dev create port-if %s: %w" [name];
          if negb (DevReply_Retval rep =? 0) then
            mret (Err (EMsg "dev create port-if %s failed: %s" [name; DevReply_ErrorString rep]))
          else mret (Ok (DevReply_Index rep))
    end).

(* go: vpp/apply.go 127-147 ensureDpdk *)
Definition ensureDpdk (name : string) : ap (res ifindex) :=
  ensure name (
    let~ found := findByName name as same_err;
    match found with
    | None => mret (Err (EMsg "dpdk interface %q not present in VPP — apply generated /etc/vpp/startup.conf and restart VPP" [name]))
    | Some i => mret (Ok i)
    end).

(* go: vpp/apply.go 231-238 setUp *)
Definition setUp (i : ifindex) (up : bool) : ap err := rpc (SwInterfaceSetFlags i up).

(* go: vpp/apply.go 240-246 setMTU *)
Definition setMTU (i : ifindex) (mtu : Z) : ap err := rpc (SwInterfaceSetMtu i [uint32 mtu; 0; 0; 0]).

(* go: vpp/apply.go 248-255 setMAC *)
Definition setMAC (i : ifindex) (mac : string) : ap err :=
  match ParseMacAddress mac with
  | Err e => mret (Some (EWrap "parse mac %q: %w" [mac] e))
  | Ok m => rpc (SwInterfaceSetMacAddress i m)
  end.

(* go: vpp/apply.go 257-271 addAddress *)
Definition addAddress (i : ifindex) (cidr : string) : ap err :=
  match ParseAddressWithPrefix cidr with
  | Err e => mret (Some (EWrap "parse address %q: %w" [cidr] e))
  | Ok pfx =>
      e ← rpc (SwInterfaceAddDelAddress i true pfx);
      mret (match e with
            | Some e' => if Str.contains (ErrorText e') "Address in use" then None else e
            | None => None
            end)
  end.

(* go: vpp/apply.go 273-308 addRoute *)
Definition vpp_addRoute (to via : string) (i : ifindex) (table : Z) : ap err :=
  match ParseAddress via with
  | Err e => mret (Some (EWrap "parse nexthop %q: %w" [via] e))
  | Ok nh =>
      let proto := if VAddress_IP6 nh then FIB_API_PATH_NH_PROTO_IP6 else FIB_API_PATH_NH_PROTO_IP4 in
      let to := if Str.equal_fold to "default" then (if VAddress_IP6 nh then "::/0" else "0.0.0.0/0") else to in
      match ParsePrefix to with
      | Err e => mret (Some (EWrap "parse route dst %q: %w" [to] e))
      | Ok dst => rpc (IPRouteAddDel true table dst (uint32 i) proto (VAddress_Un nh))
      end
  end.

(** The loop over the routes of a device, which passes over null ones. *)
Definition add_vpp_routes (i : ifindex) (routes : list (ptr Route)) : ap unit :=
  ap_each routes (fun r =>
    match r with
    | None => mret tt
    | Some r =>
        if Str.is_empty (Route_To r) || Str.is_empty (Route_Via r) then mret tt
        else ap_ignore (vpp_addRoute (Route_To r) (Route_Via r) i (uint32 (Route_Table r)))
    end).

Definition add_vpp_addresses (i : ifindex) (addrs : list Address) : ap unit :=
  ap_each addrs (fun addr => ap_ignore (addAddress i (Address_CIDR addr))).

(** What ApplyEthernet has inline and configureL3 repeats. *)
Definition set_link (i : ifindex) (mtu : Z) (mac : string) (up : bool) : ap unit :=
  ap_when (0 <? mtu) (ap_ignore (setMTU i mtu)) ;;
  ap_when (negb (Str.is_empty mac)) (ap_ignore (setMAC i mac)) ;;
  ap_ignore (setUp i up).

(* go: vpp/apply.go 404-433 configureL3 *)
Definition configureL3 (i : ifindex) (mtu : Z) (mac : string) (up : bool) (addrs : list Address)
    (routes : list (ptr Route)) : ap unit :=
  set_link i mtu mac up ;;
  add_vpp_addresses i addrs ;;
  add_vpp_routes i routes.

(* go: vpp/apply.go 668-674 vppPCI *)
Definition vppPCI (e : Ethernet) : string :=
  match Ethernet_VPP e with Some v => VPPDevice_PCI v | None => "" end.

(** The mode of a device and its host interface, as ApplyEthernet and
    buildDesiredVPPState both find them. *)
(* go: vpp/apply.go 315-324 ApplyEthernet *)
Definition vpp_mode (e : Ethernet) : string :=
  match Ethernet_VPP e with
  | Some v => if negb (Str.is_empty (VPPDevice_Mode v)) then Str.to_lower (VPPDevice_Mode v) else "af-packet"
  | None => "af-packet"
  end.
Definition vpp_hostif (name : string) (e : Ethernet) : string :=
  match Ethernet_VPP e with
  | Some v => if negb (Str.is_empty (VPPDevice_HostIf v)) then VPPDevice_HostIf v else name
  | None => name
  end.

(** The interface of a device; [Ok None] is a mode that is not implemented. *)
(* go: vpp/apply.go 326-345 ApplyEthernet *)
Definition ensure_ethernet (name : string) (e : Ethernet) : ap (res (option ifindex)) :=
  let some (p : ap (res ifindex)) : ap (res (option ifindex)) :=
    r ← p; mret (match r with Ok i => Ok (Some i) | Err e => Err e end) in
  let mode := vpp_mode e in
  if Str.eqb mode "af-packet" then some (ensureAfPacket name (vpp_hostif name e))
  else if Str.eqb mode "loopback" then some (ensureLoopback name)
  else if Str.eqb mode "avf" then some (ensureAvf name (vppPCI e))
  else if Str.eqb mode "dpdk" then some (ensureDpdk name)
  else if existsb (Str.eqb mode) ["rdma"; "memif"; "tap"] then mret (Ok None)
  else mret (Err (EMsg "vpp device %s: unsupported mode %q" [name; mode])).

(* go: vpp/apply.go 310-402 ApplyEthernet *)
Definition ApplyEthernet (name : string) (e : Ethernet) : ap err :=
  get~ found := ensure_ethernet name e as same_err;
  match found with
  | None => mret None
  | Some i =>
      let mode := Str.to_lower (Ethernet_ActivationMode e) in
      let up := negb (existsb (Str.eqb mode) ["off"; "manual"]) in
      set_link i (Ethernet_MTU e) (Ethernet_MacAddress e) up ;;
      add_vpp_addresses i (Ethernet_Addresses e) ;;
      add_vpp_routes i (Ethernet_Routes e) ;;
      ap_when (negb (Str.is_empty (Ethernet_Gateway4 e)))
        (ap_ignore (vpp_addRoute "0.0.0.0/0" (Ethernet_Gateway4 e) i 0)) ;;
      ap_when (negb (Str.is_empty (Ethernet_Gateway6 e)))
        (ap_ignore (vpp_addRoute "::/0" (Ethernet_Gateway6 e) i 0)) ;;
      mret None
  end.

(* go: vpp/apply.go 435-449 bondModeFromConfig *)
Definition bondModeFromConfig (mode : string) : VBondMode :=
  let m := Str.to_lower mode in
  if existsb (Str.eqb m) ["802.3ad"; "lacp"] then BOND_API_MODE_LACP
  else if Str.eqb m "active-backup" then BOND_API_MODE_ACTIVE_BACKUP
  else if Str.eqb m "balance-xor" then BOND_API_MODE_XOR
  else if Str.eqb m "broadcast" then BOND_API_MODE_BROADCAST
  else BOND_API_MODE_ROUND_ROBIN.

(** The member of a bond or of a bridge, if VPP has it. *)
Definition with_member (m : string) (f : ifindex -> ap unit) : ap unit :=
  r ← resolve m;
  match r with
  | Ok (Some i) => f i
  | _ => mret tt
  end.

(* go: vpp/apply.go 451-494 ApplyBond *)
Definition ApplyBond (name : string) (b : Config.Bond) : ap err :=
  get~ i := ensure name
      (rpc_create (BondCreate2 (bondModeFromConfig (match Bond_Parameters b with
                                                    | Some p => BondParameters_Mode p | None => "" end)) all_ones32)
         (EWrap "bond create %s: %w" [name])) as same_err;
  ap_each (Bond_Interfaces b) (fun m => with_member m (fun mi => ap_ignore (rpc (BondAddMember mi i)))) ;;
  configureL3 i (Bond_MTU b) (Bond_MacAddress b) true (Bond_Addresses b) (Bond_Routes b) ;;
  mret None.

(* go: vpp/apply.go 496-525 ApplyVlan *)
Definition ApplyVlan (name : string) (vl : Vlan) : ap err :=
  get~ i := ensure name (
      let~ parent := resolve (Vlan_Link vl) as same_err;
      match parent with
      | None => mret (Err (EMsg "vlan %s: parent %q not found in VPP" [name; Vlan_Link vl]))
      | Some p =>
          rpc_create (CreateVlanSubif p (uint32 (Vlan_ID vl)))
            (EWrap "create vlan subif %s (parent %s vlan %d): %w" [name; Vlan_Link vl; Str.itoa (Vlan_ID vl)])
      end) as same_err;
  configureL3 i (Vlan_MTU vl) (Vlan_MacAddress vl) true (Vlan_Addresses vl) (Vlan_Routes vl) ;;
  mret None.

(* go: vpp/apply.go 546-551 ApplyVxlan *)
Definition vxlan_port (vx : Vxlan) : Z :=
  if 0 <? Vxlan_DestPort vx then uint16 (Vxlan_DestPort vx)
  else if 0 <? Vxlan_Port vx then uint16 (Vxlan_Port vx) else 4789.

(* go: vpp/apply.go 527-570 ApplyVxlan *)
Definition ApplyVxlan (name : string) (vx : Vxlan) : ap err :=
  get~ i := ensure name (
      match ParseAddress (Vxlan_Local vx), ParseAddress (Vxlan_Remote vx) with
      | Err e, _ => mret (Err (EWrap "vxlan %s: parse local %q: %w" [name; Vxlan_Local vx] e))
      | _, Err e => mret (Err (EWrap "vxlan %s: parse remote %q: %w" [name; Vxlan_Remote vx] e))
      | Ok src, Ok dst =>
          rpc_create (VxlanAddDelTunnelV3 true all_ones32 src dst (vxlan_port vx) (uint32 (Vxlan_ID vx)))
            (EWrap "vxlan create %s (vni %d): %w" [name; Str.itoa (Vxlan_ID vx)])
      end) as same_err;
  ap_ignore (setUp i true) ;;
  mret None.

(** The bridge domain of a bridge, found in the same way by three functions. *)
(* go: cmd/vpp.go 239-245 ndpTapBdID *)
Definition ndpTapBdID (name : string) (b : Bridge) : Z :=
  match Bridge_VPP b with
  | Some v => if 0 <? VPPDevice_BdID v then uint32 (VPPDevice_BdID v) else AutoBdID name
  | None => AutoBdID name
  end.

(* go: vpp/apply.go 572-613 ApplyBridge *)
Definition ApplyBridge (name : string) (b : Bridge) : ap err :=
  let bd := ndpTapBdID name b in
  e ← rpc (BridgeDomainAddDel true bd true true true true);
  match (match e with
         | Some e' => if Str.contains (ErrorText e') "already exists" then None else e
         | None => None
         end) with
  | Some e => mret (Some (EWrap "bridge domain %s (bd %d): %w" [name; Str.itoa bd] e))
  | None =>
      ap_each (Bridge_Interfaces b) (fun m => with_member m (fun mi =>
        ap_ignore (rpc (SwInterfaceSetL2Bridge mi bd L2_API_PORT_TYPE_NORMAL true)))) ;;
      match Bridge_Addresses b with
      | [] => mret None
      | _ =>
          get~ bvi := ensureLoopback (name +:+ "-bvi") as EWrap "bridge %s BVI: %w" [name];
          ap_ignore (rpc (SwInterfaceSetL2Bridge bvi bd L2_API_PORT_TYPE_BVI true)) ;;
          configureL3 bvi (Bridge_MTU b) (Bridge_MacAddress b) true (Bridge_Addresses b) (Bridge_Routes b) ;;
          mret None
      end
  end.

(** *** Deletion *)

(** A device that is looked up by its tag, and left when there is none. *)
Definition delete_tagged (tag : string) (m : ifindex -> vpp err) : ap err :=
  get~ found := findByTag tag as same_err;
  match found with
  | None => mret None
  | Some i => rpc (m i)
  end.

(* go: vpp/ndptap.go 69-77 DeleteNDPTap *)
Definition DeleteNDPTap (hostIf : string) : ap err := delete_tagged hostIf TapDeleteV2.

(** The zero value of an address of the bindings. *)
Definition VAddress_zero : VAddress := MkVAddress false (replicate 16 0).
Definition IP4_zero : list Z := replicate 4 0.

(** The value of a function whose error is dropped. *)
Definition value_or {A} (r : res A) (zero : A) : A := match r with Ok a => a | Err _ => zero end.

(* go: vpp/apply.go 615-666 Delete *)
Definition Delete (name : string) (info : DevInfo) : ap err :=
  let type := DevInfo_Type info in
  if Str.eqb type "af-packet" then
    if Str.is_empty (DevInfo_HostIf info) then mret None
    else rpc (AfPacketDelete (DevInfo_HostIf info))
  else if Str.eqb type "loopback" then delete_tagged name DeleteLoopback
  else if Str.eqb type "bond" then delete_tagged name BondDelete
  else if Str.eqb type "vlan" then delete_tagged name DeleteSubif
  else if Str.eqb type "vxlan" then
    let port := if 0 <? DevInfo_Port info then uint16 (DevInfo_Port info) else 4789 in
    rpc_err (VxlanAddDelTunnelV3 false 0 (value_or (ParseAddress (DevInfo_Local info)) VAddress_zero)
               (value_or (ParseAddress (DevInfo_Remote info)) VAddress_zero) port (DevInfo_Vni info))
  else if Str.eqb type "bridge" then rpc (BridgeDomainAddDel false (DevInfo_BdID info) false false false false)
  else if Str.eqb type "ndp-tap" then DeleteNDPTap name
  else mret None.

(* go: vpp/ndptap.go 32-67 EnsureNDPTap *)
Definition EnsureNDPTap (bridge : string) (bd : Z) : ap (res string) :=
  let hostIf := NDPTapName bridge in
  let~ found := findByTag hostIf as same_err;
  let~ i := match found with
            | Some i => mret (Ok i)
            | None => rpc_create (TapCreateV3 hostIf hostIf)
                        (EWrap "ndp-tap create %s (bridge %s): %w" [hostIf; bridge])
            end as same_err;
  e ← rpc (SwInterfaceSetL2Bridge i bd L2_API_PORT_TYPE_NORMAL true);
  match e with
  | Some e => mret (Err (EWrap "ndp-tap %s join bd %d: %w" [hostIf; Str.itoa bd] e))
  | None => ap_ignore (setUp i true) ;; mret (Ok hostIf)
  end.

(** ** NAT (vpp/nat.go) *)

(* go: vpp/nat.go 38-48 natProto *)
Definition natProto (p : string) : Z :=
  let p := Str.to_lower p in
  if Str.eqb p "tcp" then 6 else if Str.eqb p "udp" then 17 else if Str.eqb p "icmp" then 1 else 0.

(* go: vpp/nat.go 50-62 swallowExists *)
Definition swallowExists (e : err) : err :=
  match e with
  | None => None
  | Some e' =>
      let t := ErrorText e' in
      if Str.contains t "exists" || Str.contains t "already" || Str.contains t "in use" ||
         Str.contains t "VALUE_EXIST" then None else e
  end.

(** [last := first; if end != "" { last = parse(end) }], with the error. *)
Definition last_address (first : list Z) (end_ : string) : res (list Z) :=
  if Str.is_empty end_ then Ok first else ParseIP4Address end_.

(** The same where the error is dropped. *)
Definition last_address_or (first : list Z) (end_ : string) : list Z :=
  value_or (last_address first end_) IP4_zero.

Definition twice (b : bool) : list NatFlag := if b then [NAT_IS_TWICE_NAT] else [].

(** An interface of a NAT section; a null one makes the code panic. *)
Definition with_interface (i : ptr NatInterface) (f : string -> ifindex -> ap unit) : ap unit :=
  i ← ap_lift i;
  with_member (NatInterface_Name i) (f (NatInterface_Role i)).

(* go: vpp/nat.go 82-107 applyNat44 *)
Definition nat44_interface (i : ptr NatInterface) : ap unit :=
  with_interface i (fun role idx =>
    let role := Str.to_lower role in
    if Str.eqb role "inside" then ap_ignore (rpc (Nat44InterfaceAddDelFeature true [NAT_IS_INSIDE] idx))
    else if Str.eqb role "outside" then ap_ignore (rpc (Nat44InterfaceAddDelFeature true [NAT_IS_OUTSIDE] idx))
    else if Str.eqb role "output" then ap_ignore (rpc (Nat44EdAddDelOutputInterface true idx))
    else mret tt).

(* go: vpp/nat.go 110-132 applyNat44 *)
Definition nat44_pool (p : ptr NatPool) : ap unit :=
  p ← ap_lift p;
  match ParseIP4Address (NatPool_Start p) with
  | Err _ => mret tt
  | Ok first =>
      match last_address first (NatPool_End p) with
      | Err _ => mret tt
      | Ok last =>
          ap_ignore (rpc (Nat44AddDelAddressRange true first last (uint32 (NatPool_VRF p))
                            (twice (default false (NatPool_TwiceNat p)))))
      end
  end.

(** The flags of a static mapping. *)
(* go: vpp/nat.go 155-162 applyNat44Static *)
Definition static_flags (proto : string) (twiceNat : bool) : list NatFlag :=
  (if Str.is_empty proto then [NAT_IS_ADDR_ONLY] else []) ++ twice twiceNat.

(** A static mapping that names no external address or interface. *)
(* go: vpp/nat.go 146-154 applyNat44Static *)
Definition static_mapping (isAdd : bool) (loc : list Z) (proto : string) (localPort externalPort vrf : Z)
    (twiceNat : bool) : StaticMapping := {|
  StaticMapping_IsAdd := isAdd;
  StaticMapping_Flags := static_flags proto twiceNat;
  StaticMapping_LocalIPAddress := loc;
  StaticMapping_ExternalIPAddress := IP4_zero;
  StaticMapping_Protocol := natProto proto;
  StaticMapping_LocalPort := uint16 localPort;
  StaticMapping_ExternalPort := uint16 externalPort;
  StaticMapping_ExternalSwIfIndex := all_ones32;
  StaticMapping_VrfID := uint32 vrf
|}.

(* go: vpp/nat.go 140-188 applyNat44Static *)
Definition applyNat44Static (s : ptr NatStatic) : ap unit :=
  s ← ap_lift s;
  match ParseIP4Address (NatStatic_Local s) with
  | Err _ => mret tt
  | Ok loc =>
      let m := static_mapping true loc (NatStatic_Proto s) (NatStatic_LocalPort s) (NatStatic_ExternalPort s)
                 (NatStatic_VRF s) (default false (NatStatic_TwiceNat s)) in
      if negb (Str.is_empty (NatStatic_ExternalInterface s)) then
        with_member (NatStatic_ExternalInterface s) (fun i =>
          ap_ignore (rpc (Nat44AddDelStaticMapping (m <| StaticMapping_ExternalSwIfIndex := i |>))))
      else if negb (Str.is_empty (NatStatic_External s)) then
        match ParseIP4Address (NatStatic_External s) with
        | Err _ => mret tt
        | Ok ext => ap_ignore (rpc (Nat44AddDelStaticMapping (m <| StaticMapping_ExternalIPAddress := ext |>)))
        end
      else mret tt
  end.

(** [x != nil && !*x]. *)
Definition disabled (enable : option bool) : bool := negb (default true enable).

(* go: vpp/nat.go 64-138 applyNat44 *)
Definition applyNat44 (n : Nat44) : ap unit :=
  if disabled (Nat44_Enable n) then mret tt
  else
    e ← rpc (Nat44EdPluginEnableDisable (uint32 (Nat44_Sessions n)) (uint32 (Nat44_InsideVRF n))
               (uint32 (Nat44_OutsideVRF n)));
    match swallowExists e with
    | Some _ => mret tt
    | None =>
        ap_each (Nat44_Interfaces n) nat44_interface ;;
        ap_each (Nat44_Pools n) nat44_pool ;;
        ap_each (Nat44_Static n) applyNat44Static
    end.

Definition nat64_flag (role : string) : NatFlag :=
  if Str.equal_fold role "inside" then NAT_IS_INSIDE else NAT_IS_OUTSIDE.

(* go: vpp/nat.go 190-239 applyNat64 *)
Definition applyNat64 (n : Nat64) : ap unit :=
  if disabled (Nat64_Enable n) then mret tt
  else
    e ← rpc Nat64PluginEnableDisable;
    match swallowExists e with
    | Some _ => mret tt
    | None =>
        ap_when (negb (Str.is_empty (Nat64_Prefix n)))
          (match ParseIP6Prefix (Nat64_Prefix n) with
           | Err _ => mret tt
           | Ok pfx => ap_ignore (rpc (Nat64AddDelPrefix true pfx 0))
           end) ;;
        ap_each (Nat64_Interfaces n) (fun i =>
          with_interface i (fun role idx => ap_ignore (rpc (Nat64AddDelInterface true [nat64_flag role] idx)))) ;;
        ap_each (Nat64_Pools n) (fun p =>
          p ← ap_lift p;
          match ParseIP4Address (NatPool_Start p) with
          | Err _ => mret tt
          | Ok start => ap_ignore (rpc (Nat64AddDelPoolAddrRange true start (last_address_or start (NatPool_End p))
                                          (uint32 (NatPool_VRF p))))
          end)
    end.

(* go: vpp/nat.go 241-265 applyNat66 *)
Definition applyNat66 (n : Nat66) : ap unit :=
  e ← rpc Nat66PluginEnableDisable;
  match swallowExists e with
  | Some _ => mret tt
  | None =>
      ap_each (Nat66_Static n) (fun s =>
        s ← ap_lift s;
        match ParseIP6Address (Nat66Static_Local s), ParseIP6Address (Nat66Static_External s) with
        | Ok loc, Ok ext => ap_ignore (rpc (Nat66AddDelStaticMapping true loc ext (uint32 (Nat66Static_VRF s))))
        | _, _ => mret tt
        end)
  end.

(* go: vpp/nat.go 25-36 ApplyNat *)
Definition ApplyNat (n : VPPNat) : ap unit :=
  (match VPPNat_Nat44 n with Some n => applyNat44 n | None => mret tt end) ;;
  (match VPPNat_Nat64 n with Some n => applyNat64 n | None => mret tt end) ;;
  (match VPPNat_Nat66 n with Some n => applyNat66 n | None => mret tt end).

(** An interface of a rule to be withdrawn, which is left when VPP has none. *)
Definition if_resolved (iface : string) (f : ifindex -> ap err) : ap err :=
  get~ found := resolve iface as same_err;
  match found with
  | None => mret None
  | Some i => f i
  end.

(** [x, err := parse(s); if err != nil { return err }]. *)
Definition if_parsed {A} (r : res A) (f : A -> ap err) : ap err :=
  match r with Err e => mret (Some e) | Ok a => f a end.

(* go: vpp/nat.go 316-349 DeleteNat *)
Definition delete_nat44_static (it : NatItem) : ap err :=
  if_parsed (ParseIP4Address (NatItem_Local it)) (fun loc =>
    let m := static_mapping false loc (NatItem_Proto it) (NatItem_LocalPort it) (NatItem_ExternalPort it)
               (NatItem_VRF it) (NatItem_TwiceNat it) in
    if negb (Str.is_empty (NatItem_ExternalIf it)) then
      if_resolved (NatItem_ExternalIf it) (fun i =>
        rpc (Nat44AddDelStaticMapping (m <| StaticMapping_ExternalSwIfIndex := i |>)))
    else if negb (Str.is_empty (NatItem_External it)) then
      if_parsed (ParseIP4Address (NatItem_External it)) (fun ext =>
        rpc (Nat44AddDelStaticMapping (m <| StaticMapping_ExternalIPAddress := ext |>)))
    else rpc (Nat44AddDelStaticMapping m)).

(* go: vpp/nat.go 267-380 DeleteNat *)
Definition DeleteNat (it : NatItem) : ap err :=
  let kind := NatItem_Kind it in
  let vrf := uint32 (NatItem_VRF it) in
  if Str.eqb kind "nat44-if" then
    if_resolved (NatItem_Iface it) (fun i =>
      let role := Str.to_lower (NatItem_Role it) in
      if Str.eqb role "output" then rpc (Nat44EdAddDelOutputInterface false i)
      else if Str.eqb role "inside" then rpc (Nat44InterfaceAddDelFeature false [NAT_IS_INSIDE] i)
      else rpc (Nat44InterfaceAddDelFeature false [NAT_IS_OUTSIDE] i))
  else if Str.eqb kind "nat44-pool" then
    if_parsed (ParseIP4Address (NatItem_Start it)) (fun first =>
      rpc (Nat44AddDelAddressRange false first (last_address_or first (NatItem_End it)) vrf
             (twice (NatItem_TwiceNat it))))
  else if Str.eqb kind "nat44-static" then delete_nat44_static it
  else if Str.eqb kind "nat64-if" then
    if_resolved (NatItem_Iface it) (fun i => rpc (Nat64AddDelInterface false [nat64_flag (NatItem_Role it)] i))
  else if Str.eqb kind "nat64-prefix" then
    if_parsed (ParseIP6Prefix (NatItem_Prefix it)) (fun pfx => rpc (Nat64AddDelPrefix false pfx vrf))
  else if Str.eqb kind "nat64-pool" then
    if_parsed (ParseIP4Address (NatItem_Start it)) (fun start =>
      rpc (Nat64AddDelPoolAddrRange false start (last_address_or start (NatItem_End it)) vrf))
  else if Str.eqb kind "nat66-static" then
    if_parsed (ParseIP6Address (NatItem_Local it)) (fun loc =>
      if_parsed (ParseIP6Address (NatItem_External it)) (fun ext =>
        rpc (Nat66AddDelStaticMapping false loc ext vrf)))
  else mret None.

(** ** NDP proxies (vpp/ndproxy.go) *)

(* go: vpp/ndproxy.go 21-46 ApplyNDProxy *)
Definition ApplyNDProxy (iface : string) (addrs : list string) : ap err :=
  match addrs with
  | [] => mret None
  | _ =>
      get~ found := resolve iface as same_err;
      match found with
      | None => mret (Some (EMsg "nd-proxy: interface %q not found in VPP" [iface]))
      | Some i =>
          ap_each_err addrs (fun s =>
            match ParseIP6Address s with
            | Err e => mret (Some (EWrap "nd-proxy: invalid IPv6 %q: %w" [s] e))
            | Ok ip =>
                e ← rpc (IP6ndProxyAddDel true i ip);
                mret (match swallowExists e with
                      | Some e => Some (EWrap "nd-proxy add %s on %s: %w" [s; iface] e)
                      | None => None
                      end)
            end)
      end
  end.

(* go: vpp/ndproxy.go 48-65 DeleteNDProxy *)
Definition DeleteNDProxy (item : NDProxyItem) : ap err :=
  if_resolved (NDProxyItem_Iface item) (fun i =>
    match ParseIP6Address (NDProxyItem_IP item) with
    | Err e => mret (Some (EWrap "nd-proxy del: invalid IPv6 %q: %w" [NDProxyItem_IP item] e))
    | Ok ip => rpc (IP6ndProxyAddDel false i ip)
    end).
End applier.
