(* ===== verification/Examples.v ===== *)
(** * Functions of the libraries for examples

    One instance of the classes that stand for the functions of third-party
    libraries, to run the definitions and to instantiate the theorems. *)

From S2P Require Import Prelude GoStd GoNet Effect VppApi Netlink Vpp.

Definition libs : Libs := {|
  ParseAddr s := match Net.ParseCIDR s with
                 | Some (ip, n) => Ok (MkAddr (Net.MkIPNet ip (Net.IPNet_Mask n)) "" 0 0)
                 | None => Err (ESys "invalid CIDR address" 0)
                 end;
  StringToBondLacpRate s := None;
  StringToBondXmitHashPolicy s := None;
  GlobMatch p s := Str.eqb p s;
  ParseKey s := Ok s;
  ResolveUDPAddr s := Ok s;
  Sha256 s := [] |}.

Definition vpp_libs : VppLibs := {|
  ErrorText e := "";
  ParseMacAddress s := match Net.ParseMAC s with Some m => Ok m | None => Err (ESys "mac" 0) end;
  ParseAddress s := match Net.ParseIP s with
                    | Some ip => Ok (MkVAddress false ip) | None => Err (ESys "address" 0) end;
  ParseAddressWithPrefix s := Err (ESys "prefix" 0);
  ParsePrefix s := Err (ESys "prefix" 0);
  ParseIP4Address s := match Net.ParseIP s ≫= Net.To4 with
                       | Some ip => Ok ip | None => Err (ESys "address" 0) end;
  ParseIP6Address s := match Net.ParseIP s with Some ip => Ok ip | None => Err (ESys "address" 0) end;
  ParseIP6Prefix s := Err (ESys "prefix" 0);
  VppUnmarshal s := NewVppState;
  VppMarshal s := Ok "{}" |}.
