(* ===== verification/VppSetup.v ===== *)
(** * The VPP devices of a configuration (cmd/vpp.go)

    Which devices of a namespace belong to VPP, what is done with them, and which
    leftovers of an earlier run are withdrawn. *)

From S2P Require Import Prelude GoStd GoNet Effect Config Validate VppApi Netlink Host Vpp.

(** ** The split (cmd/vpp.go) *)

(* go: cmd/vpp.go 46-54 vppSet *)
Record vppSet := MkvppSet {
  vppSet_ethernets : gomap (ptr Ethernet);
  vppSet_bridges : gomap (ptr Bridge);
  vppSet_bonds : gomap (ptr Config.Bond);
  vppSet_vlans : gomap (ptr Vlan);
  vppSet_vxlans : gomap (ptr Vxlan);
  vppSet_tunnels : gomap (ptr Tunnel)
}.

(* go: cmd/vpp.go 56-58 empty *)
Definition vppSet_empty (v : vppSet) : bool :=
  Nat.eqb (gm_len (vppSet_ethernets v) + gm_len (vppSet_bridges v) + gm_len (vppSet_bonds v) +
           gm_len (vppSet_vlans v) + gm_len (vppSet_vxlans v) + gm_len (vppSet_tunnels v)) 0.

(** One of the six loops of splitVPPDevices: the devices of VPP and the others. *)
(* go: cmd/vpp.go 73-81 splitVPPDevices *)
Definition split_map `{RangeOrder} {A} (site : Z) (devices : gomap (ptr A)) (managed : A -> bool)
    : gomap (ptr A) * gomap (ptr A) :=
  fold_left (fun '(vpp, kernel) '(name, e) =>
      match e with
      | Some d => if managed d then (put_make vpp name e, kernel) else (vpp, put_make kernel name e)
      | None => (vpp, put_make kernel name e)
      end) (gm_range site devices) (gm_make, gm_make).

(* go: cmd/vpp.go 60-136 splitVPPDevices *)
Definition splitVPPDevices `{RangeOrder} (ns : Namespace) (g : string) : Namespace * vppSet :=
  let '(vEth, kEth) := split_map 74 (Namespace_Ethernets ns) (fun e => VPP.VPPManaged (Ethernet_VPP e) (Ethernet_Renderer e) g) in
  let '(vBr, kBr) := split_map 84 (Namespace_Bridges ns) (fun b => VPP.VPPManaged (Bridge_VPP b) (Bridge_Renderer b) g) in
  let '(vBond, kBond) := split_map 94 (Namespace_Bonds ns) (fun b => VPP.VPPManaged (Bond_VPP b) (Bond_Renderer b) g) in
  let '(vVlan, kVlan) := split_map 104 (Namespace_Vlans ns) (fun vl => VPP.VPPManaged (Vlan_VPP vl) (Vlan_Renderer vl) g) in
  let '(vTun, kTun) := split_map 114 (Namespace_Tunnels ns) (fun t => VPP.VPPManaged (Tunnel_VPP t) (Tunnel_Renderer t) g) in
  let '(vVx, kVx) := split_map 126 (Namespace_Vxlans ns) (fun vx => VPP.VPPManaged (Vxlan_VPP vx) "" g) in
  (ns <| Namespace_Ethernets := kEth |> <| Namespace_Bridges := kBr |> <| Namespace_Bonds := kBond |>
      <| Namespace_Vlans := kVlan |> <| Namespace_Tunnels := kTun |> <| Namespace_Vxlans := kVx |>,
   MkvppSet vEth vBr vBond vVlan vVx vTun).


Section vpp.
Context `{VppLibs} `{RangeOrder} `{SliceSort}.

(** An entry whose device the code looks into; a null one makes it panic. *)
Definition vpp_entry {A} (devices : gomap (ptr A)) (name : string) : pan A :=
  default None (gm_get devices name).

(** ** startup.conf *)

(* go: cmd/vpp.go 27-33 generateStartupConf *)
Definition dpdk_devs (v : vppSet) : pan (list VPP.DpdkDev) :=
  fold_pan (sortedKeys (vppSet_ethernets v)) [] (fun dpdk name =>
    e ← vpp_entry (vppSet_ethernets v) name;
    Some (match Ethernet_VPP e with
          | Some d =>
              if Str.equal_fold (VPPDevice_Mode d) "dpdk" && negb (Str.is_empty (VPPDevice_PCI d))
              then dpdk ++ [VPP.MkDpdkDev name (VPPDevice_PCI d)] else dpdk
          | None => dpdk
          end)).

(* go: cmd/vpp.go 24-44 generateStartupConf *)
Definition generateStartupConf (global : ptr VPPGlobal) (v : vppSet) : prog sys unit :=
  dpdk ← lift (dpdk_devs v);
  let hasStartup := match global with
                    | Some g => match VPPGlobal_Startup g with Some _ => true | None => false end
                    | None => false
                    end in
  match dpdk, hasStartup with
  | [], false => Ret tt
  | _, _ => warn! call (WriteFile "/etc/vpp/startup.conf" (VPP.GenerateStartupConf global dpdk)); Ret tt
  end.

(** ** NDP *)

(* go: cmd/vpp.go 221-237 vppNDPTapRules *)
Definition vppNDPTapRules (n : ptr NDProxy) : pan (list NDProxyRule * Z) :=
  match n with
  | None => Some ([], 0)
  | Some n =>
      fold_pan (NDProxy_Rules n) ([], 0) (fun '(ok, skipped) r =>
        r ← r;
        Some (if Str.is_empty (NDProxyRule_Neighbor r) || Str.equal_fold (NDProxyRule_Mode r) "auto"
              then (ok, skipped + 1) else (ok ++ [r], skipped)))
  end.

(* go: cmd/vpp.go 269-279 setNDPTapAlias *)
Definition setNDPTapAlias (hostIf bridge : string) : prog sys unit :=
  r ← New;
  match r with
  | Err _ => Ret tt
  | Ok mgr =>
      deferred (warn! SetAlias mgr hostIf ("netcfg NDP proxy for " +:+ bridge +:+ " — managed, do not delete");
                Ret tt) (Close mgr)
  end.

(* go: cmd/vpp.go 247-267 provisionNDPTaps *)
Definition provisionNDPTaps (v : vppSet) : ap unit :=
  ap_each (sortedKeys (vppSet_bridges v)) (fun name =>
    b ← ap_lift (vpp_entry (vppSet_bridges v) name);
    rules ← ap_lift (vppNDPTapRules (Bridge_NDProxy b));
    match rules.1 with
    | [] => mret tt
    | _ =>
        r ← EnsureNDPTap name (ndpTapBdID name b);
        match r with
        | Err _ => mret tt
        | Ok hostIf => ap_prog (setNDPTapAlias hostIf name)
        end
    end).

(** One of the first three loops of ndProxyFromSet. *)
(* go: cmd/vpp.go 287-306 ndProxyFromSet *)
Definition add_proxies {A} (site : Z) (devices : gomap (ptr A)) (nd : A -> ptr NDProxy)
    (out : gmap string (list string)) : pan (gmap string (list string)) :=
  fold_pan (gm_range site devices) out (fun out '(name, d) =>
    d ← d;
    Some (match nd d with
          | Some n => match NDProxy_Addresses n with [] => out | addrs => <[name := addrs]> out end
          | None => out
          end)).

(* go: cmd/vpp.go 308-317 ndProxyFromSet *)
Definition add_bridge_proxies (devices : gomap (ptr Bridge)) (out : gmap string (list string))
    : pan (gmap string (list string)) :=
  fold_pan (gm_range 308 devices) out (fun out '(name, b) =>
    b ← b;
    Some (match Bridge_NDProxy b with
          | Some n =>
              match NDProxy_Addresses n, Bridge_Addresses b with
              | [], _ => out
              | _, [] => out
              | addrs, _ => <[name +:+ "-bvi" := addrs]> out
              end
          | None => out
          end)).

(* go: cmd/vpp.go 281-319 ndProxyFromSet *)
Definition ndProxyFromSet (v : vppSet) : pan (gmap string (list string)) :=
  out ← add_proxies 298 (vppSet_ethernets v) Ethernet_NDProxy ∅;
  out ← add_proxies 301 (vppSet_bonds v) Bond_NDProxy out;
  out ← add_proxies 304 (vppSet_vlans v) Vlan_NDProxy out;
  add_bridge_proxies (vppSet_bridges v) out.

(* go: cmd/vpp.go 321-330 ndProxyItems *)
Definition ndProxyItems (ndp : gmap string (list string)) : list NDProxyItem :=
  iface ← sortedKeys (Some ndp);
  MkNDProxyItem iface <$> default [] (ndp !! iface).

(** ** The state to be remembered *)

Definition nat_if (kind : string) (i : ptr NatInterface) : pan NatItem :=
  i ← i;
  Some (NatItem_zero <| NatItem_Kind := kind |> <| NatItem_Iface := NatInterface_Name i |>
          <| NatItem_Role := Str.to_lower (NatInterface_Role i) |>).

Definition nat_pool (kind : string) (p : ptr NatPool) : pan NatItem :=
  p ← p;
  Some (NatItem_zero <| NatItem_Kind := kind |> <| NatItem_Start := NatPool_Start p |>
          <| NatItem_End := NatPool_End p |> <| NatItem_VRF := NatPool_VRF p |>).

(* go: cmd/vpp.go 356-369 natItemsFromConfig *)
Definition nat44_items (n : Nat44) : pan (list NatItem) :=
  if disabled (Nat44_Enable n) then Some []
  else
    ifs ← mapM (nat_if "nat44-if") (Nat44_Interfaces n);
    pools ← mapM (fun p =>
      it ← nat_pool "nat44-pool" p;
      Some (it <| NatItem_TwiceNat := match p with Some p => default false (NatPool_TwiceNat p) | None => false end |>))
      (Nat44_Pools n);
    statics ← mapM (fun s : ptr NatStatic =>
      s ← s;
      Some (NatItem_zero <| NatItem_Kind := "nat44-static" |> <| NatItem_Proto := Str.to_lower (NatStatic_Proto s) |>
        <| NatItem_Local := NatStatic_Local s |> <| NatItem_LocalPort := NatStatic_LocalPort s |>
        <| NatItem_External := NatStatic_External s |> <| NatItem_ExternalIf := NatStatic_ExternalInterface s |>
        <| NatItem_ExternalPort := NatStatic_ExternalPort s |> <| NatItem_VRF := NatStatic_VRF s |>
        <| NatItem_TwiceNat := default false (NatStatic_TwiceNat s) |>)) (Nat44_Static n);
    Some (ifs ++ pools ++ statics).

(* go: cmd/vpp.go 370-379 natItemsFromConfig *)
Definition nat64_items (n : Nat64) : pan (list NatItem) :=
  if disabled (Nat64_Enable n) then Some []
  else
    ifs ← mapM (nat_if "nat64-if") (Nat64_Interfaces n);
    pools ← mapM (nat_pool "nat64-pool") (Nat64_Pools n);
    Some ((if negb (Str.is_empty (Nat64_Prefix n))
           then [NatItem_zero <| NatItem_Kind := "nat64-prefix" |> <| NatItem_Prefix := Nat64_Prefix n |>]
           else []) ++ ifs ++ pools).

(* go: cmd/vpp.go 380-384 natItemsFromConfig *)
Definition nat66_items (n : Nat66) : pan (list NatItem) :=
  mapM (fun s : ptr Nat66Static =>
    s ← s;
    Some (NatItem_zero <| NatItem_Kind := "nat66-static" |> <| NatItem_Local := Nat66Static_Local s |>
      <| NatItem_External := Nat66Static_External s |> <| NatItem_VRF := Nat66Static_VRF s |>)) (Nat66_Static n).

(** [if n != nil { items = append(items, ...) }]. *)
Definition of_section {A} (n : ptr A) (items : A -> pan (list NatItem)) : pan (list NatItem) :=
  match n with Some n => items n | None => Some [] end.

(* go: cmd/vpp.go 351-386 natItemsFromConfig *)
Definition natItemsFromConfig (nat : VPPNat) : pan (list NatItem) :=
  i44 ← of_section (VPPNat_Nat44 nat) nat44_items;
  i64 ← of_section (VPPNat_Nat64 nat) nat64_items;
  i66 ← of_section (VPPNat_Nat66 nat) nat66_items;
  Some (i44 ++ i64 ++ i66).

(** The entry of an ethernet device. *)
(* go: cmd/vpp.go 409-425 buildDesiredVPPState *)
Definition ethernet_info (name : string) (e : Ethernet) : DevInfo :=
  let mode := vpp_mode e in
  let di := DevInfo_zero <| DevInfo_Type := mode |> in
  if Str.eqb mode "af-packet" then di <| DevInfo_HostIf := vpp_hostif name e |> else di.

(* go: cmd/vpp.go 432-438 buildDesiredVPPState *)
Definition vxlan_info (vx : Vxlan) : DevInfo :=
  let port := if Vxlan_DestPort vx =? 0 then Vxlan_Port vx else Vxlan_DestPort vx in
  DevInfo_zero <| DevInfo_Type := "vxlan" |> <| DevInfo_Vni := uint32 (Vxlan_ID vx) |>
    <| DevInfo_Local := Vxlan_Local vx |> <| DevInfo_Remote := Vxlan_Remote vx |> <| DevInfo_Port := port |>.

(** The entries of a bridge, in the order in which they are written. *)
(* go: cmd/vpp.go 439-452 buildDesiredVPPState *)
Definition bridge_infos (name : string) (b : Bridge) : pan (list (string * DevInfo)) :=
  rules ← vppNDPTapRules (Bridge_NDProxy b);
  let h := NDPTapName name in
  Some ([(name, DevInfo_zero <| DevInfo_Type := "bridge" |> <| DevInfo_BdID := ndpTapBdID name b |>)] ++
        (match Bridge_Addresses b with
         | [] => []
         | _ => [(name +:+ "-bvi", DevInfo_zero <| DevInfo_Type := "loopback" |>)]
         end) ++
        (match rules.1 with
         | [] => []
         | _ => [(h, DevInfo_zero <| DevInfo_Type := "ndp-tap" |> <| DevInfo_HostIf := h |>)]
         end)).

(** A loop of buildDesiredVPPState: [infos] are the entries that its body writes. *)
Definition add_infos {A} (site : Z) (devices : gomap A) (infos : string -> A -> pan (list (string * DevInfo)))
    (m : gmap string DevInfo) : pan (gmap string DevInfo) :=
  fold_pan (gm_range site devices) m (fun m '(name, d) =>
    l ← infos name d;
    Some (fold_left (fun m '(k, di) => <[k := di]> m) l m)).

(* go: cmd/vpp.go 406-454 buildDesiredVPPState *)
Definition buildDesiredVPPState (v : vppSet) : pan VppState :=
  m ← add_infos 409 (vppSet_ethernets v) (fun name e => e ← e; Some [(name, ethernet_info name e)]) ∅;
  m ← add_infos 426 (vppSet_bonds v) (fun name _ => Some [(name, DevInfo_zero <| DevInfo_Type := "bond" |>)]) m;
  m ← add_infos 429 (vppSet_vlans v) (fun name _ => Some [(name, DevInfo_zero <| DevInfo_Type := "vlan" |>)]) m;
  m ← add_infos 432 (vppSet_vxlans v) (fun name vx => vx ← vx; Some [(name, vxlan_info vx)]) m;
  m ← add_infos 439 (vppSet_bridges v) (fun name b => b ← b; bridge_infos name b) m;
  Some (MkVppState (Some m) [] []).

(** ** Orphans *)

(** The items of the old state whose key the new one has not. *)
Definition orphans {A} (key : A -> string) (prev desired : list A) : list A :=
  let want := fold_left (fun want it => <[key it := true]> want) desired (∅ : gmap string bool) in
  filter (fun it => default false (want !! key it) = false) prev.

(* go: cmd/vpp.go 332-349 reapVPPNDProxyOrphans *)
Definition reapVPPNDProxyOrphans (prev desired : VppState) : ap unit :=
  ap_each (orphans NDProxyItem_Key (VppState_NDProxy prev) (VppState_NDProxy desired))
    (fun it => ap_ignore (DeleteNDProxy it)).

(* go: cmd/vpp.go 388-404 reapNatOrphans *)
Definition reapNatOrphans (prev desired : VppState) : ap unit :=
  ap_each (orphans NatItem_Key (VppState_Nat prev) (VppState_Nat desired))
    (fun it => ap_ignore (DeleteNat it)).

Definition reap_order : list string :=
  ["vxlan"; "vlan"; "bond"; "loopback"; "af-packet"; "dpdk"; "avf"; "ndp-tap"; "bridge"].

(* go: cmd/vpp.go 456-473 reapVPPOrphans *)
Definition reapVPPOrphans (prev desired : VppState) : ap unit :=
  ap_each reap_order (fun typ =>
    ap_each (gm_range 462 (VppState_Devices prev)) (fun '(name, info) =>
      match gm_get (VppState_Devices desired) name with
      | Some _ => mret tt
      | None => if negb (Str.eqb (DevInfo_Type info) typ) then mret tt else ap_ignore (Delete name info)
      end)).

(** ** setupVPP *)

(** A loop over the devices of a kind. *)
Definition apply_each {A} (devices : gomap (ptr A)) (apply : string -> A -> ap err) : ap unit :=
  ap_each (sortedKeys devices) (fun name =>
    d ← ap_lift (vpp_entry devices name);
    ap_ignore (apply name d)).

(** The devices in the order of their dependencies. *)
(* go: cmd/vpp.go 157-187 setupVPP *)
Definition apply_devices (v : vppSet) : ap unit :=
  apply_each (vppSet_ethernets v) ApplyEthernet ;;
  apply_each (vppSet_bonds v) ApplyBond ;;
  apply_each (vppSet_vlans v) ApplyVlan ;;
  apply_each (vppSet_vxlans v) ApplyVxlan ;;
  apply_each (vppSet_tunnels v) (fun _ _ => mret None) ;;
  apply_each (vppSet_bridges v) ApplyBridge.

(** What is done with the connection. *)
(* go: cmd/vpp.go 153-219 setupVPP *)
Definition with_vpp (nat : ptr VPPNat) (v : vppSet) : ap err :=
  prev ← ap_prog LoadVppState;
  apply_devices v ;;
  (match nat with Some nat => ApplyNat nat | None => mret tt end) ;;
  ndp ← ap_lift (ndProxyFromSet v);
  ap_each (sortedKeys (Some ndp)) (fun name => ap_ignore (ApplyNDProxy name (default [] (ndp !! name)))) ;;
  provisionNDPTaps v ;;
  desired ← ap_lift (buildDesiredVPPState v);
  items ← ap_lift (of_section nat natItemsFromConfig);
  let desired := MkVppState (VppState_Devices desired) items (ndProxyItems ndp) in
  reapVPPNDProxyOrphans prev desired ;;
  reapVPPOrphans prev desired ;;
  reapNatOrphans prev desired ;;
  ap_ignore (ap_prog (SaveVppState desired)) ;;
  mret None.

(* go: cmd/vpp.go 138-219 setupVPP *)
Definition setupVPP (global : ptr VPPGlobal) (v : vppSet) : prog sys err :=
  generateStartupConf global v ;;
  let sock := match global with Some g => VPPGlobal_APISocket g | None => "" end in
  get! c := Connect sock as same_err;
  let nat := match global with Some g => VPPGlobal_NAT g | None => None end in
  deferred (r ← with_vpp nat v (NewApplier c); Ret r.1) (CloseClient c).
End vpp.
