(* ===== verification/VppSafe.v ===== *)
(** * What setupVPP does outside VPP

    The applier's methods send messages to VPP, which touch no namespace of the
    kernel, and setupVPP writes two files and names the taps: it keeps the
    worlds of Safety. *)

From S2P Require Import Prelude GoStd GoNet Effect Config Load VppApi Netlink Host Setup Plain World Safety Vpp VppSetup.

Section safe.
Context (nsName : string) (conf : string -> Prop) (vpp : Prop) (leak : string -> Prop).
Context (H : gmap handle string) (F : gmap nsfd string) (l : nat) (b : bool).
#[local] Abbreviation safe' := (safe nsName conf vpp leak H F l b).

(** A call that uses no handle and no descriptor, and that may be made in the
    default namespace. *)
Lemma safe_host {X} (e : sys X) :
  handle_of e = None -> fd_of e = None -> match e with UnlockOSThread => False | _ => True end ->
  (forall w x w', world_post X e w x w' -> w' = w) ->
  (forall w, w_cur w = "" \/ w_lost w = true -> setup_perm nsName conf vpp X e w) ->
  safe' (call e).
Proof.
  intros Hh Hf Hu Hpost Hperm w Hw. apply wp_call.
  - split_and!; [by rewrite Hh|by rewrite Hf|by destruct e|]. apply Hperm.
    destruct Hw as (_ & _ & _ & _ & Hw). destruct (w_lost w); auto.
  - intros x w' Hx. by rewrite (Hpost w x w' Hx).
Qed.

End safe.

(** ** Predicates on the applier's methods

    Of the methods it is shown once that they satisfy every predicate on programs
    which is closed under the structure of programs and holds of messages. *)
Class MessageClosed (K : forall A : Type, prog sys A -> Prop) := {
  mc_ret : forall A (x : A), K A (Ret x);
  mc_crash : forall A, K A Crash;
  mc_bind : forall A B (p : prog sys A) (f : A -> prog sys B), K A p -> (forall x, K B (f x)) -> K B (p ≫= f);
  mc_message : forall X c (m : vpp X), K X (call (Vpp c m));
}.

Lemma safe_closed nsName conf (vpp : Prop) leak Hs F l b :
  vpp -> MessageClosed (fun A => @safe nsName conf vpp leak Hs F l b A).
Proof.
  intros Hvpp.
  split; [apply @safe_ret|apply @safe_crash|intros A B p f; apply safe_bind|intros; by apply safe_host].
Qed.

#[export] Instance all_calls_closed (P : forall X, sys X -> Prop) :
  (forall X c (m : vpp X), P X (Vpp c m)) -> MessageClosed (fun A => @all_calls sys A P).
Proof.
  intros HP. split; [done|done|intros A B p f; apply all_calls_bind|intros; by apply all_calls_call].
Qed.

(** Likewise for predicates on methods, closed under their structure ... *)
Class ApStructure (P : forall A : Type, ap A -> Prop) := {
  ac_ret : forall A (x : A), P A (mret x);
  ac_bind : forall A B (p : ap A) (f : A -> ap B), P A p -> (forall x, P B (f x)) -> P B (p ≫= f);
  ac_lift : forall A (o : option A), P A (ap_lift o);
  ac_cached : forall name, P _ (cached name);
  ac_cache : forall name i, P _ (cache name i);
}.

(** ... and true of messages. *)
Class ApClosed (P : forall A : Type, ap A -> Prop) := {
  ac_structure :: ApStructure P;
  ac_rpc : forall X (m : vpp X), P X (rpc m);
}.

(** A method satisfies a predicate on programs when it does from every applier. *)
Definition each_applier (K : forall A : Type, prog sys A -> Prop) (A : Type) (p : ap A) : Prop :=
  forall a, K _ (p a).

#[export] Instance each_applier_closed (K : forall A : Type, prog sys A -> Prop) :
  MessageClosed K -> ApClosed (each_applier K).
Proof.
  intros HK. split; [split|].
  - intros A x a. apply mc_ret.
  - intros A B p f Hp Hf a. apply mc_bind; [apply Hp|]. intros [x a']. apply Hf.
  - intros A o a. destruct o; [apply mc_ret|apply mc_crash].
  - intros name a. apply mc_ret.
  - intros name i a. apply mc_ret.
  - intros X m a. apply mc_bind; [apply mc_message|]. intros x. apply mc_ret.
Qed.

Section combinators.
Context (P : forall A : Type, ap A -> Prop) `{!ApStructure P}.

Definition ap_sat {A} (p : ap A) : Prop := P A p.

Lemma ap_sat_ret {A} (x : A) : ap_sat (mret x).
Proof. apply ac_ret. Qed.

Lemma ap_sat_bind {A B} (p : ap A) (f : A -> ap B) :
  ap_sat p -> (forall x, ap_sat (f x)) -> ap_sat (p ≫= f).
Proof. apply ac_bind. Qed.

Lemma ap_sat_lift {A} (o : option A) : ap_sat (ap_lift o).
Proof. apply ac_lift. Qed.

Lemma ap_sat_cached name : ap_sat (cached name).
Proof. apply ac_cached. Qed.

Lemma ap_sat_cache name i : ap_sat (cache name i).
Proof. apply ac_cache. Qed.

Lemma ap_sat_each {A} (xs : list A) body : (forall x, ap_sat (body x)) -> ap_sat (ap_each xs body).
Proof.
  intros Hb. induction xs as [|x xs IH]; [apply ap_sat_ret|]. by apply ap_sat_bind.
Qed.

Lemma ap_sat_each_err {A} (xs : list A) body : (forall x, ap_sat (body x)) -> ap_sat (ap_each_err xs body).
Proof.
  intros Hb. induction xs as [|x xs IH]; [apply ap_sat_ret|]. apply ap_sat_bind; [done|].
  intros [e|]; [apply ap_sat_ret|done].
Qed.
End combinators.

Lemma ap_sat_rpc (P : forall A : Type, ap A -> Prop) `{!ApClosed P} {X} (m : vpp X) : ap_sat P (rpc m).
Proof. apply ac_rpc. Qed.

Create HintDb ap discriminated.
#[export] Hint Resolve ap_sat_ret ap_sat_rpc ap_sat_lift ap_sat_cached ap_sat_cache : ap.
#[export] Hint Extern 0 (ApStructure _) => typeclasses eauto : ap.

(** Walks through a method of the applier. *)
Ltac ap_step :=
  match goal with
  | |- ap_sat ?P (mbind _ _) => apply (ap_sat_bind P); [|intros ?]
  | |- ap_sat ?P (ap_each _ _) => apply (ap_sat_each P); intros ?
  | |- ap_sat ?P (ap_each_err _ _) => apply (ap_sat_each_err P); intros ?
  | |- ap_sat _ (ap_ignore _) => unfold ap_ignore
  | |- ap_sat _ (ap_when _ _) => unfold ap_when
  | |- ap_sat _ (match ?x with _ => _ end) => destruct x eqn:?
  | |- ap_sat _ (let _ := _ in _) => cbv zeta
  end.
Ltac ap_tac := repeat (ap_step || (progress (auto with ap nocore))).

Section methods.
Context `{VppLibs} (P : forall A : Type, ap A -> Prop) `{!ApClosed P}.
#[local] Abbreviation sat := (ap_sat P).

Lemma ap_sat_find sel : sat (find_interface sel).
Proof. unfold find_interface. ap_tac. Qed.
#[local] Hint Resolve ap_sat_find : ap.

Lemma ap_sat_resolve name : sat (resolve name).
Proof. unfold resolve, findByTag. ap_tac. Qed.
#[local] Hint Resolve ap_sat_resolve : ap.

Lemma ap_sat_ensure name create : sat create -> sat (ensure name create).
Proof. intros Hc. unfold ensure, adopt, tagInterface. ap_tac. Qed.

Lemma ap_sat_create m wrap : sat (rpc_create m wrap).
Proof. unfold rpc_create. ap_tac. Qed.
#[local] Hint Resolve ap_sat_ensure ap_sat_create : ap.

Lemma ap_sat_ensureLoopback name : sat (ensureLoopback name).
Proof. unfold ensureLoopback. ap_tac. Qed.
#[local] Hint Resolve ap_sat_ensureLoopback : ap.

Lemma ap_sat_configureL3 i mtu mac up addrs routes : sat (configureL3 i mtu mac up addrs routes).
Proof.
  unfold configureL3, set_link, add_vpp_addresses, add_vpp_routes, addAddress, vpp_addRoute, setMTU, setMAC, setUp.
  ap_tac.
Qed.

Lemma ap_sat_with_member m f : (forall i, sat (f i)) -> sat (with_member m f).
Proof. intros Hf. unfold with_member. ap_tac. Qed.

Lemma ap_sat_with_interface m f : (forall r i, sat (f r i)) -> sat (with_interface m f).
Proof. intros Hf. unfold with_interface. ap_tac. by apply ap_sat_with_member. Qed.
#[local] Hint Resolve ap_sat_configureL3 ap_sat_with_member ap_sat_with_interface : ap.

Lemma ap_sat_ApplyEthernet name e : sat (ApplyEthernet name e).
Proof.
  unfold ApplyEthernet, ensure_ethernet, ensureAfPacket, ensureAvf, ensureDpdk, findByName, set_link,
    add_vpp_addresses, add_vpp_routes, addAddress, vpp_addRoute, setMTU, setMAC, setUp.
  ap_tac; try (apply ap_sat_ensure; ap_tac).
Qed.

Lemma ap_sat_ApplyBond name d : sat (ApplyBond name d).
Proof. unfold ApplyBond. ap_tac. apply ap_sat_with_member. intros i. ap_tac. Qed.

Lemma ap_sat_ApplyVlan name d : sat (ApplyVlan name d).
Proof. unfold ApplyVlan. ap_tac. apply ap_sat_ensure. ap_tac. Qed.

Lemma ap_sat_ApplyVxlan name d : sat (ApplyVxlan name d).
Proof. unfold ApplyVxlan, setUp. ap_tac. apply ap_sat_ensure. ap_tac. Qed.

Lemma ap_sat_ApplyBridge name d : sat (ApplyBridge name d).
Proof. unfold ApplyBridge. ap_tac; apply ap_sat_with_member; intros i; ap_tac. Qed.

Lemma ap_sat_delete_tagged tag m : sat (delete_tagged tag m).
Proof. unfold delete_tagged, findByTag. ap_tac. Qed.
#[local] Hint Resolve ap_sat_delete_tagged : ap.

Lemma ap_sat_Delete name info : sat (Delete name info).
Proof. unfold Delete, DeleteNDPTap, rpc_err. ap_tac. Qed.

Lemma ap_sat_EnsureNDPTap br bd : sat (EnsureNDPTap br bd).
Proof. unfold EnsureNDPTap, findByTag, setUp. ap_tac. Qed.
#[local] Hint Resolve ap_sat_ApplyEthernet ap_sat_ApplyBond ap_sat_ApplyVlan ap_sat_ApplyVxlan
  ap_sat_ApplyBridge ap_sat_Delete ap_sat_EnsureNDPTap : ap.

Lemma ap_sat_ApplyNat n : sat (ApplyNat n).
Proof.
  unfold ApplyNat, applyNat44, applyNat64, applyNat66, nat44_interface, nat44_pool, applyNat44Static.
  ap_tac; first [apply ap_sat_with_interface; intros r i|apply ap_sat_with_member; intros i]; ap_tac.
Qed.

Lemma ap_sat_if_resolved iface f : (forall i, sat (f i)) -> sat (if_resolved iface f).
Proof. intros Hf. unfold if_resolved. ap_tac. Qed.

Lemma ap_sat_if_parsed {A} (r : res A) f : (forall i, sat (f i)) -> sat (if_parsed r f).
Proof. intros Hf. unfold if_parsed. ap_tac. Qed.

Lemma ap_sat_DeleteNat it : sat (DeleteNat it).
Proof.
  unfold DeleteNat, delete_nat44_static.
  repeat first [apply ap_sat_if_resolved; intros ?|apply ap_sat_if_parsed; intros ?|progress ap_tac].
Qed.

Lemma ap_sat_ApplyNDProxy iface addrs : sat (ApplyNDProxy iface addrs).
Proof. unfold ApplyNDProxy. ap_tac. Qed.

Lemma ap_sat_DeleteNDProxy it : sat (DeleteNDProxy it).
Proof. unfold DeleteNDProxy. apply ap_sat_if_resolved. intros i. ap_tac. Qed.
End methods.

#[export] Hint Resolve ap_sat_ApplyEthernet ap_sat_ApplyBond ap_sat_ApplyVlan ap_sat_ApplyVxlan
  ap_sat_ApplyBridge ap_sat_Delete ap_sat_EnsureNDPTap ap_sat_ApplyNat ap_sat_DeleteNat
  ap_sat_ApplyNDProxy ap_sat_DeleteNDProxy : ap.

(** ** setupVPP *)

(** Besides messages, setupVPP performs calls of the host, and names taps. *)
Class HostClosed (K : forall A : Type, prog sys A -> Prop) := {
  hc_read : forall path, K _ (call (ReadFile path));
  hc_write : forall path data, written path = true -> K _ (call (WriteFile path data));
  hc_mkdir : forall path, written path = true -> K _ (call (MkdirAll path));
  hc_connect : forall sock, K _ (call (VppConnect sock));
  hc_channel : forall c, K _ (call (VppNewAPIChannel c));
  hc_check : forall ch, K _ (call (VppCheckCompatibility ch));
  hc_close : forall ch, K _ (call (VppCloseChannel ch));
  hc_disconnect : forall c, K _ (call (VppDisconnect c));
  hc_alias : forall hostIf bridge, K _ (setNDPTapAlias hostIf bridge);
}.

(** The three programs that the methods run. *)
Class ApHost `{VppLibs} (P : forall A : Type, ap A -> Prop) := {
  ah_load : P _ (ap_prog LoadVppState);
  ah_save : forall s, P _ (ap_prog (SaveVppState s));
  ah_alias : forall hostIf bridge, P _ (ap_prog (setNDPTapAlias hostIf bridge));
}.

Section with_vpp.
Context `{VppLibs} `{RangeOrder} `{SliceSort} (P : forall A : Type, ap A -> Prop) `{!ApClosed P} `{!ApHost P}.
#[local] Abbreviation sat := (ap_sat P).

Lemma ap_sat_provisionNDPTaps v : sat (provisionNDPTaps v).
Proof. unfold provisionNDPTaps. ap_tac. apply ah_alias. Qed.

Lemma ap_sat_apply_each {A} (devices : gomap (ptr A)) apply :
  (forall name d, sat (apply name d)) -> sat (apply_each devices apply).
Proof. intros Ha. unfold apply_each. ap_tac. Qed.

Lemma ap_sat_reaps prev desired :
  sat (reapVPPNDProxyOrphans prev desired) /\ sat (reapVPPOrphans prev desired) /\
  sat (reapNatOrphans prev desired).
Proof. unfold reapVPPNDProxyOrphans, reapVPPOrphans, reapNatOrphans. split_and!; ap_tac. Qed.

Lemma ap_sat_with_vpp nat v : sat (with_vpp nat v).
Proof.
  unfold with_vpp, apply_devices.
  repeat first [apply ap_sat_apply_each; intros|apply ap_sat_provisionNDPTaps|
    apply ap_sat_reaps|progress ap_tac].
  - apply ah_load.
  - apply ah_save.
Qed.
End with_vpp.

Section setupVPP.
Context `{VppLibs} `{RangeOrder} `{SliceSort} (K : forall A : Type, prog sys A -> Prop) `{!MessageClosed K} `{!HostClosed K}.

Lemma sat_generateStartupConf global v : K _ (generateStartupConf global v).
Proof.
  apply mc_bind; [destruct (dpdk_devs v); [apply mc_ret|apply mc_crash]|]. intros dpdk.
  destruct dpdk, (match global with Some g => _ | None => _ end); try apply mc_ret;
    (apply mc_bind; [by apply hc_write|intros; apply mc_ret]).
Qed.

#[local] Instance each_applier_host : ApHost (each_applier K).
Proof.
  assert (forall A (p : prog sys A), K _ p -> each_applier K A (ap_prog p)) as Hp
    by (intros A p Hp a; apply mc_bind; [done|intros; apply mc_ret]).
  split.
  - apply Hp, mc_bind; [apply hc_read|intros; apply mc_ret].
  - intros s. apply Hp, mc_bind; [by apply hc_mkdir|]. intros [e|]; [apply mc_ret|].
    destruct (VppMarshal s); [by apply hc_write|apply mc_ret].
  - intros hostIf bridge. apply Hp, hc_alias.
Qed.

Lemma sat_Connect sock : K _ (Connect sock).
Proof.
  apply mc_bind; [apply hc_connect|]. intros [c|e]; [|apply mc_ret].
  apply mc_bind; [apply hc_channel|]. intros [ch|e].
  - apply mc_bind; [apply mc_bind; [apply hc_check|intros [e|]; apply mc_ret]|].
    intros [e|]; [|apply mc_ret].
    apply mc_bind; [apply mc_bind; [apply hc_close|intros; apply hc_disconnect]|intros; apply mc_ret].
  - apply mc_bind; [apply hc_disconnect|intros; apply mc_ret].
Qed.

Lemma sat_setupVPP global v : K _ (setupVPP global v).
Proof.
  apply mc_bind; [apply sat_generateStartupConf|]. intros _. apply mc_bind; [apply sat_Connect|].
  intros [c|e]; [|apply mc_ret]. apply mc_bind.
  - apply mc_bind; [apply (ap_sat_with_vpp (each_applier K))|intros; apply mc_ret].
  - intros r. apply mc_bind; [|intros; apply mc_ret].
    apply mc_bind; [apply hc_close|intros; apply hc_disconnect].
Qed.
End setupVPP.

(** *** The world *)

Section world.
Context (nsName : string) (conf : string -> Prop) (vpp : Prop) (leak : string -> Prop) (Hconf : conf "") (Hvpp : vpp).
Context (Hs : gmap handle string) (F : gmap nsfd string) (l : nat) (b : bool).

Lemma safe_setNDPTapAlias hostIf bridge : safe nsName conf vpp leak Hs F l b (setNDPTapAlias hostIf bridge).
Proof.
  intros w Hw. apply wp_bind, (safe_New _ _ _ leak Hs F l b); [done| |by intros e; apply wp_ret].
  intros h n w' Hh Hn Hw'. assert (b = true -> w_lost w = true) as Hb by by destruct Hw as (_ & _ & _ & Hb & _).
  eapply wp_mono; [|apply (safe_closing _ _ _ leak Hs F l (w_lost w) h n); [done| |done]].
  - intros a w2. by apply inv_weaken.
  - apply (safe_plain _ _ _ leak _ _ _ _ h n); [apply lookup_insert_eq|naive_solver|].
    unfold SetAlias, link_by_name. plain_tac.
Qed.

#[local] Instance safe_host_closed : HostClosed (fun A => @safe nsName conf vpp leak Hs F l b A).
Proof. split; [by intros; apply safe_host..|apply safe_setNDPTapAlias]. Qed.

Lemma safe_setupVPP `{VppLibs} `{RangeOrder} `{SliceSort} global v :
  safe nsName conf vpp leak Hs F l b (setupVPP global v).
Proof.
  pose proof (safe_closed nsName conf vpp leak Hs F l b Hvpp).
  apply (sat_setupVPP (fun A => @safe nsName conf vpp leak Hs F l b A)).
Qed.
End world.

(** setupVPP stays in its namespace. *)
Definition stays X (e : sys X) : Prop := match e with NsSet _ | NsNewNamed _ => False | _ => True end.

#[export] Instance stays_closed : MessageClosed (fun A => @all_calls sys A stays).
Proof. by apply all_calls_closed. Qed.

#[export] Instance stays_host_closed : HostClosed (fun A => @all_calls sys A stays).
Proof.
  split; [done..|]. intros hostIf bridge. unfold setNDPTapAlias, New, SetAlias, link_by_name, Close. plain_tac.
Qed.

Lemma stays_setupVPP `{VppLibs} `{RangeOrder} `{SliceSort} global v : all_calls stays (setupVPP global v).
Proof. apply (sat_setupVPP (fun A => @all_calls sys A stays)). Qed.
