(* ===== verification/VppProps.v ===== *)
(** * The VPP devices of a configuration: properties

    How splitVPPDevices divides the devices, the names that are derived from a
    bridge's, and what is withdrawn of the devices of an earlier run. *)

From S2P Require Import Prelude GoStd GoNet IpText Effect Config Load Validate VppApi Netlink Host Setup Vpp Examples VppSetup.

(** ** The split *)

(** Whether VPP has an entry. *)
Definition managed_entry {A} (managed : A -> bool) (e : ptr A) : bool :=
  match e with Some d => managed d | None => false end.

Lemma split_map_fold {A} (managed : A -> bool) (l : list (string * ptr A)) vpp kernel name :
  NoDup l.*1 ->
  let step := fun '(vpp, kernel) '(name, e) =>
      match e with
      | Some d => if managed d then (put_make vpp name e, kernel) else (vpp, put_make kernel name e)
      | None => (vpp, put_make kernel name e)
      end in
  let '(vpp', kernel') := fold_left step l (vpp, kernel) in
  (forall e, (name, e) ∈ l -> 
     if managed_entry managed e then gm_get vpp' name = Some e /\ gm_get kernel' name = gm_get kernel name
     else gm_get vpp' name = gm_get vpp name /\ gm_get kernel' name = Some e) /\
  (name ∉ l.*1 -> gm_get vpp' name = gm_get vpp name /\ gm_get kernel' name = gm_get kernel name).
Proof.
  intros Hnd step. revert vpp kernel. induction l as [|[n e] l IH]; intros vpp kernel.
  { simpl. split; [by intros e ?%not_elem_of_nil|done]. }
  rewrite fmap_cons in Hnd. apply NoDup_cons in Hnd as [Hn Hnd].
  assert (step (vpp, kernel) (n, e) =
    if managed_entry managed e then (put_make vpp n e, kernel) else (vpp, put_make kernel n e)) as Hs
    by (destruct e as [d|]; [simpl; by destruct (managed d)|done]).
  change (fold_left step ((n, e) :: l) (vpp, kernel)) with (fold_left step l (step (vpp, kernel) (n, e))).
  rewrite Hs. destruct (managed_entry managed e) eqn:He.
  - specialize (IH Hnd (put_make vpp n e) kernel). destruct (fold_left _ _ _) as [v' k'].
    destruct IH as [IH1 IH2]. split.
    + intros e' [[= <- <-]|Hin]%elem_of_cons.
      * rewrite He. destruct (IH2 Hn) as [-> ->]. rewrite gm_get_put_make, decide_True by done. done.
      * specialize (IH1 e' Hin). destruct (managed_entry managed e'); [done|].
        rewrite gm_get_put_make, decide_False in IH1; [done|]. intros ->. apply Hn, list_elem_of_fmap. by exists (name, e').
    + rewrite fmap_cons, not_elem_of_cons. intros [Hne Hnot]. destruct (IH2 Hnot) as [-> ->].
      by rewrite gm_get_put_make, decide_False.
  - specialize (IH Hnd vpp (put_make kernel n e)). destruct (fold_left _ _ _) as [v' k'].
    destruct IH as [IH1 IH2]. split.
    + intros e' [[= <- <-]|Hin]%elem_of_cons.
      * rewrite He. destruct (IH2 Hn) as [-> ->]. rewrite gm_get_put_make, decide_True by done. done.
      * specialize (IH1 e' Hin). destruct (managed_entry managed e'); [|done].
        rewrite gm_get_put_make, decide_False in IH1; [done|]. intros ->. apply Hn, list_elem_of_fmap. by exists (name, e').
    + rewrite fmap_cons, not_elem_of_cons. intros [Hne Hnot]. destruct (IH2 Hnot) as [-> ->].
      by rewrite gm_get_put_make, decide_False.
Qed.

(** The two parts of a map of devices. *)
Definition parts {A} (managed : A -> bool) (devices vpp kernel : gomap (ptr A)) : Prop :=
  forall name,
    gm_get vpp name = (e ← gm_get devices name; if managed_entry managed e then Some e else None) /\
    gm_get kernel name = (e ← gm_get devices name; if managed_entry managed e then None else Some e).

Lemma split_map_parts `{RangeOrder} {A} site (devices : gomap (ptr A)) managed :
  let '(vpp, kernel) := split_map site devices managed in parts managed devices vpp kernel.
Proof.
  unfold split_map. pose proof (fun name => split_map_fold managed (gm_range site devices) gm_make gm_make name
    (NoDup_fst_range site (gm_map devices))) as Hf. simpl in Hf.
  destruct (fold_left _ _ _) as [vpp kernel]. intros name. destruct (Hf name) as [H1 H2].
  assert (gm_get (@gm_make (ptr A)) name = None) as Hmake
    by (unfold gm_get, gm_make; simpl; apply lookup_empty).
  destruct (gm_get devices name) as [e|] eqn:E; simpl.
  - specialize (H1 e (proj2 (elem_of_range site _ _ _) E)). rewrite !Hmake in H1.
    by destruct (managed_entry managed e), H1 as [-> ->].
  - rewrite !Hmake in H2. apply H2. intros ([n e] & -> & Hin)%list_elem_of_fmap.
    apply elem_of_range in Hin. simpl in E. unfold gm_get in E. congruence.
Qed.

(** C23: the split of a namespace's devices between VPP and the kernel: for each of
    the six kinds that VPP can have, a device is with VPP exactly when it has a
    vpp block or its renderer, or the global one when it has none, is vpp (a
    VXLAN has no renderer of its own), it is with the kernel otherwise, null
    entries among them, and nothing else of the namespace changes. *)
Theorem splitVPPDevices_parts `{RangeOrder} (ns : Namespace) (g : string) :
  let '(kernel, vpp) := splitVPPDevices ns g in
  parts (fun e => VPP.VPPManaged (Ethernet_VPP e) (Ethernet_Renderer e) g)
    (Namespace_Ethernets ns) (vppSet_ethernets vpp) (Namespace_Ethernets kernel) /\
  parts (fun b => VPP.VPPManaged (Bridge_VPP b) (Bridge_Renderer b) g)
    (Namespace_Bridges ns) (vppSet_bridges vpp) (Namespace_Bridges kernel) /\
  parts (fun b => VPP.VPPManaged (Bond_VPP b) (Bond_Renderer b) g)
    (Namespace_Bonds ns) (vppSet_bonds vpp) (Namespace_Bonds kernel) /\
  parts (fun v => VPP.VPPManaged (Vlan_VPP v) (Vlan_Renderer v) g)
    (Namespace_Vlans ns) (vppSet_vlans vpp) (Namespace_Vlans kernel) /\
  parts (fun t => VPP.VPPManaged (Tunnel_VPP t) (Tunnel_Renderer t) g)
    (Namespace_Tunnels ns) (vppSet_tunnels vpp) (Namespace_Tunnels kernel) /\
  parts (fun v => VPP.VPPManaged (Vxlan_VPP v) "" g)
    (Namespace_Vxlans ns) (vppSet_vxlans vpp) (Namespace_Vxlans kernel) /\
  kernel = ns <| Namespace_Ethernets := Namespace_Ethernets kernel |>
              <| Namespace_Bridges := Namespace_Bridges kernel |> <| Namespace_Bonds := Namespace_Bonds kernel |>
              <| Namespace_Vlans := Namespace_Vlans kernel |> <| Namespace_Tunnels := Namespace_Tunnels kernel |>
              <| Namespace_Vxlans := Namespace_Vxlans kernel |>.
Proof.
  unfold splitVPPDevices.
  pose proof (split_map_parts 74 (Namespace_Ethernets ns) (fun e => VPP.VPPManaged (Ethernet_VPP e) (Ethernet_Renderer e) g)) as H1.
  pose proof (split_map_parts 84 (Namespace_Bridges ns) (fun b => VPP.VPPManaged (Bridge_VPP b) (Bridge_Renderer b) g)) as H2.
  pose proof (split_map_parts 94 (Namespace_Bonds ns) (fun b => VPP.VPPManaged (Bond_VPP b) (Bond_Renderer b) g)) as H3.
  pose proof (split_map_parts 104 (Namespace_Vlans ns) (fun v => VPP.VPPManaged (Vlan_VPP v) (Vlan_Renderer v) g)) as H4.
  pose proof (split_map_parts 114 (Namespace_Tunnels ns) (fun t => VPP.VPPManaged (Tunnel_VPP t) (Tunnel_Renderer t) g)) as H5.
  pose proof (split_map_parts 126 (Namespace_Vxlans ns) (fun v => VPP.VPPManaged (Vxlan_VPP v) "" g)) as H6.
  repeat destruct (split_map _ _ _). destruct ns. simpl in *. done.
Qed.

(** ** Names that are derived *)

Lemma fnv32a_range s : 0 <= fnv32a s < 2^32.
Proof.
  assert (forall h, 0 <= h < 2^32 -> 0 <= fnv32a_from h s < 2^32) as Hh; [|by apply Hh].
  induction s as [|a s IH]; intros h Hh; [done|]. apply IH. unfold uint32. by apply Z.mod_pos_bound.
Qed.

(** A name that the kernel takes for an interface: at most fifteen bytes, without
    a space or a slash. *)
Definition interface_name (s : string) : bool :=
  (String.length s <=? 15)%nat && is_word s && negb (Str.contains_byte s "/").

Lemma hex_digit_ok n : 
  0 <= n < 16 -> Ascii.is_space (Net.hex_digit n) = false /\ (Net.hex_digit n =? "/")%char = false.
Proof.
  intros Hn. assert (n ∈ (Z.of_nat <$> seq 0 16)) as Hin.
  { apply list_elem_of_fmap. exists (Z.to_nat n). split; [lia|]. apply elem_of_seq. lia. }
  clear Hn. revert n Hin. apply Forall_forall. repeat constructor.
Qed.

Lemma hex8_ok z :
  String.length (Net.hex8 z) = 2%nat /\ no_space (Net.hex8 z) = true /\ Str.contains_byte (Net.hex8 z) "/" = false.
Proof.
  assert (forall k, 0 <= Z.land k 15 < 16) as Hk
    by (intros k; change 15 with (Z.ones 4); rewrite Z.land_ones by done; by apply Z.mod_pos_bound).
  unfold Net.hex8. destruct (hex_digit_ok _ (Hk (Z.shiftr z 4))) as [H1 H2], (hex_digit_ok _ (Hk z)) as [H3 H4].
  simpl. rewrite H1, H2, H3, H4. done.
Qed.

Lemma length_str_app (s t : string) : String.length (s +:+ t) = (String.length s + String.length t)%nat.
Proof. induction s as [|a s IH]; [done|]. rewrite str_app_cons. simpl. by rewrite IH. Qed.

(** C24: what VPP and the kernel are given for a bridge without an identifier of
    its own fits what they take, for every name: the bridge domain is between 1
    and 16000000, so it is not the domain 0 of VPP and fits its 24 bits, and the
    name of the responder's tap is a name of thirteen bytes that the kernel takes. *)
Theorem derived_names_fit (name : string) :
  1 <= AutoBdID name <= 16000000 /\ AutoBdID name < 2^24 /\
  String.length (NDPTapName name) = 13%nat /\ interface_name (NDPTapName name) = true.
Proof.
  pose proof (fnv32a_range name) as Hf. unfold AutoBdID, uint32.
  pose proof (Z.mod_pos_bound (fnv32a name) 16000000) as Hm.
  rewrite (Z.mod_small (fnv32a name mod 16000000 + 1)) by lia.
  split; [lia|]. split; [lia|].
  assert (String.length (NDPTapName name) = 13%nat) as Hlen.
  { unfold NDPTapName, hex32. rewrite !length_str_app.
    by rewrite !(proj1 (hex8_ok _)). }
  split; [done|]. unfold interface_name. rewrite Hlen. unfold is_word.
  unfold NDPTapName, hex32. rewrite !no_space_app, !contains_byte_app.
  rewrite !(proj1 (proj2 (hex8_ok _))), !(proj2 (proj2 (hex8_ok _))). done.
Qed.

(** ** What is withdrawn *)

(** The types of the devices that netcfg records. *)
Definition device_types : list string :=
  ["af-packet"; "avf"; "bond"; "bridge"; "dpdk"; "loopback"; "ndp-tap"; "vlan"; "vxlan"].

(** Whether a device of one type can be built on, or be a member of, one of the other. *)
Definition built_on (typ other : string) : bool :=
  (Str.eqb typ "vlan" && existsb (Str.eqb other) ["bond"; "loopback"; "af-packet"; "dpdk"; "avf"]) ||
  (Str.eqb typ "bond" && existsb (Str.eqb other) ["af-packet"; "dpdk"; "avf"]) ||
  (Str.eqb other "bridge" && negb (Str.eqb typ "bridge")).

(** The devices of the old state that the new one has not, each once, none before
    one that can be built on it. *)
Definition withdrawn (prev desired : VppState) (l : list (string * DevInfo)) : Prop :=
  NoDup l.*1 /\
  (forall name info, (name, info) ∈ l <->
     gm_get (VppState_Devices prev) name = Some info /\ gm_get (VppState_Devices desired) name = None /\
     DevInfo_Type info ∈ device_types) /\
  StronglySorted (fun x y => built_on (DevInfo_Type y.2) (DevInfo_Type x.2) = false) l.

Lemma reap_order_types typ : typ ∈ reap_order <-> typ ∈ device_types.
Proof. unfold reap_order, device_types. set_solver. Qed.

(** Lists of elements that have the same key, one after the other. *)
Lemma sorted_concat {A} (key : A -> string) (R : string -> string -> Prop) (f : string -> list A) keys :
  StronglySorted R keys -> (forall k x, k ∈ keys -> x ∈ f k -> key x = k) -> (forall k, k ∈ keys -> R k k) ->
  StronglySorted (fun x y => R (key x) (key y)) (concat (f <$> keys)).
Proof.
  intros Hs. induction Hs as [|k keys Hs IH Hk]; intros Hf Hr; [constructor|]. simpl.
  rewrite Forall_forall in Hk. apply StronglySorted_app_2.
  - intros x y Hx (k' & Hk' & Hy)%elem_of_concat_fmap.
    rewrite (Hf k x), (Hf k' y); [by apply Hk|by right|done|left|done].
  - assert (forall l, (forall x, x ∈ l -> key x = k) -> StronglySorted (fun x y => R (key x) (key y)) l) as Hl.
    { induction l as [|x l IHl]; intros Hx; [constructor|]. constructor.
      - apply IHl. intros y Hy. apply Hx. by right.
      - apply Forall_forall. intros y Hy. rewrite (Hx x), (Hx y); [apply Hr; left|by right|left]. }
    apply Hl. intros x Hx. apply (Hf k); [left|done].
  - apply IH; intros k'; [intros x Hk'; apply Hf; by right|intros Hk'; apply Hr; by right].
Qed.

(** Methods with the same runs. *)
Definition ap_same {A} (p q : ap A) : Prop := forall a, p a ≃ q a.

Lemma ap_each_app {A} (l1 l2 : list A) body : ap_same (ap_each (l1 ++ l2) body) (ap_each l1 body ;; ap_each l2 body).
Proof.
  induction l1 as [|x l1 IH]; intros a; [done|]. simpl. unfold mbind, ap_mbind. rewrite bind_assoc.
  apply bind_same_runs; [|done]. intros [[] a']. apply IH.
Qed.

Lemma ap_each_concat {A} (ls : list (list A)) body :
  ap_same (ap_each ls (fun l => ap_each l body)) (ap_each (concat ls) body).
Proof.
  induction ls as [|l ls IH]; intros a; [done|]. simpl. rewrite (ap_each_app l (concat ls) body a).
  apply bind_same_runs; [|done]. intros [[] a']. apply IH.
Qed.

Lemma ap_each_ext {A} (l : list A) body body' :
  (forall x, x ∈ l -> ap_same (body x) (body' x)) -> ap_same (ap_each l body) (ap_each l body').
Proof.
  induction l as [|x l IH]; intros Hb a; [done|]. simpl. apply bind_same_runs; [|apply Hb; left].
  intros [[] a']. apply IH. intros y Hy. apply Hb. by right.
Qed.

Lemma ap_each_filter {A} (P : A -> Prop) `{!forall x, Decision (P x)} (l : list A) body :
  ap_same (ap_each l (fun x => if decide (P x) then body x else mret tt)) (ap_each (filter P l) body).
Proof.
  induction l as [|x l IH]; intros a; [done|]. rewrite filter_cons. simpl. destruct (decide (P x)).
  - simpl. apply bind_same_runs; [|done]. intros [[] a']. apply IH.
  - apply IH.
Qed.

Section reap.
Context `{VppLibs} `{RangeOrder} `{SliceSort}.

(** The entries of a type. *)
Definition orphans_of (prev desired : VppState) (typ : string) : list (string * DevInfo) :=
  filter (fun e => gm_get (VppState_Devices desired) e.1 = None /\ DevInfo_Type e.2 = typ)
    (gm_range 462 (VppState_Devices prev)).

Lemma reap_each prev desired :
  ap_same (reapVPPOrphans prev desired)
    (ap_each (concat (orphans_of prev desired <$> reap_order)) (fun '(name, info) => ap_ignore (Delete name info))).
Proof.
  intros a. rewrite <-(ap_each_concat _ _ a). unfold reapVPPOrphans.
  assert (forall (l : list string) (g : string -> list (string * DevInfo)) body, ap_same (ap_each l (fun t => ap_each (g t) body)) (ap_each (g <$> l) (fun l => ap_each l body)))
    as Hmap by (intros l g body; induction l as [|t l IH]; intros a'; [done|]; simpl;
                apply bind_same_runs; [intros [[] ?]; apply IH|done]).
  rewrite <-(Hmap reap_order (orphans_of prev desired) _ a).
  apply ap_each_ext. intros typ _ a1. unfold orphans_of. rewrite <-(ap_each_filter _ _ _ a1).
  apply ap_each_ext. intros [name info] _ a2. simpl.
  destruct (gm_get (VppState_Devices desired) name) as [i|].
  - by rewrite decide_False by by intros [? _].
  - unfold Str.eqb. destruct (String.eqb_spec (DevInfo_Type info) typ) as [Ht|Ht]; simpl.
    + by rewrite decide_True.
    + by rewrite decide_False by by intros [_ ?].
Qed.

Lemma NoDup_orphans_of prev desired typ : NoDup (orphans_of prev desired typ).*1.
Proof.
  unfold orphans_of. eapply sublist_NoDup; [apply (NoDup_fst_range 462 (gm_map (VppState_Devices prev)))|].
  apply fmap_sublist, sublist_filter.
Qed.

(** *** What VPP has *)

(** What kind an interface of VPP is, with what a deletion names it by other than
    its index. *)
Inductive vkind :=
| KLoopback | KBond | KSubif | KTap | KOther
| KAfPacket (hostIf : string)
| KTunnel (src dst : VAddress) (port vni : Z).

#[local] Instance VAddress_eq_dec : EqDecision VAddress.
Proof. solve_decision. Defined.
#[local] Instance vkind_eq_dec : EqDecision vkind.
Proof. solve_decision. Defined.

(** The interfaces, each with its kind and its tag, and the bridge domains. *)
Record VppTable := MkVppTable { vifaces : gmap ifindex (vkind * string); vdomains : gset Z }.

(** What a message deletes. *)
Definition deletes {X} (m : vpp X) (i : ifindex) (k : vkind) : bool :=
  match m with
  | DeleteLoopback j => bool_decide (i = j /\ k = KLoopback)
  | BondDelete j => bool_decide (i = j /\ k = KBond)
  | DeleteSubif j => bool_decide (i = j /\ k = KSubif)
  | TapDeleteV2 j => bool_decide (i = j /\ k = KTap)
  | AfPacketDelete hostIf => bool_decide (k = KAfPacket hostIf)
  | VxlanAddDelTunnelV3 false _ src dst port vni => bool_decide (k = KTunnel src dst port vni)
  | _ => false
  end.

Definition deletes_domain {X} (m : vpp X) (bd : Z) : bool :=
  match m with BridgeDomainAddDel false bd' _ _ _ _ => bool_decide (bd = bd') | _ => false end.

Definition without {X} (m : vpp X) (V : VppTable) : VppTable :=
  MkVppTable (filter (fun e => deletes m e.1 e.2.1 = false) (vifaces V))
    (filter (fun bd => deletes_domain m bd = false) (vdomains V)).

(** The dump of the interfaces; one that ends well is complete. *)
Definition dump_of (V : VppTable) (r : res (list IfDetails * err)) : Prop :=
  match r with
  | Err _ => True
  | Ok (l, e) =>
      (forall d, d ∈ l -> exists k, vifaces V !! IfDetails_SwIfIndex d = Some (k, IfDetails_Tag d)) /\
      (e = None -> forall i k t, vifaces V !! i = Some (k, t) ->
         exists d, d ∈ l /\ IfDetails_SwIfIndex d = i /\ IfDetails_Tag d = t)
  end.

(** A VPP that does what a deletion asks when it answers without an error.  With
    [coop], its dumps do not fail, and what it has it deletes when asked.  Nothing
    but dumps and deletions may be sent. *)
Section vpp.
Context (coop : bool).

Definition deletion_post {X} (m : vpp X) (e : err) (V V' : VppTable) : Prop :=
  match e with None => V' = without m V | Some _ => V' = V /\ (coop = true -> without m V = V) end.

Definition reap_pre {X} (m : vpp X) : Prop :=
  match m with
  | SwInterfaceDump | DeleteLoopback _ | BondDelete _ | DeleteSubif _ | TapDeleteV2 _ | AfPacketDelete _
  | VxlanAddDelTunnelV3 false _ _ _ _ _ | BridgeDomainAddDel false _ _ _ _ _ => True
  | _ => False
  end.

Definition reap_post {X} (m : vpp X) (V : VppTable) : X -> VppTable -> Prop :=
  match m in vpp X return X -> VppTable -> Prop with
  | SwInterfaceDump => fun r V' => V' = V /\ dump_of V r /\ (coop = true -> exists l, r = Ok (l, None))
  | DeleteLoopback i => fun e V' => deletion_post (DeleteLoopback i) e V V'
  | BondDelete i => fun e V' => deletion_post (BondDelete i) e V V'
  | DeleteSubif i => fun e V' => deletion_post (DeleteSubif i) e V V'
  | TapDeleteV2 i => fun e V' => deletion_post (TapDeleteV2 i) e V V'
  | AfPacketDelete h => fun e V' => deletion_post (AfPacketDelete h) e V V'
  | VxlanAddDelTunnelV3 isAdd n src dst port vni =>
      fun r V' => deletion_post (VxlanAddDelTunnelV3 isAdd n src dst port vni) (res_err r) V V'
  | BridgeDomainAddDel isAdd bd f u w l => fun e V' => deletion_post (BridgeDomainAddDel isAdd bd f u w l) e V V'
  | _ => fun _ _ => False
  end.

Definition reap_spec : spec sys VppTable :=
  Spec (fun X e _ => match e with Vpp _ m => reap_pre m | _ => False end)
       (fun X e V => match e in sys X return X -> VppTable -> Prop with
                     | Vpp _ m => reap_post m V
                     | _ => fun _ _ => False
                     end) False.
End vpp.

(** *** What the withdrawal of a device means

    By the type that netcfg has recorded: a loopback, a bond, a VLAN and a tap are
    the interfaces of that kind with the device's name as their tag; an
    AF_PACKET interface is the one on the recorded interface of the host, if one
    is recorded; a VXLAN is the tunnel with the recorded endpoints, port and
    identifier; a bridge is its domain.  Of other types, those of hardware among
    them, there is nothing to withdraw. *)
Definition endpoint (s : string) : VAddress :=
  match ParseAddress s with Ok a => a | Err _ => MkVAddress false (replicate 16 0) end.

Definition is_withdrawn (x : string * DevInfo) (e : vkind * string) : Prop :=
  let typ := DevInfo_Type x.2 in
  match e.1 with
  | KLoopback => typ = "loopback" /\ e.2 = x.1
  | KBond => typ = "bond" /\ e.2 = x.1
  | KSubif => typ = "vlan" /\ e.2 = x.1
  | KTap => typ = "ndp-tap" /\ e.2 = x.1
  | KOther => False
  | KAfPacket hostIf => typ = "af-packet" /\ hostIf = DevInfo_HostIf x.2 /\ hostIf <> ""
  | KTunnel src dst port vni =>
      typ = "vxlan" /\ src = endpoint (DevInfo_Local x.2) /\ dst = endpoint (DevInfo_Remote x.2) /\
      port = (if decide (0 < DevInfo_Port x.2) then DevInfo_Port x.2 mod 2^16 else 4789) /\
      vni = DevInfo_Vni x.2
  end.

Definition domain_withdrawn (x : string * DevInfo) (bd : Z) : Prop :=
  DevInfo_Type x.2 = "bridge" /\ bd = DevInfo_BdID x.2.

(** The tag of such a device is on at most one interface. *)
Definition unique_tags (names : string -> Prop) (V : VppTable) : Prop :=
  forall i j k k' t, names t -> vifaces V !! i = Some (k, t) -> vifaces V !! j = Some (k', t) -> i = j.

(** From [V] to [V'] nothing is added, and nothing goes but what the items
    withdraw; and with [coop] all that goes. *)
Definition reaped (coop : bool) (names : string -> Prop) (items : list (string * DevInfo)) (V V' : VppTable) : Prop :=
  (vifaces V' ⊆ vifaces V /\ vdomains V' ⊆ vdomains V) /\
  (forall i e, vifaces V !! i = Some e -> vifaces V' !! i = Some e \/ exists x, x ∈ items /\ is_withdrawn x e) /\
  (forall bd, bd ∈ vdomains V -> bd ∈ vdomains V' \/ exists x, x ∈ items /\ domain_withdrawn x bd) /\
  (coop = true -> unique_tags names V ->
     (forall x i e, x ∈ items -> vifaces V' !! i = Some e -> ~ is_withdrawn x e) /\
     (forall x bd, x ∈ items -> bd ∈ vdomains V' -> ~ domain_withdrawn x bd)).

Section reaped.
Context (coop : bool) (names : string -> Prop).
#[local] Abbreviation reaped' := (reaped coop names).

Lemma unique_tags_subset V V' : vifaces V' ⊆ vifaces V -> unique_tags names V -> unique_tags names V'.
Proof.
  intros Hs Hu i j k k' t Ht Hi Hj. apply (Hu i j k k' t); [done|by eapply lookup_weaken..].
Qed.

Lemma reaped_nil V : reaped' [] V V.
Proof. split_and!; [done|done|auto..|]. intros _ _. split; intros; by match goal with H : _ ∈ [] |- _ => apply not_elem_of_nil in H end. Qed.

Lemma reaped_app items1 items2 V V1 V2 :
  reaped' items1 V V1 -> reaped' items2 V1 V2 -> reaped' (items1 ++ items2) V V2.
Proof.
  intros ((A1 & A2) & A3 & A4 & A5) ((B1 & B2) & B3 & B4 & B5).
  split_and!; [by etransitivity|set_solver|..].
  - intros i e [Hi|(x & Hx & Hw)]%A3; [|right; exists x; set_solver].
    apply B3 in Hi as [Hi|(x & Hx & Hw)]; [by left|right; exists x; set_solver].
  - intros bd [Hi|(x & Hx & Hw)]%A4; [|right; exists x; set_solver].
    apply B4 in Hi as [Hi|(x & Hx & Hw)]; [by left|right; exists x; set_solver].
  - intros Hc Hu. destruct (A5 Hc Hu) as [C1 C2], (B5 Hc (unique_tags_subset _ _ A1 Hu)) as [D1 D2].
    split; intros x y; [intros e|]; intros [Hx|Hx]%elem_of_app Hy; [..|by eapply D2].
    + eapply C1; [done|by eapply lookup_weaken].
    + by eapply D1.
    + eapply C2; [done|set_solver].
Qed.

(** One device, whose deletion is one message. *)
Lemma reaped_message {X} (m : vpp X) x e V V' :
  (forall i k t, vifaces V !! i = Some (k, t) -> deletes m i k = true -> is_withdrawn x (k, t)) ->
  (forall bd, deletes_domain m bd = true -> domain_withdrawn x bd) ->
  (unique_tags names V -> forall i k t, vifaces V !! i = Some (k, t) -> is_withdrawn x (k, t) -> deletes m i k = true) ->
  (forall bd, domain_withdrawn x bd -> deletes_domain m bd = true) ->
  deletion_post coop m e V V' -> reaped' [x] V V'.
Proof.
  intros Hs Hsd Hc Hcd Hp.
  assert (coop = true -> V' = without m V) as HV.
  { intros Hco. destruct e; simpl in Hp; [|done]. destruct Hp as [-> Hp]. symmetry. auto. }
  assert (V' = V \/ V' = without m V) as Hor by (destruct e; simpl in Hp; [left; apply Hp|by right]).
  clear Hp. split_and!.
  - destruct Hor as [->| ->]; [done|]. apply map_filter_subseteq.
  - destruct Hor as [->| ->]; [done|]. simpl. set_solver.
  - intros i [k t] Hi. destruct Hor as [->| ->]; [by left|]. simpl. destruct (deletes m i k) eqn:E.
    + right. exists x. split; [left|by eapply Hs].
    + left. by apply map_lookup_filter_Some.
  - intros bd Hb. destruct Hor as [->| ->]; [by left|]. simpl. destruct (deletes_domain m bd) eqn:E.
    + right. exists x. split; [left|auto].
    + left. by apply elem_of_filter.
  - intros Hco Hu. rewrite (HV Hco). simpl. split.
    + intros y i [k t] ->%list_elem_of_singleton [Hi Hd]%map_lookup_filter_Some Hw. simpl in Hd.
      rewrite (Hc Hu i k t Hi Hw) in Hd. done.
    + intros y bd ->%list_elem_of_singleton [Hd Hb]%elem_of_filter Hw. by rewrite (Hcd bd Hw) in Hd.
Qed.

(** One device for which nothing is sent. *)
Lemma reaped_nothing x V :
  (coop = true -> forall i e, vifaces V !! i = Some e -> ~ is_withdrawn x e) -> (forall bd, ~ domain_withdrawn x bd) ->
  reaped' [x] V V.
Proof.
  intros Hi Hd. split_and!; [done|done|auto..|]. intros Hc _.
  split; intros y; [intros i e|intros bd]; intros ->%list_elem_of_singleton; [by apply Hi|done].
Qed.

(** The loops. *)
Lemma wp_ap_each_reaped {A} (f : A -> list (string * DevInfo)) (l : list A) (body : A -> ap unit) a V :
  (forall x a V, x ∈ l -> wp (reap_spec coop) (body x a) V (fun _ V' => reaped' (f x) V V')) ->
  wp (reap_spec coop) (ap_each l body a) V (fun _ V' => reaped' (concat (f <$> l)) V V').
Proof.
  revert a V. induction l as [|x l IH]; intros a V Hb; [apply wp_ret, reaped_nil|].
  apply wp_bind. eapply wp_mono; [|apply Hb; left]. intros [[] a1] V1 Hr1.
  eapply wp_mono; [|apply IH; intros; apply Hb; by right]. intros r V2 Hr2. by apply (reaped_app _ _ _ V1).
Qed.
End reaped.

(** *** Delete *)

Section delete.
Context (coop : bool) (names : string -> Prop).
#[local] Abbreviation reaped' := (reaped coop names).

Lemma first_index_cases sel l e :
  match first_index sel l e with
  | Ok (Some i) => exists d, d ∈ l /\ sel d = true /\ IfDetails_SwIfIndex d = i
  | Ok None => e = None /\ forall d, d ∈ l -> sel d = false
  | Err _ => e <> None
  end.
Proof.
  induction l as [|d l IH]; simpl.
  - destruct e; [done|]. split; [done|]. by intros d ?%not_elem_of_nil.
  - destruct (sel d) eqn:Hd; [exists d; split; [left|done]|].
    destruct (first_index sel l e) as [[i|]|e'].
    + destruct IH as (d' & Hin & Hs). exists d'. split; [by right|done].
    + destruct IH as [-> IH]. split; [done|]. intros d' [->|Hin]%elem_of_cons; auto.
    + done.
Qed.

(** The look-up by a tag, and the message to what is found. *)
Lemma wp_delete_tagged x (m : ifindex -> vpp err) kind a V :
  names x.1 ->
  (forall i V, reap_pre (m i) /\ forall r V', reap_post coop (m i) V r V' -> deletion_post coop (m i) r V V') ->
  (forall i j k, deletes (m j) i k = bool_decide (i = j /\ k = kind)) -> (forall i bd, deletes_domain (m i) bd = false) ->
  (forall k t, is_withdrawn x (k, t) <-> k = kind /\ t = x.1) -> (forall bd, ~ domain_withdrawn x bd) ->
  wp (reap_spec coop) (delete_tagged x.1 m a) V (fun _ V' => reaped' [x] V V').
Proof.
  intros Hn Hm Hdel Hdom Hw Hwd. apply wp_bind, wp_bind, wp_bind, wp_call; [done|].
  intros r ? (-> & Hd & Hc). apply wp_ret. destruct r as [[l e]|e].
  - simpl in Hd |- *. pose proof (first_index_cases (fun d => Str.eqb (IfDetails_Tag d) x.1) l e) as Hf.
    destruct Hd as [Hd1 Hd2]. apply wp_ret. destruct (first_index _ l e) as [[i|]|e'].
    + destruct Hf as (d & Hin & Ht & <-). change ((IfDetails_Tag d =? x.1)%string = true) in Ht. revert Ht. destruct (str_eqb_spec (IfDetails_Tag d) x.1) as [Htag|]; [intros _|done].
      destruct (Hd1 d Hin) as [k Hk]. destruct (Hm (IfDetails_SwIfIndex d) V) as [Hpre Hpost].
      apply wp_bind, wp_call; [done|]. intros res V' Hr. apply wp_ret.
      apply (reaped_message coop names (m (IfDetails_SwIfIndex d)) x res).
      * intros i k' t Hi Hdl. rewrite Hdel in Hdl. apply bool_decide_eq_true in Hdl as [-> ->].
        apply Hw. split; [done|]. congruence.
      * intros bd Hb. by rewrite Hdom in Hb.
      * intros Hu i k' t Hi [-> ->]%Hw. rewrite Hdel. apply bool_decide_eq_true. split; [|done].
        rewrite Htag in Hk. by apply (Hu i _ kind k x.1).
      * intros bd Hb. by apply Hwd in Hb.
      * auto.
    + destruct Hf as [-> Hf]. apply wp_ret, reaped_nothing; [|done]. intros _ i [k t] Hi [-> ->]%Hw.
      destruct (Hd2 eq_refl _ _ _ Hi) as (d & Hin & _ & Ht). specialize (Hf d Hin). change ((IfDetails_Tag d =? x.1)%string = false) in Hf. rewrite Ht in Hf.
      revert Hf. by destruct (str_eqb_spec x.1 x.1).
    + apply wp_ret, reaped_nothing; [|done]. intros Hco. destruct (Hc Hco) as [l' [= <- ->]]. by destruct Hf.
  - apply wp_ret, wp_ret, reaped_nothing; [|done]. intros Hco. by destruct (Hc Hco).
Qed.

(** A message that names what it deletes. *)
Lemma wp_delete_rpc {X} (m : vpp X) (r_err : X -> err) x a V :
  reap_pre m -> (forall r V', reap_post coop m V r V' -> deletion_post coop m (r_err r) V V') ->
  (forall i k t, deletes m i k = true <-> is_withdrawn x (k, t)) ->
  (forall bd, deletes_domain m bd = true <-> domain_withdrawn x bd) ->
  wp (reap_spec coop) (rpc m a) V (fun _ V' => reaped' [x] V V').
Proof.
  intros Hpre Hpost Hd Hdd. apply wp_bind, wp_call; [done|]. intros r V' Hr. apply wp_ret.
  apply (reaped_message coop names m x (r_err r)); [..|auto].
  - intros i k t _ Hi. by apply (Hd i).
  - intros bd. apply Hdd.
  - intros _ i k t _. apply Hd.
  - intros bd. apply Hdd.
Qed.

Lemma wp_Delete name info a V :
  names name -> wp (reap_spec coop) (Delete name info a) V (fun _ V' => reaped' [(name, info)] V V').
Proof.
  intros Hn. unfold Delete, Str.eqb, DeleteNDPTap.
  assert (forall V, (forall e, ~ is_withdrawn (name, info) e) -> (forall bd, ~ domain_withdrawn (name, info) bd) ->
    reaped' [(name, info)] V V) as Hnothing by (intros V' He Hb; apply reaped_nothing; auto).
  assert (DevInfo_Type info <> "bridge" -> forall bd, ~ domain_withdrawn (name, info) bd) as Hbr
    by (intros Ht bd [Hb _]; done).
  destruct (str_eqb_spec (DevInfo_Type info) "af-packet") as [Ht|Hn1].
  { destruct (Str.is_empty (DevInfo_HostIf info)) eqn:Eh.
    - apply wp_ret, Hnothing; [|apply Hbr; congruence]. intros [k t]. unfold is_withdrawn. simpl. rewrite Ht.
      destruct k; try (intros []; done). intros (_ & -> & Hne). by destruct (DevInfo_HostIf info).
    - apply (wp_delete_rpc _ id); [done|done| |].
      + intros i k t. simpl. rewrite bool_decide_eq_true. unfold is_withdrawn. simpl. rewrite Ht.
        destruct k; try naive_solver. split; [|naive_solver]. intros [= ->]. split_and!; [done|done|].
        by destruct (DevInfo_HostIf info).
      + intros bd. split; [done|]. intros Hb. exfalso. revert Hb. apply Hbr. congruence. }
  destruct (str_eqb_spec (DevInfo_Type info) "loopback") as [Ht|Hn2].
  { apply (wp_delete_tagged (name, info) _ KLoopback); [done|done|done|done| |apply Hbr; congruence].
    intros k t. unfold is_withdrawn. simpl. rewrite Ht. destruct k; naive_solver. }
  destruct (str_eqb_spec (DevInfo_Type info) "bond") as [Ht|Hn3].
  { apply (wp_delete_tagged (name, info) _ KBond); [done|done|done|done| |apply Hbr; congruence].
    intros k t. unfold is_withdrawn. simpl. rewrite Ht. destruct k; naive_solver. }
  destruct (str_eqb_spec (DevInfo_Type info) "vlan") as [Ht|Hn4].
  { apply (wp_delete_tagged (name, info) _ KSubif); [done|done|done|done| |apply Hbr; congruence].
    intros k t. unfold is_withdrawn. simpl. rewrite Ht. destruct k; naive_solver. }
  destruct (str_eqb_spec (DevInfo_Type info) "vxlan") as [Ht|Hn5].
  { apply wp_bind. eapply wp_mono; [|apply (wp_delete_rpc _ res_err (name, info)); [done|done| |]].
    - by intros [r a'] V' Hr.
    - intros i k t. simpl. rewrite bool_decide_eq_true. unfold is_withdrawn, uint16. simpl. rewrite Ht.
      unfold value_or, endpoint, VAddress_zero. case_decide as Hp.
      + rewrite (proj2 (Z.ltb_lt _ _)) by done. destruct k; naive_solver.
      + rewrite (proj2 (Z.ltb_ge _ _)) by lia. destruct k; naive_solver.
    - intros bd. split; [done|]. intros Hb. exfalso. revert Hb. apply Hbr. congruence. }
  destruct (str_eqb_spec (DevInfo_Type info) "bridge") as [Ht|Hn6].
  { apply (wp_delete_rpc _ id); [done|done| |].
    - intros i k t. split; [done|]. unfold is_withdrawn. simpl. rewrite Ht. destruct k; naive_solver.
    - intros bd. simpl. rewrite bool_decide_eq_true. unfold domain_withdrawn. naive_solver. }
  destruct (str_eqb_spec (DevInfo_Type info) "ndp-tap") as [Ht|Hn7].
  { apply (wp_delete_tagged (name, info) _ KTap); [done|done|done|done| |apply Hbr; congruence].
    intros k t. unfold is_withdrawn. simpl. rewrite Ht. destruct k; naive_solver. }
  apply wp_ret, Hnothing; [|by apply Hbr]. intros [k t]. unfold is_withdrawn. simpl. destruct k; naive_solver.
Qed.
End delete.

(** *** reapVPPOrphans *)

Lemma elem_of_orphans_of prev desired typ name info :
  (name, info) ∈ orphans_of prev desired typ <->
  (gm_get (VppState_Devices desired) name = None /\ DevInfo_Type info = typ) /\
  gm_get (VppState_Devices prev) name = Some info.
Proof. unfold orphans_of. rewrite list_elem_of_filter. simpl. unfold gm_range. by rewrite elem_of_range. Qed.

(** The devices that are left out of a state, and those of them whose type is one
    that netcfg records. *)
Definition left_out (prev desired : VppState) (x : string * DevInfo) : Prop :=
  gm_get (VppState_Devices prev) x.1 = Some x.2 /\ gm_get (VppState_Devices desired) x.1 = None.

Lemma withdrawn_orphans prev desired : withdrawn prev desired (concat (orphans_of prev desired <$> reap_order)).
Proof.
  split_and!.
  - assert (NoDup reap_order) as Hr by (apply (bool_decide_unpack (NoDup reap_order)); vm_compute; exact I).
    induction Hr as [|typ l Hn _ IH]; [constructor|]. simpl. rewrite fmap_app. apply NoDup_app.
    split; [apply NoDup_orphans_of|]. split; [|done]. intros name Hin Hin'.
    apply list_elem_of_fmap in Hin as ([? info] & -> & [[_ Ht] Hi]%elem_of_orphans_of).
    apply list_elem_of_fmap in Hin' as ([? info'] & Heq & Hin'). simpl in Heq. subst.
    apply elem_of_concat_fmap in Hin' as (typ' & Ht' & Hin'). apply elem_of_orphans_of in Hin' as [[_ <-] Hi']. simpl in *. assert (info = info') as <- by congruence. done.
  - intros name info. rewrite <-reap_order_types, elem_of_concat_fmap. split.
    + intros (typ & Ht & Hin). apply elem_of_orphans_of in Hin as [[Hd <-] Hp]. done.
    + intros (Hp & Hd & Ht). exists (DevInfo_Type info). split; [done|]. by apply elem_of_orphans_of.
  - apply (sorted_concat (fun e => DevInfo_Type e.2) (fun typ other => built_on other typ = false)).
    + apply (bool_decide_unpack (StronglySorted _ _)). vm_compute. exact I.
    + intros typ [name info] _ [[_ Ht] _]%elem_of_orphans_of. done.
    + intros typ Ht. by repeat (apply elem_of_cons in Ht as [->|Ht]; [done|]); apply not_elem_of_nil in Ht.
Qed.

(** The loops of reapVPPOrphans, over the types and over the devices. *)
Lemma wp_reapVPPOrphans coop prev desired a V :
  wp (reap_spec coop) (reapVPPOrphans prev desired a) V (fun _ V' =>
    reaped coop (fun n => is_Some (gm_get (VppState_Devices prev) n))
      (concat (orphans_of prev desired <$> reap_order)) V V').
Proof.
  apply wp_ap_each_reaped. intros typ a1 V1 _. unfold orphans_of.
  assert (forall (l : list (string * DevInfo)),
    concat ((fun x => if decide (gm_get (VppState_Devices desired) x.1 = None /\ DevInfo_Type x.2 = typ) then [x] else []) <$> l)
    = filter (fun e => gm_get (VppState_Devices desired) e.1 = None /\ DevInfo_Type e.2 = typ) l) as Hl.
  { intros l. induction l as [|x l IH]; [done|]. rewrite filter_cons, fmap_cons. simpl.
    destruct (decide _); [simpl; f_equal|]; exact IH. }
  rewrite <-Hl. apply wp_ap_each_reaped. intros [name info] a2 V2 Hin%elem_of_range. simpl.
  destruct (gm_get (VppState_Devices desired) name) as [i|].
  { rewrite decide_False by by intros [? _]. apply wp_ret, reaped_nil. }
  unfold Str.eqb. destruct (str_eqb_spec (DevInfo_Type info) typ) as [Ht|Ht]; simpl.
  - rewrite decide_True by done. apply wp_bind. eapply wp_mono; [|apply (wp_Delete coop (fun n => is_Some (gm_get (VppState_Devices prev) n))); by exists info]. by intros [r a3] V3.
  - rewrite decide_False by by intros [_ ?]. apply wp_ret, reaped_nil.
Qed.

(** C22: what is withdrawn of VPP's devices when the state changes.  The run is a
    sequence of calls of Delete, for the devices of the old state whose name the
    new state has not and whose type is one that netcfg records, each once, and
    none before one that can be built on it: VLANs go before bonds and
    interfaces, bonds before interfaces, and all go before the bridge domains that
    they may be in.  And of a VPP that has interfaces of some kinds with tags, and
    bridge domains, whatever it answers, it takes away nothing but what the
    devices that are left out stand for: the interface of their kind with their
    name as its tag for loopbacks, bonds, VLANs and taps, the AF_PACKET interface on
    the recorded interface of the host, the tunnel with the recorded endpoints,
    the recorded domain; nothing for dpdk, avf and an AF_PACKET device without an
    interface of the host.  When VPP's dumps do not fail, it deletes what it is
    asked to, and the tags of the old devices are on one interface each at most, it
    takes all of that away.  (Devices of types that netcfg does not record, as
    rdma, memif and tap, are never in the list.) *)
Theorem reapVPPOrphans_correct (prev desired : VppState) (a : Applier) (V : VppTable) (coop : bool) :
  (exists l, withdrawn prev desired l /\
     ap_same (reapVPPOrphans prev desired) (ap_each l (fun '(name, info) => ap_ignore (Delete name info)))) /\
  wp (reap_spec coop) (reapVPPOrphans prev desired a) V (fun _ V' =>
    vifaces V' ⊆ vifaces V /\ vdomains V' ⊆ vdomains V /\
    (forall i e, vifaces V !! i = Some e ->
       vifaces V' !! i = Some e \/ exists x, left_out prev desired x /\ is_withdrawn x e) /\
    (forall bd, bd ∈ vdomains V ->
       bd ∈ vdomains V' \/ exists x, left_out prev desired x /\ domain_withdrawn x bd) /\
    (coop = true -> unique_tags (fun n => is_Some (gm_get (VppState_Devices prev) n)) V ->
       forall x, left_out prev desired x ->
       (forall i e, vifaces V' !! i = Some e -> ~ is_withdrawn x e) /\
       (forall bd, bd ∈ vdomains V' -> ~ domain_withdrawn x bd))).
Proof.
  split; [exists (concat (orphans_of prev desired <$> reap_order)); split; [apply withdrawn_orphans|apply reap_each]|].
  assert (forall x, x ∈ concat (orphans_of prev desired <$> reap_order) <->
    left_out prev desired x /\ DevInfo_Type x.2 ∈ device_types) as Hl.
  { intros [name info]. destruct (withdrawn_orphans prev desired) as (_ & Hm & _). rewrite Hm. unfold left_out. simpl. tauto. }
  assert (forall x, (exists e, is_withdrawn x e) \/ (exists bd, domain_withdrawn x bd) -> DevInfo_Type x.2 ∈ device_types) as Ht.
  { intros x [[[k t] He]|[bd [-> _]]]; [|by apply (bool_decide_unpack _)].
    destruct k; try done; destruct He as [-> _]; by apply (bool_decide_unpack _). }
  eapply wp_mono; [|apply wp_reapVPPOrphans]. intros _ V' ((A1 & A2) & A3 & A4 & A5). split_and!; [done|done|..].
  - intros i e [Hi|(x & [Hx _]%Hl & Hw)]%A3; [by left|right; eauto].
  - intros bd [Hi|(x & [Hx _]%Hl & Hw)]%A4; [by left|right; eauto].
  - intros Hc Hu x Hx. destruct (A5 Hc Hu) as [B1 B2]. split.
    + intros i e Hi Hw. apply (B1 x i e); [apply Hl; eauto|done..].
    + intros bd Hb Hw. apply (B2 x bd); [apply Hl; eauto|done..].
Qed.
End reap.

#[local] Existing Instances Examples.vpp_libs range_map_to_list.

(** A loopback and a device of dpdk that are left out: the interface of the one
    goes, that of the other stays. *)
Module Example7.
Definition prev : VppState := MkVppState
  (Some {["lo1" := DevInfo_zero <| DevInfo_Type := "loopback" |>; "wan" := DevInfo_zero <| DevInfo_Type := "dpdk" |>]}) [] [].
Definition table : VppTable := MkVppTable {[5 := (KLoopback, "lo1"); 1 := (KOther, "wan")]} ∅.

Lemma unique names : unique_tags names table.
Proof.
  intros i j k k' t _ Hi Hj. unfold table in *. simpl in *.
  rewrite lookup_insert_Some, lookup_singleton_Some in Hi, Hj. naive_solver.
Qed.
End Example7.

Lemma reapVPPOrphans_correct_witness :
  wp (reap_spec true) (reapVPPOrphans Example7.prev NewVppState (MkApplier 1 ∅)) Example7.table (fun _ V' =>
    vifaces V' !! 5 = None /\ vifaces V' !! 1 = Some (KOther, "wan")).
Proof.
  destruct (reapVPPOrphans_correct Example7.prev NewVppState (MkApplier 1 ∅) Example7.table true) as [_ Hr].
  refine (wp_mono _ _ _ _ _ _ Hr). intros r V' (Hs & _ & Hkept & _ & Hgone). split.
  - destruct (Hgone eq_refl (Example7.unique _) ("lo1", DevInfo_zero <| DevInfo_Type := "loopback" |>)) as [Hi _];
      [split; vm_compute; reflexivity|].
    destruct (vifaces V' !! 5) as [e|] eqn:E; [|reflexivity]. exfalso. apply (Hi 5 e E).
    assert (vifaces Example7.table !! 5 = Some e) as He by (eapply lookup_weaken; [exact E|exact Hs]).
    vm_compute in He. injection He as <-. split; reflexivity.
  - destruct (Hkept 1 (KOther, "wan")) as [H|(x & _ & [])]; [vm_compute; reflexivity|exact H].
Defined.
