(* ===== verification/VppConn.v ===== *)
(** * The connection to VPP

    setupVPP speaks to VPP over the connection it has opened, while it is open,
    and leaves neither a connection nor a channel behind. *)

From S2P Require Import Prelude GoStd GoNet Effect Config Validate VppApi Netlink Host Setup Vpp VppSetup VppSafe.

(** The open connections and channels. *)
Record conns := MkConns { open_conns : gset Z; open_chans : gset Z }.

(** A message, and what is closed, needs to be open. *)
Definition conn_pre {X} (e : sys X) (o : conns) : Prop :=
  match e with
  | VppNewAPIChannel c | VppDisconnect c | Vpp c _ => c ∈ open_conns o
  | VppCheckCompatibility ch | VppCloseChannel ch => ch ∈ open_chans o
  | _ => True
  end.

Definition conn_post {X} (e : sys X) (o : conns) : X -> conns -> Prop :=
  match e in sys X return X -> conns -> Prop with
  | VppConnect _ => fun r o' =>
      match r with
      | Ok c => (c ∉ open_conns o) /\ o' = MkConns ({[c]} ∪ open_conns o) (open_chans o)
      | Err _ => o' = o
      end
  | VppNewAPIChannel _ => fun r o' =>
      match r with
      | Ok ch => (ch ∉ open_chans o) /\ o' = MkConns (open_conns o) ({[ch]} ∪ open_chans o)
      | Err _ => o' = o
      end
  | VppDisconnect c => fun _ o' => o' = MkConns (open_conns o ∖ {[c]}) (open_chans o)
  | VppCloseChannel ch => fun _ o' => o' = MkConns (open_conns o) (open_chans o ∖ {[ch]})
  | _ => fun _ o' => o' = o
  end.

Definition conn_spec : spec sys conns :=
  Spec (fun X e o => conn_pre e o) (fun X e o x o' => conn_post e o x o') True.

(** Calls that have nothing to do with connections. *)
Definition no_conn X (e : sys X) : Prop :=
  match e with
  | VppConnect _ | VppNewAPIChannel _ | VppDisconnect _ | VppCloseChannel _ | VppCheckCompatibility _ | Vpp _ _ => False
  | _ => True
  end.

Lemma wp_no_conn {A} (p : prog sys A) o : all_calls no_conn p -> wp conn_spec p o (fun _ o' => o' = o).
Proof.
  intros Hp. apply (wp_all_calls conn_spec no_conn (fun o' => o' = o)); [done| | |done|done].
  - intros X e s He _. by destruct e.
  - intros X e s x s' He -> Hx. by destruct e.
Qed.

(** A method that leaves the connections as they are, and its applier on its
    connection, when that is open. *)
Definition over_conn (A : Type) (p : ap A) : Prop :=
  forall a o, Applier_conn a ∈ open_conns o ->
    wp conn_spec (p a) o (fun r o' => o' = o /\ Applier_conn r.2 = Applier_conn a).

#[export] Instance over_conn_closed : ApClosed over_conn.
Proof.
  split; [split|].
  - intros A x a o _. by apply wp_ret.
  - intros A B p f Hp Hf a o Ha. apply wp_bind. eapply wp_mono; [|by apply Hp].
    intros [x a'] o' [-> Ha']. simpl in Ha'. rewrite <-Ha'. apply Hf. by rewrite Ha'.
  - intros A [x|] a o _; [by apply wp_ret|done].
  - intros name a o _. by apply wp_ret.
  - intros name i a o _. by apply wp_ret.
  - intros X m a o Ha. apply wp_bind, wp_call; [done|]. intros x ? ->. by apply wp_ret.
Qed.

Lemma over_conn_prog {A} (p : prog sys A) : all_calls no_conn p -> over_conn A (ap_prog p).
Proof.
  intros Hp a o _. apply wp_bind. eapply wp_mono; [|by apply wp_no_conn]. intros x ? ->. by apply wp_ret.
Qed.

#[export] Instance over_conn_host `{VppLibs} : ApHost over_conn.
Proof.
  split.
  - apply over_conn_prog. unfold LoadVppState. calls_tac; exact I.
  - intros s. apply over_conn_prog. unfold SaveVppState. calls_tac; exact I.
  - intros h br. apply over_conn_prog.
    unfold setNDPTapAlias, New, Close, deferred, SetAlias, on_link, link_by_name. calls_tac; exact I.
Qed.

Lemma gset_add_remove (c : Z) (s : gset Z) : c ∉ s -> ({[c]} ∪ s) ∖ {[c]} = s.
Proof. intros Hc. set_solver. Qed.

Lemma wp_CloseClient c ch o :
  (c ∉ open_conns o) -> (ch ∉ open_chans o) ->
  wp conn_spec (CloseClient (MkClient c ch)) (MkConns ({[c]} ∪ open_conns o) ({[ch]} ∪ open_chans o))
    (fun _ o' => o' = o).
Proof.
  intros Hc Hch. apply wp_bind, wp_call; [simpl; set_solver|]. intros ? ? ->. simpl.
  apply wp_call; [simpl; set_solver|]. intros ? ? ->. simpl. destruct o as [s t]. simpl in *.
  by rewrite !gset_add_remove.
Qed.

(** What Connect leaves: a new connection with a new channel, or what there was. *)
Lemma wp_Connect sock o :
  wp conn_spec (Connect sock) o (fun r o' =>
    match r with
    | Ok (MkClient c ch) => (c ∉ open_conns o) /\ (ch ∉ open_chans o) /\
        o' = MkConns ({[c]} ∪ open_conns o) ({[ch]} ∪ open_chans o)
    | Err _ => o' = o
    end).
Proof.
  unfold Connect. apply wp_bind, wp_call; [done|]. intros [c|e] o1 Ho1; simpl in Ho1; [|by subst; apply wp_ret].
  destruct Ho1 as [Hc ->]. apply wp_bind, wp_call; [simpl; set_solver|].
  intros [ch|e] o1 Ho1; simpl in Ho1.
  - destruct Ho1 as [Hch ->]. cbv zeta. apply wp_bind. unfold checkCompatibility.
    apply wp_bind, wp_call; [simpl; set_solver|]. intros [e|] ? ->; apply wp_ret; [|by apply wp_ret].
    apply wp_bind. eapply wp_mono; [|by apply wp_CloseClient]. intros ? ? ->. by apply wp_ret.
  - subst. apply wp_bind, wp_call; [simpl; set_solver|]. intros ? ? ->. apply wp_ret. simpl.
    destruct o as [s t]. simpl in *. by rewrite gset_add_remove.
Qed.

(** C20: setupVPP uses VPP's connections rightly, whatever VPP and the kernel
    answer: every message goes over a connection that is open, nothing is closed
    that is not open, and when it returns the open connections and channels are
    those that were open before, on its error paths too. *)
Theorem setupVPP_connections `{VppLibs} `{RangeOrder} `{SliceSort} (global : ptr VPPGlobal) (v : vppSet) (o : conns) :
  wp conn_spec (setupVPP global v) o (fun _ o' => o' = o).
Proof.
  unfold setupVPP. apply wp_bind. eapply wp_mono; [|apply wp_no_conn].
  2: { unfold generateStartupConf. calls_tac; exact I. }
  intros ? ? ->. apply wp_bind. eapply wp_mono; [|apply wp_Connect].
  intros [[c ch]|e] o1 Ho1; [|by subst; apply wp_ret]. destruct Ho1 as (Hc & Hch & ->).
  cbv zeta. unfold deferred. apply wp_bind, wp_bind. eapply wp_mono; [|apply (ap_sat_with_vpp over_conn)].
  2: { simpl. set_solver. }
  intros r o1 [-> _]. apply wp_ret. apply wp_bind. eapply wp_mono; [|by apply wp_CloseClient].
  intros ? ? ->. by apply wp_ret.
Qed.
