(* ===== verification/VppIfs.v ===== *)
(** * The interfaces of VPP

    A device is tied to its interface in VPP by the tag of the interface, so that
    a device that is applied again is found and not created once more.  Here VPP
    keeps a table of interfaces, with their names and tags; and it is remembered
    which interfaces it has refused to tag. *)

From S2P Require Import Prelude GoStd GoNet Effect Config Validate VppApi Netlink Host Setup Vpp VppSetup VppSafe.

(** The interfaces: to an index, the name and the tag. *)
Abbreviation vifs := (gmap ifindex (string * string)).

(** The table, and the indices whose tagging has failed. *)
Abbreviation vstate := (vifs * gset ifindex)%type.

(** Some interface has the tag; of the interfaces, only [i] may have it. *)
Definition tagged (I : vifs) (tag : string) : Prop := exists i name, I !! i = Some (name, tag).
Definition only_tagged (I : vifs) (tag : string) (i : ifindex) : Prop :=
  forall j name, I !! j = Some (name, tag) -> j = i.

(** Two interfaces with one tag. *)
Definition twice_tagged (I : vifs) (tag : string) : Prop :=
  exists i j n n', i <> j /\ I !! i = Some (n, tag) /\ I !! j = Some (n', tag).

(** A dump that ends well has an entry for each interface and no other; one that
    breaks off has some of them. *)
Definition dumped (I : vifs) (r : res (list IfDetails * err)) : Prop :=
  match r with
  | Err _ => True
  | Ok (l, e) =>
      (forall d, d ∈ l -> I !! IfDetails_SwIfIndex d = Some (IfDetails_InterfaceName d, IfDetails_Tag d)) /\
      (e = None -> forall i n t, I !! i = Some (n, t) -> MkIfDetails i n t ∈ l)
  end.

(** The answer to a message that creates: an index that was free. *)
Definition creates (I : vifs) (tag : string) (r : res ifindex) (I' : vifs) : Prop :=
  match r with
  | Ok i => I !! i = None /\ exists name, I' = <[i := (name, tag)]> I
  | Err _ => I' = I
  end.

(** Calls that are no message. *)
Definition no_message X (e : sys X) : Prop := match e with Vpp _ _ => False | _ => True end.

Section vpp.
Context `{VppLibs} `{RangeOrder} `{SliceSort}.

(** What a run may create and tag: interfaces of the tags in [want], when no
    interface has the tag.  The index that is tagged is the only one of its tag,
    even if the tag is empty as it is on a new interface. *)
Section spec.
Context (want : string -> Prop).

Definition may_create (I : vifs) : Prop := exists name, want name /\ ~ tagged I name.

Definition ifs_msg_pre {X} (m : vpp X) (I : vifs) : Prop :=
  match m with
  | CreateLoopback | CreateVlanSubif _ _ | AfPacketCreateV3 _ | DevCreatePortIf _ _ | BondCreate2 _ _
  | VxlanAddDelTunnelV3 true _ _ _ _ _ => may_create I
  | TapCreateV3 _ tag => want tag /\ ~ tagged I tag
  | SwInterfaceTagAddDel isAdd i tag => isAdd = true /\ want tag /\ only_tagged I tag i
  | _ => True
  end.

Definition ifs_msg_post {X} (m : vpp X) (I : vifs) : X -> vifs -> Prop :=
  match m in vpp X return X -> vifs -> Prop with
  | SwInterfaceDump => fun r I' => dumped I r /\ I' = I
  | CreateLoopback | CreateVlanSubif _ _ | AfPacketCreateV3 _ | BondCreate2 _ _ => creates I ""
  | TapCreateV3 _ tag => creates I tag
  | DevCreatePortIf _ _ => fun r I' =>
      match r with
      | Ok rep => if DevReply_Retval rep =? 0 then creates I "" (Ok (DevReply_Index rep)) I' else I' = I
      | Err _ => I' = I
      end
  | VxlanAddDelTunnelV3 isAdd _ _ _ _ _ => fun r I' => if isAdd then creates I "" r I' else I' ⊆ I
  | DeleteLoopback _ | DeleteSubif _ | AfPacketDelete _ | BondDelete _ | TapDeleteV2 _ => fun _ I' => I' ⊆ I
  | SwInterfaceTagAddDel _ i tag => fun e I' =>
      match e, I !! i with
      | None, Some (name, _) => I' = <[i := (name, tag)]> I
      | _, _ => I' = I
      end
  | _ => fun _ I' => I' = I
  end.

Definition refuses {X} (m : vpp X) (R : gset ifindex) : X -> gset ifindex :=
  match m in vpp X return X -> gset ifindex with
  | SwInterfaceTagAddDel _ i _ => fun e => match e with Some _ => {[i]} ∪ R | None => R end
  | _ => fun _ => R
  end.

Definition ifs_spec : spec sys vstate :=
  Spec (fun X e S => match e with Vpp _ m => ifs_msg_pre m S.1 | _ => True end)
       (fun X e S => match e in sys X return X -> vstate -> Prop with
                     | Vpp _ m => fun x S' => ifs_msg_post m S.1 x S'.1 /\ S'.2 = refuses m S.2 x
                     | _ => fun _ S' => S' = S
                     end) True.

(** From one table to the other no tag has come to stand on two interfaces. *)
Definition no_new_twice (I I' : vifs) : Prop :=
  forall tag, tag <> "" -> twice_tagged I' tag -> twice_tagged I tag.

#[local] Instance no_new_twice_preorder : PreOrder no_new_twice.
Proof. split; [by intros I tag|]. intros I1 I2 I3 Ha Hb tag Ht Htw. by apply Ha, Hb. Qed.

Lemma no_new_twice_subset I I' : I' ⊆ I -> no_new_twice I I'.
Proof.
  intros Hs tag _ (i & j & n & n' & Hij & Hi & Hj). exists i, j, n, n'.
  split; [done|]. split; by eapply lookup_weaken.
Qed.

(** An interface that is added or tagged anew, when it is the only one of its tag. *)
Lemma no_new_twice_insert I i n tag : only_tagged I tag i \/ tag = "" -> no_new_twice I (<[i := (n, tag)]> I).
Proof.
  intros Hu tag' Ht (j & k & n1 & n2 & Hjk & Hj & Hk).
  destruct (decide (tag' = tag)) as [->|Hne].
  - destruct Hu as [Hu| ->]; [|done]. destruct (decide (j = i)) as [->|Hj'].
    + rewrite lookup_insert_ne in Hk by done. by apply Hu in Hk; subst.
    + rewrite lookup_insert_ne in Hj by done. by apply Hu in Hj; subst.
  - exists j, k, n1, n2. split; [done|].
    split; (destruct (decide (i = j)), (decide (i = k)); subst;
      rewrite ?lookup_insert_eq, ?lookup_insert_ne in Hj by done;
      rewrite ?lookup_insert_eq, ?lookup_insert_ne in Hk by done; congruence).
Qed.

(** From one state to the other, the interfaces but those of [open] are as they
    were, or have one of the tags, or VPP has refused to tag them. *)
Definition settled (open : gset ifindex) (S S' : vstate) : Prop :=
  S.2 ⊆ S'.2 /\
  forall j n t, S'.1 !! j = Some (n, t) -> S.1 !! j = Some (n, t) \/ want t \/ j ∈ S'.2 \/ j ∈ open.

Definition grown (S S' : vstate) : Prop := no_new_twice S.1 S'.1 /\ settled ∅ S S'.

Lemma settled_trans open S1 S2 S3 : settled open S1 S2 -> settled ∅ S2 S3 -> settled open S1 S3.
Proof.
  intros [A1 A2] [B1 B2]. split; [set_solver|]. intros j n t [Hj|[Hj|[Hj|Hj]]]%B2; [|by auto..|set_solver].
  apply A2 in Hj. set_solver.
Qed.

#[local] Instance grown_preorder : PreOrder grown.
Proof.
  split; [intros S; split; [done|]; split; [done|]; by left|].
  intros S1 S2 S3 [A1 A2] [B1 B2]. split; [by etransitivity|by apply (settled_trans _ _ S2)].
Qed.

Lemma grown_subset S I' : I' ⊆ S.1 -> grown S (I', S.2).
Proof.
  intros Hs. split; [by apply no_new_twice_subset|]. split; [done|]. intros j n t Hj. left.
  by eapply lookup_weaken.
Qed.

(** A method that keeps to the specification, makes no tag stand twice and leaves
    no interface that it has created without its tag. *)
Definition keeps (A : Type) (p : ap A) : Prop :=
  forall a S, wp ifs_spec (p a) S (fun _ S' => grown S S').

#[local] Instance keeps_structure : ApStructure keeps.
Proof.
  split.
  - intros A x a S. by apply wp_ret.
  - intros A B p f Hp Hf a S. apply wp_bind. eapply wp_mono; [|apply Hp]. intros [x a'] S1 HS1.
    eapply wp_mono; [|apply Hf]. intros r S2 HS2. by etransitivity.
  - intros A [x|] a S; [by apply wp_ret|done].
  - intros name a S. by apply wp_ret.
  - intros name i a S. by apply wp_ret.
Qed.

(** Messages that may be sent at any time. *)
Definition any_time {X} (m : vpp X) : bool :=
  match m with
  | CreateLoopback | CreateVlanSubif _ _ | AfPacketCreateV3 _ | DevCreatePortIf _ _ | BondCreate2 _ _
  | TapCreateV3 _ _ | SwInterfaceTagAddDel _ _ _ => false
  | VxlanAddDelTunnelV3 isAdd _ _ _ _ _ => negb isAdd
  | _ => true
  end.

Lemma keeps_rpc {X} (m : vpp X) : any_time m = true -> ap_sat keeps (rpc m).
Proof.
  intros Hm a S. apply wp_bind, wp_call.
  - destruct m; try done. by destruct isAdd.
  - intros x [I' R'] [Hx HR]. apply wp_ret. cbn [fst snd] in *.
    assert (R' = S.2) as -> by by destruct m.
    apply grown_subset. destruct m; try done; simpl in Hx; try (by subst).
    + by destruct Hx as [_ ->].
    + by destruct isAdd.
Qed.

#[local] Hint Extern 1 (ap_sat keeps (rpc _)) => apply keeps_rpc; reflexivity : ap.

Lemma wp_no_message {A} (p : prog sys A) S : all_calls no_message p -> wp ifs_spec p S (fun _ S' => S' = S).
Proof.
  intros Hp. apply (wp_all_calls ifs_spec no_message (fun S' => S' = S)); [done| | |done|done].
  - intros X e S' He _. by destruct e.
  - intros X e S' x S'' He -> Hx. by destruct e.
Qed.

Lemma keeps_prog {A} (p : prog sys A) : all_calls no_message p -> ap_sat keeps (ap_prog p).
Proof.
  intros Hp a S. apply wp_bind. eapply wp_mono; [|by apply wp_no_message]. intros x ? ->. by apply wp_ret.
Qed.

#[local] Instance keeps_host : ApHost keeps.
Proof.
  split.
  - apply keeps_prog. unfold LoadVppState. calls_tac; exact Logic.I.
  - intros s. apply keeps_prog. unfold SaveVppState. calls_tac; exact Logic.I.
  - intros h br. apply keeps_prog.
    unfold setNDPTapAlias, New, Close, deferred, SetAlias, on_link, link_by_name. calls_tac; exact Logic.I.
Qed.
(** ** Looking for an interface *)

Lemma first_index_none sel l e :
  first_index sel l e = Ok None -> e = None /\ forall d, d ∈ l -> sel d = false.
Proof.
  induction l as [|d l IH]; simpl.
  - destruct e; [done|]. intros _. split; [done|]. by intros d ?%not_elem_of_nil.
  - destruct (sel d) eqn:Hd; [done|]. intros [-> Hl]%IH. split; [done|]. intros d' [->|Hin]%elem_of_cons; auto.
Qed.

Lemma dumped_first I l e tag :
  dumped I (Ok (l, e)) -> first_index (fun d => Str.eqb (IfDetails_Tag d) tag) l e = Ok None -> ~ tagged I tag.
Proof.
  intros [_ Hall] [-> Hl]%first_index_none (i & n & Hi). specialize (Hl _ (Hall eq_refl _ _ _ Hi)). cbn in Hl.
  by destruct (str_eqb_spec tag tag).
Qed.

Lemma wp_find sel a S (Q : res (option ifindex) * Applier -> vstate -> Prop) :
  (forall r, match r with
             | Ok (l, e) => dumped S.1 (Ok (l, e)) -> Q (first_index sel l e, a) S
             | Err e => Q (Err e, a) S
             end) ->
  wp ifs_spec (find_interface sel a) S Q.
Proof.
  intros HQ. destruct S as [I R]. apply wp_bind, wp_bind, wp_call; [done|].
  intros r [I' R'] [Hd HR]. cbn in HR, Hd. subst R'.
  destruct r as [[l e]|e], Hd as [Hd ->]; apply wp_ret, wp_ret.
  - by apply (HQ (Ok (l, e))).
  - by apply (HQ (Err e)).
Qed.

(** What is not found has not the tag. *)
Lemma wp_findByTag tag a S (Q : res (option ifindex) * Applier -> vstate -> Prop) :
  (forall i, Q (Ok (Some i), a) S) -> (~ tagged S.1 tag -> Q (Ok None, a) S) -> (forall e, Q (Err e, a) S) ->
  wp ifs_spec (findByTag tag a) S Q.
Proof.
  intros Hs Hn He. apply wp_find. intros [[l e]|e]; [|done]. intros Hd. pose proof (dumped_first S.1 l e tag Hd) as Hf.
  destruct (first_index _ l e) as [[i|]|e'']; auto.
Qed.

Lemma wp_resolve name a S (Q : res (option ifindex) * Applier -> vstate -> Prop) :
  (forall i a', Q (Ok (Some i), a') S) -> (forall a', ~ tagged S.1 name -> Q (Ok None, a') S) ->
  (forall e a', Q (Err e, a') S) -> wp ifs_spec (resolve name a) S Q.
Proof.
  intros Hs Hn He. apply wp_bind, wp_ret. destruct (Applier_idx a !! name) as [i|]; [by apply wp_ret|].
  apply wp_bind, wp_findByTag; [|intros Ht; apply wp_ret; auto|intros e; apply wp_ret; auto].
  intros i. apply wp_bind, wp_ret, wp_ret, Hs.
Qed.

(** ** Creating *)

(** A creation of an interface for [name], begun when no interface has the tag:
    what it has created is still to be tagged. *)
Definition created (name : string) (S : vstate) (r : res ifindex) (S' : vstate) : Prop :=
  no_new_twice S.1 S'.1 /\
  match r with
  | Ok i => only_tagged S'.1 name i /\ settled {[i]} S S'
  | Err _ => settled ∅ S S'
  end.

Definition creating (name : string) (p : ap (res ifindex)) : Prop :=
  forall a S, ~ tagged S.1 name -> wp ifs_spec (p a) S (fun r S' => created name S r.1 S').

Lemma settled_refl open S : settled open S S.
Proof. split; [done|]. intros j n t Hj. by left. Qed.

Lemma creates_only S name r I' : ~ tagged S.1 name -> creates S.1 "" r I' -> created name S r (I', S.2).
Proof.
  destruct S as [I R]. intros Hn Hr. destruct r as [i|e]; simpl in Hr; [|subst; split; [done|apply settled_refl]].
  destruct Hr as (Hi & n & ->). split.
  { apply no_new_twice_insert. by right. }
  split.
  - intros j m Hj. cbn in Hj. destruct (decide (j = i)); [done|]. rewrite lookup_insert_ne in Hj by done.
    exfalso. apply Hn. by exists j, m.
  - split; [done|]. cbn. intros j m t [[<- _]|[_ Hj]]%lookup_insert_Some; [set_solver|by left].
Qed.

Lemma creating_rpc name (m : vpp (res ifindex)) wrap :
  want name -> (forall I, may_create I -> ifs_msg_pre m I) -> ifs_msg_post m = (fun I r I' => creates I "" r I') ->
  (forall R r, refuses m R r = R) -> creating name (rpc_create m wrap).
Proof.
  intros Hw Hpre Hpost Hrefuse a S Hn. apply wp_bind, wp_bind, wp_call.
  - apply Hpre. by exists name.
  - intros r [I' R'] [Hr HR]. apply wp_ret, wp_ret. cbn in Hr, HR. rewrite Hpost in Hr.
    assert (R' = S.2) as -> by by rewrite HR; apply Hrefuse.
    pose proof (creates_only S name r I' Hn Hr) as Hc. by destruct r.
Qed.

(** The tag of a new interface: it has it then, or VPP has refused it. *)
Lemma wp_adopt i name a S0 S (Q : unit * Applier -> vstate -> Prop) :
  want name -> created name S0 (Ok i) S -> (forall a' S', grown S0 S' -> Q (tt, a') S') ->
  wp ifs_spec (adopt i name a) S Q.
Proof.
  intros Hw (Hg & Hu & HR & Hs) HQ. apply wp_bind, wp_bind, wp_bind, wp_call; [done|]. intros e [I' R'] [He Hr].
  apply wp_ret, wp_ret, wp_ret, HQ. destruct S as [I R]. cbn in *. destruct e as [e|]; subst.
  - split; [done|]. split; cbn; [set_solver|]. intros j n t Hj%Hs. set_solver.
  - destruct (I !! i) as [[n t]|] eqn:Ei; subst.
    + split; [etransitivity; [exact Hg|]; apply no_new_twice_insert; by left|]. split; [done|]. cbn.
      intros j m t' [[<- [= <- <-]]|[Hne Hj]]%lookup_insert_Some; [auto|]. apply Hs in Hj. set_solver.
    + split; [done|]. split; [done|]. intros j m t Hj. cbn in Hj. destruct (decide (j = i)) as [->|Hne]; [congruence|].
      apply Hs in Hj. set_solver.
Qed.

Lemma keeps_ensure name create : want name -> creating name create -> ap_sat keeps (ensure name create).
Proof.
  intros Hw Hc a S. apply wp_bind, wp_resolve; [intros; by apply wp_ret| |intros; by apply wp_ret].
  intros a' Hn. apply wp_bind. eapply wp_mono; [|by apply Hc]. intros [[i|e] a2] S2 Hcr.
  - apply wp_bind, (wp_adopt _ _ _ S); [done|done|]. intros a3 S3 Hg3. by apply wp_ret.
  - apply wp_ret. by destruct Hcr.
Qed.

(** *** The devices *)

#[local] Hint Resolve keeps_ensure : ap.
#[local] Hint Extern 1 (creating _ (rpc_create _ _)) => apply creating_rpc; [|done|reflexivity|done] : ap.

Lemma creating_err name e : creating name (mret (Err e)).
Proof. intros a S _. apply wp_ret. split; [done|apply settled_refl]. Qed.
#[local] Hint Resolve creating_err : ap.

Lemma keeps_ensureLoopback name : want name -> ap_sat keeps (ensureLoopback name).
Proof. intros Hw. unfold ensureLoopback. ap_tac. Qed.

Lemma keeps_ensureAfPacket name hostIf : want name -> ap_sat keeps (ensureAfPacket name hostIf).
Proof. intros Hw. unfold ensureAfPacket. ap_tac. Qed.

(** The creation through the device framework, in two messages. *)
Lemma keeps_ensureAvf name pci : want name -> ap_sat keeps (ensureAvf name pci).
Proof.
  intros Hw. apply keeps_ensure; [done|]. intros a [I R] Hn.
  assert (forall e, created name (I, R) (Err e) (I, R)) as Hsame by (intros e; split; [done|apply settled_refl]).
  apply wp_bind, wp_bind, wp_call; [done|]. intros att [I1 R1] [Hr HR]. cbn in Hr, HR. subst.
  apply wp_ret. destruct att as [att|e]; [|apply wp_ret, Hsame].
  destruct (DevReply_Retval att =? 0); [|apply wp_ret, Hsame].
  simpl. apply wp_bind, wp_bind, wp_call; [by exists name|]. intros rep [I2 R2] [Hr HR]. cbn in Hr, HR. subst.
  apply wp_ret. destruct rep as [rep|e]; [|subst; apply wp_ret, Hsame].
  destruct (DevReply_Retval rep =? 0); [|subst; apply wp_ret, Hsame]. apply wp_ret.
  apply (creates_only (I, R) name (Ok (DevReply_Index rep)) I2 Hn Hr).
Qed.

(** An interface that VPP has made at its start is only tagged. *)
Lemma keeps_ensureDpdk name : want name -> ap_sat keeps (ensureDpdk name).
Proof.
  intros Hw. apply keeps_ensure; [done|]. intros a S Hn.
  assert (forall e, created name S (Err e) S) as Hsame by (intros e; split; [done|apply settled_refl]).
  apply wp_bind, wp_find. intros [[l e]|e]; [|apply wp_ret, Hsame].
  intros _. destruct (first_index _ l e) as [[i|]|e']; apply wp_ret; [|apply Hsame..].
  split; [done|]. split; [|apply settled_refl]. intros j n Hj. exfalso. apply Hn. by exists j, n.
Qed.
#[local] Hint Resolve keeps_ensureLoopback keeps_ensureAfPacket keeps_ensureAvf keeps_ensureDpdk : ap.

Lemma keeps_find sel : ap_sat keeps (find_interface sel).
Proof. unfold find_interface. ap_tac. Qed.
#[local] Hint Resolve keeps_find : ap.

Lemma keeps_resolve name : ap_sat keeps (resolve name).
Proof. unfold resolve, findByTag. ap_tac. Qed.
#[local] Hint Resolve keeps_resolve : ap.

Lemma keeps_configureL3 i mtu mac up addrs routes : ap_sat keeps (configureL3 i mtu mac up addrs routes).
Proof.
  unfold configureL3, set_link, add_vpp_addresses, add_vpp_routes, addAddress, vpp_addRoute, setMTU, setMAC, setUp.
  ap_tac.
Qed.

Lemma keeps_with_member m f : (forall i, ap_sat keeps (f i)) -> ap_sat keeps (with_member m f).
Proof. intros Hf. unfold with_member. ap_tac. Qed.

Lemma keeps_with_interface m f : (forall r i, ap_sat keeps (f r i)) -> ap_sat keeps (with_interface m f).
Proof. intros Hf. unfold with_interface. ap_tac. by apply keeps_with_member. Qed.
#[local] Hint Resolve keeps_configureL3 keeps_with_member keeps_with_interface : ap.

Lemma keeps_ApplyEthernet name e : want name -> ap_sat keeps (ApplyEthernet name e).
Proof.
  intros Hw. unfold ApplyEthernet, ensure_ethernet, set_link, add_vpp_addresses, add_vpp_routes, addAddress,
    vpp_addRoute, setMTU, setMAC, setUp. ap_tac.
Qed.

Lemma keeps_ApplyBond name d : want name -> ap_sat keeps (ApplyBond name d).
Proof. intros Hw. unfold ApplyBond. ap_tac. apply keeps_with_member. intros i. ap_tac. Qed.

(** The parent of a VLAN is looked up between. *)
Lemma keeps_ApplyVlan name d : want name -> ap_sat keeps (ApplyVlan name d).
Proof.
  intros Hw. unfold ApplyVlan. ap_tac. apply keeps_ensure; [done|]. intros a S Hn.
  assert (forall e, created name S (Err e) S) as Hsame by (intros e; split; [done|apply settled_refl]).
  apply wp_bind, wp_resolve; [|intros; apply wp_ret, Hsame|intros; apply wp_ret, Hsame].
  intros p a'. revert Hn. apply creating_rpc; [done|done|reflexivity|done].
Qed.

Lemma keeps_ApplyVxlan name d : want name -> ap_sat keeps (ApplyVxlan name d).
Proof.
  intros Hw. unfold ApplyVxlan, setUp. ap_tac. apply keeps_ensure; [done|].
  destruct (ParseAddress (Vxlan_Local d)), (ParseAddress (Vxlan_Remote d)); auto with ap.
Qed.

Lemma keeps_ApplyBridge name b : (Bridge_Addresses b <> [] -> want (name +:+ "-bvi")) -> ap_sat keeps (ApplyBridge name b).
Proof.
  intros Hw. unfold ApplyBridge. ap_tac; try (apply keeps_with_member; intros i; ap_tac).
  apply keeps_ensureLoopback. auto.
Qed.

Lemma keeps_EnsureNDPTap br bd : want (NDPTapName br) -> ap_sat keeps (EnsureNDPTap br bd).
Proof.
  intros Hw a [I R].
  assert (forall i, ap_sat keeps (e ← rpc (SwInterfaceSetL2Bridge i bd L2_API_PORT_TYPE_NORMAL true);
    match e with
    | Some e => mret (Err (EWrap "ndp-tap %s join bd %d: %w" [NDPTapName br; Str.itoa bd] e))
    | None => ap_ignore (setUp i true) ;; mret (Ok (NDPTapName br))
    end)) as Hrest by (intros i; unfold setUp; ap_tac).
  apply wp_bind, wp_findByTag; [| |intros; by apply wp_ret].
  - intros i. apply wp_bind, wp_ret. apply Hrest.
  - intros Hn. apply wp_bind, wp_bind, wp_bind, wp_call; [done|]. intros r [I' R'] [Hr HR]. apply wp_ret, wp_ret.
    cbn in Hr, HR, Hn. subst R'. assert (grown (I, R) (I', R)) as Hg.
    { destruct r; simpl in Hr; [|by subst]. destruct Hr as (_ & n & ->). split; cbn.
      - apply no_new_twice_insert. left. intros j m Hj. exfalso. apply Hn. by exists j, m.
      - split; [done|]. cbn. intros j m t [[<- [= <- <-]]|[_ Hj]]%lookup_insert_Some; auto. }
    destruct r as [i|e]; [|by apply wp_ret]. eapply wp_mono; [|apply Hrest]. intros ? I2 Hg2. by etransitivity.
Qed.

(** *** What creates nothing *)

Lemma keeps_delete_tagged tag m : (forall i, any_time (m i) = true) -> ap_sat keeps (delete_tagged tag m).
Proof. intros Hm. unfold delete_tagged, findByTag. ap_tac. by apply keeps_rpc. Qed.

Lemma keeps_Delete name info : ap_sat keeps (Delete name info).
Proof. unfold Delete, DeleteNDPTap, rpc_err. ap_tac; by apply keeps_delete_tagged. Qed.

Lemma keeps_ApplyNat n : ap_sat keeps (ApplyNat n).
Proof.
  unfold ApplyNat, applyNat44, applyNat64, applyNat66, nat44_interface, nat44_pool, applyNat44Static.
  ap_tac; first [apply keeps_with_interface; intros r i|apply keeps_with_member; intros i]; ap_tac.
Qed.

Lemma keeps_if_resolved iface f : (forall i, ap_sat keeps (f i)) -> ap_sat keeps (if_resolved iface f).
Proof. intros Hf. unfold if_resolved. ap_tac. Qed.

Lemma keeps_if_parsed {A} (r : res A) f : (forall i, ap_sat keeps (f i)) -> ap_sat keeps (if_parsed r f).
Proof. intros Hf. unfold if_parsed. ap_tac. Qed.

Lemma keeps_DeleteNat it : ap_sat keeps (DeleteNat it).
Proof.
  unfold DeleteNat, delete_nat44_static.
  repeat first [apply keeps_if_resolved; intros ?|apply keeps_if_parsed; intros ?|progress ap_tac].
Qed.

Lemma keeps_ApplyNDProxy iface addrs : ap_sat keeps (ApplyNDProxy iface addrs).
Proof. unfold ApplyNDProxy. ap_tac. Qed.

Lemma keeps_DeleteNDProxy it : ap_sat keeps (DeleteNDProxy it).
Proof. unfold DeleteNDProxy. apply keeps_if_resolved. intros i. ap_tac. Qed.
#[local] Hint Resolve keeps_Delete keeps_ApplyNat keeps_DeleteNat keeps_ApplyNDProxy keeps_DeleteNDProxy : ap.

Lemma keeps_reaps prev desired :
  ap_sat keeps (reapVPPNDProxyOrphans prev desired) /\ ap_sat keeps (reapVPPOrphans prev desired) /\
  ap_sat keeps (reapNatOrphans prev desired).
Proof. unfold reapVPPNDProxyOrphans, reapVPPOrphans, reapNatOrphans. split_and!; ap_tac. Qed.

(** *** The whole run *)

Lemma keeps_lift {A B} (o : option A) (f : A -> ap B) :
  (forall x, o = Some x -> ap_sat keeps (f x)) -> ap_sat keeps (x ← ap_lift o; f x).
Proof. intros Hf a I. destruct o as [x|]; [|done]. by apply wp_bind, wp_ret, Hf. Qed.

(** A device that is there. *)
Lemma keeps_entry {A B} (devices : gomap (ptr A)) name (f : A -> ap B) :
  (forall d, gm_get devices name = Some (Some d) -> ap_sat keeps (f d)) ->
  ap_sat keeps (d ← ap_lift (vpp_entry devices name); f d).
Proof.
  intros Hf. apply keeps_lift. intros d Hd. apply Hf. unfold vpp_entry in Hd.
  destruct (gm_get devices name) as [[d'|]|]; by simplify_eq/=.
Qed.

Lemma keeps_apply_each {A} (devices : gomap (ptr A)) apply :
  (forall name d, gm_get devices name = Some (Some d) -> ap_sat keeps (apply name d)) ->
  ap_sat keeps (apply_each devices apply).
Proof.
  intros Ha. unfold apply_each. apply (ap_sat_each keeps). intros name. apply keeps_entry. intros d Hd.
  apply (ap_sat_bind keeps); [by apply Ha|]. intros e. apply (ap_sat_ret keeps).
Qed.
End spec.

(** The tags of a run: the names of the devices that are given to VPP, those of
    the interfaces of the bridges that have addresses, and those of the taps. *)
Definition ndp_rules (b : Bridge) : list NDProxyRule :=
  match vppNDPTapRules (Bridge_NDProxy b) with Some r => r.1 | None => [] end.

Definition has_device {A} (devices : gomap (ptr A)) (name : string) : Prop :=
  exists d, gm_get devices name = Some (Some d).

Definition wanted (v : vppSet) (tag : string) : Prop :=
  has_device (vppSet_ethernets v) tag \/ has_device (vppSet_bonds v) tag \/
  has_device (vppSet_vlans v) tag \/ has_device (vppSet_vxlans v) tag \/
  exists br b, gm_get (vppSet_bridges v) br = Some (Some b) /\
    (tag = br +:+ "-bvi" /\ Bridge_Addresses b <> [] \/ tag = NDPTapName br /\ ndp_rules b <> []).

Section wanted.
Context (v : vppSet).
#[local] Abbreviation keeps' := (keeps (wanted v)).
#[local] Instance keeps_structure' : ApStructure keeps' := keeps_structure (wanted v).

Lemma keeps_apply_devices : ap_sat keeps' (apply_devices v).
Proof.
  unfold apply_devices. repeat (apply (ap_sat_bind keeps'); [|intros []]);
    apply keeps_apply_each; intros name d Hd.
  - apply keeps_ApplyEthernet. left. by exists d.
  - apply keeps_ApplyBond. right. left. by exists d.
  - apply keeps_ApplyVlan. right. right. left. by exists d.
  - apply keeps_ApplyVxlan. right. right. right. left. by exists d.
  - apply (ap_sat_ret keeps').
  - apply keeps_ApplyBridge. intros Ha. do 4 right. exists name, d. auto.
Qed.

Lemma keeps_provisionNDPTaps : ap_sat keeps' (provisionNDPTaps v).
Proof.
  apply (ap_sat_each keeps'). intros name. apply keeps_entry. intros b Hb.
  apply keeps_lift. intros [rules n] Hr. cbn [fst]. destruct rules as [|r rules]; [apply (ap_sat_ret keeps')|].
  apply (ap_sat_bind keeps').
  - apply keeps_EnsureNDPTap. do 4 right. exists name, b. split; [done|]. right. unfold ndp_rules. by rewrite Hr.
  - intros [hostIf|e]; [apply keeps_host|apply (ap_sat_ret keeps')].
Qed.

Lemma keeps_with_vpp nat : ap_sat keeps' (with_vpp nat v).
Proof.
  destruct (keeps_host (wanted v)) as [Hload Hsave _].
  unfold with_vpp. repeat first [apply keeps_apply_devices|apply keeps_provisionNDPTaps|apply keeps_ApplyNat|
    apply keeps_ApplyNDProxy|apply keeps_reaps|apply Hload|apply Hsave|progress ap_tac].
Qed.
End wanted.

(** C21: against a VPP that keeps interfaces with names and tags, and whatever else
    it answers, failures included, setupVPP creates and tags interfaces only for
    the devices that it is given, for the interfaces of their bridges and for the
    taps, and it creates one only when a complete dump has shown no interface
    with that tag; what it tags is then the only interface with the tag.  So no
    tag comes to stand on two interfaces, and a device whose interface is tagged
    is not created again.  And each interface that it creates ends with the tag of
    one of those, unless VPP has refused the tag: at the end every interface is as
    it was, or has such a tag, or is one for which the message that tags it
    failed. *)
Theorem setupVPP_interfaces (global : ptr VPPGlobal) (v : vppSet) (I : vifs) :
  wp (ifs_spec (wanted v)) (setupVPP global v) (I, ∅) (fun _ '(I', refused) => no_new_twice I I' /\
    forall j name tag, I' !! j = Some (name, tag) ->
      I !! j = Some (name, tag) \/ wanted v tag \/ j ∈ refused).
Proof.
  unfold setupVPP. apply wp_bind. eapply wp_mono; [|apply wp_no_message].
  2: { unfold generateStartupConf. calls_tac; exact Logic.I. }
  intros ? ? ->. apply wp_bind. eapply wp_mono; [|apply wp_no_message].
  2: { unfold Connect, checkCompatibility, CloseClient. calls_tac; exact Logic.I. }
  intros [c|e] ? ->; [|apply wp_ret; split; [by intros tag|by left]]. cbv zeta. unfold deferred. apply wp_bind, wp_bind.
  eapply wp_mono; [|apply keeps_with_vpp]. intros r S' [Hg [_ Hs]]. apply wp_ret, wp_bind.
  eapply wp_mono; [|apply wp_no_message].
  - intros ? ? ->. apply wp_ret. destruct S' as [I' R']. cbn in *. split; [done|].
    intros j name tag Hj%Hs. set_solver.
  - unfold CloseClient. calls_tac; exact Logic.I.
Qed.
End vpp.
