(* ===== verification/Apply.v ===== *)
(** * Applying a configuration (cmd/apply.go)

    [Apply] is the whole of `netcfg apply`: it loads the state of the last run,
    builds the new one, removes, creates and configures, and saves. *)

From S2P Require Import Prelude GoStd GoNet Effect Config Validate Load State BuildState Netlink Host Setup World Removals VppApi Vpp VppSetup.

(** ** Apply *)

Section apply.
Context `{Libs} `{VppLibs} `{RangeOrder} `{SliceSort}.
(** encoding/json on a State and os.IsNotExist. *)
Context (unmarshal : string -> res State) (marshal : State -> res string) (is_not_exist : error -> bool).

(** Load and Save of State, over the calls. *)
(* go: state/state.go 56-79 Load *)
Definition state_load : prog sys (res State) :=
  r ← call (ReadFile statePath);
  Ret (Load (fun _ _ => r) is_not_exist unmarshal tt).

(* go: state/state.go 81-99 Save *)
Definition state_save (s : State) : prog sys err :=
  try! call (MkdirAll stateDir) as same_err;
  now ← call TimeNow;
  match marshal (s <| State_AppliedAt := now |>) with
  | Err e => Ret (Some e)
  | Ok data => call (WriteFile statePath data)
  end.

(* go: cmd/apply.go 72-82 Apply *)
Definition create_netns (cfg : Config) : prog sys err :=
  for_err (gm_range 73 (Network_Netns (Config_Network cfg))).*1 (fun nsName =>
    ex ← NetnsExists nsName;
    if (ex : bool) then Ret None
    else try! CreateNetns nsName as EWrap "failed to create netns %s: %w" [nsName]; Ret None).

(* go: cmd/apply.go 85-97 Apply *)
Definition apply_default (cfg : Config) : prog sys err :=
  if HasDefaultNamespaceConfig cfg then
    let '(kernelNS, vppDevs) :=
      splitVPPDevices (ToNamespace (Config_Network cfg)) (Network_Renderer (Config_Network cfg)) in
    let vpp := Network_VPP (Config_Network cfg) in
    try! (if negb (vppSet_empty vppDevs) || match vpp with Some _ => true | None => false end
          then setupVPP vpp vppDevs else Ret None)
      as EWrap "failed to configure VPP devices: %w" [];
    try! applyNamespaceConfig "" (Some kernelNS) as EWrap "failed to configure default namespace: %w" [];
    Ret None
  else Ret None.

(* go: cmd/apply.go 99-106 Apply *)
Definition apply_netns (cfg : Config) : prog sys err :=
  for_err (GetNetnsNames cfg) (fun nsName =>
    try! applyNamespaceConfig nsName (default None (gm_get (Network_Netns (Config_Network cfg)) nsName))
      as EWrap "failed to configure netns %s: %w" [nsName];
    Ret None).

(** What apply does with the states, before it creates anything. *)
(* go: cmd/apply.go 45-70 Apply *)
Definition apply_removals (oldState newState : State) : prog sys unit :=
  diff ← lift (ComputeDiff oldState newState);
  applyRemovals diff ;;
  reapSRv6Orphans oldState newState ;;
  reapNDProxyOrphans oldState newState.

(* go: cmd/apply.go 44-114 Apply *)
Definition Apply (cfg : Config) : prog sys err :=
  r ← state_load;
  let oldState := match r with Ok s => s | Err _ => NewState end in
  newState ← lift (buildStateFromConfig cfg);
  apply_removals oldState newState ;;
  try! create_netns cfg as same_err;
  try! apply_default cfg as same_err;
  try! apply_netns cfg as same_err;
  warn! state_save newState;
  Ret None.
End apply.
