(* ===== verification/Addresses.v ===== *)
(** * The addresses of the links

    What the removal of addresses and the set-up of devices come to on a kernel
    that keeps a set of addresses for each link: an abstract specification on
    these sets, and that the code refines it. *)

From S2P Require Import Prelude GoStd GoNet Effect IpText Config State Netlink Host Setup World Removals Examples.

(** The kernel's addresses: for each link, by its index, the texts of its prefixes. *)
Abbreviation addresses := (gmap Z (gset string)).

Definition on (K : addresses) (i : Z) : gset string := default ∅ (K !! i).

(** The text of an address of the library. *)
Definition prefix_text (a : Addr) : string := Net.IPNet_String (Addr_IPNet a).

(** ** Sets of prefixes *)

Section prefixes.
Context `{Libs}.

(** The set of prefixes that texts stand for. *)
Definition prefixes (cidrs : list string) : gset string :=
  list_to_set (omap (fun c => match ParseAddr c with Ok a => Some (prefix_text a) | Err _ => None end) cidrs).

Definition cidrs (l : list Address) : list string := Address_CIDR <$> l.

Lemma prefixes_cons c l :
  prefixes (c :: l) = (match ParseAddr c with Ok a => {[prefix_text a]} | Err _ => ∅ end) ∪ prefixes l.
Proof. unfold prefixes. simpl. destruct (ParseAddr c); simpl; [done|]. set_solver. Qed.

Lemma elem_of_prefixes t l :
  t ∈ prefixes l <-> exists c a, c ∈ l /\ ParseAddr c = Ok a /\ prefix_text a = t.
Proof.
  unfold prefixes. rewrite elem_of_list_to_set, list_elem_of_omap. split.
  - intros (c & Hc & Hp). destruct (ParseAddr c) as [a|e] eqn:E; [|done]. naive_solver.
  - intros (c & a & Hc & Ha & <-). exists c. by rewrite Ha.
Qed.
End prefixes.

(** ** The kernel *)

Section kernel.
Context `{Libs} `{RangeOrder}.
(** The handle of the namespace, its links, and which addresses of a link exclude
    each other: an IPv6 address can be there with one length only. *)
Context (h : handle) (links : gmap string Z) (conflict : string -> string -> bool).

(** A kernel in which no link comes or goes and that fails only where it must:
    an address is added unless it, or one that it excludes, is there; it is
    deleted alone (promote_secondaries), if it is there. *)
Definition kernel_pre {X} (e : sys X) : Prop :=
  match e with
  | LinkByName (Some h') _ | LinkSetUp h' _ | LinkSetMTU h' _ _ | LinkSetHardwareAddr h' _ _
  | AddrAdd h' _ _ | AddrDel h' _ _ | RouteAdd h' _ | RouteReplace h' _ => h' = h
  | AddrList h' _ family => h' = h /\ family = FAMILY_ALL
  | _ => False
  end.

Definition excluded (K : addresses) (i : Z) (t : string) : Prop :=
  exists t', t' ∈ on K i /\ (t' = t \/ conflict t' t = true).

Definition kernel_post {X} (e : sys X) (K : addresses) : X -> addresses -> Prop :=
  match e in sys X return X -> addresses -> Prop with
  | LinkByName _ name => fun r K' => K' = K /\
      match links !! name with
      | Some i => exists l, r = Ok l /\ Link_Index l = i
      | None => exists e, r = Err e
      end
  | AddrList _ l _ => fun r K' => K' = K /\
      exists as_, r = Ok as_ /\ list_to_set (prefix_text <$> as_) = on K (Link_Index l)
  | AddrAdd _ l a => fun r K' =>
      (excluded K (Link_Index l) (prefix_text a) /\ (exists e, r = Some e) /\ K' = K) \/
      (~ excluded K (Link_Index l) (prefix_text a) /\ r = None /\
       K' = <[Link_Index l := {[prefix_text a]} ∪ on K (Link_Index l)]> K)
  | AddrDel _ l a => fun r K' =>
      ((prefix_text a ∉ on K (Link_Index l)) /\ (exists e, r = Some e) /\ K' = K) \/
      ((prefix_text a ∈ on K (Link_Index l)) /\ r = None /\
       K' = <[Link_Index l := on K (Link_Index l) ∖ {[prefix_text a]}]> K)
  | _ => fun _ K' => K' = K
  end.

Definition kernel_spec : spec sys addresses :=
  Spec (fun X e _ => kernel_pre e) (fun X e K x K' => kernel_post e K x K') False.

(** One link's addresses change to [T], the others' do not. *)
Definition changes (K K' : addresses) (i : Z) (T : gset string) : Prop :=
  on K' i = T /\ forall j, j <> i -> on K' j = on K j.

Lemma on_insert K i T j : on (<[i := T]> K) j = if decide (i = j) then T else on K j.
Proof. unfold on. by rewrite lookup_insert; destruct decide. Qed.

Lemma changes_insert K i T : changes K (<[i := T]> K) i T.
Proof.
  split; [|intros j Hj]; rewrite on_insert; by destruct decide.
Qed.

Lemma changes_id K i : changes K K i (on K i).
Proof. done. Qed.


(** ** Deleting addresses *)

Context (m : NetlinkManager) (Hm : mgr_handle m = h).

Lemma wp_the_link name K (Q : res Link -> addresses -> Prop) :
  (forall l, links !! name = Some (Link_Index l) -> Q (Ok l) K) ->
  (forall e, links !! name = None -> Q (Err e) K) ->
  wp kernel_spec (link_by_name m name) K Q.
Proof.
  intros HOk HErr. apply wp_call; [done|]. intros r ? [-> Hr].
  destruct (links !! name) as [i|]; destruct Hr as [x Hr]; [destruct Hr as [-> <-]|subst]; auto.
Qed.

Lemma wp_delete_address dev cidr i K :
  links !! dev = Some i ->
  wp kernel_spec (DeleteAddress m dev cidr) K (fun _ K' => changes K K' i (on K i ∖ prefixes [cidr])).
Proof.
  intros Hi. apply wp_bind, wp_the_link; [|congruence]. intros l Hl.
  assert (Link_Index l = i) as <- by congruence. rewrite prefixes_cons.
  destruct (ParseAddr cidr) as [a|e].
  - apply wp_call; [done|]. intros r K' [(Ht & _ & ->)|(_ & _ & ->)].
    + split; [set_solver|done].
    + destruct (changes_insert K (Link_Index l) (on K (Link_Index l) ∖ {[prefix_text a]})) as [Ht Ho].
      split; [rewrite Ht; set_solver|done].
  - apply wp_ret. split; [set_solver|done].
Qed.

(** The loop of remove_addresses over the addresses of a device. *)
Lemma wp_delete_each dev i l K :
  links !! dev = Some i ->
  wp kernel_spec (for_each l (fun addr => warn! DeleteAddress m dev addr; Ret tt)) K
    (fun _ K' => changes K K' i (on K i ∖ prefixes l)).
Proof.
  intros Hi. revert K. induction l as [|c l IH]; intros K; simpl.
  - apply wp_ret. split; [set_solver|done].
  - apply wp_bind, wp_bind. eapply wp_mono; [|by apply wp_delete_address].
    intros _ K1 [H1 Ho1]. apply wp_ret. eapply wp_mono; [|apply IH].
    intros _ K2 [H2 Ho2]. split.
    + rewrite H2, H1, (prefixes_cons c l), prefixes_cons. set_solver.
    + intros j Hj. rewrite Ho2, Ho1; done.
Qed.

(** remove_addresses takes from each link what is listed for its device. *)
Lemma wp_remove_addresses rm K :
  wp kernel_spec (remove_addresses m rm) K (fun _ K' => forall i t,
    t ∈ on K' i <-> t ∈ on K i /\
      ~ exists dev l, gm_get rm dev = Some l /\ links !! dev = Some i /\ t ∈ prefixes l).
Proof.
  unfold remove_addresses. eapply wp_mono; [|apply (wp_for_each_prefix _ _ _ K (fun pre K' => forall i t,
    t ∈ on K' i <-> t ∈ on K i /\ ~ exists dev l, (dev, l) ∈ pre /\ links !! dev = Some i /\ t ∈ prefixes l))].
  - intros [] K' HK i t. rewrite HK. unfold gm_range, gm_get. by setoid_rewrite elem_of_range.
  - set_solver.
  - intros pre [dev l] post K1 _ HK. unfold LinkExists.
    assert (forall K2, (forall i, on K2 i = on K1 i ∖ (if decide (links !! dev = Some i) then prefixes l else ∅)) ->
      forall i t, t ∈ on K2 i <-> t ∈ on K i /\
        ~ exists dev' l', (dev', l') ∈ pre ++ [(dev, l)] /\ links !! dev' = Some i /\ t ∈ prefixes l') as Hstep.
    { intros K2 H2 i t. rewrite H2, elem_of_difference, HK. setoid_rewrite elem_of_app.
      setoid_rewrite list_elem_of_singleton. destruct (decide (links !! dev = Some i)); naive_solver set_solver. }
    apply wp_bind, wp_bind, wp_the_link; intros l0 Hx; apply wp_ret; cbn [is_ok negb].
    + eapply wp_mono; [|by apply wp_delete_each]. intros _ K2 [H2 Ho]. apply Hstep. intros i.
      rewrite Hx. destruct (decide _) as [[= <-]|Hne]; [done|]. rewrite Ho by congruence. set_solver.
    + apply wp_ret, Hstep. intros i. rewrite Hx. destruct (decide _); [done|set_solver].
Qed.

(** ** Adding addresses *)

Definition lifetime_ok (a : Address) : bool :=
  let l := Str.to_lower (Address_Lifetime a) in Str.eqb l "" || Str.eqb l "forever" || Str.eqb l "0".

(** A text that a prefix is printed as is parsed as that prefix. *)
Definition canonical (cidr : string) : Prop :=
  forall n a, Net.IPNet_String n = cidr -> ParseAddr cidr = Ok a -> prefix_text a = cidr.

(** Nothing among the addresses [T] excludes an other one of [T']. *)
Definition compatible (T T' : gset string) : Prop :=
  forall t t', t ∈ T -> t' ∈ T' -> conflict t t' = true -> t = t'.

(** A request that leaves the set of addresses with the new one. *)
Lemma wp_AddrAdd l a K :
  compatible (on K (Link_Index l)) {[prefix_text a]} ->
  wp kernel_spec (call (AddrAdd (mgr_handle m) l a)) K
    (fun _ K' => changes K K' (Link_Index l) (on K (Link_Index l) ∪ {[prefix_text a]})).
Proof.
  intros Hc. apply wp_call; [done|]. intros r K' [((t & Ht & Hex) & _ & ->)|(_ & _ & ->)].
  - assert (prefix_text a ∈ on K (Link_Index l)) as Hin.
    { destruct Hex as [->|Hex]; [done|]. by rewrite <-(Hc t (prefix_text a) Ht ltac:(set_solver) Hex). }
    split; [set_solver|done].
  - destruct (changes_insert K (Link_Index l) ({[prefix_text a]} ∪ on K (Link_Index l))) as [Ht Ho].
    split; [rewrite Ht; set_solver|exact Ho].
Qed.

Lemma wp_AddAddressOpts dev addr i K :
  links !! dev = Some i -> lifetime_ok addr = true -> compatible (on K i) (prefixes [Address_CIDR addr]) ->
  wp kernel_spec (AddAddressOpts m dev (Address_CIDR addr) (Address_Label addr) (Address_Lifetime addr)) K
    (fun _ K' => changes K K' i (on K i ∪ prefixes [Address_CIDR addr])).
Proof.
  intros Hi Hl Hc. apply wp_bind, wp_the_link; [|congruence]. intros l Hx.
  assert (Link_Index l = i) as <- by congruence. revert Hc. rewrite prefixes_cons.
  destruct (ParseAddr (Address_CIDR addr)) as [a|e]; [|intros _; apply wp_ret; split; [set_solver|done]].
  cbv zeta. unfold lifetime_ok in Hl. intros Hc.
  assert (forall a', prefix_text a' = prefix_text a ->
    wp kernel_spec (call (AddrAdd (mgr_handle m) l a')) K (fun _ K' => changes K K' (Link_Index l)
      (on K (Link_Index l) ∪ ({[prefix_text a]} ∪ prefixes [])))) as Ha.
  { intros a' Ht. assert ({[prefix_text a]} ∪ prefixes [] = {[prefix_text a']}) as Hs by (rewrite Ht; set_solver).
    rewrite Hs in *. by apply wp_AddrAdd. }
  destruct (Str.eqb _ "" || Str.eqb _ "forever"); simpl in Hl; [|rewrite Hl];
    apply Ha; destruct a; by destruct (negb _).
Qed.

Lemma wp_add_address dev addr i K :
  links !! dev = Some i -> lifetime_ok addr = true -> canonical (Address_CIDR addr) ->
  compatible (on K i) (prefixes [Address_CIDR addr]) ->
  wp kernel_spec (add_address m dev addr) K (fun _ K' => changes K K' i (on K i ∪ prefixes [Address_CIDR addr])).
Proof.
  intros Hi Hl Hcan Hc. apply wp_bind, wp_bind, wp_bind, wp_the_link; [|congruence]. intros l Hx.
  assert (Link_Index l = i) as <- by congruence.
  apply wp_call; [done|]. intros r ? (-> & as_ & -> & Has). apply wp_ret. simpl.
  destruct (existsb _ as_) eqn:Hex.
  - apply wp_ret. apply existsb_exists in Hex as (a0 & Hin & Heq%String.eqb_eq).
    assert (Address_CIDR addr ∈ on K (Link_Index l)) as Hk.
    { rewrite <-Has, <-Heq. apply elem_of_list_to_set, list_elem_of_fmap. exists a0. split; [done|].
      by apply list_elem_of_In. }
    assert (prefixes [Address_CIDR addr] ⊆ on K (Link_Index l)) as Hsub.
    { rewrite prefixes_cons. destruct (ParseAddr (Address_CIDR addr)) as [a|e] eqn:Ha; [|set_solver].
      rewrite (Hcan _ a Heq Ha). set_solver. }
    split; [set_solver|done].
  - apply wp_bind. eapply wp_mono; [|by apply wp_AddAddressOpts]. intros r K' HK. by apply wp_ret.
Qed.

Lemma wp_add_each dev i l K :
  links !! dev = Some i -> Forall (fun a => lifetime_ok a = true /\ canonical (Address_CIDR a)) l ->
  compatible (on K i ∪ prefixes (cidrs l)) (prefixes (cidrs l)) ->
  wp kernel_spec (for_each l (add_address m dev)) K (fun _ K' => changes K K' i (on K i ∪ prefixes (cidrs l))).
Proof.
  intros Hi Hl. revert K. induction Hl as [|a l [Hlt Hcan] Hl IH]; intros K Hc; cbn [for_each].
  - apply wp_ret. split; [set_solver|done].
  - assert (prefixes (cidrs (a :: l)) = prefixes [Address_CIDR a] ∪ prefixes (cidrs l)) as Hp.
    { change (cidrs (a :: l)) with (Address_CIDR a :: cidrs l). rewrite !(prefixes_cons (Address_CIDR a)). set_solver. }
    rewrite Hp in *. apply wp_bind. eapply wp_mono; [|apply (wp_add_address dev a i); [done..|]].
    2: { intros t t' Ht Ht'. apply Hc; clear - Ht Ht'; set_solver. }
    intros _ K1 [H1 Ho1]. eapply wp_mono; [|apply IH].
    2: { rewrite H1. intros t t' Ht Ht'. apply Hc; clear - Ht Ht'; set_solver. }
    intros _ K2 [H2 Ho2]. split; [rewrite H2, H1; by rewrite (assoc_L (∪))|]. intros j Hj. by rewrite Ho2, Ho1.
Qed.

(** ** Setting a device up *)

Abbreviation keeps p K := (wp kernel_spec p K (fun _ K' => K' = K)).

Lemma keeps_on_link name f K : (forall l, keeps (f l) K) -> keeps (on_link m name f) K.
Proof. intros Hf. apply wp_bind, wp_the_link; intros l _; [apply Hf|by apply wp_ret]. Qed.

Lemma keeps_SetLinkMTU name mtu K : keeps (SetLinkMTU m name mtu) K.
Proof. apply keeps_on_link. intros l. by apply wp_call; [|intros x ? ->]. Qed.

Lemma keeps_SetLinkMacAddress name mac K : keeps (SetLinkMacAddress m name mac) K.
Proof. apply keeps_on_link. intros l. destruct (Net.ParseMAC mac); [by apply wp_call; [|intros x ? ->]|by apply wp_ret]. Qed.

Lemma keeps_get {A} (r : res A) (w : error -> error) (f : A -> prog sys err) K : (forall a, keeps (f a) K) -> keeps (Ret r ≫= (fun r : res A => match r with Err e => Ret (Some (w e)) | Ok x => f x end)) K.
Proof. intros Hf. apply wp_bind, wp_ret. destruct r; [apply Hf|by apply wp_ret]. Qed.

Lemma keeps_AddRouteOpts o K : keeps (AddRouteOpts m o) K.
Proof.
  unfold AddRouteOpts. do 2 (apply keeps_get; intros ?).
  apply wp_bind. eapply wp_mono with (Q := fun _ K' => K' = K).
  - intros [index|e] ? ->; [|by apply wp_ret]. do 3 (apply keeps_get; intros ?). cbv zeta.
    destruct (RouteOptions_Encap o); [apply keeps_get; intros ?|]; by apply wp_call; [|intros x ? ->].
  - destruct (Str.is_empty _); [by apply wp_ret|]. apply wp_bind, wp_the_link; intros l _; by apply wp_ret.
Qed.

Lemma keeps_add_routes name routes K : Forall is_Some routes -> keeps (add_routes m name routes) K.
Proof.
  intros Hr. apply wp_for_each; [done|]. intros r ? Hin ->. rewrite Forall_forall in Hr.
  destruct (Hr r Hin) as [route ->]. apply wp_bind, wp_ret, wp_bind. eapply wp_mono with (Q := fun _ K' => K' = K).
  - intros ? ? ->. by apply wp_ret.
  - unfold addRoute. destruct (match Route_Encap route with Some e => _ | None => _ end); [by apply wp_ret|].
    apply keeps_AddRouteOpts.
Qed.

(** The arguments of setupDevice. *)
Record device := Device {
  dev_name : string;
  dev_addresses : list Address;
  dev_routes : list (ptr Route);
  dev_mtu : Z;
  dev_mac : string
}.

Definition setup (d : device) : prog sys err :=
  setupDevice m (dev_name d) (dev_addresses d) (dev_routes d) (dev_mtu d) (dev_mac d).

(** The prefixes that a device is to have, and when it can have them. *)
Definition wanted (d : device) : gset string := prefixes (cidrs (dev_addresses d)).

Definition well_formed (d : device) : Prop :=
  Forall (fun a => lifetime_ok a = true /\ canonical (Address_CIDR a)) (dev_addresses d) /\
  Forall is_Some (dev_routes d).

Lemma wp_setupDevice d K :
  well_formed d ->
  (forall i, links !! dev_name d = Some i -> compatible (on K i ∪ wanted d) (wanted d)) ->
  wp kernel_spec (setup d) K (fun r K' =>
    match r with
    | None => exists i, links !! dev_name d = Some i /\ changes K K' i (on K i ∪ wanted d)
    | Some _ => K' = K
    end).
Proof.
  intros [Ha Hr] Hc. unfold setup, setupDevice. apply wp_bind. eapply wp_mono with (Q := fun _ K' => K' = K).
  2: { unfold when. destruct (0 <? _); [|by apply wp_ret]. apply wp_bind. eapply wp_mono; [|apply keeps_SetLinkMTU].
       intros ? ? ->. by apply wp_ret. }
  intros _ ? ->. apply wp_bind. eapply wp_mono with (Q := fun _ K' => K' = K).
  2: { unfold when. destruct (negb _); [|by apply wp_ret]. apply wp_bind. eapply wp_mono; [|apply keeps_SetLinkMacAddress].
       intros ? ? ->. by apply wp_ret. }
  intros _ ? ->. apply wp_bind, wp_bind, wp_the_link; [|intros e _; by apply wp_ret, wp_ret].
  intros l Hl. apply wp_call; [done|]. intros [e|] ? ->; [by apply wp_ret|].
  apply wp_bind. eapply wp_mono; [|apply (wp_add_each (dev_name d) (Link_Index l)); auto].
  intros [] K1 HK1. apply wp_bind. eapply wp_mono; [|by apply keeps_add_routes].
  intros _ ? ->. apply wp_ret. by exists (Link_Index l).
Qed.

(** ** Setting devices up, one after the other *)

Hypothesis links_inj : forall dev dev' i, links !! dev = Some i -> links !! dev' = Some i -> dev = dev'.

Definition ready (K : addresses) (d : device) : Prop :=
  well_formed d /\ forall i, links !! dev_name d = Some i -> compatible (on K i ∪ wanted d) (wanted d).

(** The first [done] of the devices have been set up, all of them if there is no error. *)
Definition set_up (devs : list device) (r : err) (K K' : addresses) : Prop :=
  exists done rest, devs = done ++ rest /\ (r = None -> rest = []) /\
    Forall (fun d => is_Some (links !! dev_name d)) done /\
    forall i t, t ∈ on K' i <->
      t ∈ on K i \/ exists d, d ∈ done /\ links !! dev_name d = Some i /\ t ∈ wanted d.

Lemma set_up_cons d devs r i K K1 K' :
  links !! dev_name d = Some i -> changes K K1 i (on K i ∪ wanted d) -> set_up devs r K1 K' ->
  set_up (d :: devs) r K K'.
Proof.
  intros Hi [H1 Ho] (done & rest & -> & Hr & Hl & HK). exists (d :: done), rest.
  split_and!; [done|done|constructor; [by eexists|done]|].
  intros j t. rewrite HK. setoid_rewrite elem_of_cons. destruct (decide (j = i)) as [->|Hj].
  - rewrite H1, elem_of_union. naive_solver.
  - rewrite Ho by done. naive_solver.
Qed.

Lemma wp_setup_each devs K :
  NoDup (dev_name <$> devs) -> Forall (ready K) devs ->
  wp kernel_spec (for_err devs setup) K (fun r K' => set_up devs r K K').
Proof.
  revert K. induction devs as [|d devs IH]; intros K Hn Hd; cbn [for_err].
  - apply wp_ret. exists [], []. split_and!; [done..|constructor|set_solver].
  - apply NoDup_cons in Hn as [Hn Hnd]. apply Forall_cons in Hd as [[Hwf Hc] Hd].
    apply wp_bind. eapply wp_mono; [|by apply wp_setupDevice].
    intros [e|] K1 HK1; [subst; apply wp_ret|].
    + exists [], (d :: devs). split_and!; [done..|constructor|set_solver].
    + destruct HK1 as (i & Hi & HK1). eapply wp_mono; [|apply IH; [done|]].
      * intros r K'. by apply (set_up_cons _ _ _ i).
      * apply Forall_forall. intros d' Hd'. rewrite Forall_forall in Hd. destruct (Hd d' Hd') as [Hwf' Hc'].
        split; [done|]. intros j Hj. destruct HK1 as [_ Ho]. rewrite Ho; [by apply Hc'|].
        intros ->. apply Hn. rewrite (links_inj _ _ _ Hi Hj). by apply list_elem_of_fmap_2.
Qed.
End kernel.

(** ** Removals, then set-up *)

(** Taking away the old texts that are not new, then adding the new ones, is
    replacing the old prefixes by the new ones. *)
Lemma replaced `{Libs} `{RangeOrder} (X : gset string) old new :
  (X ∖ prefixes (removed (diffStrings old new))) ∪ prefixes new = (X ∖ prefixes old) ∪ prefixes new.
Proof.
  apply set_eq. intros t. rewrite !elem_of_union, !elem_of_difference, !elem_of_prefixes.
  setoid_rewrite elem_of_removed. split; [|naive_solver].
  intros [[Ht Hn]|]; [|by right].
  destruct (decide (t ∈ prefixes new)) as [Hnew|Hnew]; rewrite elem_of_prefixes in Hnew; naive_solver.
Qed.

Lemma removed_from `{Libs} (links : gmap string Z) rm K K1 dev i :
  (forall dev dev' i, links !! dev = Some i -> links !! dev' = Some i -> dev = dev') ->
  (forall i t, t ∈ on K1 i <-> t ∈ on K i /\
     ~ exists dev l, gm_get rm dev = Some l /\ links !! dev = Some i /\ t ∈ prefixes l) ->
  links !! dev = Some i -> on K1 i = on K i ∖ prefixes (default [] (gm_get rm dev)).
Proof.
  intros Hinj HK Hi. apply set_eq. intros t. rewrite HK, elem_of_difference. f_equiv. split.
  - intros Hn Ht. destruct (gm_get rm dev) as [l|] eqn:Hrm; [naive_solver|set_solver].
  - intros Hn (dev' & l & Hrm & Hi' & Ht). rewrite (Hinj _ _ _ Hi' Hi) in Hrm.
    by rewrite Hrm in Hn.
Qed.

(** C2: on a kernel that keeps a set of addresses for each link, the removal of
    the addresses of a namespace followed by the set-up of its devices refines a
    change of these sets.  With the removals that the comparison of states gives,
    each link that has been set up ends with what it had, less the old addresses,
    and the new ones: addresses that netcfg did not put there stay, a second run
    changes nothing, and an IPv6 address can change its length, since the removal
    comes first.  Every device has been set up when there is no error, and links
    that are in neither keep what they have. *)
Theorem addresses_refine `{Libs} `{RangeOrder} (links : gmap string Z) (conflict : string -> string -> bool)
    (m : NetlinkManager) (old : string -> list string) (rm : gomap (list string)) (devs : list device)
    (K : addresses) :
  (forall dev dev' i, links !! dev = Some i -> links !! dev' = Some i -> dev = dev') ->
  NoDup (dev_name <$> devs) ->
  Forall well_formed devs ->
  (forall d, d ∈ devs -> default [] (gm_get rm (dev_name d)) =
     removed (diffStrings (old (dev_name d)) (cidrs (dev_addresses d)))) ->
  (forall d i, d ∈ devs -> links !! dev_name d = Some i ->
     compatible conflict ((on K i ∖ prefixes (old (dev_name d))) ∪ wanted d) (wanted d)) ->
  wp (kernel_spec (mgr_handle m) links conflict) (remove_addresses m rm ;; for_err devs (setup m)) K
    (fun r K' => exists done rest, devs = done ++ rest /\ (r = None -> rest = []) /\
       (forall d, d ∈ done -> exists i, links !! dev_name d = Some i /\
          on K' i = (on K i ∖ prefixes (old (dev_name d))) ∪ wanted d) /\
       forall i, (forall dev, links !! dev = Some i -> gm_get rm dev = None /\ dev ∉ dev_name <$> devs) ->
          on K' i = on K i).
Proof.
  intros Hinj Hn Hwf Hrm Hc. apply wp_bind. eapply wp_mono; [|by apply wp_remove_addresses].
  intros [] K1 HK1. pose proof (fun dev i => removed_from links rm K K1 dev i Hinj HK1) as Hgone.
  assert (forall d i, d ∈ devs -> links !! dev_name d = Some i ->
    on K1 i ∪ wanted d = (on K i ∖ prefixes (old (dev_name d))) ∪ wanted d) as Heq.
  { intros d i Hd Hi. rewrite (Hgone _ _ Hi), Hrm by done. apply replaced. }
  eapply wp_mono; [|apply wp_setup_each; [done..|]].
  - intros r K' (done & rest & -> & Hr & Hl & HK). exists done, rest. split; [done|]. split; [done|]. split.
    + intros d Hd. rewrite Forall_forall in Hl. destruct (Hl d Hd) as [i Hi]. exists i. split; [done|].
      rewrite <-(Heq d i); [|by apply elem_of_app; left|done]. apply set_eq. intros t.
      rewrite HK, elem_of_union. split; [|naive_solver]. intros [?|(d' & Hd' & Hi' & Ht)]; [by left|right].
      rewrite (NoDup_key_inj dev_name (done ++ rest) d d'); [done|done| | |by eapply Hinj];
        by apply elem_of_app; left.
    + intros i Hi. apply set_eq. intros t. rewrite HK, HK1. split.
      * intros [[Ht _]|(d & Hd & Hdi & _)]; [done|]. destruct (Hi _ Hdi) as [_ []].
        apply list_elem_of_fmap_2, elem_of_app. by left.
      * intros Ht. left. split; [done|]. intros (dev & l & Hl' & Hdev & _). destruct (Hi _ Hdev). congruence.
  - apply Forall_forall. intros d Hd. rewrite Forall_forall in Hwf. split; [by apply Hwf|].
    intros i Hi. rewrite (Heq d i) by done. by apply Hc.
Qed.

#[local] Existing Instances Examples.libs range_map_to_list.

(** An IPv6 address changes its length; the address that is not netcfg's stays. *)
Module Example.

Definition m : NetlinkManager := MkNetlinkManager 3 "" 0.
Definition links : gmap string Z := {["eth0" := 2; "lo" := 1]}.

(** IPv6 addresses exclude each other by their first part. *)
Definition conflict (t t' : string) : bool :=
  Str.contains_byte t ":" && Str.eqb (Str.before_byte t "/") (Str.before_byte t' "/").

Definition address (cidr : string) : Address := Address_zero <| Address_CIDR := cidr |>.

Definition eth0 : device :=
  Device "eth0" [address "2001:db8::1/48"; address "10.0.0.1/24"] [] 1500 "".
Definition old (dev : string) : list string := ["10.0.0.1/24"; "2001:db8::1/64"].
Definition rm : gomap (list string) := Some {["eth0" := ["2001:db8::1/64"]]}.
Definition K : addresses :=
  {[1 := {["127.0.0.1/8"]}; 2 := {["10.0.0.1/24"; "2001:db8::1/64"; "192.0.2.7/32"]}]}.

Definition compatible_dec (T T' : gset string) : bool :=
  bool_decide (set_Forall (fun t => set_Forall (fun t' => conflict t t' = true -> t = t') T') T).

Lemma compatible_check T T' : compatible_dec T T' = true -> compatible conflict T T'.
Proof. intros Hc%bool_decide_eq_true t t' Ht Ht'. by apply (Hc t Ht). Qed.

Lemma canonical_check cidr :
  match ParseAddr cidr with Ok a => prefix_text a = cidr | Err _ => True end -> canonical cidr.
Proof. intros Hc n a _ Ha. by rewrite Ha in Hc. Qed.

Lemma links_eth0 d : dev_name d = "eth0" -> forall i, links !! dev_name d = Some i -> i = 2.
Proof. intros -> i Hi. vm_compute in Hi. congruence. Qed.

Lemma links_once dev dev' i : links !! dev = Some i -> links !! dev' = Some i -> dev = dev'.
Proof.
  unfold links. rewrite !lookup_insert_Some, !lookup_singleton_Some. naive_solver lia.
Qed.
End Example.

Lemma addresses_refine_witness :
  wp (kernel_spec (mgr_handle Example.m) Example.links Example.conflict)
    (remove_addresses Example.m Example.rm ;; for_err [Example.eth0] (setup Example.m)) Example.K
    (fun r K' => r = None -> on K' 2 = {["10.0.0.1/24"; "2001:db8::1/48"; "192.0.2.7/32"]}).
Proof.
  eapply wp_mono; [|apply (addresses_refine Example.links Example.conflict Example.m Example.old)].
  - intros r K' (done & rest & Hd & Hr & HK & _) Hnone. rewrite (Hr Hnone), app_nil_r in Hd. subst done.
    destruct (HK Example.eth0) as (i & Hi & HKi); [left|].
    rewrite (Example.links_eth0 Example.eth0 eq_refl i Hi) in HKi. rewrite HKi. vm_compute; reflexivity.
  - exact Example.links_once.
  - apply NoDup_singleton.
  - apply Forall_singleton. split; [|constructor].
    repeat constructor; apply Example.canonical_check; vm_compute; reflexivity.
  - intros d ->%list_elem_of_singleton. vm_compute; reflexivity.
  - intros d i ->%list_elem_of_singleton Hi. rewrite (Example.links_eth0 Example.eth0 eq_refl i Hi).
    apply Example.compatible_check. vm_compute; reflexivity.
Defined.
