(* ===== verification/Removed.v ===== *)
(** * That removals take place

    applyRemovals_safe of Removals bounds what is removed; here, on a kernel that
    carries out what it is asked for, what a difference lists is gone afterwards. *)

From S2P Require Import Prelude GoStd GoNet Effect State BuildState Netlink World Removals Addresses Examples.

(** The named namespaces, the links of each namespace (the host's is the empty
    name), the texts of their addresses, and what handles and descriptors stand for. *)
Record Kernel := MkKernel {
  k_ns : gset string;
  k_links : gset (string * string);
  k_addrs : string * string -> gset string;
  k_handles : gmap Z string;
  k_fds : gmap Z string
}.

Definition with_handles (K : Kernel) (hs fds : gmap Z string) : Kernel :=
  MkKernel (k_ns K) (k_links K) (k_addrs K) hs fds.

(** From one state to the other only links and addresses have gone. *)
Definition less (K K' : Kernel) : Prop :=
  k_ns K' = k_ns K /\ k_links K' ⊆ k_links K /\ forall p, k_addrs K' p ⊆ k_addrs K p.

(** ... and the handles are the same. *)
Definition less_in (K K' : Kernel) : Prop := less K K' /\ k_handles K' = k_handles K.

#[export] Instance less_preorder : PreOrder less.
Proof.
  split; [done|]. intros K1 K2 K3 (H1 & H2 & H3) (H4 & H5 & H6). split; [congruence|].
  split; [set_solver|]. intros p. specialize (H3 p). specialize (H6 p). set_solver.
Qed.

#[export] Instance less_in_preorder : PreOrder less_in.
Proof. split; [done|]. intros K1 K2 K3 [H1 H2] [H3 H4]. split; [by etransitivity|congruence]. Qed.

Definition removed_pre {X} (e : sys X) (K : Kernel) : Prop :=
  match e with
  | LinkByName (Some h) _ | LinkDel h _ | AddrDel h _ _ | RouteDel h _ => is_Some (k_handles K !! h)
  | NewHandle | HandleClose _ | NsGetFromName _ | NewHandleAt _ | NsClose _ | NsDeleteNamed _ => True
  | _ => False
  end.

(** A link that is deleted may take others along, as one end of a pair does, and
    an address others of its link. *)
Definition removed_post {X} (e : sys X) (K : Kernel) : X -> Kernel -> Prop :=
  match e in sys X return X -> Kernel -> Prop with
  | NewHandle => fun r K' => exists h, r = Ok h /\ K' = with_handles K (<[h := ""]> (k_handles K)) (k_fds K)
  | NsGetFromName ns => fun r K' =>
      if decide (ns ∈ k_ns K) then exists fd, r = Ok fd /\ K' = with_handles K (k_handles K) (<[fd := ns]> (k_fds K))
      else (exists e, r = Err e) /\ K' = K
  | NewHandleAt fd => fun r K' => forall ns, k_fds K !! fd = Some ns ->
      exists h, r = Ok h /\ K' = with_handles K (<[h := ns]> (k_handles K)) (k_fds K)
  | HandleClose h => fun _ K' => K' = with_handles K (delete h (k_handles K)) (k_fds K)
  | NsClose fd => fun _ K' => K' = with_handles K (k_handles K) (delete fd (k_fds K))
  | LinkByName (Some h) name => fun r K' => K' = K /\ forall ns, k_handles K !! h = Some ns ->
      if decide ((ns, name) ∈ k_links K) then exists l, r = Ok l /\ Link_Name l = name else exists e, r = Err e
  | LinkDel h l => fun _ K' => less_in K K' /\
      forall ns, k_handles K !! h = Some ns -> (ns, Link_Name l) ∉ k_links K'
  | AddrDel h l a => fun _ K' => less_in K K' /\
      forall ns, k_handles K !! h = Some ns -> prefix_text a ∉ k_addrs K' (ns, Link_Name l)
  | NsDeleteNamed ns => fun _ K' => k_ns K' = k_ns K ∖ {[ns]} /\
      k_links K' ⊆ k_links K /\ forall p, k_addrs K' p ⊆ k_addrs K p
  | _ => fun _ K' => K' = K
  end.

Definition removed_spec : spec sys Kernel :=
  Spec (fun X e K => removed_pre e K) (fun X e K x K' => removed_post e K x K') False.

Definition ns_exists (K : Kernel) (ns : string) : Prop := ns = "" \/ ns ∈ k_ns K.

(** ** One phase of the removals *)

(** A property that holds of ever later states. *)
Definition lasts (P : Kernel -> Prop) : Prop := forall K K', less K K' -> P K -> P K'.

Lemma lasts_forall {A} (Q : A -> Prop) (P : A -> Kernel -> Prop) :
  (forall a, lasts (P a)) -> lasts (fun K => forall a, Q a -> P a K).
Proof. intros HP K K' Hl H a Ha. by eapply HP, H. Qed.

Lemma less_handles K hs fds : less K (with_handles K hs fds).
Proof. done. Qed.

(** A loop of one thing after the other, each of which lasts. *)
Lemma wp_each_lasts {A} (rel : Kernel -> Kernel -> Prop) `{!PreOrder rel} (l : list A) body (P : A -> Kernel -> Prop)
    (G : Kernel -> Prop) K :
  (forall K1 K2, rel K1 K2 -> less K1 K2) -> (forall a, lasts (P a)) -> (forall K1 K2, rel K1 K2 -> G K1 -> G K2) -> G K ->
  (forall a K1, a ∈ l -> G K1 -> wp removed_spec (body a) K1 (fun _ K2 => rel K1 K2 /\ P a K2)) ->
  wp removed_spec (for_each l body) K (fun _ K' => rel K K' /\ forall a, a ∈ l -> P a K').
Proof.
  intros Hless HP HG HK Hb. eapply wp_mono; [|apply (wp_for_each_prefix _ l body K
    (fun pre K' => rel K K' /\ forall a, a ∈ pre -> P a K'))].
  - done.
  - split; [done|]. by intros a Ha%not_elem_of_nil.
  - intros pre a post K1 -> [H1 Hpre]. eapply wp_mono; [|apply Hb].
    + intros _ K2 [H2 Ha]. split; [by etransitivity|].
      intros b [Hb'| ->%list_elem_of_singleton]%elem_of_app; [|done]. eapply HP; [by apply Hless|by apply Hpre].
    + apply elem_of_app. right. left.
    + by eapply HG.
Qed.

Section removed.
Context `{Libs} `{RangeOrder}.

(** What is done through a manager in a namespace that exists is done. *)
Lemma wp_in_manager ns body (P : Kernel -> Prop) K :
  lasts P ->
  (forall m K1, less K K1 -> k_handles K1 !! mgr_handle m = Some ns ->
     wp removed_spec (body m) K1 (fun _ K2 => less_in K1 K2 /\ P K2)) ->
  wp removed_spec (with_manager ns body) K (fun _ K' => less K K' /\ (ns_exists K ns -> P K')).
Proof.
  intros HP Hbody. unfold with_manager, removal_manager.
  assert (forall m K1, less K K1 -> k_handles K1 !! mgr_handle m = Some ns ->
    wp removed_spec (body m;; Close m) K1 (fun _ K' => less K K' /\ (ns_exists K ns -> P K'))) as Hrun.
  { intros m K1 H1 Hm. apply wp_bind. eapply wp_mono; [|by apply Hbody]. intros [] K2 [[H2 _] HP2].
    unfold Close. apply wp_bind, wp_call; [done|]. intros [] ? ->.
    destruct (negb _); [apply wp_call; [done|]; intros [] ? ->|apply wp_ret];
      (split; [by do 2 (etransitivity; [eassumption|])|intros _; by eapply HP; [|exact HP2]]). }
  destruct (str_eqb_spec ns "") as [->|Hns]; simpl.
  - apply wp_bind, wp_bind, wp_bind, wp_call; [done|]. intros r ? (h & -> & ->). apply wp_ret, wp_ret.
    apply Hrun; [done|apply lookup_insert_eq].
  - assert (Str.is_empty ns = false) as -> by by destruct ns.
    apply wp_bind, wp_bind, wp_bind, wp_call; [done|]. intros r K1 Hr. simpl in Hr.
    destruct (decide (ns ∈ k_ns K)) as [Hin|Hin].
    + destruct Hr as (fd & -> & ->). apply wp_ret. cbn [is_ok negb].
      apply wp_bind, wp_bind, wp_call; [done|]. intros r K1 Hr. simpl in Hr. rewrite decide_True in Hr by done.
      destruct Hr as (fd' & -> & ->). apply wp_bind, wp_call; [done|]. intros r K1 Hr.
      destruct (Hr ns (lookup_insert_eq _ _ _)) as (h & -> & ->). apply wp_ret, wp_ret.
      apply Hrun; [done|apply lookup_insert_eq].
    + destruct Hr as [[e ->] ->]. apply wp_ret, wp_ret, wp_ret. split; [done|]. by intros [|].
Qed.

(** ** Addresses, routes, devices *)

Definition addr_gone (ns dev cidr : string) (K : Kernel) : Prop :=
  forall a, ParseAddr cidr = Ok a -> (ns, dev) ∈ k_links K -> prefix_text a ∉ k_addrs K (ns, dev).

Definition dev_gone (ns dev : string) (K : Kernel) : Prop := (ns, dev) ∉ k_links K.

Lemma lasts_addr_gone ns dev cidr : lasts (addr_gone ns dev cidr).
Proof. intros K K' (_ & Hl & Ha) HK a Hp Hin. specialize (HK a Hp). specialize (Ha (ns, dev)). set_solver. Qed.

Lemma lasts_dev_gone ns dev : lasts (dev_gone ns dev).
Proof. intros K K' (_ & Hl & _). unfold dev_gone. set_solver. Qed.

Context (m : NetlinkManager) (ns : string).
#[local] Abbreviation here := (fun K => k_handles K !! mgr_handle m = Some ns).

Lemma wp_kernel_link name K (Q : res Link -> Kernel -> Prop) :
  here K -> (forall l, (ns, name) ∈ k_links K -> Link_Name l = name -> Q (Ok l) K) ->
  (forall e, (ns, name) ∉ k_links K -> Q (Err e) K) ->
  wp removed_spec (link_by_name m name) K Q.
Proof.
  intros Hm HOk HErr. apply wp_call; [by exists ns|]. intros r ? [-> Hr]. specialize (Hr ns Hm).
  destruct (decide _) as [Hin|Hin]; [destruct Hr as (l & -> & Hl)|destruct Hr as [e ->]]; auto.
Qed.

Lemma wp_LinkExists_kernel name K (Q : bool -> Kernel -> Prop) :
  here K -> ((ns, name) ∈ k_links K -> Q true K) -> ((ns, name) ∉ k_links K -> Q false K) ->
  wp removed_spec (LinkExists m name) K Q.
Proof. intros Hm Ht Hf. apply wp_bind, wp_kernel_link; [done|intros; apply wp_ret; auto..]. Qed.

Lemma wp_DeleteAddress_gone dev cidr K :
  here K -> wp removed_spec (DeleteAddress m dev cidr) K (fun _ K' => less_in K K' /\ addr_gone ns dev cidr K').
Proof.
  intros Hm. apply wp_bind, wp_kernel_link; [done| |].
  - intros l Hin Hl. destruct (ParseAddr cidr) as [a|e] eqn:Ha.
    + apply wp_call; [by exists ns|]. intros r K' [Hless Hg]. split; [done|]. intros a' Ha' _.
      assert (a' = a) as -> by congruence. rewrite <-Hl. by apply Hg.
    + apply wp_ret. split; [done|]. intros a' Ha'. congruence.
  - intros e Hn. apply wp_ret. split; [done|]. by intros a _ Hin.
Qed.

Lemma wp_DeleteLink_gone dev K :
  here K -> wp removed_spec (DeleteLink m dev) K (fun _ K' => less_in K K' /\ dev_gone ns dev K').
Proof.
  intros Hm. apply wp_bind, wp_kernel_link; [done| |intros e Hn; by apply wp_ret].
  intros l Hin Hl. apply wp_call; [by exists ns|]. intros r K' [Hless Hg]. split; [done|]. unfold dev_gone.
  rewrite <-Hl. by apply Hg.
Qed.

Lemma wp_DeleteRoute_less dst gw dev table K :
  here K -> wp removed_spec (DeleteRoute m dst gw dev table) K (fun _ K' => less_in K K').
Proof.
  intros Hm. unfold DeleteRoute. apply wp_bind, wp_ret. destruct (route_dst dst) as [net|e]; [|by apply wp_ret].
  apply wp_bind. eapply wp_mono with (Q := fun _ K' => K' = K).
  - intros [index|e] ? ->; [|by apply wp_ret]. apply wp_call; [by exists ns|]. by intros r ? ->.
  - destruct (Str.is_empty dev); [by apply wp_ret|]. apply wp_bind, wp_kernel_link; [done|intros; by apply wp_ret..].
Qed.

Lemma here_less_in K K' : less_in K K' -> here K -> here K'.
Proof. by intros [_ ->]. Qed.
#[local] Hint Resolve here_less_in lasts_addr_gone lasts_dev_gone : core.

Lemma wp_remove_addresses_gone devAddrs K :
  here K -> wp removed_spec (remove_addresses m devAddrs) K (fun _ K' => less_in K K' /\
    forall e : string * list string, e ∈ gm_range 440 devAddrs -> forall cidr, cidr ∈ e.2 -> addr_gone ns e.1 cidr K').
Proof.
  intros Hm. apply (wp_each_lasts less_in _ _ (fun e K => forall cidr, cidr ∈ e.2 -> addr_gone ns e.1 cidr K) (fun K => here K));
    [by intros ? ? []|intros e; by apply lasts_forall|by apply here_less_in|done|].
  intros [dev addrs] K1 _ H1. apply wp_bind, wp_LinkExists_kernel; [done| |].
  - intros _. simpl. apply (wp_each_lasts less_in _ _ (addr_gone ns dev) (fun K => here K));
      [by intros ? ? []|done|by apply here_less_in|done|].
    intros cidr K2 _ H2. apply wp_bind. eapply wp_mono; [|by apply wp_DeleteAddress_gone].
    intros r K3 H3. by apply wp_ret.
  - intros Hn. apply wp_ret. split; [done|]. by intros cidr _ a _ Hin.
Qed.

Lemma wp_remove_devices_gone devs K :
  here K -> wp removed_spec (remove_devices m devs) K (fun _ K' => less_in K K' /\
    forall dev, dev ∈ devs -> dev_gone ns dev K').
Proof.
  intros Hm. apply (wp_each_lasts less_in _ _ (dev_gone ns) (fun K => here K));
    [by intros ? ? []|done|by apply here_less_in|done|].
  intros dev K1 _ H1. apply wp_bind, wp_LinkExists_kernel; [done| |intros Hn; by apply wp_ret].
  intros _. simpl. apply wp_bind. eapply wp_mono; [|by apply wp_DeleteLink_gone]. intros r K3 H3. by apply wp_ret.
Qed.

Lemma wp_remove_routes_less devRoutes K :
  here K -> wp removed_spec (remove_routes m devRoutes) K (fun _ K' => less_in K K' /\ True).
Proof.
  intros Hm. eapply wp_mono; [|apply (wp_each_lasts less_in _ _ (fun _ _ => True) (fun K => here K));
    [by intros ? ? []|done|by apply here_less_in|done|]].
  - intros _ K' [? _]. done.
  - intros [dev routes] K1 _ H1. eapply wp_mono; [|apply (wp_each_lasts less_in _ _ (fun _ _ => True) (fun K => here K));
      [by intros ? ? []|done|by apply here_less_in|done|]].
    + intros _ K' [? _]. done.
    + intros route K2 _ H2. destruct (parseRouteString route) as [[dst gw] table]. apply wp_bind.
      eapply wp_mono; [|by apply wp_DeleteRoute_less]. intros r K3 H3. by apply wp_ret.
Qed.
End removed.

(** ** All the removals *)

Section applyRemovals.
Context `{Libs} `{RangeOrder} (diff : Diff).

(** What a loop over the namespaces of a map of the difference achieves. *)
Lemma wp_each_namespace {A} site (m : gomap A) (body : string -> A -> NetlinkManager -> prog sys unit)
    (P : string -> A -> Kernel -> Prop) K :
  (forall ns a, lasts (P ns a)) ->
  (forall ns a mgr K1, k_handles K1 !! mgr_handle mgr = Some ns ->
     wp removed_spec (body ns a mgr) K1 (fun _ K2 => less_in K1 K2 /\ P ns a K2)) ->
  wp removed_spec (for_each (gm_range site m) (fun '(ns, a) => with_manager ns (body ns a))) K
    (fun _ K' => less K K' /\ forall ns a, gm_get m ns = Some a -> ns_exists K ns -> P ns a K').
Proof.
  intros HP Hb. eapply wp_mono; [|apply (wp_each_lasts less _ _
    (fun e K' => ns_exists K e.1 -> P e.1 e.2 K') (fun K' => less K K'))].
  - intros _ K' [H1 H2]. split; [done|]. intros ns a Ha. by apply (H2 (ns, a)), elem_of_range.
  - done.
  - intros [ns a] K1 K2 H1 H2 Hns. by eapply HP, H2.
  - intros K1 K2 H1 H2. by etransitivity.
  - done.
  - intros [ns a] K1 _ H1. eapply wp_mono; [|apply (wp_in_manager ns _ (P ns a)); [done|]].
    + intros _ K2 [H2 H3]. split; [done|]. intros Hns. apply H3. unfold ns_exists. destruct H1 as (-> & _). done.
    + intros mgr K2 _ Hm. by apply Hb.
Qed.

(** The loop over the namespaces deletes those listed, and no device or address
    comes back. *)
Lemma wp_remove_namespaces l K :
  wp removed_spec (for_each l remove_ns) K (fun _ K' =>
    (forall ns, ns ∈ k_ns K' <-> ns ∈ k_ns K /\ ~ (ns ∈ l /\ ns <> "")) /\
    k_links K' ⊆ k_links K /\ forall p, k_addrs K' p ⊆ k_addrs K p).
Proof.
  apply (wp_for_each_prefix _ _ _ K (fun pre K' =>
    (forall ns, ns ∈ k_ns K' <-> ns ∈ k_ns K /\ ~ (ns ∈ pre /\ ns <> "")) /\
    k_links K' ⊆ k_links K /\ forall p, k_addrs K' p ⊆ k_addrs K p)).
  - split; [|done]. intros ns. set_solver.
  - intros pre ns post K1 -> (Hns & Hl & Ha). unfold remove_ns.
    destruct (str_eqb_spec ns "") as [->|Hne]; simpl.
    + apply wp_ret. split; [|done]. intros ns'. rewrite Hns. set_solver.
    + assert (Str.is_empty ns = false) as -> by by destruct ns.
      apply wp_bind, wp_bind, wp_call; [done|]. intros r K2 Hr. simpl in Hr. apply wp_ret.
      destruct (decide (ns ∈ k_ns K1)) as [Hin|Hin].
      * destruct Hr as (fd & -> & ->). cbn [is_ok]. apply wp_bind, wp_call; [done|].
        intros e K3 (H1 & H2 & H3). apply wp_ret. simpl in *. split; [|split; [set_solver|]].
        -- intros ns'. rewrite H1. set_solver.
        -- intros p. etransitivity; [apply H3|apply Ha].
      * destruct Hr as [[e ->] ->]. apply wp_ret. split; [|done]. intros ns'. rewrite Hns. set_solver.
Qed.
End applyRemovals.

(** C39: on a kernel that carries out what it is asked for, applyRemovals returns,
    and afterwards every device that the difference lists for removal in a
    namespace that exists is gone, every listed address that can be parsed is
    gone from its device, if that is still there, and the named namespaces are
    those there were less those listed, of which the default one is not removed.
    A device or an address that is already missing, a text that cannot be parsed
    and a namespace that does not exist stop none of the rest. *)
Theorem applyRemovals_complete `{Libs} `{RangeOrder} (diff : Diff) K :
  wp removed_spec (applyRemovals diff) K (fun _ K' =>
    (forall ns dev, dev ∈ listed (Diff_DevicesToRemove diff) ns -> ns_exists K ns -> dev_gone ns dev K') /\
    (forall ns dev cidr, cidr ∈ listed2 (Diff_AddressesToRemove diff) ns dev -> ns_exists K ns -> addr_gone ns dev cidr K') /\
    (forall ns, ns ∈ k_ns K' <-> ns ∈ k_ns K /\ ~ (ns ∈ Diff_NsToRemove diff /\ ns <> ""))).
Proof.
  unfold applyRemovals. apply wp_bind. eapply wp_mono; [|apply (wp_each_namespace _ _ (fun _ a m => remove_addresses m a)
    (fun ns devAddrs K' => forall e : string * list string, e ∈ gm_range 440 devAddrs -> forall cidr, cidr ∈ e.2 -> addr_gone ns e.1 cidr K'))].
  2: { intros ns a. apply lasts_forall. intros e. apply lasts_forall. intros cidr. apply lasts_addr_gone. }
  2: { intros ns a m K1 Hm. by apply wp_remove_addresses_gone. }
  intros [] K1 [H1 Haddr]. apply wp_bind. eapply wp_mono; [|apply (wp_each_namespace _ _ (fun _ a m => remove_routes m a) (fun _ _ _ => True))].
  2: done.
  2: { intros ns a m K2 Hm. by eapply wp_remove_routes_less. }
  intros [] K2 [H2 _]. apply wp_bind. eapply wp_mono; [|apply (wp_each_namespace _ _ (fun _ a m => remove_devices m a)
    (fun ns devs K' => forall dev, dev ∈ devs -> dev_gone ns dev K'))].
  2: { intros ns a. apply lasts_forall. intros dev. apply lasts_dev_gone. }
  2: { intros ns a m K3 Hm. by apply wp_remove_devices_gone. }
  intros [] K3 [H3 Hdev]. eapply wp_mono; [|apply wp_remove_namespaces]. intros [] K' (Hns & Hl & Ha).
  assert (k_ns K3 = k_ns K) as Heq3 by (destruct H1 as [? _], H2 as [? _], H3 as [? _]; congruence).
  assert (k_ns K2 = k_ns K) as Heq2 by (destruct H1 as [? _], H2 as [? _]; congruence).
  split_and!.
  - intros ns dev Hin Hex. unfold dev_gone, listed in *. destruct (gm_get _ ns) as [devs|] eqn:Hg; [|by apply not_elem_of_nil in Hin].
    assert ((ns, dev) ∉ k_links K3); [|set_solver]. eapply (Hdev ns devs); [done|by unfold ns_exists; rewrite Heq2|done].
  - intros ns dev cidr Hin Hex a Hp Hl'. unfold listed2, nested_get in Hin.
    destruct (gm_get (Diff_AddressesToRemove diff) ns) as [devAddrs|] eqn:Hg; [|by apply not_elem_of_nil in Hin].
    simpl in Hin. destruct (gm_get devAddrs dev) as [addrs|] eqn:Hg'; [|by apply not_elem_of_nil in Hin].
    assert (addr_gone ns dev cidr K3) as Hgone.
    { eapply lasts_addr_gone; [exact H3|]. eapply lasts_addr_gone; [exact H2|].
      apply (Haddr ns devAddrs Hg Hex (dev, addrs)); [by apply elem_of_range|done]. }
    specialize (Hgone a Hp). specialize (Ha (ns, dev)). set_solver.
  - intros ns. rewrite Hns, Heq3. done.
Qed.
