(* ===== verification/NdpManager.v ===== *)
(** * The daemon (cmd/ndp.go, ndptap_daemon.go, daemon.go)

    The daemon keeps a responder running on each interface that has rules, watches
    the taps that VPP has for them, and the leases of [LeaseDaemon].  A method of
    the manager runs under its lock, so it is a program from the manager before it
    to the manager after it.  A responder runs in a goroutine of its own, until it
    cannot read or its context is cancelled; another goroutine closes its socket
    some time after the cancelling.  The manager keeps the contexts. *)

From S2P Require Import Prelude GoStd GoNet Effect Config Validate VppApi Netlink Host Setup Vpp VppSetup Responder LeaseDaemon.

(* go: cmd/ndptap_daemon.go 22-26 ndpTapSpec *)
Record ndpTapSpec := MkndpTapSpec { bridge : string; bdID : Z }.

(* go: cmd/ndp.go 24-32 ndpManager *)
Record ndpManager := MkndpManager {
  running : gmap string Z;
  configs : gmap string NdpConfig;
  tapSpecs : gmap string ndpTapSpec;
  apiSocket : string;
  watching : bool
}.

(* go: cmd/ndp.go 34-36 newNDPManager *)
Definition newNDPManager : ndpManager := MkndpManager ∅ ∅ ∅ "" false.

Definition set_running (m : ndpManager) (r : gmap string Z) : ndpManager :=
  MkndpManager r (configs m) (tapSpecs m) (apiSocket m) (watching m).
Definition set_configs (m : ndpManager) (c : gmap string NdpConfig) : ndpManager :=
  MkndpManager (running m) c (tapSpecs m) (apiSocket m) (watching m).
Definition set_taps (m : ndpManager) (taps : gmap string ndpTapSpec * string) : ndpManager :=
  MkndpManager (running m) (configs m) taps.1 taps.2 (watching m).

(** ** The responders of a configuration *)

(** A rule as the responder has it, if it can be used. *)
(* go: cmd/ndp.go 123-140 ndpResponderConfigs *)
Definition responder_rule (staticExternalOnly : bool) (r : NDProxyRule) : option NdpRule :=
  pfx ← Netip.ParsePrefix (NDProxyRule_Prefix r);
  mac ← (if Str.is_empty (NDProxyRule_Neighbor r) then Some None
         else mac ← Net.ParseMAC (NDProxyRule_Neighbor r); Some (Some mac));
  let auto := Str.equal_fold (NDProxyRule_Mode r) "auto" in
  if staticExternalOnly && (bool_decide (mac = None) || auto) then None
  else Some (MkNdpRule pfx mac auto).

(** The responder of an interface, for a device's block: none, or one. *)
(* go: cmd/ndp.go 114-144 ndpResponderConfigs *)
Definition addOn (iface : string) (n : ptr NDProxy) (staticExternalOnly : bool) : pan (list NdpConfig) :=
  match n with
  | None => Some []
  | Some n =>
      rules ← fold_pan (NDProxy_Rules n) [] (fun rules r =>
        r ← r;
        Some (match responder_rule staticExternalOnly r with Some r => rules ++ [r] | None => rules end));
      Some (match rules with [] => [] | _ => [MkNdpConfig iface (default true (NDProxy_Router n)) rules] end)
  end.

(* go: cmd/ndp.go 149-157 ndpResponderConfigs *)
Definition addDev (name : string) (n : ptr NDProxy) (vppManaged : bool) : pan (list NdpConfig) :=
  if vppManaged then Some [] else addOn name n false.

(** A loop over the devices of a kind, which looks into each. *)
Definition add_devices `{RangeOrder} {A} (site : Z) (devices : gomap (ptr A))
    (add : string -> A -> pan (list NdpConfig)) (out : list NdpConfig) : pan (list NdpConfig) :=
  fold_pan (gm_range site devices) out (fun out '(name, d) => d ← d; l ← add name d; Some (out ++ l)).

Section daemon.
Context `{VppLibs} `{RangeOrder}.

(* go: cmd/ndp.go 105-176 ndpResponderConfigs *)
Definition ndpResponderConfigs (cfg : Config) : pan (list NdpConfig) :=
  let n := Config_Network cfg in
  let g := Network_Renderer n in
  out ← add_devices 158 (Network_Ethernets n) (fun name d =>
    addDev name (Ethernet_NDProxy d) (VPP.VPPManaged (Ethernet_VPP d) (Ethernet_Renderer d) g)) [];
  out ← add_devices 161 (Network_Vlans n) (fun name d =>
    addDev name (Vlan_NDProxy d) (VPP.VPPManaged (Vlan_VPP d) (Vlan_Renderer d) g)) out;
  out ← add_devices 164 (Network_Bonds n) (fun name d =>
    addDev name (Bond_NDProxy d) (VPP.VPPManaged (Bond_VPP d) (Bond_Renderer d) g)) out;
  add_devices 168 (Network_Bridges n) (fun name d =>
    if VPP.VPPManaged (Bridge_VPP d) (Bridge_Renderer d) g
    then addOn (NDPTapName name) (Bridge_NDProxy d) true
    else addOn name (Bridge_NDProxy d) false) out.

(* go: cmd/ndptap_daemon.go 28-48 ndpTapSpecs *)
Definition ndpTapSpecs (cfg : Config) : pan (gmap string ndpTapSpec * string) :=
  let n := Config_Network cfg in
  specs ← fold_pan (gm_range 34 (Network_Bridges n)) ∅ (fun specs '(name, b) =>
    match b with
    | None => Some specs
    | Some b =>
        if negb (VPP.VPPManaged (Bridge_VPP b) (Bridge_Renderer b) (Network_Renderer n)) then Some specs
        else
          rules ← vppNDPTapRules (Bridge_NDProxy b);
          Some (match rules.1 with
                | [] => specs
                | _ => <[NDPTapName name := MkndpTapSpec name (ndpTapBdID name b)]> specs
                end)
    end);
  Some (specs, match Network_VPP n with Some v => VPPGlobal_APISocket v | None => "" end).

(** ** The manager *)

(* go: cmd/ndp.go 94-103 setAllmulti *)
Definition setAllmulti (iface : string) (on : bool) : prog sys unit :=
  r ← New;
  match r with
  | Err _ => Ret tt
  | Ok mgr => deferred (warn! SetAllmulti mgr iface on; Ret tt) (Close mgr)
  end.

(* go: cmd/ndp.go 52-68 startLocked *)
Definition startLocked (c : NdpConfig) (m : ndpManager) : prog sys ndpManager :=
  setAllmulti (Iface c) true ;;
  resp ← NewResponder c;
  match resp with
  | Err _ => setAllmulti (Iface c) false ;; Ret m
  | Ok r =>
      ctx ← call CtxNew;
      call (Go (TaskResponder (Iface c) (conn r) ctx)) ;;
      Ret (set_running m (<[Iface c := ctx]> (running m)))
  end.

(* go: cmd/ndp.go 70-81 restart *)
Definition restart (iface : string) (m : ndpManager) : prog sys ndpManager :=
  m ← match running m !! iface with
      | Some ctx => call (CtxCancel ctx) ;; Ret (set_running m (delete iface (running m)))
      | None => Ret m
      end;
  match configs m !! iface with
  | Some c => startLocked c m
  | None => Ret m
  end.

(* go: cmd/ndp.go 83-92 Stop *)
Definition StopManager (m : ndpManager) : prog sys ndpManager :=
  for_each (range 87 (running m)) (fun '(iface, ctx) =>
    call (CtxCancel ctx) ;; setAllmulti iface false) ;;
  Ret (set_running m ∅).

(* go: cmd/ndptap_daemon.go 50-60 ensureWatcher *)
Definition ensureWatcher (m : ndpManager) : prog sys ndpManager :=
  if watching m || Nat.eqb (size (tapSpecs m)) 0 then Ret m
  else
    call (Go TaskWatchTaps) ;;
    Ret (MkndpManager (running m) (configs m) (tapSpecs m) (apiSocket m) true).

(** The loop that starts the responders. *)
(* go: cmd/ndp.go 42-46 Reload *)
Definition start_all (confs : list NdpConfig) (m : ndpManager) : prog sys ndpManager :=
  for_fold confs (set_configs m ∅) (fun m c =>
    startLocked c (set_configs m (<[Iface c := c]> (configs m)))).

(* go: cmd/ndp.go 38-50 Reload *)
Definition Reload (cfg : Config) (m : ndpManager) : prog sys ndpManager :=
  m ← StopManager m;
  confs ← lift (ndpResponderConfigs cfg);
  m ← start_all confs m;
  taps ← lift (ndpTapSpecs cfg);
  ensureWatcher (set_taps m taps).

(** ** The taps of VPP *)

(** For the result of LoadConfig. *)
(* go: cmd/ndptap_daemon.go 111-130 wantedTapSpec *)
Definition wantedTapSpec (name : string) (loaded : res Config) (m : ndpManager)
    : pan (option ndpTapSpec * string * ndpManager) :=
  match loaded with
  | Err _ => Some (tapSpecs m !! name, apiSocket m, m)
  | Ok cfg =>
      taps ← ndpTapSpecs cfg;
      Some (taps.1 !! name, taps.2, set_taps m taps)
  end.

(* go: cmd/ndptap_daemon.go 132-147 rebuildNDPTap *)
Definition rebuildNDPTap (sock br : string) (bd : Z) : prog sys err :=
  get! c := Connect sock as same_err;
  deferred (
    r ← DeleteNDPTap (NDPTapName br) (NewApplier c);
    r ← EnsureNDPTap br bd r.2;
    Ret (res_err r.1)) (CloseClient c).

(** What the watcher does with the deletion of a link. *)
(* go: cmd/ndptap_daemon.go 86-106 watchTaps *)
Definition link_deleted (name : string) (loaded : res Config) (m : ndpManager) : prog sys ndpManager :=
  match tapSpecs m !! name with
  | None => Ret m
  | Some _ =>
      '(wanted, sock, m) ← lift (wantedTapSpec name loaded m);
      match wanted with
      | None => Ret m
      | Some spec =>
          e ← rebuildNDPTap sock (bridge spec) (bdID spec);
          match e with
          | Some _ => Ret m
          | None => setNDPTapAlias name (bridge spec) ;; restart name m
          end
      end
  end.

(** A link event: its name, whether it is a deletion, and what LoadConfig would
    return. *)
Record link_event := MkLinkEvent { ev_name : string; ev_deleted : bool; ev_loaded : res Config }.

(* go: cmd/ndptap_daemon.go 62-109 watchTaps *)
Fixpoint watchTaps (events : list link_event) (m : ndpManager) : prog sys ndpManager :=
  match events with
  | [] => Ret m
  | ev :: events =>
      m ← (if negb (ev_deleted ev) then Ret m else link_deleted (ev_name ev) (ev_loaded ev) m);
      watchTaps events m
  end.

(** ** The daemon *)

Context `{LeaseJson}.

(** A null ethernet device makes it panic. *)
(* go: cmd/daemon.go 95-111 applyConfigWithDaemon *)
Definition applyConfigWithDaemon (cfg : Config) (d : DHCPDaemon) : prog sys DHCPDaemon :=
  for_fold (gm_range 97 (Network_Ethernets (Config_Network cfg))) d (fun d '(name, eth) =>
    eth ← lift eth;
    if Ethernet_DHCP4 eth || Ethernet_DHCP6 eth then
      RequestLease name (Ethernet_DHCP4 eth) (Ethernet_DHCP6 eth)
        (Some (dhcpOverridesToNl (Ethernet_DHCP4Overrides eth)))
        (Some (dhcpOverridesToNl (Ethernet_DHCP6Overrides eth))) d
    else Ret d).

(** What is done with a configuration that has been loaded. *)
(* go: cmd/daemon.go 76-84 runDaemon *)
Definition reload (loaded : res Config) (s : DHCPDaemon * ndpManager) : prog sys (DHCPDaemon * ndpManager) :=
  match loaded with
  | Err _ => Ret s
  | Ok cfg =>
      d ← applyConfigWithDaemon cfg s.1;
      m ← Reload cfg s.2;
      Ret (d, m)
  end.

(** The signals: SIGHUP, with what LoadConfig then returns, or a signal to end. *)
Inductive signal := SIGHUP (loaded : res Config) | SIGTERM.

Fixpoint signals (l : list signal) (s : DHCPDaemon * ndpManager) : prog sys (DHCPDaemon * ndpManager) :=
  match l with
  | [] => Ret s
  | SIGHUP loaded :: l => s ← reload loaded s; signals l s
  | SIGTERM :: _ =>
      m ← StopManager s.2;
      LeaseDaemon.Stop s.1 ;;
      Ret (s.1, m)
  end.

(* go: cmd/daemon.go 42-93 runDaemon *)
Definition runDaemon (loaded : res Config) (l : list signal) : prog sys (DHCPDaemon * ndpManager) :=
  d ← NewDHCPDaemon;
  d ← Start d;
  s ← reload loaded (d, newNDPManager);
  signals l s.
End daemon.
