(* ===== verification/NdpInv.v ===== *)
(** * The sockets of the responders

    When the responders have interfaces of their own, the manager of [NdpManager]
    loses none: the contexts that are not
    cancelled are those that it knows to be running, each with a configuration; and
    a socket stays open only as long as its context, and until the goroutine that
    waits for that has closed it. *)

From stdpp Require Import relations.
From S2P Require Import Prelude GoStd GoNet Effect Config Validate VppApi Netlink Host Setup Plain World Safety Vpp VppSetup VppSafe Responder NdpManager Examples.

(** ** Calls that concern no socket and no context *)

Definition no_socket X (e : sys X) : Prop :=
  match e with
  | PacketListen _ | PacketClose _ | CtxNew | CtxCancel _ | Go (TaskResponder _ _ _) => False
  | _ => True
  end.

#[export] Instance no_socket_closed : MessageClosed (fun A => @all_calls sys A no_socket).
Proof. by apply all_calls_closed. Qed.

#[local] Abbreviation quiet p := (all_calls no_socket p) (only parsing).

Lemma quiet_New : quiet New.
Proof. unfold New. calls_tac; exact I. Qed.
Lemma quiet_Close m : quiet (Close m).
Proof. unfold Close. calls_tac; exact I. Qed.
#[local] Hint Resolve quiet_New quiet_Close : calls.

Lemma quiet_setAllmulti i on : quiet (setAllmulti i on).
Proof. unfold setAllmulti, deferred, SetAllmulti, on_link, link_by_name. calls_tac; exact I. Qed.
Lemma quiet_setNDPTapAlias h br : quiet (setNDPTapAlias h br).
Proof. unfold setNDPTapAlias, deferred, SetAlias, on_link, link_by_name. calls_tac; exact I. Qed.
#[local] Hint Resolve quiet_setAllmulti quiet_setNDPTapAlias : calls.

Lemma quiet_Connect sock : quiet (Connect sock).
Proof. unfold Connect, checkCompatibility, CloseClient. calls_tac; exact I. Qed.

Lemma quiet_rebuild `{VppLibs} sock br bd : quiet (rebuildNDPTap sock br bd).
Proof.
  unfold rebuildNDPTap, deferred, CloseClient. pose proof (quiet_Connect sock) as Hc.
  apply all_calls_bind; [done|]. intros [c|e]; [|done].
  apply all_calls_bind; [|intros r; calls_tac; exact I].
  apply all_calls_bind.
  - assert (ap_sat (each_applier (fun A => @all_calls sys A no_socket)) (DeleteNDPTap (NDPTapName br))) as Hd
      by (apply ap_sat_delete_tagged; apply _).
    apply Hd.
  - intros r. apply all_calls_bind; [|done].
    apply (ap_sat_EnsureNDPTap (each_applier (fun A => @all_calls sys A no_socket))).
Qed.
#[local] Hint Resolve quiet_rebuild : calls.

(** ** Sockets and contexts *)

(** The sockets that are open, the contexts that have been made and those that have
    been cancelled, and the socket that a goroutine closes for a context. *)
Record sockets := MkSockets {
  opened : gset Z;
  made : gset Z;
  cancelled : gset Z;
  closing : gmap Z Z
}.

(** A socket that is opened and a context that is made are new. *)
Definition socket_post {X} (e : sys X) (o : sockets) : X -> sockets -> Prop :=
  match e in sys X return X -> sockets -> Prop with
  | PacketListen _ => fun r o' =>
      match r with
      | Ok s => (s ∉ opened o) /\ o' = MkSockets ({[s]} ∪ opened o) (made o) (cancelled o) (closing o)
      | Err _ => o' = o
      end
  | PacketClose s => fun _ o' => o' = MkSockets (opened o ∖ {[s]}) (made o) (cancelled o) (closing o)
  | CtxNew => fun c o' => (c ∉ made o) /\ o' = MkSockets (opened o) ({[c]} ∪ made o) (cancelled o) (closing o)
  | CtxCancel c => fun _ o' => o' = MkSockets (opened o) (made o) ({[c]} ∪ cancelled o) (closing o)
  | Go (TaskResponder _ s c) => fun _ o' => o' = MkSockets (opened o) (made o) (cancelled o) (<[c := s]> (closing o))
  | _ => fun _ o' => o' = o
  end.
Definition socket_spec : spec sys sockets :=
  Spec (fun _ _ _ => True) (fun X e o x o' => socket_post e o x o') True.

(** Every open socket is one that a goroutine will close, and each goroutine has its
    own. *)
Definition sockets_ok (o : sockets) : Prop :=
  (forall s, s ∈ opened o <-> exists c, closing o !! c = Some s) /\
  (forall c c' s, closing o !! c = Some s -> closing o !! c' = Some s -> c = c') /\
  (forall c, is_Some (closing o !! c) \/ c ∈ cancelled o -> c ∈ made o).

(** The contexts that live are those of the responders that run. *)
Definition living (o : sockets) (c : Z) : Prop := is_Some (closing o !! c) /\ c ∉ cancelled o.

Definition runs_ok (run : gmap string Z) (o : sockets) : Prop :=
  (forall c, living o c <-> exists i, run !! i = Some c) /\
  (forall i j c, run !! i = Some c -> run !! j = Some c -> i = j).

Definition manager_ok (m : ndpManager) (o : sockets) : Prop :=
  sockets_ok o /\ runs_ok (running m) o /\
  (forall i c, configs m !! i = Some c -> Iface c = i) /\
  (forall i, is_Some (running m !! i) -> is_Some (configs m !! i)).

Lemma wp_quiet_sockets {A B} (p : prog sys A) (f : A -> prog sys B) o Q :
  quiet p -> (forall a, wp socket_spec (f a) o Q) -> wp socket_spec (p ≫= f) o Q.
Proof.
  intros Hp Hf. apply wp_bind. eapply wp_mono; [|apply (wp_all_calls socket_spec no_socket (fun o' => o' = o))].
  - intros a ? ->. apply Hf.
  - done.
  - done.
  - intros X e s x s' He -> Hx. destruct e; try done. by destruct t.
  - done.
  - done.
Qed.

Definition no_sockets : sockets := MkSockets ∅ ∅ ∅ ∅.

Lemma sockets_ok_empty : sockets_ok no_sockets.
Proof. unfold sockets_ok. simpl. split_and!; [set_solver|done|]. intros c [[s Hs]|Hc]; [done|set_solver]. Qed.

(** A responder starts: on a new socket, with a new context. *)
Definition started (s c : Z) (o : sockets) : sockets :=
  MkSockets ({[s]} ∪ opened o) ({[c]} ∪ made o) (cancelled o) (<[c := s]> (closing o)).

Lemma sockets_ok_started s c o : s ∉ opened o -> c ∉ made o -> sockets_ok o -> sockets_ok (started s c o).
Proof.
  intros Hs Hc (Ho & Hinj & Hm). assert (closing o !! c = None) as Hno.
  { destruct (closing o !! c) eqn:E; [|done]. exfalso. apply Hc, Hm. rewrite E. left. by eexists. }
  unfold sockets_ok, started. simpl. split_and!.
  - intros t. rewrite elem_of_union, elem_of_singleton, Ho. split.
    + intros [->|[c' Hc']]; [exists c; apply lookup_insert_eq|]. exists c'. rewrite lookup_insert_ne; [done|congruence].
    + intros [c' [[_ <-]|[_ Hc']]%lookup_insert_Some]; [by left|right; by exists c'].
  - intros c1 c2 t [[<- <-]|[Hne1 H1]]%lookup_insert_Some [[<- Ht]|[Hne2 H2]]%lookup_insert_Some; try done.
    + exfalso. apply Hs, Ho. by exists c2.
    + exfalso. apply Hs, Ho. exists c1. by rewrite Ht.
    + by apply (Hinj c1 c2 t).
  - intros c' [[s' [[<- _]|[_ Hs']]%lookup_insert_Some]|Hc']; [set_solver| |].
    + apply elem_of_union. right. apply Hm. left. by exists s'.
    + apply elem_of_union. right. apply Hm. by right.
Qed.

Lemma runs_ok_started run i s c o :
  run !! i = None -> c ∉ made o -> sockets_ok o -> runs_ok run o -> runs_ok (<[i := c]> run) (started s c o).
Proof.
  intros Hi Hc (Ho & _ & Hm) [Hr Hinj]. assert (forall j, run !! j = Some c -> False) as Hnew.
  { intros j Hj. destruct (proj2 (Hr c) ltac:(by exists j)) as [Hl _]. apply Hc, Hm. by left. }
  split.
  - intros c'. unfold living, started. simpl. destruct (decide (c' = c)) as [->|Hne].
    + split; [intros _; exists i; apply lookup_insert_eq|]. intros _. rewrite lookup_insert_eq.
      split; [by eexists|]. intros Hx. apply Hc, Hm. by right.
    + rewrite lookup_insert_ne by done. change (living o c' <-> exists j, <[i := c]> run !! j = Some c').
      rewrite Hr. split; intros [j Hj]; exists j.
      * rewrite lookup_insert_ne; [done|congruence].
      * apply lookup_insert_Some in Hj as [[_ ->]|[_ Hj]]; done.
  - intros j k c' [[<- <-]|[Hj1 Hj]]%lookup_insert_Some [[<- Hk]|[Hk1 Hk]]%lookup_insert_Some; try done.
    + by destruct (Hnew k).
    + subst c'. by destruct (Hnew j).
    + by apply (Hinj j k c').
Qed.

(** A context is cancelled: its responder no longer runs. *)
Definition cancel (cs : gset Z) (o : sockets) : sockets :=
  MkSockets (opened o) (made o) (cs ∪ cancelled o) (closing o).

Lemma sockets_ok_cancel cs o : (forall c, c ∈ cs -> c ∈ made o) -> sockets_ok o -> sockets_ok (cancel cs o).
Proof. intros Hcs (Ho & Hinj & Hm). split_and!; [done|done|]. simpl. intros c. rewrite elem_of_union. naive_solver. Qed.

Lemma runs_ok_cancel run i c o : run !! i = Some c -> runs_ok run o -> runs_ok (delete i run) (cancel {[c]} o).
Proof.
  intros Hi [Hr Hinj]. split.
  - intros c'. unfold living, cancel. simpl. rewrite not_elem_of_union, not_elem_of_singleton.
    pose proof (Hr c') as Hc'. unfold living in Hc'. split.
    + intros (Hs & Hne & Hno). destruct (proj1 Hc' (conj Hs Hno)) as [j Hj]. exists j.
      rewrite lookup_delete_ne; [done|congruence].
    + intros [j [Hne Hj]%lookup_delete_Some]. destruct (proj2 Hc' ltac:(by exists j)) as [Hs Hno].
      split_and!; [done| |done]. intros ->. apply Hne. by apply (Hinj i j c).
  - intros j k c' [_ Hj]%lookup_delete_Some [_ Hk]%lookup_delete_Some. by apply (Hinj j k c').
Qed.

(** The socket of a cancelled context is closed. *)
Definition closed (s c : Z) (o : sockets) : sockets :=
  MkSockets (opened o ∖ {[s]}) (made o) (cancelled o) (delete c (closing o)).

Lemma sockets_ok_closed s c o : closing o !! c = Some s -> sockets_ok o -> sockets_ok (closed s c o).
Proof.
  intros Hc (Ho & Hinj & Hm). unfold sockets_ok, closed. simpl. split_and!.
  - intros t. rewrite elem_of_difference, elem_of_singleton, Ho. split.
    + intros [[c' Hc'] Hne]. exists c'. rewrite lookup_delete_ne; [done|congruence].
    + intros [c' [Hne Hc']%lookup_delete_Some]. split; [by exists c'|]. intros ->. apply Hne. by apply (Hinj c c' s).
  - intros c1 c2 t [_ H1]%lookup_delete_Some [_ H2]%lookup_delete_Some. by apply (Hinj c1 c2 t).
  - intros c' [[s' [_ Hs']%lookup_delete_Some]|Hc']; apply Hm; [left; by exists s'|by right].
Qed.

Lemma runs_ok_closed run s c o : c ∈ cancelled o -> runs_ok run o -> runs_ok run (closed s c o).
Proof.
  intros Hc [Hr Hinj]. split; [|done]. intros c'. rewrite <-Hr. unfold living, closed. simpl.
  destruct (decide (c = c')) as [<-|Hne]; [rewrite lookup_delete_eq; split; [by intros [[] _]|by intros []]|].
  by rewrite lookup_delete_ne.
Qed.

Section manager.
Context `{VppLibs} `{RangeOrder}.

Lemma wp_startLocked c m o :
  running m !! Iface c = None -> configs m !! Iface c = Some c -> manager_ok m o ->
  wp socket_spec (startLocked c m) o (fun m' o' =>
    manager_ok m' o' /\ configs m' = configs m /\
    forall i, i <> Iface c -> running m' !! i = running m !! i).
Proof.
  intros Hrun Hc (Hs & Hr & Hk & Hsub). unfold startLocked, NewResponder.
  apply wp_quiet_sockets; [auto with calls|]. intros _.
  apply wp_bind, wp_bind, wp_call; [done|]. intros [i|e] ? ->.
  2: { apply wp_ret, wp_quiet_sockets; [auto with calls|]. intros _. by apply wp_ret. }
  apply wp_bind, wp_call; [done|]. intros [s|e] o' Ho'; simpl in Ho'.
  2: { subst. apply wp_ret, wp_quiet_sockets; [auto with calls|]. intros _. by apply wp_ret. }
  destruct Ho' as [Hnew ->]. apply wp_ret, wp_bind, wp_call; [done|]. intros ctx ? [Hctx ->]. simpl in Hctx.
  apply wp_bind, wp_call; [done|]. intros ? ? ->. apply wp_ret. cbn [opened made cancelled closing conn].
  change (MkSockets _ _ _ _) with (started s ctx o).
  split; [|split; [done|intros j Hj; by apply lookup_insert_ne]].
  split; [by apply sockets_ok_started|]. split; [by apply runs_ok_started|]. split; [done|]. simpl. intros j Hj.
  destruct (decide (j = Iface c)) as [->|Hne]; [by rewrite Hc|]. apply Hsub. by rewrite lookup_insert_ne in Hj.
Qed.

Lemma wp_restart i m o : manager_ok m o -> wp socket_spec (restart i m) o manager_ok.
Proof.
  intros Hm. unfold restart. apply wp_bind, (wp_mono _ _ _ (fun m' o' =>
    manager_ok m' o' /\ configs m' = configs m /\ running m' !! i = None)).
  - intros m' o' (Hm' & Hc & Hi). rewrite Hc. destruct (configs m !! i) as [c|] eqn:E; [|by apply wp_ret].
    assert (Iface c = i) as Hci by (destruct Hm as (_ & _ & Hk & _); by apply Hk).
    eapply wp_mono; [|apply wp_startLocked; [by rewrite Hci|by rewrite Hci, Hc|done]]. by intros ? ? [? _].
  - destruct (running m !! i) as [s|] eqn:E; [|by apply wp_ret].
    apply wp_bind, wp_call; [done|]. intros ? ? ->. apply wp_ret. destruct Hm as (Hs & Hr & Hk & Hsub).
    split; [|split; [done|apply lookup_delete_eq]]. change (MkSockets _ _ _ _) with (cancel {[s]} o).
    split; [apply sockets_ok_cancel; [|done]|].
    { intros c ->%elem_of_singleton. destruct (proj2 (proj1 Hr s) ltac:(by exists i)) as [Hl _]. apply Hs. by left. }
    split; [by apply runs_ok_cancel|]. split; [done|].
    intros j [s' Hj]. simpl in Hj. apply lookup_delete_Some in Hj as [_ Hj]. apply Hsub. by exists s'.
Qed.

(** A stop cancels what runs. *)
Lemma wp_StopManager m o :
  manager_ok m o -> wp socket_spec (StopManager m) o (fun m' o' =>
    m' = set_running m ∅ /\ sockets_ok o' /\ runs_ok ∅ o').
Proof.
  intros (Hs & Hr & _). unfold StopManager. apply wp_bind.
  eapply wp_mono; [|apply (wp_for_each_prefix _ _ _ _ (fun pre o' => o' = cancel (list_to_set pre.*2) o))].
  - intros ? ? ->. apply wp_ret. split; [done|]. split.
    + apply sockets_ok_cancel; [|done]. intros c Hc%elem_of_list_to_set%list_elem_of_fmap.
      destruct Hc as ([i c'] & -> & Hin%elem_of_range). simpl.
      destruct (proj2 (proj1 Hr c') ltac:(by exists i)) as [Hl _]. apply Hs. by left.
    + split; [|by intros i j c; rewrite lookup_empty]. intros c. split; [|intros [i Hi]; by rewrite lookup_empty in Hi].
      intros [Hl Hno]. exfalso. cbn [cancel cancelled closing] in Hl, Hno.
      apply not_elem_of_union in Hno as [Hpre Hno]. destruct (proj1 (proj1 Hr c) (conj Hl Hno)) as [i Hi].
      apply Hpre, elem_of_list_to_set, list_elem_of_fmap. exists (i, c). split; [done|]. by apply elem_of_range.
  - unfold cancel. destruct o. simpl. f_equal. set_solver.
  - intros pre [i c] post o1 Hl ->. apply wp_bind, wp_call; [done|]. intros ? ? ->.
    eapply wp_mono; [|apply (wp_all_calls socket_spec no_socket (fun o' => o' = cancel ({[c]} ∪ list_to_set pre.*2) o))].
    + intros ? ? ->. unfold cancel. f_equal. rewrite fmap_app, list_to_set_app_L. simpl. set_solver.
    + done.
    + done.
    + intros X e o2 r o3 He -> Hx. destruct e; try done. by destruct t.
    + auto with calls.
    + unfold cancel. simpl. f_equal. set_solver.
Qed.

Lemma wp_start_all confs m o :
  NoDup (Iface <$> confs) -> running m = ∅ -> sockets_ok o -> runs_ok ∅ o ->
  wp socket_spec (start_all confs m) o manager_ok.
Proof.
  intros Hnd Hm Ho Hro. unfold start_all.
  eapply wp_mono; [|apply (wp_for_fold_prefix _ _ _ _ _ (fun pre m' o' => manager_ok m' o' /\
    forall i, i ∉ Iface <$> pre -> running m' !! i = None))].
  - by intros m' o' [? _].
  - split; [|intros i _; by rewrite <-(lookup_empty i), <-Hm]. split; [done|]. split; [by rewrite <-Hm in Hro|]. split.
    + intros i c. simpl. by rewrite lookup_empty.
    + intros i. change (running (set_configs m ∅)) with (running m). rewrite Hm, lookup_empty. by intros [? ?].
  - intros pre c post m1 o1 Hl [Hm1 Hrun].
    assert (Iface c ∉ Iface <$> pre) as Hnew.
    { rewrite Hl, fmap_app in Hnd. apply NoDup_app in Hnd as (_ & Hd & _). intros Hin. apply (Hd _ Hin). left. }
    eapply wp_mono; [|apply wp_startLocked].
    + intros m2 o2 (Hm2 & _ & Hother). split; [done|]. intros i Hi. rewrite fmap_app in Hi.
      rewrite Hother by set_solver. apply Hrun. set_solver.
    + by apply Hrun.
    + apply lookup_insert_eq.
    + destruct Hm1 as (Hs & Hr & Hk & Hsub). split; [done|]. split; [done|]. split; simpl.
      * intros i c' [[<- <-]|[_ Hi]]%lookup_insert_Some; [done|by apply Hk].
      * intros i Hi. apply lookup_insert_is_Some. destruct (decide (Iface c = i)); [by left|right].
        split; [done|]. by apply Hsub.
Qed.

Lemma set_taps_ok m taps o : manager_ok m o -> manager_ok (set_taps m taps) o.
Proof. done. Qed.

(** A configuration whose responders have interfaces of their own. *)
Definition distinct_responders (cfg : Config) : Prop :=
  forall confs, ndpResponderConfigs cfg = Some confs -> NoDup (Iface <$> confs).

Lemma wp_Reload cfg m o :
  distinct_responders cfg -> manager_ok m o -> wp socket_spec (Reload cfg m) o manager_ok.
Proof.
  intros Hd Hm. unfold Reload. apply wp_bind. eapply wp_mono; [|by apply wp_StopManager].
  intros ? o1 (-> & Hs & Hr). apply wp_bind, wp_lift; [|done]. intros confs Hconfs.
  apply wp_bind. eapply wp_mono; [|by apply wp_start_all; [apply Hd|..]].
  intros m1 o2 Hm1. apply wp_bind, wp_lift; [|done]. intros taps _. unfold ensureWatcher.
  destruct (_ || _); [by apply wp_ret|]. apply wp_bind, wp_call; [done|]. intros ? ? ->. by apply wp_ret.
Qed.

Lemma wp_link_deleted name loaded m o :
  manager_ok m o -> wp socket_spec (link_deleted name loaded m) o manager_ok.
Proof.
  intros Hm. unfold link_deleted. destruct (tapSpecs m !! name); [|by apply wp_ret].
  apply wp_bind, wp_lift; [|done]. intros [[wanted sock] m1] Hw.
  assert (manager_ok m1 o) as Hm1.
  { unfold wantedTapSpec in Hw. destruct loaded as [cfg|e]; [|by injection Hw as <- <- <-].
    destruct (ndpTapSpecs cfg) as [taps|]; [|done]. by injection Hw as <- <- <-. }
  destruct wanted as [spec|]; [|by apply wp_ret].
  apply wp_quiet_sockets; [auto with calls|]. intros [e|]; [by apply wp_ret|].
  apply wp_quiet_sockets; [auto with calls|]. intros _. by apply wp_restart.
Qed.

(** The steps of the manager: a reload with a configuration whose responders have
    interfaces of their own, the deletion of a link, a stop.  At any time between
    them, the goroutine of a responder whose context is cancelled closes its
    socket. *)
Inductive manager_step : ndpManager * sockets -> ndpManager * sockets -> Prop :=
| step_reload cfg m o m' o' :
    distinct_responders cfg -> exec socket_spec (Reload cfg m) o m' o' -> manager_step (m, o) (m', o')
| step_link name loaded m o m' o' :
    exec socket_spec (link_deleted name loaded m) o m' o' -> manager_step (m, o) (m', o')
| step_stop_all m o m' o' :
    exec socket_spec (StopManager m) o m' o' -> manager_step (m, o) (m', o')
| step_close m o c s o' :
    c ∈ cancelled o -> closing o !! c = Some s -> exec socket_spec (close_on_cancel s) o tt o' ->
    manager_step (m, o) (m, MkSockets (opened o') (made o') (cancelled o') (delete c (closing o'))).

Lemma manager_step_ok s s' : manager_step s s' -> manager_ok s.1 s.2 -> manager_ok s'.1 s'.2.
Proof.
  intros Hs Hm. destruct Hs as [cfg m1 o1 m2 o2 Hd Hx|name loaded m1 o1 m2 o2 Hx|m1 o1 m2 o2 Hx|m1 o1 c s o2 Hc Hs Hx];
    simpl in *.
  - eapply wp_exec; [|exact Hx]. by apply wp_Reload.
  - eapply wp_exec; [|exact Hx]. by apply wp_link_deleted.
  - destruct (wp_exec _ _ _ _ _ _ (wp_StopManager m1 o1 Hm) Hx) as (-> & Hs & Hr).
    destruct Hm as (_ & _ & Hk & _). split; [done|]. split; [done|]. split; [done|].
    intros i. simpl. rewrite lookup_empty. by intros [? ?].
  - assert (o2 = MkSockets (opened o1 ∖ {[s]}) (made o1) (cancelled o1) (closing o1)) as ->.
    { apply (wp_exec socket_spec (close_on_cancel s) o1 (fun _ o' => o' = _) tt o2); [|exact Hx]. by apply wp_call. }
    destruct Hm as (Hok & Hr & Hk & Hsub). change (MkSockets _ _ _ _) with (closed s c o1).
    split; [by apply sockets_ok_closed|]. split; [by apply runs_ok_closed|]. done.
Qed.

End manager.

#[local] Existing Instances Examples.vpp_libs range_map_to_list.

(** A configuration with a responder on eth0. *)
Definition example_rule : NDProxyRule := MkNDProxyRule "2001:db8::/64" "" "static".
Definition example_config : Config :=
  Config_zero <| Config_Network := Network_zero <| Network_Ethernets :=
    Some {["eth0" := Some (Ethernet_zero <| Ethernet_NDProxy := Some (MkNDProxy [] None [Some example_rule]) |>)]} |> |>.
Definition example_responders : list NdpConfig :=
  [MkNdpConfig "eth0" true [MkNdpRule (Netip.MkPrefix ([32; 1; 13; 184] ++ replicate 12 0) 64) None false]].

Lemma example_responders_eq : ndpResponderConfigs example_config = Some example_responders.
Proof. vm_compute. reflexivity. Qed.

Lemma example_taps_eq : ndpTapSpecs example_config = Some (∅, "").
Proof. vm_compute. reflexivity. Qed.


(** ** Two responders on one interface

    Without [distinct_responders] a responder is lost: the second one on an
    interface takes the place of the first, whose context nothing cancels any
    more. *)
Definition twice : list NdpConfig := example_responders ++ example_responders.

Lemma duplicate_responder_leaks :
  exists m o, exec socket_spec (start_all twice newNDPManager) no_sockets m o /\
    closing o !! 1 = Some 7 /\ (1 ∉ cancelled o) /\ forall i, running m !! i <> Some 1.
Proof.
  eexists _, (started 8 2 (started 7 1 no_sockets)). split.
  - apply (exec_vis _ _ _ _ _ (Err (EMsg "" [])) no_sockets); [reflexivity|].
    apply (exec_vis _ _ _ _ _ (Ok (MkNetInterface 2 [] 1500)) no_sockets); [reflexivity|].
    eapply (exec_vis _ _ _ _ _ (Ok 7)); [split; [apply not_elem_of_empty|reflexivity]|].
    eapply (exec_vis _ _ _ _ _ 1); [split; [apply not_elem_of_empty|reflexivity]|].
    apply (exec_vis _ _ _ _ _ tt (started 7 1 no_sockets)); [reflexivity|].
    apply (exec_vis _ _ _ _ _ (Err (EMsg "" [])) (started 7 1 no_sockets)); [reflexivity|].
    apply (exec_vis _ _ _ _ _ (Ok (MkNetInterface 2 [] 1500)) (started 7 1 no_sockets)); [reflexivity|].
    eapply (exec_vis _ _ _ _ _ (Ok 8)); [split; [vm_compute; set_solver|reflexivity]|].
    eapply (exec_vis _ _ _ _ _ 2); [split; [vm_compute; set_solver|reflexivity]|].
    apply (exec_vis _ _ _ _ _ tt (started 8 2 (started 7 1 no_sockets))); [reflexivity|].
    apply exec_ret.
  - split; [reflexivity|]. split; [apply not_elem_of_empty|]. intros i. simpl.
    destruct (decide ("eth0" = i)) as [<-|Hi]; [by rewrite lookup_insert_eq|by rewrite !lookup_insert_ne].
Qed.
