(* ===== verification/Rollback.v ===== *)
(** * Trying a configuration (cmd/try.go)

    [runTry] applies a configuration, waits for an answer, and otherwise goes
    back with [rollback]. *)

From S2P Require Import Prelude GoStd GoNet Effect Config Validate State BuildState Netlink Host Setup World Removals VppApi Vpp VppSetup Apply Examples.

(** ** Going back *)

Section rollback.
Context `{Libs} `{VppLibs} `{RangeOrder} `{SliceSort}.

(* go: cmd/try.go 159-167 applyRollbackRemovals *)
Definition rollback_addresses (mgr : NetlinkManager) (devAddrs : gomap (list string)) : prog sys unit :=
  for_each (gm_range 159 devAddrs) (fun '(dev, addrs) =>
    ex ← LinkExists mgr dev;
    if negb ex then Ret tt
    else for_each addrs (fun addr => warn! DeleteAddress mgr dev addr; Ret tt)).

(* go: cmd/try.go 187-192 applyRollbackRemovals *)
Definition rollback_devices (mgr : NetlinkManager) (devs : list string) : prog sys unit :=
  for_each devs (fun dev =>
    ex ← LinkExists mgr dev;
    if (ex : bool) then warn! DeleteLink mgr dev; Ret tt else Ret tt).

(* go: cmd/try.go 140-204 applyRollbackRemovals *)
Definition applyRollbackRemovals (diff : Diff) : prog sys unit :=
  for_each (gm_range 143 (Diff_AddressesToAdd diff)) (fun '(ns, devAddrs) =>
    with_manager ns (fun mgr => rollback_addresses mgr devAddrs)) ;;
  for_each (gm_range 171 (Diff_DevicesToAdd diff)) (fun '(ns, devs) =>
    with_manager ns (fun mgr => rollback_devices mgr devs)) ;;
  for_each (Diff_NsToAdd diff) remove_ns.

(* go: cmd/try.go 225-233 applyRollbackAdditions *)
Definition restore_addresses (mgr : NetlinkManager) (devAddrs : gomap (list string)) : prog sys unit :=
  for_each (gm_range 225 devAddrs) (fun '(dev, addrs) =>
    ex ← LinkExists mgr dev;
    if negb ex then Ret tt
    else for_each addrs (fun addr => warn! AddAddress mgr dev addr; Ret tt)).

(* go: cmd/try.go 206-237 applyRollbackAdditions *)
Definition applyRollbackAdditions (diff : Diff) : prog sys unit :=
  for_each (gm_range 209 (Diff_AddressesToRemove diff)) (fun '(ns, devAddrs) =>
    with_manager ns (fun mgr => restore_addresses mgr devAddrs)).

(** What rollback does with the two states. *)
(* go: cmd/try.go 116-129 rollback *)
Definition rollback_changes (currentState rollbackState : State) : prog sys unit :=
  diff ← lift (ComputeDiff currentState rollbackState);
  applyRollbackRemovals diff ;;
  applyRollbackAdditions diff.

Context (unmarshal : string -> res State) (marshal : State -> res string) (is_not_exist : error -> bool).

(* go: cmd/try.go 104-138 rollback *)
Definition rollback (rollbackState : ptr State) : prog sys err :=
  match rollbackState with
  | None => Ret None
  | Some old =>
      get! currentState := state_load unmarshal is_not_exist as EWrap "failed to load current state: %w" [];
      rollback_changes currentState old ;;
      warn! state_save marshal old;
      Ret None
  end.

(** ** Waiting *)

(** The answers that end the loop over the lines of the standard input. *)
(* go: cmd/try.go 74-86 runTry *)
Definition answer (line : string) : option bool :=
  let input := Str.trim_space (Str.to_lower line) in
  if existsb (Str.eqb input) [""; "y"; "yes"] then Some true
  else if existsb (Str.eqb input) ["n"; "no"; "revert"] then Some false
  else None.

(** [reads] are what the reads of the standard input have returned when the time
    is over; a read at the end of the input returns the rest of it, the empty
    string in the end.  [None] is the timeout. *)
Fixpoint wait_answer (reads : list string) : option bool :=
  match reads with
  | [] => None
  | line :: reads => match answer line with Some b => Some b | None => wait_answer reads end
  end.

(* go: cmd/try.go 47-102 runTry *)
Definition runTry (cfg : res Config) (reads : list string) : prog sys err :=
  match cfg with
  | Err e => Ret (Some (EWrap "failed to load config: %w" [] e))
  | Ok cfg =>
      r ← state_load unmarshal is_not_exist;
      let rollbackState := match r with Ok s => s | Err _ => NewState end in
      try! Apply unmarshal marshal is_not_exist cfg as EWrap "failed to apply config: %w" [];
      match wait_answer reads with
      | Some true => Ret None
      | Some false | None => rollback (Some rollbackState)
      end
  end.
End rollback.

(** ** What rollback deletes and adds *)

(** The permission of rollback, over the states: to delete addresses that the
    state to go back to has and the current one has not, devices and namespaces
    likewise; and to add addresses that the current state has and the other has
    not. *)
Definition rollback_perm `{Libs} (currentState old : State) X (e : sys X) (w : World) : Prop :=
  let both ns dev c o :=
    dev_at currentState ns dev = Some (Some c) /\ dev_at old ns dev = Some (Some o) in
  match e with
  | NewHandle | NewHandleAt _ | HandleClose _ | NsGetFromName _ | NsClose _ | LinkByName (Some _) _ => True
  | AddrDel h l a => exists ns c o cidr, handle_at w h ns /\ both ns (Link_Name l) c o /\
      ParseAddr cidr = Ok a /\ cidr ∈ DeviceState_Addresses o /\ cidr ∉ DeviceState_Addresses c
  | AddrAdd h l a => exists ns c o cidr, handle_at w h ns /\ both ns (Link_Name l) c o /\
      ParseAddr cidr = Ok a /\ cidr ∈ DeviceState_Addresses c /\ cidr ∉ DeviceState_Addresses o
  | LinkDel h l => exists ns, handle_at w h ns /\
      is_Some (dev_at old ns (Link_Name l)) /\ dev_at currentState ns (Link_Name l) = None
  | NsDeleteNamed ns => ns <> "" /\ is_Some (gm_get (State_Namespaces old) ns) /\
      gm_get (State_Namespaces currentState) ns = None
  | _ => False
  end.

Section proof.
Context `{Libs} `{RangeOrder} (currentState old : State) (Hc : state_ok currentState) (Ho : state_ok old).
#[local] Abbreviation sp := (world_spec (rollback_perm currentState old)).
#[local] Abbreviation keeps p w := (wp sp p w (fun _ w' => w' = w)).

Lemma rollback_allows : allows (rollback_perm currentState old).
Proof. intros X e w. destruct e; try done. by destruct h. Qed.

Lemma both_of_listed (d : Diff) ns dev (l : list string) cidr (P : DeviceState -> DeviceState -> Prop) :
  (forall c o, dev_at currentState ns dev = Some (Some c) -> dev_at old ns dev = Some (Some o) ->
     cidr ∈ l -> P c o) ->
  (dev_at currentState ns dev = None \/ dev_at old ns dev = None -> l = []) -> cidr ∈ l ->
  exists c o, dev_at currentState ns dev = Some (Some c) /\ dev_at old ns dev = Some (Some o) /\ P c o.
Proof.
  intros Hb Hn Hin. destruct (dev_at currentState ns dev) as [[c|]|] eqn:Ec.
  - destruct (dev_at old ns dev) as [[o|]|] eqn:Eo; [by exists c, o; auto| |].
    + by destruct (proj2 Ho ns dev).
    + rewrite Hn in Hin by auto. by apply not_elem_of_nil in Hin.
  - by destruct (proj2 Hc ns dev).
  - rewrite Hn in Hin by auto. by apply not_elem_of_nil in Hin.
Qed.

Lemma wp_rollback_DeleteAddress m ns dev cidr c o w :
  handle_at w (mgr_handle m) ns -> dev_at currentState ns dev = Some (Some c) -> dev_at old ns dev = Some (Some o) ->
  cidr ∈ DeviceState_Addresses o -> cidr ∉ DeviceState_Addresses c -> keeps (DeleteAddress m dev cidr) w.
Proof.
  intros Hm Ec Eo Hin Hnot. apply (wp_on_link _ rollback_allows m dev _ ns); [done| |done].
  intros l Hl. destruct (ParseAddr cidr) as [a|e] eqn:Ha; [|done]. apply wp_plain; [|by intros x w'|done].
  split_and!; [intros ? [= <-]; by eexists|done|done|]. exists ns, c, o, cidr. by rewrite Hl.
Qed.

Lemma wp_rollback_AddAddress m ns dev cidr c o w :
  handle_at w (mgr_handle m) ns -> dev_at currentState ns dev = Some (Some c) -> dev_at old ns dev = Some (Some o) ->
  cidr ∈ DeviceState_Addresses c -> cidr ∉ DeviceState_Addresses o -> keeps (AddAddress m dev cidr) w.
Proof.
  intros Hm Ec Eo Hin Hnot. apply (wp_on_link _ rollback_allows m dev _ ns); [done| |done].
  intros l Hl. destruct (ParseAddr cidr) as [a|e] eqn:Ha; [|done]. simpl.
  apply wp_plain; [|by intros x w'|done].
  split_and!; [intros ? [= <-]; by eexists|done|done|]. exists ns, c, o, cidr. by rewrite Hl.
Qed.

Lemma wp_rollback_DeleteLink m ns dev w :
  handle_at w (mgr_handle m) ns -> is_Some (dev_at old ns dev) -> dev_at currentState ns dev = None ->
  keeps (DeleteLink m dev) w.
Proof.
  intros Hm Eo Ec. apply (wp_on_link _ rollback_allows m dev _ ns); [done| |done].
  intros l Hl. apply wp_plain; [|by intros x w'|done].
  split_and!; [intros ? [= <-]; by eexists|done|done|]. exists ns. by rewrite Hl.
Qed.

(** A loop over the devices of a namespace and, for those that exist, over
    their addresses. *)
Lemma wp_address_loop site m ns (devAddrs : gomap (list string)) (f : string -> string -> prog sys err) w :
  handle_at w (mgr_handle m) ns ->
  (forall dev addrs cidr, gm_get devAddrs dev = Some addrs -> cidr ∈ addrs -> keeps (f dev cidr) w) ->
  keeps (for_each (gm_range site devAddrs) (fun '(dev, addrs) =>
    ex ← LinkExists m dev;
    if negb ex then Ret tt else for_each addrs (fun addr => warn! f dev addr; Ret tt))) w.
Proof.
  intros Hm Hf. apply wp_for_eq. intros [dev addrs] Hdev%elem_of_range.
  apply wp_bind, (wp_LinkExists _ rollback_allows _ _ ns); [done|]. intros [|]; simpl; [|done].
  apply wp_for_eq. intros cidr Hcidr. apply wp_warn; [|done]. by apply (Hf dev addrs).
Qed.

Lemma wp_rollback_changes w :
  w_cur w = "" -> wp sp (rollback_changes currentState old) w (fun _ w' => same_but_fds w w').
Proof.
  intros Hcur. destruct (ComputeDiff_spec currentState old Hc Ho)
    as (d & Hd & _ & Hns & _ & Hdev & _ & Hboth & Hnone).
  assert (forall w', same_but_fds w w' -> w_cur w' = "") as Hw by (intros w' (_ & _ & -> & _); done).
  apply wp_bind. rewrite Hd. apply wp_ret, wp_bind.
  eapply (wp_mono _ _ _ (fun _ w' => same_but_fds w w')).
  { intros _ w1 Hw1. apply wp_for_same; [|by intros w2 Hw2; etrans]. intros [ns devAddrs] w2 Hin%elem_of_range Hw2.
    apply (wp_with_manager _ rollback_allows); [apply Hw; by etrans| |by intros w3 Hw3; etrans].
    intros m w3 Hm. apply (wp_address_loop 225 m ns); [done|]. intros dev addrs cidr Haddrs Hcidr.
    assert (cidr ∈ listed2 (Diff_AddressesToRemove d) ns dev) as Hl
      by (unfold listed2, nested_get; unfold gm_get at 1; by rewrite Hin, Haddrs).
    destruct (both_of_listed d ns dev _ cidr (fun c o => cidr ∈ DeviceState_Addresses c /\
      cidr ∉ DeviceState_Addresses o) (fun c o Ec Eo Hx => proj1 (proj1 (Hboth ns dev c o Ec Eo) cidr) Hx)
      (fun Hx => proj1 (Hnone ns dev Hx)) Hl) as (c & o & Ec & Eo & Hx & Hy).
    by apply (wp_rollback_AddAddress m ns dev cidr c o). }
  unfold applyRollbackRemovals. apply wp_bind, wp_for_same.
  { intros [ns devAddrs] w2 Hin%elem_of_range Hw2.
    apply (wp_with_manager _ rollback_allows); [by apply Hw| |by intros w3 Hw3; etrans].
    intros m w3 Hm. apply (wp_address_loop 159 m ns); [done|]. intros dev addrs cidr Haddrs Hcidr.
    assert (cidr ∈ listed2 (Diff_AddressesToAdd d) ns dev) as Hl
      by (unfold listed2, nested_get; unfold gm_get at 1; by rewrite Hin, Haddrs).
    destruct (both_of_listed d ns dev _ cidr (fun c o => cidr ∈ DeviceState_Addresses o /\
      cidr ∉ DeviceState_Addresses c) (fun c o Ec Eo Hx => proj1 (proj1 (proj2 (Hboth ns dev c o Ec Eo)) cidr) Hx)
      (fun Hx => proj1 (proj2 (proj2 (Hnone ns dev Hx)))) Hl) as (c & o & Ec & Eo & Hx & Hy).
    by apply (wp_rollback_DeleteAddress m ns dev cidr c o). }
  intros w1 Hw1. apply wp_bind, wp_for_same.
  { intros [ns devs] w2 Hin%elem_of_range Hw2.
    apply (wp_with_manager _ rollback_allows); [apply Hw; by etrans| |by intros w3 Hw3; etrans].
    intros m w3 Hm. apply wp_for_eq. intros dev Hx.
    apply wp_bind, (wp_LinkExists _ rollback_allows _ _ ns); [done|]. intros [|]; [|done].
    assert (dev ∈ listed (Diff_DevicesToAdd d) ns) as Hl
      by (unfold listed; unfold gm_get; by rewrite Hin).
    apply Hdev in Hl as [Hl1 Hl2]. apply wp_warn; [|done]. by apply (wp_rollback_DeleteLink m ns). }
  intros w2 Hw2. apply wp_for_same; [|by intros w3 Hw3; do 2 (etrans; [eassumption|])].
  intros ns w3 Hx Hw3. unfold remove_ns. destruct (Str.is_empty ns) eqn:He; [done|].
  apply wp_bind, (wp_NetnsExists _ rollback_allows); [by intros ->|]. intros [|] w4 Hw4; [|apply wp_ret; by etrans].
  apply wp_bind, wp_plain; [|by intros x w'|intros; apply wp_ret; by etrans].
  apply Hns in Hx as [Hx1 Hx2]. split_and!; [done..|]. split; [|done]. intros ->. done.
Qed.
End proof.

(** C3: what rollback deletes is what the state to go back to has and the applied
    one has not: addresses that the trial has removed, devices and namespaces
    that it has removed; and the addresses that it adds are those that the trial has
    added.  Nothing that the trial has added is deleted, and nothing that it has
    removed is restored. *)
Theorem rollback_reversed `{Libs} `{RangeOrder} currentState old handles fds lock lost :
  state_ok currentState -> state_ok old ->
  let w := MkWorld handles fds "" lock lost in
  wp (world_spec (rollback_perm currentState old)) (rollback_changes currentState old) w
    (fun _ w' => same_but_fds w w').
Proof. intros Hc Ho w. by apply wp_rollback_changes. Qed.

#[local] Existing Instances Examples.libs.

Lemma rollback_reversed_witness :
  let w := MkWorld ∅ ∅ "" 0 false in
  wp (world_spec (rollback_perm Example2.new Example2.old)) (rollback_changes Example2.new Example2.old) w
    (fun _ w' => same_but_fds w w').
Proof. apply rollback_reversed; [exact Example2.new_ok|exact Example2.old_ok]. Defined.
