(* ===== verification/GetSet.v ===== *)
(** * Reading and changing a value of the configuration (cmd/getset.go)

    The two commands go through the YAML form of the configuration, a tree of
    maps; a path names an entry of it, by the keys between dots.  The YAML codec
    and the loading of the configuration are parameters. *)

From S2P Require Import Prelude GoStd GoNet Effect Config Netlink.

(** ** Trees *)

(** A decoded value: a map with string keys, or anything else. *)
Inductive node :=
| Map (m : gmap string node)
| Other (v : string).

Abbreviation tree := (gmap string node).

(** One step of the loop of runGet. *)
(* go: cmd/getset.go 72-81 runGet *)
Definition child (path : string) (current : node) (part : string) : res node :=
  match current with
  | Map m => match m !! part with Some n => Ok n | None => Err (EMsg "path not found: %s" [path]) end
  | Other _ => Err (EMsg "cannot navigate into non-map at: %s" [part])
  end.

(* go: cmd/getset.go 70-82 runGet *)
Fixpoint navigate (path : string) (current : node) (parts : list string) : res node :=
  match parts with
  | [] => Ok current
  | part :: parts =>
      match child path current part with Ok n => navigate path n parts | Err e => Err e end
  end.

(** The map under a key, which is made when there is none. *)
(* go: cmd/getset.go 198-209 setNestedValue *)
Definition next_map (m : tree) (key : string) : tree :=
  match m !! key with Some (Map next) => next | _ => ∅ end.

(** The maps are changed in place; each is reached from the one above only. *)
(* go: cmd/getset.go 185-212 setNestedValue *)
Fixpoint setNestedValue (m : tree) (path : list string) (value : node) : res tree :=
  match path with
  | [] => Err (EMsg "empty path" [])
  | [key] => Ok (<[key := value]> m)
  | key :: rest =>
      match setNestedValue (next_map m key) rest value with
      | Ok next => Ok (<[key := Map next]> m)
      | Err e => Err e
      end
  end.

(** ** The commands *)

(** gopkg.in/yaml.v3 on configurations and trees.  A configuration is encoded as a
    map, so that decoding it into a map gives one. *)
Class Yaml := {
  marshal_config : Config -> res string;
  unmarshal_map : string -> res tree;
  unmarshal_value : string -> option node;
  marshal_node : node -> res string;
}.

(** The text before and after the first of a byte. *)
Fixpoint split_first (s : string) (c : ascii) : option (string * string) :=
  match s with
  | "" => None
  | String a s' =>
      if (a =? c)%char then Some ("", s')
      else '(x, y) ← split_first s' c; Some (String a x, y)
  end.

(** A step of a computation that may fail. *)
Definition rbind {A B} (r : res A) (f : A -> res B) : res B :=
  match r with Ok a => f a | Err e => Err e end.

Section commands.
Context `{Yaml} (configDir : string).

(** The tree of a configuration. *)
Definition config_tree (cfg : Config) : res tree := rbind (marshal_config cfg) unmarshal_map.

(** What is printed, for the result of LoadConfig and the arguments. *)
(* go: cmd/getset.go 39-92 runGet *)
Definition runGet (loaded : res Config) (args : list string) : res string :=
  match loaded with
  | Err e => Err (EWrap "failed to load config: %w" [] e)
  | Ok cfg =>
      match args with
      | [] => marshal_config cfg
      | path :: _ =>
          rbind (config_tree cfg) (fun m =>
            rbind (navigate path (Map m) (Str.split_byte path ".")) marshal_node)
      end
  end.

(** The configuration that is changed: an empty one when none can be loaded. *)
(* go: cmd/getset.go 136-143 runSet *)
Definition set_base (loaded : res Config) : Config :=
  match loaded with Ok cfg => cfg | Err _ => Config_zero <| Config_Network := Network_zero <| Network_Version := 2 |> |> end.

(* go: cmd/getset.go 129-134 runSet *)
Definition set_value (s : string) : node := default (Other s) (unmarshal_value s).

(** The tree that is written. *)
(* go: cmd/getset.go 120-161 runSet *)
Definition set_tree (loaded : res Config) (arg : string) : res tree :=
  match split_first arg "=" with
  | None => Err (EMsg "invalid format, expected path=value" [])
  | Some (path, valueStr) =>
      rbind (config_tree (set_base loaded)) (fun m =>
        setNestedValue m (Str.split_byte path ".") (set_value valueStr))
  end.

(* go: cmd/getset.go 115-183 runSet *)
Definition runSet (originHint : string) (loaded : res Config) (args : list string) : prog sys err :=
  match args with
  | [] => Ret (Some (EMsg "usage: netcfg set path=value" []))
  | arg :: _ =>
      match set_tree loaded arg with
      | Err e => Ret (Some e)
      | Ok m =>
          try! call (MkdirAll configDir) as EWrap "failed to create config dir: %w" [];
          match marshal_node (Map m) with
          | Err e => Ret (Some e)
          | Ok data =>
              try! call (WriteFile (configDir +:+ "/99-" +:+ originHint +:+ ".yaml") data)
                as EWrap "failed to write config: %w" [];
              Ret None
          end
      end
  end.
End commands.

(** ** What is set is got *)

(** Two paths part: after the same keys they go on with different ones. *)
Fixpoint part (p q : list string) : Prop :=
  match p, q with
  | a :: p, b :: q => a <> b \/ a = b /\ part p q
  | _, _ => False
  end.

Lemma split_byte_nonempty s c : Str.split_byte s c <> [].
Proof. destruct s as [|a s]; simpl; [done|]. destruct (a =? c)%char; [done|]. by destruct (Str.split_byte s c). Qed.

Lemma set_total m path value : path <> [] -> exists m', setNestedValue m path value = Ok m'.
Proof.
  revert m. induction path as [|key path IH]; intros m Hp; [done|].
  destruct path as [|key' path]; [by eexists|].
  destruct (IH (next_map m key) ltac:(done)) as [m' Hm']. exists (<[key := Map m']> m).
  cbn [setNestedValue] in *. by rewrite Hm'.
Qed.

Lemma set_cons m key key' path value :
  setNestedValue m (key :: key' :: path) value =
    match setNestedValue (next_map m key) (key' :: path) value with
    | Ok next => Ok (<[key := Map next]> m) | Err e => Err e end.
Proof. done. Qed.

Lemma navigate_cons txt m key path :
  navigate txt (Map m) (key :: path) =
    match m !! key with Some n => navigate txt n path | None => Err (EMsg "path not found: %s" [txt]) end.
Proof. simpl. by destruct (m !! key). Qed.

Lemma get_after_set txt m path value m' :
  setNestedValue m path value = Ok m' -> navigate txt (Map m') path = Ok value.
Proof.
  revert m m'. induction path as [|key path IH]; intros m m'; [done|]. destruct path as [|key' path].
  - intros [= <-]. by rewrite navigate_cons, lookup_insert_eq.
  - rewrite set_cons. destruct (setNestedValue _ _ _) as [next|] eqn:E; [|done]. intros [= <-].
    rewrite navigate_cons, lookup_insert_eq. by eapply IH.
Qed.

Lemma navigate_empty txt q x : q <> [] -> navigate txt (Map ∅) q <> Ok x.
Proof. destruct q; [done|]. by rewrite navigate_cons, lookup_empty. Qed.

(** The map that is stepped into has what could be got before. *)
Lemma navigate_next_map txt m key q x :
  q <> [] -> navigate txt (Map (next_map m key)) q = Ok x <-> navigate txt (Map m) (key :: q) = Ok x.
Proof.
  intros Hq. rewrite navigate_cons. unfold next_map.
  pose proof (navigate_empty txt q x Hq) as He.
  destruct (m !! key) as [[next|v]|]; [done| |by split].
  destruct q; [done|]. by split.
Qed.

Lemma get_elsewhere txt m path value m' q x :
  setNestedValue m path value = Ok m' -> part path q ->
  navigate txt (Map m') q = Ok x <-> navigate txt (Map m) q = Ok x.
Proof.
  revert m m' q. induction path as [|key path IH]; intros m m' q; [done|].
  destruct q as [|b q]; [done|]. intros Hset Hpart. simpl in Hpart.
  destruct path as [|key' path].
  - injection Hset as <-. destruct Hpart as [Hne|[_ []]]. by rewrite !navigate_cons, lookup_insert_ne.
  - rewrite set_cons in Hset. destruct (setNestedValue (next_map m key) _ _) as [next|] eqn:E; [|done].
    injection Hset as <-. destruct Hpart as [Hne|[<- Hpart]].
    + by rewrite !navigate_cons, lookup_insert_ne.
    + rewrite navigate_cons, lookup_insert_eq. destruct q as [|b q]; [done|].
      rewrite (IH _ _ _ E Hpart). by apply navigate_next_map.
Qed.

(** C16: [set path=value] always has a tree to write, when the configuration can be
    encoded and decoded; in it [get path] finds the value, and every path that
    parts from it finds what it found before: maps on the way are kept, and made
    where there was none. *)
Theorem set_then_get `{Yaml} loaded arg path value m :
  split_first arg "=" = Some (path, value) -> config_tree (set_base loaded) = Ok m ->
  exists m', set_tree loaded arg = Ok m' /\
    navigate path (Map m') (Str.split_byte path ".") = Ok (set_value value) /\
    forall txt q x, part (Str.split_byte path ".") q ->
      navigate txt (Map m') q = Ok x <-> navigate txt (Map m) q = Ok x.
Proof.
  intros Hs Ht. destruct (set_total m (Str.split_byte path ".") (set_value value)) as [m' Hm'];
    [apply split_byte_nonempty|].
  exists m'. unfold set_tree. rewrite Hs, Ht. split; [exact Hm'|]. split; [by eapply get_after_set|].
  intros txt q x. by eapply get_elsewhere.
Qed.

(** A codec whose trees are those of a fixed configuration. *)
Definition example_yaml : Yaml := {|
  marshal_config cfg := Ok "";
  unmarshal_map s := Ok {["network" := Map {["version" := Other "2"]}]};
  unmarshal_value s := None;
  marshal_node n := Ok "" |}.

#[local] Existing Instance example_yaml.

Lemma set_then_get_witness :
  exists m', set_tree (Err (EMsg "" [])) "network.ethernets.eth0.dhcp4=true" = Ok m' /\
    navigate "network.ethernets.eth0.dhcp4" (Map m') (Str.split_byte "network.ethernets.eth0.dhcp4" ".") = Ok (set_value "true") /\
    forall txt q x, part (Str.split_byte "network.ethernets.eth0.dhcp4" ".") q ->
      navigate txt (Map m') q = Ok x <->
      navigate txt (Map {["network" := Map {["version" := Other "2"]}]}) q = Ok x.
Proof.
  apply (set_then_get (Err (EMsg "" [])) "network.ethernets.eth0.dhcp4=true" "network.ethernets.eth0.dhcp4" "true"
    {["network" := Map {["version" := Other "2"]}]}); reflexivity.
Defined.
