(* ===== verification/Commands.v ===== *)
(** * The smaller commands (cmd/destroy.go, netns.go, rebind.go, sriov.go, status.go, wg.go, root.go)

    Programs over the calls of the netlink layer: the commands that act, whose
    messages are left out, and the sizes that `netcfg wg show` formats.  The
    result of LoadConfig is an argument. *)

From S2P Require Import Prelude GoStd GoNet Effect Config Load Netlink Purego.

(** ** Namespaces *)

(* go: cmd/destroy.go 39-81 runDestroy *)
Definition runDestroy `{RangeOrder} (is_not_exist : error -> bool) (cfg : res Config) (destroyAll : bool)
    (args : list string) : prog sys err :=
  namespaces ←
    (if destroyAll then
       r ← ListNetns is_not_exist;
       Ret (match r with Ok l => Ok l | Err e => Err (EWrap "failed to list netns: %w" [] e) end)
     else match args with
     | _ :: _ => Ret (Ok args)
     | [] => Ret (match cfg with
                  | Ok cfg => Ok (GetNetnsNames cfg)
                  | Err e => Err (EWrap "failed to load config: %w" [] e)
                  end)
     end);
  match namespaces with
  | Err e => Ret (Some e)
  | Ok namespaces =>
      for_each namespaces (fun ns =>
        ex ← NetnsExists ns;
        if negb (ex : bool) then Ret tt else warn! DeleteNetns ns; Ret tt) ;;
      Ret None
  end.

(* go: cmd/netns.go 84-97 runNetnsCreate *)
Definition runNetnsCreate (name : string) : prog sys err :=
  ex ← NetnsExists name;
  if (ex : bool) then Ret (Some (EMsg "netns %s already exists" [name]))
  else try! CreateNetns name as EWrap "failed to create netns %s: %w" [name]; Ret None.

(* go: cmd/netns.go 99-112 runNetnsDelete *)
Definition runNetnsDelete (name : string) : prog sys err :=
  ex ← NetnsExists name;
  if negb (ex : bool) then Ret (Some (EMsg "netns %s does not exist" [name]))
  else try! DeleteNetns name as EWrap "failed to delete netns %s: %w" [name]; Ret None.

(** ** The default configuration directory *)

(** The directory in which `Execute` looks for the configuration by default. *)
(* go: cmd/root.go 75-83 dirHasYAML *)
Definition dirHasYAML (dir : string) : prog sys bool :=
  yaml ← call (Glob (dir +:+ "/*.yaml"));
  if match yaml with Ok (_ :: _) => true | _ => false end then Ret true
  else yml ← call (Glob (dir +:+ "/*.yml"));
       Ret (match yml with Ok (_ :: _) => true | _ => false end).

(* go: cmd/root.go 63-69 init *)
Definition defaultConfigDir : prog sys string :=
  b ← dirHasYAML "/etc/netcfg";
  Ret (if b : bool then "/etc/netcfg" else "/etc/netplan").

(** ** Rebinding virtual functions *)

(* go: cmd/sriov.go 66-66 rebindVFs *)
Record vfDev := MkvfDev { vf_pci : string; vf_driver : string }.

(** The loop over virtfn0, virtfn1, ..., which ends at the first that is missing:
    [None] when the fuel does not reach it. *)
(* go: cmd/sriov.go 68-79 rebindVFs *)
Fixpoint list_vfs (fuel : nat) (base : string) (i : Z) : prog sys (option (list vfDev)) :=
  match fuel with
  | O => Ret None
  | S fuel =>
      target ← call (Readlink (base +:+ "/virtfn" +:+ Str.itoa i));
      match target with
      | Err _ => Ret (Some [])
      | Ok target =>
          let pci := path_base target in
          d ← call (Readlink ("/sys/bus/pci/devices/" +:+ pci +:+ "/driver"));
          let driver := match d with Ok d => path_base d | Err _ => "" end in
          vfs ← list_vfs fuel base (i + 1);
          Ret (option_map (cons (MkvfDev pci driver)) vfs)
      end
  end.

Definition driver_file (vf : vfDev) (file : string) : string :=
  "/sys/bus/pci/drivers/" +:+ vf_driver vf +:+ "/" +:+ file.

(** The loops that unbind and bind: a virtual function without a driver is left alone. *)
(* go: cmd/sriov.go 87-107 rebindVFs *)
Definition write_each (vfs : list vfDev) (file : string) : prog sys unit :=
  for_each vfs (fun vf =>
    if Str.is_empty (vf_driver vf) then Ret tt
    else warn! call (WriteFile (driver_file vf file) (vf_pci vf)); Ret tt).

(* go: cmd/sriov.go 59-108 rebindVFs *)
Definition rebindVFs (fuel : nat) (pf : string) : prog sys (option unit) :=
  vfs ← list_vfs fuel ("/sys/class/net/" +:+ pf +:+ "/device") 0;
  match vfs with
  | None => Ret None
  | Some [] => Ret (Some tt)
  | Some vfs => write_each vfs "unbind" ;; write_each vfs "bind" ;; Ret (Some tt)
  end.

(* go: cmd/rebind.go 58-69 pfsWithDelayRebind *)
Definition pfsWithDelayRebind `{RangeOrder} (cfg : Config) : list string :=
  Str.sort ((filter (fun '(_, eth) => default false (e ← (eth : ptr Ethernet); Ethernet_DelayVFRebind e) = true)
    (gm_range 62 (Network_Ethernets (Config_Network cfg)))).*1).

(* go: cmd/rebind.go 36-56 runRebind *)
Definition runRebind `{RangeOrder} (fuel : nat) (cfg : res Config) (args : list string) : prog sys (option err) :=
  let rebind := fix rebind (pfs : list string) : prog sys (option err) :=
    match pfs with
    | [] => Ret (Some None)
    | pf :: pfs =>
        r ← rebindVFs fuel pf;
        match r with None => Ret None | Some _ => rebind pfs end
    end in
  match args, cfg with
  | _ :: _, _ => rebind args
  | [], Ok cfg => rebind (pfsWithDelayRebind cfg)
  | [], Err e => Ret (Some (Some (EWrap "failed to load config: %w" [] e)))
  end.

(** ** Waiting for the interfaces *)

(* go: cmd/status.go 115-127 linkReady *)
Definition linkReady (m : NetlinkManager) (name : string) : prog sys bool :=
  r ← link_by_name m name;
  Ret (match r with
       | Err _ => false
       | Ok link => Link_FlagUp link &&
           match Link_OperState link with OperUp | OperUnknown => true | _ => false end
       end).

(** One pass over the required interfaces: those that are not ready. *)
(* go: cmd/status.go 97-102 waitOnline *)
Definition not_ready (m : NetlinkManager) (required : list string) : prog sys (list string) :=
  for_fold required [] (fun pending name =>
    ready ← linkReady m name; Ret (if (ready : bool) then pending else pending ++ [name])).

(** The loop of waitOnline: [None] when the fuel is used up. *)
(* go: cmd/status.go 96-112 waitOnline *)
Fixpoint wait_loop (fuel : nat) (m : NetlinkManager) (required : list string) (timeout deadline : Z)
    : prog sys (option err) :=
  match fuel with
  | O => Ret None
  | S fuel =>
      pending ← not_ready m required;
      match pending with
      | [] => Ret (Some None)
      | _ =>
          now ← call TimeNow;
          if deadline <? now then
            Ret (Some (Some (EMsg "timed out after %ds waiting for interfaces: %s"
                               [Str.itoa timeout; Str.join pending ", "])))
          else
            call (Sleep second) ;;
            wait_loop fuel m required timeout deadline
      end
  end.

(* go: cmd/status.go 76-82 waitOnline *)
Definition required_links `{RangeOrder} (cfg : Config) : list string :=
  Str.sort ((filter (fun '(_, eth) => (Ethernet_Optional <$> (eth : ptr Ethernet)) = Some false)
    (gm_range 77 (Network_Ethernets (Config_Network cfg)))).*1).

(* go: cmd/status.go 67-113 waitOnline *)
Definition waitOnline `{RangeOrder} (fuel : nat) (cfg : res Config) (statusWaitTimeout : Z) : prog sys (option err) :=
  match cfg with
  | Err e => Ret (Some (Some (EWrap "failed to load config: %w" [] e)))
  | Ok cfg =>
      match required_links cfg with
      | [] => Ret (Some None)
      | required =>
          r ← New;
          match r with
          | Err e => Ret (Some (Some e))
          | Ok mgr =>
              deferred (
                now ← call TimeNow;
                wait_loop fuel mgr required statusWaitTimeout (now + int64 (statusWaitTimeout * second)))
              (Close mgr)
          end
      end
  end.

(** ** Formatting sizes *)

(** [n/d] rounded to the nearest integer, halves to the even one, for [0 < d]. *)
Definition round_half_even (n d : Z) : Z :=
  let q := n / d in
  let r := n mod d in
  if 2 * r <? d then q
  else if d <? 2 * r then q + 1
  else if Z.even q then q else q + 1.

(** The float64 that is nearest to a non-negative integer below 2^63. *)
Definition float64 (b : Z) : Z :=
  let e := Z.max 0 (Z.log2 b - 52) in round_half_even b (2^e) * 2^e.

(** [%.2f] of the number that is [h] hundredths, [0 <= h]. *)
Definition hundredths (h : Z) : string :=
  Str.itoa (h / 100) +:+ "." +:+ Str.itoa (h mod 100 / 10) +:+ Str.itoa (h mod 10).

(** The loop that finds the unit, on 64-bit integers. *)
(* go: cmd/wg.go 166-170 formatBytes *)
Fixpoint unit_loop (fuel : nat) (n div exp : Z) : option (Z * Z) :=
  match fuel with
  | O => None
  | S fuel => if 1024 <=? n then unit_loop fuel (Z.quot n 1024) (int64 (div * 1024)) (exp + 1) else Some (div, exp)
  end.

(** An index outside of the units panics.  The divisor is a power of two, so the
    division of floats is exact. *)
(* go: cmd/wg.go 161-172 formatBytes *)
Definition formatBytes (b : Z) : option string :=
  if b <? 1024 then Some (Str.itoa b +:+ " B")
  else
    '(div, exp) ← unit_loop 64 (Z.quot b 1024) 1024 0;
    unit ← ["K"; "M"; "G"; "T"; "P"; "E"] !! Z.to_nat exp;
    Some (hundredths (round_half_even (float64 b * 100) div) +:+ " " +:+ unit +:+ "iB").

Example formatBytes_kib : formatBytes 1536 = Some "1.50 KiB".
Proof. reflexivity. Qed.
Example formatBytes_max : formatBytes (2^63 - 1) = Some "8.00 EiB".
Proof. reflexivity. Qed.
Example formatBytes_mib : formatBytes 1234567890 = Some "1.15 GiB".
Proof. reflexivity. Qed.
