(* ===== verification/CommandsProps.v ===== *)
(** * Properties of the smaller commands

    The order of the writes that rebind virtual functions, the termination of the
    wait for interfaces, and the sizes that are shown. *)

From S2P Require Import Prelude GoStd GoNet Effect Config Load Netlink Purego Commands.

(** ** Rebinding *)

Section rebind.
(** The symbolic links of the system, and the number of virtual functions of the
    physical function [pf]. *)
Context (link : string -> res string) (pf : string) (n : nat).

Definition device_dir : string := "/sys/class/net/" +:+ pf +:+ "/device".
Definition virtfn (i : Z) : string := device_dir +:+ "/virtfn" +:+ Str.itoa i.

(** The [k] virtual functions from the [i]-th on. *)
Fixpoint vfs_from (k : nat) (i : Z) : list vfDev :=
  match k, link (virtfn i) with
  | S k, Ok target =>
      let pci := path_base target in
      MkvfDev pci (match link ("/sys/bus/pci/devices/" +:+ pci +:+ "/driver") with Ok d => path_base d | Err _ => "" end)
        :: vfs_from k (i + 1)
  | _, _ => []
  end.

(** The writes to a file of the drivers. *)
Definition writes (file : string) (vfs : list vfDev) : list (string * string) :=
  (fun vf => (driver_file vf file, vf_pci vf)) <$> filter (fun vf => Str.is_empty (vf_driver vf) = false) vfs.

(** Links are read as they are before anything is written; writes are recorded,
    and may fail. *)
Definition sysfs_spec : spec sys (list (string * string)) := Spec
  (fun X e w => match e with Readlink _ => w = [] | WriteFile _ _ => True | _ => False end)
  (fun X e w => match e in sys X return X -> list (string * string) -> Prop with
   | Readlink path => fun r w' => r = link path /\ w' = w
   | WriteFile path data => fun _ w' => w' = w ++ [(path, data)]
   | _ => fun _ _ => True
   end)
  False.

Lemma wp_list_vfs k fuel i :
  (k < fuel)%nat -> (forall j, (j < k)%nat -> is_ok (link (virtfn (i + Z.of_nat j))) = true) ->
  is_ok (link (virtfn (i + Z.of_nat k))) = false ->
  wp sysfs_spec (list_vfs fuel device_dir i) [] (fun r w => r = Some (vfs_from k i) /\ w = []).
Proof.
  revert k i. induction fuel as [|fuel IH]; intros k i Hk Hok Hend; [lia|].
  apply wp_bind, wp_call; [done|]. intros r ? [-> ->]. fold (virtfn i). destruct k as [|k].
  - rewrite Z.add_0_r in Hend. destruct (link (virtfn i)) as [|e] eqn:E; [done|]. apply wp_ret.
    simpl. by destruct (link (virtfn i)).
  - pose proof (Hok 0%nat ltac:(lia)) as H0. rewrite Z.add_0_r in H0.
    destruct (link (virtfn i)) as [target|] eqn:E; [|done].
    apply wp_bind, wp_call; [done|]. intros d ? [-> ->]. apply wp_bind. eapply wp_mono; [|apply (IH k (i + 1))].
    + intros r ? [-> ->]. apply wp_ret. split; [|done]. simpl. by rewrite E.
    + lia.
    + intros j Hj. replace (i + 1 + Z.of_nat j) with (i + Z.of_nat (S j)) by lia. apply Hok. lia.
    + by replace (i + 1 + Z.of_nat k) with (i + Z.of_nat (S k)) by lia.
Qed.

Lemma wp_write_each file vfs w :
  wp sysfs_spec (write_each vfs file) w (fun _ w' => w' = w ++ writes file vfs).
Proof.
  revert w. induction vfs as [|vf vfs IH]; intros w; unfold write_each; cbn [for_each]; [apply wp_ret; by rewrite app_nil_r|].
  apply wp_bind. unfold writes. rewrite filter_cons. destruct (Str.is_empty (vf_driver vf)) eqn:E.
  - rewrite decide_False by done. apply wp_ret, IH.
  - rewrite decide_True by done. apply wp_bind, wp_call; [done|]. intros x ? ->. apply wp_ret.
    eapply wp_mono; [|apply IH]. intros ? ? ->. simpl. by rewrite <-app_assoc.
Qed.
End rebind.

(** C18: rebindVFs of a physical function that has [n] virtual functions ends, and
    writes, whether or not the writes succeed: to the unbind file of its driver
    the address of each virtual function that has a driver, in their order, and
    only after all of them have been unbound their addresses to the bind files;
    it has read all links before it writes. *)
Theorem rebindVFs_order (link : string -> res string) (pf : string) (n fuel : nat) :
  (forall j, (j < n)%nat -> is_ok (link (virtfn pf (Z.of_nat j))) = true) ->
  is_ok (link (virtfn pf (Z.of_nat n))) = false ->
  (n < fuel)%nat ->
  wp (sysfs_spec link) (rebindVFs fuel pf) [] (fun r w => r = Some tt /\
    w = writes "unbind" (vfs_from link pf n 0) ++ writes "bind" (vfs_from link pf n 0)).
Proof.
  intros Hok Hend Hfuel. apply wp_bind. eapply wp_mono; [|by apply (wp_list_vfs link pf n)].
  intros r w [-> ->]. destruct (vfs_from link pf n 0) as [|vf vfs]; [by apply wp_ret|].
  apply wp_bind. eapply wp_mono; [|apply wp_write_each]. intros ? w1 ->.
  apply wp_bind. eapply wp_mono; [|apply wp_write_each]. intros ? w2 ->. by apply wp_ret.
Qed.

(** A physical function with three virtual functions, one of them without a driver. *)
Module Vfs.
Definition link (path : string) : res string :=
  if Str.eqb path "/sys/class/net/eth0/device/virtfn0" then Ok "../0000:03:00.2"
  else if Str.eqb path "/sys/class/net/eth0/device/virtfn1" then Ok "../0000:03:00.3"
  else if Str.eqb path "/sys/class/net/eth0/device/virtfn2" then Ok "../0000:03:00.4"
  else if Str.eqb path "/sys/bus/pci/devices/0000:03:00.2/driver" then Ok "../../bus/pci/drivers/iavf"
  else if Str.eqb path "/sys/bus/pci/devices/0000:03:00.4/driver" then Ok "../../bus/pci/drivers/vfio-pci"
  else Err (ESys "no such file or directory" 2).
End Vfs.

Lemma rebindVFs_order_witness :
  wp (sysfs_spec Vfs.link) (rebindVFs 4 "eth0") [] (fun r w => r = Some tt /\
    w = [("/sys/bus/pci/drivers/iavf/unbind", "0000:03:00.2"); ("/sys/bus/pci/drivers/vfio-pci/unbind", "0000:03:00.4");
         ("/sys/bus/pci/drivers/iavf/bind", "0000:03:00.2"); ("/sys/bus/pci/drivers/vfio-pci/bind", "0000:03:00.4")]).
Proof.
  apply (rebindVFs_order Vfs.link "eth0" 3 4); [|reflexivity|lia].
  intros j Hj. destruct j as [|[|[|j]]]; [reflexivity..|lia].
Defined.

(** ** Waiting *)

Section wait.
(** What a link is at a time; time passes with every call. *)
Context (links : Z -> string -> res Link).

Definition ready (r : res Link) : bool :=
  match r with
  | Err _ => false
  | Ok link => Link_FlagUp link && match Link_OperState link with OperUp | OperUnknown => true | _ => false end
  end.

Definition clock_spec : spec sys Z := Spec
  (fun X e now => match e with
   | NewHandle | HandleClose _ | LinkByName _ _ | TimeNow | Sleep _ => True
   | _ => False
   end)
  (fun X e now => match e in sys X return X -> Z -> Prop with
   | LinkByName _ name => fun r now' => now <= now' /\ r = links now' name
   | TimeNow => fun r now' => now <= now' /\ r = now'
   | Sleep d => fun _ now' => now + d <= now'
   | _ => fun _ now' => now <= now'
   end)
  False.

(** At some time from [t] to [t'] a link was ready, or was not. *)
Definition seen (b : bool) (t t' : Z) (name : string) : Prop :=
  exists u, t <= u <= t' /\ ready (links u name) = b.

Lemma seen_mono b t t' name t1 t1' : t1 <= t -> t' <= t1' -> seen b t t' name -> seen b t1 t1' name.
Proof. intros H1 H2 (u & Hu & Hr). exists u. split; [lia|done]. Qed.

Lemma wp_not_ready m required now :
  wp clock_spec (not_ready m required) now (fun pending now' => now <= now' /\
    (forall name, name ∈ pending -> name ∈ required /\ seen false now now' name) /\
    forall name, name ∈ required -> name ∈ pending \/ seen true now now' name).
Proof.
  apply (wp_for_fold_prefix _ required _ _ now (fun pre pending now' => now <= now' /\
    (forall name, name ∈ pending -> name ∈ pre /\ seen false now now' name) /\
    forall name, name ∈ pre -> name ∈ pending \/ seen true now now' name)).
  - split_and!; [lia| |]; by intros name Hn%not_elem_of_nil.
  - intros pre name post pending t _ (Ht & Hp & Hr). apply wp_bind, wp_bind, wp_call; [done|].
    intros r t' [Ht' ->]. apply wp_ret. change (match links t' name with Err _ => false | Ok link => _ end) with (ready (links t' name)).
    assert (forall b n, seen b now t n -> seen b now t' n) as Hmono by (intros b n; apply seen_mono; lia).
    assert (seen (ready (links t' name)) now t' name) as Hseen by (exists t'; split; [lia|done]).
    destruct (ready (links t' name)); apply wp_ret; (split; [lia|]); split; intros n Hn.
    + destruct (Hp n Hn) as [? ?]. split; [apply elem_of_app; by left|by apply Hmono].
    + apply elem_of_app in Hn as [Hn| ->%list_elem_of_singleton]; [|by right].
      destruct (Hr n Hn); [by left|right; by apply Hmono].
    + apply elem_of_app in Hn as [Hn| ->%list_elem_of_singleton].
      * destruct (Hp n Hn) as [? ?]. split; [apply elem_of_app; by left|by apply Hmono].
      * split; [apply elem_of_app; right; left|done].
    + apply elem_of_app in Hn as [Hn| ->%list_elem_of_singleton].
      * destruct (Hr n Hn); [left; apply elem_of_app; by left|right; by apply Hmono].
      * left. apply elem_of_app. right. left.
Qed.

(** How the wait may end, when it began at [t]. *)
Definition ended (required : list string) (deadline t : Z) (r : option err) (t' : Z) : Prop :=
  t <= t' /\
  match r with
  | None => False
  | Some None => forall name, name ∈ required -> seen true t t' name
  | Some (Some _) => deadline < t' /\ exists name, name ∈ required /\ seen false t t' name
  end.

Lemma ended_mono required deadline t1 t r t' :
  t1 <= t -> ended required deadline t r t' -> ended required deadline t1 r t'.
Proof.
  intros Ht [Ht' Hr]. split; [lia|]. destruct r as [[e|]|]; [|intros name Hn|done].
  - destruct Hr as (? & name & Hn & Hs). split; [done|]. exists name. split; [done|]. by eapply seen_mono; [| |exact Hs].
  - eapply seen_mono; [| |by apply Hr]; lia.
Qed.

Lemma wp_wait_loop m required timeout deadline fuel now :
  (0 < fuel)%nat -> deadline < now + (Z.of_nat fuel - 1) * second ->
  wp clock_spec (wait_loop fuel m required timeout deadline) now (ended required deadline now).
Proof.
  revert now. induction fuel as [|fuel IH]; intros now Hf Hd; [lia|].
  apply wp_bind. eapply wp_mono; [|apply wp_not_ready].
  intros [|p pending] t (Ht & Hp & Hr).
  - apply wp_ret. split; [done|]. intros name Hn. destruct (Hr name Hn) as [Hn'%not_elem_of_nil|]; done.
  - apply wp_bind, wp_call; [done|]. intros ? t1 [Ht1 ->]. destruct (Z.ltb_spec deadline t1) as [Hlt|Hge].
    + apply wp_ret. split; [lia|]. split; [done|]. exists p. destruct (Hp p) as [? Hs]; [left|].
      split; [done|]. eapply seen_mono; [| |exact Hs]; lia.
    + apply wp_bind, wp_call; [done|]. intros [] t2 Ht2. unfold second in *. simpl in Ht2.
      eapply wp_mono; [|apply IH; unfold second; lia]. intros r t'. apply ended_mono. lia.
Qed.
End wait.

(** C17: `netcfg status --wait` always ends, however links and time behave: with
    more turns than there are seconds in the timeout, it returns nil only if every
    required interface has been ready while it waited, and an error only if the
    namespace could not be opened, or the timeout has passed and some required
    interface has been seen that was not ready. *)
Theorem waitOnline_ends `{RangeOrder} (links : Z -> string -> res Link) (cfg : Config) (timeout t : Z) (fuel : nat) :
  (0 < fuel)%nat -> int64 (timeout * second) < (Z.of_nat fuel - 1) * second ->
  wp (clock_spec links) (waitOnline fuel (Ok cfg) timeout) t (fun r t' =>
    ended links (required_links cfg) (t + int64 (timeout * second)) t r t' \/
    exists e, r = Some (Some (EWrap "failed to create netlink handle: %w" [] e))).
Proof.
  intros Hf Ht. unfold waitOnline. destruct (required_links cfg) as [|name names] eqn:E.
  { apply wp_ret. left. split; [lia|]. by intros name Hn%not_elem_of_nil. }
  rewrite <-E. apply wp_bind, wp_bind, wp_call; [done|]. intros [h|e] t0 Ht0; simpl in Ht0.
  2: { apply wp_ret, wp_ret. right. by exists e. }
  apply wp_ret. unfold deferred. apply wp_bind, wp_bind, wp_call; [done|]. intros ? t1 [Ht1 ->].
  eapply wp_mono; [|apply wp_wait_loop; [done|lia]].
  intros r t2 Hr. apply wp_bind, wp_bind, wp_call; [done|]. intros [] t3 Ht3. apply wp_ret, wp_ret. left.
  simpl in Ht3. destruct Hr as [Ht2 Hr]. split; [lia|].
  assert (forall b name, seen links b t1 t2 name -> seen links b t t3 name) as Hs
    by (intros b ? Hs; eapply seen_mono; [| |exact Hs]; lia).
  destruct r as [[e|]|]; [|intros n Hn; by apply Hs, Hr|done].
  destruct Hr as (Hd & n & Hn & Hr). split; [lia|]. exists n. split; [done|by apply Hs].
Qed.

(** One interface that comes up after three seconds, and a timeout of ten. *)
Module Wait.
Definition cfg : Config := Config_zero <| Config_Network := Network_zero
  <| Network_Ethernets := Some {["eth0" := Some Ethernet_zero; "eth1" := Some (Ethernet_zero <| Ethernet_Optional := true |>)]} |> |>.
Definition links (t : Z) (name : string) : res Link :=
  if Str.eqb name "eth0" then Ok (MkLink 2 "eth0" [] (3 * second <=? t) OperUp "device" 1500 0) else Err (ESys "Link not found" 19).
End Wait.

#[local] Existing Instance range_map_to_list.

Lemma waitOnline_ends_witness :
  wp (clock_spec Wait.links) (waitOnline 12 (Ok Wait.cfg) 10) 0 (fun r t' =>
    ended Wait.links (required_links Wait.cfg) (0 + int64 (10 * second)) 0 r t' \/
    exists e, r = Some (Some (EWrap "failed to create netlink handle: %w" [] e))).
Proof. apply (waitOnline_ends Wait.links Wait.cfg 10 0 12); [lia|vm_compute; reflexivity]. Defined.

(** ** Sizes *)

Section sizes.
Context (b : Z) (Hb : 1024 <= b < 2^63).

Lemma pow1024_succ e : 0 <= e -> 1024^(e + 1) = 1024^e * 1024.
Proof. intros He. rewrite Z.pow_add_r by lia. lia. Qed.

(** The loop finds the greatest power of 1024 that is not above [b]; no product
    overflows. *)
Lemma unit_loop_spec (k fuel : nat) exp :
  0 <= exp -> (k <= fuel)%nat -> 1024^(exp + 1) <= b < 1024^(exp + 1 + Z.of_nat k) ->
  exists e, unit_loop fuel (b / 1024^(exp + 1)) (1024^(exp + 1)) exp = Some (1024^(e + 1), e) /\
    exp <= e < exp + Z.of_nat k /\ 1024^(e + 1) <= b < 1024^(e + 2).
Proof.
  revert fuel exp. induction k as [|k IH]; intros fuel exp He Hk [Hlo Hhi]; [rewrite Z.add_0_r in Hhi; lia|].
  destruct fuel as [|fuel]; [lia|]. cbn [unit_loop].
  assert (0 < 1024^(exp + 1)) as Hpos by (apply Z.pow_pos_nonneg; lia).
  assert (1024^(exp + 1 + 1) = 1024^(exp + 1) * 1024) as Hs by (apply pow1024_succ; lia).
  destruct (Z.leb_spec 1024 (b / 1024^(exp + 1))) as [Hle|Hgt].
  - assert (1024^(exp + 1 + 1) <= b) as Hle'.
    { rewrite Hs. pose proof (Z.mul_div_le b (1024^(exp + 1)) Hpos). nia. }
    destruct (IH fuel (exp + 1)) as (e & Hu & Hee & Hbe); [lia..| |].
    + split; [done|]. by replace (exp + 1 + 1 + Z.of_nat k) with (exp + 1 + Z.of_nat (S k)) by lia.
    + exists e. split; [|split; [lia|done]]. rewrite <-Hu. f_equal.
      * rewrite Z.quot_div_nonneg by (try apply Z.div_pos; lia). by rewrite Hs, Z.div_div by lia.
      * rewrite int64_small by lia. lia.
  - exists exp. split; [done|]. split; [lia|]. split; [done|].
    replace (exp + 2) with (exp + 1 + 1) by lia. rewrite Hs.
    pose proof (Z.mul_succ_div_gt b (1024^(exp + 1)) Hpos). nia.
Qed.

Lemma round_half_even_near n d : 0 < d -> 2 * Z.abs (round_half_even n d * d - n) <= d.
Proof.
  intros Hd. unfold round_half_even. pose proof (Z.div_mod n d) as Hn. pose proof (Z.mod_pos_bound n d Hd).
  destruct (Z.ltb_spec (2 * (n mod d)) d); [nia|]. destruct (Z.ltb_spec d (2 * (n mod d))); [nia|].
  destruct (Z.even _); nia.
Qed.

(** The float that is nearest is near: by less than one part in 2^52. *)
Lemma float64_near : 2^52 * Z.abs (float64 b - b) <= b.
Proof.
  unfold float64. pose proof (Z.log2_spec b ltac:(lia)) as Hlog. pose proof (Z.log2_nonneg b) as Hn.
  destruct (Z.max_spec 0 (Z.log2 b - 52)) as [[Hlt ->]|[Hge ->]].
  - pose proof (round_half_even_near b (2^(Z.log2 b - 52)) ltac:(apply Z.pow_pos_nonneg; lia)) as Hr.
    assert (2^Z.log2 b = 2^(Z.log2 b - 52) * 2^52) as Hp by (rewrite <-Z.pow_add_r by lia; f_equal; lia).
    rewrite Hp in Hlog. lia.
  - pose proof (round_half_even_near b 1 ltac:(lia)). change (2^0) with 1. lia.
Qed.
End sizes.

(** A size that is [h] hundredths of 1024^(exp+1), which is its greatest power of
    1024, to less than one hundredth. *)
Definition shown_as (b exp h : Z) : Prop :=
  1024^(exp + 1) <= b < 1024^(exp + 2) /\ Z.abs (h * 1024^(exp + 1) - 100 * b) < 1024^(exp + 1).

(** formatBytes does not panic on any 64-bit integer and its loop ends
    without an overflow: what is less than 1024 is shown as it is, and what is not
    with the unit of the greatest power of 1024 that is not above it, at most an
    exbibyte, with two decimals that are off by less than one hundredth. *)
Theorem formatBytes_total (b : Z) :
  - 2^63 <= b < 2^63 ->
  (b < 1024 -> formatBytes b = Some (Str.itoa b +:+ " B")) /\
  (1024 <= b -> exists exp unit h, 0 <= exp <= 5 /\
     ["K"; "M"; "G"; "T"; "P"; "E"] !! Z.to_nat exp = Some unit /\
     shown_as b exp h /\ formatBytes b = Some (hundredths h +:+ " " +:+ unit +:+ "iB")).
Proof.
  intros Hb. unfold formatBytes. split; intros Hk.
  { destruct (Z.ltb_spec b 1024); [done|lia]. }
  destruct (Z.ltb_spec b 1024); [lia|].
  destruct (unit_loop_spec b ltac:(lia) 6 64 0) as (exp & Hu & He & Hbe); [lia..| |].
  { change (1024^(0 + 1)) with 1024. split; [lia|]. apply Z.lt_le_trans with (2^63); [lia|done]. }
  change (1024^(0 + 1)) with 1024 in Hu. rewrite Z.quot_div_nonneg by lia. rewrite Hu. simpl.
  assert (exists unit, ["K"; "M"; "G"; "T"; "P"; "E"] !! Z.to_nat exp = Some unit) as [unit Hunit].
  { apply lookup_lt_is_Some. simpl. lia. }
  exists exp, unit, (round_half_even (float64 b * 100) (1024^(exp + 1))). rewrite Hunit. simpl.
  split; [lia|]. split; [done|]. split; [|done]. split; [done|].
  assert (0 < 1024^(exp + 1)) as Hpos by (apply Z.pow_pos_nonneg; lia).
  pose proof (round_half_even_near (float64 b * 100) _ Hpos) as Hr.
  pose proof (float64_near b ltac:(lia)) as Hf.
  assert (1024^(exp + 2) = 1024^(exp + 1) * 1024) as Hs
    by (replace (exp + 2) with (exp + 1 + 1) by lia; apply pow1024_succ; lia).
  rewrite Hs in Hbe. change (2^52) with 4503599627370496 in Hf. lia.
Qed.

Lemma formatBytes_total_witness :
  exists exp unit h, 0 <= exp <= 5 /\
     ["K"; "M"; "G"; "T"; "P"; "E"] !! Z.to_nat exp = Some unit /\
     shown_as (2^63 - 1) exp h /\ formatBytes (2^63 - 1) = Some (hundredths h +:+ " " +:+ unit +:+ "iB").
Proof. apply (formatBytes_total (2^63 - 1)); lia. Defined.
