(* ===== verification/Takeover.v ===== *)
(** * Taking over from netplan (cmd/takeover.go)

    The command moves the files that netplan has generated for systemd-networkd
    to a backup directory, and back.  Its calls are those of package os, in a
    type of their own; paths are treated as package path/filepath treats them. *)

From S2P Require Import Prelude GoStd Effect IpText.

(** ** Paths (path/filepath on Unix) *)

Module Path.
(** The elements that Clean keeps, the last first: "." and empty elements go, ".."
    takes the last one away, and goes itself at the root. *)
Fixpoint clean_elems (rooted : bool) (l acc : list string) : list string :=
  match l with
  | [] => acc
  | c :: l =>
      if Str.is_empty c || Str.eqb c "." then clean_elems rooted l acc
      else if Str.eqb c ".." then
        match acc with
        | [] => clean_elems rooted l (if rooted then [] else [c])
        | last :: acc' => clean_elems rooted l (if Str.eqb last ".." then c :: acc else acc')
        end
      else clean_elems rooted l (c :: acc)
  end.

Definition Clean (path : string) : string :=
  let rooted := Str.has_prefix path "/" in
  match rev (clean_elems rooted (Str.split_byte path "/") []) with
  | [] => if rooted then "/" else "."
  | l => (if rooted then "/" else "") +:+ Str.join l "/"
  end.

(** Join of two elements. *)
Definition Join (a b : string) : string :=
  if Str.is_empty a then (if Str.is_empty b then "" else Clean b)
  else if Str.is_empty b then Clean a
  else Clean (a +:+ "/" +:+ b).

(** The text up to the last slash, which it has too. *)
Fixpoint upto_slash (s : string) : string :=
  match s with
  | EmptyString => ""
  | String a s' => if Str.contains_byte s "/" then String a (upto_slash s') else ""
  end.

Definition Dir (path : string) : string := Clean (upto_slash path).

(** strings.TrimPrefix *)
Definition TrimPrefix (s p : string) : string :=
  if Str.has_prefix s p then String.substring (String.length p) (String.length s - String.length p) s else s.
End Path.

(** ** The calls *)

Abbreviation fd := Z.

Inductive fs : Type -> Type :=
| FsGlob (pattern : string) : fs (res (list string))
(** os.Stat: whether it is a directory. *)
| FsStat (path : string) : fs (res bool)
| FsMkdirAll (path : string) : fs (option error)
| FsRename (src dst : string) : fs (option error)
| FsOpen (path : string) : fs (res fd)
(** The permissions of an open file. *)
| FsPerm (f : fd) : fs (res Z)
(** os.OpenFile with O_CREATE, O_WRONLY and O_TRUNC. *)
| FsCreate (path : string) (perm : Z) : fs (res fd)
| FsCopy (out in_ : fd) : fs (option error)
| FsClose (f : fd) : fs (option error)
| FsRemove (path : string) : fs (option error)
(** filepath.WalkDir: the paths that are no directories and that it has no error
    for, in the order in which it calls its function with them. *)
| FsWalkDir (root : string) : fs (list string).

(** ** The command *)

(* go: cmd/takeover.go 24-26 networkdDirs *)
Definition networkdDirs : list string := ["/etc/systemd/network"; "/run/systemd/network"].
(* go: cmd/takeover.go 28-29 netplanGlobs *)
Definition netplanGlobs : list string := ["10-netplan-*"].
(* go: cmd/takeover.go 22-22 netplanBackupDir *)
Definition netplanBackupDir : string := "/var/lib/netcfg/netplan-networkd-backup".

(** The source is closed on every return, with its error ignored. *)
(* go: cmd/takeover.go 154-180 moveFile *)
Definition moveFile (src dst : string) : prog fs err :=
  e ← call (FsRename src dst);
  match e with
  | None => Ret None
  | Some _ =>
      get! in_ := call (FsOpen src) as same_err;
      r ← (get! perm := call (FsPerm in_) as same_err;
           get! out := call (FsCreate dst perm) as same_err;
           e ← call (FsCopy out in_);
           match e with
           | Some e => call (FsClose out) ;; Ret (Some e)
           | None =>
               try! call (FsClose out) as same_err;
               call (FsRemove src)
           end);
      call (FsClose in_) ;; Ret r
  end.

(** The files of a pattern, each once, that are no directories, after those that
    have been found. *)
(* go: cmd/takeover.go 73-84 takeoverNeutralize *)
Definition find_glob (st : gmap string bool * list string) (pattern : string)
    : prog fs (gmap string bool * list string) :=
  files ← call (FsGlob pattern);
  for_fold (match files with Ok l => l | Err _ => [] end) st (fun '(seen, matches) f =>
    if default false (seen !! f) then Ret (seen, matches)
    else fi ← call (FsStat f);
         match fi with
         | Err _ | Ok true => Ret (seen, matches)
         | Ok false => Ret (<[f := true]> seen, matches ++ [f])
         end).

(* go: cmd/takeover.go 69-85 takeoverNeutralize *)
Definition find_files : prog fs (list string) :=
  st ← for_fold networkdDirs (∅, []) (fun st dir =>
    for_fold netplanGlobs st (fun st g => find_glob st (Path.Join dir g)));
  Ret st.2.

(** The bodies of the loops of takeoverNeutralize and takeoverRestore, which
    differ in their messages. *)
(* go: cmd/takeover.go 95-107 takeoverNeutralize *)
Definition move_one (dryRun : bool) (src dst : string) : prog fs unit :=
  if dryRun then Ret tt
  else
    e ← call (FsMkdirAll (Path.Dir dst));
    match e with
    | Some _ => Ret tt
    | None => warn! moveFile src dst; Ret tt
    end.

(* go: cmd/takeover.go 94-94 takeoverNeutralize *)
Definition backup_path (takeoverBackup src : string) : string :=
  Path.Join takeoverBackup (Path.TrimPrefix (Path.Clean src) "/").

(* go: cmd/takeover.go 67-115 takeoverNeutralize *)
Definition takeoverNeutralize (takeoverBackup : string) (dryRun : bool) : prog fs err :=
  matches ← find_files;
  for_each matches (fun src => move_one dryRun src (backup_path takeoverBackup src)) ;;
  Ret None.

(* go: cmd/takeover.go 129-130 takeoverRestore *)
Definition restore_path (takeoverBackup path : string) : string :=
  Path.Clean ("/" +:+ Path.TrimPrefix path takeoverBackup).

(** The function of WalkDir always returns nil, so WalkDir does. *)
(* go: cmd/takeover.go 117-152 takeoverRestore *)
Definition takeoverRestore (is_not_exist : error -> bool) (takeoverBackup : string) (dryRun : bool)
    : prog fs err :=
  st ← call (FsStat takeoverBackup);
  if match st with Err e => is_not_exist e | Ok _ => false end then Ret None
  else
    files ← call (FsWalkDir takeoverBackup);
    for_each files (fun path => move_one dryRun path (restore_path takeoverBackup path)) ;;
    Ret None.
