(* ===== verification/TakeoverInv.v ===== *)
(** * That the takeover loses nothing

    On any file system, also one whose calls fail, a file that the takeover moves
    is at its place or at its place in the backup with its content; on one that
    fails only when it must, taking over and back is the identity. *)

From S2P Require Import Prelude GoStd Effect IpText Takeover.

(** ** Clean absolute paths *)

(** The absolute path of some elements. *)
Definition abs (l : list string) : string := foldr (fun c s => "/" +:+ c +:+ s) "" l.

Definition proper (c : string) : Prop :=
  Str.is_empty c = false /\ Str.eqb c "." = false /\ Str.eqb c ".." = false /\ Str.contains_byte c "/" = false.

Lemma split_elems c l :
  Str.contains_byte c "/" = false -> Forall proper l -> Str.split_byte (c +:+ abs l) "/" = c :: l.
Proof.
  intros Hc Hl. revert c Hc. induction Hl as [|c' l (_ & _ & _ & Hc') Hl IH]; intros c Hc; simpl.
  - rewrite str_app_nil_r. induction c as [|a c IH]; [done|]. simpl in *.
    destruct (a =? "/")%char; [done|]. by rewrite IH.
  - change ("/" +:+ c' +:+ abs l) with (String "/" (c' +:+ abs l)). rewrite split_line by done. by rewrite IH.
Qed.

Lemma split_abs l : Forall proper l -> Str.split_byte (abs l) "/" = "" :: l.
Proof. intros Hl. by rewrite <-(split_elems "" l), str_app_nil. Qed.

Lemma clean_proper l acc : Forall proper l -> Path.clean_elems true l acc = rev l ++ acc.
Proof.
  intros Hl. revert acc. induction Hl as [|c l (H1 & H2 & H3 & _) Hl IH]; intros acc; [done|].
  simpl. rewrite H1, H2, H3. simpl. by rewrite IH, <-app_assoc.
Qed.

Lemma join_abs c l : "/" +:+ Str.join (c :: l) "/" = abs (c :: l).
Proof.
  revert c. induction l as [|c' l IH]; intros c; [simpl; by rewrite str_app_nil_r|].
  change (Str.join (c :: c' :: l) "/") with (c +:+ "/" +:+ Str.join (c' :: l) "/"). by rewrite IH.
Qed.

Lemma has_slash s : Str.has_prefix ("/" +:+ s) "/" = true.
Proof. by destruct s. Qed.

Lemma Clean_elems path l :
  Str.has_prefix path "/" = true -> l <> [] -> Forall proper l ->
  (forall acc, Path.clean_elems true (Str.split_byte path "/") acc = Path.clean_elems true l acc) ->
  Path.Clean path = abs l.
Proof.
  intros Hp Hn Hl Hc. unfold Path.Clean. rewrite Hp, Hc, clean_proper, app_nil_r, rev_involutive by done.
  destruct l as [|c l]; [done|]. apply join_abs.
Qed.

Lemma Clean_abs l : l <> [] -> Forall proper l -> Path.Clean (abs l) = abs l.
Proof.
  intros Hn Hl. apply Clean_elems; [destruct l; [done|apply has_slash]|done|done|]. intros acc.
  by rewrite split_abs.
Qed.

Lemma Clean_slash_abs l : l <> [] -> Forall proper l -> Path.Clean ("/" +:+ abs l) = abs l.
Proof.
  intros Hn Hl. apply Clean_elems; [apply has_slash|done|done|]. intros acc.
  change (Str.split_byte ("/" +:+ abs l) "/") with ("" :: Str.split_byte (abs l) "/").
  by rewrite split_abs.
Qed.

Lemma substring_all s : String.substring 0 (String.length s) s = s.
Proof. induction s as [|a s IH]; [done|]. simpl. by rewrite IH. Qed.

Lemma TrimPrefix_app p s : Path.TrimPrefix (p +:+ s) p = s.
Proof.
  unfold Path.TrimPrefix. assert (Str.has_prefix (p +:+ s) p = true) as ->.
  { induction p as [|a p IH]; [by destruct s|]. rewrite str_app_cons. unfold Str.has_prefix in *.
    cbn [String.prefix]. by destruct (Ascii.ascii_dec a a). }
  induction p as [|a p IH]; [|exact IH].
  rewrite str_app_nil. simpl. by rewrite Nat.sub_0_r, substring_all.
Qed.

Lemma abs_app l1 l2 : abs (l1 ++ l2) = abs l1 +:+ abs l2.
Proof. induction l1 as [|c l IH]; [done|]. simpl. by rewrite IH, !str_app_assoc. Qed.

Lemma abs_inj l1 l2 : Forall proper l1 -> Forall proper l2 -> abs l1 = abs l2 -> l1 = l2.
Proof.
  intros H1 H2 Heq. assert ("" :: l1 = "" :: l2) as [= ?]; [|done].
  by rewrite <-(split_abs l1), <-(split_abs l2), Heq.
Qed.

Lemma backup_path_abs b l :
  b <> [] -> l <> [] -> Forall proper b -> Forall proper l -> backup_path (abs b) (abs l) = abs (b ++ l).
Proof.
  intros Hb Hl Fb Fl. unfold backup_path. rewrite Clean_abs by done.
  destruct l as [|c l]; [done|]. simpl. rewrite (TrimPrefix_app "/"). unfold Path.Join.
  assert (Str.is_empty (abs b) = false) as -> by by destruct b.
  assert (Str.is_empty (c +:+ abs l) = false) as ->.
  { apply Forall_cons in Fl as [(Hc & _) _]. by destruct c. }
  change (abs b +:+ "/" +:+ c +:+ abs l) with (abs b +:+ abs (c :: l)). rewrite <-abs_app.
  apply Clean_abs; [by destruct b|]. by apply Forall_app.
Qed.

Lemma restore_path_abs b l :
  l <> [] -> Forall proper l -> restore_path (abs b) (abs (b ++ l)) = abs l.
Proof. intros Hl Fl. unfold restore_path. rewrite abs_app, TrimPrefix_app. by apply Clean_slash_abs. Qed.

(** ** The file system *)

(** The content of the files, by their clean absolute paths, and the paths of the
    open files. *)
Record FS := MkFS { files : gmap string string; opened : gmap Z string }.

Lemma FS_eq s s' : files s = files s' -> opened s = opened s' -> s = s'.
Proof. destruct s, s'; simpl. by intros -> ->. Qed.

(** A pattern whose last byte is its only special one, a star. *)
Definition globbed (pattern f : string) : Prop :=
  exists pre b, pattern = pre +:+ "*" /\ f = pre +:+ b /\ Str.contains_byte b "/" = false.

Definition below (root f : string) : Prop := exists r, f = root +:+ "/" +:+ r.

Section fs.
(** Whether calls fail that need not.  A rename may fail anyhow, from one file
    system to another one. *)
Context (may_fail : Prop).

Definition fs_pre {X} (e : fs X) (s : FS) : Prop :=
  match e with
  | FsPerm f | FsClose f => is_Some (opened s !! f)
  | FsCopy out in_ => exists po pi, opened s !! out = Some po /\ opened s !! in_ = Some pi /\ po <> pi
  | _ => True
  end.

Definition fs_post {X} (e : fs X) (s : FS) : X -> FS -> Prop :=
  match e in fs X return X -> FS -> Prop with
  | FsGlob pattern => fun r s' => s' = s /\
      match r with
      | Ok l => (forall f, f ∈ l -> globbed pattern f) /\
                (may_fail \/ forall f, is_Some (files s !! f) -> globbed pattern f -> f ∈ l)
      | Err _ => may_fail
      end
  | FsStat path => fun r s' => s' = s /\
      match r with
      | Ok false => is_Some (files s !! path)
      | Ok true => files s !! path = None
      | Err _ => may_fail \/ forall f, f = path \/ below path f -> files s !! f = None
      end
  | FsMkdirAll _ => fun r s' => s' = s /\ (r = None \/ may_fail)
  | FsRename src dst => fun r s' =>
      match r with
      | None => exists c, files s !! src = Some c /\ s' = MkFS (<[dst := c]> (delete src (files s))) (opened s)
      | Some _ => s' = s
      end
  | FsOpen path => fun r s' =>
      match r with
      | Ok f => opened s !! f = None /\ is_Some (files s !! path) /\ s' = MkFS (files s) (<[f := path]> (opened s))
      | Err _ => s' = s /\ (may_fail \/ files s !! path = None)
      end
  | FsPerm _ => fun r s' => s' = s /\ match r with Ok _ => True | Err _ => may_fail end
  | FsCreate path _ => fun r s' =>
      match r with
      | Ok f => opened s !! f = None /\ s' = MkFS (<[path := ""]> (files s)) (<[f := path]> (opened s))
      | Err _ => s' = s /\ may_fail
      end
  | FsCopy out in_ => fun r s' => exists po pi c, opened s !! out = Some po /\ opened s !! in_ = Some pi /\
      s' = MkFS (<[po := c]> (files s)) (opened s) /\
      match r with None => files s !! pi = Some c | Some _ => may_fail end
  | FsClose f => fun r s' => s' = MkFS (files s) (delete f (opened s)) /\ (r = None \/ may_fail)
  | FsRemove path => fun r s' =>
      match r with
      | None => s' = MkFS (delete path (files s)) (opened s)
      | Some _ => s' = s /\ (may_fail \/ files s !! path = None)
      end
  | FsWalkDir root => fun r s' => s' = s /\ NoDup r /\
      (forall f, f ∈ r -> is_Some (files s !! f) /\ (f = root \/ below root f)) /\
      (may_fail \/ forall f, is_Some (files s !! f) -> below root f -> f ∈ r)
  end.

Definition fs_spec : spec fs FS :=
  Spec (fun X e s => fs_pre e s) (fun X e s x s' => fs_post e s x s') False.

(** ** Moving a file *)

(** Without an error the file has moved; with one it is where it was, and only
    what was at its destination may have changed; no file stays open. *)
Definition moved (src dst : string) (s : FS) (r : err) (s' : FS) : Prop :=
  opened s' = opened s /\
  match r with
  | None => exists c, files s !! src = Some c /\ files s' = <[dst := c]> (delete src (files s))
  | Some _ => (may_fail \/ files s !! src = None) /\
      forall p, p <> dst -> files s' !! p = files s !! p
  end.

Lemma moved_same src dst s e : may_fail \/ files s !! src = None -> moved src dst s (Some e) s.
Proof. by split. Qed.

Lemma wp_moveFile src dst s :
  src <> dst -> wp fs_spec (moveFile src dst) s (fun r s' => moved src dst s r s').
Proof.
  intros Hne. apply wp_bind, wp_call; [done|]. intros [e|] s1 H1; simpl in H1.
  2: { destruct H1 as (c & Hc & ->). apply wp_ret. split; [done|]. by exists c. }
  subst s1. apply wp_bind, wp_call; [done|]. intros [in_|e'] s1 H1; simpl in H1.
  2: { destruct H1 as [-> H1]. by apply wp_ret, moved_same. }
  destruct H1 as (Hin & [c Hc] & ->). apply wp_bind.
  eapply wp_mono with (Q := fun r s' => exists s0, s' = MkFS (files s0) (<[in_ := src]> (opened s0)) /\ moved src dst s r s0).
  { intros r s' (s0 & -> & Ho & Hr). apply wp_bind, wp_call; [simpl; by rewrite lookup_insert_eq|].
    intros x ? [-> _]. apply wp_ret. simpl. split; [|done]. simpl. rewrite Ho. by rewrite delete_insert_id. }
  apply wp_bind, wp_call; [simpl; by rewrite lookup_insert_eq|]. intros [perm|e'] ? [-> Hp]; simpl in Hp.
  2: { apply wp_ret. exists s. split; [done|]. apply moved_same. by left. }
  apply wp_bind, wp_call; [done|]. intros [out|e'] s1 Hp'; simpl in Hp'.
  2: { destruct Hp' as [-> Hp']. apply wp_ret. exists s. split; [done|]. apply moved_same. by left. }
  destruct Hp' as (Hout & ->). simpl in Hout. assert (out <> in_) as Hfd by (intros ->; by rewrite lookup_insert_eq in Hout).
  rewrite lookup_insert_ne in Hout by done.
  set (o2 := <[out := dst]> (<[in_ := src]> (opened s))).
  assert (o2 !! out = Some dst) as Ho by apply lookup_insert_eq.
  assert (o2 !! in_ = Some src) as Hi by (unfold o2; by rewrite lookup_insert_ne, lookup_insert_eq).
  assert (delete out o2 = <[in_ := src]> (opened s)) as Hdel.
  { unfold o2. rewrite delete_insert_id; [done|]. by rewrite lookup_insert_ne. }
  apply wp_bind, wp_call; [exists dst, src; simpl; auto|].
  intros r s1 (po & pi & c' & Hpo & Hpi & -> & Hr). cbn [files opened] in *.
  assert (po = dst) as -> by congruence. assert (pi = src) as -> by congruence.
  rewrite insert_insert_eq. rewrite lookup_insert_ne in Hr by done.
  assert (forall p, p <> dst -> <[dst := c']> (files s) !! p = files s !! p) as Hother
    by (intros p Hp'; by rewrite lookup_insert_ne).
  destruct r as [e'|].
  - apply wp_bind, wp_call; [simpl; by rewrite Ho|]. intros r ? [-> _]. apply wp_ret. cbn [files opened]. rewrite Hdel.
    exists (MkFS (<[dst := c']> (files s)) (opened s)). split; [done|]. split; [done|]. split; [by left|done].
  - apply wp_bind, wp_call; [simpl; by rewrite Ho|]. intros [e'|] ? [-> Hf]; cbn [files opened]; rewrite Hdel.
    + apply wp_ret. exists (MkFS (<[dst := c']> (files s)) (opened s)). split; [done|]. split; [done|].
      split; [left; by destruct Hf|done].
    + apply wp_call; [done|]. intros [e'|] s1 Hs1; simpl in Hs1.
      * destruct Hs1 as [-> [Hf'|Hf']]; [|by rewrite Hother in Hf' by done; simpl in *; congruence].
        exists (MkFS (<[dst := c']> (files s)) (opened s)). split; [done|]. split; [done|]. split; [by left|done].
      * subst s1. exists (MkFS (delete src (<[dst := c']> (files s))) (opened s)). split; [done|].
        split; [done|]. exists c'. split; [done|]. simpl. by rewrite delete_insert_ne.
Qed.

Lemma wp_move_one src dst s :
  src <> dst -> wp fs_spec (move_one false src dst) s (fun _ s' => exists r, moved src dst s r s').
Proof.
  intros Hne. apply wp_bind, wp_call; [done|]. intros [e|] ? [-> Hr].
  - apply wp_ret. exists (Some e). apply moved_same. left. by destruct Hr.
  - apply wp_bind. eapply wp_mono; [|by apply wp_moveFile]. intros r s' Hm. apply wp_ret. by exists r.
Qed.

(** ** Moving many files *)

Section many.
Context (g : string -> string).

(** Of the files [l], [done] are now where [g] puts them; the others, and all
    other files that are not in the way, are where they were. *)
Definition relocated (l done : list string) (s s' : FS) : Prop :=
  opened s' = opened s /\
  (forall q, q ∉ g <$> l -> files s' !! q = if decide (q ∈ done) then None else files s !! q) /\
  (forall x, x ∈ done -> x ∈ l /\ is_Some (files s !! x) /\ files s' !! g x = files s !! x).

Definition complete (l done : list string) (s : FS) : Prop :=
  may_fail \/ forall x, x ∈ l -> is_Some (files s !! x) -> x ∈ done.

Lemma relocated_step pre done a s s1 r s2 :
  a ∉ pre -> (forall x, x ∈ pre -> g x <> a /\ g x <> g a /\ g a <> x) ->
  relocated pre done s s1 -> complete pre done s -> moved a (g a) s1 r s2 ->
  exists done', relocated (pre ++ [a]) done' s s2 /\ complete (pre ++ [a]) done' s.
Proof.
  intros Ha Hg (Ho & Hq & Hx) Hc (Ho' & Hm).
  assert (files s1 !! a = files s !! a) as Hsa.
  { rewrite Hq by (intros (x & Hxa & Hin)%list_elem_of_fmap; by destruct (Hg x Hin)).
    destruct (decide (a ∈ done)) as [Hd|]; [|done]. by destruct (Hx a Hd). }
  destruct r as [e|].
  - destruct Hm as [Hf Hm]. exists done. repeat split.
    + congruence.
    + intros q Hnq. rewrite fmap_app, not_elem_of_app in Hnq. destruct Hnq as [Hn1 Hn2].
      rewrite Hm; [by apply Hq|]. intros ->. apply Hn2. left.
    + apply elem_of_app. left. by apply Hx.
    + by apply Hx.
    + destruct (Hx x H) as (Hp & _ & <-). apply Hm. by destruct (Hg x Hp) as (_ & ? & _).
    + destruct Hc as [Hc|Hc]; [by left|]. destruct Hf as [Hf|Hf]; [by left|]. right.
      intros x [Hxp| ->%list_elem_of_singleton]%elem_of_app Hs; [by apply Hc|]. rewrite <-Hsa, Hf in Hs. by destruct Hs.
  - destruct Hm as (c & Hca & Hm). exists (a :: done). repeat split.
    + congruence.
    + intros q Hnq. rewrite fmap_app, not_elem_of_app in Hnq. destruct Hnq as [Hn1 Hn2].
      assert (g a <> q) as Hne by (intros <-; apply Hn2; left).
      rewrite Hm, lookup_insert_ne by done. destruct (decide (a = q)) as [->|Hneq].
      * rewrite lookup_delete_eq. rewrite decide_True; [done|left].
      * rewrite lookup_delete_ne, Hq by done. apply decide_ext. rewrite elem_of_cons. naive_solver.
    + apply elem_of_app. apply elem_of_cons in H as [->|H]; [right; left|left; by apply Hx].
    + apply elem_of_cons in H as [->|H]; [|by apply Hx]. rewrite <-Hsa. by eexists.
    + apply elem_of_cons in H as [->|H]; [by rewrite Hm, lookup_insert_eq, <-Hsa|].
      destruct (Hx x H) as (Hp & _ & <-). destruct (Hg x Hp) as (? & ? & _).
      by rewrite Hm, lookup_insert_ne, lookup_delete_ne by congruence.
    + destruct Hc as [Hc|Hc]; [by left|]. right.
      intros x [Hxp| ->%list_elem_of_singleton]%elem_of_app Hs; [right; by apply Hc|left].
Qed.

Lemma wp_move_all l s :
  NoDup l -> (forall x y, x ∈ l -> y ∈ l -> g x = g y -> x = y) -> (forall x y, x ∈ l -> y ∈ l -> g x <> y) ->
  wp fs_spec (for_each l (fun src => move_one false src (g src))) s
    (fun _ s' => exists done, relocated l done s s' /\ complete l done s).
Proof.
  intros Hn Hinj Hdis.
  apply (wp_for_each_prefix _ l _ s (fun pre s' => exists done, relocated pre done s s' /\ complete pre done s)).
  - exists []. split; [|right; by intros x Hx%not_elem_of_nil]. split_and!; [done| |by intros x Hx%not_elem_of_nil].
    intros q _. destruct (decide (q ∈ [])) as [Hq%not_elem_of_nil|]; done.
  - intros pre a post s1 -> (done & Hr & Hc).
    assert (a ∈ pre ++ a :: post) as Hal by (apply elem_of_app; right; left).
    eapply wp_mono; [|apply wp_move_one; intros Heq; by apply (Hdis a a)].
    intros _ s2 (r & Hm). apply (relocated_step pre done a s s1 r); [|intros x Hx|done..].
    + apply NoDup_app in Hn as (_ & Hn & _). intros Hin. apply (Hn a Hin). left.
    + assert (x ∈ pre ++ a :: post) as Hxl by (apply elem_of_app; by left).
      split_and!; [by apply Hdis| |by apply Hdis]. intros Heq. apply (Hinj x a Hxl Hal) in Heq as ->.
      apply NoDup_app in Hn as (_ & Hn & _). apply (Hn a Hx). left.
Qed.
End many.

(** ** Finding the files *)

(** The files that netplan has generated. *)
Definition netplan_file (f : string) : Prop :=
  exists dir g, dir ∈ networkdDirs /\ g ∈ netplanGlobs /\ globbed (Path.Join dir g) f.

(** What has been found: files of netplan, each once, those in [seen]. *)
Definition found (s : FS) (st : gmap string bool * list string) : Prop :=
  (forall f, default false (st.1 !! f) = true <-> f ∈ st.2) /\ NoDup st.2 /\
  forall f, f ∈ st.2 -> is_Some (files s !! f) /\ netplan_file f.

Lemma wp_find_glob s st dir g :
  dir ∈ networkdDirs -> g ∈ netplanGlobs -> found s st ->
  wp fs_spec (find_glob st (Path.Join dir g)) s (fun st' s' => s' = s /\ found s st' /\ st.2 ⊆ st'.2 /\
    (may_fail \/ forall f, is_Some (files s !! f) -> globbed (Path.Join dir g) f -> f ∈ st'.2)).
Proof.
  intros Hdir Hg Hst. apply wp_bind, wp_call; [done|]. intros r ? [-> Hr].
  set (l := match r with Ok l => l | Err _ => [] end).
  assert (forall f, f ∈ l -> globbed (Path.Join dir g) f) as Hl.
  { destruct r; [apply Hr|by intros f Hf%not_elem_of_nil]. }
  eapply wp_mono; [|apply (wp_for_fold_prefix _ l st _ s (fun pre st' s' => s' = s /\ found s st' /\ st.2 ⊆ st'.2 /\
    (may_fail \/ forall f, f ∈ pre -> is_Some (files s !! f) -> f ∈ st'.2)))].
  - intros st' s' (-> & Hf & Hs & Hc). split_and!; [done..|]. destruct Hc as [|Hc]; [by left|].
    destruct r as [l'|]; [|by left]. destruct Hr as [_ [|Hr]]; [by left|]. right. intros f Hsf Hgf. by apply Hc, Hsf; apply Hr.
  - split_and!; [done..|]. right. by intros f Hf%not_elem_of_nil.
  - intros pre f post [seen matches] ? Hlf (-> & (Hs & Hn & Hm) & Hsub & Hc). simpl in Hs, Hn, Hm, Hsub, Hc.
    assert (f ∈ l) as Hfl by (rewrite Hlf; apply elem_of_app; right; left).
    destruct (default false (seen !! f)) eqn:Hseen; [apply wp_ret|apply wp_bind, wp_call; [done|]].
    + split_and!; [done..|]. destruct Hc as [|Hc]; [by left|]. right.
      intros f' [Hf'| ->%list_elem_of_singleton]%elem_of_app Hsome; [by apply Hc|by apply Hs].
    + assert (may_fail \/ files s !! f = None -> s = s /\ found s (seen, matches) /\ st.2 ⊆ matches /\
        (may_fail \/ forall f', f' ∈ pre ++ [f] -> is_Some (files s !! f') -> f' ∈ matches)) as Hskip.
      { intros Hnone. split_and!; [done..|]. destruct Hnone as [|Hnone]; [by left|]. destruct Hc as [|Hc]; [by left|].
        right. intros f' [Hf'| ->%list_elem_of_singleton]%elem_of_app Hsome; [by apply Hc|].
        rewrite Hnone in Hsome. by destruct Hsome. }
      intros [[|]|e] ? [-> Hstat]; apply wp_ret; simpl in Hstat.
      * apply Hskip. by right.
      * assert (f ∉ matches) as Hnot by (rewrite <-Hs, Hseen; done).
        split_and!; [done| | |].
        -- split; [|split]; simpl.
           ++ intros f'. rewrite elem_of_app, list_elem_of_singleton, lookup_insert. destruct (decide (f = f')) as [->|]; simpl; [naive_solver|].
              rewrite Hs. naive_solver.
           ++ apply NoDup_app. split_and!; [done| |apply NoDup_singleton]. intros f' Hf' ->%list_elem_of_singleton. done.
           ++ intros f' [Hf'| ->%list_elem_of_singleton]%elem_of_app; [by apply Hm|]. split; [done|]. exists dir, g. auto.
        -- set_solver.
        -- destruct Hc as [|Hc]; [by left|]. right. simpl.
           intros f' [Hf'| ->%list_elem_of_singleton]%elem_of_app Hsome; apply elem_of_app; [left; by apply Hc|right; left].
      * apply Hskip. destruct Hstat as [|Hstat]; [by left|]. right. apply Hstat. by left.
Qed.

Lemma wp_find_files s :
  wp fs_spec find_files s (fun l s' => s' = s /\ NoDup l /\
    (forall f, f ∈ l -> is_Some (files s !! f) /\ netplan_file f) /\
    (may_fail \/ forall f, is_Some (files s !! f) -> netplan_file f -> f ∈ l)).
Proof.
  unfold find_files. apply wp_bind.
  eapply wp_mono; [|apply (wp_for_fold_prefix _ networkdDirs _ _ s (fun pre st s' => s' = s /\ found s st /\
    (may_fail \/ forall dir g f, dir ∈ pre -> g ∈ netplanGlobs -> is_Some (files s !! f) -> globbed (Path.Join dir g) f -> f ∈ st.2)))].
  - intros st ? (-> & (_ & Hn & Hm) & Hc). apply wp_ret. split_and!; [done..|].
    destruct Hc as [|Hc]; [by left|]. right. intros f Hf (dir & g & Hd & Hg & Hgl). by apply (Hc dir g).
  - split_and!; [done| |right; by intros dir g f Hd%not_elem_of_nil].
    split_and!; [|constructor|by intros f Hf%not_elem_of_nil]. intros f. simpl. rewrite lookup_empty. simpl.
    split; [done|by intros Hf%not_elem_of_nil].
  - intros pre dir post st ? Hl (-> & Hst & Hc).
    assert (dir ∈ networkdDirs) as Hdir by (rewrite Hl; apply elem_of_app; right; left).
    apply wp_bind. eapply wp_mono; [|apply (wp_find_glob s st dir "10-netplan-*"); [done|left|done]].
    intros st' ? (-> & Hst' & Hsub & Hc'). apply wp_ret. split_and!; [done..|].
    destruct Hc as [|Hc]; [by left|]. destruct Hc' as [|Hc']; [by left|]. right.
    intros dir' g f [Hd| ->%list_elem_of_singleton]%elem_of_app Hg Hf Hgl.
    + apply Hsub. by apply (Hc dir' g).
    + apply list_elem_of_singleton in Hg as ->. by apply Hc'.
Qed.
End fs.

(** ** The paths of netplan's files *)

Lemma str_app_star p q : p +:+ "*" = q +:+ "*" -> p = q.
Proof.
  intros Heq. assert (String.rev (p +:+ "*") = String.rev (q +:+ "*")) as Hr by by rewrite Heq.
  rewrite !str_rev_app in Hr. assert (String.rev p = String.rev q) as Hpq by by injection Hr.
  by rewrite <-(str_rev_rev p), <-(str_rev_rev q), Hpq.
Qed.

(** The elements of the path of a file of netplan. *)
Definition file_elems (dir file : string) : list string := [dir; "systemd"; "network"; "10-netplan-" +:+ file].

Lemma netplan_file_abs f :
  netplan_file f -> exists l, f = abs l /\ length l = 4%nat /\ Forall proper l.
Proof.
  assert (forall dir b, proper dir -> Str.contains_byte b "/" = false -> Forall proper (file_elems dir b)) as Hp.
  { intros dir b Hdir Hb. repeat constructor; try done; by try apply Hdir. }
  intros (dir & g & Hdir & ->%list_elem_of_singleton & pre & b & Hpre & -> & Hb).
  repeat (apply elem_of_cons in Hdir as [->|Hdir]); [| |by apply not_elem_of_nil in Hdir].
  - assert (pre = "/etc/systemd/network/10-netplan-") as -> by (apply str_app_star; by rewrite <-Hpre).
    exists (file_elems "etc" b). split_and!; [|done|by apply Hp]. unfold file_elems. simpl. by rewrite str_app_nil_r.
  - assert (pre = "/run/systemd/network/10-netplan-") as -> by (apply str_app_star; by rewrite <-Hpre).
    exists (file_elems "run" b). split_and!; [|done|by apply Hp]. unfold file_elems. simpl. by rewrite str_app_nil_r.
Qed.

Section backup.
Context (bl : list string) (Hbl : bl <> []) (Hproper : Forall proper bl).
#[local] Abbreviation g := (backup_path (abs bl)).

Lemma backup_netplan f : netplan_file f ->
  exists l, f = abs l /\ length l = 4%nat /\ Forall proper l /\ g f = abs (bl ++ l).
Proof.
  intros (l & -> & Hl & Fl)%netplan_file_abs. exists l. split_and!; [done..|].
  apply backup_path_abs; [done| |done..]. by destruct l.
Qed.

Lemma backup_inj f f' : netplan_file f -> netplan_file f' -> g f = g f' -> f = f'.
Proof.
  intros (l & -> & _ & Fl & ->)%backup_netplan (l' & -> & _ & Fl' & ->)%backup_netplan Heq.
  apply abs_inj in Heq; [|by apply Forall_app..]. by apply app_inv_head in Heq as ->.
Qed.

Lemma backup_other f f' : netplan_file f -> netplan_file f' -> g f <> f'.
Proof.
  intros (l & -> & Hl & Fl & ->)%backup_netplan (l' & -> & Hl' & Fl' & _)%backup_netplan Heq.
  apply abs_inj in Heq; [|by apply Forall_app|done]. apply (f_equal length) in Heq.
  rewrite length_app in Heq. destruct bl; simpl in *; [done|lia].
Qed.

Lemma backup_below f : netplan_file f -> below (abs bl) (g f).
Proof.
  intros (l & -> & Hl & Fl & ->)%backup_netplan. destruct l as [|c l]; [done|].
  exists (c +:+ abs l). by rewrite abs_app.
Qed.

Lemma restore_backup f : netplan_file f -> restore_path (abs bl) (g f) = f.
Proof.
  intros (l & -> & Hl & Fl & ->)%backup_netplan. apply restore_path_abs; [|done]. by destruct l.
Qed.

(** What takeoverNeutralize leaves, when it is not a dry run. *)
Lemma wp_neutralize may_fail s :
  wp (fs_spec may_fail) (takeoverNeutralize (abs bl) false) s (fun r s' => r = None /\
    exists l done, NoDup l /\ (forall f, f ∈ l -> is_Some (files s !! f) /\ netplan_file f) /\
      (may_fail \/ forall f, is_Some (files s !! f) -> netplan_file f -> f ∈ l) /\
      relocated g l done s s' /\ complete may_fail l done s).
Proof.
  apply wp_bind. eapply wp_mono; [|apply wp_find_files]. intros l ? (-> & Hn & Hl & Hall).
  apply wp_bind. eapply wp_mono; [|apply (wp_move_all _ g)].
  - intros _ s' (done & Hr & Hc). apply wp_ret. split; [done|]. by exists l, done.
  - done.
  - intros x y Hx Hy. apply backup_inj; by apply Hl.
  - intros x y Hx Hy. apply backup_other; by apply Hl.
Qed.

(** The files [l] of netplan, moved to the backup and from there back. *)
Lemma relocated_back (l r done2 : list string) s s1 s2 :
  (forall f, f ∈ l -> is_Some (files s !! f) /\ netplan_file f) ->
  (forall p, p = abs bl \/ below (abs bl) p -> files s !! p = None) ->
  opened s1 = opened s ->
  (forall x, x ∈ l -> files s1 !! g x = files s !! x) ->
  (forall p, p ∉ g <$> l -> files s1 !! p = if decide (p ∈ l) then None else files s !! p) ->
  (forall f, f ∈ r <-> f ∈ g <$> l) ->
  relocated (restore_path (abs bl)) r done2 s1 s2 -> complete False r done2 s1 -> s2 = s.
Proof.
  intros Hl Hempty Ho Hgx Hq1 Hrl (Ho2 & Hq2 & Hx2) [[]|Hc2].
  assert (forall x, x ∈ l -> g x ∈ r /\ g x ∈ done2) as Hgr.
  { intros x Hxl. assert (g x ∈ r) as Hr by by apply Hrl, list_elem_of_fmap_2.
    split; [done|]. apply Hc2; [done|]. rewrite Hgx by done. by apply Hl. }
  apply FS_eq; [|congruence]. apply map_eq. intros p. destruct (decide (p ∈ l)) as [Hpl|Hpl].
  - destruct (Hx2 (g p)) as (_ & _ & Hback); [by apply Hgr|].
    rewrite restore_backup, Hgx in Hback; [done|done|by apply Hl].
  - rewrite Hq2.
    2: { intros (f & -> & (x & -> & Hxl)%Hrl%list_elem_of_fmap)%list_elem_of_fmap.
         apply Hpl. rewrite restore_backup; [done|]. by apply Hl. }
    destruct (decide (p ∈ done2)) as [(Hpr & _ & _)%Hx2|Hd].
    + symmetry. apply Hempty. right. apply Hrl, list_elem_of_fmap in Hpr as (x & -> & Hxl).
      apply backup_below. by apply Hl.
    + rewrite Hq1; [by rewrite decide_False|]. intros (x & -> & Hxl)%list_elem_of_fmap. by apply Hd, Hgr.
Qed.
End backup.

(** C9: taking over from netplan loses no file, whatever calls fail: each file
    outside the backup is afterwards where it was, with its content, or it is one
    that netplan has generated, is gone from there, and is with its content at
    its place in the backup; a dry run changes nothing, no file stays open, and
    nothing is ever reported as an error.  When no call fails but renames, all
    files that netplan has generated are gone from their places. *)
Theorem takeover_keeps (may_fail : Prop) (bl : list string) (dryRun : bool) (s : FS) :
  bl <> [] -> Forall proper bl ->
  wp (fs_spec may_fail) (takeoverNeutralize (abs bl) dryRun) s (fun r s' => r = None /\
    opened s' = opened s /\ (dryRun = true -> s' = s) /\
    (dryRun = false -> may_fail \/ forall p, netplan_file p -> is_Some (files s !! p) -> files s' !! p = None) /\
    forall p c, files s !! p = Some c -> ~ below (abs bl) p ->
      files s' !! p = Some c \/
      (netplan_file p /\ files s' !! p = None /\ files s' !! backup_path (abs bl) p = Some c)).
Proof.
  intros Hbl Hp. destruct dryRun.
  - apply wp_bind. eapply wp_mono; [|apply wp_find_files]. intros l ? (-> & _). apply wp_bind.
    eapply wp_mono; [|apply (wp_for_each _ l _ s (fun s' => s' = s)); [done|]].
    + intros _ ? ->. apply wp_ret. split_and!; try done. auto.
    + intros f ? _ ->. by apply wp_ret.
  - eapply wp_mono; [|by apply wp_neutralize]. intros r s' (-> & l & done & Hn & Hl & Hall & (Ho & Hq & Hx) & Hc).
    split_and!; [done..| |].
    { intros _. destruct Hall as [|Hall]; [by left|]. destruct Hc as [|Hc]; [by left|]. right. intros f Hf Hsome.
      assert (f ∈ l) as Hfl by by apply Hall. rewrite Hq; [by rewrite decide_True by by apply Hc|].
      intros (x & Hxf & Hxl)%list_elem_of_fmap. symmetry in Hxf. apply (backup_other bl Hbl Hp x f); [|done..]. by apply Hl. }
    intros p c Hpc Hb.
    assert (p ∉ backup_path (abs bl) <$> l) as Hnot.
    { intros (f & -> & Hf)%list_elem_of_fmap. apply Hb, backup_below; [done..|]. by apply Hl. }
    rewrite (Hq p Hnot). destruct (decide (p ∈ done)) as [Hd|Hd]; [right|by left].
    destruct (Hx p Hd) as (Hpl & _ & Hg). split_and!; [by apply Hl|done|congruence].
Qed.

(** C10: taking over and reverting is the identity: on a file system in which only
    renames may fail, as from one file system to another one they do, and with
    nothing in the backup yet, takeoverNeutralize and then takeoverRestore leave
    every file where it was, with its content. *)
Theorem takeover_roundtrip (is_not_exist : error -> bool) (bl : list string) (s : FS) :
  bl <> [] -> Forall proper bl ->
  (forall p, p = abs bl \/ below (abs bl) p -> files s !! p = None) ->
  wp (fs_spec False)
    (e ← takeoverNeutralize (abs bl) false;
     match e with Some e => Ret (Some e) | None => takeoverRestore is_not_exist (abs bl) false end) s
    (fun r s' => r = None /\ s' = s).
Proof.
  intros Hbl Hp Hempty. apply wp_bind. eapply wp_mono; [|by apply wp_neutralize].
  intros r s1 (-> & l & done & Hn & Hl & _ & (Ho & Hq & Hx) & Hc).
  assert (forall x, x ∈ l <-> x ∈ done) as Hdone.
  { intros x. split; [|by intros Hxd; apply Hx]. intros Hxl. destruct Hc as [[]|Hc]. apply Hc; [done|by apply Hl]. }
  assert (forall x, x ∈ l -> files s1 !! backup_path (abs bl) x = files s !! x) as Hgx
    by (intros x Hxl; by apply Hx, Hdone).
  assert (forall p, p ∉ backup_path (abs bl) <$> l -> files s1 !! p = if decide (p ∈ l) then None else files s !! p) as Hq1.
  { intros p Hpl. rewrite Hq by done. apply decide_ext. by rewrite Hdone. }
  assert (forall x, x ∈ l -> below (abs bl) (backup_path (abs bl) x)) as Hbelow
    by (intros x Hxl; apply backup_below; [done..|]; by apply Hl).
  apply wp_bind, wp_call; [done|]. intros st ? [-> Hst].
  destruct (match st with Err e => is_not_exist e | Ok _ => false end) eqn:Est.
  - apply wp_ret. split; [done|]. destruct st as [|e]; [done|]. destruct Hst as [[]|Hst].
    assert (forall x, x ∉ l) as Hnil.
    { intros x Hxl. destruct (Hl x Hxl) as [Hsome _]. rewrite <-Hgx, Hst in Hsome by auto. by destruct Hsome. }
    apply FS_eq; [|done]. apply map_eq. intros p. rewrite Hq1; [by rewrite decide_False|].
    intros (x & _ & Hxl)%list_elem_of_fmap. by apply (Hnil x).
  - apply wp_bind, wp_call; [done|]. intros r ? (-> & Hr & Hin & [[]|Hall]).
    assert (forall f, f ∈ r <-> f ∈ backup_path (abs bl) <$> l) as Hrl.
    { intros f. split.
      - intros Hf. destruct (Hin f Hf) as [Hsome Hb]. destruct (decide (f ∈ backup_path (abs bl) <$> l)) as [|Hnf]; [done|].
        rewrite Hq1, (Hempty f Hb) in Hsome by done. destruct (decide (f ∈ l)), Hsome; done.
      - intros (x & -> & Hxl)%list_elem_of_fmap. apply Hall; [|by apply Hbelow]. rewrite Hgx by done. by apply Hl. }
    assert (forall f, f ∈ r -> exists x, x ∈ l /\ netplan_file x /\ f = backup_path (abs bl) x /\ restore_path (abs bl) f = x) as Hback.
    { intros f (x & -> & Hxl)%Hrl%list_elem_of_fmap. exists x. pose proof (proj2 (Hl x Hxl)) as Hnx.
      split_and!; [done..|]. by apply restore_backup. }
    apply wp_bind. eapply wp_mono; [|apply (wp_move_all False (restore_path (abs bl)) r); [done| |]].
    + intros _ s2 (done2 & Hr2 & Hc2). apply wp_ret. split; [done|].
      by apply (relocated_back bl Hbl Hp l r done2 s s1 s2).
    + intros f f' Hf Hf' Heq. destruct (Hback f Hf) as (x & _ & _ & -> & Hrx), (Hback f' Hf') as (x' & _ & _ & -> & Hrx').
      congruence.
    + intros f f' Hf Hf' Heq. destruct (Hback f Hf) as (x & _ & Hnx & -> & Hrx), (Hback f' Hf') as (x' & _ & Hnx' & -> & Hrx').
      rewrite Hrx in Heq. symmetry in Heq. revert Heq. by apply backup_other.
Qed.

(** ** The default backup directory *)

Module Example.
Definition backup : list string := ["var"; "lib"; "netcfg"; "netplan-networkd-backup"].

Lemma backup_default : abs backup = netplanBackupDir.
Proof. reflexivity. Qed.

Lemma backup_proper : Forall proper backup.
Proof. by repeat constructor. Qed.

Definition s : FS := MkFS
  {["/etc/systemd/network/10-netplan-eth0.network" := "[Match]"; "/etc/hosts" := "127.0.0.1 localhost"]} ∅.

Lemma backup_empty p : p = abs backup \/ below (abs backup) p -> files s !! p = None.
Proof.
  intros Hp. assert (exists r, p = "/var" +:+ r) as [r ->].
  { destruct Hp as [->|[r ->]]; eexists; [reflexivity|]. unfold abs. simpl. rewrite !str_app_assoc. reflexivity. }
  unfold s. simpl. by rewrite lookup_insert_ne, lookup_singleton_ne by done.
Qed.
End Example.

(** A backup directory that is given as ./b is not found at the front of the
    paths that WalkDir gives, which are clean. *)
Lemma restore_relative :
  restore_path "./b" "b/etc/systemd/network/10-netplan-eth0.network" = "/b/etc/systemd/network/10-netplan-eth0.network".
Proof. reflexivity. Qed.

Lemma takeover_keeps_witness :
  wp (fs_spec True) (takeoverNeutralize (abs Example.backup) false) Example.s (fun r s' => r = None /\
    opened s' = ∅ /\ files s' !! "/etc/hosts" = Some "127.0.0.1 localhost").
Proof.
  eapply wp_mono; [|apply takeover_keeps; [done|apply Example.backup_proper]].
  intros r s' (-> & Ho & _ & _ & Hp). split; [done|]. split; [done|].
  destruct (Hp "/etc/hosts" "127.0.0.1 localhost") as [|(Hf & _)]; [reflexivity| |done|].
  - intros [r Hr]. done.
  - apply netplan_file_abs in Hf as (l & Hl & Hlen & Fl).
    apply (abs_inj ["etc"; "hosts"]) in Hl; [by subst|by repeat constructor|done].
Defined.

Lemma takeover_roundtrip_witness :
  wp (fs_spec False)
    (e ← takeoverNeutralize (abs Example.backup) false;
     match e with Some e => Ret (Some e) | None => takeoverRestore (fun _ => true) (abs Example.backup) false end)
    Example.s (fun r s' => r = None /\ s' = Example.s).
Proof. apply takeover_roundtrip; [done|apply Example.backup_proper|apply Example.backup_empty]. Defined.
