(* ===== verification/Reconcile.v ===== *)
(** * What a whole run of apply does, and when

    The phases of [Apply]: it reads the state of the last run; while it removes,
    it deletes only what that state calls for; and from the first call that
    configures anything, nothing of the kernel is deleted any more. *)

From S2P Require Import Prelude GoStd GoNet Effect Config Load State BuildState VppApi Netlink Host Setup Plain World Removals Orphans Safety Vpp VppSetup VppSafe Validate Apply Examples.

(** ** Phases *)

Inductive phase :=
| Loading
| Removing (oldState : State)
| Configuring.

(** The calls of the removals. *)
Definition removal_call {X} (e : sys X) : bool :=
  match e with
  | NewHandle | NewHandleAt _ | HandleClose _ | NsGetFromName _ | NsClose _ | LinkByName (Some _) _
  | AddrDel _ _ _ | RouteDel _ _ | LinkDel _ _ | NsDeleteNamed _ | NeighDel _ _ => true
  | _ => false
  end.

Section reconcile.
Context `{Libs} `{VppLibs} `{RangeOrder} `{SliceSort}.
Context (unmarshal : string -> res State) (marshal : State -> res string) (is_not_exist : error -> bool).

(** The state that Apply takes from what it reads. *)
Definition loaded (r : res string) : State :=
  match Load (fun (_ : string) (_ : unit) => r) is_not_exist unmarshal tt with Ok s => s | Err _ => NewState end.

Definition next {X} (e : sys X) (ph : phase) (x : X) : phase :=
  match ph with
  | Loading => match e in sys X return X -> phase with
               | ReadFile _ => fun r => Removing (loaded r)
               | _ => fun _ => Loading
               end x
  | Removing oldState => if removal_call e then ph else Configuring
  | Configuring => Configuring
  end.

(** ** Permissions *)

Context (cfg : Config) (newState : State).

(** What is configured in a namespace: its entry of the configuration, or, for
    the default one, the devices that VPP does not manage. *)
Definition configured (ns : string) (c : Namespace) : Prop :=
  gm_get (Network_Netns (Config_Network cfg)) ns = Some (Some c) \/
  ns = "" /\ HasDefaultNamespaceConfig cfg = true /\
  c = (splitVPPDevices (ToNamespace (Config_Network cfg)) (Network_Renderer (Config_Network cfg))).1.

(** The namespaces in which something is set up. *)
Definition conf_all (ns : string) : Prop :=
  is_Some (gm_get (Network_Netns (Config_Network cfg)) ns) \/ exists n c, configured n c /\ conf_of n c ns.

(** VPP is configured when the default namespace is, and has devices of VPP or
    a section on it. *)
Definition uses_vpp : Prop :=
  HasDefaultNamespaceConfig cfg = true /\
  (vppSet_empty (splitVPPDevices (ToNamespace (Config_Network cfg)) (Network_Renderer (Config_Network cfg))).2 = false \/
   is_Some (Network_VPP (Config_Network cfg))).

Definition config_perm X (e : sys X) (w : World) : Prop := exists ns,
  (ns = "" \/ exists c, configured ns c) /\ setup_perm ns conf_all uses_vpp X e w.

(** In each phase: the state is read; only what the difference of the states lists,
    and orphans, are deleted; nothing of the kernel is deleted. *)
Definition apply_perm (ph : phase) X (e : sys X) (w : World) : Prop :=
  match ph with
  | Loading => match e with ReadFile path => path = statePath | _ => False end
  | Removing oldState =>
      (exists d, ComputeDiff oldState newState = Some d /\ removal_perm d X e w) \/
      orphan_perm oldState newState X e w \/
      config_perm X e w
  | Configuring => config_perm X e w
  end.

Definition apply_spec : spec sys (phase * World) :=
  Spec (fun X e '(ph, w) => world_pre (apply_perm ph) X e w)
       (fun X e '(ph, w) x '(ph', w') => world_post X e w x w' /\ ph' = next e ph x) True.

(** A program of one stage, whose calls keep to phases of a set. *)
Lemma wp_stage (perm : forall X, sys X -> World -> Prop) (I : phase -> Prop) {A} (p : prog sys A) ph w Q :
  (forall X (e : sys X) ph w, I ph -> perm X e w ->
     apply_perm ph X e w /\ forall x, I (next e ph x)) ->
  I ph -> wp (world_spec perm) p w Q ->
  wp apply_spec p (ph, w) (fun r '(ph', w') => I ph' /\ Q r w').
Proof.
  intros Hperm. revert ph w. induction p as [r| |X e k IH]; intros ph w HI Hp; [by split|done|].
  destruct Hp as [(Hh & Hf & Hl & He) Hk]. destruct (Hperm X e ph w HI He) as [He' HI'].
  split; [by split_and!|]. intros x [ph' w'] [Hx ->]. apply IH; [done|]. by apply Hk.
Qed.

(** *** The removals *)

Lemma removal_call_perm oldState X (e : sys X) w :
  ((exists d, removal_perm d X e w) \/ orphan_perm oldState newState X e w) -> removal_call e = true.
Proof. intros [[d He]|He]; destruct e; try done; by destruct h. Qed.

Lemma wp_apply_removals oldState w :
  w_cur w = "" ->
  wp apply_spec (apply_removals oldState newState) (Removing oldState, w)
    (fun _ '(ph, w') => ph = Removing oldState /\ same_but_fds w w').
Proof.
  intros Hcur. apply wp_bind, wp_lift; [|done]. intros d Hd.
  assert (forall w', same_but_fds w w' -> w_cur w' = "") as Hc by (intros w' (_ & _ & -> & _); done).
  apply wp_bind. eapply wp_mono; [|apply (wp_stage (removal_perm d) (fun ph => ph = Removing oldState) _ _ _
                                            (fun _ w' => same_but_fds w w'))].
  2: { intros X e ph w1 -> He. split; [left; by exists d|]. intros x. unfold next.
       by rewrite (removal_call_perm oldState X e w1) by eauto. }
  2: { done. }
  2: { by apply wp_applyRemovals. }
  assert (forall X (e : sys X) ph w, ph = Removing oldState -> orphan_perm oldState newState X e w ->
    apply_perm ph X e w /\ forall x, next e ph x = Removing oldState) as Ho.
  { intros X e ph w1 -> He. split; [right; by left|]. intros x. unfold next.
    by rewrite (removal_call_perm oldState X e w1) by eauto. }
  intros _ [ph w1] [-> Hw1]. apply wp_bind. eapply wp_mono.
  2: { apply (wp_stage _ (fun ph => ph = Removing oldState) _ _ _ (fun _ w' => same_but_fds w1 w') Ho); [done|].
       apply wp_reapSRv6Orphans, Hc, Hw1. }
  intros _ [ph w2] [-> Hw2]. eapply wp_mono.
  2: { apply (wp_stage _ (fun ph => ph = Removing oldState) _ _ _ (fun _ w' => same_but_fds w2 w') Ho); [done|].
       apply wp_reapNDProxyOrphans, Hc. by etrans. }
  intros _ [ph w3] [-> Hw3]. split; [done|]. by do 2 (etrans; [eassumption|]).
Qed.

(** *** The configuration *)

Lemma setup_perm_mono ns (conf conf' : string -> Prop) (vpp vpp' : Prop) X (e : sys X) w :
  (forall n, conf n -> conf' n) -> (vpp -> vpp') -> setup_perm ns conf vpp X e w -> setup_perm ns conf' vpp' X e w.
Proof. intros Hc Hv. destruct e; simpl; naive_solver. Qed.

Lemma wp_perm_mono (perm perm' : forall X, sys X -> World -> Prop) {A} (p : prog sys A) w Q :
  (forall X (e : sys X) w, perm X e w -> perm' X e w) ->
  wp (world_spec perm) p w Q -> wp (world_spec perm') p w Q.
Proof.
  intros Hp. revert w. induction p as [r| |X e k IH]; intros w Hw; [done|done|].
  destruct Hw as [(A1 & A2 & A3 & A4) Hk]. split; [split_and!; auto|].
  intros x w' Hx. by apply IH, Hk.
Qed.

Lemma wp_config ns {A} (p : prog sys A) ph w Q :
  ns = "" \/ (exists c, configured ns c) -> ph <> Loading ->
  wp (world_spec (setup_perm ns conf_all uses_vpp)) p w Q ->
  wp apply_spec p (ph, w) (fun r '(ph', w') => ph' <> Loading /\ Q r w').
Proof.
  intros Hns. apply (wp_stage _ (fun ph => ph <> Loading)). intros X e ph1 w1 Hph He.
  assert (config_perm X e w1) as Hc by by exists ns.
  destruct ph1 as [|o|]; [done|split; [by right; right|]|by split].
  intros x. simpl. by destruct (removal_call e).
Qed.

(** A program whose thread stays in its namespace. *)
Lemma wp_stays perm {A} (p : prog sys A) w Q :
  all_calls stays p -> wp (world_spec perm) p w Q ->
  wp (world_spec perm) p w (fun r w' => Q r w' /\ w_cur w' = w_cur w /\ w_lost w' = w_lost w).
Proof.
  revert w. induction p as [r| |X e k IH]; intros w Hs Hw; [done|done|].
  destruct Hs as [He Hs], Hw as [Hpre Hk]. split; [done|]. intros x w1 Hx.
  assert (w_cur w1 = w_cur w /\ w_lost w1 = w_lost w) as [<- <-]; [|by apply IH; [|apply Hk]].
  destruct e; simpl in Hx; try done; unfold fd_opened, handle_opened in Hx;
    repeat match type of Hx with match ?r with _ => _ end => destruct r end; naive_solver.
Qed.

(** The descriptors that are left open are of named namespaces. *)
Definition named (n : string) : Prop := n <> "".
#[local] Abbreviation kept := (kept named).

(** The worlds from which the configuration goes on. *)
Definition ready (w0 w : World) : Prop := kept w0 w /\ w_cur w = "" /\ w_lost w = false.

Lemma kept_inv w0 w : kept w0 w <-> world_inv named (w_handles w0) (w_fds w0) (w_lock w0) false w.
Proof. unfold Safety.kept, world_inv. naive_solver. Qed.

Lemma kept_trans w0 w1 w2 : kept w0 w1 -> kept w1 w2 -> kept w0 w2.
Proof.
  intros (A1 & A2 & A3 & A4) (B1 & B2 & B3 & B4). split_and!; [congruence|by etrans|congruence|done].
Qed.

Section setup.
Context (w0 : World).
#[local] Abbreviation sp ns := (world_spec (setup_perm ns conf_all uses_vpp)).

Lemma wp_create_netns w :
  gm_get (Network_Netns (Config_Network cfg)) "" = None -> ready w0 w ->
  wp (sp "") (create_netns cfg) w (fun r w' => match r with None => ready w0 w' | Some _ => kept w0 w' end).
Proof.
  intros He Hw. apply wp_for_err_stop; [done|]. intros ns w1 Hin (Hk & Hc & Hl).
  assert (is_Some (gm_get (Network_Netns (Config_Network cfg)) ns)) as Hns.
  { apply list_elem_of_fmap in Hin as ([ns' c] & -> & Hin%elem_of_range). by exists c. }
  apply wp_bind, (wp_NetnsExists _ (setup_allows _ _ _)). { intros ->. rewrite He in Hns. by destruct Hns. }
  intros ex w2 (A1 & A2 & A3 & A4 & A5).
  assert (ready w0 w2) as Hr2.
  { destruct Hk as (B1 & B2 & B3 & _). split; [split_and!; [congruence|by etrans|congruence|intros _; congruence]|split; congruence]. }
  destruct ex; [done|]. apply wp_bind. eapply wp_mono; [|apply (wp_CreateNetns _ (setup_allows_ns _ _ _)); [done|by left]].
  intros r w3 (C1 & C2 & C3 & C4). destruct Hr2 as ((B1 & B2 & B3 & B4) & B5 & B6).
  assert (kept w0 w3) as Hk3.
  { split_and!; [congruence|by rewrite C2|congruence|]. intros Hl3.
    destruct C4 as [[-> Hlost]|[_ Hlost]]; congruence. }
  destruct r as [e|]; [done|]. split; [done|]. destruct C4 as [[-> ->]|[[] _]]; done.
Qed.

Lemma wp_applyNamespaceConfig_conf ns c w :
  (ns = "" -> w_cur w = "") -> configured ns c -> kept w0 w ->
  wp (sp ns) (applyNamespaceConfig ns (Some c)) w (fun _ w' => kept w0 w').
Proof.
  intros Hns Hc Hw. eapply wp_perm_mono; [|eapply wp_mono; [|apply wp_applyNamespaceConfig]].
  - intros X e w1. apply setup_perm_mono; [|done]. intros n Hn. right. by exists ns, c.
  - intros r w' (B1 & B2 & B3 & B4). apply (kept_trans w0 w); [done|]. split_and!; [done| |done..].
    eapply leaves_mono; [|exact B2]. by intros n [Hne _].
  - apply Hw.
  - done.
Qed.

Lemma wp_apply_default w :
  ready w0 w -> wp (sp "") (apply_default cfg) w (fun _ w' => kept w0 w').
Proof.
  intros (Hk & Hc & Hl). unfold apply_default. destruct (HasDefaultNamespaceConfig cfg) eqn:Ed; [|done].
  destruct (splitVPPDevices _ _) as [kernelNS vppDevs] eqn:Es.
  assert (configured "" kernelNS) as Hconf by (right; by rewrite Es).
  assert (conf_all "") as Hall by (right; exists "", kernelNS; split; [done|by left]).
  apply wp_bind. eapply (wp_mono _ _ _ (fun _ w' => kept w0 w' /\ w_cur w' = "")).
  - intros [e|] w1 [Hk1 Hc1]; [done|]. apply wp_bind. eapply wp_mono.
    2: { by apply (wp_applyNamespaceConfig_conf "" kernelNS). }
    by intros [e|].
  - destruct (_ || _) eqn:Ev; [|done]. eapply wp_mono; [|apply wp_stays; [apply stays_setupVPP|]].
    2: { assert uses_vpp as Hvpp.
         { split; [done|]. rewrite Es. simpl. apply orb_true_iff in Ev as [Ev|Ev]; [left; by apply negb_true_iff|right].
           by destruct (Network_VPP _); [eexists|]. }
         apply (safe_setupVPP "" conf_all uses_vpp named Hall Hvpp (w_handles w0) (w_fds w0) (w_lock w0) false).
         by apply kept_inv. }
    intros r w1 [Hw1%kept_inv [Hc1 _]]. split; [done|congruence].
Qed.

Lemma wp_apply_netns_one ns w :
  gm_get (Network_Netns (Config_Network cfg)) "" = None ->
  ns ∈ GetNetnsNames cfg -> kept w0 w ->
  let c := default None (gm_get (Network_Netns (Config_Network cfg)) ns) in
  exists n, (n = "" \/ exists c', configured n c') /\
  wp (sp n) (try! applyNamespaceConfig ns c as EWrap "failed to configure netns %s: %w" [ns]; Ret None) w
    (fun _ w' => kept w0 w').
Proof.
  intros He Hin Hk. simpl. destruct (gm_get _ ns) as [[c|]|] eqn:Ec; simpl; [|by exists ""; split; [left|]..].
  assert (configured ns c) as Hc by by left.
  exists ns. split; [right; eauto|]. apply wp_bind. eapply wp_mono.
  2: { apply (wp_applyNamespaceConfig_conf ns c); [|done|done]. intros ->. by rewrite He in Ec. }
  by intros [e|].
Qed.

Lemma safe_state_save l F Hs s : safe "" conf_all uses_vpp named Hs F l false (state_save marshal s).
Proof.
  apply safe_bind; [by apply safe_host|]. intros [e|]; [apply safe_ret|].
  apply safe_bind; [by apply safe_host|]. intros now.
  destruct (marshal _); [by apply safe_host|apply safe_ret].
Qed.
End setup.

(** ** Apply *)

Lemma wp_Apply w :
  gm_get (Network_Netns (Config_Network cfg)) "" = None -> buildStateFromConfig cfg = Some newState ->
  w_cur w = "" -> w_lost w = false ->
  wp apply_spec (Apply unmarshal marshal is_not_exist cfg) (Loading, w) (fun _ '(ph, w') => kept w w').
Proof.
  intros He Hs Hc Hl. apply wp_bind, wp_bind, wp_call.
  { split_and!; [done..|]. done. }
  intros data [ph w1] [Hw1 ->]. simpl in Hw1. subst w1. apply wp_ret. cbn [next].
  apply wp_bind. rewrite Hs. apply wp_ret.
  change (match Load (fun (_ : string) (_ : ()) => data) is_not_exist unmarshal () with
          | Ok s => s | Err _ => NewState end) with (loaded data).
  apply wp_bind. eapply wp_mono; [|by apply wp_apply_removals].
  intros _ [ph w1] [-> (A1 & A2 & A3 & A4 & A5)].
  assert (ready w w1) as Hr by (split; [split_and!; [done|done|done|intros _; congruence]|split; congruence]).
  apply wp_bind. eapply wp_mono; [|apply (wp_config ""); [by left|done|by apply wp_create_netns]].
  intros [e|] [ph w2] [Hph Hw2]; [done|].
  apply wp_bind. eapply wp_mono; [|apply (wp_config ""); [by left|done|by apply wp_apply_default]].
  intros [e|] [ph' w3] [Hph' Hw3]; [done|].
  apply wp_bind. eapply wp_mono.
  2: { apply (wp_for_err _ _ _ _ (fun '(ph, w') => ph <> Loading /\ kept w w')); [done|].
       intros ns [ph1 w4] Hin [Hph1 Hw4].
       destruct (wp_apply_netns_one w ns w4 He Hin Hw4) as (n & Hn & Hwp).
       by apply (wp_config n). }
  intros [e|] [ph1 w4] [Hph1 Hw4]; [done|].
  apply wp_bind. eapply wp_mono.
  2: { apply (wp_config ""); [by left|done|]. apply safe_state_save. by apply kept_inv. }
  intros r [ph2 w5] [_ Hw5]. by apply kept_inv.
Qed.
End reconcile.


(** A configuration with one namespace. *)
Module Example5.
Definition cfg : Config :=
  Config_zero <| Config_Network := Network_zero <| Network_Netns := Some {["blue" := Some Namespace_zero]} |> |>.

Lemma cfg_ok : config_ok cfg.
Proof.
  split; [intros E; discriminate E|]. intros name n. change (Network_Netns _) with (Some ({["blue" := Some Namespace_zero]} : gmap string (ptr Namespace))).
  rewrite gm_get_singleton. case_decide; [|intros E; discriminate E]. intros E.
  apply (inj Some) in E. subst n. exists Namespace_zero. split; [done|]. split; [|intros srv6 E; discriminate E].
  intros k name' d Hk. by destruct k.
Qed.
End Example5.
#[local] Existing Instances Examples.libs Examples.vpp_libs.

