(* ===== verification/Console.v ===== *)
(** * What the commands print

    The commands that only look: diff, generate, status, show, netns list and wg
    (cmd/diff.go, generate.go, status.go, netns.go, wg.go), with what they write
    to the standard output, which is one call more than those of [sys]; and the
    start of a process by netns exec. *)

From S2P Require Import Prelude GoStd GoNet Effect Config Load State BuildState Netlink Host Dhcp Purego Apply Commands.

(** ** Calls *)

(** wgtypes.Device and wgtypes.Peer; a key is its text, and so is an endpoint, and
    a time that is zero is [None]. *)
Record WgPeerInfo := MkWgPeerInfo {
  WgPeerInfo_PublicKey : string;
  WgPeerInfo_Endpoint : option string;
  WgPeerInfo_AllowedIPs : list Net.IPNet;
  WgPeerInfo_LastHandshakeTime : option Z;
  WgPeerInfo_ReceiveBytes : Z;
  WgPeerInfo_TransmitBytes : Z;
  WgPeerInfo_PersistentKeepaliveInterval : Z
}.

Record WgDevice := MkWgDevice {
  WgDevice_Name : string;
  WgDevice_PublicKey : string;
  WgDevice_ListenPort : Z;
  WgDevice_FirewallMark : Z;
  WgDevice_Peers : list WgPeerInfo
}.

(** The calls of [sys], those on the terminal, those of wgctrl and wgtypes that
    the other components do not use, and those on a process. *)
Inductive tty : Type -> Type :=
| Sys {X : Type} (e : sys X) : tty X
| Print (s : string) : tty unit
| Scanln : tty (res string)
| WgGetDevice (client : handle) (name : string) : tty (res WgDevice)
| WgListDevices (client : handle) : tty (res (list WgDevice))
| WgGeneratePrivateKey : tty (res string)
| WgGenerateKey : tty (res string)
| StartProcess (path : string) (argv : list string) : tty (res Z)
| ProcessWait (p : Z) : tty (res Z).

(** The functions of the libraries that are computed without a call:
    LinkOperState.String of netlink, Key.PublicKey of wgtypes, yaml.Marshal of a
    Config, and Time.Format("2006-01-02 15:04:05"), in the local time zone. *)
Class ConsoleLibs := {
  OperState_String : OperState -> string;
  PublicKey : string -> string;
  YamlMarshal : Config -> res string;
  FormatTime : Z -> string;
}.

(** A program over the calls of the system, at a terminal. *)
Fixpoint of_sys {A} (p : prog sys A) : prog tty A :=
  match p with
  | Ret a => Ret a
  | Crash => Crash
  | Vis e k => Vis (Sys e) (fun x => of_sys (k x))
  end.

Definition println (s : string) : prog tty unit := call (Print (s +:+ newline)).

(** [%x] of a non-negative integer. *)
Fixpoint hex_digits (fuel : nat) (n : Z) (acc : string) : string :=
  match fuel with
  | O => acc
  | S fuel =>
      let acc := String (Net.hex_digit (n mod 16)) acc in
      if n <? 16 then acc else hex_digits fuel (n / 16) acc
  end.
Definition hex (n : Z) : string := hex_digits 64 n "".

(** *** text/tabwriter

    A writer of NewWriter(os.Stdout, 0, 0, 2, ' ', 0): the cells of a line are
    ended by tabs, but for the last; a column is made of the cells of consecutive
    lines at one position, and is two wider than the widest of them.  Widths are
    counted in runes. *)
Fixpoint rune_count (s : string) : nat :=
  match s with
  | EmptyString => 0
  | String a s => (if (128 <=? N_of_ascii a)%N && (N_of_ascii a <? 192)%N then 0 else 1) + rune_count s
  end.

(** The widest cell at [j] in the lines up to the first that has none. *)
Fixpoint run_width (j : nat) (lines : list (list string)) : nat :=
  match lines with
  | [] => 0
  | l :: lines =>
      if (S j <? length l)%nat then Nat.max (rune_count (nth j l "")) (run_width j lines) else 0
  end.

Fixpoint spaces (n : nat) : string := match n with O => "" | S n => " " +:+ spaces n end.

(** The cells from [j] on, between the lines above, the nearest first, and those below. *)
Fixpoint format_cells (above below : list (list string)) (j : nat) (cells : list string) : string :=
  match cells with
  | [] => ""
  | [last] => last
  | c :: cells =>
      let w := Nat.max (rune_count c) (Nat.max (run_width j above) (run_width j below)) in
      c +:+ spaces (w + 2 - rune_count c) +:+ format_cells above below (S j) cells
  end.

Fixpoint format_lines (above lines : list (list string)) : string :=
  match lines with
  | [] => ""
  | [last] => format_cells above [] 0 last
  | l :: lines => format_cells above lines 0 l +:+ newline +:+ format_lines (l :: above) lines
  end.

Definition tabbed (text : string) : string :=
  format_lines [] ((fun l => Str.split_byte l (Str.byte 9)) <$> lines text).

(** A tab. *)
Definition tab : string := String (Str.byte 9) "".

Example tabbed_columns :
  tabbed ("NAME" +:+ tab +:+ "PATH" +:+ newline +:+ "blue" +:+ tab +:+ "/run/blue" +:+ newline +:+
          "a" +:+ tab +:+ "/run/a" +:+ newline) =
  "NAME  PATH" +:+ newline +:+ "blue  /run/blue" +:+ newline +:+ "a     /run/a" +:+ newline.
Proof. vm_compute. reflexivity. Qed.

(** ** netns list and exec *)

(* go: netlink/netlink.go 1792-1795 GetNetnsPath *)
Definition GetNetnsPath (name : string) : string := path_join NetnsRunDir name.

Section console.
Context `{ConsoleLibs} `{RangeOrder}.
(** os.IsNotExist. *)
Context (is_not_exist : error -> bool).

(* go: cmd/netns.go 60-82 runNetnsList *)
Definition runNetnsList : prog tty err :=
  get! namespaces := of_sys (ListNetns is_not_exist) as EWrap "failed to list netns: %w" [];
  match namespaces with
  | [] => println "No network namespaces found" ;; Ret None
  | _ =>
      call (Print (tabbed ("NAME" +:+ tab +:+ "PATH" +:+ newline +:+
        concat_str ((fun ns => ns +:+ tab +:+ GetNetnsPath ns +:+ newline) <$> namespaces)))) ;;
      Ret None
  end.

(** The answer of Wait is the exit code; a process that a signal ended has -1. *)
(* go: cmd/netns.go 127-152 runInNetns *)
Definition runInNetns (nsName command : string) (args : list string) : prog tty err :=
  get! p := call (StartProcess "/sbin/ip" (["ip"; "netns"; "exec"; nsName; command] ++ args))
    as EWrap "failed to exec: %w" [];
  get! code := call (ProcessWait p) as same_err;
  Ret (if code =? 0 then None else Some (EMsg "command exited with status %d" [Str.itoa code])).

(** cobra calls it with two arguments or more. *)
(* go: cmd/netns.go 114-125 runNetnsExec *)
Definition runNetnsExec (args : list string) : prog tty err :=
  match args with
  | nsName :: command :: rest =>
      ex ← of_sys (NetnsExists nsName);
      if negb (ex : bool) then Ret (Some (EMsg "netns %s does not exist" [nsName]))
      else runInNetns nsName command rest
  | _ => Crash
  end.

(** ** status and show *)

(* go: cmd/status.go 300-307 contains *)
Fixpoint contains (slice : list string) (item : string) : bool :=
  match slice with [] => false | s :: slice => Str.eqb s item || contains slice item end.

(** The line of a link in the table. *)
(* go: cmd/status.go 175-207 showNamespace *)
Definition status_line (m : NetlinkManager) (link : Link) : prog tty string :=
  let state := if Link_FlagUp link then "UP" else "DOWN" in
  let mac := mac_string (Link_HardwareAddr link) in
  let mac := if Str.is_empty mac then "-" else mac in
  r ← of_sys (ListAddresses m (Link_Name link));
  let addrs := match r with Ok l => l | Err _ => [] end in
  let addrStr := Str.join ((fun a => Net.IPNet_String (Addr_IPNet a)) <$> addrs) ", " in
  let addrStr := if Str.is_empty addrStr then "-" else addrStr in
  Ret (Link_Name link +:+ tab +:+ state +:+ tab +:+ mac +:+ tab +:+ addrStr +:+ newline).

(* go: cmd/status.go 152-212 showNamespace *)
Definition showNamespace (nsName : string) (filterInterfaces : list string) : prog tty err :=
  get! mgr := of_sys (if Str.is_empty nsName then New else NewWithNetns nsName)
    as EWrap "failed to create netlink manager: %w" [];
  deferred (
    get! links := of_sys (ListLinks mgr) as EWrap "failed to list links: %w" [];
    text ← for_fold links ("INTERFACE" +:+ tab +:+ "STATE" +:+ tab +:+ "MAC" +:+ tab +:+ "ADDRESSES" +:+ newline)
      (fun text link =>
        if match filterInterfaces with [] => false | _ => negb (contains filterInterfaces (Link_Name link)) end
        then Ret text
        else line ← status_line mgr link; Ret (text +:+ line));
    call (Print (tabbed text)) ;;
    Ret None) (of_sys (Close mgr)).

(** An error of a named namespace is printed, and the others are shown. *)
(* go: cmd/status.go 129-150 showAllNamespaces *)
Definition showAllNamespaces (errorText : error -> string) (filterInterfaces : list string) : prog tty err :=
  println "=== Default Namespace ===" ;;
  try! showNamespace "" filterInterfaces as same_err;
  get! namespaces := of_sys (ListNetns is_not_exist) as EWrap "failed to list netns: %w" [];
  for_each namespaces (fun ns =>
    println (newline +:+ "=== Namespace: " +:+ ns +:+ " ===") ;;
    e ← showNamespace ns filterInterfaces;
    match e with Some e => println ("Error: " +:+ errorText e) | None => Ret tt end) ;;
  Ret None.

(** The flags are arguments; [None] is [waitOnline] without enough fuel. *)
(* go: cmd/status.go 51-65 runStatus *)
Definition runStatus (fuel : nat) (errorText : error -> string) (cfg : res Config) (statusWaitTimeout : Z)
    (statusWait statusAll : bool) (statusNetns : string) (args : list string) : prog tty (option err) :=
  if statusWait then of_sys (waitOnline fuel cfg statusWaitTimeout)
  else if statusAll then e ← showAllNamespaces errorText args; Ret (Some e)
  else if negb (Str.is_empty statusNetns) then e ← showNamespace statusNetns args; Ret (Some e)
  else e ← showNamespace "" args; Ret (Some e).

(* go: cmd/status.go 260-298 showLinkDetails *)
Definition showLinkDetails (m : NetlinkManager) (link : Link) : prog tty unit :=
  println ("Interface: " +:+ Link_Name link) ;;
  println ("  Type: " +:+ Link_Type link) ;;
  println ("  State: " +:+ OperState_String (Link_OperState link)) ;;
  println ("  MAC: " +:+ mac_string (Link_HardwareAddr link)) ;;
  println ("  MTU: " +:+ Str.itoa (Link_MTU link)) ;;
  println ("  Index: " +:+ Str.itoa (Link_Index link)) ;;
  (if 0 <? Link_MasterIndex link then println ("  Master Index: " +:+ Str.itoa (Link_MasterIndex link)) else Ret tt) ;;
  addrs ← of_sys (ListAddresses m (Link_Name link));
  (match addrs with
   | Ok ((_ :: _) as addrs) =>
       println "  Addresses:" ;;
       for_each addrs (fun addr => println ("    - " +:+ Net.IPNet_String (Addr_IPNet addr)))
   | _ => Ret tt
   end) ;;
  routes ← of_sys (ListRoutes m (Link_Name link));
  match routes with
  | Ok ((_ :: _) as routes) =>
      println "  Routes:" ;;
      for_each routes (fun route =>
        let dst := match NlRoute_Dst route with Some d => Net.IPNet_String d | None => "default" end in
        let gw := match NlRoute_Gw route with Some g => " via " +:+ Net.IP_String g | None => "" end in
        println ("    - " +:+ dst +:+ gw))
  | _ => Ret tt
  end.

(* go: cmd/status.go 226-258 runShow *)
Definition runShow (args : list string) : prog tty err :=
  get! mgr := of_sys New as same_err;
  deferred (
    match args with
    | [] =>
        get! links := of_sys (ListLinks mgr) as same_err;
        for_each links (fun link => showLinkDetails mgr link ;; println "") ;;
        Ret None
    | _ =>
        for_each args (fun name =>
          r ← of_sys (link_by_name mgr name);
          match r with
          | Err _ => println ("Interface " +:+ name +:+ " not found")
          | Ok link => showLinkDetails mgr link ;; println ""
          end) ;;
        Ret None
    end) (of_sys (Close mgr)).

(** ** generate *)

(* go: cmd/generate.go 33-49 runGenerate *)
Definition runGenerate (cfg : res Config) (configDir : string) : prog tty err :=
  get! cfg := Ret cfg as EWrap "failed to load config: %w" [];
  get! data := Ret (YamlMarshal cfg) as EWrap "failed to marshal config: %w" [];
  println ("# Merged configuration from " +:+ configDir) ;;
  println data ;;
  Ret None.

(** ** diff *)

(** The label of a namespace. *)
(* go: cmd/diff.go 70-73 runDiff *)
Definition nsLabel (ns : string) : string := if Str.is_empty ns then "default" else ns.

Definition device_line (verb dev ns : string) : string := "  " +:+ verb +:+ " device " +:+ dev +:+ " (in " +:+ nsLabel ns +:+ ")".
Definition item_line (verb item prep dev ns : string) : string :=
  "  " +:+ verb +:+ " " +:+ item +:+ " " +:+ prep +:+ " " +:+ dev +:+ " (in " +:+ nsLabel ns +:+ ")".

(** A loop over the devices of the namespaces, and one over what they list. *)
(* go: cmd/diff.go 69-77 runDiff *)
Definition print_devices (site : Z) (m : gomap (list string)) (verb : string) : prog tty unit :=
  for_each (gm_range site m) (fun '(ns, devs) => for_each devs (fun dev => println (device_line verb dev ns))).
(* go: cmd/diff.go 91-101 runDiff *)
Definition print_items (site : Z) (m : gomap (gomap (list string))) (verb what prep : string) : prog tty unit :=
  for_each (gm_range site m) (fun '(ns, devItems) =>
    for_each (gm_range (site + 5) devItems) (fun '(dev, items) =>
      for_each items (fun item => println (item_line verb (what +:+ " " +:+ item) prep dev ns)))).

(* go: cmd/diff.go 55-140 runDiff *)
Definition print_changes (diff : Diff) : prog tty unit :=
  println "The following changes would be applied:" ;;
  println "" ;;
  for_each (Diff_NsToRemove diff) (fun ns => println ("  - Remove namespace: " +:+ ns)) ;;
  for_each (Diff_NsToAdd diff) (fun ns => println ("  + Add namespace: " +:+ ns)) ;;
  print_devices 69 (Diff_DevicesToRemove diff) "- Remove" ;;
  print_devices 80 (Diff_DevicesToAdd diff) "+ Add" ;;
  print_items 91 (Diff_AddressesToRemove diff) "- Remove" "address" "from" ;;
  print_items 104 (Diff_AddressesToAdd diff) "+ Add" "address" "to" ;;
  print_items 117 (Diff_RoutesToRemove diff) "- Remove" "route" "from" ;;
  print_items 130 (Diff_RoutesToAdd diff) "+ Add" "route" "to".

(* go: cmd/diff.go 31-143 runDiff *)
Definition runDiff (unmarshal : string -> res State) (cfg : res Config) : prog tty err :=
  get! cfg := Ret cfg as EWrap "failed to load config: %w" [];
  r ← of_sys (state_load unmarshal is_not_exist);
  let oldState := match r with Ok s => s | Err _ => NewState end in
  newState ← lift (buildStateFromConfig cfg);
  diff ← lift (ComputeDiff oldState newState);
  if IsEmpty diff then println "No changes detected." ;; Ret None
  else print_changes diff ;; Ret None.

(** ** wg *)

(* go: netlink/wireguard.go 102-105 GetDevice *)
Definition GetDevice (client : handle) (name : string) : prog tty (res WgDevice) := call (WgGetDevice client name).

(* go: netlink/wireguard.go 107-110 ListDevices *)
Definition ListDevices (client : handle) : prog tty (res (list WgDevice)) := call (WgListDevices client).

(* go: netlink/wireguard.go 141-149 GenerateKeyPair *)
Definition GenerateKeyPair : prog tty (res (string * string)) :=
  let! privKey := call WgGeneratePrivateKey as EWrap "failed to generate private key: %w" [];
  Ret (Ok (privKey, PublicKey privKey)).

(* go: netlink/wireguard.go 151-158 GeneratePresharedKey *)
Definition GeneratePresharedKey : prog tty (res string) :=
  call WgGenerateKey ≫= fun key =>
  Ret (match key with Ok key => Ok key | Err e => Err (EWrap "failed to generate preshared key: %w" [] e) end).

(* go: netlink/wireguard.go 160-167 PublicKeyFromPrivate *)
Definition PublicKeyFromPrivate `{Libs} (privateKey : string) : res string :=
  match ParseKey privateKey with Ok key => Ok (PublicKey key) | Err e => Err e end.

(* go: cmd/wg.go 25-37 wgGenkeyCmd *)
Definition wgGenkey : prog tty err :=
  get! keys := GenerateKeyPair as same_err; println keys.1 ;; Ret None.

(* go: cmd/wg.go 39-56 wgPubkeyCmd *)
Definition wgPubkey `{Libs} : prog tty err :=
  get! privKey := call Scanln as EWrap "failed to read private key: %w" [];
  get! pubKey := Ret (PublicKeyFromPrivate privKey) as same_err;
  println pubKey ;; Ret None.

(* go: cmd/wg.go 58-70 wgGenpskCmd *)
Definition wgGenpsk : prog tty err :=
  get! psk := GeneratePresharedKey as same_err; println psk ;; Ret None.

(** *** wg show *)

(** [n] in [prec] digits, without the zeros at its end, after a point unless
    nothing is left. *)
Fixpoint fraction (prec : nat) (n : Z) (print : bool) : string :=
  match prec with
  | O => if print then "." else ""
  | S prec =>
      let print := print || negb (n mod 10 =? 0) in
      fraction prec (n / 10) print +:+ (if print then Str.itoa (n mod 10) else "")
  end.

(** Duration.String of a duration that is not negative. *)
Definition duration_string (d : Z) : string :=
  let with_unit (prec : nat) (u : string) := Str.itoa (d / 10 ^ Z.of_nat prec) +:+ fraction prec d false +:+ u in
  if d =? 0 then "0s"
  else if d <? 1000 then with_unit 0%nat "ns"
  else if d <? 1000000 then with_unit 3%nat "µs"
  else if d <? second then with_unit 6%nat "ms"
  else
    let secs := d / second in
    (if 3600 <=? secs then Str.itoa (secs / 3600) +:+ "h" else "") +:+
    (if 60 <=? secs then Str.itoa (secs / 60 mod 60) +:+ "m" else "") +:+
    Str.itoa (secs mod 60) +:+ fraction 9 d false +:+ "s".

(** What is written of a peer; [formatBytes] could panic. *)
(* go: cmd/wg.go 130-155 showWireGuardDevice *)
Definition peer_text (peer : WgPeerInfo) : pan string :=
  transfer ← (if (0 <? WgPeerInfo_ReceiveBytes peer) || (0 <? WgPeerInfo_TransmitBytes peer) then
      r ← formatBytes (WgPeerInfo_ReceiveBytes peer);
      t ← formatBytes (WgPeerInfo_TransmitBytes peer);
      Some ("  transfer:" +:+ tab +:+ r +:+ " received, " +:+ t +:+ " sent" +:+ newline)
    else Some "");
  Some (
    newline +:+
    "peer: " +:+ WgPeerInfo_PublicKey peer +:+ newline +:+
    (match WgPeerInfo_Endpoint peer with Some e => "  endpoint:" +:+ tab +:+ e +:+ newline | None => "" end) +:+
    (match WgPeerInfo_AllowedIPs peer with
     | [] => ""
     | ips => "  allowed ips:" +:+ tab +:+ Str.join (Net.IPNet_String <$> ips) ", " +:+ newline
     end) +:+
    (match WgPeerInfo_LastHandshakeTime peer with
     | Some t => "  latest handshake:" +:+ tab +:+ FormatTime t +:+ newline
     | None => ""
     end) +:+
    transfer +:+
    (if 0 <? WgPeerInfo_PersistentKeepaliveInterval peer then
       "  persistent keepalive:" +:+ tab +:+ "every " +:+ duration_string (WgPeerInfo_PersistentKeepaliveInterval peer) +:+ newline
     else "")).

(* go: cmd/wg.go 111-159 showWireGuardDevice *)
Definition showWireGuardDevice (client : handle) (name : string) : prog tty err :=
  get! dev := GetDevice client name as EWrap "failed to get device %s: %w" [name];
  peers ← lift (mapM peer_text (WgDevice_Peers dev));
  call (Print (tabbed (
    "interface: " +:+ WgDevice_Name dev +:+ newline +:+
    "  public key:" +:+ tab +:+ WgDevice_PublicKey dev +:+ newline +:+
    (if 0 <? WgDevice_ListenPort dev then "  listen port:" +:+ tab +:+ Str.itoa (WgDevice_ListenPort dev) +:+ newline else "") +:+
    (if 0 <? WgDevice_FirewallMark dev then "  fwmark:" +:+ tab +:+ "0x" +:+ hex (WgDevice_FirewallMark dev) +:+ newline else "") +:+
    concat_str peers))) ;;
  Ret None.

(** The loop over the devices, with an empty line between them. *)
(* go: cmd/wg.go 99-106 wgShowCmd *)
Definition show_devices (client : handle) (devices : list WgDevice) : prog tty err :=
  for_err (imap (fun i dev => (i, dev)) devices) (fun '(i, dev) =>
    (if Nat.eqb i 0 then Ret tt else println "") ;;
    showWireGuardDevice client (WgDevice_Name dev)).

(* go: cmd/wg.go 72-109 wgShowCmd *)
Definition wgShow (args : list string) : prog tty err :=
  get! client := of_sys NewWireGuardManager as same_err;
  deferred (
    match args with
    | name :: _ => showWireGuardDevice client name
    | [] =>
        get! devices := ListDevices client as same_err;
        match devices with
        | [] => println "No WireGuard devices found" ;; Ret None
        | _ => show_devices client devices
        end
    end) (of_sys (call (WgClose client))).
End console.

Example duration_keepalive : duration_string (25 * second) = "25s".
Proof. vm_compute. reflexivity. Qed.
Example duration_minutes : duration_string (3661 * second + 500000000) = "1h1m1.5s".
Proof. vm_compute. reflexivity. Qed.
Example duration_small : duration_string 1200 = "1.2µs".
Proof. vm_compute. reflexivity. Qed.
