(* ===== verification/ConsoleProps.v ===== *)
(** * What `netcfg diff` announces

    diff prints what the difference of the two states lists, and nothing is
    removed by that difference which it has not printed. *)

From S2P Require Import Prelude GoStd GoNet Effect Config State BuildState Netlink Dhcp World Removals Apply Reconcile Examples Console.

(** ** Programs at a terminal *)

(** Where nothing but a file is read: what is printed is recorded, the file is
    [file], and nothing else is called. *)
Definition console_spec (path : string) (file : res string) : spec tty (list string) := Spec
  (fun X e out => match e with Print _ => True | Sys (ReadFile p) => p = path | _ => False end)
  (fun X e out => match e in tty X return X -> list string -> Prop with
   | Print s => fun _ out' => out' = out ++ [s]
   | Sys e => match e in sys X return X -> list string -> Prop with
              | ReadFile _ => fun r out' => r = file /\ out' = out
              | _ => fun _ out' => out' = out
              end
   | _ => fun _ out' => out' = out
   end) False.

Section prints.
Context (path : string) (file : res string).
#[local] Abbreviation sp := (console_spec path file).

(** The program only prints, the texts [l]. *)
Definition prints {A} (p : prog tty A) (l : list string) : Prop :=
  forall out, wp sp p out (fun _ out' => out' = out ++ l).

Lemma prints_println s : prints (println s) [s +:+ newline].
Proof. intros out. by apply wp_call. Qed.

Lemma prints_seq {A} (p : prog tty unit) (q : prog tty A) l l' :
  prints p l -> prints q l' -> prints (p ;; q) (l ++ l').
Proof.
  intros Hp Hq out. apply wp_bind. eapply wp_mono; [|apply Hp]. intros ? ? ->.
  eapply wp_mono; [|apply Hq]. intros ? ? ->. by rewrite app_assoc.
Qed.

Lemma prints_each {A} (l : list A) body (f : A -> list string) :
  (forall a, prints (body a) (f a)) -> prints (for_each l body) (concat (f <$> l)).
Proof.
  intros Hb. induction l as [|a l IH]; [intros out; apply wp_ret; by rewrite app_nil_r|].
  by apply prints_seq.
Qed.
End prints.

(** A line for each element. *)
Lemma prints_lines {A} path file (l : list A) (f : A -> string) :
  prints path file (for_each l (fun a => println (f a))) ((fun a => f a +:+ newline) <$> l).
Proof.
  intros out. eapply wp_mono; [|apply (prints_each _ _ _ _ (fun a => [f a +:+ newline]))].
  - intros ? ? ->. f_equal. clear. by induction l; simpl; f_equal.
  - intros a. apply prints_println.
Qed.

(** ** The lines of a difference *)

Section diff.
Context `{RangeOrder}.

Definition device_lines (verb : string) (e : string * list string) : list string :=
  (fun dev => device_line verb dev e.1 +:+ newline) <$> e.2.

Definition item_lines (site : Z) (verb what prep : string) (e : string * gomap (list string)) : list string :=
  concat ((fun d : string * list string =>
    (fun item => item_line verb (what +:+ " " +:+ item) prep d.1 e.1 +:+ newline) <$> d.2) <$> gm_range (site + 5) e.2).

Lemma prints_devices path file site m verb :
  prints path file (print_devices site m verb) (concat (device_lines verb <$> gm_range site m)).
Proof. apply prints_each. intros [ns devs]. apply prints_lines. Qed.

Lemma prints_items path file site m verb what prep :
  prints path file (print_items site m verb what prep) (concat (item_lines site verb what prep <$> gm_range site m)).
Proof. apply prints_each. intros [ns devItems]. apply prints_each. intros [dev items]. apply prints_lines. Qed.

(** What diff says of a difference, line by line. *)
Inductive announced (d : Diff) : string -> Prop :=
| announced_ns_removed ns : ns ∈ Diff_NsToRemove d -> announced d ("  - Remove namespace: " +:+ ns)
| announced_ns_added ns : ns ∈ Diff_NsToAdd d -> announced d ("  + Add namespace: " +:+ ns)
| announced_device_removed ns dev : dev ∈ listed (Diff_DevicesToRemove d) ns ->
    announced d (device_line "- Remove" dev ns)
| announced_device_added ns dev : dev ∈ listed (Diff_DevicesToAdd d) ns -> announced d (device_line "+ Add" dev ns)
| announced_address_removed ns dev a : a ∈ listed2 (Diff_AddressesToRemove d) ns dev ->
    announced d (item_line "- Remove" ("address " +:+ a) "from" dev ns)
| announced_address_added ns dev a : a ∈ listed2 (Diff_AddressesToAdd d) ns dev ->
    announced d (item_line "+ Add" ("address " +:+ a) "to" dev ns)
| announced_route_removed ns dev r : r ∈ listed2 (Diff_RoutesToRemove d) ns dev ->
    announced d (item_line "- Remove" ("route " +:+ r) "from" dev ns)
| announced_route_added ns dev r : r ∈ listed2 (Diff_RoutesToAdd d) ns dev ->
    announced d (item_line "+ Add" ("route " +:+ r) "to" dev ns).

Lemma elem_of_device_lines site m verb t :
  t ∈ concat (device_lines verb <$> gm_range site m) <->
  exists ns dev, dev ∈ listed m ns /\ t = device_line verb dev ns +:+ newline.
Proof.
  rewrite elem_of_concat_fmap. split.
  - intros ([ns devs] & Hin%elem_of_range & (dev & -> & Hdev)%list_elem_of_fmap).
    exists ns, dev. split; [|done]. unfold listed, gm_get. by rewrite Hin.
  - intros (ns & dev & Hdev & ->). unfold listed in Hdev.
    destruct (gm_get m ns) as [devs|] eqn:Hg; [|by apply not_elem_of_nil in Hdev].
    exists (ns, devs). split; [by apply elem_of_range|]. by apply list_elem_of_fmap; exists dev.
Qed.

Lemma elem_of_item_lines site m verb what prep t :
  t ∈ concat (item_lines site verb what prep <$> gm_range site m) <->
  exists ns dev item, item ∈ listed2 m ns dev /\ t = item_line verb (what +:+ " " +:+ item) prep dev ns +:+ newline.
Proof.
  rewrite elem_of_concat_fmap. unfold item_lines, listed2, nested_get. setoid_rewrite elem_of_concat_fmap. split.
  - intros ([ns devs] & Hin%elem_of_range & [dev items] & Hdev%elem_of_range & (item & -> & Hitem)%list_elem_of_fmap).
    exists ns, dev, item. split; [|done]. simpl in Hdev. unfold gm_get. by rewrite Hin, Hdev.
  - intros (ns & dev & item & Hitem & ->).
    destruct (gm_get m ns) as [devs|] eqn:Hg; [|by apply not_elem_of_nil in Hitem].
    destruct (gm_get devs dev) as [items|] eqn:Hg'; [|by apply not_elem_of_nil in Hitem].
    exists (ns, devs). split; [by apply elem_of_range|]. exists (dev, items). split; [by apply elem_of_range|].
    by apply list_elem_of_fmap; exists item.
Qed.

(** *** All that diff prints *)

Lemma prints_changes path file d :
  exists l, prints path file (print_changes d) l /\
    forall t, t ∈ l <-> t = "The following changes would be applied:" +:+ newline \/ t = newline \/
      exists line, announced d line /\ t = line +:+ newline.
Proof.
  eexists. split.
  { unfold print_changes. repeat (apply prints_seq; [first [apply prints_println|apply prints_lines|
      apply prints_devices|apply prints_items]|]). apply prints_items. }
  intros t. rewrite !elem_of_app, !elem_of_device_lines, !elem_of_item_lines, !list_elem_of_fmap, !list_elem_of_singleton.
  split.
  - intros Ht. repeat destruct Ht as [Ht|Ht]; try by (left + (right; left)).
    all: right; right; naive_solver eauto using announced.
  - intros [->|[->|(line & Hl & ->)]]; [tauto..|]. destruct Hl; naive_solver.
Qed.

(** The two states agree for diff: in their namespaces, in their devices, but for
    those that netcfg did not create, and in the addresses and routes of these.
    Their SIDs and neighbour proxies are not compared. *)
Definition agree (oldState newState : State) : Prop :=
  (forall ns, is_Some (gm_get (State_Namespaces oldState) ns) <-> is_Some (gm_get (State_Namespaces newState) ns)) /\
  (forall ns dev, is_Some (dev_at newState ns dev) -> is_Some (dev_at oldState ns dev)) /\
  (forall ns dev o, dev_at oldState ns dev = Some (Some o) -> dev_at newState ns dev = None ->
     DeviceState_CreatedBy o <> "netcfg") /\
  (forall ns dev o n, dev_at oldState ns dev = Some (Some o) -> dev_at newState ns dev = Some (Some n) ->
     (forall a, a ∈ DeviceState_Addresses o <-> a ∈ DeviceState_Addresses n) /\
     (forall r, r ∈ DeviceState_Routes o <-> r ∈ DeviceState_Routes n)).

(** A removal that diff has announced. *)
Definition announced_perm `{Libs} (d : Diff) X (e : sys X) (w : World) : Prop :=
  match e with
  | NewHandle | NewHandleAt _ | HandleClose _ | NsGetFromName _ | NsClose _ | LinkByName (Some _) _ => True
  | AddrDel h l a => exists ns cidr, handle_at w h ns /\ ParseAddr cidr = Ok a /\
      announced d (item_line "- Remove" ("address " +:+ cidr) "from" (Link_Name l) ns)
  | RouteDel h r => exists ns dev route, handle_at w h ns /\ route_request route r /\
      announced d (item_line "- Remove" ("route " +:+ route) "from" dev ns)
  | LinkDel h l => exists ns, handle_at w h ns /\ announced d (device_line "- Remove" (Link_Name l) ns)
  | NsDeleteNamed ns => announced d ("  - Remove namespace: " +:+ ns)
  | _ => False
  end.

Lemma removal_announced `{Libs} d X (e : sys X) w : removal_perm d X e w -> announced_perm d X e w.
Proof.
  destruct e; try done; try (destruct h; done); simpl.
  - intros [Hl _]. by apply announced_ns_removed.
  - intros (ns & Hh & Hl). exists ns. split; [done|]. by apply announced_device_removed.
  - intros (ns & cidr & Hh & Hl & Hp). exists ns, cidr. split_and!; [done..|]. by apply announced_address_removed.
  - intros (ns & dev & route & Hh & Hl & Hp). exists ns, dev, route. split_and!; [done..|]. by apply announced_route_removed.
Qed.
End diff.


#[local] Existing Instances Examples.libs range_map_to_list.

(** With no state of an earlier run. *)
Definition no_file : res string := Err (ESys "no such file" 2).
Definition no_state : res State := Err (ESys "no such file" 2).

Lemma new_state_ok : state_ok NewState.
Proof. split; [by intros ns; simpl|]. by intros ns dev. Qed.


(** ** What diff does not announce

    Two states that differ in their SIDs alone agree for diff, but apply deletes
    the SID that is gone. *)
Definition with_sids (sids : list string) : State :=
  MkState 1 0 "" (Some {[ "" := Some (MkNsState (Some ∅) sids) ]}).

Lemma diff_misses_sids :
  agree (with_sids ["fc00::1"]) (with_sids []) /\
  srv6_orphans (ns_of (with_sids ["fc00::1"]) "") (ns_of (with_sids []) "") = ["fc00::1"].
Proof.
  assert (forall sids ns, gm_get (State_Namespaces (with_sids sids)) ns =
    if decide ("" = ns) then Some (Some (MkNsState (Some ∅) sids)) else None) as Hns
    by (intros sids ns; apply gm_get_singleton).
  assert (forall sids ns dev, dev_at (with_sids sids) ns dev = None) as Hdev
    by (intros sids ns dev; unfold dev_at; rewrite Hns; case_decide; [|done]; unfold gm_get; simpl; by rewrite lookup_empty).
  split; [|vm_compute; reflexivity]. split_and!.
  - intros ns. rewrite !Hns. by case_decide.
  - intros ns dev. by rewrite !Hdev.
  - intros ns dev o. by rewrite Hdev.
  - intros ns dev o n. by rewrite Hdev.
Qed.

(** ** Looking changes nothing

    The commands that print only read and print, and give back the handles that
    they open. *)
Definition looks X (e : tty X) : Prop :=
  match e with
  | Print _ | Scanln | WgGetDevice _ _ | WgListDevices _ | WgGeneratePrivateKey | WgGenerateKey => True
  | Sys e =>
      match e with
      | NewHandle | NewHandleAt _ | HandleClose _ | NsGetFromName _ | NsClose _ | LinkByName _ _ | LinkList _
      | AddrList _ _ _ | RouteList _ _ | ReadDir _ | ReadFile _ | WgNew | WgClose _ => True
      | _ => False
      end
  | _ => False
  end.

Lemma all_calls_of_sys (P : forall X, tty X -> Prop) {A} (p : prog sys A) :
  all_calls (fun X e => P X (Sys e)) p -> all_calls P (of_sys p).
Proof. induction p as [r| |X e k IH]; simpl; [done..|]. intros [He Hk]. split; [done|]. intros x. by apply IH. Qed.

Ltac looks_tac := unfold println; repeat (calls_tac || (apply all_calls_of_sys; calls_tac)); try exact I.

Section looks.
Context `{ConsoleLibs} `{RangeOrder} (is_not_exist : error -> bool).

Lemma looks_showNamespace ns args : all_calls looks (showNamespace ns args).
Proof.
  unfold showNamespace, status_line, deferred, New, NewWithNetns, ListLinks, ListAddresses, link_by_name, Close. looks_tac.
Qed.

Lemma looks_showLinkDetails m link : all_calls looks (showLinkDetails m link).
Proof. unfold showLinkDetails, ListAddresses, ListRoutes, link_by_name. looks_tac. Qed.

Lemma looks_showWireGuardDevice client name : all_calls looks (showWireGuardDevice client name).
Proof. unfold showWireGuardDevice, GetDevice. looks_tac. Qed.
#[local] Hint Resolve looks_showNamespace looks_showLinkDetails looks_showWireGuardDevice : calls.

Lemma looking_changes_nothing unmarshal `{Libs} errorText cfg configDir args :
  all_calls looks (runDiff is_not_exist unmarshal cfg) /\
  all_calls looks (runGenerate cfg configDir) /\
  all_calls looks (showAllNamespaces is_not_exist errorText args) /\
  all_calls looks (runShow args) /\
  all_calls looks (runNetnsList is_not_exist) /\
  all_calls looks wgGenkey /\ all_calls looks wgPubkey /\ all_calls looks wgGenpsk /\ all_calls looks (wgShow args).
Proof.
  split_and!; unfold runDiff, print_changes, print_devices, print_items, state_load, runGenerate, showAllNamespaces,
    runShow, runNetnsList, ListNetns, wgGenkey, wgPubkey, wgGenpsk, GenerateKeyPair, GeneratePresharedKey, wgShow,
    show_devices, ListDevices, NewWireGuardManager, ListLinks, New, Close, link_by_name, deferred; looks_tac.
Qed.
End looks.
